(* ===== verification/_CoqProject ===== *)
-Q . S2P
Prelude.v
Metrics.v
Json.v
JsonRpc.v
SseData.v
LegacySse.v
EventIndexer.v
EventBuffer.v
SseServer.v
EventStream.v
NodeErrors.v
NodeClient.v
NodeClientTasks.v
CachingClient.v
BTreeMap.v
Casper.v
CasperSample.v
RpcErrors.v
NodeRequests.v
RpcTraits.v
NodeSample.v
RpcCommon.v
RpcAccount.v
RpcChain.v
RpcInfo.v
RpcState.v
RpcAuction.v
RpcMethods.v
RpcServer.v
RpcOverWire.v
HttpService.v
ConnectionTasks.v
ConnectionManager.v
Listener.v
Sql.v
Storage.v
Reader.v
Migrations.v
EventHandling.v
Columns.v
RestServer.v
EndToEnd.v
SidecarConfig.v
AdminServer.v
Sidecar.v
Processors.v
Pipeline.v
Readback.v
Restart.v
Publication.v
Freshness.v
