(* ===== verification/Prelude.v ===== *)
(** * Verification of casper-sidecar

    The sidecar stands between Casper nodes and their clients.  It listens to the
    event streams of one or more nodes, stores the events, and serves them again on
    an event stream of its own; and it answers JSON-RPC requests by asking a node
    over its binary port.  Paths below are relative to [src/].

    ** The parts and where they are modelled

    Events, from the nodes to the clients:
    - [SseData]: the events and what they carry ([types/src/sse_data.rs]);
    - [ConnectionTasks]: the tasks that connect to the endpoints of a node and agree
      on whether all of them succeeded ([listener/src/connection_tasks.rs]), as a
      transition system with one atomic operation per step;
    - [ConnectionManager]: connecting with retries, the handshake, handing events on
      and reporting their identifiers ([listener/src/connection_manager.rs],
      [sse_connector.rs], [connections_builder.rs]);
    - [Listener]: metadata of the node, the loop over connection attempts, the
      keep-alive monitor ([listener/src/lib.rs], [version_fetcher.rs],
      [keep_alive_monitor.rs]);
    - [Sql]: the tables, their keys and the insert statements
      ([event_sidecar/src/sql/tables/]) over an engine that checks them;
    - [Columns]: the types of the columns on the two engines and what is kept in them;
    - [Storage]: the [save_*] transactions and the conversion of database errors
      ([event_sidecar/src/database/writer_generator.rs], [types/database.rs]);
    - [Reader]: the select statements and the readers
      ([event_sidecar/src/database/reader_generator.rs], [sql/tables/]), and how a
      database represents the list of the events that were saved;
    - [Migrations]: the migration manager and the migrations
      ([event_sidecar/src/database/migration_manager.rs]);
    - [EventHandling]: the services that save and pass on events, the newest API
      version, and the event loop ([event_sidecar/src/event_handling_service/],
      [api_version_manager.rs], [lib.rs]);
    - [EventIndexer]: event identifiers and their cache file
      ([event_sidecar/src/event_stream_server/event_indexer.rs]);
    - [EventBuffer]: buffering and replay to new subscribers ([http_server.rs]);
    - [SseServer]: endpoints, queries, limits and the stream of one client
      ([sse_server.rs], [endpoint.rs]);
    - [EventStream]: the server task, the handler and a client as a transition system
      ([event_stream_server.rs] and the two above together);
    - [LegacySse]: the translation of events for 1.x clients
      ([types/src/legacy_sse_data/]);
    - [RestServer]: the routes, handlers, rejections and metrics of the REST server
      ([event_sidecar/src/rest_server/]);
    - [EndToEnd]: the event loop, the store and the REST server together;
    - [Processors]: the processors of all nodes as concurrent tasks, with their queues,
      the mutex of the newest version, the database and the outbound channel they share,
      interleaved at every [await] ([event_sidecar/src/lib.rs],
      [event_handling_service/]);
    - [Pipeline]: the nodes with their lost connections, the listeners and the
      processors, up to the queue of the event stream server;
    - [Publication]: [Pipeline] and [EventStream] as one system, up to what a client reads;
    - [Readback]: [Pipeline], the store and the REST server together;
    - [Restart]: the processors over several lives of the process, on one database;
    - [Freshness]: [Processors] and the block cache of [CachingClient], joined by the bus.

    Requests, from the clients to a node:
    - [Json], [JsonRpc]: JSON values, and the JSON-RPC library from the HTTP request
      to the response ([json_rpc/src/]);
    - [NodeErrors]: error codes of the node and the errors they become
      ([rpc_sidecar/src/node_client.rs], first half);
    - [NodeClient]: request identifiers, framing, validation of responses,
      reconnection ([rpc_sidecar/src/node_client.rs], second half, and [lib.rs]);
    - [NodeClientTasks]: the start of the client and the tasks beside it, which
      reconnect and keep the connection alive (the same file);
    - [CachingClient]: the cache of the latest block
      ([rpc_sidecar/src/caching_node_client.rs]);
    - [BTreeMap], [Casper]: ordered maps, and what the methods use of the types of the
      node, as classes; [CasperSample] has an instance for the examples;
    - [RpcErrors]: the errors of the methods and their codes
      ([rpc_sidecar/src/rpcs/error.rs], [error_code.rs]);
    - [NodeRequests]: the typed requests of the node client, in a monad of programs
      that ask the node and continue with its answer; [run] executes a program with a
      client, [eval] with a fixed table of answers ([rpc_sidecar/src/node_client.rs]);
      [NodeSample] has a node for the examples;
    - [RpcTraits]: the three kinds of methods and their parameters
      ([rpc_sidecar/src/rpcs.rs]);
    - [RpcCommon], [RpcAccount], [RpcChain], [RpcInfo], [RpcState], [RpcAuction]: the
      handlers ([rpc_sidecar/src/rpcs/]), and [RpcMethods] what they do together;
    - [RpcServer]: the two servers with all their methods, the OpenRPC schema, the
      configuration and the tasks ([rpc_sidecar/src/http_server.rs],
      [speculative_exec_server.rs], [rpcs/docs.rs], [config.rs], [lib.rs]);
    - [RpcOverWire]: the servers and their methods over the framed connection of
      [NodeClient];
    - [HttpService]: the HTTP services of the servers, from the request to the reply: the
      limit on all requests, compression, and the routes with and without cross-origin
      requests ([rpc_sidecar/src/rpcs.rs], [json_rpc/src/lib.rs]).

    The process:
    - [Metrics]: the metrics, their registration and the summary ([metrics/src/]);
    - [AdminServer]: the server of the summary ([event_sidecar/src/admin_server.rs]);
    - [SidecarConfig]: the sections of the configuration, the environment, what is
      accepted ([sidecar/src/config.rs], [event_sidecar/src/types/config.rs],
      [database/env_vars.rs]);
    - [Sidecar]: the components and the database they share, their start
      ([sidecar/src/component.rs], [run.rs], [main.rs], [event_sidecar/src/lib.rs]).

    This file holds what they share: Rust's [Result] and its notation, the integer
    operations at their widths, and lemmas on lists.

    ** How code is translated

    Structures are records, enumerations inductive types, [Result] is [result], a
    panic is [None] where a function can panic.  Fixed-width integers are [Z] with
    their wrap-around or saturation written out.  A [HashMap] is a [gmap].  Channels
    record what was sent and may stop accepting; the broadcast channel of the event
    stream is bounded by [slots], of any size, and a receiver that falls further behind
    is told so ([recv]), at which its response ends.  Concurrent tasks are transition
    relations whose steps are the atomic operations of the code, and theorems about
    them hold in every interleaving.  Code of other crates is a class or a section
    variable: the node ([Peer]), its wire format ([BinaryPort] with [BinaryPortLaws]),
    serde ([Serialize], [EventJson] with [EventJsonLaws]), the buffer of the event
    stream ([WheelBuf]), generated identifiers of rows ([AutoIncrement]), the types of
    the node ([CasperTypes], [AuctionTypes]) and how their payloads are encoded
    ([PortPayloads] with [PortPayloadLaws]), the registry of the metrics ([Prometheus]),
    the ranges of columns ([ColumnRanges]), HTTP requests and filters ([Warp]),
    the surroundings of the process ([Surroundings], [Host]).  A serialisation behind
    [expect] counts as total.

    ** What is proved

    - Clients of the event stream: in every interleaving in which a client subscribes
      before it is registered its stream is an unbroken part of the history, free of
      duplicates, that ends where it has got to or fell behind the broadcast channel
      ([client_stream_complete]); in the other order it can miss events
      ([client_stream_gap]); replay is exact across the wrap-around of identifiers
      ([replay_exact]), and identifiers continue across a restart
      ([restart_continues]).
    - From nodes to the stream: an identifier that was reported stands for events
      handed on, with the exception of an event whose text cannot be read
      ([delivery_at_least_once]); of all nodes' events each entity is passed
      on exactly once, whatever the database does ([entities_forwarded_once],
      [event_handling_refines]) and published under one identifier
      ([entities_numbered]); migrations run once ([migrate_idempotent]); over several lives
      of the process no entity is sent twice, but one that was saved and not yet sent when
      the process ended is never sent ([restarts_publish_once]); what is written is in the
      ranges of its columns ([saved_values_fit]).
    - Concurrency: every interleaving of the processors is the handling of the same
      events one after the other, in the order of their saves
      ([interleavings_linearise]), sends each entity once
      ([interleavings_forward_once]) and comes to an end without a deadlock
      ([processors_finish]).  On SQLite the last shutdown is the last message
      ([shutdown_sent_last]); otherwise it can overtake queued events
      ([shutdown_overtakes_queue]), and on no endpoint does a client see it
      ([sidecar_shutdown_unseen]).
    - From nodes to a client: across lost connections and all interleavings of listeners,
      processors and event stream server, what was announced is published once
      ([announced_entities_published]) and read once, in order, by a client that
      subscribed in time and keeps up ([announced_entities_streamed]).  The listener is
      assumed to read the greeting of a node and to take no event for another one; an event
      it cannot read is not handed on, and no theorem promises it to a client.  How the event stream server
      starts is shown by [event_server_starts].
    - Connections: the tasks decide within [9n] operations and agree
      ([connections_decide], [connections_agree]); attempts are bounded
      ([listener_budget], [connect_attempts]); stale connections are cancelled
      ([monitor_cancels_stale]).
    - Requests to the node: a returned response belongs to its request
      ([send_request_sound], [response_selection], [session_answered]), a lost
      connection is made again and then serves ([client_recovers]), errors keep
      their meaning ([from_error_code_faithful]), and the cached block is never behind
      what was announced ([cache_never_behind]), nor behind the events of the nodes that
      were handled ([cached_block_fresh]).
    - JSON-RPC: what is accepted, refused and answered, branch by branch
      ([Request_new_accepts], [Request_new_refuses], [route_status],
      [handle_body_echoes_id], [register_handler_dispatch]).
    - The RPC methods: answers are typed ([responses_typed]), a missing block is
      reported with the range the node has ([missing_block_reported]), the old and new
      methods agree ([deploy_methods_agree], [state_methods_agree],
      [era_methods_agree], [auction_versions_agree]), what the answers hold
      ([entity_contents], [auction_bids_presented], [validator_changes_presented]),
      parameters are checked first ([params_checked]), errors keep their code and text
      ([rpc_error_object]), and the cache changes no answer ([caching_transparent]).
    - The RPC servers: each method is served by its handler behind its limit
      ([main_server_dispatch]), a request asks the node at most six times and only
      reads unless it submits, and what it asks is sent at most twice
      ([main_server_requests]), the schema is built from the types and describes the
      methods of the server ([documentation_matches_server]), and over a connection to a node that
      answers both servers answer as their methods evaluate with its responses, with or
      without the cache ([rpc_over_wire]), which holds of the replies to all HTTP
      requests, whatever is configured ([rpc_over_http]).
    - The REST server: what each route answers ([rest_lookup], [rest_transactions],
      [rest_answer_kinds]) and what is measured ([metrics_balanced]); together with
      the store and the event loop, that what was passed on can be read back, and
      nothing else ([forwarded_events_readable], over [represents_save] and
      [represents_reads]), also across lost connections and at any moment of any
      interleaving of the processors ([announced_entities_readable]).
    - The process: which database is used ([postgres_config_resolution],
      [persistence_not_disabled]) and that an accepted configuration starts what it
      enables ([sidecar_starts]); metrics are created and registered without a panic and
      count every call ([metrics_count]), and what the admin server answers ([admin_answers]).
    - Legacy clients: which events are on which of the three endpoints, and in what
      form ([legacy_streams_split], over [translation_total] and the theorems after it).

    ** Bounds

    Loops that end by themselves are structural.  Connecting to a node has fuel,
    which is enough from [max 1 max_attempts] on ([connect_with_retries_spec] proves
    the result for all fuel above); reading responses stops after one hundred, as the
    code does.  Runs of the processors are lists of steps of any length;
    [processors_finish] bounds them by the number of events.

    ** What is not modelled

    Logs, the texts of the OpenAPI document, the schemas and examples of types in the
    OpenRPC document (which are arguments), reading the configuration file, the tasks of
    the feature [additional-metrics] (its two metrics are modelled) and test support are
    left out.  The OpenAPI document is made by [utoipa] and [schemars] from
    derived schemas; [SchemaTransformationVisitor] rewrites values of those crates and is
    called by nothing but its tests.  What the CORS layer of
    [warp] decides of a request is an argument.
    In [EventHandling] one event is handled in one step, which [Processors] splits at its
    awaits.  [FramedNodeClient] has a field the code does not have, [messages_sent], which
    nothing reads: the theorems count messages with it.  In [Sql] the engine
    serialises transactions, returns rows in the order of their insertion and does not
    check the ranges of columns, in which [Columns] shows the values to be.  Paths of
    HTTP requests are given as the segments [warp] matches. *)

From stdpp Require Export base gmap strings list list_numbers pretty sorting relations.
From Stdlib Require Export ZArith Lia.

(** A lemma of a section depends on the variables its statement mentions. *)
#[export] Set Default Proof Using "Type".

(** ** Scope and notations *)

Declare Scope sidecar_scope.
Delimit Scope sidecar_scope with sidecar.
Global Open Scope string_scope.
Global Open Scope list_scope.
Global Open Scope Z_scope.
Global Open Scope sidecar_scope.

(** ** Rust's [Result]

    [result E A] is [Result<A, E>]; the error comes first so that [result E] is
    a functor and the [?] operator is the bind of a monad. *)
Inductive result (E A : Type) : Type :=
| Ok (a : A)
| Err (e : E).

Arguments Ok {E A} a.
Arguments Err {E A} e.

#[export] Instance result_eq_dec `{EqDecision E, EqDecision A} : EqDecision (result E A).
Proof. solve_decision. Defined.

#[export] Instance result_ret E : MRet (result E) := fun A a => Ok a.
#[export] Instance result_bind E : MBind (result E) := fun A B f r =>
  match r with Ok a => f a | Err e => Err e end.
#[export] Instance result_fmap E : FMap (result E) := fun A B f r =>
  match r with Ok a => Ok (f a) | Err e => Err e end.

(** [let? x := e in k] is Rust's [let x = e?; k]. *)
Notation "'let?' x ':=' e 'in' k" :=
  (mbind (M := result _) (fun x => k) e)
    (at level 10, x binder, e at level 200, k at level 200,
     format "'let?'  x  ':='  e  'in'  '//' k") : sidecar_scope.

Definition map_err {E F A} (f : E -> F) (r : result E A) : result F A :=
  match r with Ok a => Ok a | Err e => Err (f e) end.

Definition result_ok {E A} (r : result E A) : option A :=
  match r with Ok a => Some a | Err _ => None end.

Definition ok_or {E A} (o : option A) (e : E) : result E A :=
  match o with Some a => Ok a | None => Err e end.

Definition is_ok {E A} (r : result E A) : bool :=
  match r with Ok _ => true | Err _ => false end.

Definition is_err {E A} (r : result E A) : bool := negb (is_ok r).

(** ** Machine integers

    An unsigned [w]-bit integer is a [Z] in [0, 2^w); the operations that can
    leave the range are written with the wrap-around of the source. *)
Definition U8_MAX : Z := 255.
Definition U16_MAX : Z := 65535.
Definition U32_MAX : Z := 4294967295.
Definition U64_MAX : Z := 18446744073709551615.

Definition wrap_u16 (z : Z) : Z := z mod 65536.
Definition wrap_u32 (z : Z) : Z := z mod 4294967296.
Definition wrap_u64 (z : Z) : Z := z mod 18446744073709551616.

Definition is_u16 (z : Z) : Prop := 0 <= z <= U16_MAX.
Definition is_u32 (z : Z) : Prop := 0 <= z <= U32_MAX.
Definition is_u64 (z : Z) : Prop := 0 <= z <= U64_MAX.

Definition u32_wrapping_add (a b : Z) : Z := wrap_u32 (a + b).

(** ** Tactics *)

(** Case analysis on the first [match] of the goal, or of a hypothesis. *)
Ltac break_match :=
  match goal with
  | |- context [match ?e with _ => _ end] =>
      first [ is_var e; destruct e | let H := fresh "Eq" in destruct e eqn:H ]
  end.

Ltac break_match_in H :=
  match type of H with
  | context [match ?e with _ => _ end] =>
      first [ is_var e; destruct e | let H' := fresh "Eq" in destruct e eqn:H' ]
  end.

(** Unfold the monadic notation of [result]. *)
Ltac simp_result := unfold mbind, mret, fmap, result_bind, result_ret, result_fmap in *; simpl in *.

(** First-order goals whose leaves need congruence closure. *)
Ltac naive_cong := naive_solver ltac:(first [congruence | eauto]).

(** Arithmetic goals about the machine-integer ranges. *)
Ltac unfold_words :=
  unfold u32_wrapping_add, wrap_u16, wrap_u32, wrap_u64, is_u16, is_u32, is_u64,
    U8_MAX, U16_MAX, U32_MAX, U64_MAX in *.

Ltac word_lia := unfold_words; Z.to_euclidean_division_equations; lia.

(** ** Hint databases *)

Create HintDb sidecar.
Create HintDb words.

(** ** Generic lemmas *)

Section Words.

Lemma wrap_u32_small (z : Z) : is_u32 z -> wrap_u32 z = z.
Proof. intros H. unfold_words. rewrite Z.mod_small; lia. Qed.

Lemma wrap_u32_range (z : Z) : is_u32 (wrap_u32 z).
Proof. word_lia. Qed.

Lemma wrap_u32_idemp (a b : Z) : wrap_u32 (wrap_u32 a + b) = wrap_u32 (a + b).
Proof. unfold_words. apply Zplus_mod_idemp_l. Qed.

Lemma wrap_u16_range (z : Z) : is_u16 (wrap_u16 z).
Proof. word_lia. Qed.

End Words.

#[export] Hint Resolve wrap_u32_range wrap_u16_range : words.

Section Lists.
Context {A B : Type}.

(** [Iterator::skip_while]. *)
Fixpoint skip_while (p : A -> bool) (l : list A) : list A :=
  match l with
  | [] => []
  | x :: l' => if p x then skip_while p l' else l
  end.

(** A prefix on which the predicate holds is skipped exactly. *)
Lemma skip_while_app (p : A -> bool) (l1 : list A) (x : A) (l2 : list A) :
  Forall (fun y => p y = true) l1 -> p x = false ->
  skip_while p (l1 ++ x :: l2) = x :: l2.
Proof.
  intros Hall Hx. induction Hall as [|y l1 Hy _ IH]; simpl.
  - by rewrite Hx.
  - by rewrite Hy.
Qed.

Lemma skip_while_all (p : A -> bool) (l : list A) :
  Forall (fun y => p y = true) l -> skip_while p l = [].
Proof. induction 1 as [|y l Hy _ IH]; simpl; [done|]. by rewrite Hy. Qed.

Lemma skip_while_none (p : A -> bool) (l : list A) :
  Forall (fun y => p y = false) l -> skip_while p l = l.
Proof. destruct 1 as [|y l Hy _]; simpl; [done|]. by rewrite Hy. Qed.

Lemma skip_while_length (p : A -> bool) (l : list A) : (length (skip_while p l) <= length l)%nat.
Proof. induction l as [|y l IH]; simpl; [done|]. destruct (p y); simpl; lia. Qed.

(** The last [n] elements of a list. *)
Definition last_n (n : nat) (l : list A) : list A := drop (length l - n) l.

Lemma length_last_n (n : nat) (l : list A) : length (last_n n l) = (n `min` length l)%nat.
Proof. unfold last_n. rewrite length_drop. lia. Qed.

Lemma last_n_suffix (n : nat) (l : list A) : exists l', l = l' ++ last_n n l.
Proof. exists (take (length l - n) l). unfold last_n. by rewrite take_drop. Qed.

Lemma last_n_app (n : nat) (l : list A) (x : A) :
  (0 < n)%nat -> last_n n (l ++ [x]) = last_n (n - 1) l ++ [x].
Proof.
  intros Hn. unfold last_n. rewrite length_app. simpl.
  rewrite drop_app_le by lia. do 2 f_equal. lia.
Qed.

Lemma filter_all (P : A -> Prop) `{!forall x, Decision (P x)} (l : list A) : Forall P l -> filter P l = l.
Proof. induction 1 as [|x l Hx _ IH]; [done|]. rewrite filter_cons, decide_True by done. by rewrite IH. Qed.

Lemma filter_none (P : A -> Prop) `{!forall x, Decision (P x)} (l : list A) :
  Forall (fun x => ~ P x) l -> filter P l = [].
Proof. induction 1 as [|x l Hx _ IH]; [done|]. by rewrite filter_cons, decide_False by done. Qed.

(** A suffix, cut where a prefix ends. *)
Lemma drop_split (l : list A) (m n : nat) :
  (n <= length l)%nat -> drop m l = drop m (take n l) ++ drop (m `max` n) l.
Proof.
  intros Hn. destruct (le_lt_dec m n) as [Hmn|Hmn].
  - rewrite (Nat.max_r m n) by done. rewrite <- (take_drop n l) at 1.
    rewrite drop_app_le; [done|]. rewrite length_take. lia.
  - rewrite (Nat.max_l m n) by lia. rewrite (drop_ge (take n l)); [done|]. rewrite length_take. lia.
Qed.

(** The sum of the weights of the elements of a list. *)
Definition weight (f : A -> nat) (l : list A) : nat := sum_list (f <$> l).

Lemma weight_insert (f : A -> nat) (l : list A) (i : nat) (x y : A) :
  l !! i = Some y -> (weight f (<[i := x]> l) + f y = weight f l + f x)%nat.
Proof.
  unfold weight. revert i. induction l as [|z l IH]; intros [|i] Hi; simplify_eq/=; [lia|].
  specialize (IH _ Hi). lia.
Qed.

Lemma weight_app (f : A -> nat) (l1 l2 : list A) : weight f (l1 ++ l2) = (weight f l1 + weight f l2)%nat.
Proof. unfold weight. induction l1 as [|x l1 IH]; csimpl; lia. Qed.

Lemma weight_replicate (f : A -> nat) (n : nat) (x : A) : weight f (replicate n x) = (n * f x)%nat.
Proof. unfold weight. induction n as [|n IH]; csimpl; lia. Qed.

Lemma weight_elem (f : A -> nat) (l : list A) (i : nat) (y : A) :
  l !! i = Some y -> (f y <= weight f l)%nat.
Proof.
  unfold weight. revert i. induction l as [|z l IH]; intros [|i] Hi; simplify_eq/=; [lia|].
  specialize (IH _ Hi). lia.
Qed.

(** Weights of at most one: every element weighs one if they all do. *)
Lemma weight_le (f : A -> nat) (l : list A) :
  (forall x, f x <= 1)%nat -> (weight f l <= length l)%nat.
Proof. intros Hf. unfold weight. induction l as [|y l IH]; csimpl; [lia|]. specialize (Hf y). lia. Qed.

Lemma weight_all (f : A -> nat) (l : list A) :
  Forall (fun x => f x = 1%nat) l -> (length l <= weight f l)%nat.
Proof. unfold weight. induction 1 as [|x l Hx _ IH]; csimpl; lia. Qed.

Lemma weight_full (f : A -> nat) (l : list A) :
  (forall x, f x <= 1)%nat -> (length l <= weight f l)%nat -> Forall (fun x => f x = 1%nat) l.
Proof.
  intros Hf. induction l as [|z l IH]; intros Hl; [by constructor|].
  pose proof (weight_le f l Hf). unfold weight in *. csimpl in *. specialize (Hf z).
  constructor; [lia|]. apply IH. lia.
Qed.

(** A partial map that is defined on every element, by its position. *)
Lemma omap_imap (g : A -> option B) (h : nat -> B) (l : list A) :
  (forall j x, l !! j = Some x -> g x = Some (h j)) -> omap g l = imap (fun j _ => h j) l.
Proof.
  revert h. induction l as [|x l IH]; intros h Hg; [done|].
  unfold omap in *. simpl. rewrite (Hg O x eq_refl). f_equal. apply (IH (fun j => h (S j))).
  intros j y Hj. by apply (Hg (S j)).
Qed.

End Lists.

(** [Itertools::join]. *)
Definition string_join (sep : string) (l : list string) : string :=
  match l with
  | [] => EmptyString
  | s :: l' => foldl (fun acc t => acc +:+ sep +:+ t) s l'
  end.

(** ** Unsigned integers in text *)

(** [FromStr] of an unsigned integer: an optional plus sign and at least one
    decimal digit, with a value that is at most [max]. *)
Definition digit_of (c : Ascii.ascii) : option Z :=
  let n := Z.of_N (Ascii.N_of_ascii c) in
  if decide (48 <= n <= 57) then Some (n - 48) else None.

Fixpoint parse_digits (max : Z) (s : string) (acc : Z) : option Z :=
  match s with
  | EmptyString => Some acc
  | String c s =>
      d ← digit_of c;
      let acc := acc * 10 + d in
      if decide (max < acc) then None else parse_digits max s acc
  end.

Definition parse_unsigned (max : Z) (s : string) : option Z :=
  match s with
  | EmptyString => None
  | String c rest =>
      if decide (c = Ascii.ascii_of_nat 43) then
        match rest with EmptyString => None | _ => parse_digits max rest 0 end
      else parse_digits max s 0
  end.

Lemma digit_of_pretty (x : N) : (x < 10)%N -> digit_of (pretty_N_char x) = Some (Z.of_N x).
Proof. intros Hx. destruct x as [|p]; [done|]. do 4 (destruct p as [p|p|]; try done; try lia). Qed.

Section Unsigned.
Context (max : Z).

Lemma parse_digits_pretty (x : N) (s : string) :
  Z.of_N x <= max -> parse_digits max (pretty_N_go x s) 0 = parse_digits max s (Z.of_N x).
Proof.
  revert s. induction (N.lt_wf_0 x) as [x _ IH]; intros s Hx.
  destruct (decide (x = 0%N)) as [->|Hne]; [done|].
  rewrite pretty_N_go_step by lia.
  assert (x / 10 < x)%N by (apply N.div_lt; lia).
  rewrite IH by lia. cbn [parse_digits].
  rewrite digit_of_pretty by (apply N.mod_lt; lia). simpl.
  assert (Z.of_N (x / 10)%N * 10 + Z.of_N (x mod 10)%N = Z.of_N x) as ->
    by (pose proof (N.div_mod x 10 ltac:(lia)); lia).
  by rewrite decide_False by lia.
Qed.

Lemma parse_unsigned_digits (s : string) (x : Z) :
  s <> EmptyString -> parse_digits max s 0 = Some x -> parse_unsigned max s = Some x.
Proof. destruct s as [|c s]; [done|]. intros _ Hp. simpl. case_decide; [by subst|done]. Qed.

Lemma pretty_N_go_nonempty (x : N) (c : Ascii.ascii) (s : string) : pretty_N_go x (String c s) <> EmptyString.
Proof.
  revert c s. induction (N.lt_wf_0 x) as [x _ IH]; intros c s.
  destruct (decide (x = 0%N)) as [->|Hne]; [done|].
  rewrite pretty_N_go_step by lia. apply IH. apply N.div_lt; lia.
Qed.

(** A number reads back from its decimal text. *)
Lemma parse_unsigned_pretty (i : Z) : 0 <= i <= max -> parse_unsigned max (pretty i) = Some i.
Proof.
  intros Hi. destruct i as [|p|p]; [|apply parse_unsigned_digits|lia].
  - change (pretty 0) with "0". unfold parse_unsigned, parse_digits. simpl. by rewrite decide_False by lia.
  - unfold pretty, pretty_Z, pretty_positive, pretty, pretty_N. simpl.
    rewrite pretty_N_go_step by lia. apply pretty_N_go_nonempty.
  - unfold pretty, pretty_Z, pretty_positive, pretty, pretty_N. simpl.
    rewrite parse_digits_pretty by lia. done.
Qed.

Lemma parse_digits_range (s : string) (acc i : Z) :
  0 <= acc <= max -> parse_digits max s acc = Some i -> 0 <= i <= max.
Proof.
  revert acc. induction s as [|c s IH]; intros acc Hacc; simpl; [naive_solver|].
  unfold digit_of. case_decide; simpl; [|done]. case_decide; [done|]. apply IH. lia.
Qed.

Lemma parse_unsigned_range (s : string) (i : Z) :
  0 <= max -> parse_unsigned max s = Some i -> 0 <= i <= max.
Proof.
  intros Hm. destruct s as [|c s]; unfold parse_unsigned; [done|].
  case_decide; [destruct s; [done|]|]; apply parse_digits_range; lia.
Qed.

(** A number has few digits. *)
Lemma pretty_N_go_length (k : nat) (x : N) (s : string) :
  (x < 10 ^ N.of_nat k)%N -> (String.length (pretty_N_go x s) <= k + String.length s)%nat.
Proof.
  revert x s. induction k as [|k IH]; intros x s Hx.
  - assert (x = 0%N) as -> by (simpl in Hx; lia). done.
  - destruct (decide (x = 0%N)) as [->|]; [rewrite pretty_N_go_0; lia|]. rewrite pretty_N_go_step by lia.
    etransitivity; [apply IH|simpl; lia]. apply N.Div0.div_lt_upper_bound.
    rewrite Nat2N.inj_succ, N.pow_succ_r in Hx by lia. lia.
Qed.

Lemma pretty_length (i : Z) : is_u64 i -> (String.length (pretty i) <= 20)%nat.
Proof.
  unfold is_u64, U64_MAX. intros Hi. destruct i as [|p|p]; [simpl; lia| |lia].
  unfold pretty, pretty_Z, pretty_positive, pretty, pretty_N. simpl.
  etransitivity; [apply (pretty_N_go_length 20)|simpl; lia]. change (10 ^ N.of_nat 20)%N with 100000000000000000000%N. lia.
Qed.

End Unsigned.
