(* ===== verification/Metrics.v ===== *)
(** * Metrics ([metrics/src/])

    The statics of the crate, which register with the registry when they are first used,
    the functions that update them, and the summary.  The [prometheus] crate is an
    interface: a collector is created from a name, a help text, labels and buckets that
    follow its rules, and registered under a name that is not taken.  The
    updates of a series are kept as a list; sizes are in bytes and times in nanoseconds,
    before their conversion to floating point.  A panic is [None]. *)

From S2P Require Import Prelude.

(** ** The registry *)

(** The kinds of collectors, a histogram with the bounds of its buckets. *)
Inductive Kind :=
| Counter
| Gauge
| Histogram (buckets : list Z).

(** What a collector is created from. *)
Record Metric := mkMetric {
  metric_name : string;
  metric_help : string;
  metric_labels : list string;
  metric_kind : Kind;
}.

(** The rules of the crate for these: a name consists of letters, digits and underscores,
    that of a metric also of colons, and does not start with a digit; the help text is not
    empty; labels are distinct; a histogram has no label [le], and its buckets
    increase. *)
Definition letter (c : Ascii.ascii) : bool :=
  let n := Ascii.nat_of_ascii c in
  ((65 <=? n) && (n <=? 90) || (97 <=? n) && (n <=? 122) || (n =? 95))%nat.

Definition digit (c : Ascii.ascii) : bool := let n := Ascii.nat_of_ascii c in ((48 <=? n) && (n <=? 57))%nat.

Definition colon (c : Ascii.ascii) : bool := (Ascii.nat_of_ascii c =? 58)%nat.

Definition valid_metric_name (name : string) : bool :=
  match String.list_ascii_of_string name with
  | c :: l => (letter c || colon c) && forallb (fun c => letter c || colon c || digit c) l
  | [] => false
  end.

Definition valid_label_name (name : string) : bool :=
  match String.list_ascii_of_string name with
  | c :: l => letter c && forallb (fun c => letter c || digit c) l
  | [] => false
  end.

Fixpoint increasing (l : list Z) : bool :=
  match l with
  | a :: (b :: _) as rest => (a <? b) && increasing rest
  | _ => true
  end.

Definition valid_metric (m : Metric) : bool :=
  negb (bool_decide (metric_help m = EmptyString)) && valid_metric_name (metric_name m) &&
  forallb valid_label_name (metric_labels m) && bool_decide (NoDup (metric_labels m)) &&
  match metric_kind m with
  | Histogram buckets => negb (bool_decide ("le" ∈ metric_labels m)) && increasing buckets
  | Counter | Gauge => true
  end.

(** [prometheus]: creating a collector fails for one that breaks a rule, registering it
    for a name that is taken. *)
Class Prometheus := {
  Collector : Type;
  collector_name : Collector -> string;
  collector_new : Metric -> option Collector;
  collector_valid m : valid_metric m = true ->
    exists c, collector_new m = Some c /\ collector_name c = metric_name m;
  Registry : Type;
  names : Registry -> list string;
  Registry_new : Registry;
  register : Registry -> Collector -> option Registry;
  names_new : names Registry_new = [];
  register_fresh r c : collector_name c ∉ names r ->
    exists r', register r c = Some r' /\ names r' = collector_name c :: names r;
}.

(** ** The statics *)

Inductive Static : Set :=
| ERROR_COUNTS
| FETCHED_RAW_DATA_SIZE
| DB_OPERATION_TIMES
| EVENTS_PROCESSED_PER_SECOND
| CONNECTED_CLIENTS
| REST_RESPONSE_TIMES_MS
| ENDPOINT_CALLS
| TIMEOUT_COUNTERS
| RPC_RESPONSE_TIMES_MS
| RECONNECT_TIMES_MS
| MISMATCHED_IDS
| DISCONNECT_EVENTS
| ENDPOINT_REQUEST_BYTES
| NODE_STATUSES
| RECEIVED_BYTES
| NUMBER_OF_RECEIVED_CONTRACT_MESSAGES.

#[export] Instance Static_eq_dec : EqDecision Static.
Proof. solve_decision. Defined.

Definition static_number (s : Static) : nat :=
  match s with
  | ERROR_COUNTS => 0 | FETCHED_RAW_DATA_SIZE => 1 | DB_OPERATION_TIMES => 2 | EVENTS_PROCESSED_PER_SECOND => 3
  | CONNECTED_CLIENTS => 4 | REST_RESPONSE_TIMES_MS => 5 | ENDPOINT_CALLS => 6 | TIMEOUT_COUNTERS => 7
  | RPC_RESPONSE_TIMES_MS => 8 | RECONNECT_TIMES_MS => 9 | MISMATCHED_IDS => 10 | DISCONNECT_EVENTS => 11
  | ENDPOINT_REQUEST_BYTES => 12 | NODE_STATUSES => 13 | RECEIVED_BYTES => 14
  | NUMBER_OF_RECEIVED_CONTRACT_MESSAGES => 15
  end.

Definition statics : list Static :=
  [ERROR_COUNTS; FETCHED_RAW_DATA_SIZE; DB_OPERATION_TIMES; EVENTS_PROCESSED_PER_SECOND; CONNECTED_CLIENTS;
   REST_RESPONSE_TIMES_MS; ENDPOINT_CALLS; TIMEOUT_COUNTERS; RPC_RESPONSE_TIMES_MS; RECONNECT_TIMES_MS;
   MISMATCHED_IDS; DISCONNECT_EVENTS; ENDPOINT_REQUEST_BYTES; NODE_STATUSES; RECEIVED_BYTES;
   NUMBER_OF_RECEIVED_CONTRACT_MESSAGES].

#[export] Instance Static_countable : Countable Static.
Proof.
  apply (inj_countable static_number (fun n => statics !! n)). by intros [].
Defined.

(** [metrics/src/rpc.rs:6-8], [RESPONSE_SIZE_BUCKETS], as in the other files. *)
Definition SIZE_BUCKETS : list Z := [500; 1000; 2000; 5000; 50000; 500000; 5000000; 50000000].

(** [metrics/src/db.rs:38-40], [DB_OPERATION_BUCKETS]. *)
Definition DB_OPERATION_BUCKETS : list Z :=
  [300000; 3000000; 10000000; 20000000; 50000000; 100000000; 500000000; 1000000000].

(** [metrics/src/rest_api.rs:7-9], [RESPONSE_TIME_MS_BUCKETS]. *)
Definition REST_RESPONSE_TIME_MS_BUCKETS : list Z := [1; 5; 10; 30; 50; 100; 200; 300].

(** [metrics/src/rpc.rs:10-12], [RESPONSE_TIME_MS_BUCKETS]. *)
Definition RPC_RESPONSE_TIME_MS_BUCKETS : list Z := [1; 5; 10; 30; 50; 100; 300; 1000; 3000].

Definition in_quotes (word : string) : string :=
  String (Ascii.ascii_of_nat 34) (word +:+ String (Ascii.ascii_of_nat 34) EmptyString).

(** [metrics/src/db.rs:13-71], [FETCHED_RAW_DATA_SIZE] and the others of the file. *)
Definition db_metric (s : Static) : option Metric :=
  match s with
  | FETCHED_RAW_DATA_SIZE =>
      Some (mkMetric "db_raw_data_size" "Size (in bytes) of raw data fetched from the database." ["message_type"]
              (Histogram SIZE_BUCKETS))
  | DB_OPERATION_TIMES =>
      Some (mkMetric "db_operation_times" "Times (in nanoseconds) it took to perform a database operation." ["filter"]
              (Histogram DB_OPERATION_BUCKETS))
  | EVENTS_PROCESSED_PER_SECOND =>
      Some (mkMetric "events_processed"
              ("Events processed by sidecar. Split by " +:+ in_quotes "module" +:+ " which should be either " +:+
               in_quotes "inbound" +:+ " or " +:+ in_quotes "outbound" +:+ ". " +:+ in_quotes "Inbound" +:+
               " means the number of events per second which were read from node endpoints and persisted in DB. " +:+
               in_quotes "Outbound" +:+ " means number of events pushed to clients.") ["module"] Gauge)
  | _ => None
  end.

(** [metrics/src/rest_api.rs:11-36], [CONNECTED_CLIENTS] and [RESPONSE_TIMES_MS]. *)
Definition rest_api_metric (s : Static) : option Metric :=
  match s with
  | CONNECTED_CLIENTS => Some (mkMetric "rest_api_connected_clients" "Connected Clients" [] Gauge)
  | REST_RESPONSE_TIMES_MS =>
      Some (mkMetric "rest_api_response_times" "Time it takes the service to produce a response in milliseconds"
              ["label"; "status"] (Histogram REST_RESPONSE_TIME_MS_BUCKETS))
  | _ => None
  end.

(** [metrics/src/rpc.rs:14-110], [ENDPOINT_CALLS] and the others of the file. *)
Definition rpc_metric (s : Static) : option Metric :=
  match s with
  | ENDPOINT_CALLS => Some (mkMetric "rpc_server_endpoint_calls" "Endpoint calls" ["endpoint_name"] Counter)
  | TIMEOUT_COUNTERS =>
      Some (mkMetric "rpc_server_timeout_counts" "Counters for how many of the requests failed due to internal timeout"
              ["timer"] Counter)
  | RPC_RESPONSE_TIMES_MS =>
      Some (mkMetric "rpc_server_endpoint_response_times"
              "Time it takes the service to produce a response in milliseconds" ["method"; "status"]
              (Histogram RPC_RESPONSE_TIME_MS_BUCKETS))
  | RECONNECT_TIMES_MS =>
      Some (mkMetric "rpc_server_reconnect_time"
              "Time it takes the service to reconnect to node binary port in milliseconds" []
              (Histogram RPC_RESPONSE_TIME_MS_BUCKETS))
  | MISMATCHED_IDS =>
      Some (mkMetric "rpc_server_mismatched_ids" "Number of mismatched ID events observed in responses from binary port"
              [] Gauge)
  | DISCONNECT_EVENTS =>
      Some (mkMetric "rpc_server_disconnects" "Number of TCP disconnects between sidecar and nodes binary port" [] Gauge)
  | ENDPOINT_REQUEST_BYTES =>
      Some (mkMetric "rpc_server_request_sizes" "Endpoint request sizes" ["endpoint"] (Histogram SIZE_BUCKETS))
  | _ => None
  end.

(** [metrics/src/sse.rs:11-54], [NODE_STATUSES] and the others of the file. *)
Definition sse_metric (s : Static) : option Metric :=
  match s with
  | NODE_STATUSES =>
      Some (mkMetric "node_statuses" "Current status of node to which sidecar is connected. Numbers mean: 0 - preparing; 1 - connecting; 2 - connected; 3 - reconnecting; -1 - connections_exhausted -> used up all connection attempts ; -2 - incompatible -> node is in an incompatible version"
              ["node"] Gauge)
  | RECEIVED_BYTES =>
      Some (mkMetric "sse_server_received_bytes" "Received bytes from SSE inbound per message type" ["message_type"]
              (Histogram SIZE_BUCKETS))
  | NUMBER_OF_RECEIVED_CONTRACT_MESSAGES =>
      Some (mkMetric "sse_server_received_contract_messages" "Number of messages received in TransactionProcessed events."
              ["label"] Gauge)
  | _ => None
  end.

(** [metrics/src/metrics.rs:10-20], [ERROR_COUNTS], and the metrics of the other files. *)
Definition metric_of (s : Static) : Metric :=
  match db_metric s, rest_api_metric s, rpc_metric s, sse_metric s with
  | Some m, _, _, _ | None, Some m, _, _ | None, None, Some m, _ | None, None, None, Some m => m
  | None, None, None, None => mkMetric "error_counts" "Error counts" ["category"; "description"] Counter
  end.

(** ** Updates *)

Inductive Update : Set :=
| Inc
| Dec
| Add (n : Z)
| Set_to (n : Z)
| Set_to_rate (n nanoseconds : Z)
| Observe (n : Z).

Section Metrics.
Context `{Prometheus}.

(** The registry, the statics that are initialised, and the updates of each series. *)
Record Metrics := mkMetrics {
  REGISTRY : Registry;
  initialised : list Static;
  series : gmap (Static * list string) (list Update);
}.

Definition Metrics_new : Metrics := mkMetrics Registry_new [] ∅.

(** The first use of a [LazyLock] creates the collector and registers it; [expect] and
    [unwrap] panic if either fails. *)
Definition force (s : Static) (st : Metrics) : option Metrics :=
  if decide (s ∈ initialised st) then Some st
  else
    c ← collector_new (metric_of s);
    r ← register (REGISTRY st) c;
    Some (mkMetrics r (s :: initialised st) (series st)).

(** [with_label_values], which panics on a wrong number of labels, and the update. *)
Definition update (s : Static) (labels : list string) (u : Update) (st : Metrics) : option Metrics :=
  st ← force s st;
  if decide (length labels = length (metric_labels (metric_of s)))
  then Some (mkMetrics (REGISTRY st) (initialised st)
    (<[(s, labels) := default [] (series st !! (s, labels)) ++ [u]]> (series st)))
  else None.

(** [metrics/src/metrics.rs:22-26], [observe_error]. *)
Definition observe_error (category description : string) : Metrics -> option Metrics :=
  update ERROR_COUNTS [category; description] Inc.

(** [metrics/src/db.rs:31-35], [observe_raw_data_size]. *)
Definition observe_raw_data_size (message_type : string) (bytes : Z) : Metrics -> option Metrics :=
  update FETCHED_RAW_DATA_SIZE [message_type] (Observe bytes).

(** [metrics/src/rest_api.rs:38-40], [inc_connected_clients]. *)
Definition inc_connected_clients : Metrics -> option Metrics := update CONNECTED_CLIENTS [] Inc.

(** [metrics/src/rest_api.rs:42-44], [dec_connected_clients]. *)
Definition dec_connected_clients : Metrics -> option Metrics := update CONNECTED_CLIENTS [] Dec.

(** [metrics/src/rest_api.rs:46-51], [observe_response_time]. *)
Definition rest_observe_response_time (label status : string) (response_time : Z) : Metrics -> option Metrics :=
  update REST_RESPONSE_TIMES_MS [label; status] (Observe response_time).

(** [metrics/src/rpc.rs:112-114], [inc_method_call]. *)
Definition inc_method_call (method : string) : Metrics -> option Metrics := update ENDPOINT_CALLS [method] Inc.

(** [metrics/src/rpc.rs:116-121], [observe_response_time]. *)
Definition rpc_observe_response_time (method status : string) (response_time : Z) : Metrics -> option Metrics :=
  update RPC_RESPONSE_TIMES_MS [method; status] (Observe response_time).

(** [metrics/src/rpc.rs:123-126], [observe_reconnect_time]. *)
Definition observe_reconnect_time (response_time : Z) : Metrics -> option Metrics :=
  update RECONNECT_TIMES_MS [] (Observe response_time).

(** [metrics/src/rpc.rs:128-130], [inc_disconnect]. *)
Definition inc_disconnect : Metrics -> option Metrics := update DISCONNECT_EVENTS [] Inc.

(** [metrics/src/rpc.rs:132-136], [register_request_size]. *)
Definition register_request_size (method : string) (payload_size : Z) : Metrics -> option Metrics :=
  update ENDPOINT_REQUEST_BYTES [method] (Observe payload_size).

(** [metrics/src/rpc.rs:138-140], [register_timeout]. *)
Definition register_timeout (timer_name : string) : Metrics -> option Metrics :=
  update TIMEOUT_COUNTERS [timer_name] Inc.

(** [metrics/src/rpc.rs:142-144], [register_mismatched_id]. *)
Definition register_mismatched_id : Metrics -> option Metrics := update MISMATCHED_IDS [] Inc.

(** [metrics/src/sse.rs:56-60], [observe_contract_messages]. *)
Definition observe_contract_messages (label : string) (number_of_messages : Z) : Metrics -> option Metrics :=
  update NUMBER_OF_RECEIVED_CONTRACT_MESSAGES [label] (Add number_of_messages).

(** [metrics/src/sse.rs:62-66], [register_sse_message_size]. *)
Definition register_sse_message_size (sse_message_type : string) (payload_size : Z) : Metrics -> option Metrics :=
  update RECEIVED_BYTES [sse_message_type] (Observe payload_size).

(** [metrics/src/sse.rs:68-70], [store_node_status]. *)
Definition store_node_status (node_label : string) (status : Z) : Metrics -> option Metrics :=
  update NODE_STATUSES [node_label] (Set_to status).

(** [event_sidecar/src/database/writer_generator.rs:469-475], [observe_db_operation_time], with the
    feature [additional-metrics]. *)
Definition observe_db_operation_time (operation_name : string) (elapsed : Z) : Metrics -> option Metrics :=
  update DB_OPERATION_TIMES [operation_name] (Observe elapsed).

(** [event_sidecar/src/utils.rs:137-141], the update of [start_metrics_thread], with the same
    feature. *)
Definition set_events_per_second (module_name : string) (number_of_observed_events elapsed : Z)
    : Metrics -> option Metrics :=
  update EVENTS_PROCESSED_PER_SECOND [module_name] (Set_to_rate number_of_observed_events elapsed).

(** ** Calls *)

Inductive Call : Set :=
| ObserveError (category description : string)
| ObserveRawDataSize (message_type : string) (bytes : Z)
| IncConnectedClients
| DecConnectedClients
| RestResponseTime (label status : string) (response_time : Z)
| IncMethodCall (method : string)
| RpcResponseTime (method status : string) (response_time : Z)
| ReconnectTime (response_time : Z)
| IncDisconnect
| RequestSize (method : string) (payload_size : Z)
| Timeout (timer_name : string)
| MismatchedId
| ContractMessages (label : string) (number_of_messages : Z)
| SseMessageSize (sse_message_type : string) (payload_size : Z)
| NodeStatus (node_label : string) (status : Z)
| DbOperationTime (operation_name : string) (elapsed : Z)
| EventsPerSecond (module_name : string) (number_of_observed_events elapsed : Z).

Definition perform (c : Call) : Metrics -> option Metrics :=
  match c with
  | ObserveError category description => observe_error category description
  | ObserveRawDataSize message_type bytes => observe_raw_data_size message_type bytes
  | IncConnectedClients => inc_connected_clients
  | DecConnectedClients => dec_connected_clients
  | RestResponseTime label status t => rest_observe_response_time label status t
  | IncMethodCall method => inc_method_call method
  | RpcResponseTime method status t => rpc_observe_response_time method status t
  | ReconnectTime t => observe_reconnect_time t
  | IncDisconnect => inc_disconnect
  | RequestSize method size => register_request_size method size
  | Timeout timer => register_timeout timer
  | MismatchedId => register_mismatched_id
  | ContractMessages label n => observe_contract_messages label n
  | SseMessageSize ty size => register_sse_message_size ty size
  | NodeStatus node status => store_node_status node status
  | DbOperationTime operation t => observe_db_operation_time operation t
  | EventsPerSecond module n t => set_events_per_second module n t
  end.

Fixpoint perform_all (l : list Call) (st : Metrics) : option Metrics :=
  match l with
  | [] => Some st
  | c :: l => st ← perform c st; perform_all l st
  end.

(** What a call does to which series. *)
Definition effect (c : Call) : Static * list string * Update :=
  match c with
  | ObserveError category description => (ERROR_COUNTS, [category; description], Inc)
  | ObserveRawDataSize message_type bytes => (FETCHED_RAW_DATA_SIZE, [message_type], Observe bytes)
  | IncConnectedClients => (CONNECTED_CLIENTS, [], Inc)
  | DecConnectedClients => (CONNECTED_CLIENTS, [], Dec)
  | RestResponseTime label status t => (REST_RESPONSE_TIMES_MS, [label; status], Observe t)
  | IncMethodCall method => (ENDPOINT_CALLS, [method], Inc)
  | RpcResponseTime method status t => (RPC_RESPONSE_TIMES_MS, [method; status], Observe t)
  | ReconnectTime t => (RECONNECT_TIMES_MS, [], Observe t)
  | IncDisconnect => (DISCONNECT_EVENTS, [], Inc)
  | RequestSize method size => (ENDPOINT_REQUEST_BYTES, [method], Observe size)
  | Timeout timer => (TIMEOUT_COUNTERS, [timer], Inc)
  | MismatchedId => (MISMATCHED_IDS, [], Inc)
  | ContractMessages label n => (NUMBER_OF_RECEIVED_CONTRACT_MESSAGES, [label], Add n)
  | SseMessageSize ty size => (RECEIVED_BYTES, [ty], Observe size)
  | NodeStatus node status => (NODE_STATUSES, [node], Set_to status)
  | DbOperationTime operation t => (DB_OPERATION_TIMES, [operation], Observe t)
  | EventsPerSecond module n t => (EVENTS_PROCESSED_PER_SECOND, [module], Set_to_rate n t)
  end.

(** The names are distinct, so a static that is not initialised has a free one. *)
Lemma metric_names_distinct (s s' : Static) : metric_name (metric_of s) = metric_name (metric_of s') -> s = s'.
Proof. by destruct s, s'. Qed.

(** Every static follows the rules for collectors. *)
Lemma metrics_valid (s : Static) : valid_metric (metric_of s) = true.
Proof. by destruct s; vm_compute. Qed.

(** The registry has the names of the statics that are initialised, each once. *)
Definition registered (st : Metrics) : Prop :=
  NoDup (initialised st) /\ names (REGISTRY st) = (fun s => metric_name (metric_of s)) <$> initialised st.

Lemma force_total (s : Static) (st : Metrics) :
  registered st -> exists st', force s st = Some st' /\ registered st' /\ series st' = series st /\
    forall s', s' ∈ initialised st' <-> s' = s \/ s' ∈ initialised st.
Proof.
  unfold force, registered. intros [Hnd Hr]. case_decide as Hs.
  { exists st. split_and!; [done..|]. intros s'. split; [by right|]. by intros [->|]. }
  destruct (collector_valid _ (metrics_valid s)) as (c & -> & Hc). cbn [mbind option_bind].
  destruct (register_fresh (REGISTRY st) c) as (r & -> & Hn).
  - rewrite Hr, Hc. intros (s' & Heq%metric_names_distinct & Hin)%list_elem_of_fmap. by subst s'.
  - eexists. split; [done|]. cbn [REGISTRY initialised series]. rewrite Hn, Hc, Hr.
    split_and!; [by constructor|done..|]. intros s'. apply elem_of_cons.
Qed.

Lemma update_total (s : Static) (labels : list string) (u : Update) (st : Metrics) :
  registered st -> length labels = length (metric_labels (metric_of s)) ->
  exists st', update s labels u st = Some st' /\ registered st' /\
    series st' = <[(s, labels) := default [] (series st !! (s, labels)) ++ [u]]> (series st) /\
    forall s', s' ∈ initialised st' <-> s' = s \/ s' ∈ initialised st.
Proof.
  intros Hr Hl. unfold update. destruct (force_total s st Hr) as (st1 & -> & Hr1 & Hs1 & Hi1). simpl.
  rewrite decide_True by done. eexists. split; [done|]. simpl. by rewrite Hs1.
Qed.

(** The updates that calls make to a series. *)
Definition updates_of (key : Static * list string) (l : list Call) : list Update :=
  omap (fun c => if decide ((effect c).1 = key) then Some (effect c).2 else None) l.

Lemma perform_all_total (l : list Call) (st : Metrics) :
  registered st -> exists st', perform_all l st = Some st' /\ registered st' /\
    (forall key, default [] (series st' !! key) = default [] (series st !! key) ++ updates_of key l) /\
    forall s, s ∈ initialised st' <-> s ∈ initialised st \/ exists c, c ∈ l /\ (effect c).1.1 = s.
Proof.
  revert st. induction l as [|c l IH]; intros st Hr; simpl.
  { exists st. split_and!; [done..| |].
    - intros key. by rewrite app_nil_r.
    - intros s. split; [by left|]. by intros [?|(c & ?%elem_of_nil & _)]. }
  destruct (update_total (effect c).1.1 (effect c).1.2 (effect c).2 st Hr) as (st1 & Hu & Hr1 & Hs1 & Hi1); [by destruct c|].
  replace (perform c st) with (Some st1) by by destruct c. simpl.
  destruct (IH st1 Hr1) as (st' & Hst & Hr' & Hk & Hi). exists st'. split_and!; [done..| |].
  - intros key. rewrite Hk, Hs1.
    destruct (effect c) as [[s ls] u] eqn:He. simpl. destruct (decide ((s, ls) = key)) as [<-|Hne].
    + rewrite lookup_insert_eq. simpl. by rewrite <- app_assoc.
    + by rewrite lookup_insert_ne by done.
  - intros s. rewrite Hi, Hi1. setoid_rewrite elem_of_cons. naive_solver.
Qed.

(** C39. Metrics never panic and count every call: whatever sequence of calls is made, every
    collector is created, as its name, help text, labels and buckets follow the rules of
    the crate, registered, as its name is its own, and given labels that fit.  The
    statics that calls have used, and no others, are initialised, each once, and the
    registry has exactly their names; and each series holds the updates of its calls,
    in their order. *)
Theorem metrics_count (l : list Call) :
  exists st, perform_all l Metrics_new = Some st /\
    (forall key, default [] (series st !! key) = updates_of key l) /\
    (forall s, s ∈ initialised st <-> exists c, c ∈ l /\ (effect c).1.1 = s) /\
    NoDup (initialised st) /\ names (REGISTRY st) = (fun s => metric_name (metric_of s)) <$> initialised st.
Proof.
  destruct (perform_all_total l Metrics_new) as (st & Hst & [Hnd Hn] & Hk & Hi); [split; [constructor|apply names_new]|].
  exists st. split_and!; [done..| |done|done]. intros s. rewrite Hi. split; [intros [?%elem_of_nil|]; done|by right].
Qed.

End Metrics.

(** ** A registry *)

Module SampleRegistry.

(** The collectors in the order of their registration. *)
Definition create (m : Metric) : option Metric := if valid_metric m then Some m else None.

Definition add (r : list Metric) (m : Metric) : option (list Metric) :=
  if decide (metric_name m ∈ (metric_name <$> r : list string)) then None else Some (m :: r).

#[export] Instance registry : Prometheus := {|
  Collector := Metric;
  collector_name := metric_name;
  collector_new := create;
  collector_valid := ltac:(intros m Hm; unfold create; rewrite Hm; by eexists);
  Registry := list Metric;
  names r := List.map metric_name r;
  Registry_new := [];
  register := add;
  names_new := eq_refl;
  register_fresh := ltac:(intros r m Hm; unfold add; rewrite decide_False by exact Hm; by eexists);
|}.

(** Buckets out of order, or a name with a dash, are refused. *)
Lemma create_refuses :
  create (mkMetric "sizes" "Sizes" [] (Histogram [1000; 500])) = None /\
  create (mkMetric "rpc-calls" "Calls" ["method"] Counter) = None.
Proof. by vm_compute. Qed.

Lemma metrics_count_witness :
  exists st, perform_all [IncConnectedClients; IncMethodCall "info_get_peers"; DecConnectedClients] Metrics_new = Some st /\
    default [] (series st !! (CONNECTED_CLIENTS, [])) = [Inc; Dec] /\
    names (REGISTRY st) = ["rpc_server_endpoint_calls"; "rest_api_connected_clients"].
Proof.
  destruct (metrics_count [IncConnectedClients; IncMethodCall "info_get_peers"; DecConnectedClients])
    as (st & Hst & Hk & _ & _ & Hn).
  exists st. split; [exact Hst|]. split; [exact (Hk (CONNECTED_CLIENTS, []))|].
  assert (initialised <$> Some st = Some [ENDPOINT_CALLS; CONNECTED_CLIENTS]) as Hi
    by (rewrite <- Hst; vm_compute; reflexivity).
  injection Hi as Hi. rewrite Hn, Hi. reflexivity.
Defined.

End SampleRegistry.

(** ** The summary *)

(** A byte that continues a sequence of UTF-8, and the second of those that start
    with certain bytes. *)
Definition between (lo hi b : Z) : bool := (lo <=? b) && (b <=? hi).
Definition continuation : Z -> bool := between 128 191.

Definition second_byte (first : Z) : Z -> bool :=
  if first =? 224 then between 160 191
  else if first =? 237 then between 128 159
  else if first =? 240 then between 144 191
  else if first =? 244 then between 128 143
  else continuation.

(** [core::str::from_utf8]: the bytes are sequences of UTF-8. *)
Fixpoint utf8_valid (l : list Z) : bool :=
  match l with
  | [] => true
  | b :: l =>
      if between 0 127 b then utf8_valid l
      else
        match l with
        | b2 :: l =>
            if between 194 223 b then continuation b2 && utf8_valid l
            else
              match l with
              | b3 :: l =>
                  if between 224 239 b then second_byte b b2 && continuation b3 && utf8_valid l
                  else
                    match l with
                    | b4 :: l =>
                        between 240 244 b && second_byte b b2 && continuation b3 && continuation b4 && utf8_valid l
                    | [] => false
                    end
              | [] => false
              end
        | [] => false
        end
  end.

Definition string_of_bytes (l : list Z) : string :=
  foldr (fun b s => String (Ascii.ascii_of_N (Z.to_N b)) s) EmptyString l.

(** [String::from_utf8]; [describe] is the text of its error. *)
Definition from_utf8 (describe : list Z -> string) (l : list Z) : result string string :=
  if utf8_valid l then Ok (string_of_bytes l) else Err (describe l).

(** [metrics/src/metrics.rs:44-80], [metrics_summary]: the encodings of the two registries
    are the arguments; an error is the text of a [MetricCollectionError]. *)
Definition metrics_summary (describe : list Z -> string) (custom default_registry : result string (list Z))
    : result string string :=
  let error reason := "MetricCollectionError: " +:+ reason in
  let? buffer := map_err (fun e => error ("could not encode custom metrics: " +:+ e)) custom in
  let? res := map_err (fun e => error ("custom metrics have a non-utf8 character: " +:+ e)) (from_utf8 describe buffer) in
  let? buffer :=
    map_err (fun e => error ("error when encoding default prometheus metrics: " +:+ e)) default_registry in
  let? res_custom :=
    map_err (fun e => error ("default and custom metrics have a non-utf8 character: " +:+ e)) (from_utf8 describe buffer) in
  Ok (res +:+ res_custom).

(** The summary is the two encodings one after the other, if both are texts. *)
Lemma metrics_summary_ok (describe : list Z -> string) (custom default_registry : result string (list Z)) (text : string) :
  metrics_summary describe custom default_registry = Ok text <->
  exists c d, custom = Ok c /\ default_registry = Ok d /\ utf8_valid c = true /\ utf8_valid d = true /\
    text = string_of_bytes c +:+ string_of_bytes d.
Proof.
  unfold metrics_summary, from_utf8. split.
  - destruct custom as [c|e]; simpl; [|done]. destruct (utf8_valid c) eqn:Hc; simpl; [|done].
    destruct default_registry as [d|e]; simpl; [|done]. destruct (utf8_valid d) eqn:Hd; simpl; [|done].
    intros [= <-]. by exists c, d.
  - intros (c & d & -> & -> & Hc & Hd & ->). simpl. rewrite Hc. simpl. by rewrite Hd.
Qed.

(** Texts of ASCII characters are UTF-8. *)
Lemma utf8_ascii (l : list Z) : Forall (fun b => 0 <= b <= 127) l -> utf8_valid l = true.
Proof.
  induction 1 as [|b l Hb _ IH]; [done|]. simpl. unfold between.
  rewrite (proj2 (Z.leb_le 0 b)), (proj2 (Z.leb_le b 127)) by lia. done.
Qed.
