(* ===== verification/Json.v ===== *)
(** * JSON values

    The data model of [serde_json] as the sidecar uses it: [Value], objects as
    entry lists in their iteration order, and the [Serialize] trait as the
    function [to_value].  The removal of an entry is an interface: with the
    [preserve_order] feature the crate moves the last entry into the gap, and
    no theorem depends on where the remaining entries end up. *)

From S2P Require Import Prelude.
From Stdlib Require Import SpecFloat.

(** A JSON number: an integer kept as such, or a double. *)
Inductive Number :=
| PosInt (n : Z)
| NegInt (n : Z)
| Float (f : spec_float).

Inductive Value :=
| VNull
| VBool (b : bool)
| VNumber (n : Number)
| VString (s : string)
| VArray (l : list Value)
| VObject (o : list (string * Value)).

Abbreviation Object := (list (string * Value)).

Definition is_f64 (n : Number) : bool :=
  match n with Float _ => true | _ => false end.

Definition keys (o : Object) : list string := o.*1.

(** [Map::get]. *)
Fixpoint map_get (k : string) (o : Object) : option Value :=
  match o with
  | [] => None
  | (k', v) :: o' => if decide (k = k') then Some v else map_get k o'
  end.

(** An object never holds a key twice. *)
Definition object_wf (o : Object) : Prop := NoDup (keys o).

Lemma map_get_is_Some (k : string) (o : Object) : is_Some (map_get k o) <-> k ∈ keys o.
Proof.
  induction o as [|[k' v] o IH]; simpl.
  - split; [by intros [? ?]|by intros ?%not_elem_of_nil].
  - rewrite elem_of_cons. case_decide; [naive_solver|]. rewrite IH. naive_solver.
Qed.

Lemma map_get_None (k : string) (o : Object) : map_get k o = None <-> k ∉ keys o.
Proof. rewrite <- map_get_is_Some. by rewrite eq_None_not_Some. Qed.

(** What [Map::remove] promises about the entries that stay. *)
Class JsonMap := {
  map_remove : string -> Object -> Object;
  map_remove_wf : forall k o, object_wf o -> object_wf (map_remove k o);
  map_remove_get : forall k k' o, object_wf o ->
    map_get k' (map_remove k o) = if decide (k = k') then None else map_get k' o;
}.

Section JsonMapLemmas.
Context `{JM : JsonMap}.

Lemma map_remove_get_ne (k k' : string) (o : Object) :
  object_wf o -> k <> k' -> map_get k' (map_remove k o) = map_get k' o.
Proof. intros. rewrite map_remove_get by done. by rewrite decide_False. Qed.

Lemma map_remove_keys (k k' : string) (o : Object) :
  object_wf o -> k' ∈ keys (map_remove k o) <-> k' ∈ keys o /\ k' <> k.
Proof.
  intros. rewrite <- !map_get_is_Some, map_remove_get by done.
  case_decide; [subst; split; [intros [? ?]; done|naive_solver]|naive_solver].
Qed.
End JsonMapLemmas.

(** ** [swap_remove]: the implementation behind [preserve_order] *)

Definition swap_remove (k : string) (o : Object) : Object :=
  match list_find (fun e => e.1 = k) o with
  | None => o
  | Some (i, _) =>
      match last o with
      | None => o
      | Some e => take (length o - 1) (<[i := e]> o)
      end
  end.

(** With unique keys, looking a key up is membership of the entry. *)
Lemma map_get_elem_of (k : string) (v : Value) (o : Object) :
  object_wf o -> map_get k o = Some v <-> (k, v) ∈ o.
Proof.
  unfold object_wf. induction o as [|[k' v'] o IH]; simpl; intros Hwf.
  - split; [done|by intros ?%not_elem_of_nil].
  - apply NoDup_cons in Hwf as [Hk Hwf]. rewrite elem_of_cons.
    case_decide; subst; [|rewrite IH by done; naive_solver].
    split; [naive_solver|]. intros [?|Hin]; [naive_solver|].
    destruct Hk. apply list_elem_of_fmap. by exists (k', v).
Qed.

Lemma map_get_Permutation (o1 o2 : Object) (k : string) :
  object_wf o1 -> o1 ≡ₚ o2 -> map_get k o1 = map_get k o2.
Proof.
  intros Hwf Hp. assert (object_wf o2) as Hwf2 by (unfold object_wf, keys in *; by rewrite <- Hp).
  apply option_eq. intros v. rewrite !map_get_elem_of by done. by rewrite Hp.
Qed.

(** [swap_remove] keeps exactly the other entries. *)
Lemma swap_remove_Permutation (k : string) (v : Value) (o : Object) :
  object_wf o -> (k, v) ∈ o -> o ≡ₚ (k, v) :: swap_remove k o.
Proof.
  intros Hwf Hin. unfold swap_remove.
  destruct (list_find_elem_of (fun e => e.1 = k) o (k, v)) as [[i e] Hf]; [done|done|].
  rewrite Hf. apply list_find_Some in Hf as (Hi & He & _).
  assert (e = (k, v)) as ->.
  { destruct e as [k' v']; simpl in He; subst. f_equal.
    apply (map_get_elem_of k v o) in Hin; [|done].
    apply list_elem_of_lookup_2, map_get_elem_of in Hi; [|done]. congruence. }
  destruct (last o) as [e|] eqn:Hl; [|by apply last_None in Hl; subst].
  apply last_Some in Hl as [o' ->]. rewrite length_app; simpl.
  replace (length o' + 1 - 1)%nat with (length o') by lia.
  destruct (decide (i = length o')) as [->|Hne].
  - rewrite list_lookup_middle in Hi by done. injection Hi as ->.
    rewrite insert_app_r_alt by lia. rewrite take_app_length' by done.
    by rewrite Permutation_app_comm.
  - assert (i < length o')%nat by (apply lookup_lt_Some in Hi; rewrite length_app in Hi; simpl in Hi; lia).
    rewrite lookup_app_l in Hi by done. rewrite insert_app_l by done.
    rewrite take_app_length' by (by rewrite length_insert).
    rewrite <- (take_drop_middle o' i (k, v)) at 1 by done.
    rewrite insert_take_drop by done.
    rewrite <- app_assoc; simpl. rewrite <- Permutation_middle. apply perm_skip.
    apply Permutation_app_head. simpl. by rewrite Permutation_app_comm.
Qed.

Lemma swap_remove_absent (k : string) (o : Object) : map_get k o = None -> swap_remove k o = o.
Proof.
  intros Hn. unfold swap_remove.
  destruct (list_find _ o) as [[i e]|] eqn:Hf; [|done].
  apply list_find_Some in Hf as (Hi & He & _). apply map_get_None in Hn. destruct Hn.
  apply list_elem_of_fmap. exists e. split; [done|by apply list_elem_of_lookup_2 in Hi].
Qed.

#[export] Program Instance swap_remove_map : JsonMap := {| map_remove := swap_remove |}.
Next Obligation.
  intros k o Hwf. destruct (map_get k o) as [v|] eqn:Hg; [|by rewrite swap_remove_absent].
  apply map_get_elem_of in Hg; [|done]. pose proof (swap_remove_Permutation _ _ _ Hwf Hg) as Hp.
  unfold object_wf, keys in *. rewrite Hp in Hwf. simpl in Hwf. by apply NoDup_cons in Hwf as [_ ?].
Qed.
Next Obligation.
  intros k k' o Hwf. destruct (map_get k o) as [v|] eqn:Hg.
  - apply map_get_elem_of in Hg; [|done]. pose proof (swap_remove_Permutation _ _ _ Hwf Hg) as Hp.
    rewrite (map_get_Permutation _ _ k' Hwf Hp). case_decide as Hk; simpl; [subst|by rewrite decide_False].
    apply map_get_None. unfold object_wf, keys in *. rewrite Hp in Hwf. simpl in Hwf.
    by apply NoDup_cons in Hwf as [? _].
  - rewrite swap_remove_absent by done. case_decide; by subst.
Qed.

(** ** Serialisation *)

(** [serde_json::to_value]: the JSON form of a value, or the text of the
    serialiser's error. *)
Class Serialize (T : Type) := to_value : T -> result string Value.

#[export] Instance Serialize_string : Serialize string := fun s => Ok (VString s).
#[export] Instance Serialize_Value : Serialize Value := fun v => Ok v.
#[export] Instance Serialize_option {T} `{!Serialize T} : Serialize (option T) := fun o =>
  match o with Some t => to_value t | None => Ok VNull end.
