(* ===== verification/JsonRpc.v ===== *)
(** * The JSON-RPC server library ([json_rpc/src])

    [ErrorObject] models [error.rs], [Req] models [request.rs] and
    [request/params.rs], [Server] models [response.rs], [request_handlers.rs],
    [filters.rs], [rejections.rs] and the routes of [lib.rs].

    The texts [serde_json] produces (the display of a value, a parser's or a
    serialiser's error) and the handlers, limiters and clock are arguments. *)

From S2P Require Import Prelude Json.

(** ** Error objects *)

Module ErrorObject.

(** [json_rpc/src/error.rs:44-55], [ErrorCodeT]: what a type of error codes
    provides, [Into<(i64, &str)>] and [is_reserved]. *)
Class ErrorCodeT (C : Type) := {
  into_code : C -> Z * string;
  is_reserved : bool;
}.
Arguments is_reserved C {_}.

(** [json_rpc/src/error.rs:63-74], [ReservedErrorCode]. *)
Inductive ReservedErrorCode :=
| ParseError
| InvalidRequest
| MethodNotFound
| InvalidParams
| InternalError.

#[export] Instance ReservedErrorCode_eq_dec : EqDecision ReservedErrorCode.
Proof. solve_decision. Defined.

(** [json_rpc/src/error.rs:76-86], [From<ReservedErrorCode> for (i64, &str)]. *)
Definition reserved_into (c : ReservedErrorCode) : Z * string :=
  match c with
  | ParseError => (-32700, "Parse error")
  | InvalidRequest => (-32600, "Invalid Request")
  | MethodNotFound => (-32601, "Method not found")
  | InvalidParams => (-32602, "Invalid params")
  | InternalError => (-32603, "Internal error")
  end.

(** [json_rpc/src/error.rs:88-92], [ErrorCodeT for ReservedErrorCode]. *)
Instance ErrorCodeT_Reserved : ErrorCodeT ReservedErrorCode :=
  {| into_code := reserved_into; is_reserved := true |}.

(** [json_rpc/src/error.rs:97-100], [RpcErrorCode]. *)
Inductive RpcErrorCode :=
| RequestThrottled.

(** [json_rpc/src/error.rs:102-110], [ErrorCodeT for RpcErrorCode]. *)
Instance ErrorCodeT_Rpc : ErrorCodeT RpcErrorCode :=
  {| into_code := fun c => match c with RequestThrottled => (429, "Request throttled") end;
     is_reserved := false |}.

(** [json_rpc/src/error.rs:118-125], [Error]. *)
Record Error := mkError {
  code : Z;
  message : string;
  data : option Value;
}.

(** [(-32768..=-32100).contains(&code)]. *)
Definition in_reserved_range (c : Z) : bool := (-32768 <=? c) && (c <=? -32100).

(** [json_rpc/src/error.rs:143-175], [Error::new]: the inner [code] shadows the
    code that was passed in. *)
Definition Error_new {C T} `{!ErrorCodeT C, !Serialize T} (error_code : C) (additional_info : T) : Error :=
  let (code, message) := into_code error_code in
  if negb (is_reserved C) && in_reserved_range code then
    let (code, message) := reserved_into InternalError in
    mkError code message
      (Some (VString ("attempted to return reserved error code " +:+ pretty code)))
  else
    match to_value additional_info with
    | Ok VNull => mkError code message None
    | Ok value => mkError code message (Some value)
    | Err error =>
        let (code, message) := reserved_into InternalError in
        mkError code message
          (Some (VString ("failed to json-encode additional info in json-rpc error: " +:+ error)))
    end.

(** With a string as additional information nothing can fail to encode. *)
Lemma Error_new_reserved_string (c : ReservedErrorCode) (s : string) :
  Error_new c s = mkError (reserved_into c).1 (reserved_into c).2 (Some (VString s)).
Proof. by destruct c. Qed.

End ErrorObject.
Export ErrorObject.

(** ** Requests *)

Module Req.

(** [json_rpc/src/request/params.rs:19-24], [Params]. *)
Inductive Params :=
| PArray (l : list Value)
| PObject (o : Object).

(** The rejections of the HTTP layer that the crate itself raises
    ([rejections.rs]). *)
Inductive CustomRejection :=
| MissingId
| BodyTooLarge (max_body_bytes : Z).

(** [json_rpc/src/request.rs:22-25], [ErrorOrRejection]. *)
Inductive ErrorOrRejection :=
| EError (id : Value) (error : Error)
| ERejection (r : CustomRejection).

(** [json_rpc/src/request.rs:28-32], [Request]. *)
Record Request := mkRequest {
  id : Value;
  method : string;
  params : option Params;
}.

(** [json_rpc/src/request/params.rs:28-54], [Params::try_from]. *)
Definition Params_try_from (request_id : Value) (params : Value) : result ErrorOrRejection Params :=
  let err_invalid_request (additional_info : string) :=
    Err (EError request_id (Error_new InvalidRequest additional_info)) in
  match params with
  | VNull => Ok (PArray [])
  | VBool false => err_invalid_request
      "If present, 'params' must be an Array or Object, but was 'false'"
  | VBool true => err_invalid_request
      "If present, 'params' must be an Array or Object, but was 'true'"
  | VNumber _ => err_invalid_request
      "If present, 'params' must be an Array or Object, but was a Number"
  | VString _ => err_invalid_request
      "If present, 'params' must be an Array or Object, but was a String"
  | VArray array => Ok (PArray array)
  | VObject map => Ok (PObject map)
  end.

(** [json_rpc/src/request/params.rs:64-69], [Params::as_array]. *)
Definition as_array (p : Params) : option (list Value) :=
  match p with PArray l => Some l | PObject _ => None end.

(** [json_rpc/src/request/params.rs:58-60], [Params::is_array]. *)
Definition is_array (p : Params) : bool := bool_decide (is_Some (as_array p)).

(** [json_rpc/src/request/params.rs:89-94], [Params::as_object]. *)
Definition as_object (p : Params) : option Object :=
  match p with PObject o => Some o | PArray _ => None end.

(** [json_rpc/src/request/params.rs:83-85], [Params::is_object]. *)
Definition is_object (p : Params) : bool := bool_decide (is_Some (as_object p)).

(** [json_rpc/src/request/params.rs:108-113], [Params::is_empty]. *)
Definition Params_is_empty (p : Params) : bool :=
  match p with
  | PArray l => match l with [] => true | _ => false end
  | PObject o => match o with [] => true | _ => false end
  end.

(** [json_rpc/src/request/params.rs:123-127], [Default for Params]. *)
Definition Params_default : Params := PArray [].

(** [json_rpc/src/request/params.rs:129-136], [From<Params> for Value]. *)
Definition Value_from_Params (p : Params) : Value :=
  match p with PArray l => VArray l | PObject o => VObject o end.

(** [json_rpc/src/request.rs:35-54], [is_valid]. *)
Definition is_valid (id : Value) : result Error unit :=
  match id with
  | VString _ | VNull => Ok tt
  | VNumber number =>
      if is_f64 number then
        Err (Error_new InvalidRequest "'id' must not contain fractional parts if it is a number")
      else Ok tt
  | _ => Err (Error_new InvalidRequest "'id' should be a string or integer")
  end.

Section New.
Context `{JM : JsonMap}.
(** The [Display] of a JSON value. *)
Context (display : Value -> string).

Definition unexpected_fields (o : Object) : string :=
    "Unexpected field" +:+ (if decide (1 < length o)%nat then "s" else EmptyString) +:+ ": " +:+
    string_join ", " (map (fun f => "'" +:+ f +:+ "'") (keys o)).

(** [json_rpc/src/request.rs:78-113], [Request::new]: the check of the
      ["jsonrpc"] field. *)
Definition check_jsonrpc (id : Value) (field : option Value) : result ErrorOrRejection unit :=
  let fail (info : string) := Err (EError id (Error_new InvalidRequest info)) in
  match field with
  | Some (VString jsonrpc) =>
      if decide (jsonrpc = "2.0") then Ok tt
      else fail ("Expected 'jsonrpc' to be '2.0', but got '" +:+ jsonrpc +:+ "'")
  | Some (VNumber jsonrpc) =>
      fail ("Expected 'jsonrpc' to be a String with value '2.0', but got a Number '" +:+
            display (VNumber jsonrpc) +:+ "'")
  | Some jsonrpc =>
      fail ("Expected 'jsonrpc' to be a String with value '2.0', but got '" +:+
            display jsonrpc +:+ "'")
  | None => fail "Missing 'jsonrpc' field"
  end.

(** [json_rpc/src/request.rs:115-131], [Request::new]: the ["method"] field. *)
Definition check_method (id : Value) (field : option Value) : result ErrorOrRejection string :=
  match field with
  | Some (VString method) => Ok method
  | Some _ => Err (EError id (Error_new InvalidRequest "Expected 'method' to be a String"))
  | None => Err (EError id (Error_new InvalidRequest "Missing 'method' field"))
  end.

(** [json_rpc/src/request.rs:133-136], [Request::new]: the ["params"] field. *)
Definition check_params (id : Value) (field : option Value) : result ErrorOrRejection (option Params) :=
  match field with
  | Some unvalidated_params => let? p := Params_try_from id unvalidated_params in Ok (Some p)
  | None => Ok None
  end.

(** [json_rpc/src/request.rs:138-147], [Request::new]: the ["id"] field. *)
Definition check_id (field : option Value) : result ErrorOrRejection Value :=
  match field with
  | Some id => let? _ := map_err (fun error => EError VNull error) (is_valid id) in Ok id
  | None => Err (ERejection MissingId)
  end.

(** [json_rpc/src/request.rs:70-162], [Request::new]. *)
Definition Request_new (request : Object) (allow_unknown_fields : bool) : result ErrorOrRejection Request :=
  let id := default VNull (map_get "id" request) in
  let? _ := check_jsonrpc id (map_get "jsonrpc" request) in
  let request := map_remove "jsonrpc" request in
  let? method := check_method id (map_get "method" request) in
  let request := map_remove "method" request in
  let? params := check_params id (map_get "params" request) in
  let request := map_remove "params" request in
  let? id := check_id (map_get "id" request) in
  let request := map_remove "id" request in
  if negb allow_unknown_fields && negb (bool_decide (length request = 0%nat)) then
    Err (EError id (Error_new InvalidRequest (unexpected_fields request)))
  else Ok (mkRequest id method params).

End New.

End Req.
Export Req.

(** ** Responses, dispatch and routes *)

Module Server.

(** [json_rpc/src/response.rs:15-36], [Response]. *)
Inductive Response :=
| Success (jsonrpc : string) (id : Value) (result : Value)
| Failure (jsonrpc : string) (id : Value) (error : Error).

(** [json_rpc/src/response.rs:41-47], [Response::new_success]. *)
Definition new_success (id : Value) (result : Value) : Response := Success "2.0" id result.

(** [json_rpc/src/response.rs:51-57], [Response::new_failure]. *)
Definition new_failure (id : Value) (error : Error) : Response := Failure "2.0" id error.

(** [json_rpc/src/response.rs:61-63], [Response::is_success]. *)
Definition is_success (r : Response) : bool :=
  match r with Success _ _ _ => true | Failure _ _ _ => false end.

(** [json_rpc/src/response.rs:67-69], [Response::is_failure]. *)
Definition is_failure (r : Response) : bool :=
  match r with Failure _ _ _ => true | Success _ _ _ => false end.

(** [json_rpc/src/response.rs:73-78], [Response::raw_result]. *)
Definition raw_result (r : Response) : option Value :=
  match r with Success _ _ result => Some result | Failure _ _ _ => None end.

(** [json_rpc/src/response.rs:96-101], [Response::error]. *)
Definition response_error (r : Response) : option Error :=
  match r with Success _ _ _ => None | Failure _ _ error => Some error end.

(** [json_rpc/src/response.rs:105-109], [Response::id]. *)
Definition response_id (r : Response) : Value :=
  match r with Success _ id _ | Failure _ id _ => id end.

(** [json_rpc/src/lib.rs:127-133], [ConfigLimit]: the period is a duration in
    nanoseconds. *)
Record ConfigLimit := mkLimit {
  requests : Z;
  period : Z;
}.

(** The quotas of the [governor] crate the code builds. *)
Inductive Quota :=
| WithPeriod (replenish : Z) (burst : Z)
| PerSecond (n : Z).

(** [json_rpc/src/lib.rs:138-147], [ConfigLimit::quota]: [Quota::with_period]
    refuses a zero duration. *)
Definition quota (l : ConfigLimit) : Quota :=
  let p := period l / requests l in
  if decide (p = 0) then PerSecond (requests l) else WithPeriod p (requests l).

(** [json_rpc/src/lib.rs:150-157], [Default for ConfigLimit]: ten requests a
    second. *)
Definition ConfigLimit_default : ConfigLimit := mkLimit 10 1000000000.

(** What the dispatcher reports to the metrics registry. *)
Inductive Metric :=
| MethodCall (method : string)
| RequestSize (method : string) (size : Z)
| ResponseTime (method : string) (status : string) (elapsed : Z).

Section Dispatch.
(** The state of everything outside the dispatcher: handlers may read and
    change it, limiters consult and update it, [now] is the clock. *)
Context {World : Type} (now : World -> Z).

(** A handler as it is stored: [Arc<dyn Fn(Option<Params>) -> Future>]. *)
Abbreviation Handler := (option Params -> World -> result Error Value * World).

(** [limiter.check()]: [None] lets the request through, [Some t] refuses it
    with [t] the seconds to wait, printed with four decimals. *)
Abbreviation Limiter := (World -> option string * World).

(** [json_rpc/src/request_handlers.rs:30-30], [RequestHandlers]. *)
Record RequestHandlers := mkHandlers {
  handlers : gmap string (Handler * Limiter);
}.

(** [json_rpc/src/request_handlers.rs:94-96], [RequestHandlersBuilder::new]. *)
Definition builder_new : gmap string (Handler * Limiter) := ∅.

(** [json_rpc/src/request_handlers.rs:106-150], [register_handler]: the handler
    is wrapped so that its result is JSON-encoded; a second registration
    replaces the first.  [direct] builds a limiter from a quota. *)
Definition register_handler {T} `{!Serialize T} (direct : Quota -> Limiter)
    (builder : gmap string (Handler * Limiter)) (method : string)
    (handler : option Params -> World -> result Error T * World) (limit : ConfigLimit)
    : gmap string (Handler * Limiter) :=
  let wrapped_handler : Handler := fun maybe_params w =>
    let (r, w) := handler maybe_params w in
    (let? success := r in
     map_err (fun error => Error_new InternalError
                ("failed to encode json-rpc response value: " +:+ error)) (to_value success), w) in
  <[method := (wrapped_handler, direct (quota limit))]> builder.

(** [json_rpc/src/request_handlers.rs:154-156], [RequestHandlersBuilder::build]. *)
Definition build (builder : gmap string (Handler * Limiter)) : RequestHandlers :=
  mkHandlers builder.

(** [json_rpc/src/request_handlers.rs:41-79], [RequestHandlers::handle_request]:
    the response, the world left behind, and the metrics reported. *)
Definition handle_request (self : RequestHandlers) (request : Request) (request_size : Z) (w : World)
    : Response * World * list Metric :=
  let start := now w in
  match (handlers self !! method request : option (Handler * Limiter)) with
  | None =>
      let elapsed := now w - start in
      (new_failure (id request)
         (Error_new MethodNotFound
            ("'" +:+ method request +:+ "' is not a supported json-rpc method on this server")),
       w, [ResponseTime "unknown-handler" "unknown-handler" elapsed])
  | Some (handler, limiter) =>
      let metrics := [MethodCall (method request); RequestSize (method request) request_size] in
      let (negative, w) := limiter w in
      match negative with
      | Some wait_time =>
          (new_failure (id request)
             (Error_new RequestThrottled ("retry-after " +:+ wait_time +:+ "s")), w, metrics)
      | None =>
          let elapsed := now w - start in
          let (r, w) := handler (params request) w in
          match r with
          | Ok result =>
              (new_success (id request) result, w,
               metrics ++ [ResponseTime (method request) "success" elapsed])
          | Err error =>
              (new_failure (id request) error, w,
               metrics ++ [ResponseTime (method request) (pretty (code error)) elapsed])
          end
      end
  end.

Context `{JM : JsonMap} (display : Value -> string).
(** [serde_json::from_slice::<Map<String, Value>>]: an object or the text of
    the parser's error. *)
Context (from_slice : list Byte.byte -> result string Object).

(** [json_rpc/src/filters.rs:67-91], [handle_body]. *)
Definition handle_body (body : list Byte.byte) (hs : RequestHandlers) (allow_unknown_fields : bool)
    (w : World) : result CustomRejection (Response * World * list Metric) :=
  match from_slice body with
  | Ok unvalidated_request =>
      match Request_new display unvalidated_request allow_unknown_fields with
      | Ok request => Ok (handle_request hs request (Z.of_nat (length body)) w)
      | Err (EError id error) => Ok (new_failure id error, w, [])
      | Err (ERejection rejection) => Err rejection
      end
  | Err error => Ok (new_failure VNull (Error_new ParseError error), w, [])
  end.

End Dispatch.

(** *** Rejections *)

(** [json_rpc/src/rejections.rs:17-42], [MissingId] and [BodyTooLarge]. *)
Definition CustomRejection_to_string (r : CustomRejection) : string :=
  match r with
  | MissingId => "The request is missing the 'id' field"
  | BodyTooLarge n =>
      "The request payload exceeds the maximum allowed of " +:+ pretty n +:+ " bytes"
  end.

(** The rejection types of [warp] that [handle_rejection] knows. *)
Inductive WarpRejection :=
| MethodNotAllowed | InvalidHeader | MissingHeader | InvalidQuery | MissingCookie
| LengthRequired | PayloadTooLarge | UnsupportedMediaType | CorsForbidden.

#[export] Instance WarpRejection_eq_dec : EqDecision WarpRejection.
Proof. solve_decision. Defined.

(** A rejection collects what the filters of a route reported, each cause with
    its text; a rejection without a cause says that no path matched. *)
Inductive Cause :=
| CCustom (r : CustomRejection)
| CWarp (t : WarpRejection) (text : string)
| COther (text : string).

Definition Rejection : Type := list Cause.

(** [Rejection::find] for the crate's own types and for those of [warp]. *)
Fixpoint find_missing_id (r : Rejection) : option CustomRejection :=
  match r with
  | [] => None
  | CCustom MissingId :: _ => Some MissingId
  | _ :: r => find_missing_id r
  end.

Fixpoint find_body_too_large (r : Rejection) : option CustomRejection :=
  match r with
  | [] => None
  | CCustom (BodyTooLarge n) :: _ => Some (BodyTooLarge n)
  | _ :: r => find_body_too_large r
  end.

Fixpoint find_warp (t : WarpRejection) (r : Rejection) : option string :=
  match r with
  | [] => None
  | CWarp t' text :: r => if decide (t = t') then Some text else find_warp t r
  | _ :: r => find_warp t r
  end.

Definition is_not_found (r : Rejection) : bool := match r with [] => true | _ => false end.

(** An HTTP reply: the status and the body. *)
Record Reply := mkReply { status : Z; body : Value }.

(** The [else if] chain of [handle_rejection] over [warp]'s own types. *)
Fixpoint find_first (order : list (WarpRejection * Z)) (r : Rejection) : option (string * Z) :=
  match order with
  | [] => None
  | (t, st) :: order =>
      match find_warp t r with Some text => Some (text, st) | None => find_first order r end
  end.

Definition warp_statuses : list (WarpRejection * Z) :=
  [(MethodNotAllowed, 405); (InvalidHeader, 400); (MissingHeader, 415); (InvalidQuery, 400);
   (MissingCookie, 400); (LengthRequired, 411); (PayloadTooLarge, 413);
   (UnsupportedMediaType, 415); (CorsForbidden, 403)].

(** [json_rpc/src/filters.rs:124-187], [handle_rejection]; [debug] is the debug
    form of a rejection. *)
Definition handle_rejection (debug : Rejection -> string) (error : Rejection) : Reply :=
  let reply (message : string) (code : Z) := mkReply code (VObject [("message", VString message)]) in
  match find_missing_id error with
  | Some rejection => reply (CustomRejection_to_string rejection) 400
  | None =>
      match find_body_too_large error with
      | Some rejection => reply (CustomRejection_to_string rejection) 413
      | None =>
          if is_not_found error then reply "Path not found" 404
          else match find_first warp_statuses error with
               | Some (message, code) => reply message code
               | None => reply ("Internal server error: unhandled rejection: " +:+ debug error) 500
               end
      end
  end.

(** *** Routes *)

Section Route.
Context {World : Type} (now : World -> Z) `{JM : JsonMap} (display : Value -> string).
Context (from_slice : list Byte.byte -> result string Object).
Context (debug : Rejection -> string).
(** The JSON form of a response ([Serialize for Response]). *)
Context (response_json : Response -> Value).
(** An HTTP request and the [warp] filters applied to it. *)
Context {HttpRequest : Type} (body_bytes : HttpRequest -> list Byte.byte).
Context (path_filter : string -> HttpRequest -> result Rejection unit).
Context (end_filter post_filter : HttpRequest -> result Rejection unit).
Context (exact_ignore_case : string -> string -> HttpRequest -> result Rejection unit).
Context (content_length_limit : Z -> HttpRequest -> result Rejection unit).

(** [json_rpc/src/filters.rs:39-56], [base_filter]. *)
Definition base_filter (path : string) (max_body_bytes : Z) (r : HttpRequest) : result Rejection unit :=
  let? _ := path_filter path r in
  let? _ := end_filter r in
  let? _ := post_filter r in
  let? _ := exact_ignore_case "content-type" "application/json" r in
  map_err (fun _ => [CCustom (BodyTooLarge max_body_bytes)]) (content_length_limit max_body_bytes r).

(** [json_rpc/src/filters.rs:105-116], [main_filter]. *)
Definition main_filter (hs : @RequestHandlers World) (allow_unknown_fields : bool) (r : HttpRequest) (w : World)
    : result Rejection (Reply * World * list Metric) :=
  match handle_body now display from_slice (body_bytes r) hs allow_unknown_fields w with
  | Ok (response, w, metrics) => Ok (mkReply 200 (response_json response), w, metrics)
  | Err rejection => Err [CCustom rejection]
  end.

(** [json_rpc/src/lib.rs:175-185], [route]. *)
Definition route (path : string) (max_body_bytes : Z) (hs : @RequestHandlers World)
    (allow_unknown_fields : bool) (r : HttpRequest) (w : World) : Reply * World * list Metric :=
  match base_filter path max_body_bytes r with
  | Err rejection => (handle_rejection debug rejection, w, [])
  | Ok _ =>
      match main_filter hs allow_unknown_fields r w with
      | Ok reply => reply
      | Err rejection => (handle_rejection debug rejection, w, [])
      end
  end.

End Route.

End Server.
Export Server.

(** ** Properties of error objects *)

(** An [Error] built from a type that is not the reserved one never carries
    a code of the reserved range -32768..-32100, except that of an internal
    error; and unless the code was in that range or the additional information
    could not be encoded, code and message are the ones of the error code. *)
Theorem Error_new_code {C T} `{!ErrorCodeT C, !Serialize T} (c : C) (info : T) :
  let e := Error_new c info in
  (is_reserved C = false -> in_reserved_range (code e) = true ->
     code e = -32603 /\ message e = "Internal error") /\
  (is_reserved C = true \/ in_reserved_range (into_code c).1 = false ->
     is_ok (to_value info) = true ->
     (code e, message e) = into_code c /\ (data e = None <-> to_value info = Ok VNull)).
Proof.
  unfold Error_new. destruct (into_code c) as [cd msg]; simpl.
  destruct (is_reserved C), (in_reserved_range cd) eqn:Hr, (to_value info) as [[]|]; simpl;
    (split; [intros; first [done|congruence]|intros [?|?] ?; try done; try congruence]).
Qed.

Lemma Error_new_code_witness :
  is_reserved RpcErrorCode = false /\
  (code (Error_new RequestThrottled "wait"), message (Error_new RequestThrottled "wait"))
    = (429, "Request throttled").
Proof.
  split; [reflexivity|].
  refine (proj1 (proj2 (Error_new_code RequestThrottled "wait") _ _)); [right|]; reflexivity.
Defined.

(** When a custom error code lies in the reserved range, the text of the
    resulting error names -32603, whatever the code was: two different
    offending codes give the same object. *)
Theorem Error_new_shadowed_code {C T} `{!ErrorCodeT C, !Serialize T} (c : C) (info : T) :
  is_reserved C = false -> in_reserved_range (into_code c).1 = true ->
  Error_new c info =
    mkError (-32603) "Internal error" (Some (VString "attempted to return reserved error code -32603")).
Proof.
  unfold Error_new. destruct (into_code c) as [cd msg]; simpl. intros -> ->. reflexivity.
Qed.

Definition TestErrorCode : ErrorCodeT Z := {| into_code := fun z => (z, "custom"); is_reserved := false |}.

(** ** Properties of requests *)

Definition known_fields : list string := ["jsonrpc"; "method"; "params"; "id"].

(** The identifiers JSON-RPC allows here. *)
Definition id_ok (v : Value) : bool :=
  match v with
  | VString _ | VNull => true
  | VNumber n => negb (is_f64 n)
  | _ => false
  end.

(** The value of the ["params"] field stands for these parameters. *)
Definition params_denote (field : option Value) (p : option Params) : Prop :=
  match field with
  | None => p = None
  | Some VNull => p = Some (PArray [])
  | Some (VArray l) => p = Some (PArray l)
  | Some (VObject o) => p = Some (PObject o)
  | Some _ => False
  end.

Lemma is_valid_Ok (v : Value) : is_valid v = Ok tt <-> id_ok v = true.
Proof. destruct v as [| |n| | |]; simpl; try by split. destruct (is_f64 n); naive_solver. Qed.

Lemma is_valid_Err (v : Value) (e : Error) : is_valid v = Err e -> code e = -32600 /\ id_ok v = false.
Proof. destruct v as [| |n| | |]; simpl; try naive_solver. destruct (is_f64 n); naive_solver. Qed.

Lemma check_method_Ok (i : Value) (f : option Value) (m : string) :
  check_method i f = Ok m <-> f = Some (VString m).
Proof. destruct f as [[]|]; simpl; naive_solver. Qed.

Lemma check_params_Ok (i : Value) (f : option Value) (p : option Params) :
  check_params i f = Ok p <-> params_denote f p.
Proof. destruct f as [[|[]| | | |]|]; simpl; simp_result; naive_solver. Qed.

Lemma check_id_Ok (f : option Value) (v : Value) :
  check_id f = Ok v <-> f = Some v /\ id_ok v = true.
Proof.
  destruct f as [x|]; simpl; simp_result; [|naive_solver].
  destruct (is_valid x) as [[]|e] eqn:Hx; simpl.
  - apply is_valid_Ok in Hx. naive_solver.
  - apply is_valid_Err in Hx. naive_cong.
Qed.

(** The errors of the four checks. *)
Definition invalid_request (i : Value) (e : ErrorOrRejection) : Prop :=
  exists err, e = EError i err /\ code err = -32600.

Lemma check_method_Err (i : Value) (f : option Value) (e : ErrorOrRejection) :
  check_method i f = Err e -> invalid_request i e.
Proof. unfold invalid_request. destruct f as [[]|]; simpl; naive_solver. Qed.

Lemma check_params_Err (i : Value) (f : option Value) (e : ErrorOrRejection) :
  check_params i f = Err e -> invalid_request i e.
Proof. unfold invalid_request. destruct f as [[|[]| | | |]|]; simpl; simp_result; naive_solver. Qed.

Lemma check_id_Err (f : option Value) (e : ErrorOrRejection) :
  check_id f = Err e ->
  (f = None /\ e = ERejection MissingId) \/
  (exists v, f = Some v /\ id_ok v = false /\ invalid_request VNull e).
Proof.
  unfold invalid_request. destruct f as [x|]; simpl; simp_result; [|naive_solver].
  destruct (is_valid x) as [[]|err] eqn:Hx; simpl; [done|].
  apply is_valid_Err in Hx. naive_cong.
Qed.

Section RequestFacts.
Context `{JM : JsonMap} (display : Value -> string).

Lemma check_jsonrpc_Ok (i : Value) (f : option Value) :
  check_jsonrpc display i f = Ok tt <-> f = Some (VString "2.0").
Proof.
  destruct f as [[]|]; simpl; try naive_solver.
  case_decide; naive_solver.
Qed.

Lemma check_jsonrpc_Err (i : Value) (f : option Value) (e : ErrorOrRejection) :
  check_jsonrpc display i f = Err e -> invalid_request i e.
Proof.
  unfold invalid_request. destruct f as [[]|]; simpl; try naive_solver.
  case_decide; naive_solver.
Qed.

(** Reading a field after the earlier ones were removed. *)
Lemma map_get_removed (k : string) (ks : list string) (o : Object) :
  object_wf o -> k ∉ ks ->
  object_wf (foldl (fun o k => map_remove k o) o ks) /\
  map_get k (foldl (fun o k => map_remove k o) o ks) = map_get k o.
Proof.
  revert o. induction ks as [|k' ks IH]; intros o Hwf Hk; simpl; [done|].
  apply not_elem_of_cons in Hk as [Hne Hk].
  destruct (IH (map_remove k' o)) as [? Hg]; [by apply map_remove_wf|done|].
  split; [done|]. rewrite Hg. by apply map_remove_get_ne.
Qed.

Lemma keys_removed (k : string) (ks : list string) (o : Object) :
  object_wf o ->
  k ∈ keys (foldl (fun o k => map_remove k o) o ks) <-> k ∈ keys o /\ k ∉ ks.
Proof.
  revert o. induction ks as [|k' ks IH]; intros o Hwf; simpl; [set_solver|].
  rewrite IH by (by apply map_remove_wf). rewrite map_remove_keys by done. set_solver.
Qed.

Definition residue (o : Object) : Object := foldl (fun o k => map_remove k o) o known_fields.

Lemma residue_empty (o : Object) :
  object_wf o -> length (residue o) = 0%nat <-> (forall k, k ∈ keys o -> k ∈ known_fields).
Proof.
  intros Hwf. pose proof (fun k => keys_removed k known_fields o Hwf) as Hk. fold (residue o) in Hk.
  split.
  - intros Hl%nil_length_inv k Hin. rewrite Hl in Hk. destruct (decide (k ∈ known_fields)); [done|].
    exfalso. by apply (not_elem_of_nil k), Hk.
  - intros Hall. destruct (residue o) as [|[k v] o'] eqn:Hr; [done|].
    destruct (proj1 (Hk k)) as [Hin Hn]; [left|]. destruct Hn. by apply Hall.
Qed.

(** The fields read from the shrinking map are those of the request. *)
Lemma Request_new_unfold (o : Object) (allow : bool) :
  object_wf o ->
  Request_new display o allow =
    (let i := default VNull (map_get "id" o) in
     let? _ := check_jsonrpc display i (map_get "jsonrpc" o) in
     let? m := check_method i (map_get "method" o) in
     let? p := check_params i (map_get "params" o) in
     let? i := check_id (map_get "id" o) in
     if negb allow && negb (bool_decide (length (residue o) = 0%nat)) then
       Err (EError i (Error_new InvalidRequest (unexpected_fields (residue o))))
     else Ok (mkRequest i m p)).
Proof.
  intros Hwf. unfold Request_new.
  destruct (map_get_removed "method" ["jsonrpc"] o) as [_ Hm]; [done|set_solver|].
  destruct (map_get_removed "params" ["jsonrpc"; "method"] o) as [_ Hp]; [done|set_solver|].
  destruct (map_get_removed "id" ["jsonrpc"; "method"; "params"] o) as [_ Hi]; [done|set_solver|].
  simpl in Hm, Hp, Hi. by rewrite Hm, Hp, Hi.
Qed.

End RequestFacts.

(** The accepting run, check by check. *)
Lemma Request_new_Ok `{JM : JsonMap} (display : Value -> string) (o : Object)
    (allow : bool) (r : Request) :
  object_wf o ->
  Request_new display o allow = Ok r <->
    map_get "jsonrpc" o = Some (VString "2.0") /\
    map_get "method" o = Some (VString (method r)) /\
    params_denote (map_get "params" o) (params r) /\
    map_get "id" o = Some (id r) /\ id_ok (id r) = true /\
    (allow = true \/ forall k, k ∈ keys o -> k ∈ known_fields).
Proof.
  intros Hwf. rewrite Request_new_unfold, <- residue_empty by done. cbv zeta.
  set (i := default VNull (map_get "id" o)).
  rewrite <- (check_jsonrpc_Ok display i), <- (check_method_Ok i), <- (check_params_Ok i).
  rewrite (and_assoc (map_get "id" o = Some (id r))), <- check_id_Ok.
  destruct (check_jsonrpc _ _ _) as [[]|]; simp_result; [|naive_solver].
  destruct (check_method _ _); simp_result; [|naive_solver].
  destruct (check_params _ _); simp_result; [|naive_solver].
  destruct (check_id _); simp_result; [|naive_solver].
  destruct r, allow; simpl; [naive_solver|].
  case_bool_decide; simpl; naive_solver.
Qed.

(** C14. A JSON object is accepted as a request exactly when its ["jsonrpc"] is
    the string 2.0, its ["method"] a string, its ["params"] absent, null, an
    array or an object, its ["id"] a string, null or an integral number, and,
    unless unknown fields are allowed, it has no other field; the request then
    holds these very values. *)
Theorem Request_new_accepts `{JM : JsonMap} (display : Value -> string) (o : Object)
    (allow : bool) (r : Request) :
  object_wf o ->
  Request_new display o allow = Ok r <->
    map_get "jsonrpc" o = Some (VString "2.0") /\
    map_get "method" o = Some (VString (method r)) /\
    params_denote (map_get "params" o) (params r) /\
    map_get "id" o = Some (id r) /\ id_ok (id r) = true /\
    (allow = true \/ forall k, k ∈ keys o -> k ∈ known_fields).
Proof. apply Request_new_Ok. Qed.

Lemma Request_new_accepts_witness :
  let o := [("id", VNumber (PosInt 1)); ("jsonrpc", VString "2.0"); ("method", VString "info_get_status")] in
  Request_new (fun _ => EmptyString) o false = Ok (mkRequest (VNumber (PosInt 1)) "info_get_status" None).
Proof.
  apply Request_new_accepts.
  - apply (bool_decide_unpack _). vm_compute. exact I.
  - repeat split; try reflexivity. right. unfold known_fields. set_solver.
Defined.

(** Every way to refuse a request. *)
Lemma Request_new_Err `{JM : JsonMap} (display : Value -> string) (o : Object) (allow : bool)
    (e : ErrorOrRejection) :
  object_wf o -> Request_new display o allow = Err e ->
  (e = ERejection MissingId /\ map_get "id" o = None) \/
  invalid_request (default VNull (map_get "id" o)) e \/
  (invalid_request VNull e /\ exists v, map_get "id" o = Some v /\ id_ok v = false).
Proof.
  intros Hwf. rewrite Request_new_unfold by done. cbv zeta.
  set (i := default VNull (map_get "id" o)).
  destruct (check_jsonrpc _ _ _) as [[]|] eqn:Hj; simp_result.
  2: { intros [= ->]. apply check_jsonrpc_Err in Hj. auto. }
  destruct (check_method _ _) eqn:Hm; simp_result.
  2: { intros [= ->]. apply check_method_Err in Hm. auto. }
  destruct (check_params _ _) eqn:Hp; simp_result.
  2: { intros [= ->]. apply check_params_Err in Hp. auto. }
  destruct (check_id _) as [v|] eqn:Hi; simp_result.
  2: { intros [= ->]. apply check_id_Err in Hi. naive_solver. }
  apply check_id_Ok in Hi as [Hi Hv]. subst i. rewrite Hi. simpl.
  destruct allow; simpl; [done|]. case_bool_decide; simpl; [done|].
  intros [= <-]. right. left. eexists. split; [done|]. by rewrite Error_new_reserved_string.
Qed.

(** A message that would be a request if it had an ["id"]: a notification. *)
Definition notification (o : Object) : Prop :=
  map_get "jsonrpc" o = Some (VString "2.0") /\
  (exists m, map_get "method" o = Some (VString m)) /\
  (exists p, params_denote (map_get "params" o) p) /\
  map_get "id" o = None.

(** The server refuses a message on the HTTP level only if it is a
    notification. *)
Lemma Request_new_rejection `{JM : JsonMap} (display : Value -> string) (o : Object) (allow : bool)
    (r : CustomRejection) :
  object_wf o -> Request_new display o allow = Err (ERejection r) <-> notification o /\ r = MissingId.
Proof.
  intros Hwf. unfold notification. split.
  - intros He. pose proof (Request_new_Err _ _ _ _ Hwf He) as [[? Hn]|[(?&?&?)|((?&?&?)&_)]]; [|done..].
    rewrite Request_new_unfold in He by done. cbv zeta in He.
    destruct (check_jsonrpc _ _ _) as [[]|] eqn:Hj; simp_result.
    2: { apply check_jsonrpc_Err in Hj as (?&?&?). naive_solver. }
    destruct (check_method _ _) eqn:Hm; simp_result.
    2: { apply check_method_Err in Hm as (?&?&?). naive_solver. }
    destruct (check_params _ _) eqn:Hp; simp_result.
    2: { apply check_params_Err in Hp as (?&?&?). naive_solver. }
    apply check_jsonrpc_Ok in Hj. apply check_method_Ok in Hm. apply check_params_Ok in Hp. naive_solver.
  - intros [(Hj & [m Hm] & [p Hp] & Hn) ->]. rewrite Request_new_unfold by done. cbv zeta.
    apply (check_jsonrpc_Ok display (default VNull (map_get "id" o))) in Hj.
    apply (check_method_Ok (default VNull (map_get "id" o))) in Hm.
    apply (check_params_Ok (default VNull (map_get "id" o))) in Hp.
    by rewrite Hj, Hm, Hp, Hn.
Qed.

(** A refused request gives an [Invalid Request] object (-32600) that echoes
    the ["id"] field as it was sent, or null when the field is missing or is
    not a legal identifier; only a message without ["id"] is rejected on the
    HTTP level, and it is one exactly when all its other fields are right. *)
Theorem Request_new_refuses `{JM : JsonMap} (display : Value -> string) (o : Object)
    (allow : bool) (e : ErrorOrRejection) :
  object_wf o -> Request_new display o allow = Err e ->
  match e with
  | ERejection r => r = MissingId /\ notification o
  | EError i err =>
      code err = -32600 /\
      (i = default VNull (map_get "id" o) \/
       i = VNull /\ exists v, map_get "id" o = Some v /\ id_ok v = false)
  end.
Proof.
  intros Hwf He. destruct e as [i err|r].
  - apply Request_new_Err in He as [[? ?]|[(?&?&?)|[(?&?&?) ?]]]; naive_solver.
  - apply Request_new_rejection in He; naive_solver.
Qed.

Lemma Request_new_refuses_witness :
  let o := [("id", VNumber (PosInt 7)); ("jsonrpc", VString "1.0")] in
  exists err, Request_new (fun _ => EmptyString) o false = Err (EError (VNumber (PosInt 7)) err) /\
    code err = -32600.
Proof.
  eexists. split; [reflexivity|].
  apply (Request_new_refuses (fun _ => EmptyString)
    [("id", VNumber (PosInt 7)); ("jsonrpc", VString "1.0")] false
    (EError (VNumber (PosInt 7)) _)); [|reflexivity].
  apply (bool_decide_unpack _). vm_compute. exact I.
Defined.

(** ** Properties of the server *)

Section ServerFacts.
Context {World : Type} (now : World -> Z).

Definition response_version (r : Response) : string :=
  match r with Success v _ _ | Failure v _ _ => v end.

Lemma handle_request_id (hs : @RequestHandlers World) (r : Request) (size : Z) (w : World) :
  response_id (handle_request now hs r size w).1.1 = id r /\
  response_version (handle_request now hs r size w).1.1 = "2.0".
Proof.
  unfold handle_request. destruct (_ !! _) as [[h l]|]; [|done].
  destruct (l w) as [[t|] w']; [done|]. by destruct (h _ w') as [[|] w''].
Qed.

Lemma handle_rejection_status (debug : Rejection -> string) (r : Rejection) :
  status (handle_rejection debug r) ∈ [400; 413; 404; 405; 415; 411; 403; 500].
Proof.
  unfold handle_rejection. destruct (find_missing_id r); [set_solver|].
  destruct (find_body_too_large r); [set_solver|]. destruct (is_not_found r); [set_solver|].
  destruct (find_first _ r) as [[m c]|] eqn:Hf; simpl; [|set_solver].
  unfold warp_statuses in Hf. simpl in Hf.
  repeat (break_match_in Hf; [injection Hf as <- <-; set_solver|]). done.
Qed.

End ServerFacts.

(** Whatever the body's object is, if it has a legal ["id"] then there is a
    JSON-RPC response, of version 2.0 and with that very identifier: on
    success, on an unknown method, when throttled and when refused. *)
Theorem handle_body_echoes_id {World} (now : World -> Z) `{JM : JsonMap} (display : Value -> string)
    (from_slice : list Byte.byte -> result string Object) (b : list Byte.byte)
    (hs : RequestHandlers) (allow : bool) (w : World) (o : Object) (v : Value) :
  from_slice b = Ok o -> object_wf o -> map_get "id" o = Some v -> id_ok v = true ->
  exists resp w' ms, handle_body now display from_slice b hs allow w = Ok (resp, w', ms) /\
    response_id resp = v /\ response_version resp = "2.0".
Proof.
  intros Hb Hwf Hid Hv. unfold handle_body. rewrite Hb.
  destruct (Request_new display o allow) as [req|e] eqn:Hr.
  - apply Request_new_Ok in Hr as (_&_&_&Hi&_); [|done].
    destruct (handle_request_id now hs req (Z.of_nat (length b)) w) as [H1 H2].
    destruct (handle_request _ _ _ _ _) as [[resp w'] ms]. simpl in *.
    exists resp, w', ms. split_and!; [done|congruence|done].
  - apply Request_new_Err in Hr as [[? ?]|[(?&->&_)|[_ (?&?&?)]]]; [congruence| |congruence|done].
    rewrite Hid. by eexists _, _, _.
Qed.

(** A server with one method, used to exhibit runs. *)
Definition demo_object : Object :=
  [("jsonrpc", VString "2.0"); ("id", VString "a"); ("method", VString "ping")].

Definition demo_handlers : @RequestHandlers Z :=
  build (register_handler (fun _ w => (None, w)) builder_new "ping"
           (fun _ w => (Ok "pong", w + 5)) ConfigLimit_default).

Lemma handle_body_echoes_id_witness :
  exists resp w' ms,
    handle_body (fun w => w) (fun _ => EmptyString) (fun _ => Ok demo_object) [] demo_handlers false 0
      = Ok (resp, w', ms) /\ response_id resp = VString "a" /\ response_version resp = "2.0".
Proof.
  apply (handle_body_echoes_id _ _ _ _ _ _ _ demo_object (VString "a")); try reflexivity.
  apply (bool_decide_unpack _). vm_compute. exact I.
Defined.

(** A handler registered for a method is the one requests for that method
    reach, and its encoded result is returned once the limiter admits the
    request; every other method is served as before. *)
Theorem register_handler_dispatch {World T} `{!Serialize T} (now : World -> Z)
    (direct : Quota -> World -> option string * World)
    (b : gmap string ((option Params -> World -> result Error Value * World) * (World -> option string * World)))
    (m : string) (h : option Params -> World -> result Error T * World) (limit : ConfigLimit)
    (r : Request) (size : Z) (w : World) :
  let served := handle_request now (build (register_handler direct b m h limit)) r size w in
  (method r <> m -> served = handle_request now (build b) r size w) /\
  (method r = m -> forall w1 w2 t v,
     direct (quota limit) w = (None, w1) -> h (params r) w1 = (Ok t, w2) -> to_value t = Ok v ->
     served.1 = (new_success (id r) v, w2)) /\
  (method r = m -> forall w1 w2 e,
     direct (quota limit) w = (None, w1) -> h (params r) w1 = (Err e, w2) ->
     served.1 = (new_failure (id r) e, w2)) /\
  (method r = m -> forall w1 wait,
     direct (quota limit) w = (Some wait, w1) ->
     exists e, served.1 = (new_failure (id r) e, w1) /\ code e = 429).
Proof.
  unfold handle_request, register_handler, build; simpl. split_and!.
  - intros Hne. by rewrite lookup_insert_ne.
  - intros -> w1 w2 t v Hd Hh Hv. rewrite lookup_insert_eq, Hd, Hh. simp_result. by rewrite Hv.
  - intros -> w1 w2 e Hd Hh. by rewrite lookup_insert_eq, Hd, Hh.
  - intros -> w1 wait Hd. rewrite lookup_insert_eq, Hd. by eexists.
Qed.

Lemma register_handler_dispatch_witness :
  (handle_request (fun w => w) demo_handlers (mkRequest VNull "ping" None) 10 0).1
    = (new_success VNull (VString "pong"), 5).
Proof.
  refine (proj1 (proj2 (register_handler_dispatch (fun w => w) (fun _ w => (None, w)) builder_new "ping"
            (fun _ w => (Ok "pong", w + 5)) ConfigLimit_default (mkRequest VNull "ping" None) 10 0))
            _ 0 5 "pong" (VString "pong") _ _ _); reflexivity.
Defined.

(** The response time reported for a served request is taken before its
    handler runs: it is the time the limiter took, whatever the handler does
    to the clock. *)
Theorem handle_request_elapsed_ignores_handler {World} (now : World -> Z) (hs : RequestHandlers)
    (r : Request) (size : Z) (w w1 : World) h l :
  handlers hs !! method r = Some (h, l) -> l w = (None, w1) ->
  exists st, (handle_request now hs r size w).2 =
    [MethodCall (method r); RequestSize (method r) size; ResponseTime (method r) st (now w1 - now w)].
Proof.
  intros Hh Hl. unfold handle_request. rewrite Hh, Hl. destruct (h _ w1) as [[|e] w2]; by eexists.
Qed.

Section RouteFacts.
Context {World : Type} (now : World -> Z) `{JM : JsonMap} (display : Value -> string).
Context (from_slice : list Byte.byte -> result string Object).
Context (debug : Rejection -> string) (response_json : Response -> Value).
Context {HttpRequest : Type} (body_bytes : HttpRequest -> list Byte.byte).
Context (path_filter : string -> HttpRequest -> result Rejection unit).
Context (end_filter post_filter : HttpRequest -> result Rejection unit).
Context (exact_ignore_case : string -> string -> HttpRequest -> result Rejection unit).
Context (content_length_limit : Z -> HttpRequest -> result Rejection unit).
(** A parsed object holds no key twice. *)
Context (from_slice_wf : forall b o, from_slice b = Ok o -> object_wf o).

Local Abbreviation accepts path max r :=
  (base_filter path_filter end_filter post_filter exact_ignore_case content_length_limit path max r = Ok tt).
Local Abbreviation serve :=
  (route now display from_slice debug response_json body_bytes path_filter end_filter post_filter
     exact_ignore_case content_length_limit).

(** C28. A route answers 200 exactly when the base filters accept the request
    and its body is not a notification; every other answer leaves the world
    untouched and runs no handler, and a body over the limit is answered 413. *)
Theorem route_status (path : string) (max : Z) (hs : RequestHandlers) (allow : bool)
    (r : HttpRequest) (w : World) :
  let '(reply, w', ms) := serve path max hs allow r w in
  (status reply = 200 <->
     accepts path max r /\ ~ exists o, from_slice (body_bytes r) = Ok o /\ notification o) /\
  (status reply <> 200 -> w' = w /\ ms = []) /\
  (is_ok (content_length_limit max r) = false ->
   path_filter path r = Ok tt -> end_filter r = Ok tt -> post_filter r = Ok tt ->
   exact_ignore_case "content-type" "application/json" r = Ok tt -> status reply = 413).
Proof using from_slice_wf.
  assert (forall rej, status (handle_rejection debug rej) <> 200) as Hst.
  { intros rej Heq. pose proof (handle_rejection_status debug rej) as Hin. rewrite Heq in Hin. set_solver. }
  unfold route. destruct (base_filter _ _ _ _ _ _ _ _) as [[]|rej] eqn:Hb.
  - assert (forall P, (is_ok (content_length_limit max r) = false ->
      path_filter path r = Ok tt -> end_filter r = Ok tt -> post_filter r = Ok tt ->
      exact_ignore_case "content-type" "application/json" r = Ok tt -> P)) as H413.
    { intros P Hl H1 H2 H3 H4. unfold base_filter in Hb. rewrite H1, H2, H3, H4 in Hb. simp_result.
      by destruct (content_length_limit max r). }
    unfold main_filter, handle_body.
    destruct (from_slice (body_bytes r)) as [o|err] eqn:Hf.
    + destruct (Request_new display o allow) as [req|[i e|rj]] eqn:Hr.
      * destruct (handle_request _ _ _ _ _) as [[resp w'] ms]; simpl. split_and!; [|done|by apply H413].
        split; [intros _; split; [done|]|done]. intros (o' & [= <-] & Hn).
        assert (Request_new display o allow = Err (ERejection MissingId)) by
          (by apply Request_new_rejection; eauto). congruence.
      * split_and!; [|done|by apply H413]. simpl.
        split; [intros _; split; [done|]|done]. intros (o' & [= <-] & Hn).
        assert (Request_new display o allow = Err (ERejection MissingId)) by
          (by apply Request_new_rejection; eauto). congruence.
      * apply Request_new_rejection in Hr as [Hn ->]; [|by eauto]. split_and!; [|done|by apply H413].
        split; [by intros ?%Hst|]. intros [_ Hno]. by destruct Hno; eexists.
    + split_and!; [|done|by apply H413]. simpl. split; [intros _; split; [done|]|done]. naive_solver.
  - split_and!; [split; [by intros ?%Hst|by intros [? _]]|done|].
    intros Hl H1 H2 H3 H4. unfold base_filter in Hb. rewrite H1, H2, H3, H4 in Hb. simp_result.
    destruct (content_length_limit max r); [done|]. simpl in Hb. by injection Hb as <-.
Qed.

End RouteFacts.

(** The hypothesis on the parser holds for a parser that refuses duplicate
    keys; the limit filter refuses a body longer than the limit. *)
Definition demo_filter (r : list Byte.byte) : result Rejection unit := Ok tt.

Definition demo_limit (max : Z) (r : list Byte.byte) : result Rejection unit :=
  if Z.of_nat (length r) <=? max then Ok tt else Err [CWarp PayloadTooLarge "too large"].

Definition demo_parse (b : list Byte.byte) : result string Object :=
  match b with [] => Err "EOF while parsing a value" | _ => Ok demo_object end.

Lemma demo_parse_wf (b : list Byte.byte) (o : Object) : demo_parse b = Ok o -> object_wf o.
Proof.
  destruct b; simpl; [done|]. intros [= <-]. apply (bool_decide_unpack _). vm_compute. exact I.
Qed.

Lemma route_status_witness :
  status (route (fun w => w) (fun _ => EmptyString) demo_parse (fun _ => EmptyString) (fun _ => VNull)
    (fun r => r) (fun _ => demo_filter) demo_filter demo_filter (fun _ _ => demo_filter) demo_limit
    "rpc" 0 demo_handlers false [Byte.x7b] 0).1.1 = 413.
Proof.
  refine (proj2 (proj2 (route_status (fun w => w) (fun _ => EmptyString) demo_parse (fun _ => EmptyString)
    (fun _ => VNull) (fun r => r) (fun _ => demo_filter) demo_filter demo_filter (fun _ _ => demo_filter)
    demo_limit demo_parse_wf "rpc" 0 demo_handlers false [Byte.x7b] 0)) _ _ _ _ _); reflexivity.
Defined.
