(* ===== verification/SseData.v ===== *)
(** * Event data ([types/src/sse_data.rs], [types/src/filter.rs])

    The blockchain types of the [casper_types] crate are records with the
    fields the sidecar reads; hashes, keys and signatures are opaque texts.
    [SseData] is the event a node announces. *)

From S2P Require Import Prelude.

(** ** The blockchain types *)

Abbreviation Digest := string (only parsing).
Abbreviation BlockHash := string (only parsing).
Abbreviation DeployHash := string (only parsing).
Abbreviation PublicKey := string (only parsing).
Abbreviation Signature := string (only parsing).
Abbreviation Key := string (only parsing).

Record ProtocolVersion := mkVersion { major : Z; minor : Z; patch : Z }.

#[export] Instance ProtocolVersion_eq_dec : EqDecision ProtocolVersion.
Proof. solve_decision. Defined.

(** [SemVer] is ordered lexicographically. *)
Definition version_ltb (a b : ProtocolVersion) : bool :=
  (major a <? major b) ||
  ((major a =? major b) &&
   ((minor a <? minor b) || ((minor a =? minor b) && (patch a <? patch b)))).

Inductive TransactionHash :=
| TransactionHash_Deploy (h : DeployHash)
| TransactionHash_V1 (h : Digest).

#[export] Instance TransactionHash_eq_dec : EqDecision TransactionHash.
Proof. solve_decision. Defined.

Record Deploy := mkDeploy { deploy_hash : DeployHash; deploy_body : string }.

Record TransactionV1 := mkTransactionV1 { v1_hash : Digest; v1_body : string }.

Inductive Transaction :=
| Transaction_Deploy (d : Deploy)
| Transaction_V1 (t : TransactionV1).

Definition transaction_hash (t : Transaction) : TransactionHash :=
  match t with
  | Transaction_Deploy d => TransactionHash_Deploy (deploy_hash d)
  | Transaction_V1 t => TransactionHash_V1 (v1_hash t)
  end.

Inductive InitiatorAddr :=
| InitiatorAddr_PublicKey (k : PublicKey)
| InitiatorAddr_AccountHash (h : Digest).

Record EraReport := mkEraReport {
  report_equivocators : list PublicKey;
  report_rewards : gmap PublicKey Z;
  report_inactive_validators : list PublicKey;
}.

Record EraEndV1 := mkEraEndV1 {
  era_report : EraReport;
  v1_next_era_validator_weights : gmap PublicKey Z;
}.

Record EraEndV2 := mkEraEndV2 {
  equivocators : list PublicKey;
  inactive_validators : list PublicKey;
  next_era_validator_weights : gmap PublicKey Z;
  rewards : gmap PublicKey (list Z);
}.

Record BlockHeaderV1 := mkHeaderV1 {
  h1_parent_hash : BlockHash;
  h1_state_root_hash : Digest;
  h1_body_hash : Digest;
  h1_random_bit : bool;
  h1_accumulated_seed : Digest;
  h1_era_end : option EraEndV1;
  h1_timestamp : Z;
  h1_era_id : Z;
  h1_height : Z;
  h1_protocol_version : ProtocolVersion;
}.

Record CasperBlockBodyV1 := mkCasperBodyV1 {
  cb1_proposer : PublicKey;
  cb1_deploy_hashes : list DeployHash;
  cb1_transfer_hashes : list DeployHash;
}.

Record CasperBlockV1 := mkCasperBlockV1 {
  cv1_hash : BlockHash;
  cv1_header : BlockHeaderV1;
  cv1_body : CasperBlockBodyV1;
}.

Record BlockHeaderV2 := mkHeaderV2 {
  parent_hash : BlockHash;
  state_root_hash : Digest;
  body_hash : Digest;
  random_bit : bool;
  accumulated_seed : Digest;
  era_end : option EraEndV2;
  timestamp : Z;
  era_id : Z;
  height : Z;
  protocol_version : ProtocolVersion;
  proposer : PublicKey;
}.

(** The transactions of a block by lane, in the order of the lanes. *)
Record BlockBodyV2 := mkBodyV2 {
  transactions : list (Z * list TransactionHash);
}.

Record BlockV2 := mkBlockV2 {
  v2_hash : BlockHash;
  v2_header : BlockHeaderV2;
  v2_body : BlockBodyV2;
}.

Inductive Block :=
| Block_V1 (b : CasperBlockV1)
| Block_V2 (b : BlockV2).

Definition block_hash_of (b : Block) : BlockHash :=
  match b with Block_V1 b => cv1_hash b | Block_V2 b => v2_hash b end.

Definition block_height (b : Block) : Z :=
  match b with Block_V1 b => h1_height (cv1_header b) | Block_V2 b => height (v2_header b) end.

Record FinalitySignatureV := mkFinalitySignature {
  fs_block_hash : BlockHash;
  fs_era_id : Z;
  fs_signature : Signature;
  fs_public_key : PublicKey;
}.

Inductive FinalitySignature :=
| FinalitySignature_V1 (fs : FinalitySignatureV)
| FinalitySignature_V2 (fs : FinalitySignatureV).

(** *** Execution results *)

(** A value of the global state; payloads the translation copies or drops are
    opaque. [SNamedKey] carries the outcomes of [get_key] and [get_name]. *)
Inductive StoredValue :=
| SCLValue (v : string)
| SAccount (account_hash : Digest)
| SContractWasm
| SContract
| SContractPackage
| STransfer (t : string)
| SDeployInfo (d : string)
| SEraInfo (e : string)
| SBid (b : string)
| SWithdraw (w : string)
| SUnbonding (u : string)
| SNamedKey (key : result string Key) (name : result string string)
| SAddressableEntity
| SBidKind
| SSmartContract
| SByteCode
| SMessageTopic
| SMessage
| SPrepayment
| SEntryPoint
| SRawBytes.

Inductive TransformKindV2 :=
| V2Identity
| V2Write (v : StoredValue)
| V2AddInt32 (v : Z)
| V2AddUInt64 (v : Z)
| V2AddUInt128 (v : Z)
| V2AddUInt256 (v : Z)
| V2AddUInt512 (v : Z)
| V2AddKeys (keys : list (string * Key))
| V2Prune (k : Key)
| V2Failure (err : string).

Record TransformV2 := mkTransformV2 { t2_key : Key; t2_kind : TransformKindV2 }.

Record ExecutionResultV2 := mkResultV2 {
  effects : list TransformV2;
  error_message : option string;
  cost : Z;
}.

Record NamedKey := mkNamedKey { nk_name : string; nk_key : string }.

Inductive TransformKindV1 :=
| V1Identity
| V1WriteCLValue (v : string)
| V1WriteAccount (account_hash : Digest)
| V1WriteContractWasm
| V1WriteContract
| V1WriteContractPackage
| V1WriteDeployInfo (d : string)
| V1WriteEraInfo (e : string)
| V1WriteTransfer (t : string)
| V1WriteBid (b : string)
| V1WriteWithdraw (w : string)
| V1AddInt32 (v : Z)
| V1AddUInt64 (v : Z)
| V1AddUInt128 (v : Z)
| V1AddUInt256 (v : Z)
| V1AddUInt512 (v : Z)
| V1AddKeys (keys : list NamedKey)
| V1Failure (err : string)
| V1WriteUnbonding (u : string)
| V1Prune (k : Key).

Record TransformV1 := mkTransformV1 { t1_key : string; t1_transform : TransformKindV1 }.

Record ExecutionEffect := mkEffect {
  operations : list string;
  transforms : list TransformV1;
}.

Inductive ExecutionResultV1 :=
| V1ResultFailure (effect : ExecutionEffect) (transfers : list string) (cost : Z) (error_message : string)
| V1ResultSuccess (effect : ExecutionEffect) (transfers : list string) (cost : Z).

Inductive ExecutionResult :=
| ExecutionResult_V1 (r : ExecutionResultV1)
| ExecutionResult_V2 (r : ExecutionResultV2).

(** ** Events *)

(** [types/src/filter.rs:5-7], [Filter]: the node endpoint an event came from. *)
Inductive Filter :=
| Filter_Events.

(** [types/src/sse_data.rs:6-15], [EventFilter]. *)
Inductive EventFilter :=
| EF_ApiVersion
| EF_BlockAdded
| EF_TransactionAccepted
| EF_TransactionProcessed
| EF_TransactionExpired
| EF_Fault
| EF_FinalitySignature
| EF_Step.

#[export] Instance EventFilter_eq_dec : EqDecision EventFilter.
Proof. solve_decision. Defined.

(** [types/src/sse_data.rs:59-97], [SseData]. *)
Inductive SseData :=
| ApiVersion (v : ProtocolVersion)
| BlockAdded (block_hash : BlockHash) (block : Block)
| TransactionAccepted (t : Transaction)
| TransactionProcessed (transaction_hash : TransactionHash) (initiator_addr : InitiatorAddr)
    (timestamp : Z) (ttl : Z) (block_hash : BlockHash) (execution_result : ExecutionResult)
    (messages : list string)
| TransactionExpired (transaction_hash : TransactionHash)
| Fault (era_id : Z) (public_key : PublicKey) (timestamp : Z)
| FinalitySignatureEvent (fs : FinalitySignature)
| Step (era_id : Z) (execution_effects : string)
| Shutdown.

(** [types/src/sse_data.rs:101-113], [SseData::type_label]. *)
Definition type_label (d : SseData) : string :=
  match d with
  | ApiVersion _ => "ApiVersion"
  | BlockAdded _ _ => "BlockAdded"
  | TransactionAccepted _ => "TransactionAccepted"
  | TransactionProcessed _ _ _ _ _ _ _ => "TransactionProcessed"
  | TransactionExpired _ => "TransactionExpired"
  | Fault _ _ _ => "Fault"
  | FinalitySignatureEvent _ => "FinalitySignature"
  | Step _ _ => "Step"
  | Shutdown => "Shutdown"
  end.

(** [types/src/sse_data.rs:116-133], [SseData::should_include]. *)
Definition should_include (d : SseData) (filter : list EventFilter) : bool :=
  match d with
  | Shutdown => true
  | ApiVersion _ => bool_decide (EF_ApiVersion ∈ filter)
  | BlockAdded _ _ => bool_decide (EF_BlockAdded ∈ filter)
  | TransactionAccepted _ => bool_decide (EF_TransactionAccepted ∈ filter)
  | TransactionProcessed _ _ _ _ _ _ _ => bool_decide (EF_TransactionProcessed ∈ filter)
  | TransactionExpired _ => bool_decide (EF_TransactionExpired ∈ filter)
  | Fault _ _ _ => bool_decide (EF_Fault ∈ filter)
  | FinalitySignatureEvent _ => bool_decide (EF_FinalitySignature ∈ filter)
  | Step _ _ => bool_decide (EF_Step ∈ filter)
  end.

Definition is_api_version (d : SseData) : bool :=
  match d with ApiVersion _ => true | _ => false end.

(** [types/src/sse_data.rs:50-55], [deserialize]; [from_str] is the JSON
    deserialiser of [SseData]. *)
Definition deserialize (from_str : string -> result string SseData) (json_raw : string) : result string SseData :=
  map_err (fun err => "Error when deserializing SSE event from node: " +:+ err) (from_str json_raw).

(** [types/src/lib.rs:27-29], [SidecarEvent]. *)
Inductive SidecarEvent :=
| SidecarEvent_BlockAdded (block_hash : BlockHash) (height : Z).
