(* ===== verification/LegacySse.v ===== *)
(** * Emulation of the 1.x event stream ([types/src/legacy_sse_data])

    [LegacySseData_from] translates an event of a 2.x node to the form a 1.x
    client understands, or to nothing.  How keys and errors are printed is an
    argument, as is the identifier of the mint lane. *)

From S2P Require Import Prelude SseData.

(** [types/src/legacy_sse_data/structs.rs:70-74], [BlockBodyV1]. *)
Record BlockBodyV1 := mkBodyV1 {
  b1_proposer : PublicKey;
  b1_deploy_hashes : list DeployHash;
  b1_transfer_hashes : list DeployHash;
}.

(** [types/src/legacy_sse_data/structs.rs:9-13], [BlockV1]. *)
Record BlockV1 := mkBlockV1 {
  b1_hash : BlockHash;
  b1_header : BlockHeaderV1;
  b1_body : BlockBodyV1;
}.

(** [types/src/legacy_sse_data/structs.rs:76-88], [BlockBodyV1::new]. *)
Definition BlockBodyV1_new (proposer : PublicKey) (deploy_hashes transfer_hashes : list DeployHash) : BlockBodyV1 :=
  mkBodyV1 proposer deploy_hashes transfer_hashes.

(** [types/src/legacy_sse_data/structs.rs:17-53], [BlockV1::new]. *)
Definition BlockV1_new (parent_hash : BlockHash) (state_root_hash body_hash : Digest) (random_bit : bool)
    (accumulated_seed : Digest) (era_end : option EraEndV1) (timestamp era_id height : Z)
    (protocol_version : ProtocolVersion) (proposer : PublicKey) (block_hash : BlockHash)
    (deploy_hashes transfer_hashes : list DeployHash) : BlockV1 :=
  let body := BlockBodyV1_new proposer deploy_hashes transfer_hashes in
  let header := mkHeaderV1 parent_hash state_root_hash body_hash random_bit accumulated_seed era_end
                  timestamp era_id height protocol_version in
  mkBlockV1 block_hash header body.

(** [types/src/legacy_sse_data/structs.rs:55-66], [BlockV1::from]. *)
Definition BlockV1_from (hash : BlockHash) (header : BlockHeaderV1) (body : CasperBlockBodyV1) : BlockV1 :=
  mkBlockV1 hash header
    (BlockBodyV1_new (cb1_proposer body) (cb1_deploy_hashes body) (cb1_transfer_hashes body)).

(** [types/src/legacy_sse_data/mod.rs:52-57], [LegacyFinalitySignature]. *)
Record LegacyFinalitySignature := mkLegacySignature {
  lfs_block_hash : BlockHash;
  lfs_era_id : Z;
  lfs_signature : Signature;
  lfs_public_key : PublicKey;
}.

(** [types/src/legacy_sse_data/mod.rs:24-49], [LegacySseData]. *)
Inductive LegacySseData :=
| L_ApiVersion (v : ProtocolVersion)
| L_DeployAccepted (d : Deploy)
| L_DeployProcessed (deploy_hash : DeployHash) (account : PublicKey) (timestamp ttl : Z)
    (dependencies : list DeployHash) (block_hash : BlockHash) (execution_result : ExecutionResultV1)
| L_DeployExpired (deploy_hash : DeployHash)
| L_BlockAdded (block_hash : BlockHash) (block : BlockV1)
| L_Fault (era_id : Z) (public_key : PublicKey) (timestamp : Z)
| L_FinalitySignature (fs : LegacyFinalitySignature).

(** ** Blocks *)

(** The loop over the rewards of an era end: the sum of each validator's
    rewards, given up as soon as one does not fit in 64 bits. *)
Fixpoint translate_rewards (l : list (PublicKey * list Z)) (acc : gmap PublicKey Z) : option (gmap PublicKey Z) :=
  match l with
  | [] => Some acc
  | (k, v) :: l =>
      let amount := foldr Z.add 0 v in
      if decide (U64_MAX < amount) then None
      else translate_rewards l (<[k := amount]> acc)
  end.

(** [types/src/legacy_sse_data/translate_block_added.rs:29-50], [DefaultEraEndV2Translator]. *)
Definition translate_era_end (e : EraEndV2) : option EraEndV1 :=
  match translate_rewards (map_to_list (rewards e)) ∅ with
  | None => None
  | Some rewards =>
      Some (mkEraEndV1 (mkEraReport (equivocators e) rewards (inactive_validators e))
              (next_era_validator_weights e))
  end.

Definition deploy_hash_opt (h : TransactionHash) : option DeployHash :=
  match h with
  | TransactionHash_Deploy deploy_hash => Some deploy_hash
  | TransactionHash_V1 _ => None
  end.

Section Blocks.
(** The lane of native transfers, and [BlockBodyV2::mint]. *)
Context (MINT_LANE_ID : Z) (mint : BlockBodyV2 -> list TransactionHash).

(** [types/src/legacy_sse_data/translate_deploy_hashes.rs:15-32], [StandardDeployHashesTranslator]. *)
Definition standard_deploy_hashes (b : BlockBodyV2) : list DeployHash :=
  (filter (fun p => p.1 <> MINT_LANE_ID) (transactions b))
    ≫= (fun p => omap deploy_hash_opt p.2).

(** [types/src/legacy_sse_data/translate_deploy_hashes.rs:34-44], [TransferDeployHashesTranslator]. *)
Definition transfer_deploy_hashes (b : BlockBodyV2) : list DeployHash :=
  omap deploy_hash_opt (mint b).

(** [types/src/legacy_sse_data/translate_block_added.rs:63-106], [DefaultBlockV2Translator]. *)
Definition translate_block_v2 (block_v2 : BlockV2) : option BlockV1 :=
  let h := v2_header block_v2 in
  let era_end := era_end h ≫= translate_era_end in
  let deploy_hashes := standard_deploy_hashes (v2_body block_v2) in
  let transfer_hashes := transfer_deploy_hashes (v2_body block_v2) in
  Some (BlockV1_new (parent_hash h) (state_root_hash h) (body_hash h) (random_bit h)
          (accumulated_seed h) era_end (timestamp h) (era_id h) (height h) (protocol_version h)
          (proposer h) (v2_hash block_v2) deploy_hashes transfer_hashes).

(** [types/src/legacy_sse_data/translate_block_added.rs:139-158], [DefaultBlockAddedTranslator]. *)
Definition translate_block_added (block_hash : BlockHash) (block : Block) : option LegacySseData :=
  match block with
  | Block_V1 b => Some (L_BlockAdded block_hash (BlockV1_from (cv1_hash b) (cv1_header b) (cv1_body b)))
  | Block_V2 b => L_BlockAdded block_hash <$> translate_block_v2 b
  end.

End Blocks.

(** ** Execution results *)

Section Effects.
(** [Key::to_formatted_string] and the [Display] of a key. *)
Context (to_formatted_string key_to_string : Key -> string).

(** [types/src/legacy_sse_data/translate_execution_result.rs:103-113], [handle_named_keys]. *)
Definition handle_named_keys (keys : list (string * Key)) : TransformKindV1 :=
  V1AddKeys (map (fun p => mkNamedKey p.1 (to_formatted_string p.2)) keys).

(** [types/src/legacy_sse_data/translate_execution_result.rs:115-155], [maybe_tanslate_stored_value]. *)
Definition maybe_tanslate_stored_value (v : StoredValue) : option TransformKindV1 :=
  match v with
  | SCLValue cl_value => Some (V1WriteCLValue cl_value)
  | SAccount account_hash => Some (V1WriteAccount account_hash)
  | SContractWasm => Some V1WriteContractWasm
  | SContract => Some V1WriteContract
  | SContractPackage => Some V1WriteContractPackage
  | STransfer transfer_v1 => Some (V1WriteTransfer transfer_v1)
  | SDeployInfo deploy_info => Some (V1WriteDeployInfo deploy_info)
  | SEraInfo era_info => Some (V1WriteEraInfo era_info)
  | SBid bid => Some (V1WriteBid bid)
  | SWithdraw withdraw => Some (V1WriteWithdraw withdraw)
  | SUnbonding p => Some (V1WriteUnbonding p)
  | SNamedKey key_res name_res =>
      match key_res, name_res with
      | Ok key, Ok name => Some (V1AddKeys [mkNamedKey name (key_to_string key)])
      | _, _ => None
      end
  | SAddressableEntity | SBidKind | SSmartContract | SByteCode | SMessageTopic
  | SMessage | SPrepayment | SEntryPoint | SRawBytes => None
  end.

(** [types/src/legacy_sse_data/translate_execution_result.rs:87-101], [map_transform_v2]. *)
Definition map_transform_v2 (ex_ef : TransformV2) : option TransformKindV1 :=
  match t2_kind ex_ef with
  | V2Identity => Some V1Identity
  | V2Write stored_value => maybe_tanslate_stored_value stored_value
  | V2AddInt32 v => Some (V1AddInt32 v)
  | V2AddUInt64 v => Some (V1AddUInt64 v)
  | V2AddUInt128 v => Some (V1AddUInt128 v)
  | V2AddUInt256 v => Some (V1AddUInt256 v)
  | V2AddUInt512 v => Some (V1AddUInt512 v)
  | V2AddKeys keys => Some (handle_named_keys keys)
  | V2Prune key => Some (V1Prune key)
  | V2Failure err => Some (V1Failure err)
  end.

(** The loop over the transforms, with the vector [acc] built so far: a
    transform that cannot be translated clears it and ends the loop. *)
Fixpoint translate_transforms (l : list TransformV2) (acc : list TransformV1) : list TransformV1 :=
  match l with
  | [] => acc
  | ex_ef :: l =>
      match map_transform_v2 ex_ef with
      | Some transform_kind =>
          translate_transforms l
            (acc ++ [mkTransformV1 (to_formatted_string (t2_key ex_ef)) transform_kind])
      | None => []
      end
  end.

(** [types/src/legacy_sse_data/translate_execution_result.rs:60-85], [DefaultExecutionEffectsTranslator]. *)
Definition translate_effects (effects : list TransformV2) : option ExecutionEffect :=
  Some (mkEffect [] (translate_transforms effects [])).

(** [types/src/legacy_sse_data/translate_execution_result.rs:31-56], [DefaultExecutionResultV2Translator]. *)
Definition translate_execution_result (r : ExecutionResultV2) : option ExecutionResultV1 :=
  match translate_effects (effects r) with
  | Some effect =>
      match error_message r with
      | Some err_msg => Some (V1ResultFailure effect [] (cost r) err_msg)
      | None => Some (V1ResultSuccess effect [] (cost r))
      end
  | None => None
  end.

(** ** Events *)

(** [types/src/legacy_sse_data/mod.rs:60-67], [LegacyFinalitySignature::from_v1]. *)
Definition from_v1 (fs : FinalitySignatureV) : LegacyFinalitySignature :=
  mkLegacySignature (fs_block_hash fs) (fs_era_id fs) (fs_signature fs) (fs_public_key fs).

(** [types/src/legacy_sse_data/mod.rs:69-76], [LegacyFinalitySignature::from_v2]. *)
Definition from_v2 (fs : FinalitySignatureV) : LegacyFinalitySignature :=
  mkLegacySignature (fs_block_hash fs) (fs_era_id fs) (fs_signature fs) (fs_public_key fs).

(** [types/src/legacy_sse_data/mod.rs:127-136], [translate_finality_signature]. *)
Definition translate_finality_signature (fs : FinalitySignature) : LegacySseData :=
  match fs with
  | FinalitySignature_V1 v1 => L_FinalitySignature (from_v1 v1)
  | FinalitySignature_V2 v2 => L_FinalitySignature (from_v2 v2)
  end.

(** [types/src/legacy_sse_data/mod.rs:138-145], [maybe_translate_deploy_expired]. *)
Definition maybe_translate_deploy_expired (h : TransactionHash) : option LegacySseData :=
  match h with
  | TransactionHash_Deploy deploy_hash => Some (L_DeployExpired deploy_hash)
  | TransactionHash_V1 _ => None
  end.

(** [types/src/legacy_sse_data/mod.rs:147-181], [maybe_translate_transaction_processed]. *)
Definition maybe_translate_transaction_processed (h : TransactionHash) (initiator_addr : InitiatorAddr)
    (timestamp ttl : Z) (block_hash : BlockHash) (execution_result : ExecutionResult) : option LegacySseData :=
  match h with
  | TransactionHash_Deploy deploy_hash =>
      match initiator_addr with
      | InitiatorAddr_PublicKey account =>
          let execution_result :=
            match execution_result with
            | ExecutionResult_V1 r => Some r
            | ExecutionResult_V2 r => translate_execution_result r
            end in
          (fun r => L_DeployProcessed deploy_hash account timestamp ttl [] block_hash r) <$> execution_result
      | InitiatorAddr_AccountHash _ => None
      end
  | TransactionHash_V1 _ => None
  end.

(** [types/src/legacy_sse_data/mod.rs:183-188], [maybe_translate_transaction_accepted]. *)
Definition maybe_translate_transaction_accepted (t : Transaction) : option LegacySseData :=
  match t with
  | Transaction_Deploy deploy => Some (L_DeployAccepted deploy)
  | Transaction_V1 _ => None
  end.

Context (MINT_LANE_ID : Z) (mint : BlockBodyV2 -> list TransactionHash).

(** [types/src/legacy_sse_data/mod.rs:81-124], [LegacySseData::from]. *)
Definition LegacySseData_from (data : SseData) : option LegacySseData :=
  match data with
  | ApiVersion protocol_version => Some (L_ApiVersion protocol_version)
  | Shutdown | Step _ _ => None
  | BlockAdded block_hash block => translate_block_added MINT_LANE_ID mint block_hash block
  | TransactionAccepted transaction => maybe_translate_transaction_accepted transaction
  | TransactionProcessed h initiator_addr timestamp ttl block_hash execution_result _ =>
      maybe_translate_transaction_processed h initiator_addr timestamp ttl block_hash execution_result
  | TransactionExpired h => maybe_translate_deploy_expired h
  | Fault era_id public_key timestamp => Some (L_Fault era_id public_key timestamp)
  | FinalitySignatureEvent fs => Some (translate_finality_signature fs)
  end.

End Effects.

(** ** Era ends *)

Definition reward_total (v : list Z) : Z := foldr Z.add 0 v.

Lemma translate_rewards_fold (l : list (PublicKey * list Z)) (acc : gmap PublicKey Z) :
  translate_rewards l acc =
    if decide (Forall (fun p => reward_total p.2 <= U64_MAX) l)
    then Some (foldl (fun m p => <[p.1 := reward_total p.2]> m) acc l)
    else None.
Proof.
  revert acc. induction l as [|[k v] l IH]; intros acc; simpl; [done|].
  fold (reward_total v). rewrite IH.
  destruct (decide (U64_MAX < reward_total v)).
  - rewrite decide_False; [done|]. intros [? _]%Forall_cons. simpl in *. lia.
  - destruct (decide (Forall _ l)) as [Hl|Hl].
    + rewrite decide_True; [done|]. constructor; [simpl; lia|done].
    + rewrite decide_False; [done|]. by intros [_ ?]%Forall_cons.
Qed.

Lemma foldl_insert_lookup (l : list (PublicKey * list Z)) (acc : gmap PublicKey Z) (k : PublicKey) :
  NoDup l.*1 ->
  foldl (fun m p => <[p.1 := reward_total p.2]> m) acc l !! k =
    match (list_to_map l : gmap PublicKey (list Z)) !! k with
    | Some v => Some (reward_total v)
    | None => acc !! k
    end.
Proof.
  revert acc. induction l as [|[k' v] l IH]; intros acc Hd; simpl.
  - by rewrite lookup_empty.
  - apply NoDup_cons in Hd as [Hk Hd]. rewrite IH by done. simpl.
    destruct (decide (k' = k)) as [->|Hne].
    + rewrite (not_elem_of_list_to_map_1 l k Hk). by rewrite !lookup_insert_eq.
    + rewrite !(lookup_insert_ne _ k' k) by done. done.
Qed.

(** An era end is translated exactly when the total reward of every
    validator fits in 64 bits, and then each reward is that total, computed
    without loss; everything else is carried over. *)
Theorem translate_era_end_spec (e : EraEndV2) (e1 : EraEndV1) :
  translate_era_end e = Some e1 <->
    (forall k v, rewards e !! k = Some v -> reward_total v <= U64_MAX) /\
    e1 = mkEraEndV1
           (mkEraReport (equivocators e) (reward_total <$> rewards e) (inactive_validators e))
           (next_era_validator_weights e).
Proof.
  assert (foldl (fun m p => <[p.1 := reward_total p.2]> m) ∅ (map_to_list (rewards e))
          = reward_total <$> rewards e) as Hm.
  { apply map_eq. intros k. rewrite foldl_insert_lookup by apply NoDup_fst_map_to_list.
    rewrite list_to_map_to_list, lookup_fmap. by destruct (rewards e !! k); simpl. }
  unfold translate_era_end. rewrite translate_rewards_fold.
  assert (Forall (fun p => reward_total p.2 <= U64_MAX) (map_to_list (rewards e)) <->
          forall k v, rewards e !! k = Some v -> reward_total v <= U64_MAX) as Hall.
  { rewrite Forall_forall. split.
    - intros H k v Hk. apply (H (k, v)). by apply elem_of_map_to_list.
    - intros H [k v] Hin. apply (H k v). by apply elem_of_map_to_list. }
  rewrite <- Hall. case_decide; rewrite ?Hm; naive_solver.
Qed.

(** ** Deploy hashes *)

(** The deploy hashes of a block are split over the two lists of the 1.x
    body: the list of a 1.x block's deploys and that of its transfers hold
    together every deploy hash of the block exactly as often as the block does,
    transfers are those of the mint lane, and no hash of a version 1
    transaction occurs. *)
Theorem deploy_hashes_partition (MINT_LANE_ID : Z) (mint : BlockBodyV2 -> list TransactionHash) (b : BlockBodyV2) :
  mint b = filter (fun p => p.1 = MINT_LANE_ID) (transactions b) ≫= snd ->
  standard_deploy_hashes MINT_LANE_ID b ++ transfer_deploy_hashes mint b
    ≡ₚ omap deploy_hash_opt (transactions b ≫= snd) /\
  forall h, h ∈ transfer_deploy_hashes mint b <->
    exists hs, (MINT_LANE_ID, hs) ∈ transactions b /\ TransactionHash_Deploy h ∈ hs.
Proof.
  intros Hmint. unfold standard_deploy_hashes, transfer_deploy_hashes. rewrite Hmint. split.
  - clear Hmint. induction (transactions b) as [|[lane hs] l IH]; [done|].
    rewrite !filter_cons. simpl. repeat case_decide; simplify_eq; simpl; rewrite ?omap_app, <- ?IH.
    + by rewrite <- app_assoc.
    + apply Permutation_app_swap_app.
  - intros h. rewrite list_elem_of_omap. setoid_rewrite list_elem_of_bind. split.
    + intros ([h'|h'] & ([lane hs] & Hin & Hl%list_elem_of_filter) & Heq); simplify_eq/=.
      destruct Hl as [? Hl]; simplify_eq/=. by exists hs.
    + intros (hs & Hl & Hh). exists (TransactionHash_Deploy h). split; [|done].
      exists (MINT_LANE_ID, hs). split; [done|]. by apply list_elem_of_filter.
Qed.

Lemma deploy_hashes_partition_witness :
  let b := mkBodyV2 [(0, [TransactionHash_Deploy "a"; TransactionHash_V1 "x"]); (2, [TransactionHash_Deploy "b"])] in
  standard_deploy_hashes 0 b = ["b"] /\
  standard_deploy_hashes 0 b ++
  transfer_deploy_hashes (fun b => filter (fun p => p.1 = 0) (transactions b) ≫= snd) b ≡ₚ ["a"; "b"].
Proof.
  split; [reflexivity|].
  apply (deploy_hashes_partition 0 (fun b => filter (fun p => p.1 = 0) (transactions b) ≫= snd)).
  reflexivity.
Defined.

(** ** Execution effects *)

Section EffectFacts.
Context (to_formatted_string key_to_string : Key -> string).

Definition transform_v1 (t : TransformV2) : option TransformV1 :=
  mkTransformV1 (to_formatted_string (t2_key t)) <$> map_transform_v2 to_formatted_string key_to_string t.

Lemma translate_transforms_mapM (l : list TransformV2) (acc : list TransformV1) :
  translate_transforms to_formatted_string key_to_string l acc =
    match mapM transform_v1 l with Some ts => acc ++ ts | None => [] end.
Proof.
  revert acc. induction l as [|t l IH]; intros acc; simpl; [by rewrite app_nil_r|].
  destruct (map_transform_v2 _ _ t) as [kind|] eqn:Hk; rewrite ?IH.
  - assert (transform_v1 t = Some (mkTransformV1 (to_formatted_string (t2_key t)) kind)) as ->
      by (unfold transform_v1; by rewrite Hk).
    simpl. destruct (mapM _ l); simpl; [|done]. by rewrite <- app_assoc.
  - assert (transform_v1 t = None) as -> by (unfold transform_v1; by rewrite Hk). done.
Qed.

(** The effects of an execution are translated all or nothing: either every
    transform has a 1.x form and the result lists these forms in order, or the
    result lists none, never a proper part of them; the outcome and the cost
    are kept. *)
Theorem translate_execution_result_effects (r : ExecutionResultV2) :
  exists effect,
    translate_execution_result to_formatted_string key_to_string r =
      Some (match error_message r with
            | Some msg => V1ResultFailure effect [] (cost r) msg
            | None => V1ResultSuccess effect [] (cost r)
            end) /\
    operations effect = [] /\
    (Forall2 (fun t t1 => transform_v1 t = Some t1) (effects r) (transforms effect) \/
     (exists t, t ∈ effects r /\ map_transform_v2 to_formatted_string key_to_string t = None) /\
     transforms effect = []).
Proof.
  unfold translate_execution_result, translate_effects. rewrite translate_transforms_mapM.
  eexists. split; [by destruct (error_message r)|]. split; [done|]. simpl.
  destruct (mapM transform_v1 (effects r)) as [ts|] eqn:Hm.
  - left. by apply mapM_Some in Hm.
  - right. split; [|done]. apply mapM_None, Exists_exists in Hm as (t & Hin & Ht).
    exists t. split; [done|]. unfold transform_v1 in Ht. by apply fmap_None in Ht.
Qed.

End EffectFacts.

(** ** Events *)

(** The events a 1.x client can be told about. *)
Definition translatable (d : SseData) : bool :=
  match d with
  | ApiVersion _ | BlockAdded _ _ | Fault _ _ _ | FinalitySignatureEvent _ => true
  | TransactionAccepted (Transaction_Deploy _) => true
  | TransactionProcessed (TransactionHash_Deploy _) (InitiatorAddr_PublicKey _) _ _ _ _ _ => true
  | TransactionExpired (TransactionHash_Deploy _) => true
  | _ => false
  end.

(** The deploy a 1.x event is about. *)
Definition legacy_deploy (l : LegacySseData) : option DeployHash :=
  match l with
  | L_DeployAccepted d => Some (deploy_hash d)
  | L_DeployProcessed h _ _ _ _ _ _ | L_DeployExpired h => Some h
  | _ => None
  end.

(** The transaction an event is about. *)
Definition event_transaction (d : SseData) : option TransactionHash :=
  match d with
  | TransactionAccepted t => Some (transaction_hash t)
  | TransactionProcessed h _ _ _ _ _ _ | TransactionExpired h => Some h
  | _ => None
  end.

(** An event has a 1.x form exactly when it is not a step, a shutdown or about a
    transaction that is not a deploy sent by a public key; the form is about the very
    deploy of the event. *)
Lemma translation_total (fmt disp : Key -> string) (MINT_LANE_ID : Z)
    (mint : BlockBodyV2 -> list TransactionHash) (d : SseData) :
  (is_Some (LegacySseData_from fmt disp MINT_LANE_ID mint d) <-> translatable d = true) /\
  forall l, LegacySseData_from fmt disp MINT_LANE_ID mint d = Some l ->
    event_transaction d = TransactionHash_Deploy <$> legacy_deploy l.
Proof.
  destruct d as [| ? []|[]|[] [] ? ? ? [r|r] ?|[]| |[]| |]; simpl; try by (split; [split|naive_solver]).
  destruct (translate_execution_result fmt disp r) eqn:Hr; simpl; [by split; [split|naive_solver]|].
  by destruct (error_message r) eqn:He; unfold translate_execution_result in Hr; simpl in Hr; rewrite He in Hr.
Qed.
