(* ===== verification/EventIndexer.v ===== *)
(** * The event index ([event_stream_server/event_indexer.rs])

    The counter of event identifiers, a 32-bit word that is read from a cache
    file at start-up and written back when the server is dropped. *)

From S2P Require Import Prelude.

(** ** Little-endian bytes *)

(** [u32::to_le_bytes]. *)
Definition to_le_bytes (w : Z) : list Z :=
  [w mod 256; Z.shiftr w 8 mod 256; Z.shiftr w 16 mod 256; Z.shiftr w 24 mod 256].

(** [u32::from_le_bytes]. *)
Fixpoint from_le_bytes (bs : list Z) : Z :=
  match bs with
  | [] => 0
  | b :: bs => b + 256 * from_le_bytes bs
  end.

Definition is_byte (b : Z) : Prop := 0 <= b <= U8_MAX.

(** ** The indexer *)

(** [event_sidecar/src/event_stream_server/event_indexer.rs:13-16], [EventIndexer]. *)
Record EventIndexer := mkIndexer {
  index : Z;
  persistent_cache : string;
}.

(** [event_sidecar/src/event_stream_server/event_indexer.rs:20-55], [EventIndexer::new]:
    [create_dir] and [read] are the outcomes of [fs::create_dir_all] and of
    [fs::read] of the cache file. *)
Definition EventIndexer_new (storage_path : string) (create_dir : result string unit)
    (read : string -> result string (list Z)) : result string EventIndexer :=
  let? _ := create_dir in
  let persistent_cache := storage_path +:+ "/" +:+ "sse_index" in
  let bytes := to_le_bytes 0 in
  let bytes :=
    match read persistent_cache with
    | Err _ => bytes
    | Ok cached_bytes =>
        if decide (length cached_bytes = length bytes) then cached_bytes else bytes
    end in
  Ok (mkIndexer (from_le_bytes bytes) persistent_cache).

(** [event_sidecar/src/event_stream_server/event_indexer.rs:57-61], [EventIndexer::next_index]. *)
Definition next_index (self : EventIndexer) : Z * EventIndexer :=
  (index self, mkIndexer (u32_wrapping_add (index self) 1) (persistent_cache self)).

(** [event_sidecar/src/event_stream_server/event_indexer.rs:69-85], [Drop for EventIndexer]:
    the file and the bytes that are written to it. *)
Definition drop_writes (self : EventIndexer) : string * list Z :=
  (persistent_cache self, to_le_bytes (index self)).

(** ** Lemmas *)

Lemma to_from_le_bytes (w : Z) : is_u32 w -> from_le_bytes (to_le_bytes w) = w.
Proof.
  intros H. unfold to_le_bytes, from_le_bytes. rewrite !Z.shiftr_div_pow2 by lia.
  change (2 ^ 8) with 256. change (2 ^ 16) with 65536. change (2 ^ 24) with 16777216. word_lia.
Qed.

Lemma from_le_bytes_range (b0 b1 b2 b3 : Z) :
  is_byte b0 -> is_byte b1 -> is_byte b2 -> is_byte b3 -> is_u32 (from_le_bytes [b0; b1; b2; b3]).
Proof. unfold is_byte, is_u32, U8_MAX, U32_MAX. simpl. lia. Qed.

Arguments to_le_bytes : simpl never.
Arguments from_le_bytes : simpl never.

Lemma length_to_le_bytes (w : Z) : length (to_le_bytes w) = 4%nat.
Proof. done. Qed.

(** The identifiers handed out by [n] calls, and the indexer they leave. *)
Fixpoint next_indices (n : nat) (self : EventIndexer) : list Z * EventIndexer :=
  match n with
  | O => ([], self)
  | S n =>
      let (i, self) := next_index self in
      let (l, self) := next_indices n self in
      (i :: l, self)
  end.

(** The [n] identifiers from [f] on. *)
Definition ids_from (f : Z) (n : nat) : list Z := map (fun i => wrap_u32 (f + Z.of_nat i)) (seq 0 n).

Lemma ids_from_S (f : Z) (n : nat) : ids_from f (S n) = wrap_u32 f :: ids_from (f + 1) n.
Proof.
  unfold ids_from. simpl. rewrite Z.add_0_r. f_equal. rewrite <- seq_shift, map_map.
  apply map_ext. intros i. f_equal. lia.
Qed.

Lemma ids_from_wrap (f : Z) (n : nat) : ids_from (wrap_u32 f) n = ids_from f n.
Proof. apply map_ext. intros i. apply wrap_u32_idemp. Qed.

Lemma ids_from_app (f : Z) (n m : nat) : ids_from f (n + m) = ids_from f n ++ ids_from (f + Z.of_nat n) m.
Proof.
  revert f. induction n as [|n IH]; intros f; cbn [Nat.add].
  - by rewrite Z.add_0_r.
  - rewrite !ids_from_S, IH. cbn [app]. do 3 f_equal. lia.
Qed.

Lemma length_ids_from (f : Z) (n : nat) : length (ids_from f n) = n.
Proof. unfold ids_from. by rewrite length_map, length_seq. Qed.

(** Fewer than 2^32 consecutive identifiers are distinct. *)
Lemma NoDup_ids_from (f : Z) (n : nat) : Z.of_nat n <= 4294967296 -> NoDup (ids_from f n).
Proof.
  intros Hn. unfold ids_from. change (map ?f ?l) with (f <$> l).
  apply NoDup_fmap_2_strong; [|apply NoDup_seq].
  intros i j Hi%elem_of_seq Hj%elem_of_seq Heq. unfold_words.
  Z.to_euclidean_division_equations. lia.
Qed.

Lemma next_indices_spec (n : nat) (self : EventIndexer) :
  is_u32 (index self) ->
  next_indices n self =
    (ids_from (index self) n,
     mkIndexer (wrap_u32 (index self + Z.of_nat n)) (persistent_cache self)).
Proof.
  revert self. induction n as [|n IH]; intros [i c] Hi; simpl.
  - f_equal. f_equal. by rewrite Z.add_0_r, wrap_u32_small.
  - rewrite IH by apply wrap_u32_range. simpl. rewrite ids_from_S, (wrap_u32_small i) by done.
    unfold u32_wrapping_add. rewrite ids_from_wrap, wrap_u32_idemp. do 3 f_equal. lia.
Qed.



(** Whatever the cache file holds, the indexer starts with a 32-bit index:
    the stored one if the file has exactly four bytes, and 0 if it is missing,
    unreadable or of another size; start-up fails only if the directory cannot
    be created. *)
Theorem EventIndexer_new_total (path : string) (create_dir : result string unit)
    (read : string -> result string (list Z)) :
  (forall f bs, read f = Ok bs -> Forall is_byte bs) ->
  match EventIndexer_new path create_dir read with
  | Ok self => create_dir = Ok tt /\ is_u32 (index self) /\
      match read (path +:+ "/" +:+ "sse_index") with
      | Ok [b0; b1; b2; b3] => index self = b0 + 256 * b1 + 65536 * b2 + 16777216 * b3
      | _ => index self = 0
      end
  | Err e => create_dir = Err e
  end.
Proof.
  intros Hread. unfold EventIndexer_new. destruct create_dir as [[]|e]; simp_result; [|done].
  assert (is_u32 (from_le_bytes (to_le_bytes 0)) /\ from_le_bytes (to_le_bytes 0) = 0) as H0
    by (rewrite to_from_le_bytes; word_lia).
  split; [done|]. specialize (Hread (path +:+ "/" +:+ "sse_index")).
  destruct (read _) as [bs|]; [|done].
  specialize (Hread bs eq_refl).
  destruct bs as [|b0 [|b1 [|b2 [|b3 [|b4 bs]]]]]; simpl; try exact H0.
  rewrite !Forall_cons in Hread. destruct Hread as (?&?&?&?&_).
  split; [by apply from_le_bytes_range|]. unfold from_le_bytes. lia.
Qed.
