(* ===== verification/EventBuffer.v ===== *)
(** * Buffering and replaying events ([event_stream_server/http_server.rs])

    The task between the node's events and the clients' streams.  It keeps the
    last events in a ring buffer and replays them to a new subscriber from the
    identifier the subscriber asks for.  Identifiers are 32-bit words and wrap
    around.  The ring buffer of the [wheelbuf] crate is an interface. *)

From S2P Require Import Prelude SseData EventIndexer.

(** ** Events of the stream *)

(** [event_sidecar/src/event_stream_server/sse_server.rs:118-130], [ServerSentEvent]. *)
Record ServerSentEvent := mkEvent {
  id : option Z;
  data : option SseData;
  comment : option string;
  inbound_filter : option Filter;
}.

(** [event_sidecar/src/event_stream_server/sse_server.rs:65-65], [LEGACY_ENDPOINT_NOTICE]. *)
Definition LEGACY_ENDPOINT_NOTICE : string :=
  "This endpoint is NOT a 1 to 1 representation of events coming off of the node. Some events are not transformable to legacy format. Please consult the documentation for details. This endpoint is deprecated and will be removed in a future release. Please migrate to the /events endpoint instead.".

(** [event_sidecar/src/event_stream_server/sse_server.rs:134-141], [ServerSentEvent::initial_event]. *)
Definition initial_event (client_api_version : ProtocolVersion) : ServerSentEvent :=
  mkEvent None (Some (ApiVersion client_api_version)) None None.

(** [event_sidecar/src/event_stream_server/sse_server.rs:142-149], [ServerSentEvent::legacy_comment_event]. *)
Definition legacy_comment_event : ServerSentEvent :=
  mkEvent None None (Some LEGACY_ENDPOINT_NOTICE) None.

(** [event_sidecar/src/event_stream_server/sse_server.rs:155-164], [BroadcastChannelMessage]. *)
Inductive BroadcastChannelMessage :=
| SseMessage (e : ServerSentEvent)
| ShutdownMessage.

(** [event_sidecar/src/event_stream_server/sse_server.rs:196-203], [NewSubscriberInfo]: the sender
    of the initial events is the list the registration returns. *)
Record NewSubscriberInfo := mkSubscriber {
  start_from : option Z;
  enable_legacy_filters : bool;
}.

(** [InboundData]: the identifier, the data and the endpoint it came from. *)
Abbreviation InboundData := (option Z * SseData * option Filter)%type.

(** A buffered event with the protocol version it was announced under. *)
Abbreviation Buffered := (ProtocolVersion * ServerSentEvent)%type.

(** ** The ring buffer *)

(** What [wheelbuf::WheelBuf] promises: it starts empty over the given number
    of slots, and a push keeps the newest elements; [iter] goes from the oldest
    to the newest. *)
Class WheelBuf (B E : Type) := {
  wb_new : nat -> B;
  wb_push : E -> B -> B;
  wb_iter : B -> list E;
  wb_capacity : B -> nat;
  wb_iter_new : forall n, wb_iter (wb_new n) = [];
  wb_capacity_new : forall n, wb_capacity (wb_new n) = n;
  wb_capacity_push : forall e b, wb_capacity (wb_push e b) = wb_capacity b;
  wb_iter_push : forall e b, (0 < wb_capacity b)%nat ->
    wb_iter (wb_push e b) = last_n (wb_capacity b) (wb_iter b ++ [e]);
}.

(** A ring buffer as the list of its elements. *)
#[export] Program Instance list_wheel {E} : WheelBuf (nat * list E) E := {|
  wb_new := fun n => (n, []);
  wb_push := fun e b => (b.1, last_n b.1 (b.2 ++ [e]));
  wb_iter := fun b => b.2;
  wb_capacity := fun b => b.1;
|}.
Solve All Obligations with done.

(** ** Operations *)

Section HttpServer.
Context {B : Type} `{WB : WheelBuf B Buffered}.

(** [event_sidecar/src/event_stream_server/http_server.rs:71-82], [build_buffer]. *)
Definition build_buffer (event_stream_buffer_length : Z) : B :=
  wb_new (Z.to_nat event_stream_buffer_length).

(** [event_sidecar/src/event_stream_server/http_server.rs:99-138], [handle_incoming_data]: the new
    version and buffer with the message that is broadcast, or the end of the
    loop when the channel of data is closed. *)
Definition handle_incoming_data (maybe_data : option InboundData)
    (latest_protocol_version : option ProtocolVersion) (buffer : B)
    : result unit (option ProtocolVersion * B * BroadcastChannelMessage) :=
  match maybe_data with
  | Some (maybe_event_index, data, inbound_filter) =>
      let event := mkEvent maybe_event_index (Some data) None inbound_filter in
      let '(latest_protocol_version, buffer) :=
        match data with
        | ApiVersion v => (Some v, buffer)
        | _ =>
            match latest_protocol_version with
            | None => (latest_protocol_version, buffer)
            | Some v => (latest_protocol_version, wb_push (v, event) buffer)
            end
        end in
      Ok (latest_protocol_version, buffer, SseMessage event)
  | None => Err tt
  end.

(** The test of the [skip_while] closure. *)
Definition before_start (in_wraparound_zone : bool) (buffer_size start_index : Z) (i : Z) : bool :=
  if in_wraparound_zone then
    u32_wrapping_add i buffer_size <? u32_wrapping_add start_index buffer_size
  else i <? start_index.

(** [skip_while] with that closure; [None] is the panic of [unwrap] on an event
    without identifier. *)
Fixpoint skip_before (in_wraparound_zone : bool) (buffer_size start_index : Z) (l : list Buffered)
    : option (list Buffered) :=
  match l with
  | [] => Some []
  | tuple :: l' =>
      i ← id tuple.2;
      if before_start in_wraparound_zone buffer_size start_index i
      then skip_before in_wraparound_zone buffer_size start_index l'
      else Some l
  end.

(** The body of the loop: what is sent for the remaining tuples, given the
    version announced last. *)
Fixpoint send_tuples (observed_protocol_version : option ProtocolVersion) (l : list Buffered)
    : list ServerSentEvent :=
  match l with
  | [] => []
  | (protocol, event) :: l =>
      (if decide (observed_protocol_version = Some protocol) then [] else [initial_event protocol])
        ++ event :: send_tuples (Some protocol) l
  end.

(** [event_sidecar/src/event_stream_server/http_server.rs:192-205], [send_api_version_if_necessary]. *)
Definition send_api_version_if_necessary (observed_events : bool)
    (latest_protocol_version : option ProtocolVersion) : list ServerSentEvent :=
  if observed_events then []
  else match latest_protocol_version with
       | None => []
       | Some v => [initial_event v]
       end.

(** [buffer.iter().next().is_some_and(..)]: the oldest identifier is close to
    the point where identifiers wrap around. *)
Definition wraparound_zone (buffer_size : Z) (l : list Buffered) : option bool :=
  match l with
  | [] => Some false
  | tuple :: _ => i ← id tuple.2; Some ((U32_MAX - buffer_size <? i) || (i <? buffer_size))
  end.

(** [event_sidecar/src/event_stream_server/http_server.rs:140-190], [register_new_subscriber]: the
    initial events sent to the subscriber, or [None] if the task panics. *)
Definition register_new_subscriber (subscriber : NewSubscriberInfo) (buffer : B)
    (latest_protocol_version : option ProtocolVersion) : option (list ServerSentEvent) :=
  let legacy := if enable_legacy_filters subscriber then [legacy_comment_event] else [] in
  match start_from subscriber with
  | Some start_index =>
      let buffer_size := wrap_u32 (Z.of_nat (wb_capacity buffer)) in
      in_wraparound_zone ← wraparound_zone buffer_size (wb_iter buffer);
      tuples ← skip_before in_wraparound_zone buffer_size start_index (wb_iter buffer);
      let observed_events := negb (bool_decide (length tuples = 0%nat)) in
      Some (legacy ++ send_tuples None tuples ++
            send_api_version_if_necessary observed_events latest_protocol_version)
  | None => Some (legacy ++ send_api_version_if_necessary false latest_protocol_version)
  end.

End HttpServer.

(** ** The invariant of the buffer

    [next] is the identifier the indexer hands out next. *)

Section BufferInvariant.
Context {B : Type} `{WB : WheelBuf B Buffered}.

Definition buffered_ids (l : list Buffered) : list (option Z) := map (fun t => id t.2) l.

Definition plain_event (e : ServerSentEvent) : Prop :=
  comment e = None /\ exists d, data e = Some d /\ is_api_version d = false.

(** The buffered events are the last ones announced, with consecutive
    identifiers up to the next one; nothing is buffered before a version is
    known. *)
Record buffer_inv (latest : option ProtocolVersion) (b : B) (next : Z) : Prop := {
  inv_capacity : (0 < wb_capacity b)%nat;
  inv_length : (length (wb_iter b) <= wb_capacity b)%nat;
  inv_latest : latest = None -> wb_iter b = [];
  inv_ids : buffered_ids (wb_iter b) =
    Some <$> ids_from (next - Z.of_nat (length (wb_iter b))) (length (wb_iter b));
  inv_plain : Forall (fun t => plain_event t.2) (wb_iter b);
}.

(** What [EventStreamServer::broadcast] puts on the channel: a version without
    identifier, anything else with the next one. *)
Definition announced_with (d : InboundData) (next : Z) : Prop :=
  match d with
  | (None, ApiVersion _, _) => True
  | (Some i, d, _) => is_api_version d = false /\ i = wrap_u32 next
  | _ => False
  end.

Definition next_after (d : InboundData) (next : Z) : Z :=
  match d with
  | (Some _, _, _) => next + 1
  | _ => next
  end.

Lemma ids_from_lookup (f : Z) (n i : nat) :
  (i < n)%nat -> ids_from f n !! i = Some (wrap_u32 (f + Z.of_nat i)).
Proof.
  intros Hi. unfold ids_from. change (map ?f ?l) with (f <$> l).
  rewrite list_lookup_fmap, lookup_seq_lt by done. done.
Qed.

Lemma drop_ids_from (f : Z) (n k : nat) :
  (k <= n)%nat -> drop k (ids_from f n) = ids_from (f + Z.of_nat k) (n - k).
Proof.
  intros Hk. replace n with (k + (n - k))%nat at 1 by lia. rewrite ids_from_app.
  rewrite drop_app_length' by (by rewrite length_ids_from). done.
Qed.

Lemma buffered_ids_push (b : B) (e : Buffered) (next : Z) :
  (0 < wb_capacity b)%nat -> (length (wb_iter b) <= wb_capacity b)%nat ->
  buffered_ids (wb_iter b) =
    Some <$> ids_from (next - Z.of_nat (length (wb_iter b))) (length (wb_iter b)) ->
  id e.2 = Some (wrap_u32 next) ->
  let l := wb_iter (wb_push e b) in
  (length l <= wb_capacity b)%nat /\
  buffered_ids l = Some <$> ids_from (next + 1 - Z.of_nat (length l)) (length l).
Proof.
  intros Hc Hl Hids He. cbv zeta. rewrite wb_iter_push by done.
  set (l := wb_iter b) in *. set (c := wb_capacity b) in *.
  assert (buffered_ids (l ++ [e]) =
    Some <$> ids_from (next - Z.of_nat (length l)) (length l + 1)) as Hall.
  { unfold buffered_ids in *. rewrite map_app, Hids, ids_from_app, fmap_app. f_equal.
    rewrite ids_from_S. simpl. rewrite He. do 3 f_equal. lia. }
  rewrite length_last_n, length_app. simpl. split; [lia|].
  unfold last_n, buffered_ids in *. rewrite length_app. simpl.
  change (map ?f ?l) with (f <$> l) in *. rewrite fmap_drop, Hall, <- fmap_drop.
  rewrite drop_ids_from by lia. do 2 f_equal; lia.
Qed.

Lemma wb_push_plain (b : B) (e : Buffered) :
  (0 < wb_capacity b)%nat -> plain_event e.2 ->
  Forall (fun t => plain_event t.2) (wb_iter b) ->
  Forall (fun t => plain_event t.2) (wb_iter (wb_push e b)).
Proof.
  intros Hc He Hb. rewrite wb_iter_push by done. unfold last_n. apply Forall_drop.
  apply Forall_app. split; [done|]. by constructor.
Qed.

Lemma buffer_inv_init (n : Z) (next : Z) : 0 < n -> buffer_inv None (build_buffer n) next.
Proof.
  intros Hn. unfold build_buffer.
  split; rewrite ?wb_capacity_new, ?wb_iter_new; simpl; try done; lia.
Qed.

Lemma handle_incoming_data_inv (d : InboundData) (latest : option ProtocolVersion) (b : B) (next : Z) :
  buffer_inv latest b next -> announced_with d next ->
  exists latest' b' e, handle_incoming_data (Some d) latest b = Ok (latest', b', SseMessage e) /\
    buffer_inv latest' b' (next_after d next) /\
    wb_capacity b' = wb_capacity b /\ e = mkEvent d.1.1 (Some d.1.2) None d.2.
Proof.
  intros [Hc Hl Hlat Hids Hp] Hd. destruct d as [[[i|] d] f]; simpl in Hd; [|destruct d; try done].
  - destruct Hd as [Hnv ->].
    assert (handle_incoming_data (Some (Some (wrap_u32 next), d, f)) latest b =
      Ok (latest,
          match latest with
          | Some v => wb_push (v, mkEvent (Some (wrap_u32 next)) (Some d) None f) b
          | None => b
          end, SseMessage (mkEvent (Some (wrap_u32 next)) (Some d) None f))) as ->
      by (by destruct d, latest).
    do 3 eexists. split; [done|]. destruct latest as [v|].
    + destruct (buffered_ids_push b (v, mkEvent (Some (wrap_u32 next)) (Some d) None f) next)
        as [Hl' Hids']; [done..|].
      split; [|split; [by rewrite wb_capacity_push|done]].
      split; rewrite ?wb_capacity_push; try done.
      apply wb_push_plain; [done| |done]. split; [done|]. by exists d.
    + split; [|done]. rewrite (Hlat eq_refl) in *. by split; rewrite ?Hlat.
  - do 3 eexists. split; [done|]. split; [|done]. by split.
Qed.

End BufferInvariant.

(** ** Comparing identifiers around the wrap-around *)

(** The zone test of [register_new_subscriber] for an oldest identifier [f]. *)
Definition in_zone (cap f : Z) : bool := (U32_MAX - cap <? f) || (f <? cap).

Lemma wrap_u32_sub (z : Z) : 4294967296 <= z < 8589934592 -> wrap_u32 z = z - 4294967296.
Proof. intros. unfold wrap_u32. symmetry. apply (Z.mod_unique _ _ 1); lia. Qed.

(** A word is compared after the shift of [before_start]. *)
Lemma before_start_zone (cap s i : Z) :
  before_start true cap (wrap_u32 s) (wrap_u32 i) = (wrap_u32 (i + cap) <? wrap_u32 (s + cap)).
Proof. unfold before_start, u32_wrapping_add. by rewrite !wrap_u32_idemp. Qed.

(** As long as three buffers fit in the identifier space, the test compares
    positions in the buffer, whether or not the identifiers wrap. *)
Lemma before_start_spec (cap f i k : Z) :
  is_u32 f -> 3 * cap <= 4294967296 -> 0 <= i < cap -> 0 <= k <= cap ->
  before_start (in_zone cap f) cap (wrap_u32 (f + k)) (wrap_u32 (f + i)) = (i <? k).
Proof.
  unfold in_zone. intros Hf Hcap Hi Hk.
  destruct (Z.ltb_spec (U32_MAX - cap) f) as [Hhi|Hhi]; [|destruct (Z.ltb_spec f cap) as [Hlo|Hlo]]; cbn [orb].
  - rewrite before_start_zone, !wrap_u32_sub by (unfold_words; lia). unfold_words. lia.
  - rewrite before_start_zone, !wrap_u32_small by (unfold_words; lia). lia.
  - rewrite !wrap_u32_small by (unfold_words; lia). unfold before_start. lia.
Qed.

Lemma skip_before_drop (zone : bool) (cap s : Z) (l : list Buffered) (x : nat -> Z) (k : nat) :
  (forall j t, l !! j = Some t -> id t.2 = Some (x j)) ->
  (forall j, (j < length l)%nat -> before_start zone cap s (x j) = (j <? k)%nat) ->
  skip_before zone cap s l = Some (drop k l).
Proof.
  revert x k. induction l as [|t l IH]; intros x k Hx Hb; simpl.
  - by rewrite drop_nil.
  - rewrite (Hx 0%nat t eq_refl). simpl. rewrite (Hb 0%nat) by (simpl; lia).
    destruct k as [|k]; [done|]. simpl. apply (IH (fun j => x (S j))).
    + intros j t' Hj. by apply (Hx (S j)).
    + intros j Hj. rewrite (Hb (S j)) by (simpl; lia). done.
Qed.

Lemma buffered_ids_lookup (l : list Buffered) (f : Z) (n j : nat) (t : Buffered) :
  buffered_ids l = Some <$> ids_from f n -> l !! j = Some t -> (j < n)%nat ->
  id t.2 = Some (wrap_u32 (f + Z.of_nat j)).
Proof.
  intros Hids Hj Hn. apply (f_equal (fun l => l !! j)) in Hids.
  unfold buffered_ids in Hids. change (map ?f ?l) with (f <$> l) in Hids.
  rewrite !list_lookup_fmap, Hj, ids_from_lookup in Hids by done. by injection Hids.
Qed.

Section Replay.
Context {B : Type} `{WB : WheelBuf B Buffered}.

(** The identifier of the oldest buffered event. *)
Definition oldest (b : B) (next : Z) : Z := wrap_u32 (next - Z.of_nat (length (wb_iter b))).

Lemma buffer_inv_lookup (latest : option ProtocolVersion) (b : B) (next : Z) (j : nat) (t : Buffered) :
  buffer_inv latest b next -> wb_iter b !! j = Some t ->
  id t.2 = Some (wrap_u32 (oldest b next + Z.of_nat j)).
Proof.
  intros Hinv Hj. unfold oldest. rewrite wrap_u32_idemp.
  eapply buffered_ids_lookup; [apply Hinv|done|]. by apply lookup_lt_Some in Hj.
Qed.

Lemma wraparound_zone_inv (latest : option ProtocolVersion) (b : B) (next : Z) (cap : Z) :
  buffer_inv latest b next -> wb_iter b <> [] ->
  wraparound_zone cap (wb_iter b) = Some (in_zone cap (oldest b next)).
Proof.
  intros Hinv Hne. destruct (wb_iter b) as [|t l] eqn:Hl; [done|]. simpl.
  rewrite (buffer_inv_lookup latest b next 0 t) by (done || by rewrite Hl). simpl.
  rewrite Z.add_0_r. rewrite wrap_u32_small by apply wrap_u32_range. done.
Qed.

(** Replaying from a test that cuts the buffer at position [k]. *)
Lemma register_cut (latest : option ProtocolVersion) (b : B) (next s : Z) (legacy : bool) (k : nat) :
  buffer_inv latest b next -> wb_iter b <> [] ->
  Z.of_nat (wb_capacity b) <= U32_MAX ->
  (forall j, (j < length (wb_iter b))%nat ->
     before_start (in_zone (Z.of_nat (wb_capacity b)) (oldest b next)) (Z.of_nat (wb_capacity b)) s
       (wrap_u32 (oldest b next + Z.of_nat j)) = (j <? k)%nat) ->
  register_new_subscriber (mkSubscriber (Some s) legacy) b latest =
    Some ((if legacy then [legacy_comment_event] else []) ++
          send_tuples None (drop k (wb_iter b)) ++
          send_api_version_if_necessary (k <? length (wb_iter b))%nat latest).
Proof.
  intros Hinv Hne Hcap Hcut. unfold register_new_subscriber. simpl.
  rewrite (wrap_u32_small (Z.of_nat (wb_capacity b))) by (unfold_words; lia).
  rewrite (wraparound_zone_inv latest b next) by done. simpl.
  rewrite (skip_before_drop _ _ _ _ (fun j => wrap_u32 (oldest b next + Z.of_nat j)) k); [|..|done]; simpl.
  - do 4 f_equal. rewrite length_drop. case_bool_decide; simpl.
    + symmetry. apply Nat.ltb_ge. lia.
    + symmetry. apply Nat.ltb_lt. lia.
  - intros j t Hj. by apply (buffer_inv_lookup latest).
Qed.

(** What a subscriber learns from a stream of initial events: each event with
    an identifier, together with the version announced last before it. *)
Fixpoint annotate (v : option ProtocolVersion) (l : list ServerSentEvent)
    : list (option ProtocolVersion * ServerSentEvent) :=
  match l with
  | [] => []
  | e :: l =>
      match id e, data e with
      | None, Some (ApiVersion v') => annotate (Some v') l
      | None, _ => annotate v l
      | Some _, _ => (v, e) :: annotate v l
      end
  end.

Lemma annotate_app (l1 l2 : list ServerSentEvent) (v : option ProtocolVersion) :
  Forall (fun e => id e = None) l2 -> annotate v (l1 ++ l2) = annotate v l1.
Proof.
  intros Hl2. revert v. induction l1 as [|e l1 IH]; intros v; simpl.
  - revert v. induction Hl2 as [|e l2 He _ IH]; intros v; simpl; [done|].
    rewrite He. destruct (data e) as [[]|]; apply IH.
  - destruct (id e); [by rewrite IH|]. destruct (data e) as [[]|]; apply IH.
Qed.

Lemma annotate_send_tuples (l : list Buffered) (v : option ProtocolVersion) :
  Forall (fun t => is_Some (id t.2)) l ->
  annotate v (send_tuples v l) = map (fun t => (Some t.1, t.2)) l.
Proof.
  intros Hl. revert v. induction Hl as [|[p e] l [i Hi] _ IH]; intros v; simpl; [done|].
  simpl in Hi. case_decide; simplify_eq/=; rewrite Hi; by rewrite IH.
Qed.

Lemma send_api_version_no_id (obs : bool) (latest : option ProtocolVersion) :
  Forall (fun e => id e = None) (send_api_version_if_necessary obs latest).
Proof. destruct obs, latest; simpl; repeat constructor. Qed.

Lemma annotate_replay (l : list Buffered) (legacy obs : bool) (latest : option ProtocolVersion) :
  Forall (fun t => is_Some (id t.2)) l ->
  annotate None ((if legacy then [legacy_comment_event] else []) ++ send_tuples None l ++
    send_api_version_if_necessary obs latest) = map (fun t => (Some t.1, t.2)) l.
Proof.
  intros Hl. destruct legacy; simpl; rewrite annotate_app by apply send_api_version_no_id;
    by apply annotate_send_tuples.
Qed.

Lemma buffer_inv_has_ids (latest : option ProtocolVersion) (b : B) (next : Z) :
  buffer_inv latest b next -> Forall (fun t => is_Some (id t.2)) (wb_iter b).
Proof.
  intros Hinv. apply Forall_lookup. intros j t Hj. by rewrite (buffer_inv_lookup latest b next j t).
Qed.

End Replay.

Section ReplayTheorems.
Context {B : Type} `{WB : WheelBuf B Buffered}.

Lemma oldest_range (b : B) (next : Z) : is_u32 (oldest b next).
Proof. apply wrap_u32_range. Qed.

Lemma skip_before_total (zone : bool) (cap s : Z) (l : list Buffered) :
  Forall (fun t => is_Some (id t.2)) l -> is_Some (skip_before zone cap s l).
Proof.
  induction 1 as [|t l [i Hi] _ IH]; simpl; [done|]. rewrite Hi. simpl. by destruct before_start.
Qed.

Lemma register_empty (b : B) (latest : option ProtocolVersion) (s : Z) (legacy : bool) :
  wb_iter b = [] ->
  register_new_subscriber (mkSubscriber (Some s) legacy) b latest =
    Some ((if legacy then [legacy_comment_event] else []) ++ send_api_version_if_necessary false latest).
Proof. intros Hb. unfold register_new_subscriber. by rewrite Hb. Qed.

(** Replaying from a position of the buffer. *)
Lemma replay_drop (latest : option ProtocolVersion) (b : B) (next : Z) (legacy : bool) (k : nat) :
  buffer_inv latest b next ->
  3 * Z.of_nat (wb_capacity b) <= 4294967296 ->
  (k <= wb_capacity b)%nat ->
  let s := wrap_u32 (oldest b next + Z.of_nat k) in
  exists out, register_new_subscriber (mkSubscriber (Some s) legacy) b latest = Some out /\
    annotate None out = map (fun t => (Some t.1, t.2)) (drop k (wb_iter b)) /\
    (forall t rest, drop k (wb_iter b) = t :: rest -> id t.2 = Some s).
Proof.
  intros Hinv Hcap Hk s. assert (forall t rest, drop k (wb_iter b) = t :: rest -> id t.2 = Some s) as Hs.
  { intros t rest Hd. apply (buffer_inv_lookup latest); [done|].
    rewrite <- (Nat.add_0_r k), <- lookup_drop. by rewrite Hd. }
  destruct (decide (wb_iter b = [])) as [He|Hne].
  - rewrite register_empty by done. eexists. split; [done|]. split; [|done].
    rewrite He, drop_nil. destruct legacy, latest; done.
  - eexists. split; [apply (register_cut latest b next s legacy k); [done..|unfold_words; lia|]|].
    + intros j Hj. subst s. pose proof (inv_length _ _ _ Hinv).
      rewrite before_start_spec by (try apply oldest_range; lia).
      destruct (Nat.ltb_spec j k); lia.
    + split; [|done]. apply annotate_replay, Forall_drop. by apply (buffer_inv_has_ids latest b next).
Qed.

(** C7. A subscriber that starts from the [k]-th identifier after the oldest
    buffered one (with [k] up to the capacity) is sent exactly the buffered
    events from there on, in order, each after the announcement of the protocol
    version it was stored under; this holds wherever the identifiers are in
    their 32-bit range, across the wrap-around included, provided three buffers
    fit in that range. *)
Theorem replay_exact (latest : option ProtocolVersion) (b : B) (next : Z) (legacy : bool) (k : nat) :
  buffer_inv latest b next ->
  3 * Z.of_nat (wb_capacity b) <= 4294967296 ->
  (k <= wb_capacity b)%nat ->
  let s := wrap_u32 (oldest b next + Z.of_nat k) in
  exists out, register_new_subscriber (mkSubscriber (Some s) legacy) b latest = Some out /\
    annotate None out = map (fun t => (Some t.1, t.2)) (drop k (wb_iter b)) /\
    (forall t rest, drop k (wb_iter b) = t :: rest -> id t.2 = Some s).
Proof. apply replay_drop. Qed.

(** A subscriber that asks for an identifier older than the buffer is sent
    the whole buffer, when the oldest identifier is not close to the end of the
    range: either no identifier wraps nearby, or the identifiers have just
    wrapped and the one asked for is at most a buffer length older. *)
Theorem replay_from_before (latest : option ProtocolVersion) (b : B) (next s : Z) (legacy : bool) :
  buffer_inv latest b next ->
  3 * Z.of_nat (wb_capacity b) <= 4294967296 ->
  let cap := Z.of_nat (wb_capacity b) in
  (in_zone cap (oldest b next) = false /\ 0 <= s < oldest b next \/
   oldest b next < cap /\ exists d, 0 < d <= cap /\ s = wrap_u32 (oldest b next - d)) ->
  exists out, register_new_subscriber (mkSubscriber (Some s) legacy) b latest = Some out /\
    annotate None out = map (fun t => (Some t.1, t.2)) (wb_iter b).
Proof.
  intros Hinv Hcap cap Hs. pose proof (oldest_range b next) as Ho. pose proof (inv_length _ _ _ Hinv) as Hlen.
  destruct (decide (wb_iter b = [])) as [He|Hne].
  - rewrite register_empty by done. eexists. split; [done|]. rewrite He. by destruct legacy, latest.
  - eexists. split; [apply (register_cut latest b next s legacy 0); [done..|unfold_words; lia|]|].
    + intros j Hj. rewrite (proj2 (Nat.ltb_ge j 0)) by lia.
      destruct Hs as [[Hz Hs]|(Hlo & d & Hd & ->)].
      * fold cap. rewrite Hz. unfold in_zone in Hz. apply orb_false_iff in Hz as [Hz1 Hz2].
        rewrite wrap_u32_small by (unfold_words; subst cap; lia). unfold before_start. lia.
      * fold cap. assert (in_zone cap (oldest b next) = true) as -> by (unfold in_zone; lia).
        rewrite before_start_zone, !wrap_u32_small by (unfold_words; subst cap; lia). lia.
    + simpl. apply annotate_replay. by apply (buffer_inv_has_ids latest b next).
Qed.

(** Close to the end of the identifier range this fails: when the oldest
    buffered identifier is within a buffer length of 2^32, a subscriber that
    asks for any older identifier outside that zone is sent no event at all,
    although the whole buffer is newer than what it asked for. *)
Theorem replay_lost_near_wrap (latest : option ProtocolVersion) (b : B) (next s : Z) (legacy : bool) :
  buffer_inv latest b next ->
  3 * Z.of_nat (wb_capacity b) <= 4294967296 ->
  let cap := Z.of_nat (wb_capacity b) in
  U32_MAX - cap < oldest b next -> cap <= s <= U32_MAX - cap ->
  exists out, register_new_subscriber (mkSubscriber (Some s) legacy) b latest = Some out /\
    annotate None out = [].
Proof.
  intros Hinv Hcap cap Hhi Hs. pose proof (oldest_range b next) as Ho. pose proof (inv_length _ _ _ Hinv) as Hlen.
  destruct (decide (wb_iter b = [])) as [He|Hne].
  - rewrite register_empty by done. eexists. split; [done|]. by destruct legacy, latest.
  - eexists. split; [apply (register_cut latest b next s legacy (length (wb_iter b))); [done..|unfold_words; lia|]|].
    + intros j Hj. fold cap. assert (in_zone cap (oldest b next) = true) as -> by (unfold in_zone; lia).
      rewrite <- (wrap_u32_small s) by (unfold_words; subst cap; lia).
      rewrite before_start_zone, (wrap_u32_sub (oldest b next + Z.of_nat j + cap)), (wrap_u32_small (s + cap))
        by (unfold_words; subst cap; lia).
      destruct (Nat.ltb_spec j (length (wb_iter b))); [|lia]. unfold_words. lia.
    + rewrite drop_all. apply annotate_replay. by constructor.
Qed.

End ReplayTheorems.

(** *** Witnesses *)

(** A buffer of three slots with the identifiers 2^32 - 2, 2^32 - 1 and 0. *)
Definition demo_version : ProtocolVersion := mkVersion 2 0 0.

Definition demo_entry (i : Z) : Buffered :=
  (demo_version, mkEvent (Some i) (Some (Fault 1 "key" i)) None (Some Filter_Events)).

Definition demo_wheel (ids : list Z) : nat * list Buffered := (3%nat, map demo_entry ids).

Ltac solve_demo_inv :=
  split; [simpl; lia|simpl; lia|done|reflexivity|
          repeat constructor; eexists; split; reflexivity].

Lemma replay_exact_witness :
  let w := demo_wheel [4294967294; 4294967295; 0] in
  wrap_u32 (oldest w 1 + 1) = 4294967295 /\
  exists out, register_new_subscriber (mkSubscriber (Some (wrap_u32 (oldest w 1 + 1))) false) w
      (Some demo_version) = Some out /\
    annotate None out = map (fun t => (Some t.1, t.2)) (map demo_entry [4294967295; 0]).
Proof.
  cbv zeta. split; [reflexivity|].
  destruct (replay_exact (Some demo_version) (demo_wheel [4294967294; 4294967295; 0]) 1 false 1)
    as (out & Hout & Hann & _).
  - solve_demo_inv.
  - simpl. lia.
  - simpl. lia.
  - exists out. split; [exact Hout|exact Hann].
Defined.

Lemma replay_from_before_witness :
  exists out, register_new_subscriber (mkSubscriber (Some 4294967295) true)
      (demo_wheel [0; 1; 2]) (Some demo_version) = Some out /\
    annotate None out = map (fun t => (Some t.1, t.2)) (wb_iter (demo_wheel [0; 1; 2])).
Proof.
  apply (replay_from_before (Some demo_version) (demo_wheel [0; 1; 2]) 3 4294967295 true).
  - solve_demo_inv.
  - simpl. lia.
  - right. split; [reflexivity|]. exists 1. split; [simpl; lia|reflexivity].
Defined.

Lemma replay_lost_near_wrap_witness :
  exists out, register_new_subscriber (mkSubscriber (Some 4294967292) false)
      (demo_wheel [4294967293; 4294967294; 4294967295]) (Some demo_version) = Some out /\
    annotate None out = [].
Proof.
  apply (replay_lost_near_wrap (Some demo_version) (demo_wheel [4294967293; 4294967294; 4294967295])
           4294967296 4294967292 false).
  - solve_demo_inv.
  - simpl. lia.
  - reflexivity.
  - unfold U32_MAX. simpl. lia.
Defined.
