(* ===== verification/SseServer.v ===== *)
(** * The SSE endpoint ([event_stream_server/sse_server.rs])

    Paths and queries of a subscription, the filters of the endpoints, the form
    in which an event is sent, and the stream a client receives: the initial
    events followed by the ongoing ones without those already sent. *)

From S2P Require Import Prelude Json SseData LegacySse EventBuffer.

(** ** Filters and endpoints *)

(** [event_sidecar/src/event_stream_server/endpoint.rs:5-10], [Endpoint]. *)
Inductive Endpoint :=
| Endpoint_Events
| Endpoint_Main
| Endpoint_Deploys
| Endpoint_Sigs.

#[export] Instance Endpoint_eq_dec : EqDecision Endpoint.
Proof. solve_decision. Defined.

(** [event_sidecar/src/event_stream_server/endpoint.rs:12-22], [Display for Endpoint]. *)
Definition Endpoint_to_string (e : Endpoint) : string :=
  match e with
  | Endpoint_Events => "events"
  | Endpoint_Main => "events/main"
  | Endpoint_Deploys => "events/deploys"
  | Endpoint_Sigs => "events/sigs"
  end.

(** [event_sidecar/src/event_stream_server/sse_server.rs:51-62], [SSE_API_ROOT_PATH]. *)
Definition SSE_API_ROOT_PATH : string := "events".
Definition SSE_API_MAIN_PATH : string := "main".
Definition SSE_API_DEPLOYS_PATH : string := "deploys".
Definition SSE_API_SIGNATURES_PATH : string := "sigs".
Definition QUERY_FIELD : string := "start_from".

(** [event_sidecar/src/event_stream_server/sse_server.rs:68-77], [EVENTS_FILTER]. *)
Definition EVENTS_FILTER : list EventFilter :=
  [EF_ApiVersion; EF_BlockAdded; EF_TransactionAccepted; EF_TransactionProcessed;
   EF_TransactionExpired; EF_Fault; EF_FinalitySignature; EF_Step].

(** [event_sidecar/src/event_stream_server/sse_server.rs:79-86], [MAIN_FILTER]. *)
Definition MAIN_FILTER : list EventFilter :=
  [EF_ApiVersion; EF_BlockAdded; EF_TransactionProcessed; EF_TransactionExpired; EF_Fault; EF_Step].

(** [event_sidecar/src/event_stream_server/sse_server.rs:88-89], [DEPLOYS_FILTER]. *)
Definition DEPLOYS_FILTER : list EventFilter := [EF_ApiVersion; EF_TransactionAccepted].

(** [event_sidecar/src/event_stream_server/sse_server.rs:91-92], [SIGNATURES_FILTER]. *)
Definition SIGNATURES_FILTER : list EventFilter := [EF_ApiVersion; EF_FinalitySignature].

(** [event_sidecar/src/event_stream_server/sse_server.rs:305-316], [path_to_filter]. *)
Definition path_to_filter (path_param : string) (enable_legacy_filters : bool) : option Endpoint :=
  if decide (path_param = SSE_API_ROOT_PATH) then Some Endpoint_Events
  else if decide (path_param = SSE_API_MAIN_PATH /\ enable_legacy_filters = true) then Some Endpoint_Main
  else if decide (path_param = SSE_API_DEPLOYS_PATH /\ enable_legacy_filters = true) then Some Endpoint_Deploys
  else if decide (path_param = SSE_API_SIGNATURES_PATH /\ enable_legacy_filters = true)
  then Some Endpoint_Sigs
  else None.

(** [event_sidecar/src/event_stream_server/sse_server.rs:318-329], [get_filter]. *)
Definition get_filter (path_param : string) (enable_legacy_filters : bool) : option (list EventFilter * bool) :=
  if decide (path_param = SSE_API_ROOT_PATH) then Some (EVENTS_FILTER, false)
  else if decide (path_param = SSE_API_MAIN_PATH /\ enable_legacy_filters = true) then Some (MAIN_FILTER, true)
  else if decide (path_param = SSE_API_DEPLOYS_PATH /\ enable_legacy_filters = true) then Some (DEPLOYS_FILTER, true)
  else if decide (path_param = SSE_API_SIGNATURES_PATH /\ enable_legacy_filters = true)
  then Some (SIGNATURES_FILTER, true)
  else None.

(** ** Subscriptions *)

(** A plain HTTP response. *)
Record Response := mkResponse { status : Z; text : string }.

(** The newline that ends the bodies. *)
Definition newline : string := String (Ascii.ascii_of_nat 10) EmptyString.

(** [event_sidecar/src/event_stream_server/sse_server.rs:354-373], [create_404]. *)
Definition create_404 (enable_legacy_filters : bool) : Response :=
  mkResponse 404
    (if enable_legacy_filters then
       "invalid path: expected '/events/main', '/events/deploys' or '/events/sigs'" +:+ newline
     else "invalid path: expected '/events/main'" +:+ newline).

(** [event_sidecar/src/event_stream_server/sse_server.rs:377-383], [create_422]. *)
Definition create_422 : Response :=
  mkResponse 422 ("invalid query: expected single field 'start_from=<EVENT ID>'" +:+ newline).

(** [event_sidecar/src/event_stream_server/sse_server.rs:387-391], [create_503]. *)
Definition create_503 : Response := mkResponse 503 "server has reached limit of subscribers".

(** [str::parse::<u32>]. *)
Definition parse_u32 : string -> option Z := parse_unsigned U32_MAX.

(** [event_sidecar/src/event_stream_server/sse_server.rs:335-351], [parse_query]. *)
Definition parse_query (query : gmap string string) : result Response (option Z) :=
  if decide (size query = 0%nat) then Ok None
  else if decide (1 < size query)%nat then Err create_422
  else match query !! QUERY_FIELD ≫= parse_u32 with
       | Some id => Ok (Some id)
       | None => Err create_422
       end.

(** [event_sidecar/src/event_stream_server/sse_server.rs:102-107], [UrlProps]. *)
Record UrlProps := mkUrlProps {
  props_event_filter : list EventFilter;
  props_stream_filter : Endpoint;
  props_start_from : option Z;
  props_is_legacy : bool;
}.

(** [event_sidecar/src/event_stream_server/sse_server.rs:449-465], [parse_url_props]. *)
Definition parse_url_props (maybe_path_param : option string) (query : gmap string string)
    (enable_legacy_filters : bool) : result Response UrlProps :=
  let path_param := default SSE_API_ROOT_PATH maybe_path_param in
  match get_filter path_param enable_legacy_filters with
  | None => Err (create_404 enable_legacy_filters)
  | Some (event_filter, is_legacy_filter) =>
      match path_to_filter path_param enable_legacy_filters with
      | None => Err (create_404 enable_legacy_filters)
      | Some stream_filter =>
          let? start_from := parse_query query in
          Ok (mkUrlProps event_filter stream_filter start_from is_legacy_filter)
      end
  end.

(** [event_sidecar/src/event_stream_server/sse_server.rs:467-480], [validate]: [receiver_count] is
    the number of live receivers of the broadcast channel. *)
Definition validate (receiver_count max_concurrent_subscribers : Z) : option Response :=
  if decide (max_concurrent_subscribers <= receiver_count) then Some create_503 else None.

(** The outcome of a subscription: a refusal, or the stream of a client after
    its details were handed to the server. *)
Inductive Served :=
| Refused (r : Response)
| Streaming (info : NewSubscriberInfo) (props : UrlProps).

(** [event_sidecar/src/event_stream_server/sse_server.rs:399-447], [serve_sse_response_handler]. *)
Definition serve_sse_response_handler (maybe_path_param : option string) (query : gmap string string)
    (receiver_count max_concurrent_subscribers : Z) (enable_legacy_filters : bool) : Served :=
  match validate receiver_count max_concurrent_subscribers with
  | Some value => Refused value
  | None =>
      match parse_url_props maybe_path_param query enable_legacy_filters with
      | Err error_response => Refused error_response
      | Ok props =>
          Streaming (mkSubscriber (props_start_from props) enable_legacy_filters) props
      end
  end.

(** [event_sidecar/src/event_stream_server/sse_server.rs:485-532], [ChannelsAndFilter::new]: the
    warp filter for [GET /events/..]; [path] is the rest of the path, [query]
    is [None] when the query string does not parse; everything else is 404. *)
Definition sse_filter (is_get : bool) (path : list string) (query : option (gmap string string))
    (receiver_count max_concurrent_subscribers : Z) (enable_legacy_filters : bool) : Served :=
  match is_get, path, query with
  | true, ["events"], Some query =>
      serve_sse_response_handler None query receiver_count max_concurrent_subscribers enable_legacy_filters
  | true, ["events"; path_param], Some query =>
      serve_sse_response_handler (Some path_param) query receiver_count max_concurrent_subscribers
        enable_legacy_filters
  | _, _, _ => Refused (create_404 enable_legacy_filters)
  end.

(** ** Sending events *)

(** [warp::sse::Event] with the parts the code sets. *)
Record WarpEvent := mkWarp {
  w_data : option Value;
  w_comment : option string;
  w_id : option string;
}.

Definition warp_default : WarpEvent := mkWarp None None None.

(** The errors a client stream can yield. *)
Inductive RecvError :=
| Closed
| Lagged (n : Z).

Section Sending.
(** The JSON forms of the two kinds of data ([Event::json_data]), the form
    obtained with [to_value(..).unwrap()], and the arguments of the legacy
    translation. *)
Context (json_data : SseData -> result string Value) (legacy_json : LegacySseData -> result string Value).
Context (to_value_unwrap : SseData -> Value).
Context (to_formatted_string key_to_string : Key -> string).
Context (MINT_LANE_ID : Z) (mint : BlockBodyV2 -> list TransactionHash).

Local Abbreviation to_legacy := (LegacySseData_from to_formatted_string key_to_string MINT_LANE_ID mint).

Definition warp_json (r : result string Value) : WarpEvent :=
  match r with Ok v => mkWarp (Some v) None None | Err _ => warp_default end.

(** [event_sidecar/src/event_stream_server/sse_server.rs:166-193], [event_to_warp_event]. *)
Definition event_to_warp_event (data : SseData) (is_legacy_filter : bool) (maybe_id : option string)
    : option (result RecvError WarpEvent) :=
  let maybe_event :=
    if is_legacy_filter then
      (fun data => warp_json (legacy_json data)) <$> to_legacy data
    else Some (warp_json (json_data data)) in
  (fun event =>
     Ok (match maybe_id with
         | Some id => mkWarp (w_data event) (w_comment event) (Some id)
         | None => event
         end)) <$> maybe_event.

(** [event_sidecar/src/event_stream_server/sse_server.rs:244-261], [should_skip_event]. *)
Definition should_skip_event (event : ServerSentEvent) (event_filter : list EventFilter)
    (is_legacy_filter : bool) : bool :=
  if negb (match data event with None => true | Some d => should_include d event_filter end) then true
  else if negb (match comment event with None => true | Some _ => is_legacy_filter end) then true
  else false.

(** [event_sidecar/src/event_stream_server/sse_server.rs:263-268], [should_send_shutdown]. *)
Definition should_send_shutdown (event : ServerSentEvent) (stream_filter : Endpoint) : bool :=
  match inbound_filter event, stream_filter with
  | Some _, _ => true
  | None, _ => false
  end.

(** [event_sidecar/src/event_stream_server/sse_server.rs:270-284], [determine_id]. *)
Definition determine_id (event : ServerSentEvent) (data : SseData) : option string :=
  match id event with
  | Some id => if is_api_version data then None else Some (pretty id)
  | None => if negb (is_api_version data) then None else Some EmptyString
  end.

(** [event_sidecar/src/event_stream_server/sse_server.rs:286-288], [build_comment_event]. *)
Definition build_comment_event (comment : string) : option (result RecvError WarpEvent) :=
  Some (Ok (mkWarp None (Some comment) None)).

(** [event_sidecar/src/event_stream_server/sse_server.rs:290-303], [build_event_for_outbound]. *)
Definition build_event_for_outbound (data : SseData) (id : string) : result RecvError WarpEvent :=
  Ok (mkWarp (Some (to_value_unwrap data)) None (Some id)).

(** [event_sidecar/src/event_stream_server/sse_server.rs:206-242], [filter_map_server_sent_event]. *)
Definition filter_map_server_sent_event (event : ServerSentEvent) (stream_filter : Endpoint)
    (event_filter : list EventFilter) (is_legacy_filter : bool) : option (result RecvError WarpEvent) :=
  if should_skip_event event event_filter is_legacy_filter then None
  else
    match data event with
    | Some d =>
        i ← determine_id event d;
        match d with
        | ApiVersion _ => event_to_warp_event d is_legacy_filter None
        | BlockAdded _ _ | TransactionProcessed _ _ _ _ _ _ _ | TransactionExpired _ | Fault _ _ _
        | Step _ _ | TransactionAccepted _ | FinalitySignatureEvent _ =>
            event_to_warp_event d is_legacy_filter (Some i)
        | Shutdown =>
            if should_send_shutdown event stream_filter then Some (build_event_for_outbound d i) else None
        end
    | None =>
        match comment event with
        | Some comment => build_comment_event comment
        | None => None
        end
    end.

(** [event_sidecar/src/event_stream_server/sse_server.rs:637-640], [handle_lagged]. *)
Definition handle_lagged (amount : Z) : result RecvError ServerSentEvent := Err (Lagged amount).

(** [event_sidecar/src/event_stream_server/sse_server.rs:642-653], [handle_sse_event]. *)
Definition handle_sse_event (event : ServerSentEvent) (initial_ids : gset Z)
    : option (result RecvError ServerSentEvent) :=
  match id event with
  | Some i => if decide (i ∈ initial_ids) then None else Some (Ok event)
  | None => Some (Ok event)
  end.

(** What a broadcast receiver yields: a message, or the number of messages
    missed. *)
Definition ongoing_item (initial_ids : gset Z) (r : result Z BroadcastChannelMessage)
    : option (result RecvError ServerSentEvent) :=
  match r with
  | Ok (SseMessage event) => handle_sse_event event initial_ids
  | Ok ShutdownMessage => Some (Err Closed)
  | Err amount => Some (handle_lagged amount)
  end.

(** [take_while] up to the closing of the stream. *)
Fixpoint until_closed (l : list (result RecvError ServerSentEvent)) : list (result RecvError ServerSentEvent) :=
  match l with
  | [] => []
  | Err Closed :: _ => []
  | r :: l => r :: until_closed l
  end.

(** The identifiers recorded while the initial events are sent. *)
Definition initial_stream_ids (initial_events : list ServerSentEvent) : gset Z :=
  list_to_set (omap id initial_events).

(** [event_sidecar/src/event_stream_server/sse_server.rs:591-635], [build_combined_events_stream]. *)
Definition build_combined_events_stream (initial_events : list ServerSentEvent)
    (ongoing_stream : list (result RecvError ServerSentEvent)) (stream_filter : Endpoint)
    (event_filter : list EventFilter) (is_legacy_filter : bool) : list (result RecvError WarpEvent) :=
  omap (fun r =>
          match r with
          | Ok event => filter_map_server_sent_event event stream_filter event_filter is_legacy_filter
          | Err error => Some (Err error)
          end)
       (map Ok initial_events ++ ongoing_stream).

(** [event_sidecar/src/event_stream_server/sse_server.rs:549-588], [stream_to_client]: the ongoing
    stream is polled only after the initial one has ended, so that all initial
    identifiers are known to it. *)
Definition stream_to_client (initial_events : list ServerSentEvent)
    (ongoing_events : list (result Z BroadcastChannelMessage)) (stream_filter : Endpoint)
    (event_filter : list EventFilter) (is_legacy_filter : bool) : list (result RecvError WarpEvent) :=
  let ongoing_stream :=
    until_closed (omap (ongoing_item (initial_stream_ids initial_events)) ongoing_events) in
  build_combined_events_stream initial_events ongoing_stream stream_filter event_filter is_legacy_filter.

End Sending.

(** [warp::sse::reply] writes the items of a stream; an error ends the response, which
    is how a client that lagged is dropped. *)
Fixpoint response_body (l : list (result RecvError WarpEvent)) : list WarpEvent :=
  match l with
  | Ok event :: l => event :: response_body l
  | _ => []
  end.

(** ** Properties of subscriptions *)

(** Every kind of event is on the full endpoint, and the three legacy endpoints
    split it: the version and the shutdown notice are on all of them, every other
    kind is on exactly one. *)
Theorem endpoint_filters_partition (d : SseData) :
  should_include d EVENTS_FILTER = true /\
  (is_api_version d = true \/ d = Shutdown ->
     forall f, f ∈ [EVENTS_FILTER; MAIN_FILTER; DEPLOYS_FILTER; SIGNATURES_FILTER] -> should_include d f = true) /\
  (is_api_version d = false -> d <> Shutdown ->
     exists! f, f ∈ [MAIN_FILTER; DEPLOYS_FILTER; SIGNATURES_FILTER] /\ should_include d f = true).
Proof.
  split_and!.
  - by destruct d.
  - intros H f Hf.
    assert (f = EVENTS_FILTER \/ f = MAIN_FILTER \/ f = DEPLOYS_FILTER \/ f = SIGNATURES_FILTER)
      as Hcases by set_solver.
    destruct d, H; try done; by destruct Hcases as [->|[->|[->| ->]]].
  - intros Hv Hs.
    assert (forall f, f ∈ [MAIN_FILTER; DEPLOYS_FILTER; SIGNATURES_FILTER] ->
              f = MAIN_FILTER \/ f = DEPLOYS_FILTER \/ f = SIGNATURES_FILTER) as Hin by set_solver.
    destruct d; try done;
      first [ exists MAIN_FILTER; split; [by split; [set_solver|]|by intros f [[->|[->| ->]]%Hin ?]]
            | exists DEPLOYS_FILTER; split; [by split; [set_solver|]|by intros f [[->|[->| ->]]%Hin ?]]
            | exists SIGNATURES_FILTER; split; [by split; [set_solver|]|by intros f [[->|[->| ->]]%Hin ?]] ].
Qed.

(** *** Identifiers in queries *)

Lemma parse_u32_pretty (i : Z) : is_u32 i -> parse_u32 (pretty i) = Some i.
Proof. apply parse_unsigned_pretty. Qed.

Lemma parse_u32_range (s : string) (i : Z) : parse_u32 s = Some i -> is_u32 i.
Proof. apply parse_unsigned_range. unfold_words. lia. Qed.

(** The identifier sent with an event leads back to that event: for every
    event with a 32-bit identifier the text of its identifier, used as
    [start_from] of a query, is read as this identifier; and every query that is
    accepted gives none or a 32-bit identifier. *)
Theorem query_roundtrip (e : ServerSentEvent) (d : SseData) (i : Z) (t : string) :
  id e = Some i -> is_u32 i -> determine_id e d = Some t ->
  parse_query {[ QUERY_FIELD := t ]} = Ok (Some i) /\
  forall q o, parse_query q = Ok o -> match o with Some j => is_u32 j | None => q = ∅ end.
Proof.
  intros Hid Hi Hd. unfold determine_id in Hd. rewrite Hid in Hd.
  destruct (is_api_version d); [done|]. injection Hd as <-. split.
  - unfold parse_query. rewrite map_size_singleton. simpl.
    rewrite lookup_singleton_eq. simpl. by rewrite parse_u32_pretty.
  - intros q o. unfold parse_query. case_decide as H0; [intros [= <-]; by apply map_size_empty_inv|].
    case_decide; [done|]. destruct (q !! QUERY_FIELD ≫= parse_u32) as [j|] eqn:Hj; [|done].
    intros [= <-]. apply bind_Some in Hj as (s & _ & Hs). by apply parse_u32_range in Hs.
Qed.

Lemma query_roundtrip_witness :
  parse_query {[ QUERY_FIELD := "4294967295" ]} = Ok (Some 4294967295).
Proof.
  refine (proj1 (query_roundtrip (demo_entry 4294967295).2 (Fault 1 "key" 0) 4294967295 "4294967295" _ _ _)).
  - reflexivity.
  - unfold is_u32, U32_MAX. lia.
  - vm_compute. reflexivity.
Defined.

(** *** Who is served *)

Lemma get_filter_path_to_filter (p : string) (legacy : bool) :
  is_Some (get_filter p legacy) <-> is_Some (path_to_filter p legacy).
Proof. unfold get_filter, path_to_filter. repeat case_decide; done. Qed.

(** The last elements of the served paths. *)
Definition served_path (p : option string) (legacy : bool) : Prop :=
  p = None \/ p = Some "events" \/
  legacy = true /\ (p = Some "main" \/ p = Some "deploys" \/ p = Some "sigs").

Lemma get_filter_served (p : option string) (legacy : bool) :
  is_Some (get_filter (default SSE_API_ROOT_PATH p) legacy) <-> served_path p legacy.
Proof.
  unfold get_filter, served_path, SSE_API_ROOT_PATH, SSE_API_MAIN_PATH, SSE_API_DEPLOYS_PATH, SSE_API_SIGNATURES_PATH.
  destruct p as [p|]; simpl; [|naive_solver].
  split.
  - intros [x Hx]. repeat case_decide; naive_solver.
  - repeat case_decide; naive_solver.
Qed.

(** A client is given a stream exactly when the number of receivers is below
    the limit, its path is a served one and its query is empty or just a 32-bit
    [start_from]; otherwise it is refused with 503, 404 or 422, in this order of
    precedence, and the server is not told about it. *)
Theorem subscription_outcome (p : option string) (q : gmap string string) (count max : Z) (legacy : bool) :
  match serve_sse_response_handler p q count max legacy with
  | Streaming info props =>
      count < max /\ served_path p legacy /\ parse_query q = Ok (start_from info) /\
      props_start_from props = start_from info /\
      get_filter (default SSE_API_ROOT_PATH p) legacy = Some (props_event_filter props, props_is_legacy props) /\
      path_to_filter (default SSE_API_ROOT_PATH p) legacy = Some (props_stream_filter props)
  | Refused r =>
      (max <= count /\ r = create_503) \/
      (count < max /\ ~ served_path p legacy /\ r = create_404 legacy) \/
      (count < max /\ served_path p legacy /\ parse_query q = Err r /\ status r = 422)
  end.
Proof.
  unfold serve_sse_response_handler, validate. case_decide; [by left|].
  unfold parse_url_props. pose proof (get_filter_served p legacy) as Hs.
  pose proof (get_filter_path_to_filter (default SSE_API_ROOT_PATH p) legacy) as Hp.
  destruct (get_filter _ _) as [[f l]|] eqn:Hg.
  - destruct (path_to_filter _ _) as [e|] eqn:He; [|by destruct Hp as [[? ?] _]].
    destruct (parse_query q) as [o|r] eqn:Hq; simp_result.
    + split_and!; try done; [lia|by apply Hs].
    + right. right. split_and!; [lia|by apply Hs|done|].
      unfold parse_query in Hq. repeat case_decide; [done|by injection Hq as <-|].
      destruct (q !! QUERY_FIELD ≫= parse_u32); [done|by injection Hq as <-].
  - right. left. split_and!; [lia| |done]. intros Hsp. by apply Hs in Hsp as [? ?].
Qed.

(** With the legacy endpoints switched off, the path that the 404 response
    tells clients to use is itself answered with that 404, while the full
    endpoint is served. *)
Theorem advertised_path_not_served (q : gmap string string) (count max : Z) :
  count < max -> parse_query q = Ok None ->
  text (create_404 false) = "invalid path: expected '/events/main'" +:+ newline /\
  sse_filter true ["events"; "main"] (Some q) count max false = Refused (create_404 false) /\
  exists info props, sse_filter true ["events"] (Some q) count max false = Streaming info props.
Proof.
  intros Hc Hq. split; [done|].
  unfold sse_filter, serve_sse_response_handler, validate, parse_url_props.
  rewrite decide_False by lia. rewrite Hq. simpl. split; [done|]. by eexists _, _.
Qed.
