(* ===== verification/EventStream.v ===== *)
(** * The event stream server as a system ([event_stream_server.rs])

    Announced events get their identifiers and go through an unbounded channel
    to the task of [http_server::run], which buffers and broadcasts them; a
    client hands its details to that task and subscribes to the broadcast.  The
    broadcast channel is bounded: a receiver that falls behind by more than its
    slots misses events and is told so.  The steps of the tasks interleave freely;
    [System] is followed through all interleavings for one client. *)

From S2P Require Import Prelude Json SseData LegacySse EventIndexer EventBuffer SseServer.

(** ** The server *)

(** [event_sidecar/src/event_stream_server/config.rs:18-27], [Config]. *)
Record Config := mkConfig {
  address : string;
  event_stream_buffer_length : Z;
  max_concurrent_subscribers : Z;
}.

(** [event_sidecar/src/event_stream_server/config.rs:29-40], [Config::new]. *)
Definition Config_new (port : Z) (buffer_length max_subscribers : option Z) : Config :=
  mkConfig ("0.0.0.0:" +:+ pretty port) (default 5000 buffer_length) (default 100 max_subscribers).

(** [event_sidecar/src/event_stream_server.rs:128-133], [get_broadcast_channel_size]: [None] when the
    32-bit product overflows. *)
Definition get_broadcast_channel_size (config : Config) : option Z :=
  let product := event_stream_buffer_length config * (100 + 20) in
  if decide (U32_MAX < product) then None else Some (product / 100).

(** [event_sidecar/src/event_stream_server.rs:56-63], [EventStreamServer]: the sender is the queue
    of the channel behind it. *)
Record EventStreamServer := mkServer {
  sse_data_queue : list InboundData;
  event_indexer : EventIndexer;
}.

(** [event_sidecar/src/event_stream_server.rs:117-125], [EventStreamServer::broadcast]. *)
Definition broadcast (self : EventStreamServer) (sse_data : SseData) (inbound_filter : option Filter)
    : EventStreamServer :=
  let '(event_index, indexer) :=
    match sse_data with
    | ApiVersion _ => (None, event_indexer self)
    | _ => let (i, indexer) := next_index (event_indexer self) in (Some i, indexer)
    end in
  mkServer (sse_data_queue self ++ [(event_index, sse_data, inbound_filter)]) indexer.

(** ** Starting the server *)

(** [event_sidecar/src/utils.rs:40-46], [ResolveAddressErrorKind]. *)
Inductive ResolveAddressErrorKind :=
| ErrorResolving (error : string)
| NoAddressFound.

(** [event_sidecar/src/utils.rs:29-37], [ResolveAddressError]. *)
Record ResolveAddressError := mkResolveError {
  re_address : string;
  re_kind : ResolveAddressErrorKind;
}.

(** [event_sidecar/src/utils.rs:48-60], [Display for ResolveAddressErrorKind], in the
    message of [ResolveAddressError]. *)
Definition ResolveAddressError_display (error : ResolveAddressError) : string :=
  "could not resolve `" +:+ re_address error +:+ "`: " +:+
  match re_kind error with
  | ErrorResolving err => "could not run dns resolution: " +:+ err
  | NoAddressFound => "no addresses found"
  end.

(** [event_sidecar/src/utils.rs:77-100], [ListeningError]. *)
Inductive ListeningError :=
| ResolveAddress (error : ResolveAddressError)
| Listen (address error : string)
| Initializing (address error : string).

(** [event_sidecar/src/utils.rs:77-100], the messages of [ListeningError]. *)
Definition ListeningError_display (error : ListeningError) : string :=
  match error with
  | ResolveAddress error => "failed to resolve network address: " +:+ ResolveAddressError_display error
  | Listen address error => "failed to listen on " +:+ address +:+ ": " +:+ error
  | Initializing address error => "failed to initialize listener " +:+ address +:+ ": " +:+ error
  end.

(** What starting a server meets outside of the process: the resolution of
    names, the files of the indexer and the sockets. *)
Record Host := mkHost {
  to_socket_addrs : string -> result string (list string);
  create_dir : result string unit;
  read_file : string -> result string (list Z);
  try_bind : string -> result string string;
}.

(** [event_sidecar/src/utils.rs:62-75], [resolve_address]. *)
Definition resolve_address (host : Host) (address : string) : result ResolveAddressError string :=
  let? addresses := map_err (fun err => mkResolveError address (ErrorResolving err)) (to_socket_addrs host address) in
  ok_or (head addresses) (mkResolveError address NoAddressFound).

(** [tokio::sync::broadcast::channel] panics without capacity. *)
Definition broadcast_channel (capacity : Z) : option unit := if decide (capacity = 0) then None else Some tt.

(** [event_sidecar/src/event_stream_server.rs:66-114], [EventStreamServer::new]: [None] is a
    panic, of the 32-bit product or of the broadcast channel. *)
Definition EventStreamServer_new (host : Host) (config : Config) (storage_path : string)
    : option (result ListeningError EventStreamServer) :=
  match map_err ResolveAddress (resolve_address host (address config)) with
  | Err e => Some (Err e)
  | Ok required_address =>
      match EventIndexer_new storage_path (create_dir host) (read_file host) with
      | Err e => Some (Err (Initializing (address config) e))
      | Ok indexer =>
          size ← get_broadcast_channel_size config;
          _ ← broadcast_channel size;
          match try_bind host required_address with
          | Err e => Some (Err (Listen required_address e))
          | Ok _ => Some (Ok (mkServer [] indexer))
          end
      end
  end.

(** ** One client among the tasks *)

(** A [broadcast::Receiver] in the hands of a client: the position in the history of
    the next event, and what was received, events or the number of events missed. *)
Record Receiver := mkReceiver {
  rc_next : nat;
  rc_seen : list (result Z ServerSentEvent);
}.

(** [broadcast::Receiver::recv] on a channel that keeps the last [slots] of the events
    [sent]: a receiver whose next event is gone gets the number of events it missed
    and goes on with the oldest one that is kept. *)
Definition recv (slots : nat) (sent : list ServerSentEvent) (next : nat)
    : option (result Z ServerSentEvent * nat) :=
  let oldest := (length sent - slots)%nat in
  if decide (next < oldest)%nat then Some (Err (Z.of_nat (oldest - next)), oldest)
  else (fun e => (Ok e, S next)) <$> sent !! next.

Section System.
Context {B : Type} `{WB : WheelBuf B Buffered}.
(** The slots of the broadcast channel, at least [get_broadcast_channel_size]. *)
Context (slots : nat).

(** A client: what it asked for, how far its request handler got, and the
    lengths of the history when it subscribed and when it was registered. *)
Record Client := mkClient {
  cl_info : NewSubscriberInfo;
  cl_info_sent : bool;
  cl_receiver : option Receiver;
  cl_initial : option (list ServerSentEvent);
  cl_subscribed_at : nat;
  cl_registered_at : nat;
}.

(** The server, the state of [http_server::run], the events it has handled, and
    the client. *)
Record System := mkSystem {
  sys_server : EventStreamServer;
  sys_latest : option ProtocolVersion;
  sys_buffer : B;
  sys_handled : list ServerSentEvent;
  sys_client : Client;
}.

Definition fresh_client (info : NewSubscriberInfo) : Client := mkClient info false None None 0 0.

Definition initial_system (first : Z) (buffer_length : Z) (info : NewSubscriberInfo) : System :=
  mkSystem (mkServer [] (mkIndexer first "sse_index")) None (build_buffer buffer_length) []
    (fresh_client info).

(** [event_sidecar/src/event_stream_server/http_server.rs:33-69], [run]: the branches of its
    [select!] loop ([step_data], [step_register]), the announcements that feed
    it, the two actions of [serve_sse_response_handler] in their order, and the
    stream of the client, which receives once the initial events are all there. *)
Inductive step : System -> System -> Prop :=
| step_announce s d f :
    step s (mkSystem (broadcast (sys_server s) d f) (sys_latest s) (sys_buffer s)
              (sys_handled s) (sys_client s))
| step_data s x queue latest buffer e :
    sse_data_queue (sys_server s) = x :: queue ->
    handle_incoming_data (Some x) (sys_latest s) (sys_buffer s) = Ok (latest, buffer, SseMessage e) ->
    step s (mkSystem (mkServer queue (event_indexer (sys_server s))) latest buffer
              (sys_handled s ++ [e]) (sys_client s))
| step_send_info s :
    cl_info_sent (sys_client s) = false ->
    step s (mkSystem (sys_server s) (sys_latest s) (sys_buffer s) (sys_handled s)
              (let c := sys_client s in
               mkClient (cl_info c) true (cl_receiver c) (cl_initial c)
                 (cl_subscribed_at c) (cl_registered_at c)))
| step_subscribe s :
    cl_info_sent (sys_client s) = true -> cl_receiver (sys_client s) = None ->
    step s (mkSystem (sys_server s) (sys_latest s) (sys_buffer s) (sys_handled s)
              (let c := sys_client s in
               mkClient (cl_info c) (cl_info_sent c) (Some (mkReceiver (length (sys_handled s)) []))
                 (cl_initial c) (length (sys_handled s)) (cl_registered_at c)))
| step_register s out :
    cl_info_sent (sys_client s) = true -> cl_initial (sys_client s) = None ->
    register_new_subscriber (cl_info (sys_client s)) (sys_buffer s) (sys_latest s) = Some out ->
    step s (mkSystem (sys_server s) (sys_latest s) (sys_buffer s) (sys_handled s)
              (let c := sys_client s in
               mkClient (cl_info c) (cl_info_sent c) (cl_receiver c) (Some out)
                 (cl_subscribed_at c) (length (sys_handled s))))
| step_receive s out rc item next :
    cl_initial (sys_client s) = Some out -> cl_receiver (sys_client s) = Some rc ->
    recv slots (sys_handled s) (rc_next rc) = Some (item, next) ->
    step s (mkSystem (sys_server s) (sys_latest s) (sys_buffer s) (sys_handled s)
              (let c := sys_client s in
               mkClient (cl_info c) (cl_info_sent c) (Some (mkReceiver next (rc_seen rc ++ [item])))
                 (cl_initial c) (cl_subscribed_at c) (cl_registered_at c))).

Definition reachable (first buffer_length : Z) (info : NewSubscriberInfo) (s : System) : Prop :=
  rtc step (initial_system first buffer_length info) s.

(** The events of a history: everything with an identifier. *)
Definition has_id (e : ServerSentEvent) : Prop := is_Some (id e).
#[export] Instance has_id_dec (e : ServerSentEvent) : Decision (has_id e).
Proof. unfold has_id. apply _. Defined.

Definition events (l : list ServerSentEvent) : list ServerSentEvent := filter has_id l.

(** The history starts with a version, as the history of a node does. *)
Definition versioned (hist : list ServerSentEvent) : Prop :=
  match hist with e :: _ => id e = None | [] => False end.

(** The identifiers of announced data in a queue continue from [next]. *)
Fixpoint queue_ok (q : list InboundData) (next : Z) : Prop :=
  match q with
  | [] => True
  | x :: q => announced_with x next /\ queue_ok q (next_after x next)
  end.

Fixpoint next_of_queue (q : list InboundData) (next : Z) : Z :=
  match q with
  | [] => next
  | x :: q => next_of_queue q (next_after x next)
  end.

(** The events received before the receiver missed any, and whether it did. *)
Fixpoint before_lag (seen : list (result Z ServerSentEvent)) : list ServerSentEvent :=
  match seen with
  | Ok e :: seen => e :: before_lag seen
  | _ => []
  end.

Definition lagged (seen : list (result Z ServerSentEvent)) : bool := existsb is_err seen.

(** A receiver that has missed nothing has received all up to its position; one that
    has was at that moment more than [slots] events behind. *)
Record receiver_ok (subscribed_at : nat) (handled : list ServerSentEvent) (rc : Receiver) : Prop := {
  ro_next : (subscribed_at <= rc_next rc <= length handled)%nat;
  ro_read : before_lag (rc_seen rc) `prefix_of` drop subscribed_at handled;
  ro_position : let read := (subscribed_at + length (before_lag (rc_seen rc)))%nat in
    if lagged (rc_seen rc) then (read + slots < length handled)%nat else rc_next rc = read;
}.

(** What held at the moment a client was registered. *)
Definition registered_from (cap : nat) (first : Z) (info : NewSubscriberInfo)
    (hist : list ServerSentEvent) (out : list ServerSentEvent) : Prop :=
  exists latest b,
    register_new_subscriber info b latest = Some out /\
    wb_capacity b = cap /\
    buffer_inv latest b (first + Z.of_nat (length (events hist))) /\
    (wb_iter b).*2 `suffix_of` events hist /\
    (versioned hist -> length (wb_iter b) = (cap `min` length (events hist))%nat).

(** The invariant of the system. *)
Record sys_inv (cap : nat) (first : Z) (info : NewSubscriberInfo) (s : System) : Prop := {
  si_queue : queue_ok (sse_data_queue (sys_server s)) (first + Z.of_nat (length (events (sys_handled s))));
  si_index : index (event_indexer (sys_server s)) =
    wrap_u32 (next_of_queue (sse_data_queue (sys_server s)) (first + Z.of_nat (length (events (sys_handled s)))));
  si_buffer : buffer_inv (sys_latest s) (sys_buffer s) (first + Z.of_nat (length (events (sys_handled s))));
  si_capacity : wb_capacity (sys_buffer s) = cap;
  si_stored : (wb_iter (sys_buffer s)).*2 `suffix_of` events (sys_handled s);
  si_full : versioned (sys_handled s) -> sys_latest s <> None /\
    length (wb_iter (sys_buffer s)) = (cap `min` length (events (sys_handled s)))%nat;
  si_ids : map id (events (sys_handled s)) = Some <$> ids_from first (length (events (sys_handled s)));
  si_plain : Forall plain_event (events (sys_handled s));
  si_versions : Forall (fun e =>
    id e = None -> comment e = None /\ exists v, data e = Some (ApiVersion v)) (sys_handled s);
  si_info : cl_info (sys_client s) = info;
  si_receiver : forall rc, cl_receiver (sys_client s) = Some rc ->
    receiver_ok (cl_subscribed_at (sys_client s)) (sys_handled s) rc;
  si_initial : forall out, cl_initial (sys_client s) = Some out ->
    (cl_registered_at (sys_client s) <= length (sys_handled s))%nat /\
    registered_from cap first info (take (cl_registered_at (sys_client s)) (sys_handled s)) out;
}.

(** *** Every step keeps the invariant *)

Lemma queue_ok_app (q : list InboundData) (x : InboundData) (next : Z) :
  queue_ok q next -> announced_with x (next_of_queue q next) -> queue_ok (q ++ [x]) next.
Proof.
  revert next. induction q as [|y q IH]; intros next; simpl; [done|].
  intros (? & ?) ?. split; [done|]. by apply IH.
Qed.

Lemma next_of_queue_app (q : list InboundData) (x : InboundData) (next : Z) :
  next_of_queue (q ++ [x]) next = next_after x (next_of_queue q next).
Proof. revert next. induction q as [|y q IH]; intros next; simpl; [done|]. apply IH. Qed.

Lemma events_app (l1 l2 : list ServerSentEvent) : events (l1 ++ l2) = events l1 ++ events l2.
Proof. apply filter_app. Qed.

Lemma events_one (x : InboundData) :
  events [mkEvent x.1.1 (Some x.1.2) None x.2] =
    match x.1.1 with Some _ => [mkEvent x.1.1 (Some x.1.2) None x.2] | None => [] end.
Proof. destruct x as [[[i|] d] f]; reflexivity. Qed.

Lemma last_n_suffix_of {A} (n : nat) (l : list A) : last_n n l `suffix_of` l.
Proof. destruct (last_n_suffix n l) as [l' Hl]. by exists l'. Qed.

(** The stored events stay the newest ones of the history. *)
Lemma stored_step (x : InboundData) (latest latest' : option ProtocolVersion) (b b' : B) (e : ServerSentEvent)
    (hist : list ServerSentEvent) (next : Z) :
  buffer_inv latest b next -> announced_with x next ->
  handle_incoming_data (Some x) latest b = Ok (latest', b', SseMessage e) ->
  (wb_iter b).*2 `suffix_of` events hist ->
  (wb_iter b').*2 `suffix_of` events (hist ++ [e]).
Proof.
  intros Hinv Hx Hh Hs. rewrite events_app.
  destruct (handle_incoming_data_inv x latest b next Hinv Hx) as (l2 & b2 & e2 & Hh2 & _ & _ & He).
  rewrite Hh in Hh2. injection Hh2 as <- <- <-. subst e. rewrite events_one.
  destruct x as [[[i|] d] f]; simpl in *.
  - destruct latest as [v|].
    + assert (b' = wb_push (v, mkEvent (Some i) (Some d) None f) b) as -> by (destruct d; naive_solver).
      rewrite wb_iter_push by apply Hinv. unfold last_n.
      rewrite fmap_drop, fmap_app. simpl.
      etrans; [apply suffix_drop|]. destruct Hs as [l0 ->]. exists l0. by rewrite app_assoc.
    + assert (b' = b) as -> by (destruct d; naive_solver).
      rewrite (inv_latest _ _ _ Hinv eq_refl). apply suffix_nil.
  - destruct d; try done. simpl in Hh. injection Hh as <- <- . by rewrite app_nil_r.
Qed.

(** A buffer that was filled from a versioned history is as full as it can be. *)
Lemma full_step (x : InboundData) (latest latest' : option ProtocolVersion) (b b' : B) (e : ServerSentEvent)
    (hist : list ServerSentEvent) (next : Z) (cap : nat) :
  buffer_inv latest b next -> announced_with x next -> wb_capacity b = cap ->
  handle_incoming_data (Some x) latest b = Ok (latest', b', SseMessage e) ->
  (wb_iter b).*2 `suffix_of` events hist ->
  (versioned hist -> latest <> None /\ length (wb_iter b) = (cap `min` length (events hist))%nat) ->
  versioned (hist ++ [e]) ->
  latest' <> None /\ length (wb_iter b') = (cap `min` length (events (hist ++ [e])))%nat.
Proof.
  intros Hinv Hx Hcap Hh Hs Hfull Hv.
  destruct (handle_incoming_data_inv x latest b next Hinv Hx) as (l2 & b2 & e2 & Hh2 & _ & _ & He).
  rewrite Hh in Hh2. injection Hh2 as <- <- <-. subst e.
  rewrite events_app, events_one, length_app.
  destruct x as [[[i|] d] f]; simpl in *.
  - destruct hist as [|e0 hist]; [done|]. destruct (Hfull Hv) as [Hlat Hlen].
    destruct latest as [v|]; [|done].
    assert (latest' = Some v /\ b' = wb_push (v, mkEvent (Some i) (Some d) None f) b) as [-> ->]
      by (destruct d; naive_solver).
    split; [done|]. rewrite wb_iter_push by apply Hinv. rewrite length_last_n, length_app, Hlen. simpl. lia.
  - destruct d; try done. simpl in Hh. injection Hh as <- <-. split; [done|]. rewrite Nat.add_0_r.
    destruct hist as [|e0 hist]; [|by apply Hfull].
    apply suffix_nil_inv in Hs. apply (f_equal length) in Hs. rewrite length_fmap in Hs. simpl in *. lia.
Qed.

Lemma broadcast_inv (srv : EventStreamServer) (d : SseData) (f : option Filter) (next : Z) :
  queue_ok (sse_data_queue srv) next ->
  index (event_indexer srv) = wrap_u32 (next_of_queue (sse_data_queue srv) next) ->
  let srv' := broadcast srv d f in
  queue_ok (sse_data_queue srv') next /\
  index (event_indexer srv') = wrap_u32 (next_of_queue (sse_data_queue srv') next).
Proof.
  intros Hq Hi srv'. subst srv'. unfold broadcast.
  destruct (is_api_version d) eqn:Hd.
  - destruct d; try done. simpl. rewrite next_of_queue_app. split; [by apply queue_ok_app|done].
  - assert (exists srv', broadcast srv d f = srv' /\
      srv' = mkServer (sse_data_queue srv ++ [(Some (index (event_indexer srv)), d, f)])
               (next_index (event_indexer srv)).2) as (srv' & Hb & ->) by (by eexists; split; [|destruct d]).
    unfold broadcast in Hb. rewrite Hb. simpl. rewrite next_of_queue_app. split.
    + apply queue_ok_app; [done|by split].
    + simpl. unfold u32_wrapping_add. rewrite Hi. apply wrap_u32_idemp.
Qed.

Lemma map_id_events_app (hist : list ServerSentEvent) (x : InboundData) (first : Z) :
  announced_with x (first + Z.of_nat (length (events hist))) ->
  map id (events hist) = Some <$> ids_from first (length (events hist)) ->
  let hist' := hist ++ [mkEvent x.1.1 (Some x.1.2) None x.2] in
  map id (events hist') = Some <$> ids_from first (length (events hist')) /\
  first + Z.of_nat (length (events hist')) = next_after x (first + Z.of_nat (length (events hist))).
Proof.
  intros Hx Hids hist'. subst hist'. rewrite events_app, events_one, map_app, length_app, ids_from_app, fmap_app, Hids.
  destruct x as [[[i|] d] f]; simpl in *.
  - destruct Hx as [_ ->]. rewrite Z.add_0_r. split; [done|lia].
  - rewrite app_nil_r. split; [done|lia].
Qed.

(** *** The receiver *)

Lemma before_lag_received (seen : list (result Z ServerSentEvent)) (e : ServerSentEvent) :
  lagged seen = false -> before_lag (seen ++ [Ok e]) = before_lag seen ++ [e].
Proof. induction seen as [|[e'|n] seen IH]; simpl; [done| |done]. intros Hl. by rewrite IH. Qed.

Lemma before_lag_missed (seen : list (result Z ServerSentEvent)) (n : Z) :
  before_lag (seen ++ [Err n]) = before_lag seen.
Proof. induction seen as [|[e'|n'] seen IH]; simpl; [done| |done]. by rewrite IH. Qed.

Lemma before_lag_lagged (seen seen' : list (result Z ServerSentEvent)) :
  lagged seen = true -> before_lag (seen ++ seen') = before_lag seen.
Proof. induction seen as [|[e'|n] seen IH]; simpl; [done| |done]. intros Hl. by rewrite IH. Qed.

Lemma lagged_app (seen seen' : list (result Z ServerSentEvent)) :
  lagged (seen ++ seen') = lagged seen || lagged seen'.
Proof. apply existsb_app. Qed.

Lemma receiver_ok_grows (at_ : nat) (handled : list ServerSentEvent) (rc : Receiver) (e : ServerSentEvent) :
  receiver_ok at_ handled rc -> receiver_ok at_ (handled ++ [e]) rc.
Proof.
  intros [Hn Hr Hp]. split; rewrite ?length_app; simpl in *.
  - lia.
  - rewrite drop_app_le by lia. by apply prefix_app_r.
  - destruct (lagged _); lia.
Qed.

(** Receiving keeps the receiver right. *)
Lemma receiver_ok_recv (at_ : nat) (handled : list ServerSentEvent) (rc : Receiver) item next :
  receiver_ok at_ handled rc -> recv slots handled (rc_next rc) = Some (item, next) ->
  receiver_ok at_ handled (mkReceiver next (rc_seen rc ++ [item])).
Proof.
  intros [Hn Hr Hp] Hrecv. unfold recv in Hrecv. case_decide as Hold.
  - injection Hrecv as <- <-. split; cbn [rc_next rc_seen]; rewrite ?before_lag_missed, ?lagged_app; simpl.
    + lia.
    + done.
    + rewrite orb_true_r. destruct (lagged _); simpl in Hp; lia.
  - apply fmap_Some in Hrecv as (e & He & [= -> ->]). pose proof (lookup_lt_Some _ _ _ He).
    split; cbn [rc_next rc_seen]; rewrite ?lagged_app; simpl; [lia|..]; destruct (lagged (rc_seen rc)) eqn:Hl; simpl in Hp |- *;
      rewrite ?before_lag_lagged, ?before_lag_received by done; [done| |done|rewrite length_app; simpl; lia].
    destruct Hr as [rest Hrest]. rewrite Hp, <- lookup_drop, Hrest, lookup_app_r in He by lia.
    rewrite Nat.sub_diag in He. destruct rest as [|e' rest]; [done|]. injection He as ->.
    exists rest. by rewrite Hrest, <- app_assoc.
Qed.

Lemma step_data_inv (cap : nat) (first : Z) (info : NewSubscriberInfo) (s : System) x queue latest buffer e :
  sys_inv cap first info s ->
  sse_data_queue (sys_server s) = x :: queue ->
  handle_incoming_data (Some x) (sys_latest s) (sys_buffer s) = Ok (latest, buffer, SseMessage e) ->
  sys_inv cap first info
    (mkSystem (mkServer queue (event_indexer (sys_server s))) latest buffer (sys_handled s ++ [e]) (sys_client s)).
Proof.
  intros [Hq Hi Hb Hc Hst Hfull Hids Hp Hv Hinfo Hr Hini] Hqx Hh.
  rewrite Hqx in Hq, Hi. destruct Hq as (Hx & Hq). simpl in Hi.
  destruct (handle_incoming_data_inv x _ _ _ Hb Hx) as (l2 & b2 & e2 & Hh2 & Hb2 & Hc2 & He).
  rewrite Hh in Hh2. injection Hh2 as <- <- <-.
  pose proof (stored_step _ _ _ _ _ _ _ _ Hb Hx Hh Hst) as Hst2.
  pose proof (full_step _ _ _ _ _ _ _ _ _ Hb Hx Hc Hh Hst Hfull) as Hfull2. subst e.
  destruct (map_id_events_app _ _ _ Hx Hids) as [Hids2 Hnext].
  split; simpl; rewrite ?Hnext; try done; [congruence|..].
  - rewrite events_app, events_one. apply Forall_app. split; [done|].
    destruct x as [[[i|] d] f]; simpl in *; [|constructor].
    repeat constructor; simpl. by exists d; destruct Hx.
  - apply Forall_app. split; [done|]. constructor; [|constructor]. intros Hn.
    destruct x as [[[i|] d] f]; simpl in *; [done|]. split; [done|]. destruct d; try done. by eexists.
  - intros rc Hrc. by apply receiver_ok_grows, Hr.
  - intros out Hout. destruct (Hini out Hout) as [Hle Hreg]. rewrite length_app. simpl. split; [lia|].
    by rewrite take_app_le.
Qed.

Lemma step_inv (cap : nat) (first : Z) (info : NewSubscriberInfo) (s s' : System) :
  sys_inv cap first info s -> step s s' -> sys_inv cap first info s'.
Proof.
  intros Hinv Hstep.
  destruct Hstep as [s d f|s x queue latest buffer e Hqx Hh|s Hs|s Hs Hr|s out Hs Hi Hreg|s out rc item next Hini Hrc Hrecv].
  - destruct Hinv as [Hq Hi Hb Hc Hst Hfull Hids Hp Hv Hinfo Hr Hini].
    destruct (broadcast_inv _ d f _ Hq Hi) as [Hq' Hi']. by split.
  - by eapply step_data_inv.
  - by destruct Hinv.
  - destruct Hinv. split; try done. simpl. intros rc [= <-]. split; simpl; [lia|apply prefix_nil|lia].
  - destruct Hinv. split; try done. simpl. intros out' [= <-]. split; [done|]. rewrite firstn_all.
    exists (sys_latest s), (sys_buffer s). naive_solver.
  - destruct Hinv as [? ? ? ? ? ? ? ? ? ? Hrcv ?]. split; try done. simpl. intros rc' [= <-].
    eapply receiver_ok_recv; [by apply Hrcv|done].
Qed.

Lemma initial_inv (first buffer_length : Z) (info : NewSubscriberInfo) :
  is_u32 first -> 0 < buffer_length ->
  sys_inv (Z.to_nat buffer_length) first info (initial_system first buffer_length info).
Proof.
  intros Hf Hl. split; simpl; try done.
  - by rewrite Z.add_0_r, wrap_u32_small.
  - by apply buffer_inv_init.
  - apply wb_capacity_new.
  - unfold build_buffer. rewrite wb_iter_new. apply suffix_nil.
Qed.

Lemma reachable_inv (first buffer_length : Z) (info : NewSubscriberInfo) (s : System) :
  is_u32 first -> 0 < buffer_length -> reachable first buffer_length info s ->
  sys_inv (Z.to_nat buffer_length) first info s.
Proof.
  intros Hf Hl Hr. unfold reachable in Hr.
  remember (initial_system first buffer_length info) as s0 eqn:Hs0.
  assert (sys_inv (Z.to_nat buffer_length) first info s0) as H0 by (subst; by apply initial_inv).
  clear Hs0. induction Hr as [|s1 s2 s3 Hstep _ IH]; [done|]. apply IH. by eapply step_inv.
Qed.

End System.

Arguments System B : clear implicits.

(** ** What the client sees *)

(** The events that pass the deduplication: the initial ones, then the received
    ones whose identifier was not among them. *)
Definition kept (ids : gset Z) (e : ServerSentEvent) : Prop :=
  match id e with Some i => i ∉ ids | None => True end.

#[export] Instance kept_dec (ids : gset Z) (e : ServerSentEvent) : Decision (kept ids e).
Proof. unfold kept. destruct (id e); apply _. Defined.

Definition client_events (initial receiver : list ServerSentEvent) : list ServerSentEvent :=
  initial ++ filter (kept (initial_stream_ids initial)) receiver.

(** What a receiver yields to the stream of its client. *)
Definition messages (seen : list (result Z ServerSentEvent)) : list (result Z BroadcastChannelMessage) :=
  map (fmap SseMessage) seen.

(** The shutdown the sidecar announces of its own, which came by no filter. *)
Definition own_shutdown (e : ServerSentEvent) : bool :=
  match data e, inbound_filter e with Some Shutdown, None => true | _, _ => false end.

(** The identifier under which a client of the full endpoint reads an event. *)
Definition shown (e : ServerSentEvent) : option Z := if own_shutdown e then None else id e.

Section ClientStream.
Context (json_data : SseData -> result string Value) (legacy_json : LegacySseData -> result string Value).
Context (to_value_unwrap : SseData -> Value) (fmt disp : Key -> string).
Context (MINT_LANE_ID : Z) (mint : BlockBodyV2 -> list TransactionHash).

Local Abbreviation stream := (stream_to_client json_data legacy_json to_value_unwrap fmt disp MINT_LANE_ID mint).
Local Abbreviation send := (filter_map_server_sent_event json_data legacy_json to_value_unwrap fmt disp MINT_LANE_ID mint).

(** The form in which an event is written to a response. *)
Definition written (ep : Endpoint) (filt : list EventFilter) (legacy : bool) (e : ServerSentEvent) : option WarpEvent :=
  match send e ep filt legacy with Some (Ok w) => Some w | _ => None end.

Lemma send_written (e : ServerSentEvent) ep filt legacy :
  send e ep filt legacy = Ok <$> written ep filt legacy e.
Proof.
  unfold written, filter_map_server_sent_event, event_to_warp_event, build_comment_event, build_event_for_outbound.
  destruct (should_skip_event _ _ _); [done|]. destruct (data e) as [d|]; [|by destruct (comment e)].
  destruct (determine_id e d); [|done]. cbn [mbind option_bind].
  destruct legacy; cbv zeta.
  - destruct (LegacySseData_from fmt disp MINT_LANE_ID mint d); destruct d; simpl; try done; by case_match.
  - destruct d; simpl; try done; by case_match.
Qed.

Lemma response_body_initial (initial : list ServerSentEvent) (ongoing : list (result RecvError ServerSentEvent)) ep filt legacy :
  response_body (build_combined_events_stream json_data legacy_json to_value_unwrap fmt disp MINT_LANE_ID mint
    initial ongoing ep filt legacy) =
  omap (written ep filt legacy) initial ++
  response_body (build_combined_events_stream json_data legacy_json to_value_unwrap fmt disp MINT_LANE_ID mint
    [] ongoing ep filt legacy).
Proof.
  unfold build_combined_events_stream. induction initial as [|e l IH]; [done|].
  unfold omap in *. cbn [map app list_omap]. rewrite send_written.
  destruct (written ep filt legacy e); cbn [fmap option_fmap option_map response_body app]; by rewrite IH.
Qed.

Lemma ongoing_kept (ids : gset Z) (e : ServerSentEvent) :
  ongoing_item ids (Ok (SseMessage e)) = if decide (kept ids e) then Some (Ok e) else None.
Proof.
  simpl. unfold handle_sse_event. destruct (decide (kept ids e)) as [Hk|Hk]; unfold kept in Hk;
    destruct (id e); try done; case_decide; naive_solver.
Qed.

(** The response holds the initial events and those received before the receiver
    missed any, without repetitions. *)
Lemma response_events (initial : list ServerSentEvent) (seen : list (result Z ServerSentEvent)) ep filt legacy :
  response_body (stream initial (messages seen) ep filt legacy) =
    omap (written ep filt legacy) (client_events initial (before_lag seen)).
Proof.
  unfold stream_to_client, client_events. rewrite response_body_initial, omap_app. f_equal.
  generalize (initial_stream_ids initial). intros ids. unfold build_combined_events_stream, omap.
  induction seen as [|[e|n] seen IH]; [done| |done]. cbn [messages map fmap result_fmap list_omap before_lag].
  pose proof (ongoing_kept ids e) as He. rewrite filter_cons. simpl in He |- *. rewrite He.
  case_decide; [|exact IH]. cbn [until_closed app map list_omap]. rewrite send_written.
  destruct (written ep filt legacy e); cbn [fmap option_fmap option_map response_body]; [f_equal|]; exact IH.
Qed.

(** The identifiers a client reads off its stream. *)
Definition stream_ids (l : list (result RecvError WarpEvent)) : list string := omap w_id (response_body l).

(** An event as the server produces them. *)
Definition served_event (e : ServerSentEvent) : Prop :=
  match id e with
  | Some _ => plain_event e
  | None => (comment e = None /\ exists v, data e = Some (ApiVersion v)) \/ (data e = None /\ comment e <> None)
  end.

Lemma written_id (e : ServerSentEvent) :
  served_event e -> written Endpoint_Events EVENTS_FILTER false e ≫= w_id = pretty <$> shown e.
Proof.
  unfold served_event, written, filter_map_server_sent_event, should_skip_event, determine_id, should_send_shutdown,
    shown, own_shutdown.
  destruct e as [[i|] d c f]; simpl.
  - intros [Hc (d' & Hd & Hv)]. simpl in *. subst. destruct d'; try done; simpl; by destruct f.
  - intros [[Hc (v & Hd)]|[Hd Hc]]; simpl in *; subst.
    + change (w_id (warp_json (json_data (ApiVersion v))) = None). by destruct (json_data _).
    + by destruct c.
Qed.

Lemma written_ids_by ep filt legacy (f : ServerSentEvent -> option Z) (l : list ServerSentEvent) :
  (forall e, served_event e -> written ep filt legacy e ≫= w_id = pretty <$> f e) -> Forall served_event l ->
  omap w_id (omap (written ep filt legacy) l) = map pretty (omap f l).
Proof.
  intros Hf. induction 1 as [|e l He _ IH]; [done|]. apply Hf in He. unfold omap in *. cbn [list_omap].
  destruct (written _ _ _ e) as [w|]; cbn [list_omap mbind option_bind] in *; [rewrite He|];
    destruct (f e); simpl in *; try done; by rewrite IH.
Qed.

Lemma written_ids (l : list ServerSentEvent) :
  Forall served_event l -> omap w_id (omap (written Endpoint_Events EVENTS_FILTER false) l) = map pretty (omap shown l).
Proof. apply written_ids_by. apply written_id. Qed.

(** *** The legacy endpoints *)

(** The shutdown of a node, which came by a filter. *)
Definition node_shutdown (e : ServerSentEvent) : bool :=
  match data e, inbound_filter e with Some Shutdown, Some _ => true | _, _ => false end.

(** The identifier under which clients of a legacy endpoint with a filter read an event. *)
Definition legacy_shown (filt : list EventFilter) (e : ServerSentEvent) : option Z :=
  match data e with
  | Some d => if node_shutdown e || (translatable d && should_include d filt) then id e else None
  | None => None
  end.

(** An item is the untranslated shutdown of a node, or the 1.x form of an event about the
    same deploy. *)
Definition tells (e : ServerSentEvent) (w : WarpEvent) : Prop :=
  (node_shutdown e = true /\ w_data w = Some (to_value_unwrap Shutdown)) \/
  exists d l, data e = Some d /\ LegacySseData_from fmt disp MINT_LANE_ID mint d = Some l /\
    event_transaction d = TransactionHash_Deploy <$> legacy_deploy l /\
    forall v, legacy_json l = Ok v -> w_data w = Some v.

Lemma legacy_written (e : ServerSentEvent) (ep : Endpoint) (filt : list EventFilter) :
  served_event e ->
  written ep filt true e ≫= w_id = pretty <$> legacy_shown filt e /\
  forall w, written ep filt true e = Some w -> is_Some (w_id w) -> tells e w.
Proof.
  intros He. unfold served_event in He. destruct e as [[i|] d c f]; simpl in He.
  - destruct He as [Hc (d' & Hd & Hv)]. simpl in Hc, Hd. subst c d.
    assert (d' = Shutdown \/ d' <> Shutdown) as [->|Hns] by (destruct d'; auto).
    { unfold written, filter_map_server_sent_event, should_skip_event, legacy_shown, tells, node_shutdown. simpl.
      unfold should_send_shutdown. destruct f; simpl; [|by split].
      split; [done|]. intros w [= <-] _. by left. }
    assert (node_shutdown (mkEvent (Some i) (Some d') None f) = false) as Hnode by (unfold node_shutdown; by destruct d').
    assert (written ep filt true (mkEvent (Some i) (Some d') None f) =
      if should_include d' filt then
        (fun l => mkWarp (w_data (warp_json (legacy_json l))) (w_comment (warp_json (legacy_json l))) (Some (pretty i)))
          <$> LegacySseData_from fmt disp MINT_LANE_ID mint d'
      else None) as Hw.
    { unfold written, filter_map_server_sent_event, should_skip_event, determine_id. simpl.
      destruct (should_include d' filt); [|done]. simpl. rewrite Hv. simpl. unfold event_to_warp_event.
      destruct (LegacySseData_from fmt disp MINT_LANE_ID mint d'); destruct d'; done. }
    destruct (translation_total fmt disp MINT_LANE_ID mint d') as [Htr Hdep].
    rewrite Hw. unfold legacy_shown. cbn [data id]. rewrite Hnode. simpl.
    destruct (should_include d' filt); rewrite ?andb_true_r, ?andb_false_r; [|by split].
    destruct (LegacySseData_from fmt disp MINT_LANE_ID mint d') as [l|] eqn:Hl; simpl.
    + rewrite (proj1 Htr) by by eexists. split; [done|]. intros w [= <-] _. right. exists d', l.
      split_and!; [done..|by apply Hdep|]. intros v ->. done.
    + split; [|done]. destruct (translatable d'); [|done]. by destruct (proj2 Htr eq_refl).
  - destruct He as [[Hc (v & Hd)]|[Hd Hc]]; simpl in Hc, Hd; subst.
    + unfold written, filter_map_server_sent_event, should_skip_event, legacy_shown, node_shutdown.
      cbn [data comment id inbound_filter]. destruct (should_include (ApiVersion v) filt); simpl; [|done].
      split; [by destruct (legacy_json _)|]. intros w [= <-] []. by destruct (legacy_json _).
    + unfold written, filter_map_server_sent_event, should_skip_event, legacy_shown, build_comment_event. simpl.
      destruct c; simpl; [|done]. split; [done|]. by intros w [= <-] [].
Qed.

(** Together the three endpoints show each event that can be translated once, and the
    shutdowns of nodes three times. *)
Definition told (e : ServerSentEvent) : option Z :=
  match data e with Some d => if translatable d then id e else None | None => None end.

Definition told_shutdown (e : ServerSentEvent) : option Z := if node_shutdown e then id e else None.

Lemma legacy_shown_split (l : list ServerSentEvent) :
  Forall served_event l ->
  omap (legacy_shown MAIN_FILTER) l ++ omap (legacy_shown DEPLOYS_FILTER) l ++ omap (legacy_shown SIGNATURES_FILTER) l ≡ₚ
  omap told l ++ omap told_shutdown l ++ omap told_shutdown l ++ omap told_shutdown l.
Proof.
  intros Hl. apply (Permutation_count_occ Z.eq_dec). intros x. rewrite !count_occ_app.
  induction Hl as [|e l He _ IH]; [done|].
  assert (forall f, count_occ Z.eq_dec (omap f (e :: l)) x =
    (count_occ Z.eq_dec (option_list (f e)) x + count_occ Z.eq_dec (omap f l) x)%nat) as Hcons.
  { intros f. rewrite <- count_occ_app. f_equal. unfold omap. cbn [list_omap]. by destruct (f e). }
  rewrite !Hcons.
  cut (count_occ Z.eq_dec (option_list (legacy_shown MAIN_FILTER e)) x +
       count_occ Z.eq_dec (option_list (legacy_shown DEPLOYS_FILTER e)) x +
       count_occ Z.eq_dec (option_list (legacy_shown SIGNATURES_FILTER e)) x =
       count_occ Z.eq_dec (option_list (told e)) x + 3 * count_occ Z.eq_dec (option_list (told_shutdown e)) x)%nat; [lia|].
  unfold legacy_shown, told, told_shutdown, node_shutdown.
  destruct e as [[i|] [d|] c f]; [|simpl; lia|by destruct d; simpl; repeat case_match|simpl; lia].
  assert (is_api_version d = false) as Hv by (by destruct He as [_ (d' & [= <-] & ?)]).
  destruct d as [| |[]|[] []|[]| | | |]; [done|..]; destruct f; simpl;
    destruct (Z.eq_dec i x); simpl; lia.
Qed.

End ClientStream.

Lemma events_cons (e : ServerSentEvent) (l : list ServerSentEvent) :
  events (e :: l) = match id e with Some _ => e :: events l | None => events l end.
Proof.
  unfold events. rewrite filter_cons. case_decide as He; unfold has_id in He.
  - by destruct He as [i ->].
  - by destruct (id e); [destruct He|].
Qed.

Lemma omap_id_events (l : list ServerSentEvent) : omap id l = omap id (events l).
Proof.
  induction l as [|e l IH]; [done|]. rewrite events_cons. unfold omap in *. simpl.
  destruct (id e) eqn:Hi; simpl; by rewrite ?Hi, IH.
Qed.

Lemma omap_shown_events (l : list ServerSentEvent) : omap shown l = omap shown (events l).
Proof.
  induction l as [|e l IH]; [done|]. rewrite events_cons. unfold omap in *. simpl.
  destruct (id e) eqn:Hi; simpl; [by rewrite IH|]. unfold shown. rewrite Hi. by destruct (own_shutdown e).
Qed.

Lemma annotate_events (l : list ServerSentEvent) (v : option ProtocolVersion) : (annotate v l).*2 = events l.
Proof.
  revert v. induction l as [|e l IH]; intros v; [done|]. rewrite events_cons. simpl.
  destruct (id e) eqn:Hi; simpl; [by rewrite IH|]. destruct (data e) as [[]|]; by rewrite IH.
Qed.

(** *** Deduplication *)

Lemma events_filter (ids : gset Z) (l : list ServerSentEvent) :
  events (filter (kept ids) l) = filter (kept ids) (events l).
Proof. unfold events. rewrite !list_filter_filter. apply list_filter_iff. naive_solver. Qed.

(** With distinct identifiers, dropping the events already replayed from the
    received ones leaves those after the replayed and before the received part
    exactly once. *)
Lemma filter_kept_drop (E : list ServerSentEvent) (k n m : nat) :
  NoDup (omap id E) -> Forall has_id E -> (k <= m)%nat -> (n <= length E)%nat ->
  filter (kept (list_to_set (omap id (drop k (take n E))))) (drop m E) = drop (m `max` n) E.
Proof.
  intros Hnd Hids Hkm Hn. rewrite (drop_split E m n) by done. rewrite filter_app.
  rewrite (filter_none _ (drop m (take n E))), filter_all; [done|..].
  - apply Forall_forall. intros e He. unfold kept. destruct (id e) as [i|] eqn:Hi; [|done].
    rewrite elem_of_list_to_set. intros Hin.
    rewrite <- (take_drop n E), omap_app in Hnd. apply NoDup_app in Hnd as (_ & Hd & _).
    apply (Hd i).
    + apply list_elem_of_omap in Hin as (e' & He' & Hi'). apply list_elem_of_omap. exists e'.
      split; [|done]. by eapply subseteq_drop.
    + apply list_elem_of_omap. exists e. split; [|done].
      replace (m `max` n)%nat with (n + (m `max` n - n))%nat in He by lia.
      rewrite <- drop_drop in He. by eapply subseteq_drop.
  - apply Forall_forall. intros e He. unfold kept.
    assert (e ∈ E) as HeE by (eapply subseteq_take, subseteq_drop, He).
    rewrite Forall_forall in Hids. destruct (Hids e HeE) as [i Hi]. rewrite Hi. intros Hk. apply Hk.
    apply elem_of_list_to_set, list_elem_of_omap. exists e. split; [|done].
    replace m with (k + (m - k))%nat in He by lia. rewrite <- drop_drop in He. by eapply subseteq_drop.
Qed.

(** The same for a reader that has got as far as the [p]-th event. *)
Lemma filter_kept_between (E : list ServerSentEvent) (k n m p : nat) :
  NoDup (omap id E) -> Forall has_id E -> (k <= m)%nat -> (n <= length E)%nat -> (p <= length E)%nat ->
  filter (kept (list_to_set (omap id (drop k (take n E))))) (drop m (take p E)) = drop (m `max` n) (take p E).
Proof.
  intros Hnd Hids Hkm Hn Hp. destruct (decide (n <= p)%nat) as [Hnp|Hnp].
  - replace (take n E) with (take n (take p E)) by (rewrite take_take; f_equal; lia).
    apply filter_kept_drop; [|by apply Forall_take|done|rewrite length_take; lia].
    rewrite <- (take_drop p E), omap_app in Hnd. by apply NoDup_app in Hnd as [? _].
  - rewrite (drop_ge (take p E) (m `max` n)) by (rewrite length_take; lia). apply filter_none, Forall_forall.
    intros e He. assert (e ∈ drop k (take n E)) as Hin.
    { replace (take p E) with (take p (take n E)) in He by (rewrite take_take; f_equal; lia).
      rewrite skipn_firstn_comm in He. apply subseteq_take in He.
      replace m with (k + (m - k))%nat in He by lia. rewrite <- drop_drop in He. by eapply subseteq_drop. }
    assert (has_id e) as [i Hi].
    { rewrite Forall_forall in Hids. eapply Hids, subseteq_take, subseteq_drop, Hin. }
    unfold kept. rewrite Hi. intros Hk. apply Hk, elem_of_list_to_set, list_elem_of_omap. by exists e.
Qed.

(** The events of a prefix of the history are a prefix of its events. *)
Lemma events_take (n : nat) (l : list ServerSentEvent) :
  events (take n l) = take (length (events (take n l))) (events l) /\
  (length (events (take n l)) <= length (events l))%nat.
Proof.
  rewrite <- (take_drop n l) at 3 5. rewrite events_app, length_app. split; [|lia].
  by rewrite take_app_length.
Qed.

Lemma events_drop (n : nat) (l : list ServerSentEvent) :
  events (drop n l) = drop (length (events (take n l))) (events l).
Proof. rewrite <- (take_drop n l) at 3. rewrite events_app. by rewrite drop_app_length. Qed.

(** *** The stream of a reachable client *)

Section ClientTheorems.
Context {B : Type} `{WB : WheelBuf B Buffered}.

Lemma skip_before_suffix (zone : bool) (cap s : Z) (l l' : list Buffered) :
  skip_before zone cap s l = Some l' -> l' `suffix_of` l.
Proof.
  induction l as [|t l IH]; simpl; [by intros [= <-]|]. destruct (id t.2) as [i|]; simpl; [|done].
  destruct (before_start zone cap s i); [|by intros [= <-]]. intros H. apply suffix_cons_r. by apply IH.
Qed.

Lemma initial_event_served (v : ProtocolVersion) : served_event (initial_event v).
Proof. left. split; [done|by eexists]. Qed.

Lemma send_tuples_served (l : list Buffered) (v : option ProtocolVersion) :
  Forall (fun t => served_event t.2) l -> Forall served_event (send_tuples v l).
Proof.
  intros Hl. revert v. induction Hl as [|[p e] l He _ IH]; intros v; simpl; [done|].
  apply Forall_app. split; [|by constructor]. case_decide; [done|].
  apply Forall_singleton, initial_event_served.
Qed.

(** Whatever is registered, the initial events have the form of served ones. *)
Lemma register_served (info : NewSubscriberInfo) (b : B) (latest : option ProtocolVersion) out :
  register_new_subscriber info b latest = Some out ->
  Forall (fun t => served_event t.2) (wb_iter b) -> Forall served_event out.
Proof.
  intros Hreg Hb.
  assert (Forall served_event (if enable_legacy_filters info then [legacy_comment_event] else [])) as Hleg.
  { destruct (enable_legacy_filters info); [|done]. apply Forall_singleton. by right. }
  assert (forall obs, Forall served_event (send_api_version_if_necessary obs latest)) as Hver.
  { intros []; [done|]. destruct latest as [v|]; [|done]. apply Forall_singleton, initial_event_served. }
  unfold register_new_subscriber in Hreg. destruct (start_from info) as [st|].
  - destruct (wraparound_zone _ _) as [zone|]; simpl in Hreg; [|done].
    destruct (skip_before _ _ _ _) as [l|] eqn:Hs; simpl in Hreg; [|done]. injection Hreg as <-.
    apply skip_before_suffix in Hs as [l0 Hs]. rewrite Hs in Hb. apply Forall_app in Hb as [_ Hb].
    apply Forall_app. split; [done|]. apply Forall_app. split; [by apply send_tuples_served|done].
  - injection Hreg as <-. apply Forall_app. split; [done|apply (Hver false)].
Qed.

(** What is replayed with an identifier was buffered. *)
Lemma send_tuples_members (l : list Buffered) (v : option ProtocolVersion) (e : ServerSentEvent) :
  e ∈ send_tuples v l -> has_id e -> e ∈ l.*2.
Proof.
  revert v. induction l as [|[p e'] l IH]; intros v; simpl; [by intros ?%elem_of_nil|].
  intros [He|[->|He]%elem_of_cons]%elem_of_app Hid; [|by left|right; by eapply IH].
  case_decide; [by apply elem_of_nil in He|]. apply list_elem_of_singleton in He as ->. by destruct Hid.
Qed.

Lemma register_members (info : NewSubscriberInfo) (b : B) (latest : option ProtocolVersion) out (e : ServerSentEvent) :
  register_new_subscriber info b latest = Some out -> e ∈ out -> has_id e -> e ∈ (wb_iter b).*2.
Proof.
  intros Hreg He Hid.
  assert (e ∉ (if enable_legacy_filters info then [legacy_comment_event] else [])) as Hleg.
  { destruct (enable_legacy_filters info); [|apply not_elem_of_nil]. intros ->%list_elem_of_singleton. by destruct Hid. }
  assert (forall obs, e ∉ send_api_version_if_necessary obs latest) as Hver.
  { intros []; [apply not_elem_of_nil|]. destruct latest as [v|]; [|apply not_elem_of_nil].
    intros ->%list_elem_of_singleton. by destruct Hid. }
  unfold register_new_subscriber in Hreg. destruct (start_from info) as [st|].
  - destruct (wraparound_zone _ _) as [zone|]; simpl in Hreg; [|done].
    destruct (skip_before _ _ _ _) as [l|] eqn:Hs; simpl in Hreg; [|done]. injection Hreg as <-.
    apply skip_before_suffix in Hs as [l0 ->]. rewrite fmap_app, elem_of_app. right.
    apply elem_of_app in He as [He|[He|He]%elem_of_app]; [done|by eapply send_tuples_members|by apply Hver in He].
  - injection Hreg as <-. apply elem_of_app in He as [He|He]; [done|]. by apply (Hver false) in He.
Qed.

(** The replayed events are those of the history from position [k] up to the
    registration. *)
Lemma replayed_events (cap : nat) (first : Z) (legacy : bool) (hist out : list ServerSentEvent) (k : nat) :
  registered_from (B:=B) cap first (mkSubscriber (Some (wrap_u32 (first + Z.of_nat k))) legacy) hist out ->
  3 * Z.of_nat cap <= 4294967296 -> versioned hist ->
  (k <= length (events hist) <= k + cap)%nat ->
  events out = drop k (events hist).
Proof.
  intros (latest & b & Hreg & Hcap & Hinv & [l0 Hl0] & Hfull) H3 Hv Hk.
  specialize (Hfull Hv). set (N := length (events hist)) in *. set (L := length (wb_iter b)) in *.
  assert (length l0 = N - L)%nat as Hlen.
  { apply (f_equal length) in Hl0. rewrite length_app, length_fmap in Hl0. subst N L. lia. }
  assert (wrap_u32 (first + Z.of_nat k) =
    wrap_u32 (oldest b (first + Z.of_nat N) + Z.of_nat (k - (N - L)))) as Hst.
  { unfold oldest. rewrite wrap_u32_idemp. fold L. f_equal. lia. }
  destruct (replay_drop latest b (first + Z.of_nat N) legacy (k - (N - L))) as (out' & Hout' & Hann & _);
    [done|by rewrite Hcap|rewrite Hcap; lia|].
  rewrite <- Hst, Hreg in Hout'. injection Hout' as <-.
  rewrite <- (annotate_events out None), Hann, Hl0. change (map ?f ?l) with (f <$> l).
  rewrite <- list_fmap_compose. unfold compose. simpl. rewrite drop_app, Hlen, fmap_drop.
  rewrite (drop_ge l0) by lia. done.
Qed.

Lemma events_has_id (l : list ServerSentEvent) : Forall has_id (events l).
Proof. apply Forall_forall. intros e He. by apply list_elem_of_filter in He as [? _]. Qed.

Lemma omap_id_Some (E : list ServerSentEvent) (l : list Z) :
  id <$> E = Some <$> l -> omap id E = l.
Proof.
  revert l. induction E as [|e E IH]; intros [|i l]; simpl; try done.
  intros [= He Hl]. unfold omap in *. simpl. rewrite He. f_equal. by apply IH.
Qed.

(** How many events were handled when the client was registered and when it had
    subscribed, and how many up to the last one it received before it missed any. *)
Definition registered_events (s : System B) : nat :=
  length (events (take (cl_registered_at (sys_client s)) (sys_handled s))).
Definition subscribed_events (s : System B) : nat :=
  length (events (take (cl_subscribed_at (sys_client s)) (sys_handled s))).
Definition received_events (s : System B) (rc : Receiver) : nat :=
  length (events (take (cl_subscribed_at (sys_client s) + length (before_lag (rc_seen rc))) (sys_handled s))).

Context (slots : nat).

(** Whatever a client gets with an identifier, replayed or received, was handled. *)
Lemma client_event_handled (first buffer_length : Z) (info : NewSubscriberInfo) (s : System B)
    (out : list ServerSentEvent) (rc : Receiver) (e : ServerSentEvent) :
  is_u32 first -> 0 < buffer_length -> reachable slots first buffer_length info s ->
  cl_initial (sys_client s) = Some out -> cl_receiver (sys_client s) = Some rc ->
  e ∈ client_events out (before_lag (rc_seen rc)) -> has_id e -> e ∈ events (sys_handled s).
Proof.
  intros Hf Hb Hr Hout Hrc He Hid. destruct (reachable_inv _ _ _ _ _ Hf Hb Hr) as [_ _ _ _ _ _ _ _ _ _ Hrecv Hini].
  apply elem_of_app in He as [He|[_ He]%list_elem_of_filter].
  - destruct (Hini out Hout) as [_ (latest & b & Hreg & _ & _ & [l0 Hl0] & _)].
    destruct (events_take (cl_registered_at (sys_client s)) (sys_handled s)) as [Htake _].
    rewrite Htake in Hl0. eapply subseteq_take. rewrite Hl0. apply elem_of_app. right. by eapply register_members.
  - destruct (Hrecv rc Hrc) as [_ [rest Hread] _]. apply list_elem_of_filter. split; [done|].
    eapply subseteq_drop. rewrite Hread. apply elem_of_app. by left.
Qed.

(** A client that asks for the events from the [k]-th on and is registered when they
    are still buffered, after a first version was handled. *)
Record in_buffer (first buffer_length : Z) (legacy : bool) (k : nat) (s : System B) (out : list ServerSentEvent)
    (rc : Receiver) : Prop := {
  ib_first : is_u32 first;
  ib_length : 0 < buffer_length /\ 3 * buffer_length <= 4294967296;
  ib_reachable : reachable slots first buffer_length (mkSubscriber (Some (wrap_u32 (first + Z.of_nat k))) legacy) s;
  ib_initial : cl_initial (sys_client s) = Some out;
  ib_receiver : cl_receiver (sys_client s) = Some rc;
  ib_versioned : versioned (take (cl_registered_at (sys_client s)) (sys_handled s));
  ib_few : Z.of_nat (length (events (sys_handled s))) <= 4294967296;
  ib_subscribed : (k <= subscribed_events s)%nat;
  ib_buffered : (k <= registered_events s <= k + Z.to_nat buffer_length)%nat;
}.

(** Where the receiver of a client stands. *)
Lemma received_position (first buffer_length : Z) (info : NewSubscriberInfo) (s : System B) (rc : Receiver) :
  is_u32 first -> 0 < buffer_length -> reachable slots first buffer_length info s ->
  cl_receiver (sys_client s) = Some rc ->
  let read := (cl_subscribed_at (sys_client s) + length (before_lag (rc_seen rc)))%nat in
  (subscribed_events s <= received_events s rc)%nat /\
  (lagged (rc_seen rc) = true -> (read + slots < length (sys_handled s))%nat) /\
  (lagged (rc_seen rc) = false -> rc_next rc = length (sys_handled s) ->
   received_events s rc = length (events (sys_handled s))).
Proof.
  intros Hf Hb Hr Hrc. destruct (reachable_inv _ _ _ _ _ Hf Hb Hr) as [_ _ _ _ _ _ _ _ _ _ Hrecv _].
  destruct (Hrecv rc Hrc) as [_ _ Hp]. unfold subscribed_events, received_events.
  set (read := (_ + length (before_lag _))%nat) in *. split_and!.
  - replace read with (cl_subscribed_at (sys_client s) + length (before_lag (rc_seen rc)))%nat by done.
    rewrite <- take_take_drop, events_app, length_app. lia.
  - intros Hl. by rewrite Hl in Hp.
  - intros Hl Hn. rewrite Hl, Hn in Hp. by rewrite <- Hp, firstn_all.
Qed.

(** What such a client gets. *)
Lemma client_events_spec (first buffer_length : Z) (legacy : bool) (k : nat) (s : System B)
    (out : list ServerSentEvent) (rc : Receiver) :
  in_buffer first buffer_length legacy k s out rc ->
  let E := events (sys_handled s) in
  let n := registered_events s in
  id <$> E = Some <$> ids_from first (length E) /\
  events (client_events out (before_lag (rc_seen rc))) =
    drop k (take n E) ++ drop (subscribed_events s `max` n) (take (received_events s rc) E) /\
  Forall served_event (client_events out (before_lag (rc_seen rc))).
Proof.
  intros [Hf [Hb H3] Hreach Hout Hr Hver Hlen Hkm Hkn] E n.
  destruct (reachable_inv _ _ _ _ _ Hf Hb Hreach) as [_ _ _ _ _ _ Hids Hp Hv _ Hrecv Hini].
  destruct (Hrecv rc Hr) as [_ [rest Hread] _]. destruct (Hini out Hout) as [_ Hreg].
  change (map ?f ?l) with (f <$> l) in Hids. fold E in Hids, Hp.
  pose proof (replayed_events _ _ _ _ _ _ Hreg ltac:(lia) Hver Hkn) as Hev.
  destruct (events_take (cl_registered_at (sys_client s)) (sys_handled s)) as [Htake Hle].
  fold (registered_events s) in Htake, Hle. fold E n in Htake, Hle. rewrite Htake in Hev.
  set (got := before_lag (rc_seen rc)) in *.
  assert (events got = drop (subscribed_events s) (take (received_events s rc) E)) as Hgot.
  { unfold subscribed_events, received_events. fold got. rewrite <- take_take_drop, Hread, take_app_length.
    rewrite events_app, length_app. unfold E. rewrite <- (take_drop (cl_subscribed_at (sys_client s)) (sys_handled s)) at 3.
    rewrite events_app, take_app, Hread, events_app. rewrite (take_ge (events (take _ _))) by lia.
    replace (_ + _ - _)%nat with (length (events got)) by lia. rewrite take_app_length. by rewrite drop_app_length. }
  split_and!; [done|..].
  - unfold client_events. rewrite events_app, events_filter, Hev, Hgot.
    unfold initial_stream_ids. rewrite (omap_id_events out), Hev.
    rewrite filter_kept_between; [done| |apply events_has_id|done|done|apply events_take].
    by rewrite (omap_id_Some _ (ids_from first (length E))) by done; apply NoDup_ids_from.
  - assert (Forall served_event E) as Hserved.
    { apply Forall_forall. intros e He. rewrite Forall_forall in Hp. specialize (Hp e He).
      apply list_elem_of_filter in He as [[i Hi] _]. unfold served_event. by rewrite Hi. }
    destruct Hreg as (latest & b & Hregb & _ & _ & [l0 Hl0] & _). apply Forall_app. split.
    + apply (register_served _ _ _ _ Hregb). cut (Forall served_event (wb_iter b).*2); [by rewrite Forall_fmap|].
      rewrite Htake in Hl0. assert (Forall served_event (take n E)) as Ht by (by apply Forall_take).
      rewrite Hl0 in Ht. by apply Forall_app in Ht as [_ ?].
    + apply Forall_forall. intros e [_ He]%list_elem_of_filter.
      assert (e ∈ sys_handled s) as Hin.
      { eapply subseteq_drop. rewrite Hread. apply elem_of_app. by left. }
      destruct (id e) as [i|] eqn:Hi.
      * rewrite Forall_forall in Hserved. apply Hserved, list_elem_of_filter. split; [by exists i|done].
      * unfold served_event. rewrite Hi. left. rewrite Forall_forall in Hv. by apply Hv.
Qed.

Context (json_data : SseData -> result string Value) (legacy_json : LegacySseData -> result string Value).
Context (to_value_unwrap : SseData -> Value) (fmt disp : Key -> string).
Context (MINT_LANE_ID : Z) (mint : BlockBodyV2 -> list TransactionHash).

Local Abbreviation stream := (stream_to_client json_data legacy_json to_value_unwrap fmt disp MINT_LANE_ID mint).

(** The identifiers that client reads. *)
Lemma client_stream_ids (first buffer_length : Z) (legacy : bool) (k : nat) (s : System B)
    (out : list ServerSentEvent) (rc : Receiver) :
  in_buffer first buffer_length legacy k s out rc ->
  let E := events (sys_handled s) in
  let n := registered_events s in
  stream_ids (stream out (messages (rc_seen rc)) Endpoint_Events EVENTS_FILTER false) =
    map pretty (omap shown (drop k (take n E) ++ drop (subscribed_events s `max` n) (take (received_events s rc) E))).
Proof.
  intros Hin E n. destruct (client_events_spec _ _ _ _ _ _ _ Hin) as (_ & Hev & Hserved).
  fold E n in Hev. unfold stream_ids. rewrite response_events, written_ids, <- Hev by done.
  f_equal. apply omap_shown_events.
Qed.

(** A client that had subscribed before it was registered gets an unbroken part of the
    history. *)
Lemma unbroken_part (E : list ServerSentEvent) (k m n p : nat) :
  (k <= n)%nat -> (m <= n)%nat -> (n <= length E)%nat ->
  drop k (take n E) ++ drop (m `max` n) (take p E) = drop k (take (n `max` p) E).
Proof.
  intros Hk Hm Hn. rewrite (Nat.max_r m n) by done. destruct (decide (n <= p)%nat) as [Hnp|Hnp].
  - rewrite (Nat.max_r n p) by done. replace (take n E) with (take n (take p E)) by (rewrite take_take; f_equal; lia).
    destruct (decide (p <= length E)%nat).
    + rewrite (drop_split (take p E) k n), (Nat.max_r k n); [done|lia|rewrite length_take; lia].
    + rewrite (take_ge E p) by lia. rewrite (drop_split E k n), (Nat.max_r k n); [done|lia|lia].
  - rewrite (Nat.max_l n p) by lia. rewrite (drop_ge (take p E)) by (rewrite length_take; lia). apply app_nil_r.
Qed.

(** C6. The stream of a client of the full endpoint, in every interleaving in which it
    has subscribed to the broadcast before the server registers it, while the [k]-th
    identifier it starts from is still buffered: what it reads is an unbroken part of
    the history from the [k]-th event on - no event is missing, none comes twice, they
    are in order and under consecutive identifiers, and only the shutdown of the sidecar
    itself is left out.  The part ends where the client has got to, or where its receiver
    missed events of the bounded channel and its response was ended, which happens only
    when more events than the channel has slots were handled after the last one it
    received; a client that never lagged and has caught up has read everything.  It is
    assumed that a version was handled before the registration, and that at most 2^32
    events were. *)
Theorem client_stream_complete (first buffer_length : Z) (legacy : bool) (k : nat) (s : System B)
    (out : list ServerSentEvent) (rc : Receiver) :
  in_buffer first buffer_length legacy k s out rc -> (subscribed_events s <= registered_events s)%nat ->
  let E := events (sys_handled s) in
  let ids := stream_ids (stream out (messages (rc_seen rc)) Endpoint_Events EVENTS_FILTER false) in
  id <$> E = Some <$> ids_from first (length E) /\
  ids = map pretty (omap shown (drop k (take (registered_events s `max` received_events s rc) E))) /\
  (lagged (rc_seen rc) = true ->
   (cl_subscribed_at (sys_client s) + length (before_lag (rc_seen rc)) + slots < length (sys_handled s))%nat) /\
  (lagged (rc_seen rc) = false -> rc_next rc = length (sys_handled s) -> ids = map pretty (omap shown (drop k E))).
Proof.
  intros Hin Hmn E ids. pose proof (client_events_spec _ _ _ _ _ _ _ Hin) as (Hids & _).
  destruct (received_position first buffer_length _ s rc (ib_first _ _ _ _ _ _ _ Hin) (proj1 (ib_length _ _ _ _ _ _ _ Hin))
    (ib_reachable _ _ _ _ _ _ _ Hin) (ib_receiver _ _ _ _ _ _ _ Hin)) as (_ & Hlag & Hall).
  assert (registered_events s <= length E)%nat as Hn by apply (events_take (cl_registered_at (sys_client s))).
  assert (ids = map pretty (omap shown (drop k (take (registered_events s `max` received_events s rc) E)))) as Hread.
  { unfold ids. rewrite (client_stream_ids _ _ _ _ _ _ _ Hin). fold E. do 2 f_equal. apply unbroken_part; [|done..].
    apply (ib_buffered _ _ _ _ _ _ _ Hin). }
  split_and!; [done..|]. intros Hl Hnext. rewrite Hread, Hall by done. fold E. do 3 f_equal. apply take_ge. lia.
Qed.

(** The endpoint of a path of the legacy emulation, as a request is routed to it. *)
Definition legacy_stream (path : string) (initial : list ServerSentEvent) (seen : list (result Z ServerSentEvent))
    : list (result RecvError WarpEvent) :=
  match path_to_filter path true, get_filter path true with
  | Some ep, Some (filt, legacy) => stream initial (messages seen) ep filt legacy
  | _, _ => []
  end.

Lemma legacy_sublist (filt : list EventFilter) (l : list ServerSentEvent) :
  omap (legacy_shown filt) l `sublist_of` omap shown l.
Proof.
  induction l as [|e l IH]; [done|]. unfold omap in *. cbn [list_omap].
  assert (legacy_shown filt e = None \/ legacy_shown filt e = shown e) as [->| ->].
  { unfold legacy_shown, shown, own_shutdown, node_shutdown. destruct e as [i d c f]. cbn [data id inbound_filter].
    destruct d as [d|]; [|by left]. destruct d, f; simpl; auto; repeat case_match; auto. }
  - destruct (shown e); [by apply sublist_cons|done].
  - destruct (shown e); [by apply sublist_skip|done].
Qed.

(** The stream of a legacy endpoint, read off the events the client gets. *)
Lemma legacy_stream_spec (path : string) (initial : list ServerSentEvent) (seen : list (result Z ServerSentEvent)) ep filt :
  path_to_filter path true = Some ep -> get_filter path true = Some (filt, true) ->
  Forall served_event (client_events initial (before_lag seen)) ->
  stream_ids (legacy_stream path initial seen) =
    map pretty (omap (legacy_shown filt) (events (client_events initial (before_lag seen)))) /\
  forall w, w ∈ response_body (legacy_stream path initial seen) -> is_Some (w_id w) ->
    exists e i, e ∈ events (client_events initial (before_lag seen)) /\ id e = Some i /\ w_id w = Some (pretty i) /\
      tells legacy_json to_value_unwrap fmt disp MINT_LANE_ID mint e w.
Proof.
  intros Hp Hg Hserved. unfold legacy_stream. rewrite Hp, Hg. unfold stream_ids. rewrite response_events. split.
  - rewrite (written_ids_by _ _ _ _ _ _ _ _ _ _ (legacy_shown filt)); [|intros e He; by apply legacy_written|done].
    f_equal. clear Hserved. induction (client_events initial (before_lag seen)) as [|e l IH]; [done|].
    rewrite events_cons. unfold omap in *. cbn [list_omap]. destruct (id e) eqn:Hi; cbn [list_omap]; [by rewrite IH|].
    rewrite <- IH. unfold legacy_shown. rewrite Hi. destruct (data e); [by destruct (_ || _)|done].
  - intros w (e & He & Hw)%list_elem_of_omap Hid. rewrite Forall_forall in Hserved.
    edestruct (legacy_written json_data legacy_json to_value_unwrap fmt disp MINT_LANE_ID mint e ep filt (Hserved e He))
      as [Hwid Htells].
    rewrite Hw in Hwid. cbn [mbind option_bind] in Hwid.
    destruct (legacy_shown filt e) as [i|] eqn:Hs; [|by rewrite Hwid in Hid; destruct Hid].
    assert (id e = Some i) as Hi by (unfold legacy_shown in Hs; destruct (data e); [case_match|]; congruence).
    exists e, i. split; [apply list_elem_of_filter; split; [by exists i|done]|]. split_and!; [done..|by apply Htells].
Qed.


(** C27. The request handler sends the client's details before it subscribes, so
    the server may register the client first; then the events handled in
    between reach it neither as initial nor as ongoing events, and its stream
    has a gap, however far it reads. *)
Theorem client_stream_gap (first buffer_length : Z) (legacy : bool) (k : nat) (s : System B)
    (out : list ServerSentEvent) (rc : Receiver) :
  in_buffer first buffer_length legacy k s out rc -> (registered_events s < subscribed_events s)%nat ->
  let E := events (sys_handled s) in
  let ids := stream_ids (stream out (messages (rc_seen rc)) Endpoint_Events EVENTS_FILTER false) in
  id <$> E = Some <$> ids_from first (length E) /\
  ids = map pretty (omap shown
          (drop k (take (registered_events s) E) ++ drop (subscribed_events s) (take (received_events s rc) E))) /\
  (lagged (rc_seen rc) = false -> rc_next rc = length (sys_handled s) ->
   ids = map pretty (omap shown (drop k (take (registered_events s) E) ++ drop (subscribed_events s) E))).
Proof.
  intros Hin Hnm E ids. pose proof (client_events_spec _ _ _ _ _ _ _ Hin) as (Hids & _).
  destruct (received_position first buffer_length _ s rc (ib_first _ _ _ _ _ _ _ Hin) (proj1 (ib_length _ _ _ _ _ _ _ Hin))
    (ib_reachable _ _ _ _ _ _ _ Hin) (ib_receiver _ _ _ _ _ _ _ Hin)) as (_ & _ & Hall).
  assert (ids = map pretty (omap shown
    (drop k (take (registered_events s) E) ++ drop (subscribed_events s) (take (received_events s rc) E)))) as Hread.
  { unfold ids. rewrite (client_stream_ids _ _ _ _ _ _ _ Hin). fold E. by rewrite (Nat.max_l (subscribed_events s)) by lia. }
  split_and!; [done..|]. intros Hl Hnext. rewrite Hread, Hall by done. fold E. by rewrite firstn_all.
Qed.

End ClientTheorems.

(** *** Two runs

    Runs are computed by the executable form of the steps. *)

Inductive Action :=
| Announce (d : SseData) (f : option Filter)
| HandleData
| SendInfo
| Subscribe
| Register
| Receive.

Section Run.
Context {B : Type} `{WB : WheelBuf B Buffered} (slots : nat).

Definition do_action (a : Action) (s : System B) : option (System B) :=
  let c := sys_client s in
  let with_client c := mkSystem (sys_server s) (sys_latest s) (sys_buffer s) (sys_handled s) c in
  match a with
  | Announce d f =>
      Some (mkSystem (broadcast (sys_server s) d f) (sys_latest s) (sys_buffer s) (sys_handled s) c)
  | HandleData =>
      match sse_data_queue (sys_server s) with
      | [] => None
      | x :: queue =>
          match handle_incoming_data (Some x) (sys_latest s) (sys_buffer s) with
          | Ok (latest, buffer, SseMessage e) =>
              Some (mkSystem (mkServer queue (event_indexer (sys_server s))) latest buffer (sys_handled s ++ [e]) c)
          | _ => None
          end
      end
  | SendInfo =>
      if cl_info_sent c then None
      else Some (with_client (mkClient (cl_info c) true (cl_receiver c) (cl_initial c)
                                (cl_subscribed_at c) (cl_registered_at c)))
  | Subscribe =>
      match cl_info_sent c, cl_receiver c with
      | true, None =>
          Some (with_client (mkClient (cl_info c) (cl_info_sent c) (Some (mkReceiver (length (sys_handled s)) []))
                               (cl_initial c) (length (sys_handled s)) (cl_registered_at c)))
      | _, _ => None
      end
  | Register =>
      match cl_info_sent c, cl_initial c, register_new_subscriber (cl_info c) (sys_buffer s) (sys_latest s) with
      | true, None, Some out =>
          Some (with_client (mkClient (cl_info c) (cl_info_sent c) (cl_receiver c) (Some out)
                               (cl_subscribed_at c) (length (sys_handled s))))
      | _, _, _ => None
      end
  | Receive =>
      match cl_initial c, cl_receiver c with
      | Some _, Some rc =>
          '(item, next) ← recv slots (sys_handled s) (rc_next rc);
          Some (with_client (mkClient (cl_info c) (cl_info_sent c) (Some (mkReceiver next (rc_seen rc ++ [item])))
                               (cl_initial c) (cl_subscribed_at c) (cl_registered_at c)))
      | _, _ => None
      end
  end.

Fixpoint run (acts : list Action) (s : System B) : option (System B) :=
  match acts with
  | [] => Some s
  | a :: acts => s' ← do_action a s; run acts s'
  end.

Lemma do_action_step (a : Action) (s s' : System B) : do_action a s = Some s' -> step slots s s'.
Proof.
  destruct a; unfold do_action.
  - intros [= <-]. apply step_announce.
  - destruct (sse_data_queue (sys_server s)) as [|x q] eqn:Hq; [done|].
    destruct (handle_incoming_data (Some x) (sys_latest s) (sys_buffer s)) as [[[l b] [e|]]|] eqn:Hh; [|done..].
    intros [= <-]. by eapply step_data.
  - destruct (cl_info_sent (sys_client s)) eqn:Hs; [done|]. intros [= <-].
    pose proof (step_send_info slots s Hs) as Hst. done.
  - destruct (cl_info_sent (sys_client s)) eqn:Hs; [|done].
    destruct (cl_receiver (sys_client s)) eqn:Hr; [done|]. intros [= <-].
    pose proof (step_subscribe slots s Hs Hr) as Hst. simpl in Hst. by rewrite Hs in Hst.
  - destruct (cl_info_sent (sys_client s)) eqn:Hs; [|done].
    destruct (cl_initial (sys_client s)) eqn:Hi; [done|].
    destruct (register_new_subscriber (cl_info (sys_client s)) (sys_buffer s) (sys_latest s))
      as [out|] eqn:Hr; [|done]. intros [= <-].
    pose proof (step_register slots s out Hs Hi Hr) as Hst. simpl in Hst. by rewrite Hs in Hst.
  - destruct (cl_initial (sys_client s)) as [out|] eqn:Hi; [|done].
    destruct (cl_receiver (sys_client s)) as [rc|] eqn:Hrc; [|done].
    intros ([item next] & Hrecv & [= <-])%bind_Some.
    pose proof (step_receive slots s out rc item next Hi Hrc Hrecv) as Hst. simpl in Hst. by rewrite Hi in Hst.
Qed.

Lemma run_rtc (acts : list Action) (s s' : System B) : run acts s = Some s' -> rtc (step slots) s s'.
Proof.
  revert s. induction acts as [|a acts IH]; intros s; simpl; [intros [= <-]; apply rtc_refl|].
  destruct (do_action a s) as [s1|] eqn:Ha; simpl; [|done]. intros Hr.
  eapply rtc_l; [by eapply do_action_step|by apply IH].
Qed.

End Run.

(** A version and an event are handled, then a client comes that starts from
    identifier 0, and two more events are announced, which it receives. *)
Definition demo_fault (t : Z) : SseData := Fault 1 "key" t.

Definition demo_start : System (nat * list Buffered) := initial_system 0 3 (mkSubscriber (Some 0) false).

Definition feed (d : SseData) : list Action := [Announce d (Some Filter_Events); HandleData].

Definition demo_subscribed_actions : list Action :=
  feed (ApiVersion demo_version) ++ feed (demo_fault 0) ++ [SendInfo; Subscribe] ++
  feed (demo_fault 1) ++ [Register] ++ feed (demo_fault 2) ++ [Receive; Receive].

Definition demo_registered_actions : list Action :=
  feed (ApiVersion demo_version) ++ feed (demo_fault 0) ++ [SendInfo; Register] ++
  feed (demo_fault 1) ++ [Subscribe] ++ feed (demo_fault 2) ++ [Receive].

Definition demo_subscribed_first : System (nat * list Buffered) :=
  Eval vm_compute in default demo_start (run 4 demo_subscribed_actions demo_start).

Definition demo_registered_first : System (nat * list Buffered) :=
  Eval vm_compute in default demo_start (run 4 demo_registered_actions demo_start).

Definition demo_initial (s : System (nat * list Buffered)) : list ServerSentEvent := default [] (cl_initial (sys_client s)).
Definition demo_receiver (s : System (nat * list Buffered)) : Receiver :=
  default (mkReceiver 0 []) (cl_receiver (sys_client s)).

Definition demo_stream_ids (s : System (nat * list Buffered)) : list string :=
  stream_ids (stream_to_client (fun _ => Ok VNull) (fun _ => Ok VNull) (fun _ => VNull) (fun k => k) (fun k => k)
    0 (fun _ => []) (demo_initial s) (messages (rc_seen (demo_receiver s))) Endpoint_Events EVENTS_FILTER false).

Lemma demo_in_buffer (actions : list Action) (s : System (nat * list Buffered)) :
  s = demo_subscribed_first /\ actions = demo_subscribed_actions \/
  s = demo_registered_first /\ actions = demo_registered_actions ->
  in_buffer 4 0 3 false 0 s (demo_initial s) (demo_receiver s).
Proof.
  intros [[-> ->]|[-> ->]]; (split;
    [unfold is_u32, U32_MAX; lia|lia| |reflexivity|reflexivity|reflexivity|vm_compute; discriminate|lia|vm_compute; lia]).
  - apply (run_rtc 4 demo_subscribed_actions). vm_compute. reflexivity.
  - apply (run_rtc 4 demo_registered_actions). vm_compute. reflexivity.
Qed.

Lemma client_stream_complete_witness :
  demo_stream_ids demo_subscribed_first = map pretty [0; 1; 2].
Proof.
  destruct (client_stream_complete 4 (fun _ => Ok VNull) (fun _ => Ok VNull) (fun _ => VNull) (fun k => k)
    (fun k => k) 0 (fun _ => []) 0 3 false 0 demo_subscribed_first (demo_initial demo_subscribed_first)
    (demo_receiver demo_subscribed_first)) as (_ & _ & _ & Hall).
  - apply (demo_in_buffer demo_subscribed_actions). left. split; reflexivity.
  - vm_compute. lia.
  - refine (eq_trans (Hall _ _) _); vm_compute; reflexivity.
Defined.

Lemma client_stream_gap_witness :
  demo_stream_ids demo_registered_first = map pretty [0; 2].
Proof.
  destruct (client_stream_gap 4 (fun _ => Ok VNull) (fun _ => Ok VNull) (fun _ => VNull) (fun k => k)
    (fun k => k) 0 (fun _ => []) 0 3 false 0 demo_registered_first (demo_initial demo_registered_first)
    (demo_receiver demo_registered_first)) as (_ & _ & Hall).
  - apply (demo_in_buffer demo_registered_actions). right. split; reflexivity.
  - vm_compute. lia.
  - refine (eq_trans (Hall _ _) _); vm_compute; reflexivity.
Defined.

(** A client of the legacy endpoints: it gets a fault, the expiry of a transaction
    and of a deploy, a step and the shutdown of the node. *)
Definition demo_legacy_actions : list Action :=
  feed (ApiVersion demo_version) ++ feed (demo_fault 0) ++ [SendInfo; Subscribe; Register] ++
  feed (TransactionExpired (TransactionHash_V1 "t")) ++ feed (TransactionExpired (TransactionHash_Deploy "d")) ++
  feed (Step 1 "effects") ++ feed Shutdown ++ [Receive; Receive; Receive; Receive].

Definition demo_legacy : System (nat * list Buffered) :=
  Eval vm_compute in default demo_start (run 4 demo_legacy_actions demo_start).


(** A client that received nothing while more events were handled than the channel has
    slots: it is told how many it missed, and its response ends there. *)
Lemma demo_lagged :
  (fun s => (rc_seen (demo_receiver s), demo_stream_ids s)) <$>
    run 1 (feed (ApiVersion demo_version) ++ feed (demo_fault 0) ++ [SendInfo; Subscribe; Register] ++
           feed (demo_fault 1) ++ feed (demo_fault 2) ++ feed (demo_fault 3) ++ [Receive; Receive]) demo_start =
  Some ([Err 2; Ok (mkEvent (Some 3) (Some (demo_fault 3)) None (Some Filter_Events))], ["0"]).
Proof. vm_compute. reflexivity. Qed.

(** ** The rest of the server *)

(** In every reachable state the server can register any subscriber: the
    [unwrap] of an identifier in the buffer never panics, and the buffer never
    holds more events than configured. *)
Theorem server_never_panics {B : Type} `{WB : WheelBuf B Buffered} (slots : nat) (first buffer_length : Z)
    (info info' : NewSubscriberInfo) (s : System B) :
  is_u32 first -> 0 < buffer_length -> reachable slots first buffer_length info s ->
  is_Some (register_new_subscriber info' (sys_buffer s) (sys_latest s)) /\
  (length (wb_iter (sys_buffer s)) <= Z.to_nat buffer_length)%nat.
Proof.
  intros Hf Hb Hr. destruct (reachable_inv _ _ _ _ _ Hf Hb Hr) as [_ _ Hinv Hc _ _ _ _ _ _ _ _].
  split; [|rewrite <- Hc; apply Hinv].
  pose proof (buffer_inv_has_ids _ _ _ Hinv) as Hids. unfold register_new_subscriber.
  destruct (start_from info') as [st|]; [|done].
  assert (is_Some (wraparound_zone (wrap_u32 (Z.of_nat (wb_capacity (sys_buffer s)))) (wb_iter (sys_buffer s))))
    as [zone ->].
  { destruct Hids as [|t l [i Hi] _]; simpl; [done|]. by rewrite Hi. }
  simpl. destruct (skip_before_total zone (wrap_u32 (Z.of_nat (wb_capacity (sys_buffer s)))) st _ Hids) as [l ->].
  done.
Qed.

Lemma server_never_panics_witness :
  is_Some (register_new_subscriber (mkSubscriber (Some 1) true) (sys_buffer demo_registered_first)
             (sys_latest demo_registered_first)).
Proof.
  refine (proj1 (server_never_panics 4 0 3 (mkSubscriber (Some 0) false) _ demo_registered_first _ _ _)).
  - unfold is_u32, U32_MAX. lia.
  - lia.
  - apply (run_rtc 4 demo_registered_actions). vm_compute. reflexivity.
Defined.

(** The broadcast channel has a fifth more slots than the buffer, rounded
    down, so it is larger than the buffer from a length of 5 on; the 32-bit
    product overflows exactly for lengths above 35791394. *)
Theorem broadcast_channel_size (address : string) (len max : Z) :
  is_u32 len ->
  match get_broadcast_channel_size (mkConfig address len max) with
  | Some n => n = len + len / 5 /\ len <= n /\ (len < n <-> 5 <= len) /\ len <= 35791394
  | None => 35791394 < len
  end.
Proof.
  intros Hl. unfold get_broadcast_channel_size. simpl. case_decide as H; unfold_words.
  - lia.
  - split_and!; Z.to_euclidean_division_equations; lia.
Qed.

Lemma broadcast_channel_size_witness :
  get_broadcast_channel_size (Config_new 18888 None None) = Some 6000 /\ 6000 = 5000 + 5000 / 5.
Proof.
  split; [reflexivity|].
  refine (proj1 (broadcast_channel_size "0.0.0.0:18888" 5000 100 _)). unfold is_u32, U32_MAX. lia.
Defined.

(** Starting the server: it takes an address, the index file, a channel and a
    socket, in this order, and the first one that fails decides the error; with
    a buffer of no events, or of more than 35791394, the task panics once the
    index file is read; a server that starts has an empty queue and goes on with
    the index of the file. *)
Theorem event_server_starts (host : Host) (config : Config) (path : string) :
  is_u32 (event_stream_buffer_length config) ->
  match EventStreamServer_new host config path with
  | None => is_ok (resolve_address host (address config)) = true /\
      is_ok (EventIndexer_new path (create_dir host) (read_file host)) = true /\
      (event_stream_buffer_length config = 0 \/ 35791394 < event_stream_buffer_length config)
  | Some (Err (ResolveAddress e)) =>
      resolve_address host (address config) = Err e /\ re_address e = address config
  | Some (Err (Initializing a e)) =>
      is_ok (resolve_address host (address config)) = true /\ a = address config /\ create_dir host = Err e
  | Some (Err (Listen a e)) =>
      resolve_address host (address config) = Ok a /\ try_bind host a = Err e /\
      1 <= event_stream_buffer_length config <= 35791394
  | Some (Ok server) =>
      (exists a a', resolve_address host (address config) = Ok a /\ try_bind host a = Ok a') /\
      EventIndexer_new path (create_dir host) (read_file host) = Ok (event_indexer server) /\
      sse_data_queue server = [] /\ 1 <= event_stream_buffer_length config <= 35791394
  end.
Proof.
  intros Hl. destruct config as [addr len max]. cbn [address event_stream_buffer_length] in *.
  pose proof (broadcast_channel_size addr len max Hl) as Hsize. unfold EventStreamServer_new. cbn [address].
  destruct (resolve_address host addr) as [a|e] eqn:Hr; simpl.
  2: { split; [done|]. unfold resolve_address in Hr. destruct (to_socket_addrs host addr) as [l|]; simpl in Hr;
         [destruct (head l); simpl in Hr|]; by simplify_eq. }
  destruct (EventIndexer_new path _ _) as [indexer|e] eqn:Hi; simpl.
  2: { split_and!; [done..|]. unfold EventIndexer_new in Hi. destruct (create_dir host); simpl in *; congruence. }
  destruct (get_broadcast_channel_size _) as [n|]; simpl; [|by auto]. unfold broadcast_channel, is_u32 in *.
  case_decide as Hn; simpl; [split_and!; [done..|]; Z.to_euclidean_division_equations; lia|].
  assert (1 <= len <= 35791394) by (Z.to_euclidean_division_equations; lia).
  destruct (try_bind host a) as [a'|e] eqn:Hb; split_and!; eauto; lia.
Qed.
