(* ===== verification/NodeErrors.v ===== *)
(** * Errors of the binary port client ([rpc_sidecar/src/node_client.rs])

    The error codes of the node, the client errors they are reported as and the
    texts of both.  The numeric values of the codes and their own texts belong
    to the [casper_binary_port] crate: [TryFrom<u16>], [as u16] and [Display] of
    [ErrorCode] are the operations of the class [BinaryPortCodes]. *)

From S2P Require Import Prelude.

(** [casper_binary_port::ErrorCode]; [Error::from_error_code] matches on it
    without a wildcard, so these are all of its variants. *)
Module ErrorCode.

Inductive ErrorCode : Set :=
| FunctionDisabled | RootNotFound | FailedQuery | SwitchBlockNotFound | SwitchBlockParentNotFound
| UnsupportedRewardsV1Request | CommandHeaderVersionMismatch | PurseNotFound
| InvalidDeployChainName | InvalidDeployDependenciesNoLongerSupported | InvalidDeployExcessiveSize
| InvalidDeployExcessiveTimeToLive | InvalidDeployTimestampInFuture | InvalidDeployBodyHash
| InvalidDeployHash | InvalidDeployEmptyApprovals | InvalidDeployApproval
| InvalidDeployExcessiveSessionArgsLength | InvalidDeployExcessivePaymentArgsLength
| InvalidDeployMissingPaymentAmount | InvalidDeployFailedToParsePaymentAmount
| InvalidDeployExceededBlockGasLimit | InvalidDeployMissingTransferAmount
| InvalidDeployFailedToParseTransferAmount | InvalidDeployInsufficientTransferAmount
| InvalidDeployExcessiveApprovals | InvalidDeployUnableToCalculateGasLimit
| InvalidDeployUnableToCalculateGasCost | InvalidDeployUnspecified | InvalidTransactionChainName
| InvalidTransactionExcessiveSize | InvalidTransactionExcessiveTimeToLive
| InvalidTransactionTimestampInFuture | InvalidTransactionBodyHash | InvalidTransactionHash
| InvalidTransactionEmptyApprovals | InvalidTransactionInvalidApproval
| InvalidTransactionExcessiveArgsLength | InvalidTransactionExcessiveApprovals
| InvalidTransactionExceedsBlockGasLimit | InvalidTransactionMissingArg
| InvalidTransactionUnexpectedArgType | InvalidTransactionInvalidArg
| InvalidTransactionInsufficientTransferAmount | InvalidTransactionEntryPointCannotBeCustom
| InvalidTransactionEntryPointMustBeCustom | InvalidTransactionEmptyModuleBytes
| InvalidTransactionGasPriceConversion | InvalidTransactionUnableToCalculateGasLimit
| InvalidTransactionUnableToCalculateGasCost | InvalidTransactionPricingMode | EmptyBlockchain
| ExpectedDeploy | ExpectedTransaction | TransactionExpired | MissingOrIncorrectParameters
| NoSuchAddressableEntity | NoSuchContractAtHash | NoSuchEntryPoint | NoSuchPackageAtHash
| InvalidEntityAtVersion | DisabledEntityAtVersion | MissingEntityAtVersion | InvalidAssociatedKeys
| InsufficientSignatureWeight | InsufficientBalance | UnknownBalance | DeployInvalidPaymentVariant
| DeployMissingPaymentAmount | DeployFailedToParsePaymentAmount | DeployMissingTransferTarget
| DeployMissingModuleBytes | InvalidTransactionEntryPointCannotBeCall
| InvalidTransactionInvalidTransactionLane | InvalidTransactionUnspecified
| InvalidTransactionOrDeployUnspecified | ExpectedNamedArguments | InvalidTransactionRuntime
| InvalidTransactionNoLaneMatches | InvalidTransactionEntryPointMustBeCall
| InvalidTransactionCannotDeserializeField | InvalidTransactionCannotCalculateFieldsHash
| InvalidTransactionUnexpectedFields | InvalidTransactionExpectedBytesArguments
| InvalidTransactionMissingSeed | PricingModeNotSupported | InvalidDeployGasLimitNotSupported
| InvalidDeployInvalidRuntime | InvalidDeployExceededWasmLaneGasLimit
| InvalidDeployInvalidPaymentAmount | InvalidTransactionInsufficientBurnAmount
| InvalidTransactionInvalidPaymentAmount | InvalidReservedSlots | InvalidDelegationAmount
| InvalidMaximumDelegationAmount | InvalidMinimumDelegationAmount | InsufficientAmountArgValue
| InvalidTransactionUnexpectedEntryPoint | RequestThrottled | MalformedInformationRequest
| TooLittleBytesForRequestHeaderVersion | MalformedCommandHeaderVersion | TransferRecordMalformedKey
| MalformedCommandHeader | MalformedCommand | WasmPreprocessing | InvalidItemVariant | NotFound
| InternalError | BadRequest | UnsupportedRequest | DictionaryURefNotFound | NoCompleteBlocks
| GasPriceToleranceTooLow | ReceivedV1Transaction | TransactionHasMalformedBinaryRepresentation
| NoError | UnsupportedInvocationTarget.

End ErrorCode.
Abbreviation ErrorCode := ErrorCode.ErrorCode.

(** What the client uses of the codes: the conversions from and to [u16] and
    the text of a code. *)
Class BinaryPortCodes := {
  try_from_u16 : Z -> result string ErrorCode;
  as_u16 : ErrorCode -> Z;
  code_to_string : ErrorCode -> string;
}.

(** ** Errors of a refused transaction *)

Module InvalidTransactionOrDeploy.

(** [rpc_sidecar/src/node_client.rs:320-567], [InvalidTransactionOrDeploy]. *)
Inductive InvalidTransactionOrDeploy : Set :=
| DeployChainName | DeployDependenciesNoLongerSupported | DeployExcessiveSize
| DeployExcessiveTimeToLive | DeployTimestampInFuture | DeployBodyHash | DeployHash
| DeployEmptyApprovals | DeployApproval | DeployExcessiveSessionArgsLength
| DeployExcessivePaymentArgsLength | DeployMissingPaymentAmount | DeployFailedToParsePaymentAmount
| DeployExceededBlockGasLimit | DeployMissingTransferAmount | DeployFailedToParseTransferAmount
| DeployInsufficientTransferAmount | DeployExcessiveApprovals | DeployUnableToCalculateGasLimit
| DeployUnableToCalculateGasCost | DeployUnspecified | TransactionChainName
| TransactionExcessiveSize | TransactionExcessiveTimeToLive | TransactionTimestampInFuture
| TransactionBodyHash | TransactionHash | TransactionEmptyApprovals | TransactionInvalidApproval
| TransactionExcessiveArgsLength | TransactionExcessiveApprovals | TransactionExceedsBlockGasLimit
| TransactionMissingArg | TransactionUnexpectedArgType | TransactionInvalidArg
| TransactionInsufficientTransferAmount | TransactionEntryPointCannotBeCustom
| TransactionEntryPointMustBeCustom | TransactionEmptyModuleBytes | TransactionGasPriceConversion
| TransactionUnableToCalculateGasLimit | TransactionUnableToCalculateGasCost
| TransactionPricingMode | TransactionUnspecified | TransactionOrDeployUnspecified | EmptyBlockchain
| ExpectedDeploy | ExpectedTransaction | TransactionExpired | MissingOrIncorrectParameters
| NoSuchAddressableEntity | NoSuchContractAtHash | NoSuchEntryPoint | NoSuchPackageAtHash
| InvalidEntityAtVersion | DisabledEntityAtVersion | MissingEntityAtVersion | InvalidAssociatedKeys
| InsufficientSignatureWeight | InsufficientBalance | UnknownBalance | DeployInvalidPaymentVariant
| DeployMissingTransferTarget | DeployMissingModuleBytes | InvalidTransactionEntryPointCannotBeCall
| InvalidTransactionInvalidTransactionLane | ExpectedNamedArguments | InvalidTransactionRuntime
| InvalidTransactionNoLaneMatches | InvalidTransactionEntryPointMustBeCall
| InvalidTransactionCannotDeserializeField | InvalidTransactionCannotCalculateFieldsHash
| InvalidTransactionUnexpectedFields | InvalidTransactionExpectedBytesArguments
| InvalidTransactionMissingSeed | PricingModeNotSupported | InvalidDeployGasLimitNotSupported
| InvalidDeployInvalidRuntime | InvalidDeployExceededWasmLaneGasLimit
| InvalidDeployInvalidPaymentAmount | InvalidTransactionInsufficientBurnAmount
| InvalidTransactionInvalidPaymentAmount | InvalidTransactionUnexpectedEntryPoint
| InvalidReservedSlots | InvalidDelegationAmount | InvalidMaximumDelegationAmount
| InvalidMinimumDelegationAmount | InsufficientAmountArgValue.

End InvalidTransactionOrDeploy.
Abbreviation InvalidTransactionOrDeploy := InvalidTransactionOrDeploy.InvalidTransactionOrDeploy.

(** [rpc_sidecar/src/node_client.rs:320-567], [Display for InvalidTransactionOrDeploy]
    (the [#[error(...)]] attributes). *)
Definition InvalidTransactionOrDeploy_to_string (e : InvalidTransactionOrDeploy) : string :=
  match e with
  | InvalidTransactionOrDeploy.DeployChainName => "The deploy had an invalid chain name"
  | InvalidTransactionOrDeploy.DeployDependenciesNoLongerSupported =>
      "The dependencies for this transaction are no longer supported"
  | InvalidTransactionOrDeploy.DeployExcessiveSize => "The deploy had an excessive size"
  | InvalidTransactionOrDeploy.DeployExcessiveTimeToLive =>
      "The deploy had an excessive time to live"
  | InvalidTransactionOrDeploy.DeployTimestampInFuture =>
      "The deploys timestamp is in the future"
  | InvalidTransactionOrDeploy.DeployBodyHash => "The deploy had an invalid body hash"
  | InvalidTransactionOrDeploy.DeployHash => "The deploy had an invalid deploy hash"
  | InvalidTransactionOrDeploy.DeployEmptyApprovals => "The deploy had no approvals"
  | InvalidTransactionOrDeploy.DeployApproval => "The deploy had an invalid approval"
  | InvalidTransactionOrDeploy.DeployExcessiveSessionArgsLength =>
      "The deploy had an excessive session args length"
  | InvalidTransactionOrDeploy.DeployExcessivePaymentArgsLength =>
      "The deploy had an excessive payment args length"
  | InvalidTransactionOrDeploy.DeployMissingPaymentAmount =>
      "The deploy had a missing payment amount"
  | InvalidTransactionOrDeploy.DeployFailedToParsePaymentAmount =>
      "The deploy sent to the network had a payment amount that was unable to be parsed"
  | InvalidTransactionOrDeploy.DeployExceededBlockGasLimit =>
      "The deploy sent to the network exceeded the block gas limit"
  | InvalidTransactionOrDeploy.DeployMissingTransferAmount =>
      "The deploy sent to the network was missing a transfer amount"
  | InvalidTransactionOrDeploy.DeployFailedToParseTransferAmount =>
      "The deploy sent to the network had a transfer amount that was unable to be parsed"
  | InvalidTransactionOrDeploy.DeployInsufficientTransferAmount =>
      "The deploy sent to the network had an insufficient transfer amount"
  | InvalidTransactionOrDeploy.DeployExcessiveApprovals =>
      "The deploy sent to the network had excessive approvals"
  | InvalidTransactionOrDeploy.DeployUnableToCalculateGasLimit =>
      "The network was unable to calculate the gas limit associated with the deploy"
  | InvalidTransactionOrDeploy.DeployUnableToCalculateGasCost =>
      "The network was unable to calculate the gas cost for the deploy"
  | InvalidTransactionOrDeploy.DeployUnspecified =>
      "The deploy sent to the network was invalid for an unspecified reason"
  | InvalidTransactionOrDeploy.TransactionChainName =>
      "The transaction sent to the network had an invalid chain name"
  | InvalidTransactionOrDeploy.TransactionExcessiveSize =>
      "The transaction sent to the network had an excessive size"
  | InvalidTransactionOrDeploy.TransactionExcessiveTimeToLive =>
      "The transaction sent to the network had an excessive time to live"
  | InvalidTransactionOrDeploy.TransactionTimestampInFuture =>
      "The transaction sent to the network had a timestamp that has not yet occurred"
  | InvalidTransactionOrDeploy.TransactionBodyHash =>
      "The transaction sent to the network had an invalid body hash"
  | InvalidTransactionOrDeploy.TransactionHash =>
      "The transaction sent to the network had an invalid hash"
  | InvalidTransactionOrDeploy.TransactionEmptyApprovals =>
      "The transaction sent to the network had no approvals"
  | InvalidTransactionOrDeploy.TransactionInvalidApproval =>
      "The transaction sent to the network had an invalid approval"
  | InvalidTransactionOrDeploy.TransactionExcessiveArgsLength =>
      "The transaction sent to the network had excessive args length"
  | InvalidTransactionOrDeploy.TransactionExcessiveApprovals =>
      "The transaction sent to the network had excessive approvals"
  | InvalidTransactionOrDeploy.TransactionExceedsBlockGasLimit =>
      "The transaction sent to the network exceeds the networks block gas limit"
  | InvalidTransactionOrDeploy.TransactionMissingArg =>
      "The transaction sent to the network was missing an argument"
  | InvalidTransactionOrDeploy.TransactionUnexpectedArgType =>
      "The transaction sent to the network had an unexpected argument type"
  | InvalidTransactionOrDeploy.TransactionInvalidArg =>
      "The transaction sent to the network had an invalid argument"
  | InvalidTransactionOrDeploy.TransactionInsufficientTransferAmount =>
      "The transaction sent to the network had an insufficient transfer amount"
  | InvalidTransactionOrDeploy.TransactionEntryPointCannotBeCustom =>
      "The native transaction sent to the network should not have a custom entry point"
  | InvalidTransactionOrDeploy.TransactionEntryPointMustBeCustom =>
      "The non-native transaction sent to the network must have a custom entry point"
  | InvalidTransactionOrDeploy.TransactionEmptyModuleBytes =>
      "The transaction sent to the network had empty module bytes"
  | InvalidTransactionOrDeploy.TransactionGasPriceConversion =>
      "The transaction sent to the network had an invalid gas price conversion"
  | InvalidTransactionOrDeploy.TransactionUnableToCalculateGasLimit =>
      "The network was unable to calculate the gas limit for the transaction sent"
  | InvalidTransactionOrDeploy.TransactionUnableToCalculateGasCost =>
      "The network was unable to calculate the gas cost for the transaction sent."
  | InvalidTransactionOrDeploy.TransactionPricingMode =>
      "The transaction sent to the network had an invalid pricing mode"
  | InvalidTransactionOrDeploy.TransactionUnspecified =>
      "The transaction sent to the network was invalid for an unspecified reason"
  | InvalidTransactionOrDeploy.TransactionOrDeployUnspecified =>
      "The transaction or deploy sent to the network was invalid for an unspecified reason"
  | InvalidTransactionOrDeploy.EmptyBlockchain => "blockchain is empty"
  | InvalidTransactionOrDeploy.ExpectedDeploy => "expected deploy, got transaction"
  | InvalidTransactionOrDeploy.ExpectedTransaction => "expected transaction V1, got deploy"
  | InvalidTransactionOrDeploy.TransactionExpired => "transaction has expired"
  | InvalidTransactionOrDeploy.MissingOrIncorrectParameters =>
      "missing or incorrect transaction parameters"
  | InvalidTransactionOrDeploy.NoSuchAddressableEntity => "no such addressable entity"
  | InvalidTransactionOrDeploy.NoSuchContractAtHash => "no such contract at hash"
  | InvalidTransactionOrDeploy.NoSuchEntryPoint => "no such entry point"
  | InvalidTransactionOrDeploy.NoSuchPackageAtHash => "no such package at hash"
  | InvalidTransactionOrDeploy.InvalidEntityAtVersion => "invalid entity at version"
  | InvalidTransactionOrDeploy.DisabledEntityAtVersion => "disabled entity at version"
  | InvalidTransactionOrDeploy.MissingEntityAtVersion => "missing entity at version"
  | InvalidTransactionOrDeploy.InvalidAssociatedKeys => "invalid associated keys"
  | InvalidTransactionOrDeploy.InsufficientSignatureWeight =>
      "insufficient signature weight"
  | InvalidTransactionOrDeploy.InsufficientBalance => "insufficient balance"
  | InvalidTransactionOrDeploy.UnknownBalance => "unknown balance"
  | InvalidTransactionOrDeploy.DeployInvalidPaymentVariant =>
      "invalid payment variant for deploy"
  | InvalidTransactionOrDeploy.DeployMissingTransferTarget =>
      "missing transfer target for deploy"
  | InvalidTransactionOrDeploy.DeployMissingModuleBytes => "missing module bytes for deploy"
  | InvalidTransactionOrDeploy.InvalidTransactionEntryPointCannotBeCall =>
      "entry point cannot be 'call'"
  | InvalidTransactionOrDeploy.InvalidTransactionInvalidTransactionLane =>
      "invalid transaction lane"
  | InvalidTransactionOrDeploy.ExpectedNamedArguments => "expected named arguments"
  | InvalidTransactionOrDeploy.InvalidTransactionRuntime => "invalid transaction runtime"
  | InvalidTransactionOrDeploy.InvalidTransactionNoLaneMatches =>
      "couldn't associate a transaction lane with the transaction"
  | InvalidTransactionOrDeploy.InvalidTransactionEntryPointMustBeCall =>
      "entry point must be 'call'"
  | InvalidTransactionOrDeploy.InvalidTransactionCannotDeserializeField =>
      "One of the payloads field cannot be deserialized"
  | InvalidTransactionOrDeploy.InvalidTransactionCannotCalculateFieldsHash =>
      "Can't calculate hash of the payload fields"
  | InvalidTransactionOrDeploy.InvalidTransactionUnexpectedFields =>
      "Unexpected fields in payload"
  | InvalidTransactionOrDeploy.InvalidTransactionExpectedBytesArguments =>
      "expected bytes arguments"
  | InvalidTransactionOrDeploy.InvalidTransactionMissingSeed =>
      "Missing seed field in transaction"
  | InvalidTransactionOrDeploy.PricingModeNotSupported => "Pricing mode not supported"
  | InvalidTransactionOrDeploy.InvalidDeployGasLimitNotSupported =>
      "Gas limit not supported"
  | InvalidTransactionOrDeploy.InvalidDeployInvalidRuntime =>
      "Invalid runtime for Transaction::Deploy"
  | InvalidTransactionOrDeploy.InvalidDeployExceededWasmLaneGasLimit =>
      "Transaction::Deploy exceeds lane gas limit"
  | InvalidTransactionOrDeploy.InvalidDeployInvalidPaymentAmount =>
      "Invalid payment amount for Transaction::Deploy"
  | InvalidTransactionOrDeploy.InvalidTransactionInsufficientBurnAmount =>
      "Insufficient burn amount for Transaction::V1"
  | InvalidTransactionOrDeploy.InvalidTransactionInvalidPaymentAmount =>
      "Invalid payment amount for Transaction::V1"
  | InvalidTransactionOrDeploy.InvalidTransactionUnexpectedEntryPoint =>
      "Unexpected entry point for Transaction::V1"
  | InvalidTransactionOrDeploy.InvalidReservedSlots => "Invalid number of reserved slots"
  | InvalidTransactionOrDeploy.InvalidDelegationAmount => "Invalid delegation amount"
  | InvalidTransactionOrDeploy.InvalidMaximumDelegationAmount =>
      "Using `version` for targeting contract version is not supported"
  | InvalidTransactionOrDeploy.InvalidMinimumDelegationAmount =>
      "Invalid minimum delegation"
  | InvalidTransactionOrDeploy.InsufficientAmountArgValue => "Insufficient amount arg value"
  end.

(** [rpc_sidecar/src/node_client.rs:569-721], [From<ErrorCode> for InvalidTransactionOrDeploy]. *)
Definition InvalidTransactionOrDeploy_from (value : ErrorCode) : InvalidTransactionOrDeploy :=
  match value with
  | ErrorCode.InvalidDeployChainName =>
      InvalidTransactionOrDeploy.DeployChainName
  | ErrorCode.InvalidDeployDependenciesNoLongerSupported =>
      InvalidTransactionOrDeploy.DeployDependenciesNoLongerSupported
  | ErrorCode.InvalidDeployExcessiveSize =>
      InvalidTransactionOrDeploy.DeployExcessiveSize
  | ErrorCode.InvalidDeployExcessiveTimeToLive =>
      InvalidTransactionOrDeploy.DeployExcessiveTimeToLive
  | ErrorCode.InvalidDeployTimestampInFuture =>
      InvalidTransactionOrDeploy.DeployTimestampInFuture
  | ErrorCode.InvalidDeployBodyHash =>
      InvalidTransactionOrDeploy.DeployBodyHash
  | ErrorCode.InvalidDeployHash =>
      InvalidTransactionOrDeploy.DeployHash
  | ErrorCode.InvalidDeployEmptyApprovals =>
      InvalidTransactionOrDeploy.DeployEmptyApprovals
  | ErrorCode.InvalidDeployApproval =>
      InvalidTransactionOrDeploy.DeployApproval
  | ErrorCode.InvalidDeployExcessiveSessionArgsLength =>
      InvalidTransactionOrDeploy.DeployExcessiveSessionArgsLength
  | ErrorCode.InvalidDeployExcessivePaymentArgsLength =>
      InvalidTransactionOrDeploy.DeployExcessivePaymentArgsLength
  | ErrorCode.InvalidDeployMissingPaymentAmount =>
      InvalidTransactionOrDeploy.DeployMissingPaymentAmount
  | ErrorCode.InvalidDeployFailedToParsePaymentAmount =>
      InvalidTransactionOrDeploy.DeployFailedToParsePaymentAmount
  | ErrorCode.InvalidDeployExceededBlockGasLimit =>
      InvalidTransactionOrDeploy.DeployExceededBlockGasLimit
  | ErrorCode.InvalidDeployMissingTransferAmount =>
      InvalidTransactionOrDeploy.DeployMissingTransferAmount
  | ErrorCode.InvalidDeployFailedToParseTransferAmount =>
      InvalidTransactionOrDeploy.DeployFailedToParseTransferAmount
  | ErrorCode.InvalidDeployInsufficientTransferAmount =>
      InvalidTransactionOrDeploy.DeployInsufficientTransferAmount
  | ErrorCode.InvalidDeployExcessiveApprovals =>
      InvalidTransactionOrDeploy.DeployExcessiveApprovals
  | ErrorCode.InvalidDeployUnableToCalculateGasLimit =>
      InvalidTransactionOrDeploy.DeployUnableToCalculateGasLimit
  | ErrorCode.InvalidDeployUnableToCalculateGasCost =>
      InvalidTransactionOrDeploy.DeployUnableToCalculateGasCost
  | ErrorCode.InvalidDeployUnspecified =>
      InvalidTransactionOrDeploy.DeployUnspecified
  | ErrorCode.InvalidTransactionChainName =>
      InvalidTransactionOrDeploy.TransactionChainName
  | ErrorCode.InvalidTransactionExcessiveSize =>
      InvalidTransactionOrDeploy.TransactionExcessiveSize
  | ErrorCode.InvalidTransactionExcessiveTimeToLive =>
      InvalidTransactionOrDeploy.TransactionExcessiveTimeToLive
  | ErrorCode.InvalidTransactionTimestampInFuture =>
      InvalidTransactionOrDeploy.TransactionTimestampInFuture
  | ErrorCode.InvalidTransactionBodyHash =>
      InvalidTransactionOrDeploy.TransactionBodyHash
  | ErrorCode.InvalidTransactionHash =>
      InvalidTransactionOrDeploy.TransactionHash
  | ErrorCode.InvalidTransactionEmptyApprovals =>
      InvalidTransactionOrDeploy.TransactionEmptyApprovals
  | ErrorCode.InvalidTransactionInvalidApproval =>
      InvalidTransactionOrDeploy.TransactionInvalidApproval
  | ErrorCode.InvalidTransactionExcessiveArgsLength =>
      InvalidTransactionOrDeploy.TransactionExcessiveArgsLength
  | ErrorCode.InvalidTransactionExcessiveApprovals =>
      InvalidTransactionOrDeploy.TransactionExcessiveApprovals
  | ErrorCode.InvalidTransactionExceedsBlockGasLimit =>
      InvalidTransactionOrDeploy.TransactionExceedsBlockGasLimit
  | ErrorCode.InvalidTransactionMissingArg =>
      InvalidTransactionOrDeploy.TransactionMissingArg
  | ErrorCode.InvalidTransactionUnexpectedArgType =>
      InvalidTransactionOrDeploy.TransactionUnexpectedArgType
  | ErrorCode.InvalidTransactionInvalidArg =>
      InvalidTransactionOrDeploy.TransactionInvalidArg
  | ErrorCode.InvalidTransactionInsufficientTransferAmount =>
      InvalidTransactionOrDeploy.TransactionInsufficientTransferAmount
  | ErrorCode.InvalidTransactionEntryPointCannotBeCustom =>
      InvalidTransactionOrDeploy.TransactionEntryPointCannotBeCustom
  | ErrorCode.InvalidTransactionEntryPointMustBeCustom =>
      InvalidTransactionOrDeploy.TransactionEntryPointMustBeCustom
  | ErrorCode.InvalidTransactionEmptyModuleBytes =>
      InvalidTransactionOrDeploy.TransactionEmptyModuleBytes
  | ErrorCode.InvalidTransactionGasPriceConversion =>
      InvalidTransactionOrDeploy.TransactionGasPriceConversion
  | ErrorCode.InvalidTransactionUnableToCalculateGasLimit =>
      InvalidTransactionOrDeploy.TransactionUnableToCalculateGasLimit
  | ErrorCode.InvalidTransactionUnableToCalculateGasCost =>
      InvalidTransactionOrDeploy.TransactionUnableToCalculateGasCost
  | ErrorCode.InvalidTransactionPricingMode =>
      InvalidTransactionOrDeploy.TransactionPricingMode
  | ErrorCode.EmptyBlockchain =>
      InvalidTransactionOrDeploy.EmptyBlockchain
  | ErrorCode.ExpectedDeploy =>
      InvalidTransactionOrDeploy.ExpectedDeploy
  | ErrorCode.ExpectedTransaction =>
      InvalidTransactionOrDeploy.ExpectedTransaction
  | ErrorCode.TransactionExpired =>
      InvalidTransactionOrDeploy.TransactionExpired
  | ErrorCode.MissingOrIncorrectParameters =>
      InvalidTransactionOrDeploy.MissingOrIncorrectParameters
  | ErrorCode.NoSuchAddressableEntity =>
      InvalidTransactionOrDeploy.NoSuchAddressableEntity
  | ErrorCode.NoSuchContractAtHash =>
      InvalidTransactionOrDeploy.NoSuchContractAtHash
  | ErrorCode.NoSuchEntryPoint =>
      InvalidTransactionOrDeploy.NoSuchEntryPoint
  | ErrorCode.NoSuchPackageAtHash =>
      InvalidTransactionOrDeploy.NoSuchPackageAtHash
  | ErrorCode.InvalidEntityAtVersion =>
      InvalidTransactionOrDeploy.InvalidEntityAtVersion
  | ErrorCode.DisabledEntityAtVersion =>
      InvalidTransactionOrDeploy.DisabledEntityAtVersion
  | ErrorCode.MissingEntityAtVersion =>
      InvalidTransactionOrDeploy.MissingEntityAtVersion
  | ErrorCode.InvalidAssociatedKeys =>
      InvalidTransactionOrDeploy.InvalidAssociatedKeys
  | ErrorCode.InsufficientSignatureWeight =>
      InvalidTransactionOrDeploy.InsufficientSignatureWeight
  | ErrorCode.InsufficientBalance =>
      InvalidTransactionOrDeploy.InsufficientBalance
  | ErrorCode.UnknownBalance =>
      InvalidTransactionOrDeploy.UnknownBalance
  | ErrorCode.DeployInvalidPaymentVariant =>
      InvalidTransactionOrDeploy.DeployInvalidPaymentVariant
  | ErrorCode.DeployMissingPaymentAmount =>
      InvalidTransactionOrDeploy.DeployMissingPaymentAmount
  | ErrorCode.DeployFailedToParsePaymentAmount =>
      InvalidTransactionOrDeploy.DeployFailedToParsePaymentAmount
  | ErrorCode.DeployMissingTransferTarget =>
      InvalidTransactionOrDeploy.DeployMissingTransferTarget
  | ErrorCode.DeployMissingModuleBytes =>
      InvalidTransactionOrDeploy.DeployMissingModuleBytes
  | ErrorCode.InvalidTransactionEntryPointCannotBeCall =>
      InvalidTransactionOrDeploy.InvalidTransactionEntryPointCannotBeCall
  | ErrorCode.InvalidTransactionInvalidTransactionLane =>
      InvalidTransactionOrDeploy.InvalidTransactionInvalidTransactionLane
  | ErrorCode.InvalidTransactionUnspecified =>
      InvalidTransactionOrDeploy.TransactionUnspecified
  | ErrorCode.InvalidTransactionOrDeployUnspecified =>
      InvalidTransactionOrDeploy.TransactionOrDeployUnspecified
  | ErrorCode.ExpectedNamedArguments =>
      InvalidTransactionOrDeploy.ExpectedNamedArguments
  | ErrorCode.InvalidTransactionRuntime =>
      InvalidTransactionOrDeploy.InvalidTransactionRuntime
  | ErrorCode.InvalidTransactionNoLaneMatches =>
      InvalidTransactionOrDeploy.InvalidTransactionNoLaneMatches
  | ErrorCode.InvalidTransactionEntryPointMustBeCall =>
      InvalidTransactionOrDeploy.InvalidTransactionEntryPointMustBeCall
  | ErrorCode.InvalidTransactionCannotDeserializeField =>
      InvalidTransactionOrDeploy.InvalidTransactionCannotDeserializeField
  | ErrorCode.InvalidTransactionCannotCalculateFieldsHash =>
      InvalidTransactionOrDeploy.InvalidTransactionCannotCalculateFieldsHash
  | ErrorCode.InvalidTransactionUnexpectedFields =>
      InvalidTransactionOrDeploy.InvalidTransactionUnexpectedFields
  | ErrorCode.InvalidTransactionExpectedBytesArguments =>
      InvalidTransactionOrDeploy.InvalidTransactionExpectedBytesArguments
  | ErrorCode.InvalidTransactionMissingSeed =>
      InvalidTransactionOrDeploy.InvalidTransactionMissingSeed
  | ErrorCode.PricingModeNotSupported =>
      InvalidTransactionOrDeploy.PricingModeNotSupported
  | ErrorCode.InvalidDeployGasLimitNotSupported =>
      InvalidTransactionOrDeploy.InvalidDeployGasLimitNotSupported
  | ErrorCode.InvalidDeployInvalidRuntime =>
      InvalidTransactionOrDeploy.InvalidDeployInvalidRuntime
  | ErrorCode.InvalidDeployExceededWasmLaneGasLimit =>
      InvalidTransactionOrDeploy.InvalidDeployExceededWasmLaneGasLimit
  | ErrorCode.InvalidDeployInvalidPaymentAmount =>
      InvalidTransactionOrDeploy.InvalidDeployInvalidPaymentAmount
  | ErrorCode.InvalidTransactionInsufficientBurnAmount =>
      InvalidTransactionOrDeploy.InvalidTransactionInsufficientBurnAmount
  | ErrorCode.InvalidTransactionInvalidPaymentAmount =>
      InvalidTransactionOrDeploy.InvalidTransactionInvalidPaymentAmount
  | ErrorCode.InvalidTransactionUnexpectedEntryPoint =>
      InvalidTransactionOrDeploy.InvalidTransactionUnexpectedEntryPoint
  | ErrorCode.InvalidReservedSlots =>
      InvalidTransactionOrDeploy.InvalidReservedSlots
  | ErrorCode.InvalidDelegationAmount =>
      InvalidTransactionOrDeploy.InvalidDelegationAmount
  | ErrorCode.InvalidMaximumDelegationAmount =>
      InvalidTransactionOrDeploy.InvalidMaximumDelegationAmount
  | ErrorCode.InvalidMinimumDelegationAmount =>
      InvalidTransactionOrDeploy.InvalidMinimumDelegationAmount
  | ErrorCode.InsufficientAmountArgValue =>
      InvalidTransactionOrDeploy.InsufficientAmountArgValue
  | _ => InvalidTransactionOrDeploy.TransactionOrDeployUnspecified
  end.

(** ** Errors of the client *)

Module ClientError.

(** [rpc_sidecar/src/node_client.rs:723-803], [Error]. *)
Inductive ClientError : Set :=
| RequestFailed (e : string)
| RequestResponseIdMismatch (expected : Z) (got : Z)
| TooManyMismatchedResponses (max : Z)
| OriginalRequestDeserialization (e : string)
| EnvelopeDeserialization
| Deserialization (e : string)
| Serialization (e : string)
| NoResponseBody
| EmptyEnvelope
| UnexpectedVariantReceived (e : Z)
| FunctionIsDisabled
| UnknownStateRootHash
| QueryFailedToExecute
| InvalidTransaction (e : InvalidTransactionOrDeploy)
| SpecExecutionFailed (e : string)
| SwitchBlockNotFound
| SwitchBlockParentNotFound
| UnsupportedRewardsV1Request
| PurseNotFound
| UnexpectedNodeError (message : string) (code : Z)
| CommandHeaderVersionMismatch
| RequestThrottled
| MalformedInformationRequest
| TooLittleBytesForRequestHeaderVersion
| MalformedCommandHeaderVersion
| TransferRecordMalformedKey
| MalformedCommandHeader
| MalformedCommand
| NotFound
| InternalNodeError
| BadRequest
| UnsupportedRequest
| DictionaryURefNotFound
| NoCompleteBlocks
| GasPriceToleranceTooLow
| ReceivedV1Transaction
| ConnectionLost
| TransactionHasMalformedBinaryRepresentation
| UnsupportedInvocationTarget.

End ClientError.
Abbreviation ClientError := ClientError.ClientError.

(** [rpc_sidecar/src/node_client.rs:724-803], [Display for Error] (the
    [#[error(...)]] attributes). *)
Definition ClientError_to_string (err : ClientError) : string :=
  match err with
  | ClientError.RequestFailed e => "request error: " +:+ e
  | ClientError.RequestResponseIdMismatch expected got =>
      "request id mismatch: expected " +:+ pretty expected +:+ ", got " +:+ pretty got
  | ClientError.TooManyMismatchedResponses max =>
      "failed to get a response with correct id " +:+ pretty max +:+ " times, giving up"
  | ClientError.OriginalRequestDeserialization e => "failed to deserialize the original request provided with the response: " +:+ e
  | ClientError.EnvelopeDeserialization => "failed to deserialize the envelope of a response"
  | ClientError.Deserialization e => "failed to deserialize a response: " +:+ e
  | ClientError.Serialization e => "failed to serialize a request: " +:+ e
  | ClientError.NoResponseBody => "unexpectedly received no response body"
  | ClientError.EmptyEnvelope => "unexpectedly received an empty envelope"
  | ClientError.UnexpectedVariantReceived e => "unexpected payload variant received in the response: " +:+ pretty e
  | ClientError.FunctionIsDisabled => "attempted to use a function that's disabled on the node"
  | ClientError.UnknownStateRootHash => "could not find the provided state root hash"
  | ClientError.QueryFailedToExecute => "the provided global state query failed to execute"
  | ClientError.InvalidTransaction e => "could not execute the provided transaction: " +:+ InvalidTransactionOrDeploy_to_string e
  | ClientError.SpecExecutionFailed e => "speculative execution has failed: " +:+ e
  | ClientError.SwitchBlockNotFound => "the switch block for the requested era was not found"
  | ClientError.SwitchBlockParentNotFound => "the parent of the switch block for the requested era was not found"
  | ClientError.UnsupportedRewardsV1Request => "cannot serve rewards stored in V1 format"
  | ClientError.PurseNotFound => "purse was not found for given identifier"
  | ClientError.UnexpectedNodeError message code =>
      "received an unexpected node error: " +:+ message +:+ " (" +:+ pretty code +:+ ")"
  | ClientError.CommandHeaderVersionMismatch => "binary protocol version mismatch"
  | ClientError.RequestThrottled => "request was throttled by the node"
  | ClientError.MalformedInformationRequest => "malformed information request"
  | ClientError.TooLittleBytesForRequestHeaderVersion => "malformed version bytes in command header"
  | ClientError.MalformedCommandHeaderVersion => "malformed protocol version"
  | ClientError.TransferRecordMalformedKey => "malformed transfer record key"
  | ClientError.MalformedCommandHeader => "malformed command header"
  | ClientError.MalformedCommand => "malformed command"
  | ClientError.NotFound => "not found"
  | ClientError.InternalNodeError => "node reported internal error"
  | ClientError.BadRequest => "bad request"
  | ClientError.UnsupportedRequest => "unsupported request"
  | ClientError.DictionaryURefNotFound => "dictionary URef not found"
  | ClientError.NoCompleteBlocks => "no complete blocks"
  | ClientError.GasPriceToleranceTooLow => "gas price tolerance too low"
  | ClientError.ReceivedV1Transaction => "received v1 transaction for speculative execution"
  | ClientError.ConnectionLost => "connection to node lost"
  | ClientError.TransactionHasMalformedBinaryRepresentation => "transaction has malformed binary representation"
  | ClientError.UnsupportedInvocationTarget => "the transaction invocation target is unsupported under V2 runtime"
  end.

Section FromErrorCode.
Context `{BinaryPortCodes}.

(** The match of [Error::from_error_code] on a known code. *)
Definition ClientError_of (err : ErrorCode) : ClientError :=
  match err with
  | ErrorCode.FunctionDisabled => ClientError.FunctionIsDisabled
  | ErrorCode.RootNotFound => ClientError.UnknownStateRootHash
  | ErrorCode.FailedQuery => ClientError.QueryFailedToExecute
  | ErrorCode.SwitchBlockNotFound => ClientError.SwitchBlockNotFound
  | ErrorCode.SwitchBlockParentNotFound => ClientError.SwitchBlockParentNotFound
  | ErrorCode.UnsupportedRewardsV1Request => ClientError.UnsupportedRewardsV1Request
  | ErrorCode.CommandHeaderVersionMismatch => ClientError.CommandHeaderVersionMismatch
  | ErrorCode.PurseNotFound => ClientError.PurseNotFound
  | ErrorCode.RequestThrottled => ClientError.RequestThrottled
  | ErrorCode.MalformedInformationRequest => ClientError.MalformedInformationRequest
  | ErrorCode.TooLittleBytesForRequestHeaderVersion => ClientError.TooLittleBytesForRequestHeaderVersion
  | ErrorCode.MalformedCommandHeaderVersion => ClientError.MalformedCommandHeaderVersion
  | ErrorCode.TransferRecordMalformedKey => ClientError.TransferRecordMalformedKey
  | ErrorCode.MalformedCommandHeader => ClientError.MalformedCommandHeader
  | ErrorCode.MalformedCommand => ClientError.MalformedCommand
  | ErrorCode.NotFound => ClientError.NotFound
  | ErrorCode.InternalError => ClientError.InternalNodeError
  | ErrorCode.BadRequest => ClientError.BadRequest
  | ErrorCode.UnsupportedRequest => ClientError.UnsupportedRequest
  | ErrorCode.DictionaryURefNotFound => ClientError.DictionaryURefNotFound
  | ErrorCode.NoCompleteBlocks => ClientError.NoCompleteBlocks
  | ErrorCode.GasPriceToleranceTooLow => ClientError.GasPriceToleranceTooLow
  | ErrorCode.ReceivedV1Transaction => ClientError.ReceivedV1Transaction
  | ErrorCode.TransactionHasMalformedBinaryRepresentation => ClientError.TransactionHasMalformedBinaryRepresentation
  | ErrorCode.UnsupportedInvocationTarget => ClientError.UnsupportedInvocationTarget
  | ErrorCode.InvalidDeployChainName | ErrorCode.InvalidDeployDependenciesNoLongerSupported
  | ErrorCode.InvalidDeployExcessiveSize | ErrorCode.InvalidDeployExcessiveTimeToLive
  | ErrorCode.InvalidDeployTimestampInFuture | ErrorCode.InvalidDeployBodyHash
  | ErrorCode.InvalidDeployHash | ErrorCode.InvalidDeployEmptyApprovals
  | ErrorCode.InvalidDeployApproval | ErrorCode.InvalidDeployExcessiveSessionArgsLength
  | ErrorCode.InvalidDeployExcessivePaymentArgsLength | ErrorCode.InvalidDeployMissingPaymentAmount
  | ErrorCode.InvalidDeployFailedToParsePaymentAmount | ErrorCode.InvalidDeployExceededBlockGasLimit
  | ErrorCode.InvalidDeployMissingTransferAmount
  | ErrorCode.InvalidDeployFailedToParseTransferAmount
  | ErrorCode.InvalidDeployInsufficientTransferAmount | ErrorCode.InvalidDeployExcessiveApprovals
  | ErrorCode.InvalidDeployUnableToCalculateGasLimit
  | ErrorCode.InvalidDeployUnableToCalculateGasCost | ErrorCode.InvalidDeployUnspecified
  | ErrorCode.InvalidTransactionChainName | ErrorCode.InvalidTransactionExcessiveSize
  | ErrorCode.InvalidTransactionExcessiveTimeToLive | ErrorCode.InvalidTransactionTimestampInFuture
  | ErrorCode.InvalidTransactionBodyHash | ErrorCode.InvalidTransactionHash
  | ErrorCode.InvalidTransactionEmptyApprovals | ErrorCode.InvalidTransactionInvalidApproval
  | ErrorCode.InvalidTransactionExcessiveArgsLength | ErrorCode.InvalidTransactionExcessiveApprovals
  | ErrorCode.InvalidTransactionExceedsBlockGasLimit | ErrorCode.InvalidTransactionMissingArg
  | ErrorCode.InvalidTransactionUnexpectedArgType | ErrorCode.InvalidTransactionInvalidArg
  | ErrorCode.InvalidTransactionInsufficientTransferAmount
  | ErrorCode.InvalidTransactionEntryPointCannotBeCustom
  | ErrorCode.InvalidTransactionEntryPointMustBeCustom
  | ErrorCode.InvalidTransactionEmptyModuleBytes | ErrorCode.InvalidTransactionGasPriceConversion
  | ErrorCode.InvalidTransactionUnableToCalculateGasLimit
  | ErrorCode.InvalidTransactionUnableToCalculateGasCost | ErrorCode.InvalidTransactionPricingMode
  | ErrorCode.EmptyBlockchain | ErrorCode.ExpectedDeploy | ErrorCode.ExpectedTransaction
  | ErrorCode.TransactionExpired | ErrorCode.MissingOrIncorrectParameters
  | ErrorCode.NoSuchAddressableEntity | ErrorCode.NoSuchContractAtHash | ErrorCode.NoSuchEntryPoint
  | ErrorCode.NoSuchPackageAtHash | ErrorCode.InvalidEntityAtVersion
  | ErrorCode.DisabledEntityAtVersion | ErrorCode.MissingEntityAtVersion
  | ErrorCode.InvalidAssociatedKeys | ErrorCode.InsufficientSignatureWeight
  | ErrorCode.InsufficientBalance | ErrorCode.UnknownBalance | ErrorCode.DeployInvalidPaymentVariant
  | ErrorCode.DeployMissingPaymentAmount | ErrorCode.DeployFailedToParsePaymentAmount
  | ErrorCode.DeployMissingTransferTarget | ErrorCode.DeployMissingModuleBytes
  | ErrorCode.InvalidTransactionEntryPointCannotBeCall
  | ErrorCode.InvalidTransactionInvalidTransactionLane | ErrorCode.InvalidTransactionUnspecified
  | ErrorCode.InvalidTransactionOrDeployUnspecified | ErrorCode.ExpectedNamedArguments
  | ErrorCode.InvalidTransactionRuntime | ErrorCode.InvalidTransactionNoLaneMatches
  | ErrorCode.InvalidTransactionEntryPointMustBeCall
  | ErrorCode.InvalidTransactionCannotDeserializeField
  | ErrorCode.InvalidTransactionCannotCalculateFieldsHash
  | ErrorCode.InvalidTransactionUnexpectedFields
  | ErrorCode.InvalidTransactionExpectedBytesArguments | ErrorCode.InvalidTransactionMissingSeed
  | ErrorCode.PricingModeNotSupported | ErrorCode.InvalidDeployGasLimitNotSupported
  | ErrorCode.InvalidDeployInvalidRuntime | ErrorCode.InvalidDeployExceededWasmLaneGasLimit
  | ErrorCode.InvalidDeployInvalidPaymentAmount | ErrorCode.InvalidTransactionInsufficientBurnAmount
  | ErrorCode.InvalidTransactionInvalidPaymentAmount | ErrorCode.InvalidReservedSlots
  | ErrorCode.InvalidDelegationAmount | ErrorCode.InvalidMaximumDelegationAmount
  | ErrorCode.InvalidMinimumDelegationAmount | ErrorCode.InsufficientAmountArgValue
  | ErrorCode.InvalidTransactionUnexpectedEntryPoint
      => ClientError.InvalidTransaction (InvalidTransactionOrDeploy_from err)
  | ErrorCode.WasmPreprocessing | ErrorCode.InvalidItemVariant =>
      ClientError.SpecExecutionFailed (code_to_string err)
  | ErrorCode.NoError =>
      ClientError.UnexpectedNodeError "Received unexpected 'NoError' error code" (as_u16 ErrorCode.NoError)
  end.

(** [rpc_sidecar/src/node_client.rs:806-944], [Error::from_error_code]. *)
Definition from_error_code (code : Z) : ClientError :=
  match try_from_u16 code with
  | Ok err => ClientError_of err
  | Err err => ClientError.UnexpectedNodeError err code
  end.

End FromErrorCode.

(** ** What the client errors say about the code *)

(** The codes whose errors are the same: the two older payment codes are
    reported with the variants of the newer ones. *)
Definition canonical_code (c : ErrorCode) : ErrorCode :=
  match c with
  | ErrorCode.DeployMissingPaymentAmount => ErrorCode.InvalidDeployMissingPaymentAmount
  | ErrorCode.DeployFailedToParsePaymentAmount => ErrorCode.InvalidDeployFailedToParsePaymentAmount
  | c => c
  end.

(** The code a transaction error was made of. *)
Definition code_of_invalid (e : InvalidTransactionOrDeploy) : ErrorCode :=
  match e with
  | InvalidTransactionOrDeploy.DeployChainName =>
      ErrorCode.InvalidDeployChainName
  | InvalidTransactionOrDeploy.DeployDependenciesNoLongerSupported =>
      ErrorCode.InvalidDeployDependenciesNoLongerSupported
  | InvalidTransactionOrDeploy.DeployExcessiveSize =>
      ErrorCode.InvalidDeployExcessiveSize
  | InvalidTransactionOrDeploy.DeployExcessiveTimeToLive =>
      ErrorCode.InvalidDeployExcessiveTimeToLive
  | InvalidTransactionOrDeploy.DeployTimestampInFuture =>
      ErrorCode.InvalidDeployTimestampInFuture
  | InvalidTransactionOrDeploy.DeployBodyHash =>
      ErrorCode.InvalidDeployBodyHash
  | InvalidTransactionOrDeploy.DeployHash =>
      ErrorCode.InvalidDeployHash
  | InvalidTransactionOrDeploy.DeployEmptyApprovals =>
      ErrorCode.InvalidDeployEmptyApprovals
  | InvalidTransactionOrDeploy.DeployApproval =>
      ErrorCode.InvalidDeployApproval
  | InvalidTransactionOrDeploy.DeployExcessiveSessionArgsLength =>
      ErrorCode.InvalidDeployExcessiveSessionArgsLength
  | InvalidTransactionOrDeploy.DeployExcessivePaymentArgsLength =>
      ErrorCode.InvalidDeployExcessivePaymentArgsLength
  | InvalidTransactionOrDeploy.DeployMissingPaymentAmount =>
      ErrorCode.InvalidDeployMissingPaymentAmount
  | InvalidTransactionOrDeploy.DeployFailedToParsePaymentAmount =>
      ErrorCode.InvalidDeployFailedToParsePaymentAmount
  | InvalidTransactionOrDeploy.DeployExceededBlockGasLimit =>
      ErrorCode.InvalidDeployExceededBlockGasLimit
  | InvalidTransactionOrDeploy.DeployMissingTransferAmount =>
      ErrorCode.InvalidDeployMissingTransferAmount
  | InvalidTransactionOrDeploy.DeployFailedToParseTransferAmount =>
      ErrorCode.InvalidDeployFailedToParseTransferAmount
  | InvalidTransactionOrDeploy.DeployInsufficientTransferAmount =>
      ErrorCode.InvalidDeployInsufficientTransferAmount
  | InvalidTransactionOrDeploy.DeployExcessiveApprovals =>
      ErrorCode.InvalidDeployExcessiveApprovals
  | InvalidTransactionOrDeploy.DeployUnableToCalculateGasLimit =>
      ErrorCode.InvalidDeployUnableToCalculateGasLimit
  | InvalidTransactionOrDeploy.DeployUnableToCalculateGasCost =>
      ErrorCode.InvalidDeployUnableToCalculateGasCost
  | InvalidTransactionOrDeploy.DeployUnspecified =>
      ErrorCode.InvalidDeployUnspecified
  | InvalidTransactionOrDeploy.TransactionChainName =>
      ErrorCode.InvalidTransactionChainName
  | InvalidTransactionOrDeploy.TransactionExcessiveSize =>
      ErrorCode.InvalidTransactionExcessiveSize
  | InvalidTransactionOrDeploy.TransactionExcessiveTimeToLive =>
      ErrorCode.InvalidTransactionExcessiveTimeToLive
  | InvalidTransactionOrDeploy.TransactionTimestampInFuture =>
      ErrorCode.InvalidTransactionTimestampInFuture
  | InvalidTransactionOrDeploy.TransactionBodyHash =>
      ErrorCode.InvalidTransactionBodyHash
  | InvalidTransactionOrDeploy.TransactionHash =>
      ErrorCode.InvalidTransactionHash
  | InvalidTransactionOrDeploy.TransactionEmptyApprovals =>
      ErrorCode.InvalidTransactionEmptyApprovals
  | InvalidTransactionOrDeploy.TransactionInvalidApproval =>
      ErrorCode.InvalidTransactionInvalidApproval
  | InvalidTransactionOrDeploy.TransactionExcessiveArgsLength =>
      ErrorCode.InvalidTransactionExcessiveArgsLength
  | InvalidTransactionOrDeploy.TransactionExcessiveApprovals =>
      ErrorCode.InvalidTransactionExcessiveApprovals
  | InvalidTransactionOrDeploy.TransactionExceedsBlockGasLimit =>
      ErrorCode.InvalidTransactionExceedsBlockGasLimit
  | InvalidTransactionOrDeploy.TransactionMissingArg =>
      ErrorCode.InvalidTransactionMissingArg
  | InvalidTransactionOrDeploy.TransactionUnexpectedArgType =>
      ErrorCode.InvalidTransactionUnexpectedArgType
  | InvalidTransactionOrDeploy.TransactionInvalidArg =>
      ErrorCode.InvalidTransactionInvalidArg
  | InvalidTransactionOrDeploy.TransactionInsufficientTransferAmount =>
      ErrorCode.InvalidTransactionInsufficientTransferAmount
  | InvalidTransactionOrDeploy.TransactionEntryPointCannotBeCustom =>
      ErrorCode.InvalidTransactionEntryPointCannotBeCustom
  | InvalidTransactionOrDeploy.TransactionEntryPointMustBeCustom =>
      ErrorCode.InvalidTransactionEntryPointMustBeCustom
  | InvalidTransactionOrDeploy.TransactionEmptyModuleBytes =>
      ErrorCode.InvalidTransactionEmptyModuleBytes
  | InvalidTransactionOrDeploy.TransactionGasPriceConversion =>
      ErrorCode.InvalidTransactionGasPriceConversion
  | InvalidTransactionOrDeploy.TransactionUnableToCalculateGasLimit =>
      ErrorCode.InvalidTransactionUnableToCalculateGasLimit
  | InvalidTransactionOrDeploy.TransactionUnableToCalculateGasCost =>
      ErrorCode.InvalidTransactionUnableToCalculateGasCost
  | InvalidTransactionOrDeploy.TransactionPricingMode =>
      ErrorCode.InvalidTransactionPricingMode
  | InvalidTransactionOrDeploy.EmptyBlockchain =>
      ErrorCode.EmptyBlockchain
  | InvalidTransactionOrDeploy.ExpectedDeploy =>
      ErrorCode.ExpectedDeploy
  | InvalidTransactionOrDeploy.ExpectedTransaction =>
      ErrorCode.ExpectedTransaction
  | InvalidTransactionOrDeploy.TransactionExpired =>
      ErrorCode.TransactionExpired
  | InvalidTransactionOrDeploy.MissingOrIncorrectParameters =>
      ErrorCode.MissingOrIncorrectParameters
  | InvalidTransactionOrDeploy.NoSuchAddressableEntity =>
      ErrorCode.NoSuchAddressableEntity
  | InvalidTransactionOrDeploy.NoSuchContractAtHash =>
      ErrorCode.NoSuchContractAtHash
  | InvalidTransactionOrDeploy.NoSuchEntryPoint =>
      ErrorCode.NoSuchEntryPoint
  | InvalidTransactionOrDeploy.NoSuchPackageAtHash =>
      ErrorCode.NoSuchPackageAtHash
  | InvalidTransactionOrDeploy.InvalidEntityAtVersion =>
      ErrorCode.InvalidEntityAtVersion
  | InvalidTransactionOrDeploy.DisabledEntityAtVersion =>
      ErrorCode.DisabledEntityAtVersion
  | InvalidTransactionOrDeploy.MissingEntityAtVersion =>
      ErrorCode.MissingEntityAtVersion
  | InvalidTransactionOrDeploy.InvalidAssociatedKeys =>
      ErrorCode.InvalidAssociatedKeys
  | InvalidTransactionOrDeploy.InsufficientSignatureWeight =>
      ErrorCode.InsufficientSignatureWeight
  | InvalidTransactionOrDeploy.InsufficientBalance =>
      ErrorCode.InsufficientBalance
  | InvalidTransactionOrDeploy.UnknownBalance =>
      ErrorCode.UnknownBalance
  | InvalidTransactionOrDeploy.DeployInvalidPaymentVariant =>
      ErrorCode.DeployInvalidPaymentVariant
  | InvalidTransactionOrDeploy.DeployMissingTransferTarget =>
      ErrorCode.DeployMissingTransferTarget
  | InvalidTransactionOrDeploy.DeployMissingModuleBytes =>
      ErrorCode.DeployMissingModuleBytes
  | InvalidTransactionOrDeploy.InvalidTransactionEntryPointCannotBeCall =>
      ErrorCode.InvalidTransactionEntryPointCannotBeCall
  | InvalidTransactionOrDeploy.InvalidTransactionInvalidTransactionLane =>
      ErrorCode.InvalidTransactionInvalidTransactionLane
  | InvalidTransactionOrDeploy.TransactionUnspecified =>
      ErrorCode.InvalidTransactionUnspecified
  | InvalidTransactionOrDeploy.TransactionOrDeployUnspecified =>
      ErrorCode.InvalidTransactionOrDeployUnspecified
  | InvalidTransactionOrDeploy.ExpectedNamedArguments =>
      ErrorCode.ExpectedNamedArguments
  | InvalidTransactionOrDeploy.InvalidTransactionRuntime =>
      ErrorCode.InvalidTransactionRuntime
  | InvalidTransactionOrDeploy.InvalidTransactionNoLaneMatches =>
      ErrorCode.InvalidTransactionNoLaneMatches
  | InvalidTransactionOrDeploy.InvalidTransactionEntryPointMustBeCall =>
      ErrorCode.InvalidTransactionEntryPointMustBeCall
  | InvalidTransactionOrDeploy.InvalidTransactionCannotDeserializeField =>
      ErrorCode.InvalidTransactionCannotDeserializeField
  | InvalidTransactionOrDeploy.InvalidTransactionCannotCalculateFieldsHash =>
      ErrorCode.InvalidTransactionCannotCalculateFieldsHash
  | InvalidTransactionOrDeploy.InvalidTransactionUnexpectedFields =>
      ErrorCode.InvalidTransactionUnexpectedFields
  | InvalidTransactionOrDeploy.InvalidTransactionExpectedBytesArguments =>
      ErrorCode.InvalidTransactionExpectedBytesArguments
  | InvalidTransactionOrDeploy.InvalidTransactionMissingSeed =>
      ErrorCode.InvalidTransactionMissingSeed
  | InvalidTransactionOrDeploy.PricingModeNotSupported =>
      ErrorCode.PricingModeNotSupported
  | InvalidTransactionOrDeploy.InvalidDeployGasLimitNotSupported =>
      ErrorCode.InvalidDeployGasLimitNotSupported
  | InvalidTransactionOrDeploy.InvalidDeployInvalidRuntime =>
      ErrorCode.InvalidDeployInvalidRuntime
  | InvalidTransactionOrDeploy.InvalidDeployExceededWasmLaneGasLimit =>
      ErrorCode.InvalidDeployExceededWasmLaneGasLimit
  | InvalidTransactionOrDeploy.InvalidDeployInvalidPaymentAmount =>
      ErrorCode.InvalidDeployInvalidPaymentAmount
  | InvalidTransactionOrDeploy.InvalidTransactionInsufficientBurnAmount =>
      ErrorCode.InvalidTransactionInsufficientBurnAmount
  | InvalidTransactionOrDeploy.InvalidTransactionInvalidPaymentAmount =>
      ErrorCode.InvalidTransactionInvalidPaymentAmount
  | InvalidTransactionOrDeploy.InvalidTransactionUnexpectedEntryPoint =>
      ErrorCode.InvalidTransactionUnexpectedEntryPoint
  | InvalidTransactionOrDeploy.InvalidReservedSlots =>
      ErrorCode.InvalidReservedSlots
  | InvalidTransactionOrDeploy.InvalidDelegationAmount =>
      ErrorCode.InvalidDelegationAmount
  | InvalidTransactionOrDeploy.InvalidMaximumDelegationAmount =>
      ErrorCode.InvalidMaximumDelegationAmount
  | InvalidTransactionOrDeploy.InvalidMinimumDelegationAmount =>
      ErrorCode.InvalidMinimumDelegationAmount
  | InvalidTransactionOrDeploy.InsufficientAmountArgValue =>
      ErrorCode.InsufficientAmountArgValue
  end.

Section Faithful.
Context `{BinaryPortCodes}.

(** The code a client error was made of, if it was made of a code. *)
Definition code_behind (e : ClientError) : option ErrorCode :=
  match e with
  | ClientError.FunctionIsDisabled => Some ErrorCode.FunctionDisabled
  | ClientError.UnknownStateRootHash => Some ErrorCode.RootNotFound
  | ClientError.QueryFailedToExecute => Some ErrorCode.FailedQuery
  | ClientError.SwitchBlockNotFound => Some ErrorCode.SwitchBlockNotFound
  | ClientError.SwitchBlockParentNotFound => Some ErrorCode.SwitchBlockParentNotFound
  | ClientError.UnsupportedRewardsV1Request => Some ErrorCode.UnsupportedRewardsV1Request
  | ClientError.CommandHeaderVersionMismatch => Some ErrorCode.CommandHeaderVersionMismatch
  | ClientError.PurseNotFound => Some ErrorCode.PurseNotFound
  | ClientError.RequestThrottled => Some ErrorCode.RequestThrottled
  | ClientError.MalformedInformationRequest => Some ErrorCode.MalformedInformationRequest
  | ClientError.TooLittleBytesForRequestHeaderVersion => Some ErrorCode.TooLittleBytesForRequestHeaderVersion
  | ClientError.MalformedCommandHeaderVersion => Some ErrorCode.MalformedCommandHeaderVersion
  | ClientError.TransferRecordMalformedKey => Some ErrorCode.TransferRecordMalformedKey
  | ClientError.MalformedCommandHeader => Some ErrorCode.MalformedCommandHeader
  | ClientError.MalformedCommand => Some ErrorCode.MalformedCommand
  | ClientError.NotFound => Some ErrorCode.NotFound
  | ClientError.InternalNodeError => Some ErrorCode.InternalError
  | ClientError.BadRequest => Some ErrorCode.BadRequest
  | ClientError.UnsupportedRequest => Some ErrorCode.UnsupportedRequest
  | ClientError.DictionaryURefNotFound => Some ErrorCode.DictionaryURefNotFound
  | ClientError.NoCompleteBlocks => Some ErrorCode.NoCompleteBlocks
  | ClientError.GasPriceToleranceTooLow => Some ErrorCode.GasPriceToleranceTooLow
  | ClientError.ReceivedV1Transaction => Some ErrorCode.ReceivedV1Transaction
  | ClientError.TransactionHasMalformedBinaryRepresentation => Some ErrorCode.TransactionHasMalformedBinaryRepresentation
  | ClientError.UnsupportedInvocationTarget => Some ErrorCode.UnsupportedInvocationTarget
  | ClientError.InvalidTransaction e => Some (code_of_invalid e)
  | ClientError.SpecExecutionFailed e =>
      if decide (e = code_to_string ErrorCode.WasmPreprocessing) then Some ErrorCode.WasmPreprocessing
      else Some ErrorCode.InvalidItemVariant
  | ClientError.UnexpectedNodeError _ _ => Some ErrorCode.NoError
  | _ => None
  end.

Lemma code_behind_of (c : ErrorCode) :
  code_to_string ErrorCode.WasmPreprocessing <> code_to_string ErrorCode.InvalidItemVariant ->
  code_behind (ClientError_of c) = Some (canonical_code c).
Proof. intros Hne. destruct c; simpl; try reflexivity; case_decide; congruence. Qed.

Lemma ClientError_of_canonical (c : ErrorCode) : ClientError_of (canonical_code c) = ClientError_of c.
Proof. by destruct c. Qed.

(** Only [NoError] is reported, as an unknown code is, as an unexpected error. *)
Lemma ClientError_of_unexpected (c : ErrorCode) (message : string) (code : Z) :
  ClientError_of c = ClientError.UnexpectedNodeError message code ->
  code = as_u16 ErrorCode.NoError.
Proof. destruct c; simpl; congruence. Qed.

(** The errors the client makes of the node's error codes lose nothing but
    the difference between two pairs of payment codes: two codes, known or not,
    are reported by the same error exactly when both are known and equal up to
    those pairs, or both are unknown and equal.  No known code is reported like
    an unknown one.  It is assumed of [ErrorCode] that [NoError] is converted
    back from its own number and that the texts of the two codes that are
    reported as text differ. *)
Theorem from_error_code_faithful (a b : Z) :
  try_from_u16 (as_u16 ErrorCode.NoError) = Ok ErrorCode.NoError ->
  code_to_string ErrorCode.WasmPreprocessing <> code_to_string ErrorCode.InvalidItemVariant ->
  from_error_code a = from_error_code b <->
  match try_from_u16 a, try_from_u16 b with
  | Ok x, Ok y => canonical_code x = canonical_code y
  | Err _, Err _ => a = b
  | _, _ => False
  end.
Proof.
  intros Hno Hne. unfold from_error_code.
  destruct (try_from_u16 a) as [x|ea] eqn:Ha, (try_from_u16 b) as [y|eb] eqn:Hb.
  - split; [|intros Hc; by rewrite <- (ClientError_of_canonical x), Hc, ClientError_of_canonical].
    intros He%(f_equal code_behind). rewrite !code_behind_of in He by done. by injection He.
  - split; [|done]. intros He%ClientError_of_unexpected. congruence.
  - split; [|done]. intros He. symmetry in He. apply ClientError_of_unexpected in He. congruence.
  - split; [congruence|]. intros ->. congruence.
Qed.

End Faithful.

(** A numbering of a few of the codes. *)
Definition sample_codes : BinaryPortCodes := {|
  try_from_u16 z :=
    if decide (z = 0) then Ok ErrorCode.NoError
    else if decide (z = 29) then Ok ErrorCode.InvalidDeployMissingPaymentAmount
    else if decide (z = 77) then Ok ErrorCode.DeployMissingPaymentAmount
    else Err "unknown code";
  as_u16 _ := 0;
  code_to_string c := match c with ErrorCode.WasmPreprocessing => "wasm" | _ => "other" end;
|}.

Lemma from_error_code_faithful_witness :
  from_error_code (H := sample_codes) 29 = from_error_code (H := sample_codes) 77.
Proof. apply (from_error_code_faithful (H := sample_codes)); [reflexivity|discriminate|reflexivity]. Defined.

(** A code by which the node refuses a transaction or a deploy is reported
    as an invalid transaction, and with the unspecified reason only if the node
    gave none: the fall-back branch of the conversion is never taken for
    another code. *)
Theorem invalid_transaction_reason `{BinaryPortCodes} (c : ErrorCode) (e : InvalidTransactionOrDeploy) :
  ClientError_of c = ClientError.InvalidTransaction e ->
  e = InvalidTransactionOrDeploy_from c /\
  (e = InvalidTransactionOrDeploy.TransactionOrDeployUnspecified <->
   c = ErrorCode.InvalidTransactionOrDeployUnspecified).
Proof. destruct c; simpl; intros [= <-]; split; (reflexivity || split; congruence). Qed.
