(* ===== verification/NodeClient.v ===== *)
(** * The binary port client ([rpc_sidecar/src/node_client.rs])

    [FramedNodeClient] sends one request at a time over a framed TCP stream and
    reads responses until one echoes the identifier of the request.  The wire
    types are those of [casper_binary_port]: they and their serialisation are
    the operations of the class [BinaryPort], with what the client relies on as
    [BinaryPortLaws].  The node at the other end is a state machine of its own
    ([Peer]); time appears as the outcomes of the [timeout] calls. *)

From S2P Require Import Prelude EventIndexer NodeErrors.

(** ** The wire format *)

(** What the client uses of [casper_binary_port] and [bytesrepr]. *)
Class BinaryPort := {
  Command : Type;
  CommandHeader : Type;
  BinaryResponse : Type;
  BinaryResponseAndRequest : Type;
  HEADER_VERSION : Z;
  command_tag : Command -> Z;
  CommandHeader_new : Z -> Z -> CommandHeader;
  header_id : CommandHeader -> Z;
  CommandHeader_write_bytes : CommandHeader -> result string (list Z);
  CommandHeader_from_bytes : list Z -> result string (CommandHeader * list Z);
  Command_write_bytes : Command -> result string (list Z);
  request : BinaryResponseAndRequest -> list Z;
  response : BinaryResponseAndRequest -> BinaryResponse;
  BinaryResponseAndRequest_from_bytes : list Z -> result string BinaryResponseAndRequest;
  is_not_found : BinaryResponse -> bool;
  is_success : BinaryResponse -> bool;
  error_code : BinaryResponse -> Z;
  returned_data_type_tag : BinaryResponse -> option Z;
  payload : BinaryResponse -> list Z;
}.

(** The documented layout of a command header: it starts with the version as a
    little-endian [u16], carries the identifier, and is read back. *)
Class BinaryPortLaws `{BinaryPort} := {
  header_layout (tag id : Z) (bs : list Z) :
    CommandHeader_write_bytes (CommandHeader_new tag id) = Ok bs ->
    exists b0 b1 tl, bs = b0 :: b1 :: tl /\ from_le_bytes [b0; b1] = HEADER_VERSION;
  header_roundtrip (tag id : Z) (bs rest : list Z) :
    CommandHeader_write_bytes (CommandHeader_new tag id) = Ok bs ->
    CommandHeader_from_bytes (bs ++ rest) = Ok (CommandHeader_new tag id, rest);
  header_id_new (tag id : Z) : is_u16 id -> header_id (CommandHeader_new tag id) = id;
}.

(** [rpc_sidecar/src/node_client.rs:44-44], [MAX_MISMATCHED_ID_RETRIES]. *)
Definition MAX_MISMATCHED_ID_RETRIES : Z := 100.

(** [rpc_sidecar/src/node_client.rs:45-46], [INITIAL_REQUEST_ID]. *)
Definition INITIAL_REQUEST_ID : Z := 0.

(** A response as it is deserialised: the trait [PayloadEntity] names the tag of
    a type, [FromBytes] reads it. *)
Class PayloadEntity (A : Type) := {
  RESPONSE_TYPE : Z;
  deserialize_from_slice : list Z -> result string A;
}.

Section Wire.
Context `{BinaryPort}.

(** [rpc_sidecar/src/lib.rs:147-153], [encode_request]. *)
Definition encode_request (req : Command) (id : Z) : result string (list Z) :=
  let? header := CommandHeader_write_bytes (CommandHeader_new (command_tag req) id) in
  let? body := Command_write_bytes req in
  Ok (header ++ body).

(** The bytes a message takes on the wire: its length as a little-endian [u32]
    and its payload. *)
Definition frame (payload : list Z) : list Z := to_le_bytes (Z.of_nat (length payload)) ++ payload.

(** [rpc_sidecar/src/node_client.rs:1318-1339], [extract_header]. *)
Definition extract_header (payload : list Z) : result string (CommandHeader * list Z) :=
  match payload with
  | b0 :: b1 :: _ =>
      let binary_protocol_version := from_le_bytes [b0; b1] in
      if decide (binary_protocol_version = HEADER_VERSION)
      then map_err (fun error => "Malformed CommandHeader definition: " +:+ error)
             (CommandHeader_from_bytes payload)
      else Err "Header version does not meet expectation"
  | _ => Err "Not enough bytes to read version of the command header"
  end.

(** [rpc_sidecar/src/node_client.rs:1301-1316], [try_parse_request_id]. *)
Definition try_parse_request_id (request : list Z) : result string Z :=
  match request with
  | b0 :: b1 :: b2 :: b3 :: remainder =>
      let payload_length := from_le_bytes [b0; b1; b2; b3] in
      if decide (payload_length = wrap_u32 (Z.of_nat (length remainder)))
      then let? '(header, _) := extract_header remainder in Ok (header_id header)
      else Err "Node responded with request that has a mismatch in declared bytes vs the payload length"
  | _ => Err "Node responded with request that doesn't have enough bytes to read payload length"
  end.

(** The identifier [validate_response] finds in a response. *)
Definition original_id (resp : BinaryResponseAndRequest) : Z :=
  match try_parse_request_id (request resp) with
  | Ok id => id
  | Err _ => 0
  end.

(** [rpc_sidecar/src/node_client.rs:1281-1299], [validate_response]. *)
Definition validate_response (resp : BinaryResponseAndRequest) (expected_id : Z)
    : result ClientError BinaryResponseAndRequest :=
  if decide (original_id resp = expected_id) then Ok resp
  else Err (ClientError.RequestResponseIdMismatch expected_id (original_id resp)).

(** [rpc_sidecar/src/lib.rs:155-174], [parse_response]; [parse_response_bincode]
    differs in the deserialiser only. *)
Definition parse_response `{BinaryPortCodes} {A} `{PayloadEntity A} (resp : BinaryResponse)
    : result ClientError (option A) :=
  if is_not_found resp then Ok None
  else if negb (is_success resp) then Err (from_error_code (error_code resp))
  else
    match returned_data_type_tag resp with
    | Some found =>
        if decide (found = RESPONSE_TYPE)
        then map_err ClientError.Deserialization
               (Some <$> deserialize_from_slice (payload resp))
        else Err (ClientError.UnexpectedVariantReceived found)
    | None => Ok None
    end.

End Wire.

(** ** The connection and the client *)

(** The end of [client.send] under its timeout. *)
Inductive SendOutcome : Set :=
| Sent
| SendTimeout
| SendFailed (err : string).

(** What [client.next] under its timeout yields: a message, an error of the
    codec, nothing in time, or the end of the stream. *)
Inductive Incoming : Type :=
| Message (payload : list Z)
| CodecError (err : string)
| NotInTime
| EndOfStream.

(** The node's end of a connection: what becomes of a message it is sent, what
    it answers, and what closing the connection does. *)
Class Peer := {
  peer : Type;
  peer_receive : peer -> list Z -> SendOutcome * peer * list Incoming;
  peer_close : peer -> peer;
}.

(** [Framed<TcpStream, BinaryMessageCodec>]: the incoming items not yet read,
    and the other end. *)
Record Framed `{Peer} := mkFramed {
  inbox : list Incoming;
  remote : peer;
}.

Section Connection.
Context `{Peer}.

(** [SinkExt::send], with the answers it provokes. *)
Definition framed_send (client : Framed) (payload : list Z) : SendOutcome * Framed :=
  let '(outcome, p, answers) := peer_receive (remote client) payload in
  (outcome, mkFramed _ (inbox client ++ answers) p).

(** [StreamExt::next]: nothing arrives on an empty stream before the timeout. *)
Definition framed_next (client : Framed) : Incoming * Framed :=
  match inbox client with
  | [] => (NotInTime, client)
  | item :: rest => (item, mkFramed _ rest (remote client))
  end.

(** [SinkExt::close]. *)
Definition framed_close (client : Framed) : Framed :=
  mkFramed _ (inbox client) (peer_close (remote client)).

End Connection.

(** [rpc_sidecar/src/config.rs:240-249], [ExponentialBackoffConfig]. *)
Record ExponentialBackoffConfig := mkBackoff {
  initial_delay_ms : Z;
  max_delay_ms : Z;
  coefficient : Z;
  max_attempts : Z;
}.

(** [rpc_sidecar/src/node_client.rs:971-976], [FramedNodeClient]: the stream, the
    permit of the [Reconnect] notification, the backoff of the configuration and
    the next request identifier.  The code does not keep [messages_sent], the messages
    given to a connection so far: no operation reads it, theorems do. *)
Record FramedNodeClient `{Peer} := mkClient {
  client : Framed;
  reconnect : bool;
  exponential_backoff : ExponentialBackoffConfig;
  current_request_id : Z;
  messages_sent : list (list Z);
}.

Section Client.
Context `{BinaryPort, Peer}.

Definition with_client (self : FramedNodeClient) (c : Framed) : FramedNodeClient :=
  mkClient _ c (reconnect self) (exponential_backoff self) (current_request_id self) (messages_sent self).

Definition notify_one (self : FramedNodeClient) : FramedNodeClient :=
  mkClient _ (client self) true (exponential_backoff self) (current_request_id self) (messages_sent self).

Definition with_message (self : FramedNodeClient) (bytes : list Z) : FramedNodeClient :=
  mkClient _ (client self) (reconnect self) (exponential_backoff self) (current_request_id self)
    (messages_sent self ++ [bytes]).

(** [rpc_sidecar/src/node_client.rs:1029-1031], [FramedNodeClient::next_id]
    ([fetch_add] wraps around). *)
Definition next_id (self : FramedNodeClient) : Z * FramedNodeClient :=
  (current_request_id self,
   mkClient _ (client self) (reconnect self) (exponential_backoff self)
     (wrap_u16 (current_request_id self + 1)) (messages_sent self)).

(** [rpc_sidecar/src/node_client.rs:1134-1142], [FramedNodeClient::generate_payload]:
    [None] is the panic of [expect]. *)
Definition generate_payload (self : FramedNodeClient) (req : Command)
    : option (Z * list Z * FramedNodeClient) :=
  let (next_id, self) := next_id self in
  match encode_request req next_id with
  | Ok bytes => Some (next_id, bytes, self)
  | Err _ => None
  end.

(** The loop of [FramedNodeClient::send_request_internal] over [n] reads. *)
Fixpoint read_responses (n : nat) (request_id : Z) (c : Framed)
    : result ClientError BinaryResponseAndRequest * Framed :=
  match n with
  | O => (Err (ClientError.TooManyMismatchedResponses MAX_MISMATCHED_ID_RETRIES), c)
  | S n =>
      let (item, c) := framed_next c in
      match item with
      | NotInTime => (Err ClientError.ConnectionLost, c)
      | EndOfStream => (Err ClientError.ConnectionLost, c)
      | CodecError err => (Err (ClientError.RequestFailed err), c)
      | Message bytes =>
          match BinaryResponseAndRequest_from_bytes bytes with
          | Err _ => (Err ClientError.EnvelopeDeserialization, c)
          | Ok resp =>
              match validate_response resp request_id with
              | Ok response => (Ok response, c)
              | Err (ClientError.RequestResponseIdMismatch expected got as err) =>
                  if expected >? got then read_responses n request_id c else (Err err, c)
              | Err err => (Err err, c)
              end
          end
      end
  end.

(** [rpc_sidecar/src/node_client.rs:1067-1132], [FramedNodeClient::send_request_internal]. *)
Definition send_request_internal (self : FramedNodeClient) (req : Command)
    : option (result ClientError BinaryResponseAndRequest * FramedNodeClient) :=
  '(request_id, bytes, self) ← generate_payload self req;
  let self := with_message self bytes in
  let (outcome, c) := framed_send (client self) bytes in
  match outcome with
  | SendTimeout => Some (Err (ClientError.RequestFailed "timeout"), with_client self c)
  | SendFailed err => Some (Err (ClientError.RequestFailed err), with_client self c)
  | Sent =>
      let (res, c) := read_responses (Z.to_nat MAX_MISMATCHED_ID_RETRIES) request_id c in
      Some (res, with_client self c)
  end.

(** The loop of [connect_with_retries]: [connect i] is the outcome of the [i]-th
    attempt; the waits between the attempts are collected.  [None] is a loop
    that has not ended within [fuel] attempts. *)
Fixpoint connect_loop (fuel i : nat) (connect : nat -> result string Framed)
    (tcp_socket : string) (cfg : ExponentialBackoffConfig) (current_attempt wait : Z)
    : option (list Z * result string Framed) :=
  match fuel with
  | O => None
  | S fuel =>
      match connect i with
      | Ok stream => Some ([], Ok stream)
      | Err _ =>
          let current_attempt := wrap_u32 (current_attempt + 1) in
          if max_attempts cfg <? current_attempt
          then Some ([], Err ("Couldn't connect to node " +:+ tcp_socket +:+ " after "
                              +:+ pretty (current_attempt - 1) +:+ " attempts"))
          else
            let next_wait := wrap_u64 (wait * coefficient cfg) `min` max_delay_ms cfg in
            '(waits, res) ← connect_loop fuel (S i) connect tcp_socket cfg current_attempt next_wait;
            Some (wait :: waits, res)
      end
  end.

(** [rpc_sidecar/src/node_client.rs:1144-1176], [FramedNodeClient::connect_with_retries]. *)
Definition connect_with_retries (fuel : nat) (connect : nat -> result string Framed)
    (tcp_socket : string) (cfg : ExponentialBackoffConfig)
    : option (list Z * result string Framed) :=
  connect_loop fuel 0 connect tcp_socket cfg 1 (initial_delay_ms cfg).

(** What the surroundings of one [send_request] decide: whether the lock on the
    connection is acquired in time, how attempts to connect end, and whether
    reconnecting finishes in time. *)
Record Surroundings := mkSurroundings {
  lock_acquired : bool;
  connect : nat -> result string Framed;
  connect_fuel : nat;
  node_address : string;
  reconnected_in_time : bool;
}.

(** [rpc_sidecar/src/node_client.rs:1205-1265], [NodeClient::send_request for FramedNodeClient]. *)
Definition send_request (env : Surroundings) (self : FramedNodeClient) (req : Command)
    : option (result ClientError BinaryResponseAndRequest * FramedNodeClient) :=
  if negb (lock_acquired env) then Some (Err ClientError.ConnectionLost, self)
  else
    '(res, self) ← send_request_internal self req;
    match res with
    | Ok response => Some (Ok response, self)
    | Err _ =>
        let self := with_client self (framed_close (client self)) in
        if reconnected_in_time env then
          '(_, reconnected) ← connect_with_retries (connect_fuel env) (connect env)
                                (node_address env) (exponential_backoff self);
          match reconnected with
          | Ok new_client => send_request_internal (with_client self new_client) req
          | Err _ => Some (Err ClientError.ConnectionLost, notify_one self)
          end
        else Some (Err ClientError.ConnectionLost, self)
    end.

End Client.

(** ** Which response is returned *)

Section Selection.
Context `{BinaryPort, Peer}.

(** A response with an identifier below the expected one. *)
Definition outdated (id : Z) (item : Incoming) : bool :=
  match item with
  | Message bytes =>
      match BinaryResponseAndRequest_from_bytes bytes with
      | Ok resp => original_id resp <? id
      | Err _ => false
      end
  | _ => false
  end.

(** What a request is answered with, by the item that ends the reading. *)
Definition answer_of (id : Z) (item : Incoming) : result ClientError BinaryResponseAndRequest :=
  match item with
  | NotInTime | EndOfStream => Err ClientError.ConnectionLost
  | CodecError err => Err (ClientError.RequestFailed err)
  | Message bytes =>
      let? resp := map_err (fun _ => ClientError.EnvelopeDeserialization)
                     (BinaryResponseAndRequest_from_bytes bytes) in
      validate_response resp id
  end.

(** The number of outdated responses in front of the items. *)
Definition leading_outdated (id : Z) (items : list Incoming) : nat :=
  (length items - length (skip_while (outdated id) items))%nat.

(** The answer the items of a stream give: the first item that is not outdated,
    unless [n] outdated responses come before it. *)
Definition selected (n : nat) (id : Z) (items : list Incoming)
    : result ClientError BinaryResponseAndRequest :=
  if decide (n <= leading_outdated id items)%nat
  then Err (ClientError.TooManyMismatchedResponses MAX_MISMATCHED_ID_RETRIES)
  else from_option (answer_of id) (Err ClientError.ConnectionLost)
         (head (skip_while (outdated id) items)).

Lemma leading_outdated_cons (id : Z) (item : Incoming) (items : list Incoming) :
  leading_outdated id (item :: items) =
  if outdated id item then S (leading_outdated id items) else O.
Proof.
  unfold leading_outdated. simpl. destruct (outdated id item).
  - pose proof (skip_while_length (outdated id) items). lia.
  - simpl. lia.
Qed.

Lemma read_responses_outdated (n : nat) (id : Z) (item : Incoming) (items : list Incoming) (p : peer) :
  outdated id item = true ->
  read_responses (S n) id (mkFramed _ (item :: items) p) = read_responses n id (mkFramed _ items p).
Proof.
  destruct item as [bytes| | |]; simpl; try done.
  destruct (BinaryResponseAndRequest_from_bytes bytes) as [resp|]; [|done].
  intros Hlt%Z.ltb_lt. unfold validate_response. rewrite decide_False by lia.
  by rewrite (proj2 (Z.gtb_lt _ _)) by lia.
Qed.

Lemma read_responses_stop (n : nat) (id : Z) (item : Incoming) (items : list Incoming) (p : peer) :
  outdated id item = false ->
  read_responses (S n) id (mkFramed _ (item :: items) p) = (answer_of id item, mkFramed _ items p).
Proof.
  destruct item as [bytes| | |]; simpl; try done.
  destruct (BinaryResponseAndRequest_from_bytes bytes) as [resp|]; [|done].
  intros Hge%Z.ltb_ge. simp_result. unfold validate_response. case_decide; [done|].
  destruct (Z.gtb_spec id (original_id resp)); [lia|done].
Qed.

(** The reading loop is the selection of the first item that is not outdated. *)
Lemma read_responses_selected (n : nat) (id : Z) (items : list Incoming) (p : peer) :
  read_responses n id (mkFramed _ items p) =
  (selected n id items, mkFramed _ (drop (n `min` S (leading_outdated id items)) items) p).
Proof.
  revert items. induction n as [|n IH]; intros items.
  { unfold selected. rewrite decide_True by lia. by rewrite drop_0. }
  destruct items as [|item items]; [done|].
  unfold selected in *. rewrite leading_outdated_cons. simpl skip_while.
  destruct (outdated id item) eqn:Ho.
  - rewrite read_responses_outdated, IH by done. f_equal.
    apply decide_ext. lia.
  - rewrite read_responses_stop by done. rewrite decide_False by lia.
    by rewrite (Nat.min_r (S n) 1) by lia.
Qed.

Lemma send_request_internal_sent (self : FramedNodeClient) (req : Command) (bytes : list Z) (c : Framed) :
  encode_request req (current_request_id self) = Ok bytes ->
  framed_send (client self) bytes = (Sent, c) ->
  send_request_internal self req =
  let (res, c) := read_responses 100 (current_request_id self) c in
  Some (res, with_client (with_message (next_id self).2 bytes) c).
Proof.
  intros Henc Hsend. unfold send_request_internal, generate_payload. cbn [next_id].
  rewrite Henc. cbn -[read_responses]. rewrite Hsend. done.
Qed.

(** C19. The outcome of one exchange with the node, on every branch: once the
    request is sent, the client skips the responses with an identifier below
    the one it sent and answers with the first other item (the response if the
    identifiers agree, and otherwise the error of a mismatch, an undecodable
    message, a broken or silent connection); after one hundred skipped responses
    it gives up.  What was not read stays on the connection, the identifier
    advances by one modulo 2^16. *)
Theorem response_selection (self : FramedNodeClient) (req : Command) (bytes : list Z) (c : Framed) :
  let id := current_request_id self in
  encode_request req id = Ok bytes ->
  framed_send (client self) bytes = (Sent, c) ->
  exists self',
    send_request_internal self req = Some (selected 100 id (inbox c), self') /\
    inbox (client self') = drop (100 `min` S (leading_outdated id (inbox c))) (inbox c) /\
    current_request_id self' = wrap_u16 (id + 1).
Proof.
  intros id; subst id. intros Henc Hsend. rewrite (send_request_internal_sent self req bytes c) by done.
  destruct c as [items p]. rewrite read_responses_selected. by eexists.
Qed.

End Selection.

(** ** Identifiers on the wire *)

Section Identifiers.
Context `{BinaryPort}.

Lemma try_parse_request_id_frame (payload : list Z) :
  is_u32 (Z.of_nat (length payload)) ->
  try_parse_request_id (frame payload) =
  let? '(header, _) := extract_header payload in Ok (header_id header).
Proof.
  intros Hlen. unfold frame, to_le_bytes. cbn [app try_parse_request_id].
  rewrite decide_True; [done|].
  change (from_le_bytes (to_le_bytes (Z.of_nat (length payload))) = wrap_u32 (Z.of_nat (length payload))).
  by rewrite to_from_le_bytes, wrap_u32_small.
Qed.

Context `{!BinaryPortLaws}.

Lemma extract_header_encoded (req : Command) (id : Z) (bytes : list Z) :
  encode_request req id = Ok bytes ->
  exists rest, extract_header bytes = Ok (CommandHeader_new (command_tag req) id, rest).
Proof using Type*.
  unfold encode_request. simp_result.
  destruct (CommandHeader_write_bytes _) as [hd|] eqn:Hhd; [|done].
  destruct (Command_write_bytes req) as [body|]; [|done]. intros [= <-].
  pose proof (header_layout _ _ _ Hhd) as (b0 & b1 & tl & -> & Hv).
  pose proof (header_roundtrip _ _ _ body Hhd) as Hrt. exists body.
  unfold extract_header. cbn [app] in *. rewrite decide_True by done. by rewrite Hrt.
Qed.

Lemma parse_encoded_id (req : Command) (id : Z) (bytes : list Z) :
  is_u16 id -> encode_request req id = Ok bytes -> is_u32 (Z.of_nat (length bytes)) ->
  try_parse_request_id (frame bytes) = Ok id.
Proof using Type*.
  intros Hid Henc Hlen. rewrite try_parse_request_id_frame by done.
  destruct (extract_header_encoded req id bytes Henc) as [rest ->]. simp_result.
  by rewrite header_id_new.
Qed.

(** The identifier survives the wire: a request that was encoded with an
    identifier and framed with its length is read back by the parser of the
    echoed request with that identifier. *)
Theorem request_id_roundtrip (req : Command) (id : Z) (bytes : list Z) :
  is_u16 id -> encode_request req id = Ok bytes -> is_u32 (Z.of_nat (length bytes)) ->
  try_parse_request_id (frame bytes) = Ok id.
Proof using Type*. apply parse_encoded_id. Qed.

End Identifiers.

(** ** Sessions with a node that answers *)

Section Sessions.
Context `{BinaryPort, Peer}.

(** Requests one after the other, each in surroundings of its own. *)
Fixpoint session (self : FramedNodeClient) (reqs : list (Surroundings * Command))
    : option (list (result ClientError BinaryResponseAndRequest) * FramedNodeClient) :=
  match reqs with
  | [] => Some ([], self)
  | (env, req) :: reqs =>
      '(res, self) ← send_request env self req;
      '(ress, self) ← session self reqs;
      Some (res :: ress, self)
  end.

(** The responses answer the requests in order: each echoes its request under
    the identifier that follows the one before. *)
Fixpoint echoes (id : Z) (reqs : list Command) (resps : list BinaryResponseAndRequest) : Prop :=
  match reqs, resps with
  | [], [] => True
  | req :: reqs, resp :: resps =>
      encode_request req id ≫= (fun bytes => Ok (frame bytes)) = Ok (request resp) /\
      echoes (wrap_u16 (id + 1)) reqs resps
  | _, _ => False
  end.

(** A request that has bytes, and few enough for a frame, under any identifier. *)
Definition encodable (req : Command) : Prop :=
  forall id, is_u16 id ->
  exists bytes, encode_request req id = Ok bytes /\ is_u32 (Z.of_nat (length bytes)).

(** A node that answers every message with one response that echoes it. *)
Class AnsweringPeer := answering (p : peer) (bytes : list Z) :
  exists p' msg resp,
    peer_receive p bytes = (Sent, p', [Message msg]) /\
    BinaryResponseAndRequest_from_bytes msg = Ok resp /\ request resp = frame bytes.

Context `{!BinaryPortLaws}.

(** One request that is answered at once. *)
Lemma answered_at_once (env : Surroundings) (self : FramedNodeClient) (req : Command)
    (bytes msg : list Z) (resp : BinaryResponseAndRequest) (p' : peer) :
  lock_acquired env = true -> is_u16 (current_request_id self) -> inbox (client self) = [] ->
  encode_request req (current_request_id self) = Ok bytes -> is_u32 (Z.of_nat (length bytes)) ->
  peer_receive (remote (client self)) bytes = (Sent, p', [Message msg]) ->
  BinaryResponseAndRequest_from_bytes msg = Ok resp -> request resp = frame bytes ->
  exists self', send_request env self req = Some (Ok resp, self') /\
    inbox (client self') = [] /\ remote (client self') = p' /\
    current_request_id self' = wrap_u16 (current_request_id self + 1).
Proof using Type*.
  intros Hlock Hid Hin Henc Hlen Hrecv Hmsg Hecho. unfold send_request. rewrite Hlock. cbn [negb].
  rewrite (send_request_internal_sent self req bytes (mkFramed _ [Message msg] p'));
    [|done|unfold framed_send; by rewrite Hrecv, Hin].
  assert (original_id resp = current_request_id self) as Horig.
  { unfold original_id. by rewrite Hecho, (parse_encoded_id req (current_request_id self)). }
  rewrite read_responses_stop; [|simpl; rewrite Hmsg, Horig; apply Z.ltb_irrefl].
  unfold answer_of. rewrite Hmsg. simp_result. unfold validate_response.
  rewrite decide_True by done. eexists. split; [reflexivity|]. done.
Qed.

Context `{!AnsweringPeer}.

Lemma answered (env : Surroundings) (self : FramedNodeClient) (req : Command) :
  lock_acquired env = true -> encodable req ->
  is_u16 (current_request_id self) -> inbox (client self) = [] ->
  exists bytes resp self',
    send_request env self req = Some (Ok resp, self') /\
    encode_request req (current_request_id self) = Ok bytes /\ request resp = frame bytes /\
    inbox (client self') = [] /\ current_request_id self' = wrap_u16 (current_request_id self + 1).
Proof using Type*.
  intros Hlock Hreq Hid Hin. destruct (Hreq _ Hid) as (bytes & Henc & Hlen).
  destruct (answering (remote (client self)) bytes) as (p' & msg & resp & Hrecv & Hmsg & Hecho).
  destruct (answered_at_once env self req bytes msg resp p') as (self' & Hs & Hi & _ & Hn); try done.
  by exists bytes, resp, self'.
Qed.

(** C10. As long as the node answers, the client pairs requests and responses
    correctly for ever: from an empty stream, any sequence of requests is
    answered in order, each with the response that echoes it, through every
    wrap-around of the 16-bit identifiers, without reconnecting, and the stream
    is empty again. *)
Theorem session_answered (self : FramedNodeClient) (reqs : list (Surroundings * Command)) :
  Forall (fun r => lock_acquired r.1 = true /\ encodable r.2) reqs ->
  is_u16 (current_request_id self) -> inbox (client self) = [] ->
  exists resps self',
    session self reqs = Some (Ok <$> resps, self') /\
    echoes (current_request_id self) reqs.*2 resps /\ inbox (client self') = [].
Proof using Type*.
  intros Hall. revert self. induction Hall as [|[env req] reqs [Hlock Hreq] _ IH]; intros self Hid Hin.
  { by exists [], self. }
  destruct (answered env self req) as (bytes & resp & self' & Hsend & Henc & Hecho & Hin' & Hid'); try done.
  destruct (IH self') as (resps & self'' & Hs & Hes & Hin''); [rewrite Hid'; apply wrap_u16_range|done|].
  exists (resp :: resps), self''. split; [|split; [|done]].
  - cbn [session]. rewrite Hsend. cbn [mbind option_bind]. rewrite Hs. done.
  - cbn [echoes fmap list_fmap snd]. rewrite Henc, Hecho. simp_result. by rewrite <- Hid'.
Qed.

End Sessions.

(** ** Whatever the node does *)

Section AnyPeer.
Context `{BinaryPort, Peer}.

Lemma read_responses_Ok (n : nat) (id : Z) (c c' : Framed) (resp : BinaryResponseAndRequest) :
  read_responses n id c = (Ok resp, c') -> original_id resp = id.
Proof.
  destruct c as [items p]. rewrite read_responses_selected. intros [= Hsel _]. revert Hsel.
  unfold selected. case_decide; [done|].
  destruct (skip_while (outdated id) items) as [|[bytes| | |] rest]; simpl; try done.
  simp_result. destruct (BinaryResponseAndRequest_from_bytes bytes) as [r|]; simpl; [|done].
  unfold validate_response. case_decide; [|done]. congruence.
Qed.

Lemma send_request_internal_Ok (self self' : FramedNodeClient) (req : Command)
    (res : result ClientError BinaryResponseAndRequest) :
  send_request_internal self req = Some (res, self') ->
  (forall resp, res = Ok resp -> original_id resp = current_request_id self) /\
  current_request_id self' = wrap_u16 (current_request_id self + 1) /\
  exponential_backoff self' = exponential_backoff self.
Proof.
  unfold send_request_internal, generate_payload. cbn [next_id].
  destruct (encode_request req _) as [bytes|]; [|done]. cbn -[read_responses].
  destruct (framed_send (client self) bytes) as [[| |err] c]; cbn -[read_responses];
    try (intros [= <- <-]; naive_solver).
  destruct (read_responses _ _ c) as [r c'] eqn:Hr.
  intros [= <- <-]. split; [|done]. intros resp ->. by eapply read_responses_Ok.
Qed.

(** What an exchange, and a request with its possible second exchange, put on the
    connections: the request, under identifiers of their own. *)
Lemma internal_messages (self self' : FramedNodeClient) (req : Command)
    (res : result ClientError BinaryResponseAndRequest) :
  send_request_internal self req = Some (res, self') ->
  exists bytes, encode_request req (current_request_id self) = Ok bytes /\
    messages_sent self' = messages_sent self ++ [bytes].
Proof.
  unfold send_request_internal, generate_payload. cbn [next_id].
  destruct (encode_request req _) as [bytes|]; [|done]. cbn -[read_responses]. exists bytes. split; [done|].
  destruct (framed_send (client self) bytes) as [[| |err] c]; [|by simplify_eq/=..].
  destruct (read_responses _ _ c) as [r c'] eqn:Hr. by simplify_eq/=.
Qed.

Lemma request_messages (env : Surroundings) (self self' : FramedNodeClient) (req : Command)
    (res : result ClientError BinaryResponseAndRequest) :
  send_request env self req = Some (res, self') ->
  exists l, messages_sent self' = messages_sent self ++ l /\ (length l <= 2)%nat /\
    Forall (fun bytes => exists id, encode_request req id = Ok bytes) l.
Proof.
  unfold send_request. destruct (lock_acquired env); cbn [negb].
  2: { intros [= _ <-]. exists []. rewrite app_nil_r. split_and!; [done|simpl; lia|constructor]. }
  destruct (send_request_internal self req) as [[res1 self1]|] eqn:H1; [|done]. cbn [mbind option_bind].
  apply internal_messages in H1 as (bytes & Henc & H1).
  assert (forall self', messages_sent self' = messages_sent self1 ->
    exists l, messages_sent self' = messages_sent self ++ l /\ (length l <= 2)%nat /\
      Forall (fun bytes => exists id, encode_request req id = Ok bytes) l) as Hone.
  { intros self2 ->. exists [bytes]. split_and!; [done|simpl; lia|]. constructor; [by eexists|constructor]. }
  destruct res1 as [r|e]; [intros [= _ <-]; by apply Hone|].
  destruct (reconnected_in_time env); [|intros [= _ <-]; by apply Hone].
  destruct (connect_with_retries _ _ _ _) as [[waits [c|]]|]; cbn [mbind option_bind];
    [|intros [= _ <-]; by apply Hone|done].
  intros (bytes' & Henc' & H2)%internal_messages. cbn in H2. exists [bytes; bytes'].
  rewrite H2, H1, <- app_assoc. split_and!; [done|simpl; lia|]. repeat constructor; by eexists.
Qed.

(** C18. Whatever the node sends and however often the connection breaks, a
    successful [send_request] returns a response with the identifier of the call or
    with the one after it, which is that of its second message, sent after
    reconnecting; and the next call continues with the identifier after the one
    that was answered. *)
Theorem send_request_sound (env : Surroundings) (self self' : FramedNodeClient) (req : Command)
    (resp : BinaryResponseAndRequest) :
  send_request env self req = Some (Ok resp, self') ->
  (original_id resp = current_request_id self \/
   original_id resp = wrap_u16 (current_request_id self + 1)) /\
  current_request_id self' = wrap_u16 (original_id resp + 1).
Proof.
  unfold send_request. destruct (lock_acquired env); [|done]. cbn [negb].
  destruct (send_request_internal self req) as [[res self1]|] eqn:H1; [|done]. cbn [mbind option_bind].
  apply send_request_internal_Ok in H1 as (Hres & Hid & _).
  destruct res as [r|e].
  { intros [= -> ->]. rewrite Hid, (Hres resp) by done. auto. }
  destruct (reconnected_in_time env); [|done].
  destruct (connect_with_retries _ _ _ _) as [[waits [c|]]|]; cbn [mbind option_bind]; try done.
  intros (Hok & Hid' & _)%send_request_internal_Ok. rewrite (Hok resp) by done.
  cbn [current_request_id with_client] in *. rewrite Hid' , <- Hid. auto.
Qed.

(** The request a response echoes is not checked under the identifier 0: a
    response whose request cannot be read at all counts as an answer to the
    request with identifier 0, and as an outdated answer, to be skipped, to
    every other one. *)
Theorem unreadable_request_matches_zero (resp : BinaryResponseAndRequest) (e : string) (id : Z) :
  is_u16 id -> try_parse_request_id (request resp) = Err e ->
  validate_response resp id =
    (if decide (id = 0) then Ok resp else Err (ClientError.RequestResponseIdMismatch id 0)) /\
  forall bytes, BinaryResponseAndRequest_from_bytes bytes = Ok resp ->
    outdated id (Message bytes) = bool_decide (id <> 0).
Proof.
  intros Hid He. unfold validate_response, outdated, original_id.
  split; [|intros bytes ->]; rewrite He.
  - destruct (decide (id = 0)) as [->|Hne]; [by rewrite decide_True|by rewrite decide_False].
  - case_bool_decide; [apply Z.ltb_lt|apply Z.ltb_ge]; unfold is_u16 in Hid; lia.
Qed.

(** Outdated responses are told apart by comparing the 16-bit identifiers as
    they are: after a wrap-around the responses of the requests before it have
    the larger identifiers, and the first of them ends the exchange with a
    mismatch instead of being skipped. *)
Theorem outdated_before_wrap_refused (self : FramedNodeClient) (req : Command) (bytes msg : list Z)
    (resp : BinaryResponseAndRequest) (c : Framed) (rest : list Incoming) :
  current_request_id self < original_id resp ->
  BinaryResponseAndRequest_from_bytes msg = Ok resp ->
  encode_request req (current_request_id self) = Ok bytes ->
  framed_send (client self) bytes = (Sent, c) -> inbox c = Message msg :: rest ->
  exists self',
    send_request_internal self req =
      Some (Err (ClientError.RequestResponseIdMismatch (current_request_id self) (original_id resp)), self').
Proof.
  intros Hlt Hmsg Henc Hsend Hin. rewrite (send_request_internal_sent self req bytes c) by done.
  destruct c as [items p]. cbn [inbox] in Hin. subst items.
  rewrite read_responses_stop; [|simpl; rewrite Hmsg; apply Z.ltb_ge; lia].
  unfold answer_of. rewrite Hmsg. simp_result. unfold validate_response.
  rewrite decide_False by lia. by eexists.
Qed.

End AnyPeer.

(** ** Connecting with retries *)

Section Backoff.
Context `{Peer}.
Context (cfg : ExponentialBackoffConfig).

(** The wait after the [i]-th failed attempt, in closed form. *)
Definition wait_ms (i : nat) : Z :=
  match i with
  | O => initial_delay_ms cfg
  | _ => (initial_delay_ms cfg * coefficient cfg ^ Z.of_nat i) `min` max_delay_ms cfg
  end.

(** The number of attempts: at least one is made. *)
Definition attempts : nat := 1 `max` Z.to_nat (max_attempts cfg).

(** Configurations whose delays do not overflow a [u64] and whose attempts do
    not overflow a [u32]. *)
Record backoff_ok : Prop := {
  delays_positive : 0 <= initial_delay_ms cfg /\ 0 <= max_delay_ms cfg /\ 0 <= coefficient cfg;
  delays_fit : (initial_delay_ms cfg `max` max_delay_ms cfg) * coefficient cfg <= U64_MAX;
  attempts_fit : 0 <= max_attempts cfg < U32_MAX;
}.

Context (Hok : backoff_ok).

Lemma wait_ms_S (i : nat) :
  wrap_u64 (wait_ms i * coefficient cfg) `min` max_delay_ms cfg = wait_ms (S i).
Proof using Hok.
  destruct Hok as [(Hi & Hm & Hc) Hfit _].
  assert (0 <= wait_ms i <= initial_delay_ms cfg `max` max_delay_ms cfg) as Hw.
  { unfold wait_ms. destruct i; [lia|].
    pose proof (Z.pow_nonneg (coefficient cfg) (Z.of_nat (S i)) Hc). nia. }
  assert (wrap_u64 (wait_ms i * coefficient cfg) = wait_ms i * coefficient cfg) as ->.
  { unfold wrap_u64. apply Z.mod_small. unfold U64_MAX in Hfit. nia. }
  unfold wait_ms in *. destruct i as [|i]; [by rewrite Z.pow_1_r|].
  rewrite (Nat2Z.inj_succ (S i)), Z.pow_succ_r by lia.
  set (x := initial_delay_ms cfg * coefficient cfg ^ Z.of_nat (S i)) in *.
  replace (initial_delay_ms cfg * (coefficient cfg * coefficient cfg ^ Z.of_nat (S i)))
    with (x * coefficient cfg) by (subst x; ring).
  destruct (Z.eq_dec (coefficient cfg) 0) as [->|]; [lia|]. nia.
Qed.

Context (connect : nat -> result string Framed) (tcp_socket : string).

Definition loop_from (fuel i : nat) : option (list Z * result string Framed) :=
  connect_loop fuel i connect tcp_socket cfg (Z.of_nat (S i)) (wait_ms i).

Lemma loop_from_connected (fuel i : nat) (stream : Framed) :
  connect i = Ok stream -> loop_from (S fuel) i = Some ([], Ok stream).
Proof. unfold loop_from. simpl. by intros ->. Qed.

Lemma loop_from_failed (fuel i : nat) :
  (S i < attempts)%nat -> is_ok (connect i) = false ->
  loop_from (S fuel) i = '(waits, res) ← loop_from fuel (S i); Some (wait_ms i :: waits, res).
Proof using Hok.
  intros Hi Hc. unfold loop_from at 1. simpl. destruct (connect i); [done|].
  rewrite wait_ms_S. destruct Hok as [_ _ Hmax]. unfold attempts in Hi.
  replace (wrap_u32 _) with (Z.of_nat (S (S i))) by word_lia.
  destruct (Z.ltb_spec (max_attempts cfg) (Z.of_nat (S (S i)))); [lia|done].
Qed.

Lemma loop_from_exhausted (fuel i : nat) :
  S i = attempts -> is_ok (connect i) = false ->
  loop_from (S fuel) i =
  Some ([], Err ("Couldn't connect to node " +:+ tcp_socket +:+ " after "
                 +:+ pretty (Z.of_nat attempts) +:+ " attempts")).
Proof using Hok.
  intros Hi Hc. unfold loop_from. simpl. destruct (connect i); [done|].
  destruct Hok as [_ _ Hmax]. unfold attempts in *.
  replace (wrap_u32 _) with (Z.of_nat (S i) + 1) by word_lia.
  destruct (Z.ltb_spec (max_attempts cfg) (Z.of_nat (S i) + 1)); [|lia].
  replace (Z.of_nat (S i) + 1 - 1) with (Z.of_nat (S i)) by lia. by rewrite Hi.
Qed.

(** The attempts from [i] to [k] fail and make the waits between them. *)
Lemma loop_from_skip (fuel i d : nat) :
  (i + d < attempts)%nat -> (forall j, (i <= j < i + d)%nat -> is_ok (connect j) = false) ->
  loop_from (d + fuel) i =
  '(waits, res) ← loop_from fuel (i + d); Some ((wait_ms <$> seq i d) ++ waits, res).
Proof using Hok.
  revert i. induction d as [|d IH]; intros i Hd Hfail.
  { rewrite Nat.add_0_r. simpl. by destruct (loop_from fuel i) as [[]|]. }
  cbn [Nat.add]. rewrite loop_from_failed by (lia || apply Hfail; lia).
  rewrite IH by (lia || intros; apply Hfail; lia).
  replace (S i + d)%nat with (i + S d)%nat by lia. by destruct (loop_from fuel _) as [[]|].
Qed.

End Backoff.

(** Connecting ends: with delays and attempts that fit their words, it makes
    at most [max 1 max_attempts] attempts.  It returns the stream of the first
    attempt that succeeds, and the error naming the number of attempts when none
    does; before the attempts after the first it waits the initial delay, then
    the delays that grow by the coefficient up to the configured maximum. *)
Theorem connect_with_retries_spec `{Peer} (cfg : ExponentialBackoffConfig)
    (connect : nat -> result string Framed) (tcp_socket : string) (fuel : nat) :
  backoff_ok cfg -> (attempts cfg <= fuel)%nat ->
  (forall k stream,
     (k < attempts cfg)%nat -> (forall j, (j < k)%nat -> is_ok (connect j) = false) ->
     connect k = Ok stream ->
     connect_with_retries fuel connect tcp_socket cfg = Some (wait_ms cfg <$> seq 0 k, Ok stream)) /\
  ((forall j, (j < attempts cfg)%nat -> is_ok (connect j) = false) ->
   connect_with_retries fuel connect tcp_socket cfg =
   Some (wait_ms cfg <$> seq 0 (attempts cfg - 1),
         Err ("Couldn't connect to node " +:+ tcp_socket +:+ " after "
              +:+ pretty (Z.of_nat (attempts cfg)) +:+ " attempts"))).
Proof.
  intros Hok Hfuel.
  assert (forall d, (d < attempts cfg)%nat -> (forall j, (j < d)%nat -> is_ok (connect j) = false) ->
    connect_with_retries fuel connect tcp_socket cfg =
    '(waits, res) ← loop_from cfg connect tcp_socket (S (fuel - d - 1)) d;
    Some ((wait_ms cfg <$> seq 0 d) ++ waits, res)) as Hskip.
  { intros d Hd Hfail. change (connect_with_retries fuel connect tcp_socket cfg)
      with (loop_from cfg connect tcp_socket fuel 0).
    replace fuel with (d + S (fuel - d - 1))%nat at 1 by lia.
    rewrite loop_from_skip by (done || lia || intros; apply Hfail; lia). done. }
  split.
  - intros k stream Hk Hfail Hc. rewrite (Hskip k Hk Hfail), (loop_from_connected _ _ _ _ _ _ Hc).
    simpl. by rewrite app_nil_r.
  - intros Hfail. assert (1 <= attempts cfg)%nat by (unfold attempts; lia).
    rewrite (Hskip (attempts cfg - 1)%nat) by (lia || intros; apply Hfail; lia).
    rewrite loop_from_exhausted by (done || lia || apply Hfail; lia). simpl. by rewrite app_nil_r.
Qed.

(** ** A concrete wire format and node *)

Module Sample.

(** Commands and responses that are their bytes; a header of five bytes. *)
#[export] Instance port : BinaryPort := {|
  Command := list Z;
  CommandHeader := Z * Z;
  BinaryResponse := unit;
  BinaryResponseAndRequest := list Z;
  HEADER_VERSION := 1;
  command_tag _ := 7;
  CommandHeader_new tag id := (tag, id);
  header_id h := h.2;
  CommandHeader_write_bytes h :=
    if decide (0 <= h.2 <= 65535) then Ok [1; 0; h.1; h.2 mod 256; h.2 / 256] else Err "range";
  CommandHeader_from_bytes bs :=
    match bs with
    | _ :: _ :: tag :: lo :: hi :: rest => Ok ((tag, lo + 256 * hi), rest)
    | _ => Err "early end of stream"
    end;
  Command_write_bytes c := Ok c;
  request r := r;
  response _ := tt;
  BinaryResponseAndRequest_from_bytes bs := Ok bs;
  is_not_found _ := false;
  is_success _ := true;
  error_code _ := 0;
  returned_data_type_tag _ := None;
  payload _ := [];
|}.

#[export] Instance port_laws : BinaryPortLaws.
Proof.
  split; simpl.
  - intros tag id bs. case_decide; [|done]. intros [= <-]. by eexists _, _, _.
  - intros tag id bs rest. case_decide; [|done]. intros [= <-]. simpl.
    do 3 f_equal. pose proof (Z.div_mod id 256). lia.
  - done.
Qed.

(** A node that echoes what it is sent. *)
#[export] Instance echo : Peer := {|
  peer := unit;
  peer_receive _ bytes := (Sent, tt, [Message (frame bytes)]);
  peer_close p := p;
|}.

#[export] Instance echo_answers : AnsweringPeer.
Proof. intros [] bytes. by eexists _, _, _. Qed.

Definition command (bytes : list Z) : @Command port := bytes.

Definition echoing (bytes : list Z) : @BinaryResponseAndRequest port := frame bytes.

Definition unreadable : @BinaryResponseAndRequest port := [1; 2].

Definition backoff : ExponentialBackoffConfig := mkBackoff 1000 3000 2 4.

Lemma backoff_is_ok : backoff_ok backoff.
Proof. split; unfold backoff, U64_MAX, U32_MAX; simpl; lia. Qed.

Definition self (items : list Incoming) (id : Z) : FramedNodeClient :=
  mkClient _ (mkFramed _ items tt) false backoff id [].

Definition env : Surroundings :=
  mkSurroundings true (fun _ => Err "refused") 4 "127.0.0.1:7779" true.

Lemma short_encodable (b : Z) : encodable (command [b]).
Proof.
  intros id Hid. unfold encode_request. simpl. rewrite decide_True by exact Hid. simp_result.
  eexists. split; [reflexivity|]. unfold is_u32, U32_MAX. simpl. lia.
Qed.

End Sample.

Import Sample.

Lemma response_selection_witness :
  exists self',
    send_request_internal (Sample.self [Message (frame [1; 0; 7; 3; 0; 9])] 5) (Sample.command [9]) =
      Some (Ok (Sample.echoing [1; 0; 7; 5; 0; 9]), self').
Proof.
  destruct (response_selection (Sample.self [Message (frame [1; 0; 7; 3; 0; 9])] 5) (Sample.command [9])
    [1; 0; 7; 5; 0; 9]
    (mkFramed Sample.echo [Message (frame [1; 0; 7; 3; 0; 9]); Message (frame [1; 0; 7; 5; 0; 9])] tt))
    as (self' & Hs & _); [reflexivity|reflexivity|].
  exists self'. exact Hs.
Defined.

Lemma session_answered_witness :
  exists resps self',
    session (Sample.self [] 65535) [(Sample.env, Sample.command [8]); (Sample.env, Sample.command [9])] = Some (Ok <$> resps, self').
Proof.
  destruct (session_answered (Sample.self [] 65535) [(Sample.env, Sample.command [8]); (Sample.env, Sample.command [9])])
    as (resps & self' & Hs & _).
  - repeat constructor; apply Sample.short_encodable.
  - unfold is_u16, U16_MAX. simpl. lia.
  - reflexivity.
  - exists resps, self'. exact Hs.
Defined.

Lemma send_request_sound_witness :
  original_id (Sample.echoing [1; 0; 7; 5; 0; 9]) = 5 \/ original_id (Sample.echoing [1; 0; 7; 5; 0; 9]) = 6.
Proof.
  refine (proj1 (send_request_sound Sample.env (Sample.self [] 5)
    (with_message (Sample.self [] 6) [1; 0; 7; 5; 0; 9]) (Sample.command [9]) _ _)).
  vm_compute. reflexivity.
Defined.

Lemma unreadable_request_matches_zero_witness : validate_response Sample.unreadable 0 = Ok Sample.unreadable.
Proof.
  refine (proj1 (unreadable_request_matches_zero Sample.unreadable _ 0 _ eq_refl)).
  unfold is_u16, U16_MAX. lia.
Defined.

Lemma outdated_before_wrap_refused_witness :
  exists self',
    send_request_internal (Sample.self [Message (frame [1; 0; 7; 255; 255; 9])] 0) (Sample.command [9]) =
      Some (Err (ClientError.RequestResponseIdMismatch 0 65535), self').
Proof.
  apply (outdated_before_wrap_refused (Sample.self [Message (frame [1; 0; 7; 255; 255; 9])] 0) (Sample.command [9])
    [1; 0; 7; 0; 0; 9] (frame [1; 0; 7; 255; 255; 9]) (Sample.echoing [1; 0; 7; 255; 255; 9])
    (mkFramed Sample.echo [Message (frame [1; 0; 7; 255; 255; 9]); Message (frame [1; 0; 7; 0; 0; 9])] tt)
    [Message (frame [1; 0; 7; 0; 0; 9])]); vm_compute; reflexivity.
Defined.

Lemma connect_with_retries_spec_witness :
  connect_with_retries 4 (fun _ => Err "refused" : result string (@Framed Sample.echo)) "127.0.0.1:7779"
    Sample.backoff =
  Some ([1000; 2000; 3000], Err "Couldn't connect to node 127.0.0.1:7779 after 4 attempts").
Proof.
  refine (proj2 (connect_with_retries_spec Sample.backoff _ _ 4 Sample.backoff_is_ok _) _).
  - vm_compute. lia.
  - reflexivity.
Defined.
