(* ===== verification/NodeClientTasks.v ===== *)
(** * The tasks around the node client

    [rpc_sidecar/src/node_client.rs]: the start of the client with the check of the
    network's name, the task that reconnects after a failure and the task that keeps
    the connection alive.  The lock on the connection makes a request, a turn of the
    reconnection and a keep-alive one step each; they come in any order. *)

From S2P Require Import Prelude NodeErrors NodeClient.

Section Tasks.
Context `{BinaryPort, Peer}.

(** [rpc_sidecar/src/node_client.rs:979-1027], [FramedNodeClient::new]: [read_status] is
    [read_node_status] on the new client, with the name of the node's chain; [None] is
    a connection that is still being tried. *)
Definition FramedNodeClient_new (env : Surroundings) (backoff : ExponentialBackoffConfig)
    (maybe_network_name : option string)
    (read_status : FramedNodeClient -> result string string * FramedNodeClient)
    : option (result string FramedNodeClient) :=
  '(_, connected) ← connect_with_retries (connect_fuel env) (connect env) (node_address env) backoff;
  match connected with
  | Err e => Some (Err e)
  | Ok stream =>
      let node_client := mkClient _ stream false backoff INITIAL_REQUEST_ID [] in
      match maybe_network_name with
      | None => Some (Ok node_client)
      | Some network_name =>
          let (status, node_client) := read_status node_client in
          Some (let? chainspec_name := status in
                if decide (network_name = chainspec_name) then Ok node_client
                else Err ("Network name " +:+ chainspec_name +:+ " does't match name " +:+ network_name +:+
                          " configured for node RPC connection"))
      end
  end.

(** What a step of the client's tasks ends with: a result for a caller, the next turn
    of a loop, or the end of the reconnection loop. *)
Inductive StepEnd :=
| Returned (res : result ClientError BinaryResponseAndRequest)
| Looped
| LoopEnded (error : string).

(** [rpc_sidecar/src/node_client.rs:1033-1047], [reconnect_loop], with [reconnect]: a turn
    waits for the permit of the notification, which it takes. *)
Definition reconnect_turn (env : Surroundings) (self : FramedNodeClient) : option (StepEnd * FramedNodeClient) :=
  if reconnect self then
    let self := mkClient _ (client self) false (exponential_backoff self) (current_request_id self) (messages_sent self) in
    '(_, reconnected) ← connect_with_retries (connect_fuel env) (connect env) (node_address env)
                          (exponential_backoff self);
    match reconnected with
    | Ok new_client => Some (Looped, with_client self new_client)
    | Err e => Some (LoopEnded e, self)
    end
  else Some (Looped, self).

(** [rpc_sidecar/src/node_client.rs:1049-1065], [keepalive_loop]: a turn, after its sleep, asks
    for the protocol version and ignores the answer. *)
Definition keepalive_turn (protocol_version : Command) (env : Surroundings) (self : FramedNodeClient)
    : option (StepEnd * FramedNodeClient) :=
  '(_, self) ← send_request env self protocol_version; Some (Looped, self).

Inductive ClientStep :=
| SendStep (req : Command)
| ReconnectStep
| KeepaliveStep.

Definition client_step (protocol_version : Command) (env : Surroundings) (s : ClientStep) (self : FramedNodeClient)
    : option (StepEnd * FramedNodeClient) :=
  match s with
  | SendStep req => '(res, self) ← send_request env self req; Some (Returned res, self)
  | ReconnectStep => reconnect_turn env self
  | KeepaliveStep => keepalive_turn protocol_version env self
  end.

Fixpoint client_steps (protocol_version : Command) (steps : list (Surroundings * ClientStep)) (self : FramedNodeClient)
    : option (list StepEnd * FramedNodeClient) :=
  match steps with
  | [] => Some ([], self)
  | (env, s) :: steps =>
      '(e, self) ← client_step protocol_version env s self;
      '(es, self) ← client_steps protocol_version steps self;
      Some (e :: es, self)
  end.

(** ** Recovery *)

(** Nodes that answer: every message with one response that echoes it, and go on so. *)
Context (good : peer -> Prop).
Hypothesis good_answers : forall p bytes, good p -> exists p' msg resp,
  peer_receive p bytes = (Sent, p', [Message msg]) /\ good p' /\
  BinaryResponseAndRequest_from_bytes msg = Ok resp /\ request resp = frame bytes.

(** A connection to such a node, with nothing left to read. *)
Definition fresh (c : Framed) : Prop := inbox c = [] /\ good (remote c).

(** The lock is free in time and the first attempt to connect succeeds, with a fresh
    connection. *)
Record reachable (env : Surroundings) : Prop := {
  reach_lock : lock_acquired env = true;
  reach_connect : exists c, connect env 0 = Ok c /\ fresh c;
  reach_fuel : (0 < connect_fuel env)%nat;
  reach_time : reconnected_in_time env = true;
}.

Context `{!BinaryPortLaws}.

Lemma fresh_internal (self : FramedNodeClient) (req : Command) :
  encodable req -> is_u16 (current_request_id self) -> fresh (client self) ->
  exists resp self', send_request_internal self req = Some (Ok resp, self') /\
    original_id resp = current_request_id self /\ fresh (client self') /\
    current_request_id self' = wrap_u16 (current_request_id self + 1).
Proof using Type*.
  intros Hreq Hid [Hin Hgood]. destruct (Hreq _ Hid) as (bytes & Henc & Hlen).
  destruct (good_answers (remote (client self)) bytes Hgood) as (p' & msg & resp & Hrecv & Hgood' & Hmsg & Hecho).
  rewrite (send_request_internal_sent self req bytes (mkFramed _ [Message msg] p'));
    [|done|unfold framed_send; by rewrite Hrecv, Hin].
  assert (original_id resp = current_request_id self) as Horig.
  { unfold original_id. by rewrite Hecho, (parse_encoded_id req (current_request_id self)). }
  rewrite read_responses_stop; [|simpl; rewrite Hmsg, Horig; apply Z.ltb_irrefl].
  unfold answer_of. rewrite Hmsg. simp_result. unfold validate_response.
  rewrite decide_True by done. by eexists _, _.
Qed.

Lemma reachable_connects (env : Surroundings) (backoff : ExponentialBackoffConfig) :
  reachable env -> exists c, fresh c /\
    connect_with_retries (connect_fuel env) (connect env) (node_address env) backoff = Some ([], Ok c).
Proof.
  intros [_ (c & Hc & Hf) Hfuel _]. exists c. split; [done|]. unfold connect_with_retries.
  destruct (connect_fuel env); [lia|]. simpl. by rewrite Hc.
Qed.

Lemma internal_total (self : FramedNodeClient) (req : Command) :
  encodable req -> is_u16 (current_request_id self) -> exists res self',
    send_request_internal self req = Some (res, self') /\
    (forall resp, res = Ok resp -> original_id resp = current_request_id self) /\
    current_request_id self' = wrap_u16 (current_request_id self + 1).
Proof.
  intros Hreq Hid. destruct (Hreq _ Hid) as (bytes & Henc & _).
  assert (exists res self', send_request_internal self req = Some (res, self')) as (res & self' & Hs).
  { unfold send_request_internal, generate_payload. cbn [next_id]. rewrite Henc. cbn -[read_responses].
    destruct (framed_send (client self) bytes) as [[| |err] c]; cbn -[read_responses]; eauto.
    destruct (read_responses _ _ c). eauto. }
  exists res, self'. destruct (send_request_internal_Ok self self' req res Hs) as (? & ? & _). done.
Qed.

(** A request to a node that can be reached is answered, whatever state the connection
    is in. *)
Lemma send_recovers (env : Surroundings) (self : FramedNodeClient) (req : Command) :
  reachable env -> encodable req -> is_u16 (current_request_id self) ->
  exists resp self', send_request env self req = Some (Ok resp, self') /\
    (original_id resp = current_request_id self \/ original_id resp = wrap_u16 (current_request_id self + 1)) /\
    is_u16 (current_request_id self') /\ (fresh (client self) -> fresh (client self')).
Proof using Type*.
  intros Hr Hreq Hid. destruct (reachable_connects env (exponential_backoff self) Hr) as (c & Hc & Hconn).
  unfold send_request. rewrite (reach_lock _ Hr). cbn [negb].
  destruct (internal_total self req Hreq Hid) as (res & self1 & Hs & Hok & Hid1). rewrite Hs. cbn [mbind option_bind].
  destruct (send_request_internal_Ok self self1 req res Hs) as (_ & _ & Hb).
  destruct res as [resp|e].
  - exists resp, self1. split; [done|]. rewrite Hid1. split_and!; [left; by apply Hok|apply wrap_u16_range|].
    intros Hf. destruct (fresh_internal self req Hreq Hid Hf) as (? & ? & Hs' & _ & Hf' & _). congruence.
  - rewrite (reach_time _ Hr). cbn [with_client exponential_backoff]. rewrite Hb, Hconn. cbn [mbind option_bind].
    edestruct (fresh_internal (with_client (with_client self1 (framed_close (client self1))) c) req)
      as (resp & self2 & Hs2 & Ho & Hf2 & Hid2); [done|cbn; rewrite Hid1; apply wrap_u16_range|done|].
    exists resp, self2. cbn in Ho, Hid2. rewrite Hs2, Ho, Hid2, Hid1.
    split_and!; [done|by right|apply wrap_u16_range|done].
Qed.

(** Every request among the steps is answered, and the loops go on. *)
Definition answered_in_turn (steps : list (Surroundings * ClientStep)) (ends : list StepEnd) : Prop :=
  Forall2 (fun s e => match s.2 with
                      | SendStep _ => exists resp, e = Returned (Ok resp)
                      | ReconnectStep | KeepaliveStep => e = Looped
                      end) steps ends.

Lemma step_recovers (protocol_version : Command) (env : Surroundings) (s : ClientStep) (self : FramedNodeClient) :
  encodable protocol_version -> (forall req, s = SendStep req -> encodable req) ->
  reachable env -> is_u16 (current_request_id self) ->
  exists e self', client_step protocol_version env s self = Some (e, self') /\
    answered_in_turn [(env, s)] [e] /\ is_u16 (current_request_id self') /\
    (fresh (client self) -> fresh (client self')) /\
    (s = ReconnectStep -> reconnect self = true -> fresh (client self') /\ reconnect self' = false).
Proof using Type*.
  intros Hpv Hreq Hr Hid. destruct s as [req| |]; simpl.
  - destruct (send_recovers env self req Hr (Hreq req eq_refl) Hid) as (resp & self' & -> & _ & Hid' & Hf).
    eexists _, self'. split_and!; try done. constructor; [by eexists|constructor].
  - unfold reconnect_turn. destruct (reconnect self) eqn:Hn.
    + destruct (reachable_connects env (exponential_backoff self) Hr) as (c & Hc & Hconn). cbn [exponential_backoff].
      rewrite Hconn. eexists _, _. split_and!; try done. constructor; [done|constructor].
    + eexists _, self. split_and!; try done. constructor; [done|constructor].
  - unfold keepalive_turn. destruct (send_recovers env self protocol_version Hr Hpv Hid) as (resp & self' & -> & _ & Hid' & Hf).
    eexists _, self'. split_and!; try done. constructor; [done|constructor].
Qed.

(** C38. The client recovers at once.  Whatever happened to its connection before (it may
    be closed, broken, or full of outdated or unreadable responses), as soon as the
    node can be reached and answers again, every request is answered, in any order of
    requests, keep-alives and turns of the reconnection; the reconnection goes on, and
    a connection that works is not lost again. *)
Theorem client_recovers (protocol_version : Command) (steps : list (Surroundings * ClientStep)) (self : FramedNodeClient) :
  encodable protocol_version ->
  Forall (fun s => reachable s.1 /\ forall req, s.2 = SendStep req -> encodable req) steps ->
  is_u16 (current_request_id self) ->
  exists ends self', client_steps protocol_version steps self = Some (ends, self') /\
    answered_in_turn steps ends /\ (fresh (client self) -> fresh (client self')).
Proof using Type*.
  intros Hpv Hall. revert self. induction Hall as [|[env s] steps [Hr Hreq] _ IH]; intros self Hid.
  { exists [], self. split_and!; [done|constructor|done]. }
  destruct (step_recovers protocol_version env s self Hpv Hreq Hr Hid) as (e & self1 & Hs & Ha & Hid1 & Hf1 & _).
  destruct (IH self1 Hid1) as (ends & self2 & Hrest & Hends & Hf2).
  exists (e :: ends), self2. cbn [client_steps]. rewrite Hs. cbn [mbind option_bind]. rewrite Hrest.
  split_and!; [done| |by auto]. by apply Forall2_cons in Ha as [? _]; constructor.
Qed.

End Tasks.

Import Sample.

Module SampleTasks.

Definition reached : Surroundings (H0 := Sample.echo) :=
  mkSurroundings true (fun _ => Ok (mkFramed _ [] tt)) 1 "127.0.0.1:7779" true.

Lemma reached_reachable : reachable (H0 := Sample.echo) (fun _ => True) reached.
Proof. split; simpl; try done; [by eexists|lia]. Qed.

Definition steps : list (Surroundings * ClientStep) :=
  [(reached, SendStep (Sample.command [9])); (reached, ReconnectStep)].

End SampleTasks.

(** A connection that holds an unreadable message, and a node that echoes again. *)
Lemma client_recovers_witness :
  exists ends self',
    client_steps (Sample.command [1]) SampleTasks.steps (Sample.self [CodecError "broken"] 65535) =
      Some (ends, self') /\
    exists resp, ends = [Returned (Ok resp); Looped].
Proof.
  destruct (client_recovers (H0 := Sample.echo) (fun _ => True)) with (protocol_version := Sample.command [1])
    (steps := SampleTasks.steps) (self := Sample.self [CodecError "broken"] 65535) as (ends & self' & Hs & Ha & _).
  - intros [] bytes _. by eexists _, _, _.
  - apply _.
  - apply Sample.short_encodable.
  - repeat constructor; try apply SampleTasks.reached_reachable; simpl; intros req [= <-]. apply Sample.short_encodable.
  - unfold is_u16, U16_MAX. simpl. lia.
  - exists ends, self'. split; [exact Hs|]. unfold answered_in_turn in Ha.
    apply Forall2_cons_inv_l in Ha as (e1 & r1 & [resp ->] & Ha & ->).
    apply Forall2_cons_inv_l in Ha as (e2 & r2 & He2 & Ha & ->). simpl in He2. subst.
    apply Forall2_nil_inv_l in Ha as ->. by exists resp.
Defined.
