(* ===== verification/CachingClient.v ===== *)
(** * The block cache ([rpc_sidecar/src/caching_node_client.rs])

    A client that keeps the latest block it was told about.  One task
    ([cache_update_loop]) is the only writer of the cache: it reacts to the
    [BlockAdded] events of the sidecar by fetching the announced block.  Readers
    see the cache between its iterations. *)

From S2P Require Import Prelude NodeErrors.

(** [casper_types::BlockIdentifier]. *)
Inductive BlockIdentifier : Set :=
| BlockHash (hash : string)
| BlockHeight (height : Z).

(** [BlockWithSignatures], of which the cache uses the height of the block. *)
Class HasHeight (Block : Type) := block_height : Block -> Z.

(** What [sidecar_event_receiver.recv] yields ([SidecarEvent::BlockAdded] is the
    only event), with the errors of a broadcast channel. *)
Inductive Received : Set :=
| BlockAdded (height : Z)
| Closed
| Lagged (skipped : Z).

Section Cache.
Context {Block : Type} `{HasHeight Block}.

(** [rpc_sidecar/src/caching_node_client.rs:16-28], [CachingNodeClient]: the
    cache; the inner client is an argument of the operations. *)
Record CachingNodeClient := mkCaching {
  block_with_signatures_cache : option Block;
}.

(** [rpc_sidecar/src/caching_node_client.rs:22-28], [CachingNodeClient::new]. *)
Definition CachingNodeClient_new : CachingNodeClient := mkCaching None.

(** [rpc_sidecar/src/caching_node_client.rs:30-35],
    [CachingNodeClient::get_block_from_cache]: [in_time] says whether the lock is
    acquired before [CACHE_FETCH_TIMEOUT]. *)
Definition get_block_from_cache (in_time : bool) (self : CachingNodeClient) : option Block :=
  if in_time then block_with_signatures_cache self else None.

(** [rpc_sidecar/src/caching_node_client.rs:49-63],
    [CachingNodeClient::read_block_with_signatures]: [read] is the request to the
    node and the parsing of its response; the second component says whether it
    was made. *)
Definition read_block_with_signatures (in_time : bool) (self : CachingNodeClient)
    (read : option BlockIdentifier -> result ClientError (option Block))
    (block_identifier : option BlockIdentifier) : result ClientError (option Block) * bool :=
  match block_identifier, get_block_from_cache in_time self with
  | None, Some block => (Ok (Some block), false)
  | _, _ => (read block_identifier, true)
  end.

(** Whether the cache holds a block that is at least that high. *)
Definition known_at (self : CachingNodeClient) (height : Z) : bool :=
  match block_with_signatures_cache self with
  | Some block => height <=? block_height block
  | None => false
  end.

(** [rpc_sidecar/src/caching_node_client.rs:71-131], the body of
    [cache_update_loop]: [read] are the answers of the inner client; [false] is
    the end of the loop. *)
Definition cache_update (self : CachingNodeClient)
    (read : option BlockIdentifier -> result ClientError (option Block)) (msg : Received)
    : CachingNodeClient * bool :=
  match msg with
  | BlockAdded height =>
      if known_at self height then (self, true)
      else
        match read (Some (BlockHeight height)) with
        | Ok (Some block) =>
            if known_at self (block_height block) then (self, true)
            else (mkCaching (Some block), true)
        | Ok None => (mkCaching None, true)
        | Err _ => (mkCaching None, true)
        end
  | Closed => (mkCaching None, false)
  | Lagged _ => (mkCaching None, true)
  end.

(** [rpc_sidecar/src/caching_node_client.rs:66-132], [cache_update_loop]: the
    caches after each message, until the channel is closed. *)
Fixpoint cache_update_loop (self : CachingNodeClient)
    (msgs : list (Received * (option BlockIdentifier -> result ClientError (option Block))))
    : list CachingNodeClient :=
  match msgs with
  | [] => []
  | (msg, read) :: msgs =>
      let (self, continue) := cache_update self read msg in
      self :: (if continue then cache_update_loop self msgs else [])
  end.

(** The inner client answers a request for a height, if it answers with a block,
    with the block of that height. *)
Definition answers_by_height (read : option BlockIdentifier -> result ClientError (option Block)) : Prop :=
  forall h block, read (Some (BlockHeight h)) = Ok (Some block) -> block_height block = h.

Definition holds (self : CachingNodeClient) : Prop := is_Some (block_with_signatures_cache self).

Lemma known_at_le (self : CachingNodeClient) (h h' : Z) :
  known_at self h = true -> h' <= h -> known_at self h' = true.
Proof.
  unfold known_at. destruct (block_with_signatures_cache self); [|done].
  rewrite !Z.leb_le. lia.
Qed.

(** A height that is reached is kept until the cache is emptied. *)
Lemma cache_update_keeps (self self' : CachingNodeClient) read (msg : Received) (continue : bool) (h : Z) :
  cache_update self read msg = (self', continue) ->
  known_at self h = true -> holds self' -> known_at self' h = true.
Proof.
  intros Hu Hh [b Hb]. unfold cache_update in Hu. destruct msg as [h'| |n]; simplify_eq; try done.
  destruct (known_at self h') eqn:Hk; [by simplify_eq|].
  destruct (read _) as [[block|]|]; simplify_eq; try done.
  destruct (known_at self (block_height block)) eqn:Hkb; simplify_eq; [done|].
  unfold known_at in *. cbn [block_with_signatures_cache].
  destruct (block_with_signatures_cache self) as [b'|]; [|done].
  rewrite ?Z.leb_le, ?Z.leb_gt in *. lia.
Qed.

(** An announced height is reached, or the cache is empty. *)
Lemma cache_update_reaches (self self' : CachingNodeClient) read (h : Z) (continue : bool) :
  answers_by_height read ->
  cache_update self read (BlockAdded h) = (self', continue) -> holds self' -> known_at self' h = true.
Proof.
  intros Hread Hu [b Hb]. unfold cache_update in Hu. destruct (known_at self h) eqn:Hk; [by simplify_eq|].
  destruct (read _) as [[block|]|] eqn:Hr; simplify_eq; try done.
  apply Hread in Hr as Hh. rewrite Hh, Hk in Hu. simplify_eq.
  unfold known_at. simpl. apply Z.leb_le. lia.
Qed.

Lemma cache_update_loop_keeps (self : CachingNodeClient) msgs (h : Z) (j : nat) (c : CachingNodeClient) :
  known_at self h = true ->
  cache_update_loop self msgs !! j = Some c ->
  (forall k c', (k <= j)%nat -> cache_update_loop self msgs !! k = Some c' -> holds c') ->
  known_at c h = true.
Proof.
  revert self j. induction msgs as [|[msg read] msgs IH]; intros self j Hh Hj Hall; [done|].
  simpl in *. destruct (cache_update self read msg) as [self' continue] eqn:Hu.
  assert (known_at self' h = true) as Hh'.
  { eapply cache_update_keeps; [done|done|]. apply (Hall O); [lia|done]. }
  destruct j as [|j]; simplify_eq/=; [done|]. destruct continue; [|done].
  eapply (IH self' j); [done|done|]. intros k c' Hk Hc'. apply (Hall (S k)); [lia|done].
Qed.

Lemma cache_update_loop_reaches (self : CachingNodeClient) msgs (i j : nat) (h : Z) read (c : CachingNodeClient) :
  Forall (fun m => answers_by_height m.2) msgs ->
  msgs !! i = Some (BlockAdded h, read) -> (i <= j)%nat ->
  cache_update_loop self msgs !! j = Some c ->
  (forall k c', (i <= k <= j)%nat -> cache_update_loop self msgs !! k = Some c' -> holds c') ->
  known_at c h = true.
Proof.
  intros Hmsgs. revert self i j.
  induction Hmsgs as [|[msg rd] msgs Hrd _ IH]; intros self i j Hi Hij Hj Hall; [done|].
  simpl in *. destruct (cache_update self rd msg) as [self' continue] eqn:Hu.
  destruct i as [|i]; simplify_eq/=.
  - assert (known_at self' h = true) as Hh.
    { eapply cache_update_reaches; [done..|]. apply (Hall O); [lia|done]. }
    destruct j as [|j]; simplify_eq/=; [done|]. destruct continue; [|done].
    eapply cache_update_loop_keeps; [done|done|].
    intros k c' Hk Hc'. apply (Hall (S k)); [lia|done].
  - destruct j as [|j]; [lia|]. destruct continue; [|done].
    eapply (IH self' i j); [done|lia|done|].
    intros k c' Hk Hc'. apply (Hall (S k)); [lia|done].
Qed.

(** The cached block is never behind the announcements it was built from:
    once an announcement of a height has been processed, and for as long as the
    cache is not emptied (by a lag, a failed or an empty answer), a reader that
    gets the latest block from the cache gets one of at least that height,
    whatever the interleaving of announcements, repeated and out of order as
    they may be. *)
Theorem cache_never_behind (self : CachingNodeClient) msgs (i j : nat) (h : Z) read (c : CachingNodeClient) :
  Forall (fun m => answers_by_height m.2) msgs ->
  msgs !! i = Some (BlockAdded h, read) -> (i <= j)%nat ->
  cache_update_loop self msgs !! j = Some c ->
  (forall k c', (i <= k <= j)%nat -> cache_update_loop self msgs !! k = Some c' -> holds c') ->
  exists block, read_block_with_signatures true c read None = (Ok (Some block), false) /\
                h <= block_height block.
Proof.
  intros Hmsgs Hi Hij Hj Hall.
  pose proof (cache_update_loop_reaches _ _ _ _ _ _ _ Hmsgs Hi Hij Hj Hall) as Hk.
  unfold known_at in Hk. unfold read_block_with_signatures, get_block_from_cache.
  destruct (block_with_signatures_cache c) as [block|]; [|done].
  exists block. split; [done|]. by apply Z.leb_le.
Qed.

End Cache.

(** Blocks that are their heights. *)
Definition sample_height : HasHeight Z := fun b => b.

Definition sample_read (id : option BlockIdentifier) : result ClientError (option Z) :=
  match id with
  | Some (BlockHeight h) => Ok (Some h)
  | _ => Ok None
  end.

Lemma cache_never_behind_witness :
  exists block,
    read_block_with_signatures true (mkCaching (Some 8)) sample_read None = (Ok (Some block), false) /\
    7 <= block.
Proof.
  apply (cache_never_behind (H := sample_height) CachingNodeClient_new
    [(BlockAdded 8, sample_read); (BlockAdded 7, sample_read)] 1 1 7 sample_read (mkCaching (Some 8))).
  - apply Forall_forall. intros m Hm. assert (m.2 = sample_read) as -> by set_solver.
    intros h block [= <-]. reflexivity.
  - reflexivity.
  - lia.
  - reflexivity.
  - intros k c' Hk Hc'. replace k with 1%nat in Hc' by lia. injection Hc' as <-. by eexists.
Defined.
