(* ===== verification/BTreeMap.v ===== *)
(** * Ordered maps

    [std::collections::BTreeMap] as the sidecar uses it: the entries in the
    order of their keys, which is the order the code iterates over them and the
    order they appear in a response.  The order on keys is the [Ord] trait. *)

From stdpp Require Import sorting.
From S2P Require Import Prelude.

(** [std::cmp::Ord], total and consistent with equality. *)
Class Ord (K : Type) := {
  cmp : K -> K -> comparison;
  cmp_eq (a b : K) : cmp a b = Eq <-> a = b;
  cmp_antisym (a b : K) : cmp b a = CompOpp (cmp a b);
  cmp_trans (a b c : K) : cmp a b = Lt -> cmp b c = Lt -> cmp a c = Lt;
}.

(** [u64] and the other integers. *)
#[export] Instance Ord_Z : Ord Z.
Proof.
  refine {| cmp := Z.compare |}.
  - apply Z.compare_eq_iff.
  - intros a b. apply Z.compare_antisym.
  - intros a b c. rewrite !Z.compare_lt_iff. lia.
Defined.

(** Strings are compared byte by byte. *)
#[export] Instance Ord_string : Ord string.
Proof.
  refine {| cmp := String.compare |}.
  - intros a b. split; [apply String.compare_eq_iff|]. intros <-.
    induction a as [|x a IH]; [done|]. simpl. unfold Ascii.compare. by rewrite N.compare_refl.
  - intros a b. apply String.compare_antisym.
  - intros a. induction a as [|x a IH]; intros [|y b] [|z c]; simpl; try done.
    unfold Ascii.compare. intros H1 H2.
    destruct (N.compare_spec (Ascii.N_of_ascii x) (Ascii.N_of_ascii y)) as [Exy|Hxy|]; [..|done];
      destruct (N.compare_spec (Ascii.N_of_ascii y) (Ascii.N_of_ascii z)) as [Eyz|Hyz|]; try done.
    + rewrite Exy, Eyz, N.compare_refl. eauto.
    + rewrite Exy. by apply N.compare_lt_iff in Hyz as ->.
    + rewrite <- Eyz. by apply N.compare_lt_iff in Hxy as ->.
    + assert (Ascii.N_of_ascii x < Ascii.N_of_ascii z)%N as ->%N.compare_lt_iff by lia. done.
Defined.

(** Tuples are compared from the left. *)
#[export] Instance Ord_prod {A B} `{!Ord A, !Ord B} : Ord (A * B).
Proof.
  refine {| cmp p q := match cmp p.1 q.1 with Eq => cmp p.2 q.2 | c => c end |}.
  - intros [a b] [a' b']. simpl. destruct (cmp a a') eqn:E.
    + apply cmp_eq in E as ->. rewrite cmp_eq. naive_solver.
    + split; [done|]. intros [= -> ->]. by rewrite (proj2 (cmp_eq a' a') eq_refl) in E.
    + split; [done|]. intros [= -> ->]. by rewrite (proj2 (cmp_eq a' a') eq_refl) in E.
  - intros [a b] [a' b']. simpl. rewrite (cmp_antisym a a'). destruct (cmp a a'); simpl; [|done..].
    apply cmp_antisym.
  - intros [a1 b1] [a2 b2] [a3 b3]. simpl. intros H1 H2.
    destruct (cmp a1 a2) eqn:E1; [apply cmp_eq in E1 as ->|..|done].
    + destruct (cmp a2 a3); [eauto using cmp_trans|done..].
    + destruct (cmp a2 a3) eqn:E2; [apply cmp_eq in E2 as ->; by rewrite E1| |done].
      by rewrite (cmp_trans _ _ _ E1 E2).
Defined.

Section Order.
Context {K : Type} {ord : Ord K}.

Definition olt (a b : K) : Prop := cmp a b = Lt.

Lemma cmp_refl (a : K) : cmp a a = Eq.
Proof. by apply cmp_eq. Qed.

Lemma olt_irrefl (a : K) : ~ olt a a.
Proof. unfold olt. by rewrite cmp_refl. Qed.

Lemma cmp_Gt (a b : K) : cmp a b = Gt <-> olt b a.
Proof. unfold olt. rewrite (cmp_antisym a b). by destruct (cmp a b). Qed.

Definition Ord_eq_dec : EqDecision K.
Proof using ord.
  intros a b. refine (match cmp a b as c return cmp a b = c -> _ with Eq => fun H => left _ | _ => fun H => right _ end eq_refl).
  - by apply cmp_eq.
  - intros ->. by rewrite cmp_refl in H.
  - intros ->. by rewrite cmp_refl in H.
Defined.

End Order.

(** ** The map *)

Definition BTreeMap (K V : Type) : Type := list (K * V).

Section Map.
Context {K V : Type} `{!Ord K}.
#[local] Existing Instance Ord_eq_dec.

(** [BTreeMap::get]. *)
Fixpoint get (k : K) (m : BTreeMap K V) : option V :=
  match m with
  | [] => None
  | (k', v) :: m =>
      match cmp k k' with
      | Lt => None
      | Eq => Some v
      | Gt => get k m
      end
  end.

(** [BTreeMap::insert]: a present key keeps its place and gets the new value. *)
Fixpoint insert (k : K) (v : V) (m : BTreeMap K V) : BTreeMap K V :=
  match m with
  | [] => [(k, v)]
  | (k', v') :: m' =>
      match cmp k k' with
      | Lt => (k, v) :: m
      | Eq => (k, v) :: m'
      | Gt => (k', v') :: insert k v m'
      end
  end.

(** [Entry::Occupied] and [get_mut]: a present value is changed in place. *)
Fixpoint modify (f : V -> V) (k : K) (m : BTreeMap K V) : BTreeMap K V :=
  match m with
  | [] => []
  | (k', v') :: m' =>
      match cmp k k' with
      | Lt => m
      | Eq => (k', f v') :: m'
      | Gt => (k', v') :: modify f k m'
      end
  end.

(** [FromIterator]: of the entries with one key the last stays. *)
Definition from_iter (l : list (K * V)) : BTreeMap K V :=
  foldl (fun m e => insert e.1 e.2 m) [] l.

Definition ordered (m : BTreeMap K V) : Prop := StronglySorted (fun a b => olt a.1 b.1) m.

(** The value of the last entry with that key. *)
Fixpoint last_value (k : K) (l : list (K * V)) : option V :=
  match l with
  | [] => None
  | (k', v) :: l =>
      match last_value k l with
      | Some v' => Some v'
      | None => if decide (k = k') then Some v else None
      end
  end.

Lemma get_below (k : K) (m : BTreeMap K V) : Forall (fun e => olt k e.1) m -> get k m = None.
Proof. destruct m as [|[k' v] m]; [done|]. intros [H _]%Forall_cons. simpl in *. by rewrite H. Qed.

Lemma below_trans (k k' : K) (m : BTreeMap K V) :
  olt k k' -> Forall (fun e => olt k' e.1) m -> Forall (fun e => olt k e.1) m.
Proof. intros H Hm. eapply Forall_impl; [exact Hm|]. intros e He. by eapply cmp_trans. Qed.

Lemma ordered_cons (k : K) (v : V) (m : BTreeMap K V) :
  ordered ((k, v) :: m) <-> ordered m /\ Forall (fun e => olt k e.1) m.
Proof. split; [intros H; by inversion H|intros []; by constructor]. Qed.

Lemma insert_below (k k' : K) (v : V) (m : BTreeMap K V) :
  olt k k' -> Forall (fun e => olt k e.1) m -> Forall (fun e => olt k e.1) (insert k' v m).
Proof.
  intros Hk. induction m as [|[k'' v''] m IH]; simpl; intros Hm.
  - by repeat constructor.
  - apply Forall_cons in Hm as [Hk'' Hm]. destruct (cmp k' k''); repeat constructor; auto.
Qed.

Lemma insert_ordered (k : K) (v : V) (m : BTreeMap K V) : ordered m -> ordered (insert k v m).
Proof.
  induction m as [|[k' v'] m IH]; simpl; [by repeat constructor|].
  intros [Hm Hk]%ordered_cons. destruct (cmp k k') eqn:E.
  - apply cmp_eq in E as ->. by apply ordered_cons.
  - apply ordered_cons. split; [by apply ordered_cons|]. constructor; [done|]. by eapply below_trans.
  - apply ordered_cons. split; [by apply IH|]. apply insert_below; [|done]. by apply cmp_Gt.
Qed.

Lemma get_insert (k k' : K) (v : V) (m : BTreeMap K V) :
  get k (insert k' v m) = if decide (k = k') then Some v else get k m.
Proof.
  induction m as [|[k'' v''] m IH]; simpl.
  - case_decide as Hk; [subst; by rewrite cmp_refl|].
    destruct (cmp k k') eqn:E; [|done..]. by apply cmp_eq in E.
  - destruct (cmp k' k'') eqn:E; simpl.
    + apply cmp_eq in E as ->. case_decide as Hk; [subst; by rewrite cmp_refl|].
      destruct (cmp k k'') eqn:E'; [|done..]. by apply cmp_eq in E'.
    + case_decide as Hk; [subst; by rewrite cmp_refl|].
      destruct (cmp k k') eqn:E'; [by apply cmp_eq in E'| |done].
      by rewrite (cmp_trans _ _ _ E' E).
    + rewrite IH. case_decide as Hk; [subst; by rewrite E|done].
Qed.

Lemma from_iter_spec (l : list (K * V)) (m : BTreeMap K V) :
  ordered m ->
  ordered (foldl (fun m e => insert e.1 e.2 m) m l) /\
  forall k, get k (foldl (fun m e => insert e.1 e.2 m) m l) =
            match last_value k l with Some v => Some v | None => get k m end.
Proof.
  revert m. induction l as [|[k' v'] l IH]; intros m Hm; [done|]. simpl.
  destruct (IH (insert k' v' m)) as [Ho Hg]; [by apply insert_ordered|]. split; [done|].
  intros k. rewrite Hg, get_insert. destruct (last_value k l); [done|]. by case_decide.
Qed.

Lemma from_iter_ordered (l : list (K * V)) : ordered (from_iter l).
Proof. apply from_iter_spec. constructor. Qed.

Lemma get_from_iter (k : K) (l : list (K * V)) : get k (from_iter l) = last_value k l.
Proof. unfold from_iter. rewrite (proj2 (from_iter_spec l [] ltac:(constructor))). by destruct (last_value k l). Qed.

Lemma get_elem_of (k : K) (v : V) (m : BTreeMap K V) :
  ordered m -> get k m = Some v <-> (k, v) ∈ m.
Proof.
  induction m as [|[k' v'] m IH]; simpl; intros Hm; [by rewrite elem_of_nil|].
  apply ordered_cons in Hm as [Hm Hk]. rewrite elem_of_cons, <- (IH Hm). destruct (cmp k k') eqn:E.
  - apply cmp_eq in E as ->. rewrite (get_below _ _ Hk). naive_solver.
  - rewrite get_below by (by eapply below_trans). split; [done|]. intros [[= -> ->]|]; [|done].
    by apply olt_irrefl in E.
  - split; [by right|]. intros [[= -> ->]|]; [|done]. by rewrite cmp_refl in E.
Qed.

(** Two maps with the same values are the same entries in the same order. *)
Lemma ordered_ext (m1 m2 : BTreeMap K V) :
  ordered m1 -> ordered m2 -> (forall k, get k m1 = get k m2) -> m1 = m2.
Proof.
  revert m2. induction m1 as [|[k v] m1 IH]; intros [|[k' v'] m2] H1 H2 Hg; [done|..].
  - specialize (Hg k'). simpl in Hg. by rewrite cmp_refl in Hg.
  - specialize (Hg k). simpl in Hg. by rewrite cmp_refl in Hg.
  - apply ordered_cons in H1 as [H1 Hk], H2 as [H2 Hk'].
    assert (k = k') as ->.
    { pose proof (Hg k) as A. pose proof (Hg k') as B. simpl in A, B. rewrite cmp_refl in A, B.
      destruct (cmp k k') eqn:E; [by apply cmp_eq in E|done|].
      apply cmp_Gt in E. red in E. by rewrite E in B. }
    pose proof (Hg k') as A. simpl in A. rewrite cmp_refl in A. simplify_eq.
    f_equal. apply IH; [done..|]. intros j. specialize (Hg j). simpl in Hg.
    destruct (cmp j k') eqn:E; [|..|done].
    + apply cmp_eq in E as ->. by rewrite !get_below.
    + rewrite !get_below; [done|by eapply below_trans..].
Qed.

Lemma ordered_modify (f : V -> V) (k : K) (m : BTreeMap K V) : ordered m -> ordered (modify f k m).
Proof.
  enough (forall m, (modify f k m).*1 = m.*1) as Hkeys.
  { clear -Hkeys. induction m as [|[k' v'] m IH]; [done|]. intros [Hm Hk]%ordered_cons. simpl.
    destruct (cmp k k'); [by apply ordered_cons..|].
    apply ordered_cons. split; [by apply IH|].
    change (Forall (olt k' ∘ fst) (modify f k m)). rewrite <- Forall_fmap, Hkeys. by apply Forall_fmap. }
  intros m'. induction m' as [|[k' v'] m' IH]; simpl; [done|]. destruct (cmp k k'); csimpl; by f_equal.
Qed.

Lemma get_modify (f : V -> V) (k k' : K) (m : BTreeMap K V) :
  get k (modify f k' m) = if decide (k = k') then f <$> get k m else get k m.
Proof.
  induction m as [|[k'' v''] m IH]; simpl; [by case_decide|].
  destruct (cmp k' k'') eqn:E; simpl.
  - apply cmp_eq in E as ->. case_decide as Hk; [subst; by rewrite cmp_refl|].
    destruct (cmp k k'') eqn:E'; [|done..]. by apply cmp_eq in E'.
  - case_decide as Hk; [subst; by rewrite E|done].
  - rewrite IH. case_decide as Hk; [subst; by rewrite E|done].
Qed.

(** [iter().filter_map(..)] that keeps the keys: what was ordered stays so. *)
Lemma ordered_omap {W} (f : K -> V -> option W) (m : BTreeMap K V) :
  ordered m ->
  StronglySorted (fun a b : K * W => olt a.1 b.1) (omap (fun e => (fun w => (e.1, w)) <$> f e.1 e.2) m).
Proof.
  induction m as [|[k v] m IH]; [constructor|]. intros [Hm Hk]%ordered_cons. csimpl.
  destruct (f k v) as [w|]; simpl; [|by apply IH]. constructor; [by apply IH|].
  apply Forall_forall. intros [k' w'] (e & He & He')%list_elem_of_omap.
  rewrite Forall_forall in Hk. specialize (Hk e He). destruct (f e.1 e.2); simplify_eq/=. done.
Qed.

(** Collecting entries that are in order already. *)
Lemma from_iter_id (m : BTreeMap K V) : ordered m -> from_iter m = m.
Proof.
  intros Hm. apply ordered_ext; [apply from_iter_ordered|done|]. intros k. rewrite get_from_iter.
  induction m as [|[k' v] m IH]; [done|]. apply ordered_cons in Hm as [Hm Hk]. simpl. rewrite (IH Hm).
  destruct (cmp k k') eqn:E.
  - apply cmp_eq in E as ->. rewrite get_below by done. by rewrite decide_True.
  - rewrite get_below by (by eapply below_trans). rewrite decide_False; [done|].
    intros ->. by rewrite cmp_refl in E.
  - destruct (get k m); [done|]. rewrite decide_False; [done|]. intros ->. by rewrite cmp_refl in E.
Qed.

Lemma from_iter_app (l1 l2 : list (K * V)) :
  from_iter (l1 ++ l2) = foldl (fun m e => insert e.1 e.2 m) (from_iter l1) l2.
Proof. apply foldl_app. Qed.

Lemma last_value_app (k : K) (l1 l2 : list (K * V)) :
  last_value k (l1 ++ l2) = match last_value k l2 with Some v => Some v | None => last_value k l1 end.
Proof.
  induction l1 as [|[k' v] l1 IH]; simpl; [by destruct (last_value k l2)|].
  rewrite IH. by destruct (last_value k l2).
Qed.

End Map.

Section MapValues.
Context {K V W : Type} `{!Ord K}.

(** [iter().map(..)] that keeps the keys. *)
Definition map_values (f : V -> W) (m : BTreeMap K V) : BTreeMap K W :=
  List.map (fun e => (e.1, f e.2)) m.

Lemma get_map_values (f : V -> W) (k : K) (m : BTreeMap K V) : get k (map_values f m) = f <$> get k m.
Proof. induction m as [|[k' v] m IH]; simpl; [done|]. by destruct (cmp k k'). Qed.

Lemma ordered_map_values (f : V -> W) (m : BTreeMap K V) : ordered m -> ordered (map_values f m).
Proof.
  induction m as [|[k v] m IH]; [constructor|]. intros [Hm Hk]%ordered_cons. simpl.
  apply ordered_cons. split; [by apply IH|]. unfold map_values.
  apply Forall_map. exact Hk.
Qed.

Lemma from_iter_map_values (f : V -> W) (m : BTreeMap K V) :
  ordered m -> from_iter (map_values f m) = map_values f m.
Proof. intros Hm. by apply from_iter_id, ordered_map_values. Qed.

End MapValues.

#[export] Hint Resolve from_iter_ordered insert_ordered ordered_modify : btree.

(** ** Sorting a vector *)

Section Sort.
Context {K : Type} `{!Ord K}.

Definition ole (a b : K) : Prop := cmp a b <> Gt.

#[export] Instance ole_dec (a b : K) : Decision (ole a b).
Proof. unfold ole. apply _. Defined.

#[export] Instance ole_total : Total ole.
Proof. intros a b. unfold ole. rewrite (cmp_antisym a b). destruct (cmp a b); simpl; naive_solver. Qed.

#[export] Instance ole_trans : Transitive ole.
Proof.
  intros a b c. unfold ole. destruct (cmp a b) eqn:E1; [apply cmp_eq in E1 as ->; done| |done].
  destruct (cmp b c) eqn:E2; [apply cmp_eq in E2 as ->; by rewrite E1| |done].
  by rewrite (cmp_trans _ _ _ E1 E2).
Qed.

#[export] Instance ole_antisymm : AntiSymm (=) ole.
Proof.
  intros a b. unfold ole. rewrite (cmp_antisym a b). destruct (cmp a b) eqn:E; simpl; try done.
  intros. by apply cmp_eq.
Qed.

(** [Vec::sort]. *)
Definition vec_sort (l : list K) : list K := merge_sort ole l.

Lemma vec_sort_spec (l : list K) : StronglySorted ole (vec_sort l) /\ vec_sort l ≡ₚ l.
Proof. split; [apply (StronglySorted_merge_sort _)|apply merge_sort_Permutation]. Qed.

(** The result does not depend on the order of the input. *)
Lemma vec_sort_unique (l1 l2 : list K) : l1 ≡ₚ l2 -> vec_sort l1 = vec_sort l2.
Proof.
  intros Hp. destruct (vec_sort_spec l1) as [S1 P1], (vec_sort_spec l2) as [S2 P2].
  apply (StronglySorted_unique ole); [done..|]. by rewrite P1, P2.
Qed.

End Sort.
