(* ===== verification/Casper.v ===== *)
(** * The types of the node

    What the RPC handlers use of the crates [casper_types] and
    [casper_binary_port].  Values the code only passes on are opaque types of
    the class [CasperTypes], with the conversions and accessors the code calls
    as its operations.  Types the code builds or takes apart by constructor or
    by field are declared here with the constructors and fields it uses.

    A serialisation the code unwraps with [expect] (the conversion of an
    information request, the bytes of a block hash) is a total operation. *)

From S2P Require Import Prelude Json BTreeMap NodeErrors NodeClient CachingClient.

(** Hashes of blocks are printed as text, as in [BlockIdentifier]. *)
Definition BlockHash : Type := string.

(** Era identifiers ([u64]), motes ([U512]) and times in milliseconds. *)
Definition EraId : Type := Z.
Definition U512 : Type := Z.
Definition TimeDiff : Type := Z.
Definition Timestamp : Type := Z.
Definition BlockTime : Type := Z.

Class CasperTypes := {
  PublicKey : Type;
  AccountHash : Type;
  EntityAddr : Type;
  URef : Type;
  HashAddr : Type;
  DictionaryAddr : Type;
  ContractHash : Type;
  PackageHash : Type;
  ContractPackageHash : Type;
  AddressableEntityHash : Type;
  Digest : Type;
  DeployHash : Type;
  TransactionHash : Type;
  Deploy : Type;
  TransactionV1 : Type;
  Key : Type;
  KeyTag : Type;
  StoredValue : Type;
  TrieMerkleProof : Type;
  NamedKeyValue : Type;
  EntryPointValue : Type;
  CLValue : Type;
  Block : Type;
  BlockSignatures : Type;
  JsonBlockWithSignatures : Type;
  BlockHeader : Type;
  Transfer : Type;
  ExecutionInfo : Type;
  Peers : Type;
  ValidatorChange : Type;
  ChainspecRawBytes : Type;
  AvailableBlockRange : Type;
  ProtocolVersion : Type;
  MinimalBlockInfo : Type;
  NextUpgrade : Type;
  BlockSynchronizerStatus : Type;
  ReactorState : Type;
  Account : Type;
  AddressableEntity : Type;
  ByteCode : Type;
  Contract : Type;
  ContractWasm : Type;
  Package : Type;
  ContractPackage : Type;
  BalanceHoldAddrTag : Type;
  SpeculativeExecutionResult : Type;
  (** The orders of the keys of maps and of the items of sorted vectors. *)
  #[global] PublicKey_ord :: Ord PublicKey;
  #[global] ValidatorChange_ord :: Ord ValidatorChange;
}.

Section Types.
Context `{CasperTypes}.

(** [casper_types::Transaction]. *)
Inductive Transaction :=
| TxDeploy (deploy : Deploy)
| TxV1 (transaction : TransactionV1).

(** [casper_types::GlobalStateIdentifier]. *)
Inductive GlobalStateIdentifier :=
| StateBlockHash (hash : BlockHash)
| StateBlockHeight (height : Z)
| StateRootHash (digest : Digest).

(** [BlockWithSignatures], whose [into_inner] gives these parts. *)
Record BlockWithSignatures := mkBlock {
  block : Block;
  block_signatures : BlockSignatures;
}.

(** [GlobalStateQueryResult::into_inner]. *)
Record GlobalStateQueryResult := mkQueryResult {
  query_value : StoredValue;
  query_proof : list TrieMerkleProof;
}.

(** [DictionaryQueryResult::into_inner]. *)
Record DictionaryQueryResult := mkDictionaryResult {
  dictionary_key : Key;
  dictionary_result : GlobalStateQueryResult;
}.

(** [ValueWithProof::into_inner]. *)
Record ValueWithProof (T : Type) := mkWithProof {
  proved : T;
  proof : list TrieMerkleProof;
}.

(** [TransactionWithExecutionInfo::into_inner]. *)
Record TransactionWithExecutionInfo := mkTransactionInfo {
  info_transaction : Transaction;
  info_execution : option ExecutionInfo;
}.

(** [AccountInformation::into_inner]. *)
Record AccountInformation := mkAccountInfo {
  info_account : Account;
  info_account_proof : list TrieMerkleProof;
}.

(** [AddressableEntityInformation::into_inner]. *)
Record AddressableEntityInformation := mkEntityInfo {
  info_addr : EntityAddr;
  info_entity : ValueWithProof AddressableEntity;
  info_bytecode : option (ValueWithProof ByteCode);
}.

(** [ContractInformation::into_inner]. *)
Record ContractInformation := mkContractInfo {
  info_contract_hash : ContractHash;
  info_contract : ValueWithProof Contract;
  info_wasm : option (ValueWithProof ContractWasm);
}.

(** [BalanceResponse]. *)
Record BalanceResponse := mkBalance {
  total_balance : U512;
  available_balance : U512;
  total_balance_proof : TrieMerkleProof;
  balance_holds : BTreeMap BlockTime (BTreeMap BalanceHoldAddrTag (U512 * TrieMerkleProof));
}.

(** [RewardResponse], by its accessors. *)
Record RewardResponse := mkReward {
  reward_amount : U512;
  reward_era_id : EraId;
  reward_delegation_rate : Z;
  reward_switch_block_hash : BlockHash;
}.

(** [GetTrieFullResult::into_inner]. *)
Record GetTrieFullResult := mkTrie { trie_bytes : option (list Z) }.

(** [ConsensusValidatorChanges], as the map it converts into. *)
Record ConsensusValidatorChanges := mkChanges {
  validator_changes : BTreeMap PublicKey (list (EraId * ValidatorChange));
}.

(** [NodeStatus]. *)
Record NodeStatus := mkStatus {
  ns_protocol_version : ProtocolVersion;
  ns_peers : Peers;
  ns_build_version : string;
  ns_chainspec_name : string;
  ns_starting_state_root_hash : Digest;
  ns_last_added_block_info : option MinimalBlockInfo;
  ns_our_public_signing_key : option PublicKey;
  ns_round_length : option TimeDiff;
  ns_next_upgrade : option NextUpgrade;
  ns_uptime : TimeDiff;
  ns_reactor_state : ReactorState;
  ns_last_progress : Timestamp;
  ns_available_block_range : AvailableBlockRange;
  ns_block_sync : BlockSynchronizerStatus;
  ns_latest_switch_block_hash : option BlockHash;
}.

(** *** Identifiers of the binary port *)

(** [casper_binary_port::EraIdentifier]. *)
Inductive PortEraIdentifier :=
| PortEra (era : EraId)
| PortBlock (block : BlockIdentifier).

(** [casper_binary_port::PurseIdentifier]. *)
Inductive PortPurseIdentifier :=
| PortPursePublicKey (key : PublicKey)
| PortPurseAccount (account : AccountHash)
| PortPurseEntity (entity : EntityAddr)
| PortPurse (uref : URef).

(** [casper_binary_port::EntityIdentifier]. *)
Inductive PortEntityIdentifier :=
| PortContractHash (hash : ContractHash)
| PortPublicKey (key : PublicKey)
| PortAccountHash (hash : AccountHash)
| PortEntityAddr (addr : EntityAddr).

(** [casper_binary_port::PackageIdentifier]. *)
Inductive PortPackageIdentifier :=
| PortPackageAddr (addr : HashAddr)
| PortContractPackageHash (hash : ContractPackageHash).

(** [DictionaryItemIdentifier]. *)
Inductive DictionaryItemIdentifier :=
| DictAccountNamedKey (hash : AccountHash) (dictionary_name dictionary_item_key : string)
| DictContractNamedKey (hash : HashAddr) (dictionary_name dictionary_item_key : string)
| DictEntityNamedKey (addr : EntityAddr) (dictionary_name dictionary_item_key : string)
| DictURef (seed_uref : URef) (dictionary_item_key : string)
| DictionaryItem (addr : DictionaryAddr).

(** [KeyPrefix]. *)
Inductive KeyPrefix :=
| NamedKeysByEntity (addr : EntityAddr)
| EntryPointsV1ByEntity (addr : EntityAddr)
| EntryPointsV2ByEntity (addr : EntityAddr).

(** [DelegatorKind], of which the reward request builds one variant. *)
Inductive RewardDelegator :=
| RewardDelegatorPublicKey (key : PublicKey).

(** *** Requests *)

(** [InformationRequest]. *)
Inductive InformationRequest :=
| InfoBlockHeader (block_identifier : option BlockIdentifier)
| InfoBlockWithSignatures (block_identifier : option BlockIdentifier)
| InfoTransaction (hash : TransactionHash) (with_finalized_approvals : bool)
| InfoPeers
| InfoAvailableBlockRange
| InfoChainspecRawBytes
| InfoConsensusValidatorChanges
| InfoLatestSwitchBlockHeader
| InfoNodeStatus
| InfoReward (era_identifier : option PortEraIdentifier) (validator : PublicKey)
    (delegator : option RewardDelegator)
| InfoPackage (state_identifier : option GlobalStateIdentifier) (identifier : PortPackageIdentifier)
| InfoEntity (state_identifier : option GlobalStateIdentifier) (identifier : PortEntityIdentifier)
    (include_bytecode : bool).

(** [GlobalStateEntityQualifier]. *)
Inductive GlobalStateEntityQualifier :=
| Item (base_key : Key) (path : list string)
| AllItems (key_tag : KeyTag)
| ItemsByPrefix (key_prefix : KeyPrefix)
| Balance (purse_identifier : PortPurseIdentifier)
| DictionaryItemQuery (identifier : DictionaryItemIdentifier).

(** [RecordId]. *)
Inductive RecordId :=
| RecordTransfer.

(** [GetRequest]; an information request is kept as it was before its
    conversion. *)
Inductive GetRequest :=
| GetRecord (record_type_tag : RecordId) (key : list Z)
| GetInformation (info : InformationRequest)
| GetState (state_identifier : option GlobalStateIdentifier) (qualifier : GlobalStateEntityQualifier)
| GetTrie (trie_key : Digest).

(** [Command]. *)
Inductive Request :=
| Get (get : GetRequest)
| TryAcceptTransaction (transaction : Transaction)
| TrySpeculativeExec (transaction : Transaction).

End Types.

Arguments mkWithProof {_ _} _ _.
Arguments proved {_ _} _.
Arguments proof {_ _} _.

(** The operations of [casper_types] the code calls, and the text of the errors
    it prints. *)
Class CasperOps `{CasperTypes} := {
  Deploy_hash : Deploy -> DeployHash;
  Transaction_hash : Transaction -> TransactionHash;
  TransactionHash_from : DeployHash -> TransactionHash;
  DeployHash_to_string : DeployHash -> string;
  TransactionHash_to_string : TransactionHash -> string;
  KeyTag_to_string : KeyTag -> string;
  BlockHash_to_bytes : BlockHash -> list Z;
  header_block_hash : BlockHeader -> BlockHash;
  header_era_id : BlockHeader -> EraId;
  header_height : BlockHeader -> Z;
  header_state_root_hash : BlockHeader -> Digest;
  header_is_switch_block : BlockHeader -> bool;
  header_protocol_major : BlockHeader -> Z;
  JsonBlockWithSignatures_new : Block -> option BlockSignatures -> JsonBlockWithSignatures;
  GlobalStateIdentifier_from : BlockIdentifier -> GlobalStateIdentifier;
  ReactorState_into_inner : ReactorState -> string;
  PublicKey_to_account_hash : PublicKey -> AccountHash;
  PackageHash_value : PackageHash -> HashAddr;
  AddressableEntityHash_value : AddressableEntityHash -> HashAddr;
  (** [AccountHash::from_formatted_str] and its like, with the error printed. *)
  AccountHash_from_formatted_str : string -> result string AccountHash;
  EntityAddr_from_formatted_str : string -> result string EntityAddr;
  URef_from_formatted_str : string -> result string URef;
  Key_from_formatted_str : string -> result string Key;
  Key_to_formatted_string : Key -> string;
  Key_into_hash_addr : Key -> option HashAddr;
  Key_as_dictionary : Key -> option DictionaryAddr;
  Key_EraSummary : Key;
  Key_EraInfo : EraId -> Key;
  Key_Account : AccountHash -> Key;
  Key_Hash : HashAddr -> Key;
  Key_SystemEntityRegistry : Key;
  Key_system_entity : AddressableEntityHash -> Key;
  KeyTag_Bid : KeyTag;
  KeyTag_BidAddr : KeyTag;
  StoredValue_into_account : StoredValue -> option Account;
  StoredValue_into_cl_value : StoredValue -> option CLValue;
  StoredValue_as_named_key : StoredValue -> option NamedKeyValue;
  StoredValue_as_entry_point : StoredValue -> option EntryPointValue;
  StoredValue_type_name : StoredValue -> string;
  NamedKeyValue_get_key : NamedKeyValue -> result string Key;
  NamedKeyValue_get_name : NamedKeyValue -> result string string;
  (** [bytesrepr] of a vector of proofs and [base16::encode_lower]. *)
  proofs_to_bytes : list TrieMerkleProof -> result string (list Z);
  encode_lower : list Z -> string;
}.
