(* ===== verification/CasperSample.v ===== *)
(** * Sample values of the node

    Concrete types and operations for the classes [CasperTypes] and [CasperOps],
    on which the definitions of the RPC component can be evaluated: identifiers,
    hashes and opaque values are numbers. *)

From S2P Require Import Prelude Json NodeErrors NodeClient CachingClient BTreeMap Casper.

Module SampleTypes.

(** A header: height, era, state root, switch block, major version. *)
Record Header := mkHeader {
  h_height : Z;
  h_era : Z;
  h_root : Z;
  h_switch : bool;
  h_major : Z;
}.

(** The values of the global state. *)
Inductive Stored :=
| StoredAccount (account : Z)
| StoredCl (value : list Z)
| StoredNamedKey (name : string) (key : Z)
| StoredEntryPoint (entry_point : Z).

#[export] Instance types : CasperTypes := {|
  PublicKey := Z; AccountHash := Z; EntityAddr := Z; URef := Z; HashAddr := Z; DictionaryAddr := Z;
  ContractHash := Z; PackageHash := Z; ContractPackageHash := Z; AddressableEntityHash := Z;
  Digest := Z; DeployHash := Z; TransactionHash := Z; Deploy := Z; TransactionV1 := Z;
  Key := Z; KeyTag := Z; StoredValue := Stored; TrieMerkleProof := Z; NamedKeyValue := string * Z;
  EntryPointValue := Z; CLValue := list Z; Block := Z; BlockSignatures := Z;
  JsonBlockWithSignatures := Z * option Z; BlockHeader := Header; Transfer := Z; ExecutionInfo := Z;
  Peers := Z; ValidatorChange := Z; ChainspecRawBytes := Z; AvailableBlockRange := Z * Z;
  ProtocolVersion := Z; MinimalBlockInfo := Z; NextUpgrade := Z; BlockSynchronizerStatus := Z;
  ReactorState := string; Account := Z; AddressableEntity := Z; ByteCode := Z; Contract := Z;
  ContractWasm := Z; Package := Z; ContractPackage := Z; BalanceHoldAddrTag := Z;
  SpeculativeExecutionResult := Z;
|}.

(** A formatted string is its prefix followed by the letters of the value. *)
Definition from_formatted (prefix s : string) : result string Z :=
  if String.prefix prefix s then Ok (Z.of_nat (String.length s - String.length prefix))
  else Err ("expected " +:+ prefix).

#[export] Instance ops : CasperOps := {|
  Deploy_hash d := d + 1;
  Transaction_hash t := match t with TxDeploy d => (d : Z) + 1 | TxV1 t => (t : Z) + 2 end;
  TransactionHash_from h := h;
  DeployHash_to_string h := pretty (h : Z);
  TransactionHash_to_string h := pretty (h : Z);
  KeyTag_to_string t := pretty (t : Z);
  BlockHash_to_bytes h := [Z.of_nat (String.length h)];
  header_block_hash h := "block-" +:+ pretty (h_height h);
  header_era_id := h_era;
  header_height := h_height;
  header_state_root_hash := h_root;
  header_is_switch_block := h_switch;
  header_protocol_major := h_major;
  JsonBlockWithSignatures_new b s := (b, s);
  GlobalStateIdentifier_from id :=
    match id with CachingClient.BlockHash h => StateBlockHash h | BlockHeight h => StateBlockHeight h end;
  ReactorState_into_inner s := s;
  PublicKey_to_account_hash k := k;
  PackageHash_value h := h;
  AddressableEntityHash_value h := h;
  AccountHash_from_formatted_str := from_formatted "account-hash-";
  EntityAddr_from_formatted_str := from_formatted "entity-";
  URef_from_formatted_str := from_formatted "uref-";
  Key_from_formatted_str := from_formatted "hash-";
  Key_to_formatted_string k := "hash-" +:+ pretty (k : Z);
  Key_into_hash_addr k := Some k;
  Key_as_dictionary k := Some k;
  Key_EraSummary := 1;
  Key_EraInfo era := 100 + era;
  Key_Account a := 1000 + (a : Z);
  Key_Hash h := 2000 + (h : Z);
  Key_SystemEntityRegistry := 2;
  Key_system_entity h := 3000 + (h : Z);
  KeyTag_Bid := 4;
  KeyTag_BidAddr := 15;
  StoredValue_into_account v := match v with StoredAccount a => Some a | _ => None end;
  StoredValue_into_cl_value v := match v with StoredCl v => Some v | _ => None end;
  StoredValue_as_named_key v := match v with StoredNamedKey name key => Some (name, key) | _ => None end;
  StoredValue_as_entry_point v := match v with StoredEntryPoint e => Some e | _ => None end;
  StoredValue_type_name v :=
    match v with
    | StoredAccount _ => "Account" | StoredCl _ => "CLValue"
    | StoredNamedKey _ _ => "NamedKey" | StoredEntryPoint _ => "EntryPoint"
    end;
  NamedKeyValue_get_key n := Ok n.2;
  NamedKeyValue_get_name n := Ok n.1;
  proofs_to_bytes l := Ok l;
  encode_lower l := String.concat "," (List.map pretty l);
|}.

End SampleTypes.
