(* ===== verification/RpcErrors.v ===== *)
(** * Errors of the RPC handlers ([rpc_sidecar/src/rpcs/error.rs], [error_code.rs])

    The error codes of the RPC methods, the errors the handlers raise, and the
    error object a client receives for each. *)

From S2P Require Import Prelude Json JsonRpc NodeErrors CachingClient BTreeMap NodeClient Casper.
From S2P Require Import CasperSample.

(** ** Error codes *)

Module RpcCode.

(** [rpc_sidecar/src/rpcs/error_code.rs:9-66], [ErrorCode]. *)
Inductive ErrorCode : Set :=
| NoSuchDeploy
| NoSuchBlock
| FailedToParseQueryKey
| QueryFailed
| QueryFailedToExecute
| FailedToParseGetBalanceURef
| FailedToGetBalance
| GetBalanceFailedToExecute
| InvalidDeploy
| NoSuchAccount
| FailedToGetDictionaryURef
| FailedToGetTrie
| NoSuchStateRoot
| NoMainPurse
| NoSuchTransaction
| VariantMismatch
| InvalidTransaction
| InvalidBlock
| NodeRequestFailed
| FunctionIsDisabled
| NoSuchAddressableEntity
| AccountMigratedToEntity
| NoRewardsFound
| SwitchBlockNotFound
| SwitchBlockParentNotFound
| UnsupportedRewardsV1Request
| PurseNotFound.

#[export] Instance ErrorCode_eq_dec : EqDecision ErrorCode.
Proof. solve_decision. Defined.

End RpcCode.

Section Codes.
Import RpcCode.

(** The discriminants of [ErrorCode], [error_code as i64]. *)
Definition discriminant (error_code : ErrorCode) : Z :=
  match error_code with
  | NoSuchDeploy => -32000
  | NoSuchBlock => -32001
  | FailedToParseQueryKey => -32002
  | QueryFailed => -32003
  | QueryFailedToExecute => -32004
  | FailedToParseGetBalanceURef => -32005
  | FailedToGetBalance => -32006
  | GetBalanceFailedToExecute => -32007
  | InvalidDeploy => -32008
  | NoSuchAccount => -32009
  | FailedToGetDictionaryURef => -32010
  | FailedToGetTrie => -32011
  | NoSuchStateRoot => -32012
  | NoMainPurse => -32013
  | NoSuchTransaction => -32014
  | VariantMismatch => -32015
  | InvalidTransaction => -32016
  | InvalidBlock => -32017
  | NodeRequestFailed => -32018
  | FunctionIsDisabled => -32019
  | NoSuchAddressableEntity => -32020
  | AccountMigratedToEntity => -32021
  | NoRewardsFound => -32022
  | SwitchBlockNotFound => -32023
  | SwitchBlockParentNotFound => -32024
  | UnsupportedRewardsV1Request => -32025
  | PurseNotFound => -32026
  end.

(** [rpc_sidecar/src/rpcs/error_code.rs:68-117], [From<ErrorCode> for (i64, &'static str)]. *)
Definition ErrorCode_into (error_code : ErrorCode) : Z * string :=
  match error_code with
  | NoSuchDeploy => (discriminant error_code, "No such deploy")
  | NoSuchBlock => (discriminant error_code, "No such block")
  | FailedToParseQueryKey => (discriminant error_code, "Failed to parse query key")
  | QueryFailed => (discriminant error_code, "Query failed")
  | QueryFailedToExecute => (discriminant error_code, "Query failed to execute")
  | FailedToParseGetBalanceURef => (discriminant error_code, "Failed to parse get-balance URef")
  | FailedToGetBalance => (discriminant error_code, "Failed to get balance")
  | GetBalanceFailedToExecute => (discriminant error_code, "get-balance failed to execute")
  | InvalidDeploy => (discriminant error_code, "Invalid Deploy")
  | NoSuchAccount => (discriminant error_code, "No such account")
  | FailedToGetDictionaryURef => (discriminant error_code, "Failed to get dictionary URef")
  | FailedToGetTrie => (discriminant error_code, "Failed to get trie")
  | NoSuchStateRoot => (discriminant error_code, "No such state root")
  | NoMainPurse => (discriminant error_code, "Failed to get main purse")
  | NoSuchTransaction => (discriminant error_code, "No such transaction")
  | VariantMismatch => (discriminant error_code, "Variant mismatch internal error")
  | InvalidTransaction => (discriminant error_code, "Invalid transaction")
  | InvalidBlock => (discriminant error_code, "Invalid block")
  | NodeRequestFailed => (discriminant error_code, "Node request failure")
  | FunctionIsDisabled => (discriminant error_code, "Function needed to execute this request is disabled")
  | NoSuchAddressableEntity => (discriminant error_code, "No such addressable entity")
  | AccountMigratedToEntity => (discriminant error_code, "Account migrated to an addressable entity")
  | NoRewardsFound => (discriminant error_code, "No rewards found")
  | SwitchBlockNotFound => (discriminant error_code, "Switch block not found")
  | SwitchBlockParentNotFound => (discriminant error_code, "Switch block parent not found")
  | UnsupportedRewardsV1Request => (discriminant error_code, "Cannot serve rewards stored in V1 format")
  | PurseNotFound => (discriminant error_code, "Purse not found")
  end.

End Codes.

(** [impl ErrorCodeT for ErrorCode]: the default [is_reserved] is [false]. *)
#[export] Instance ErrorCodeT_ErrorCode : ErrorCodeT RpcCode.ErrorCode :=
  {| into_code := ErrorCode_into; is_reserved := false |}.

(** ** Errors *)

Module RpcErr.
Section Error.
Context `{CasperTypes}.

(** [rpc_sidecar/src/rpcs/error.rs:10-68], [Error]; errors of other crates are
    kept as the text they print. *)
Inductive Error :=
| NodeRequest (what : string) (err : ClientError)
| NoBlockFound (identifier : option BlockIdentifier) (range : AvailableBlockRange)
| NoTransactionWithHash (hash : TransactionHash)
| NoDeployWithHash (hash : DeployHash)
| FoundTransactionInsteadOfDeploy
| GlobalStateEntryNotFound
| InvalidPurseURef (error : string)
| InvalidDictionaryKey (error : string)
| InvalidTypeUnderDictionaryKey (error : string)
| DictionaryKeyNotFound
| DictionaryNameNotFound
| MainPurseNotFound
| AccountNotFound
| AddressableEntityNotFound
| RewardNotFound
| AccountMigratedToEntity
| DictionaryValueIsNotAUref (tag : KeyTag)
| DictionaryKeyCouldNotBeParsed (error : string)
| InvalidTransaction (error : InvalidTransactionOrDeploy)
| InvalidDeploy (error : InvalidTransactionOrDeploy)
| InvalidPurseBalance
| InvalidAccountInfo
| InvalidAddressableEntity
| InvalidAuctionState
| InvalidNamedKeys (error : string)
| InvalidEntryPoints (error : string)
| SpecExecReturnedNothing
| BytesreprFailure (error : string).

End Error.
End RpcErr.

(** [rpc_sidecar/src/rpcs/common.rs:29-40], [ErrorData]. *)
Inductive ErrorData `{CasperTypes} :=
| MissingBlockOrStateRoot (message : string) (available_block_range : AvailableBlockRange).

Section Into.
Context `{CasperOps}.
(** The JSON of an [AvailableBlockRange]. *)
Context `{!Serialize AvailableBlockRange}.

(** The derived [Serialize] of the untagged [ErrorData]: an object with the two
    fields. *)
#[export] Instance Serialize_ErrorData : Serialize ErrorData := fun d =>
  match d with
  | MissingBlockOrStateRoot message range =>
      let? range := to_value range in
      Ok (VObject [("message", VString message); ("available_block_range", range)])
  end.

(** [rpc_sidecar/src/rpcs/error.rs:12-67], [Display for Error]: the texts of the
    [#[error]] attributes. *)
Definition Error_to_string (e : RpcErr.Error) : string :=
  match e with
  | RpcErr.NodeRequest what err =>
      "request for " +:+ what +:+ " has failed: " +:+ ClientError_to_string err
  | RpcErr.NoBlockFound _ _ => "no block found for the provided identifier"
  | RpcErr.NoTransactionWithHash hash => "no transaction for hash " +:+ TransactionHash_to_string hash
  | RpcErr.NoDeployWithHash hash => "no deploy for hash " +:+ DeployHash_to_string hash
  | RpcErr.FoundTransactionInsteadOfDeploy => "found a transaction when searching for a deploy"
  | RpcErr.GlobalStateEntryNotFound => "value was not found in the global state"
  | RpcErr.InvalidPurseURef error => "the requested purse URef was invalid: " +:+ error
  | RpcErr.InvalidDictionaryKey error => "the provided dictionary key was invalid: " +:+ error
  | RpcErr.InvalidTypeUnderDictionaryKey error =>
      "the provided dictionary key points at an unexpected type: " +:+ error
  | RpcErr.DictionaryKeyNotFound => "the provided dictionary key doesn't exist"
  | RpcErr.DictionaryNameNotFound => "the provided dictionary name doesn't exist"
  | RpcErr.MainPurseNotFound => "the requested main purse was not found"
  | RpcErr.AccountNotFound => "the requested account was not found"
  | RpcErr.AddressableEntityNotFound => "the requested addressable entity was not found"
  | RpcErr.RewardNotFound => "the requested reward was not found"
  | RpcErr.AccountMigratedToEntity =>
      "the requested account has been migrated to an addressable entity"
  | RpcErr.DictionaryValueIsNotAUref tag =>
      "the provided dictionary value is " +:+ KeyTag_to_string tag +:+ " instead of a URef"
  | RpcErr.DictionaryKeyCouldNotBeParsed error =>
      "the provided dictionary key could not be parsed: " +:+ error
  | RpcErr.InvalidTransaction error =>
      "the transaction was invalid: " +:+ InvalidTransactionOrDeploy_to_string error
  | RpcErr.InvalidDeploy error =>
      "the deploy was invalid: " +:+ InvalidTransactionOrDeploy_to_string error
  | RpcErr.InvalidPurseBalance => "the requested purse balance could not be parsed"
  | RpcErr.InvalidAccountInfo => "the requested account info could not be parsed"
  | RpcErr.InvalidAddressableEntity => "the requested addressable entity could not be parsed"
  | RpcErr.InvalidAuctionState => "the auction state was invalid"
  | RpcErr.InvalidNamedKeys error => "the named keys were invalid: " +:+ error
  | RpcErr.InvalidEntryPoints error => "the entry points were invalid: " +:+ error
  | RpcErr.SpecExecReturnedNothing => "speculative execution returned nothing"
  | RpcErr.BytesreprFailure error => "unexpected bytesrepr failure: " +:+ error
  end.

(** [rpc_sidecar/src/rpcs/error.rs:70-123], [Error::code]. *)
Definition Error_code (e : RpcErr.Error) : option RpcCode.ErrorCode :=
  match e with
  | RpcErr.NoBlockFound _ _ => Some RpcCode.NoSuchBlock
  | RpcErr.NoTransactionWithHash _ => Some RpcCode.NoSuchTransaction
  | RpcErr.NoDeployWithHash _ => Some RpcCode.NoSuchDeploy
  | RpcErr.FoundTransactionInsteadOfDeploy => Some RpcCode.VariantMismatch
  | RpcErr.NodeRequest _ ClientError.UnknownStateRootHash => Some RpcCode.NoSuchStateRoot
  | RpcErr.GlobalStateEntryNotFound => Some RpcCode.QueryFailed
  | RpcErr.NodeRequest _ ClientError.QueryFailedToExecute => Some RpcCode.QueryFailedToExecute
  | RpcErr.NodeRequest _ ClientError.FunctionIsDisabled => Some RpcCode.FunctionIsDisabled
  | RpcErr.NodeRequest _ ClientError.SwitchBlockNotFound => Some RpcCode.SwitchBlockNotFound
  | RpcErr.NodeRequest _ ClientError.SwitchBlockParentNotFound =>
      Some RpcCode.SwitchBlockParentNotFound
  | RpcErr.NodeRequest _ ClientError.UnsupportedRewardsV1Request =>
      Some RpcCode.UnsupportedRewardsV1Request
  | RpcErr.NodeRequest _ ClientError.PurseNotFound => Some RpcCode.PurseNotFound
  | RpcErr.InvalidPurseURef _ => Some RpcCode.FailedToParseGetBalanceURef
  | RpcErr.InvalidDictionaryKey _ => Some RpcCode.FailedToParseQueryKey
  | RpcErr.MainPurseNotFound => Some RpcCode.NoMainPurse
  | RpcErr.AccountNotFound => Some RpcCode.NoSuchAccount
  | RpcErr.AddressableEntityNotFound => Some RpcCode.NoSuchAddressableEntity
  | RpcErr.RewardNotFound => Some RpcCode.NoRewardsFound
  | RpcErr.AccountMigratedToEntity => Some RpcCode.AccountMigratedToEntity
  | RpcErr.InvalidTypeUnderDictionaryKey _
  | RpcErr.DictionaryKeyNotFound
  | RpcErr.DictionaryNameNotFound
  | RpcErr.DictionaryValueIsNotAUref _
  | RpcErr.DictionaryKeyCouldNotBeParsed _ => Some RpcCode.FailedToGetDictionaryURef
  | RpcErr.InvalidTransaction _ => Some RpcCode.InvalidTransaction
  | RpcErr.NodeRequest _ (ClientError.SpecExecutionFailed _)
  | RpcErr.InvalidDeploy _
  | RpcErr.SpecExecReturnedNothing => Some RpcCode.InvalidDeploy
  | RpcErr.NodeRequest _ _ => Some RpcCode.NodeRequestFailed
  | RpcErr.InvalidPurseBalance => Some RpcCode.FailedToGetBalance
  | RpcErr.InvalidAccountInfo
  | RpcErr.InvalidAddressableEntity
  | RpcErr.InvalidAuctionState
  | RpcErr.InvalidNamedKeys _
  | RpcErr.InvalidEntryPoints _
  | RpcErr.BytesreprFailure _ => None
  end.

(** [rpc_sidecar/src/rpcs/error.rs:125-141], [From<Error> for RpcError]. *)
Definition RpcError_from (value : RpcErr.Error) : ErrorObject.Error :=
  match value with
  | RpcErr.NoBlockFound _ available_block_range =>
      Error_new RpcCode.NoSuchBlock
        (MissingBlockOrStateRoot (Error_to_string value) available_block_range)
  | _ =>
      match Error_code value with
      | Some code => Error_new code (Error_to_string value)
      | None => Error_new InternalError (Error_to_string value)
      end
  end.

End Into.

(** ** What a client sees *)

(** None of the codes is one [Error::new] refuses. *)
Lemma Error_new_rpc_code {T} `{!Serialize T} (c : RpcCode.ErrorCode) (info : T) (v : Value) :
  to_value info = Ok v -> v <> VNull ->
  Error_new c info = mkError (discriminant c) (ErrorCode_into c).2 (Some v).
Proof. intros Hv Hn. unfold Error_new. destruct c; simpl; rewrite Hv; by destruct v. Qed.

Lemma Error_new_rpc_string (c : RpcCode.ErrorCode) (s : string) :
  Error_new c s = mkError (discriminant c) (ErrorCode_into c).2 (Some (VString s)).
Proof. by apply Error_new_rpc_code. Qed.

Lemma discriminant_inj (c d : RpcCode.ErrorCode) : discriminant c = discriminant d -> c = d.
Proof. by destruct c, d. Qed.

Lemma discriminant_range (c : RpcCode.ErrorCode) : -32026 <= discriminant c <= -32000.
Proof. by destruct c. Qed.

Section Facts.
Context `{CasperOps} `{!Serialize AvailableBlockRange}.

(** The code a client is shown for an error. *)
Definition shown_code (e : RpcErr.Error) : Z :=
  match Error_code e with
  | Some c => discriminant c
  | None => (reserved_into InternalError).1
  end.

(** The details a client is shown: the text of the error, for a missing block
    together with the blocks the node has. *)
Definition shown_data (e : RpcErr.Error) (v : Value) : Prop :=
  match e with
  | RpcErr.NoBlockFound _ range =>
      exists r, to_value range = Ok r /\
        v = VObject [("message", VString (Error_to_string e)); ("available_block_range", r)]
  | _ => v = VString (Error_to_string e)
  end.

Lemma to_value_missing (message : string) (range : AvailableBlockRange) (r : Value) :
  to_value range = Ok r ->
  to_value (MissingBlockOrStateRoot message range) =
    Ok (VObject [("message", VString message); ("available_block_range", r)]).
Proof. intros Hr. unfold to_value in *. unfold Serialize_ErrorData, to_value. by rewrite Hr. Qed.

Lemma RpcError_from_shown (e : RpcErr.Error) :
  (forall range : AvailableBlockRange, is_ok (to_value range) = true) ->
  code (RpcError_from e) = shown_code e /\
  exists v, data (RpcError_from e) = Some v /\ shown_data e v.
Proof.
  intros Hser. unfold RpcError_from, shown_code, shown_data. destruct (Error_code e) as [c|] eqn:Hc.
  - destruct e; try (rewrite Error_new_rpc_string; split; [done|]; eexists; split; done).
    specialize (Hser range). destruct (to_value range) as [r|] eqn:Hr; [|done].
    rewrite (Error_new_rpc_code _ _ _ (to_value_missing _ _ _ Hr)) by done. injection Hc as <-.
    split; [done|]. eexists. split; [done|]. by exists r.
  - destruct e; try done; rewrite Error_new_reserved_string; (split; [done|]); eexists; split; done.
Qed.

(** The codes that no error carries. *)
Definition unused_codes : list RpcCode.ErrorCode :=
  [RpcCode.GetBalanceFailedToExecute; RpcCode.FailedToGetTrie; RpcCode.InvalidBlock].

Lemma Error_code_used (e : RpcErr.Error) (c : RpcCode.ErrorCode) :
  Error_code e = Some c -> c ∉ unused_codes.
Proof.
  intros Hc. unfold unused_codes. rewrite !not_elem_of_cons.
  destruct e; simpl in Hc; simplify_eq; repeat split; try done; try apply not_elem_of_nil;
    destruct err; by simplify_eq.
Qed.

(** The error object of an RPC failure: for every error of a handler the
    client receives the code of its kind and the text of the error, and for a
    missing block also the range of blocks the node has.  The code is one of the
    27 of [ErrorCode], all distinct and outside the range the JSON-RPC library
    replaces, or [InternalError] for the six kinds that stand for unreadable data
    of the node.  Assumed: a block range can be encoded as JSON. *)
Theorem rpc_error_object (e : RpcErr.Error) :
  (forall range : AvailableBlockRange, is_ok (to_value range) = true) ->
  (exists v, data (RpcError_from e) = Some v /\ shown_data e v) /\
  code (RpcError_from e) = shown_code e /\
  (forall c, code (RpcError_from e) = discriminant c <-> Error_code e = Some c) /\
  (forall c, Error_code e = Some c -> c ∉ unused_codes) /\
  (Error_code e = None <-> code (RpcError_from e) = -32603).
Proof.
  intros Hser. destruct (RpcError_from_shown e Hser) as [Hcode Hdata]. split_and!; [done|done|..].
  - intros c. rewrite Hcode. unfold shown_code. destruct (Error_code e) as [c'|].
    + split; [by intros ->%discriminant_inj|by intros [= ->]].
    + split; [|done]. intros Hc. pose proof (discriminant_range c). simpl in Hc. lia.
  - intros c. apply Error_code_used.
  - rewrite Hcode. unfold shown_code. destruct (Error_code e) as [c|]; [|done].
    split; [done|]. pose proof (discriminant_range c). lia.
Qed.

End Facts.

Section Witness.
Import SampleTypes.

#[local] Instance json_range : Serialize AvailableBlockRange := fun r =>
  Ok (VObject [("low", VNumber (PosInt r.1)); ("high", VNumber (PosInt r.2))]).

Definition missing_sample : RpcErr.Error := RpcErr.NoBlockFound (Some (BlockHeight 7)) (40, 50).

Lemma rpc_error_object_witness :
  (forall range : AvailableBlockRange, is_ok (to_value range) = true) /\
  code (RpcError_from missing_sample) = -32001 /\
  data (RpcError_from missing_sample) =
    Some (VObject [("message", VString "no block found for the provided identifier");
                   ("available_block_range",
                    VObject [("low", VNumber (PosInt 40)); ("high", VNumber (PosInt 50))])]).
Proof.
  assert (forall range : AvailableBlockRange, is_ok (to_value range) = true) as Hser by reflexivity.
  destruct (rpc_error_object missing_sample Hser) as ((v & Hv & r & [= <-] & ->) & Hcode & _).
  split; [exact Hser|]. split; [exact Hcode|exact Hv].
Defined.

End Witness.
