(* ===== verification/NodeRequests.v ===== *)
(** * Requests to the node ([rpc_sidecar/src/node_client.rs])

    The typed requests of the trait [NodeClient] are programs that send commands
    and read the responses.  A program is a tree: it returns a value, or sends a
    command and continues with the answer, or calls
    [read_block_with_signatures], the one method besides [send_request] that an
    implementation of the trait replaces.  [run] executes a program with an
    implementation ([NodeClient]): the framed client of [NodeClient.v], or the
    caching client around another one. *)

From S2P Require Import Prelude Json NodeErrors NodeClient CachingClient BTreeMap Casper RpcErrors.

(** ** Programs *)

Section Program.
Context `{CasperTypes} `{BinaryPort}.

Inductive node (A : Type) : Type :=
| Ret (a : A)
| Send (req : Request) (k : result ClientError BinaryResponseAndRequest -> node A)
| ReadBlock (block_identifier : option BlockIdentifier)
    (k : result ClientError (option BlockWithSignatures) -> node A).
#[global] Arguments Ret {_} _.
#[global] Arguments Send {_} _ _.
#[global] Arguments ReadBlock {_} _ _.

Fixpoint node_bind {A B} (f : A -> node B) (p : node A) : node B :=
  match p with
  | Ret a => f a
  | Send req k => Send req (fun r => node_bind f (k r))
  | ReadBlock id k => ReadBlock id (fun r => node_bind f (k r))
  end.

#[global] Instance node_mret : MRet node := fun A a => Ret a.
#[global] Instance node_mbind : MBind node := fun A B f p => node_bind f p.

(** [e.await?]: the value of a successful program, or its error at once. *)
Definition try_bind {E A B} (f : A -> node (result E B)) (p : node (result E A)) : node (result E B) :=
  p ≫= fun r => match r with Ok a => f a | Err e => Ret (Err e) end.

(** [.map_err(f)] on the result of a program. *)
Definition node_map_err {E F A} (f : E -> F) (p : node (result E A)) : node (result F A) :=
  p ≫= fun r => Ret (map_err f r).

(** [send_request(req).await]. *)
Definition send (req : Request) : node (result ClientError BinaryResponseAndRequest) := Send req Ret.

(** A result without further requests. *)
Definition lift {E A} (r : result E A) : node (result E A) := Ret r.

End Program.

Notation "'let!' x ':=' e 'in' k" := (try_bind (fun x => k) e)
  (at level 10, x binder, e at level 200, k at level 200,
   format "'let!'  x  ':='  e  'in'  '//' k") : sidecar_scope.

(** ** Running a program *)

(** What an implementation of the trait [NodeClient] provides; [W] is its state
    together with the node behind it. *)
Class NodeClientT `{CasperTypes} `{BinaryPort} (W : Type) := {
  client_send_request : Request -> W -> result ClientError BinaryResponseAndRequest * W;
  client_read_block : option BlockIdentifier -> W -> result ClientError (option BlockWithSignatures) * W;
}.

Section Run.
Context `{CasperTypes} `{BinaryPort}.

Fixpoint run {W A} (C : NodeClientT W) (p : node A) (w : W) : A * W :=
  match p with
  | Ret a => (a, w)
  | Send req k => let (r, w) := client_send_request req w in run C (k r) w
  | ReadBlock id k => let (r, w) := client_read_block id w in run C (k r) w
  end.

Lemma run_bind {W A B} (C : NodeClientT W) (f : A -> node B) (p : node A) (w : W) :
  run C (p ≫= f) w = let (a, w') := run C p w in run C (f a) w'.
Proof.
  unfold mbind, node_mbind. revert w. induction p as [a|req k IH|id k IH]; intros w; simpl; [done|..].
  - destruct (client_send_request req w) as [r w']. apply IH.
  - destruct (client_read_block id w) as [r w']. apply IH.
Qed.

Lemma run_try {W E A B} (C : NodeClientT W) (f : A -> node (result E B)) (p : node (result E A)) (w : W) :
  run C (try_bind f p) w =
    let (r, w') := run C p w in
    match r with Ok a => run C (f a) w' | Err e => (Err e, w') end.
Proof. unfold try_bind. rewrite run_bind. destruct (run C p w) as [[a|e] w']; done. Qed.

Lemma run_map_err {W E F A} (C : NodeClientT W) (f : E -> F) (p : node (result E A)) (w : W) :
  run C (node_map_err f p) w = let (r, w') := run C p w in (map_err f r, w').
Proof. unfold node_map_err. rewrite run_bind. by destruct (run C p w). Qed.

End Run.

(** ** The typed requests *)

(** The tags and deserialisers of the response types; transfers are encoded with
    [bincode], everything else with [bytesrepr].  The constants are the
    [ResponseType]s the code compares with directly. *)
Class PortPayloads `{CasperTypes} := {
  #[global] payload_QueryResult :: PayloadEntity GlobalStateQueryResult;
  #[global] payload_StoredValues :: PayloadEntity (list StoredValue);
  #[global] payload_Balance :: PayloadEntity BalanceResponse;
  #[global] payload_Trie :: PayloadEntity GetTrieFullResult;
  #[global] payload_Dictionary :: PayloadEntity DictionaryQueryResult;
  #[global] payload_SpeculativeExec :: PayloadEntity SpeculativeExecutionResult;
  #[global] payload_Transfers :: PayloadEntity (list Transfer);
  #[global] payload_BlockHeader :: PayloadEntity BlockHeader;
  #[global] payload_Block :: PayloadEntity BlockWithSignatures;
  #[global] payload_Transaction :: PayloadEntity TransactionWithExecutionInfo;
  #[global] payload_Peers :: PayloadEntity Peers;
  #[global] payload_Range :: PayloadEntity AvailableBlockRange;
  #[global] payload_Chainspec :: PayloadEntity ChainspecRawBytes;
  #[global] payload_ValidatorChanges :: PayloadEntity ConsensusValidatorChanges;
  #[global] payload_NodeStatus :: PayloadEntity NodeStatus;
  #[global] payload_Reward :: PayloadEntity RewardResponse;
  #[global] payload_ContractPackage :: PayloadEntity (ValueWithProof ContractPackage);
  #[global] payload_Package :: PayloadEntity (ValueWithProof Package);
  #[global] payload_ContractInformation :: PayloadEntity ContractInformation;
  #[global] payload_AccountInformation :: PayloadEntity AccountInformation;
  #[global] payload_EntityInformation :: PayloadEntity AddressableEntityInformation;
  ResponseType_ContractPackageWithProof : Z;
  ResponseType_ContractInformation : Z;
  ResponseType_AccountInformation : Z;
}.

(** The tag a type announces. *)
Definition tag_of (A : Type) `{PayloadEntity A} : Z := RESPONSE_TYPE.

(** The constants are the tags of the types they are named after, and the tags of
    different types differ. *)
Class PortPayloadLaws `{PortPayloads} := {
  ContractPackage_tag : tag_of (ValueWithProof ContractPackage) = ResponseType_ContractPackageWithProof;
  ContractInformation_tag : tag_of ContractInformation = ResponseType_ContractInformation;
  AccountInformation_tag : tag_of AccountInformation = ResponseType_AccountInformation;
  package_tags_NoDup : NoDup [tag_of (ValueWithProof ContractPackage); tag_of (ValueWithProof Package)];
  entity_tags_NoDup :
    NoDup [tag_of ContractInformation; tag_of AccountInformation; tag_of AddressableEntityInformation];
}.

Section Requests.
Context `{CasperOps} `{BinaryPort} `{BinaryPortCodes} `{!PortPayloads}.

(** [rpc_sidecar/src/node_client.rs:1268-1273], [EntityResponse]. *)
Inductive EntityResponse :=
| EntityEntity (information : AddressableEntityInformation)
| EntityAccount (information : AccountInformation)
| EntityContract (information : ContractInformation).

(** [rpc_sidecar/src/node_client.rs:1275-1279], [PackageResponse]. *)
Inductive PackageResponse :=
| PackagePackage (package : ValueWithProof Package)
| PackageContractPackage (package : ValueWithProof ContractPackage).

(** [parse_response::<A>(&resp.into())]. *)
Definition parse {A} `{!PayloadEntity A} (resp : BinaryResponseAndRequest) : result ClientError (option A) :=
  parse_response (response resp).

(** [parse_response::<A>(&resp.into())?.ok_or(Error::EmptyEnvelope)]. *)
Definition parse_some {A} `{!PayloadEntity A} (resp : BinaryResponseAndRequest) : result ClientError A :=
  let? a := parse resp in ok_or a ClientError.EmptyEnvelope.

(** The response carries a value of that type. *)
Definition carries {A} `{!PayloadEntity A} (resp : BinaryResponseAndRequest) (a : A) : Prop :=
  is_not_found (response resp) = false /\ is_success (response resp) = true /\
  returned_data_type_tag (response resp) = Some (tag_of A) /\
  deserialize_from_slice (payload (response resp)) = Ok a.

(** [rpc_sidecar/src/node_client.rs:54-64], [read_record]. *)
Definition read_record (record_id : RecordId) (key : list Z)
    : node (result ClientError BinaryResponseAndRequest) :=
  send (Get (GetRecord record_id key)).

(** [rpc_sidecar/src/node_client.rs:66-69], [read_info]. *)
Definition read_info (req : InformationRequest) : node (result ClientError BinaryResponseAndRequest) :=
  send (Get (GetInformation req)).

(** [rpc_sidecar/src/node_client.rs:71-85], [query_global_state]. *)
Definition query_global_state (state_identifier : option GlobalStateIdentifier) (base_key : Key)
    (path : list string) : node (result ClientError (option GlobalStateQueryResult)) :=
  let! resp := send (Get (GetState state_identifier (Item base_key path))) in
  lift (parse resp).

(** [rpc_sidecar/src/node_client.rs:87-100], [query_global_state_by_tag]. *)
Definition query_global_state_by_tag (state_identifier : option GlobalStateIdentifier) (key_tag : KeyTag)
    : node (result ClientError (list StoredValue)) :=
  let! resp := send (Get (GetState state_identifier (AllItems key_tag))) in
  lift (parse_some resp).

(** [rpc_sidecar/src/node_client.rs:102-115], [query_global_state_by_prefix]. *)
Definition query_global_state_by_prefix (state_identifier : option GlobalStateIdentifier)
    (key_prefix : KeyPrefix) : node (result ClientError (list StoredValue)) :=
  let! resp := send (Get (GetState state_identifier (ItemsByPrefix key_prefix))) in
  lift (parse_some resp).

(** [rpc_sidecar/src/node_client.rs:117-130], [read_balance]. *)
Definition read_balance (state_identifier : option GlobalStateIdentifier)
    (purse_identifier : PortPurseIdentifier) : node (result ClientError BalanceResponse) :=
  let! resp := send (Get (GetState state_identifier (Balance purse_identifier))) in
  lift (parse_some resp).

(** [rpc_sidecar/src/node_client.rs:132-138], [read_trie_bytes]. *)
Definition read_trie_bytes (trie_key : Digest) : node (result ClientError (option (list Z))) :=
  let! resp := send (Get (GetTrie trie_key)) in
  let! res := lift (parse_some resp) in
  Ret (Ok (trie_bytes res)).

(** [rpc_sidecar/src/node_client.rs:140-153], [query_dictionary_item]. *)
Definition query_dictionary_item (state_identifier : option GlobalStateIdentifier)
    (identifier : DictionaryItemIdentifier) : node (result ClientError (option DictionaryQueryResult)) :=
  let! resp := send (Get (GetState state_identifier (DictionaryItemQuery identifier))) in
  lift (parse resp).

(** [rpc_sidecar/src/node_client.rs:155-164], [try_accept_transaction]. *)
Definition try_accept_transaction (transaction : Transaction) : node (result ClientError unit) :=
  let! resp := send (TryAcceptTransaction transaction) in
  lift (if is_success (response resp) then Ok tt
        else Err (from_error_code (error_code (response resp)))).

(** [rpc_sidecar/src/node_client.rs:166-173], [exec_speculatively]. *)
Definition exec_speculatively (transaction : Transaction)
    : node (result ClientError SpeculativeExecutionResult) :=
  let! resp := send (TrySpeculativeExec transaction) in
  lift (parse_some resp).

(** [rpc_sidecar/src/node_client.rs:175-179], [read_block_transfers]. *)
Definition read_block_transfers (hash : BlockHash) : node (result ClientError (option (list Transfer))) :=
  let! resp := read_record RecordTransfer (BlockHash_to_bytes hash) in
  lift (parse resp).

(** [rpc_sidecar/src/node_client.rs:181-189], [read_block_header]. *)
Definition read_block_header (block_identifier : option BlockIdentifier)
    : node (result ClientError (option BlockHeader)) :=
  let! resp := read_info (InfoBlockHeader block_identifier) in
  lift (parse resp).

(** [rpc_sidecar/src/node_client.rs:191-199], [read_block_with_signatures], the
    default of the trait. *)
Definition default_read_block (block_identifier : option BlockIdentifier)
    : node (result ClientError (option BlockWithSignatures)) :=
  let! resp := read_info (InfoBlockWithSignatures block_identifier) in
  lift (parse resp).

(** The call of the method, which an implementation may have replaced. *)
Definition read_block_with_signatures (block_identifier : option BlockIdentifier)
    : node (result ClientError (option BlockWithSignatures)) :=
  ReadBlock block_identifier Ret.

(** [rpc_sidecar/src/node_client.rs:201-213], [read_transaction_with_execution_info]. *)
Definition read_transaction_with_execution_info (hash : TransactionHash) (with_finalized_approvals : bool)
    : node (result ClientError (option TransactionWithExecutionInfo)) :=
  let! resp := read_info (InfoTransaction hash with_finalized_approvals) in
  lift (parse resp).

(** [rpc_sidecar/src/node_client.rs:215-218], [read_peers]. *)
Definition read_peers : node (result ClientError Peers) :=
  let! resp := read_info InfoPeers in
  lift (parse_some resp).

(** [rpc_sidecar/src/node_client.rs:220-225], [read_available_block_range]. *)
Definition read_available_block_range : node (result ClientError AvailableBlockRange) :=
  let! resp := read_info InfoAvailableBlockRange in
  lift (parse_some resp).

(** [rpc_sidecar/src/node_client.rs:227-232], [read_chainspec_bytes]. *)
Definition read_chainspec_bytes : node (result ClientError ChainspecRawBytes) :=
  let! resp := read_info InfoChainspecRawBytes in
  lift (parse_some resp).

(** [rpc_sidecar/src/node_client.rs:234-239], [read_validator_changes]. *)
Definition read_validator_changes : node (result ClientError ConsensusValidatorChanges) :=
  let! resp := read_info InfoConsensusValidatorChanges in
  lift (parse_some resp).

(** [rpc_sidecar/src/node_client.rs:241-246], [read_latest_switch_block_header]. *)
Definition read_latest_switch_block_header : node (result ClientError (option BlockHeader)) :=
  let! resp := read_info InfoLatestSwitchBlockHeader in
  lift (parse resp).

(** [rpc_sidecar/src/node_client.rs:248-251], [read_node_status]. *)
Definition read_node_status : node (result ClientError NodeStatus) :=
  let! resp := read_info InfoNodeStatus in
  lift (parse_some resp).

(** [rpc_sidecar/src/node_client.rs:253-269], [read_reward]. *)
Definition read_reward (era_identifier : option PortEraIdentifier) (validator : PublicKey)
    (delegator : option PublicKey) : node (result ClientError (option RewardResponse)) :=
  let! resp := read_info (InfoReward era_identifier validator (RewardDelegatorPublicKey <$> delegator)) in
  lift (parse resp).

(** [rpc_sidecar/src/node_client.rs:271-289], [read_package]. *)
Definition read_package (state_identifier : option GlobalStateIdentifier)
    (identifier : PortPackageIdentifier) : node (result ClientError (option PackageResponse)) :=
  let! resp := read_info (InfoPackage state_identifier identifier) in
  lift
    (if decide (returned_data_type_tag (response resp) = Some ResponseType_ContractPackageWithProof)
     then let? p := parse resp in Ok (PackageContractPackage <$> p)
     else let? p := parse resp in Ok (PackagePackage <$> p)).

(** [rpc_sidecar/src/node_client.rs:291-316], [read_entity]. *)
Definition read_entity (state_identifier : option GlobalStateIdentifier)
    (identifier : PortEntityIdentifier) (include_bytecode : bool)
    : node (result ClientError (option EntityResponse)) :=
  let! resp := read_info (InfoEntity state_identifier identifier include_bytecode) in
  lift
    (if decide (returned_data_type_tag (response resp) = Some ResponseType_ContractInformation)
     then let? p := parse resp in Ok (EntityContract <$> p)
     else if decide (returned_data_type_tag (response resp) = Some ResponseType_AccountInformation)
     then let? p := parse resp in Ok (EntityAccount <$> p)
     else let? p := parse resp in Ok (EntityEntity <$> p)).

End Requests.

(** ** Typed answers *)

Section Typed.
Context `{CasperOps} `{BinaryPort} `{BinaryPortCodes}.

Lemma parse_Some {A} `{!PayloadEntity A} (resp : BinaryResponseAndRequest) (a : A) :
  parse resp = Ok (Some a) <-> carries resp a.
Proof.
  unfold parse, parse_response, carries, tag_of. destruct (is_not_found _); [naive_solver|].
  destruct (is_success _); simpl; [|naive_solver].
  destruct (returned_data_type_tag _) as [tag|]; [|naive_solver].
  destruct (decide (tag = RESPONSE_TYPE)) as [->|Hne]; [|naive_solver].
  destruct (deserialize_from_slice _); naive_solver.
Qed.

Lemma parse_Some_tag {A} `{!PayloadEntity A} (resp : BinaryResponseAndRequest) (a : A) :
  carries resp a -> returned_data_type_tag (response resp) = Some (tag_of A).
Proof. by intros (_ & _ & ? & _). Qed.

Lemma map_parse_Some {A B} `{!PayloadEntity A} (f : A -> B) (resp : BinaryResponseAndRequest) (b : B) :
  (let? p := parse resp in Ok (f <$> p)) = Ok (E := ClientError) (Some b) <->
  exists a, b = f a /\ carries resp a.
Proof.
  split.
  - destruct (parse resp) as [[a|]|e] eqn:Hp; simpl; [|done..]. intros [= <-]. exists a.
    split; [done|]. by apply parse_Some.
  - intros (a & -> & Ha%parse_Some). by rewrite Ha.
Qed.

End Typed.

(** ** Implementations of the client *)

Section Implementations.
Context `{CasperOps} `{BP : BinaryPort} `{BinaryPortCodes} `{!PortPayloads}.

(** The default [read_block_with_signatures] of a client that sends with [snd]. *)
Definition read_block_by {W} (snd : Request -> W -> result ClientError BinaryResponseAndRequest * W)
    (id : option BlockIdentifier) (w : W) : result ClientError (option BlockWithSignatures) * W :=
  let (r, w) := snd (Get (GetInformation (InfoBlockWithSignatures id))) w in
  (let? resp := r in parse resp, w).

(** An implementation that provides [send_request] only. *)
Definition plain {W} (snd : Request -> W -> result ClientError BinaryResponseAndRequest * W)
    : NodeClientT W :=
  {| client_send_request := snd; client_read_block := read_block_by snd |}.

Lemma run_default_read_block {W} (C : NodeClientT W) (id : option BlockIdentifier) (w : W) :
  run C (default_read_block id) w = read_block_by client_send_request id w.
Proof.
  unfold default_read_block, read_block_by. rewrite run_try. simpl.
  destruct (client_send_request _ w) as [[resp|e] w']; done.
Qed.

(** The client of [NodeClient.v]: [command] is the value of [Command] a request
    denotes, [surroundings] the time-outs and connection attempts a call meets.
    The call returns: its commands can be encoded (or it would panic) and its
    attempts to reconnect come to an end. *)
Definition framed `{Peer} {E} (command : Request -> Command) (surroundings : E -> Surroundings * E)
    (returns : forall e client req, is_Some (send_request (surroundings e).1 client (command req)))
    : NodeClientT (E * FramedNodeClient) :=
  plain (fun req w =>
    let (r, client) := is_Some_proj (returns w.1 w.2 req) in
    (r, ((surroundings w.1).2, client))).

(** [rpc_sidecar/src/caching_node_client.rs:44-64], [NodeClient for CachingNodeClient]:
    [in_time] says whether the cache can be read at once. *)
Definition caching {W} (inner : NodeClientT W) (in_time : W -> bool)
    : NodeClientT (@CachingNodeClient BlockWithSignatures * W) :=
  {| client_send_request req w :=
       let (r, w') := client_send_request req w.2 in (r, (w.1, w'));
     client_read_block id w :=
       let (r, asked) :=
         CachingClient.read_block_with_signatures (in_time w.2) w.1
           (fun id => (read_block_by (client_send_request (NodeClientT := inner)) id w.2).1) id in
       (r, if asked
           then (w.1, (read_block_by (client_send_request (NodeClientT := inner)) id w.2).2)
           else w) |}.

(** A node whose answers do not change while a program runs. *)
Definition answering (answers : Request -> result ClientError BinaryResponseAndRequest) : NodeClientT unit :=
  plain (fun req w => (answers req, w)).

Definition eval {A} (answers : Request -> result ClientError BinaryResponseAndRequest) (p : node A) : A :=
  (run (answering answers) p tt).1.

Lemma run_answering {A} answers (p : node A) (w : unit) :
  run (answering answers) p w = (eval answers p, tt).
Proof. destruct w. unfold eval. by destruct (run (answering answers) p tt) as [a []]. Qed.

Lemma eval_bind {A B} answers (f : A -> node B) (p : node A) :
  eval answers (p ≫= f) = eval answers (f (eval answers p)).
Proof. unfold eval at 1. rewrite run_bind, run_answering, run_answering. done. Qed.

Lemma eval_try {E A B} answers (f : A -> node (result E B)) (p : node (result E A)) :
  eval answers (try_bind f p) = let? a := eval answers p in eval answers (f a).
Proof. unfold eval at 1. rewrite run_try, run_answering. destruct (eval answers p); [|done]. by rewrite run_answering. Qed.

Lemma eval_map_err {E F A} answers (f : E -> F) (p : node (result E A)) :
  eval answers (node_map_err f p) = map_err f (eval answers p).
Proof. unfold eval at 1. by rewrite run_map_err, run_answering. Qed.

Lemma eval_send answers (req : Request) : eval answers (send req) = answers req.
Proof. done. Qed.

Lemma eval_Ret {A} answers (a : A) : eval answers (Ret a) = a.
Proof. done. Qed.

Lemma eval_lift {E A} answers (r : result E A) : eval answers (lift r) = r.
Proof. done. Qed.

Lemma eval_read_block answers (id : option BlockIdentifier) :
  eval answers (read_block_with_signatures id) =
    let? resp := answers (Get (GetInformation (InfoBlockWithSignatures id))) in parse resp.
Proof. done. Qed.

(** The cache is transparent to a program, if what it holds is what the node
    would answer. *)
Lemma run_caching_answering {A} answers (in_time : unit -> bool) (p : node A) (c : CachingNodeClient) :
  (forall b, get_block_from_cache (in_time tt) c = Some b ->
     eval answers (read_block_with_signatures None) = Ok (Some b)) ->
  run (caching (answering answers) in_time) p (c, tt) = (eval answers p, (c, tt)).
Proof.
  intros Hc. induction p as [a|req k IH|id k IH]; [done|exact (IH _)|]. unfold eval. simpl.
  unfold CachingClient.read_block_with_signatures.
  destruct id as [id|], (get_block_from_cache (in_time tt) c) as [b|] eqn:Hb; simpl; try exact (IH _).
  specialize (Hc b eq_refl). rewrite eval_read_block in Hc.
  unfold read_block_by. simpl. rewrite Hc. exact (IH _).
Qed.

End Implementations.

#[export] Hint Rewrite @eval_try @eval_map_err @eval_send @eval_Ret @eval_lift @eval_read_block @eval_bind : eval.

(** Evaluates a program as far as the answers are known. *)
Ltac simp_eval := repeat first [progress autorewrite with eval|progress simpl].

(** ** What a program asks *)

Section Asks.
Context `{CasperOps} `{BP : BinaryPort} `{BinaryPortCodes} `{!PortPayloads}.

(** However the requests are answered, the program makes at most [n], all of
    them with [P]. *)
Fixpoint asks {A} (P : Request -> Prop) (n : nat) (p : node A) {struct p} : Prop :=
  match p with
  | Ret _ => True
  | Send req k => match n with O => False | S n => P req /\ forall r, asks P n (k r) end
  | ReadBlock id k =>
      match n with
      | O => False
      | S n => P (Get (GetInformation (InfoBlockWithSignatures id))) /\ forall r, asks P n (k r)
      end
  end.

Lemma asks_mono {A} (P : Request -> Prop) (n m : nat) (p : node A) :
  asks P n p -> (n <= m)%nat -> asks P m p.
Proof.
  revert n m. induction p as [a|req k IH|id k IH]; intros [|n] [|m]; simpl; try done; try lia;
    intros [HP Hk] Hle; (split; [done|]); intros r; eapply IH; eauto with lia.
Qed.

Lemma asks_weaken {A} (P Q : Request -> Prop) (n : nat) (p : node A) :
  (forall req, P req -> Q req) -> asks P n p -> asks Q n p.
Proof.
  intros HPQ. revert n. induction p as [a|req k IH|id k IH]; intros [|n]; simpl; try done;
    intros [HP Hk]; (split; [by apply HPQ|]); intros r; by apply IH.
Qed.

Lemma asks_bind {A B} (P : Request -> Prop) (n m : nat) (f : A -> node B) (p : node A) :
  asks P n p -> (forall a, asks P m (f a)) -> asks P (n + m) (p ≫= f).
Proof.
  unfold mbind, node_mbind. intros Hp Hf. revert n Hp.
  induction p as [a|req k IH|id k IH]; intros n Hp; [eapply asks_mono; [apply Hf|lia]|..];
    (destruct n as [|n]; [done|]); destruct Hp as [HP Hk]; (split; [done|]); intros r; by apply IH.
Qed.

Lemma asks_try {E A B} (P : Request -> Prop) (n m : nat) (f : A -> node (result E B))
    (p : node (result E A)) :
  asks P n p -> (forall a, asks P m (f a)) -> asks P (n + m) (try_bind f p).
Proof. intros Hp Hf. apply asks_bind; [done|]. intros [a|e]; [apply Hf|done]. Qed.

Lemma asks_map_err {E F A} (P : Request -> Prop) (n : nat) (f : E -> F) (p : node (result E A)) :
  asks P n p -> asks P n (node_map_err f p).
Proof. intros Hp. rewrite <- (Nat.add_0_r n). by apply asks_bind. Qed.

Lemma asks_Ret {A} (P : Request -> Prop) (n : nat) (a : A) : asks P n (Ret a).
Proof. by destruct n. Qed.

Lemma asks_send (P : Request -> Prop) (req : Request) : P req -> asks P 1 (send req).
Proof. by split. Qed.

(** The rule for a known number of requests left. *)
Lemma asks_try_left {E A B} (P : Request -> Prop) (n m : nat) (f : A -> node (result E B))
    (p : node (result E A)) :
  asks P n p -> (forall a, asks P (m - n) (f a)) -> (n <= m)%nat -> asks P m (try_bind f p).
Proof. intros Hp Hf Hle. replace m with (n + (m - n))%nat by lia. by apply asks_try. Qed.

Lemma asks_lift {E A} (P : Request -> Prop) (n : nat) (r : result E A) : asks P n (lift r).
Proof. apply asks_Ret. Qed.

(** A request that only reads. *)
Definition reads_only (req : Request) : Prop := match req with Get _ => True | _ => False end.

(** A client whose calls can be seen in a log of what it sends: each request adds at
    most [tries] messages, all of which carry it. *)
Class Recorded {W M} (C : NodeClientT W) (log : W -> list M) (carries : Request -> M -> Prop) (tries : nat) : Prop := {
  recorded_send req w : exists l, log (client_send_request req w).2 = log w ++ l /\
    (length l <= tries)%nat /\ Forall (carries req) l;
  recorded_read id w : exists l, log (client_read_block id w).2 = log w ++ l /\
    (length l <= tries)%nat /\ Forall (carries (Get (GetInformation (InfoBlockWithSignatures id)))) l;
}.

(** The messages are those of the requests, in their order. *)
Definition messages_of {M} (carries : Request -> M -> Prop) (tries : nat) (reqs : list Request)
    (messages : list (list M)) : Prop :=
  Forall2 (fun req l => (length l <= tries)%nat /\ Forall (carries req) l) reqs messages.

Lemma run_asks {W M A} (C : NodeClientT W) (log : W -> list M) carries tries `{R : !Recorded C log carries tries}
    (P : Request -> Prop) (n : nat) (p : node A) (w : W) :
  asks P n p -> exists reqs messages, log (run C p w).2 = log w ++ concat messages /\
    messages_of carries tries reqs messages /\ (length reqs <= n)%nat /\ Forall P reqs.
Proof using Type.
  revert n w. induction p as [a|req k IH|id k IH]; intros n w Hp; simpl.
  - exists [], []. rewrite app_nil_r. split_and!; [done|constructor|simpl; lia|done].
  - destruct n as [|n]; [done|]. destruct Hp as [HP Hk].
    destruct (recorded_send (C := C) (log := log) req w) as (l & Hl & Htries). destruct (client_send_request req w) as [r w'].
    destruct (IH r n w' (Hk r)) as (reqs & ms & Hrun & Hms & Hlen & Hall). simpl in Hl. exists (req :: reqs), (l :: ms).
    rewrite Hrun, Hl, <- app_assoc. split_and!; [done|by constructor|simpl; lia|by constructor].
  - destruct n as [|n]; [done|]. destruct Hp as [HP Hk].
    destruct (recorded_read (C := C) (log := log) id w) as (l & Hl & Htries). destruct (client_read_block id w) as [r w'].
    destruct (IH r n w' (Hk r)) as (reqs & ms & Hrun & Hms & Hlen & Hall). simpl in Hl.
    exists (Get (GetInformation (InfoBlockWithSignatures id)) :: reqs), (l :: ms).
    rewrite Hrun, Hl, <- app_assoc. split_and!; [done|by constructor|simpl; lia|by constructor].
Qed.

(** A cache sends what the client it is put around sends, or nothing. *)
#[export] Instance recorded_caching {W M} snd (in_time : W -> bool) (log : W -> list M) carries tries :
  Recorded (plain snd) log carries tries ->
  Recorded (caching (plain snd) in_time) (fun w => log w.2) carries tries.
Proof.
  intros R. split.
  - intros req [c w]. pose proof (recorded_send (C := plain snd) (log := log) req w) as Hl. simpl in *.
    by destruct (snd req w).
  - intros id [c w]. pose proof (recorded_read (C := plain snd) (log := log) id w) as Hl. simpl in *.
    unfold CachingClient.read_block_with_signatures.
    destruct id as [id|], (get_block_from_cache (in_time w) c); simpl; try done.
    exists []. rewrite app_nil_r. split_and!; [done|simpl; lia|constructor].
Qed.

(** The framed client sends a request at most twice: a second time after it has
    reconnected. *)
#[export] Instance recorded_framed `{Peer} {E} (command : Request -> Command) (surroundings : E -> Surroundings * E)
    (returns : forall e client req, is_Some (send_request (surroundings e).1 client (command req))) :
  Recorded (framed command surroundings returns) (fun w => messages_sent w.2)
    (fun req bytes => exists id, encode_request (command req) id = Ok bytes) 2.
Proof.
  assert (forall req w, exists l,
    messages_sent (client_send_request (NodeClientT := framed command surroundings returns) req w).2.2 = messages_sent w.2 ++ l /\
    (length l <= 2)%nat /\ Forall (fun bytes => exists id, encode_request (command req) id = Ok bytes) l) as Hsend.
  { intros req [e self]. simpl. generalize (returns e self req). intros Hr.
    destruct (is_Some_proj Hr) as [r self'] eqn:Hs. simpl.
    apply (request_messages (surroundings e).1 self self' (command req) r).
    rewrite <- Hs. destruct Hr as [x Hx]. simpl in *. by destruct (send_request _ _ _). }
  split; [exact Hsend|]. intros id w. specialize (Hsend (Get (GetInformation (InfoBlockWithSignatures id))) w).
  cbn [framed plain client_send_request client_read_block] in *. unfold read_block_by.
  match type of Hsend with context [let (_, _) := ?x in _] => destruct x as [[r|e] w'] end; exact Hsend.
Qed.

End Asks.

Create HintDb asks.

(** Counts the requests of a program along its binds; the helpers it calls have
    their own lemmas in the database [asks]. *)
Ltac solve_asks :=
  repeat
    lazymatch goal with
    | |- asks _ _ (Ret _) => apply asks_Ret
    | |- asks _ _ (lift _) => apply asks_lift
    | |- asks _ _ (node_map_err _ _) => apply asks_map_err
    | |- asks _ _ (try_bind _ (match ?x with _ => _ end)) => destruct x
    | |- asks _ _ (try_bind _ (lift _)) =>
        eapply (asks_try_left _ 0); [apply asks_lift|intros ?; cbn [Nat.sub]|lia]
    | |- asks _ _ (try_bind _ (Ret _)) =>
        eapply (asks_try_left _ 0); [apply asks_Ret|intros ?; cbn [Nat.sub]|lia]
    | |- asks _ _ (try_bind _ _) =>
        eapply asks_try_left;
          [first [solve [eauto with asks]
                 |eapply asks_try;
                    [solve [eauto with asks]|intros ?; first [apply (asks_Ret _ 0)|apply (asks_lift _ 0)]]]
          |intros ?; cbn [Nat.sub]|lia]
    | |- asks _ _ (send _) => apply asks_send
    | |- asks _ _ (match ?x with _ => _ end) => destruct x
    | |- asks _ _ (let _ := _ in _) => cbv zeta
    | |- asks _ _ _ => eapply asks_mono; [solve [eauto with asks]|lia]
    | |- reads_only _ => exact I
    end.

Section TypedAsks.
Context `{CasperOps} `{BP : BinaryPort} `{BinaryPortCodes} `{!PortPayloads}.

Lemma asks_get (g : GetRequest) : asks reads_only 1 (send (Get g)).
Proof. by apply asks_send. Qed.
#[local] Hint Resolve asks_get : asks.

Lemma asks_query_global_state id key path : asks reads_only 1 (query_global_state id key path).
Proof. unfold query_global_state. solve_asks. Qed.

Lemma asks_query_by_tag id tag : asks reads_only 1 (query_global_state_by_tag id tag).
Proof. unfold query_global_state_by_tag. solve_asks. Qed.

Lemma asks_query_by_prefix id prefix : asks reads_only 1 (query_global_state_by_prefix id prefix).
Proof. unfold query_global_state_by_prefix. solve_asks. Qed.

Lemma asks_read_balance id purse : asks reads_only 1 (read_balance id purse).
Proof. unfold read_balance. solve_asks. Qed.

Lemma asks_read_trie_bytes key : asks reads_only 1 (read_trie_bytes key).
Proof. unfold read_trie_bytes. solve_asks. Qed.

Lemma asks_query_dictionary_item id item : asks reads_only 1 (query_dictionary_item id item).
Proof. unfold query_dictionary_item. solve_asks. Qed.

Lemma asks_read_block_transfers hash : asks reads_only 1 (read_block_transfers hash).
Proof. unfold read_block_transfers, read_record. solve_asks. Qed.

Lemma asks_read_block_header id : asks reads_only 1 (read_block_header id).
Proof. unfold read_block_header, read_info. solve_asks. Qed.

Lemma asks_read_block id : asks reads_only 1 (read_block_with_signatures id).
Proof. by split. Qed.

Lemma asks_read_transaction hash b : asks reads_only 1 (read_transaction_with_execution_info hash b).
Proof. unfold read_transaction_with_execution_info, read_info. solve_asks. Qed.

Lemma asks_read_peers : asks reads_only 1 read_peers.
Proof. unfold read_peers, read_info. solve_asks. Qed.

Lemma asks_read_range : asks reads_only 1 read_available_block_range.
Proof. unfold read_available_block_range, read_info. solve_asks. Qed.

Lemma asks_read_chainspec : asks reads_only 1 read_chainspec_bytes.
Proof. unfold read_chainspec_bytes, read_info. solve_asks. Qed.

Lemma asks_read_validator_changes : asks reads_only 1 read_validator_changes.
Proof. unfold read_validator_changes, read_info. solve_asks. Qed.

Lemma asks_read_switch_header : asks reads_only 1 read_latest_switch_block_header.
Proof. unfold read_latest_switch_block_header, read_info. solve_asks. Qed.

Lemma asks_read_node_status : asks reads_only 1 read_node_status.
Proof. unfold read_node_status, read_info. solve_asks. Qed.

Lemma asks_read_reward era v d : asks reads_only 1 (read_reward era v d).
Proof. unfold read_reward, read_info. solve_asks. Qed.

Lemma asks_read_package id p : asks reads_only 1 (read_package id p).
Proof. unfold read_package, read_info. solve_asks. Qed.

Lemma asks_read_entity id e b : asks reads_only 1 (read_entity id e b).
Proof. unfold read_entity, read_info. solve_asks. Qed.

End TypedAsks.

#[export] Hint Resolve asks_query_global_state asks_query_by_tag asks_query_by_prefix asks_read_balance
  asks_read_trie_bytes asks_query_dictionary_item asks_read_block_transfers asks_read_block_header
  asks_read_block asks_read_transaction asks_read_peers asks_read_range asks_read_chainspec
  asks_read_validator_changes asks_read_switch_header asks_read_node_status asks_read_reward
  asks_read_package asks_read_entity : asks.
