(* ===== verification/RpcTraits.v ===== *)
(** * RPC methods ([rpc_sidecar/src/rpcs.rs])

    The three traits of RPC methods, with required, without, and with optional
    parameters, as records, and how a method is registered with the JSON-RPC server.

    A handler is a program over the node client ([NodeRequests.v]).  Its errors
    are those of [RpcErrors.v]; [?] turns each into an error object with [From],
    which [into_rpc] does once for the outcome of the handler. *)

From S2P Require Import Prelude Json JsonRpc NodeErrors NodeClient CachingClient BTreeMap Casper.
From S2P Require Import RpcErrors NodeRequests.

Abbreviation RpcError := ErrorObject.Error.

(** [serde_json::from_value]: a value of the type, or the text of the error. *)
Class Deserialize (T : Type) := from_value : Value -> result string T.

(** An optional value: [null] is none. *)
#[export] Instance Deserialize_option {T} `{!Deserialize T} : Deserialize (option T) := fun v =>
  match v with
  | VNull => Ok None
  | _ => Some <$> from_value v
  end.

(** The derived [Serialize] of a struct: an object with its fields in order. *)
Fixpoint fields_value (fields : list (string * result string Value)) : result string Object :=
  match fields with
  | [] => Ok []
  | (name, value) :: fields =>
      let? value := value in
      let? rest := fields_value fields in
      Ok ((name, value) :: rest)
  end.

Definition struct_value (fields : list (string * result string Value)) : result string Value :=
  VObject <$> fields_value fields.

(** A vector, serialised item by item. *)
Fixpoint values_of {T} `{!Serialize T} (l : list T) : result string (list Value) :=
  match l with
  | [] => Ok []
  | x :: l =>
      let? x := to_value x in
      let? l := values_of l in
      Ok (x :: l)
  end.

#[export] Instance Serialize_list {T} `{!Serialize T} : Serialize (list T) := fun l => VArray <$> values_of l.

(** ** The version of the API *)

(** [rpc_sidecar/src/rpcs.rs:411-412], [ApiVersion]. *)
Record ApiVersion := mkVersion {
  major : Z;
  minor : Z;
  patch : Z;
}.

(** [rpc_sidecar/src/rpcs.rs:54-54], [CURRENT_API_VERSION]. *)
Definition CURRENT_API_VERSION : ApiVersion := mkVersion 2 0 0.

(** [rpc_sidecar/src/rpcs.rs:56-60], [ALLOW_UNKNOWN_FIELDS_IN_JSON_RPC_REQUEST]. *)
Definition ALLOW_UNKNOWN_FIELDS_IN_JSON_RPC_REQUEST : bool := true.

(** [rpc_sidecar/src/rpcs.rs:414-423], [Serialize for ApiVersion], in the
    human-readable form of JSON. *)
#[export] Instance Serialize_ApiVersion : Serialize ApiVersion := fun v =>
  Ok (VString (pretty (major v) +:+ "." +:+ pretty (minor v) +:+ "." +:+ pretty (patch v))).

(** ** The traits *)

Section Traits.
Context `{CasperTypes} `{BinaryPort}.

(** [rpc_sidecar/src/rpcs.rs:62-83], [RpcWithParams]: the associated constant,
    types and the handler. *)
Record RpcWithParams := mkWithParams {
  wp_METHOD : string;
  wp_RequestParams : Type;
  wp_ResponseResult : Type;
  wp_deserialize : Deserialize wp_RequestParams;
  wp_serialize : Serialize wp_ResponseResult;
  wp_do_handle_request : wp_RequestParams -> node (result RpcError wp_ResponseResult);
}.

(** [rpc_sidecar/src/rpcs.rs:145-158], [RpcWithoutParams]. *)
Record RpcWithoutParams := mkWithoutParams {
  wo_METHOD : string;
  wo_ResponseResult : Type;
  wo_serialize : Serialize wo_ResponseResult;
  wo_do_handle_request : node (result RpcError wo_ResponseResult);
}.

(** [rpc_sidecar/src/rpcs.rs:208-233], [RpcWithOptionalParams]. *)
Record RpcWithOptionalParams := mkWithOptionalParams {
  op_METHOD : string;
  op_OptionalRequestParams : Type;
  op_ResponseResult : Type;
  op_deserialize : Deserialize op_OptionalRequestParams;
  op_serialize : Serialize op_ResponseResult;
  op_do_handle_request : option op_OptionalRequestParams -> node (result RpcError op_ResponseResult);
}.

#[local] Existing Instances wp_deserialize wp_serialize wo_serialize op_deserialize op_serialize.

Definition invalid_params (message : string) : RpcError := Error_new InvalidParams message.

(** [rpc_sidecar/src/rpcs.rs:85-102], [RpcWithParams::try_parse_params]. *)
Definition wp_try_parse_params (R : RpcWithParams) (maybe_params : option Params)
    : result RpcError (wp_RequestParams R) :=
  match maybe_params with
  | Some params =>
      map_err (fun error => invalid_params ("Failed to parse 'params' field: " +:+ error))
        (from_value (Value_from_Params params))
  | None => Err (invalid_params "Missing 'params' field")
  end.

(** [rpc_sidecar/src/rpcs.rs:160-170], [RpcWithoutParams::check_no_params]. *)
Definition check_no_params (maybe_params : option Params) : result RpcError unit :=
  if negb (Params_is_empty (default Params_default maybe_params))
  then Err (invalid_params
         "'params' field should be an empty Array '[]', an empty Object '{}' or absent")
  else Ok tt.

(** [rpc_sidecar/src/rpcs.rs:235-256], [RpcWithOptionalParams::try_parse_params]. *)
Definition op_try_parse_params (R : RpcWithOptionalParams) (maybe_params : option Params)
    : result RpcError (option (op_OptionalRequestParams R)) :=
  let params :=
    match maybe_params with
    | Some params => if Params_is_empty params then VNull else Value_from_Params params
    | None => VNull
    end in
  map_err (fun error => invalid_params ("Failed to parse 'params' field: " +:+ error)) (from_value params).

(** The closures that [register_as_handler] registers. *)
Definition wp_handler (R : RpcWithParams) (maybe_params : option Params)
    : node (result RpcError (wp_ResponseResult R)) :=
  let! params := lift (wp_try_parse_params R maybe_params) in
  wp_do_handle_request R params.

Definition wo_handler (R : RpcWithoutParams) (maybe_params : option Params)
    : node (result RpcError (wo_ResponseResult R)) :=
  let! _ := lift (check_no_params maybe_params) in
  wo_do_handle_request R.

Definition op_handler (R : RpcWithOptionalParams) (maybe_params : option Params)
    : node (result RpcError (op_ResponseResult R)) :=
  let! params := lift (op_try_parse_params R maybe_params) in
  op_do_handle_request R params.

Section Register.
Context {World : Type} (C : NodeClientT World) (direct : Quota -> World -> option string * World).
Local Abbreviation Builder :=
  (gmap string ((option Params -> World -> result RpcError Value * World) * (World -> option string * World))).

(** [rpc_sidecar/src/rpcs.rs:104-126], [RpcWithParams::register_as_handler]. *)
Definition wp_register_as_handler (R : RpcWithParams) (builder : Builder) (limit : ConfigLimit) : Builder :=
  register_handler direct builder (wp_METHOD R) (fun params w => run C (wp_handler R params) w) limit.

(** [rpc_sidecar/src/rpcs.rs:172-191], [RpcWithoutParams::register_as_handler]. *)
Definition wo_register_as_handler (R : RpcWithoutParams) (builder : Builder) (limit : ConfigLimit) : Builder :=
  register_handler direct builder (wo_METHOD R) (fun params w => run C (wo_handler R params) w) limit.

(** [rpc_sidecar/src/rpcs.rs:258-280], [RpcWithOptionalParams::register_as_handler]. *)
Definition op_register_as_handler (R : RpcWithOptionalParams) (builder : Builder) (limit : ConfigLimit)
    : Builder :=
  register_handler direct builder (op_METHOD R) (fun params w => run C (op_handler R params) w) limit.

End Register.
End Traits.

#[export] Existing Instances wp_deserialize wp_serialize wo_serialize op_deserialize op_serialize.

(** ** Errors of a handler *)

Section Into.
Context `{CasperOps} `{BinaryPort} `{!Serialize AvailableBlockRange}.

(** [?] at the end of the calls of a handler: [From<Error> for RpcError]. *)
Definition into_rpc {A} (p : node (result RpcErr.Error A)) : node (result RpcError A) :=
  node_map_err RpcError_from p.

(** [.map_err(|err| Error::NodeRequest(what, err))]. *)
Definition requesting {A} (what : string) (p : node (result ClientError A)) : node (result RpcErr.Error A) :=
  node_map_err (RpcErr.NodeRequest what) p.

End Into.

(** ** JSON of the node's values *)

(** How the values of [casper_types] that appear in responses are encoded. *)
Class CasperJson `{CasperTypes} := {
  #[global] json_DeployHash :: Serialize DeployHash;
  #[global] json_TransactionHash :: Serialize TransactionHash;
  #[global] json_Deploy :: Serialize Deploy;
  #[global] json_Transaction :: Serialize Transaction;
  #[global] json_JsonBlockWithSignatures :: Serialize JsonBlockWithSignatures;
  #[global] json_BlockHeader :: Serialize BlockHeader;
  #[global] json_Transfer :: Serialize Transfer;
  #[global] json_Digest :: Serialize Digest;
  #[global] json_StoredValue :: Serialize StoredValue;
  #[global] json_ExecutionInfo :: Serialize ExecutionInfo;
  #[global] json_Peers :: Serialize Peers;
  #[global] json_PublicKey :: Serialize PublicKey;
  #[global] json_ValidatorChange :: Serialize ValidatorChange;
  #[global] json_ChainspecRawBytes :: Serialize ChainspecRawBytes;
  #[global] json_ProtocolVersion :: Serialize ProtocolVersion;
  #[global] json_MinimalBlockInfo :: Serialize MinimalBlockInfo;
  #[global] json_NextUpgrade :: Serialize NextUpgrade;
  #[global] json_AvailableBlockRange :: Serialize AvailableBlockRange;
  #[global] json_BlockSynchronizerStatus :: Serialize BlockSynchronizerStatus;
  #[global] json_Account :: Serialize Account;
  #[global] json_AddressableEntity :: Serialize AddressableEntity;
  #[global] json_EntryPointValue :: Serialize EntryPointValue;
  #[global] json_ByteCode :: Serialize ByteCode;
  #[global] json_Contract :: Serialize Contract;
  #[global] json_ContractWasm :: Serialize ContractWasm;
  #[global] json_Package :: Serialize Package;
  #[global] json_ContractPackage :: Serialize ContractPackage;
  #[global] json_SpeculativeExecutionResult :: Serialize SpeculativeExecutionResult;
  json_NamedKeys : BTreeMap string Key -> result string Value;
  json_BlockHash : BlockHash -> result string Value;
  json_EraId : EraId -> result string Value;
  json_U512 : U512 -> result string Value;
  json_TimeDiff : TimeDiff -> result string Value;
  json_Timestamp : Timestamp -> result string Value;
  json_BlockTime : BlockTime -> result string Value;
  json_Bytes : list Z -> result string Value;
}.

(** [null] for an absent value. *)
Definition json_option {T} (json : T -> result string Value) (o : option T) : result string Value :=
  match o with Some t => json t | None => Ok VNull end.

(** An unsigned integer. *)
Definition json_u64 (n : Z) : result string Value := Ok (VNumber (PosInt n)).
