(* ===== verification/NodeSample.v ===== *)
(** * A sample node

    Concrete instances of the classes [BinaryPort], [PortPayloads] and
    [CasperJson] over the sample types, and the answers of a small node.  A
    response is its error code, the tag of its type and its payload. *)

From S2P Require Import Prelude Json NodeErrors NodeClient CachingClient BTreeMap Casper.
From S2P Require Import CasperSample RpcErrors NodeRequests RpcTraits.

Module SampleNode.
Export SampleTypes.

(** A response: its error code, the tag of its type, and its payload.  Code 1
    says that the item was not found. *)
Definition Resp : Type := Z * option Z * list Z.

#[export] Instance port : BinaryPort := {|
  Command := list Z;
  CommandHeader := Z * Z;
  BinaryResponse := Resp;
  BinaryResponseAndRequest := Resp;
  HEADER_VERSION := 1;
  command_tag _ := 7;
  CommandHeader_new tag id := (tag, id);
  header_id h := h.2;
  CommandHeader_write_bytes h := Ok [1; 0; h.1; h.2 mod 256; h.2 / 256];
  CommandHeader_from_bytes bs :=
    match bs with
    | _ :: _ :: tag :: lo :: hi :: rest => Ok ((tag, lo + 256 * hi), rest)
    | _ => Err "early end of stream"
    end;
  Command_write_bytes c := Ok c;
  request r := r.2;
  response r := r;
  BinaryResponseAndRequest_from_bytes bs := Ok (0, None, bs);
  is_not_found r := r.1.1 =? 1;
  is_success r := r.1.1 =? 0;
  error_code r := r.1.1;
  returned_data_type_tag r := r.1.2;
  payload r := r.2;
|}.

#[export] Instance codes : BinaryPortCodes := sample_codes.

Definition malformed {A} : result string A := Err "malformed payload".

(** A list of values of the global state, each a kind and a number. *)
Fixpoint stored_of (bs : list Z) : list Stored :=
  match bs with
  | 0 :: b :: bs => StoredAccount b :: stored_of bs
  | 2 :: b :: bs => StoredNamedKey (pretty b) b :: stored_of bs
  | 3 :: b :: bs => StoredEntryPoint b :: stored_of bs
  | _ :: b :: bs => StoredCl [b] :: stored_of bs
  | _ => []
  end.

Definition one {A} (f : Z -> A) (bs : list Z) : result string A :=
  match bs with [b] => Ok (f b) | _ => malformed end.

#[export] Instance payloads : PortPayloads := {|
  payload_QueryResult := {| RESPONSE_TYPE := 1;
    deserialize_from_slice bs :=
      match stored_of bs with v :: _ => Ok (mkQueryResult v [7]) | [] => malformed end |};
  payload_StoredValues := {| RESPONSE_TYPE := 2; deserialize_from_slice bs := Ok (stored_of bs) |};
  payload_Balance := {| RESPONSE_TYPE := 3;
    deserialize_from_slice bs :=
      match bs with
      | [total; available; time; hold] =>
          Ok (mkBalance total available 7 [(time, [(0, (hold, 8))])])
      | _ => malformed
      end |};
  payload_Trie := {| RESPONSE_TYPE := 4; deserialize_from_slice bs := Ok (mkTrie (Some bs)) |};
  payload_Dictionary := {| RESPONSE_TYPE := 5;
    deserialize_from_slice bs :=
      match stored_of bs with
      | v :: _ => Ok (mkDictionaryResult 9 (mkQueryResult v [7]))
      | [] => malformed
      end |};
  payload_SpeculativeExec := {| RESPONSE_TYPE := 6; deserialize_from_slice := one id |};
  payload_Transfers := {| RESPONSE_TYPE := 7; deserialize_from_slice bs := Ok bs |};
  payload_BlockHeader := {| RESPONSE_TYPE := 8;
    deserialize_from_slice bs :=
      match bs with
      | [height; era; root; switch; major] => Ok (mkHeader height era root (switch =? 1) major)
      | _ => malformed
      end |};
  payload_Block := {| RESPONSE_TYPE := 9; deserialize_from_slice := one (fun b => mkBlock b (b + 1)) |};
  payload_Transaction := {| RESPONSE_TYPE := 10;
    deserialize_from_slice bs :=
      match bs with
      | [0; d] => Ok (mkTransactionInfo (TxDeploy d) None)
      | [1; t] => Ok (mkTransactionInfo (TxV1 t) None)
      | _ => malformed
      end |};
  payload_Peers := {| RESPONSE_TYPE := 11; deserialize_from_slice := one id |};
  payload_Range := {| RESPONSE_TYPE := 12;
    deserialize_from_slice bs := match bs with [low; high] => Ok (low, high) | _ => malformed end |};
  payload_Chainspec := {| RESPONSE_TYPE := 13; deserialize_from_slice := one id |};
  payload_ValidatorChanges := {| RESPONSE_TYPE := 14;
    deserialize_from_slice := one (fun b => mkChanges [(b, [(2, 0); (1, 1)])]) |};
  payload_NodeStatus := {| RESPONSE_TYPE := 15; deserialize_from_slice _ := malformed |};
  payload_Reward := {| RESPONSE_TYPE := 16;
    deserialize_from_slice := one (fun b => mkReward b 3 10 "block-40") |};
  payload_ContractPackage := {| RESPONSE_TYPE := 17;
    deserialize_from_slice := one (fun b => mkWithProof b [7]) |};
  payload_Package := {| RESPONSE_TYPE := 18;
    deserialize_from_slice := one (fun b => mkWithProof b [7]) |};
  payload_ContractInformation := {| RESPONSE_TYPE := 19;
    deserialize_from_slice := one (fun b => mkContractInfo b (mkWithProof b [7]) None) |};
  payload_AccountInformation := {| RESPONSE_TYPE := 20;
    deserialize_from_slice := one (fun b => mkAccountInfo b [7]) |};
  payload_EntityInformation := {| RESPONSE_TYPE := 21;
    deserialize_from_slice := one (fun b => mkEntityInfo b (mkWithProof b [7]) None) |};
  ResponseType_ContractPackageWithProof := 17;
  ResponseType_ContractInformation := 19;
  ResponseType_AccountInformation := 20;
|}.

#[export] Instance payload_laws : PortPayloadLaws.
Proof. split; try done; apply (bool_decide_unpack _); vm_compute; exact I. Qed.

Definition json_Z (z : Z) : result string Value := Ok (VNumber (PosInt z)).

#[export] Instance json : CasperJson := {|
  json_DeployHash := json_Z; json_TransactionHash := json_Z; json_Deploy := json_Z;
  json_Transaction t := match t with TxDeploy d => json_Z d | TxV1 t => json_Z t end;
  json_JsonBlockWithSignatures b := json_Z b.1; json_BlockHeader h := json_Z (h_height h);
  json_Transfer := json_Z; json_Digest := json_Z;
  json_StoredValue v := Ok (VString (StoredValue_type_name v));
  json_ExecutionInfo := json_Z; json_Peers := json_Z; json_PublicKey := json_Z;
  json_ValidatorChange := json_Z; json_ChainspecRawBytes := json_Z; json_ProtocolVersion := json_Z;
  json_MinimalBlockInfo := json_Z; json_NextUpgrade := json_Z;
  json_AvailableBlockRange r :=
    Ok (VObject [("low", VNumber (PosInt r.1)); ("high", VNumber (PosInt r.2))]);
  json_BlockSynchronizerStatus := json_Z; json_Account := json_Z; json_AddressableEntity := json_Z;
  json_EntryPointValue := json_Z; json_ByteCode := json_Z; json_Contract := json_Z;
  json_ContractWasm := json_Z; json_Package := json_Z; json_ContractPackage := json_Z;
  json_SpeculativeExecutionResult := json_Z;
  json_NamedKeys m := Ok (VObject (List.map (fun e => (e.1, VNumber (PosInt e.2))) m));
  json_BlockHash h := Ok (VString h); json_EraId := json_Z; json_U512 := json_Z; json_TimeDiff := json_Z;
  json_Timestamp := json_Z; json_BlockTime := json_Z; json_Bytes _ := Ok VNull;
|}.

(** ** Its answers *)

Definition found (tag : Z) (bytes : list Z) : result ClientError BinaryResponseAndRequest := Ok (0, Some tag, bytes).
Definition not_found : result ClientError BinaryResponseAndRequest := Ok (1, None, []).
Definition failed (code : Z) : result ClientError BinaryResponseAndRequest := Ok (code, None, []).

(** A node that has the blocks 40 to 50, of which 50 is the latest and 49 the
    latest switch block. *)
Definition answers (req : Request) : result ClientError BinaryResponseAndRequest :=
  match req with
  | Get (GetInformation InfoAvailableBlockRange) => found 12 [40; 50]
  | Get (GetInformation (InfoBlockHeader None)) => found 8 [50; 5; 500; 0; 2]
  | Get (GetInformation (InfoBlockHeader (Some (BlockHeight h)))) =>
      if (40 <=? h) && (h <=? 50)
      then found 8 [h; h / 10; h * 10; if h mod 10 =? 9 then 1 else 0; 2]
      else not_found
  | Get (GetInformation (InfoBlockWithSignatures (Some (BlockHeight h)))) =>
      if (40 <=? h) && (h <=? 50) then found 9 [h] else not_found
  | Get (GetInformation InfoLatestSwitchBlockHeader) => found 8 [49; 4; 490; 1; 2]
  | Get (GetInformation (InfoEntity _ (PortContractHash h) _)) => found 19 [h]
  | Get (GetInformation (InfoEntity _ (PortAccountHash h) _)) => found 20 [h]
  | Get (GetInformation (InfoEntity _ (PortEntityAddr h) _)) => found 21 [h]
  | Get (GetInformation (InfoPackage _ (PortContractPackageHash h))) => found 17 [h]
  | Get (GetInformation (InfoPackage _ (PortPackageAddr h))) => found 18 [h]
  | Get (GetState _ (Item k _)) => if decide (k = Key_EraSummary) then found 1 [1; 11] else not_found
  | Get (GetState _ (ItemsByPrefix (NamedKeysByEntity _))) => found 2 [2; 20; 2; 3; 2; 20]
  | Get (GetState _ (ItemsByPrefix (EntryPointsV1ByEntity _))) => found 2 [3; 1]
  | Get (GetState _ (ItemsByPrefix (EntryPointsV2ByEntity _))) => found 2 [3; 2]
  | Get (GetState _ (AllItems _)) => found 2 []
  | TryAcceptTransaction (TxDeploy d) => if (d : Z) =? 0 then failed 29 else Ok (0, None, [])
  | TryAcceptTransaction (TxV1 _) => Ok (0, None, [])
  | _ => not_found
  end.

End SampleNode.
