(* ===== verification/RpcCommon.v ===== *)
(** * Shared parts of the handlers ([rpc_sidecar/src/rpcs/common.rs])

    Fetching blocks with the error that names the blocks a node has, collecting
    the named keys and entry points of an entity, and encoding proofs. *)

From S2P Require Import Prelude Json NodeErrors NodeClient CachingClient BTreeMap Casper RpcErrors.
From S2P Require Import NodeRequests RpcTraits.

(** [collect::<Result<Vec<_>, _>>()]: all values, or the first error. *)
Definition collect {E A} (l : list (result E A)) : result E (list A) := mapM (M := result E) id l.

Section Common.
Context `{CasperOps} `{BinaryPort} `{BinaryPortCodes} `{!PortPayloads}.

(** [rpc_sidecar/src/rpcs/common.rs:76-88], [ByteCodeWithProof]. *)
Record ByteCodeWithProof := mkByteCode {
  bytecode_code : ByteCode;
  bytecode_merkle_proof : string;
}.

(** [rpc_sidecar/src/rpcs/common.rs:90-102], [ContractWasmWithProof]. *)
Record ContractWasmWithProof := mkWasm {
  wasm_wasm : ContractWasm;
  wasm_merkle_proof : string;
}.

(** [rpc_sidecar/src/rpcs/common.rs:42-65], [EntityWithBackwardCompat]. *)
Inductive EntityWithBackwardCompat :=
| CompatAddressableEntity (entity : AddressableEntity) (named_keys : BTreeMap string Key)
    (entry_points : list EntryPointValue) (bytecode : option ByteCodeWithProof)
| CompatAccount (account : Account)
| CompatContract (contract : Contract) (wasm : option ContractWasmWithProof).

(** [rpc_sidecar/src/rpcs/common.rs:67-74], [PackageWithBackwardCompat]. *)
Inductive PackageWithBackwardCompat :=
| CompatPackage (package : Package)
| CompatContractPackage (package : ContractPackage).

(** The answer when a block is missing: the blocks the node has. *)
Definition missing_block {A} (identifier : option BlockIdentifier) : node (result RpcErr.Error A) :=
  let! available_range := requesting "available block range" read_available_block_range in
  Ret (Err (RpcErr.NoBlockFound identifier available_range)).

(** [rpc_sidecar/src/rpcs/common.rs:104-121], [get_block_with_signatures]. *)
Definition get_block_with_signatures (maybe_identifier : option BlockIdentifier)
    : node (result RpcErr.Error BlockWithSignatures) :=
  let! block := requesting "block with signatures" (read_block_with_signatures maybe_identifier) in
  match block with
  | Some block => Ret (Ok block)
  | None => missing_block maybe_identifier
  end.

(** [rpc_sidecar/src/rpcs/common.rs:123-140], [get_block_header]. *)
Definition get_block_header (identifier : option BlockIdentifier) : node (result RpcErr.Error BlockHeader) :=
  let! header := requesting "block header" (read_block_header identifier) in
  match header with
  | Some header => Ret (Ok header)
  | None => missing_block identifier
  end.

(** [rpc_sidecar/src/rpcs/common.rs:142-158], [get_latest_switch_block_header]. *)
Definition get_latest_switch_block_header : node (result RpcErr.Error BlockHeader) :=
  let! header := requesting "latest switch block header" read_latest_switch_block_header in
  match header with
  | Some header => Ret (Ok header)
  | None => missing_block None
  end.

(** The closure over the stored values in [get_entity_named_keys]. *)
Definition named_key_of (stored_value : StoredValue) : result RpcErr.Error (string * Key) :=
  match StoredValue_as_named_key stored_value with
  | Some named_key =>
      let? key := map_err RpcErr.InvalidNamedKeys (NamedKeyValue_get_key named_key) in
      let? name := map_err RpcErr.InvalidNamedKeys (NamedKeyValue_get_name named_key) in
      Ok (name, key)
  | None =>
      Err (RpcErr.InvalidNamedKeys ("unexpected stored value: " +:+ StoredValue_type_name stored_value))
  end.

(** [rpc_sidecar/src/rpcs/common.rs:160-189], [get_entity_named_keys]. *)
Definition get_entity_named_keys (entity_addr : EntityAddr)
    (state_identifier : option GlobalStateIdentifier) : node (result RpcErr.Error (BTreeMap string Key)) :=
  let! stored_values :=
    requesting "entity named keys"
      (query_global_state_by_prefix state_identifier (NamedKeysByEntity entity_addr)) in
  let! named_keys := lift (mapM named_key_of stored_values) in
  Ret (Ok (from_iter named_keys)).

(** The closure over the stored values in [get_entity_entry_points]. *)
Definition entry_point_of (stored_value : StoredValue) : result RpcErr.Error EntryPointValue :=
  match StoredValue_as_entry_point stored_value with
  | Some entry_point => Ok entry_point
  | None =>
      Err (RpcErr.InvalidNamedKeys ("unexpected stored value: " +:+ StoredValue_type_name stored_value))
  end.

(** [rpc_sidecar/src/rpcs/common.rs:191-225], [get_entity_entry_points]. *)
Definition get_entity_entry_points (entity_addr : EntityAddr)
    (state_identifier : option GlobalStateIdentifier) : node (result RpcErr.Error (list EntryPointValue)) :=
  let! stored_values_v1 :=
    requesting "entity named keys"
      (query_global_state_by_prefix state_identifier (EntryPointsV1ByEntity entity_addr)) in
  let! stored_values_v2 :=
    requesting "entity named keys"
      (query_global_state_by_prefix state_identifier (EntryPointsV2ByEntity entity_addr)) in
  lift (mapM entry_point_of (stored_values_v1 ++ stored_values_v2)).

(** [rpc_sidecar/src/rpcs/common.rs:227-231], [encode_proof]. *)
Definition encode_proof (proof : list TrieMerkleProof) : result RpcErr.Error string :=
  let? bytes := map_err RpcErr.BytesreprFailure (proofs_to_bytes proof) in
  Ok (encode_lower bytes).

End Common.

(** ** What the helpers ask *)

Section CommonAsks.
Context `{CasperOps} `{BinaryPort} `{BinaryPortCodes} `{!PortPayloads}.

Lemma asks_requesting {A} (P : Request -> Prop) (n : nat) (what : string) (p : node (result ClientError A)) :
  asks P n p -> asks P n (requesting what p).
Proof. apply asks_map_err. Qed.
#[local] Hint Resolve asks_requesting : asks.

Lemma asks_missing_block {A} id : asks reads_only 1 (missing_block (A := A) id).
Proof. unfold missing_block. solve_asks. Qed.
#[local] Hint Resolve asks_missing_block : asks.

Lemma asks_get_block id : asks reads_only 2 (get_block_with_signatures id).
Proof. unfold get_block_with_signatures. solve_asks. Qed.

Lemma asks_get_header id : asks reads_only 2 (get_block_header id).
Proof. unfold get_block_header. solve_asks. Qed.

Lemma asks_get_switch_header : asks reads_only 2 get_latest_switch_block_header.
Proof. unfold get_latest_switch_block_header. solve_asks. Qed.

Lemma asks_named_keys addr id : asks reads_only 1 (get_entity_named_keys addr id).
Proof. unfold get_entity_named_keys. solve_asks. Qed.

Lemma asks_entry_points addr id : asks reads_only 2 (get_entity_entry_points addr id).
Proof. unfold get_entity_entry_points. solve_asks. Qed.

End CommonAsks.

#[export] Hint Resolve asks_requesting asks_get_block asks_get_header asks_get_switch_header
  asks_named_keys asks_entry_points : asks.
