(* ===== verification/RpcAccount.v ===== *)
(** * Submitting and trying transactions

    The methods that hand a transaction to the node: [rpcs/account.rs], and
    [rpcs/speculative_exec.rs] for the speculative execution server. *)

From S2P Require Import Prelude Json JsonRpc NodeErrors NodeClient CachingClient BTreeMap Casper.
From S2P Require Import RpcErrors NodeRequests RpcTraits RpcCommon.

Section Account.
Context `{CasperOps} `{BinaryPort} `{BinaryPortCodes} `{!PortPayloads, !CasperJson}.

(** [rpc_sidecar/src/rpcs/account.rs:37-43], [PutDeployParams]. *)
Record PutDeployParams := mkPutDeployParams { pdp_deploy : Deploy }.

(** [rpc_sidecar/src/rpcs/account.rs:51-60], [PutDeployResult]. *)
Record PutDeployResult := mkPutDeployResult {
  pdr_api_version : ApiVersion;
  pdr_deploy_hash : DeployHash;
}.

#[export] Instance Serialize_PutDeployResult : Serialize PutDeployResult := fun r =>
  struct_value [("api_version", to_value (pdr_api_version r)); ("deploy_hash", to_value (pdr_deploy_hash r))].

(** [rpc_sidecar/src/rpcs/account.rs:77-93], [PutDeploy::do_handle_request]. *)
Definition put_deploy (params : PutDeployParams) : node (result RpcError PutDeployResult) :=
  let deploy_hash := Deploy_hash (pdp_deploy params) in
  try_accept_transaction (TxDeploy (pdp_deploy params)) ≫= fun r =>
  Ret match r with
      | Ok _ => Ok (mkPutDeployResult CURRENT_API_VERSION deploy_hash)
      | Err (ClientError.InvalidTransaction err) => Err (RpcError_from (RpcErr.InvalidDeploy err))
      | Err err => Err (RpcError_from (RpcErr.NodeRequest "submitting a deploy" err))
      end.

(** [rpc_sidecar/src/rpcs/account.rs:96-102], [PutTransactionParams]. *)
Record PutTransactionParams := mkPutTransactionParams { ptp_transaction : Transaction }.

(** [rpc_sidecar/src/rpcs/account.rs:110-119], [PutTransactionResult]. *)
Record PutTransactionResult := mkPutTransactionResult {
  ptr_api_version : ApiVersion;
  ptr_transaction_hash : TransactionHash;
}.

#[export] Instance Serialize_PutTransactionResult : Serialize PutTransactionResult := fun r =>
  struct_value [("api_version", to_value (ptr_api_version r));
                ("transaction_hash", to_value (ptr_transaction_hash r))].

(** [rpc_sidecar/src/rpcs/account.rs:136-149], [PutTransaction::do_handle_request]. *)
Definition put_transaction (params : PutTransactionParams) : node (result RpcError PutTransactionResult) :=
  let transaction_hash := Transaction_hash (ptp_transaction params) in
  try_accept_transaction (ptp_transaction params) ≫= fun r =>
  Ret match r with
      | Ok _ => Ok (mkPutTransactionResult CURRENT_API_VERSION transaction_hash)
      | Err (ClientError.InvalidTransaction err) => Err (RpcError_from (RpcErr.InvalidTransaction err))
      | Err err => Err (RpcError_from (RpcErr.NodeRequest "submitting a transaction" err))
      end.

(** [rpc_sidecar/src/rpcs/speculative_exec.rs:35-41], [SpeculativeExecTxnParams]. *)
Record SpeculativeExecTxnParams := mkSpecTxnParams { stp_transaction : Transaction }.

(** [rpc_sidecar/src/rpcs/speculative_exec.rs:49-59], [SpeculativeExecTxnResult]. *)
Record SpeculativeExecTxnResult := mkSpecTxnResult {
  str_api_version : ApiVersion;
  str_execution_result : SpeculativeExecutionResult;
}.

#[export] Instance Serialize_SpeculativeExecTxnResult : Serialize SpeculativeExecTxnResult := fun r =>
  struct_value [("api_version", to_value (str_api_version r));
                ("execution_result", to_value (str_execution_result r))].

(** [rpc_sidecar/src/rpcs/speculative_exec.rs:84-90], [SpeculativeExecParams]. *)
Record SpeculativeExecParams := mkSpecParams { sp_deploy : Deploy }.

(** [rpc_sidecar/src/rpcs/speculative_exec.rs:115-128], [handle_request]. *)
Definition handle_request (transaction : Transaction) : node (result RpcError SpeculativeExecTxnResult) :=
  into_rpc
    (let! speculative_execution_result :=
       requesting "speculatively executing a transaction" (exec_speculatively transaction) in
     Ret (Ok (mkSpecTxnResult CURRENT_API_VERSION speculative_execution_result))).

(** [rpc_sidecar/src/rpcs/speculative_exec.rs:76-81], [SpeculativeExecTxn::do_handle_request]. *)
Definition speculative_exec_txn (params : SpeculativeExecTxnParams)
    : node (result RpcError SpeculativeExecTxnResult) :=
  handle_request (stp_transaction params).

(** [rpc_sidecar/src/rpcs/speculative_exec.rs:107-112], [SpeculativeExec::do_handle_request]. *)
Definition speculative_exec (params : SpeculativeExecParams)
    : node (result RpcError SpeculativeExecTxnResult) :=
  handle_request (TxDeploy (sp_deploy params)).

Context `{!Deserialize PutDeployParams, !Deserialize PutTransactionParams,
          !Deserialize SpeculativeExecTxnParams, !Deserialize SpeculativeExecParams}.

(** [rpc_sidecar/src/rpcs/account.rs:68-94], [RpcWithParams for PutDeploy]. *)
Definition PutDeploy : RpcWithParams :=
  mkWithParams "account_put_deploy" PutDeployParams PutDeployResult _ _ put_deploy.

(** [rpc_sidecar/src/rpcs/account.rs:127-150], [RpcWithParams for PutTransaction]. *)
Definition PutTransaction : RpcWithParams :=
  mkWithParams "account_put_transaction" PutTransactionParams PutTransactionResult _ _ put_transaction.

(** [rpc_sidecar/src/rpcs/speculative_exec.rs:67-82], [RpcWithParams for SpeculativeExecTxn]. *)
Definition SpeculativeExecTxn : RpcWithParams :=
  mkWithParams "speculative_exec_txn" SpeculativeExecTxnParams SpeculativeExecTxnResult _ _
    speculative_exec_txn.

(** [rpc_sidecar/src/rpcs/speculative_exec.rs:98-113], [RpcWithParams for SpeculativeExec]. *)
Definition SpeculativeExec : RpcWithParams :=
  mkWithParams "speculative_exec" SpeculativeExecParams SpeculativeExecTxnResult _ _ speculative_exec.

End Account.

(** ** What the methods ask *)

Section AccountAsks.
Context `{CasperOps} `{BinaryPort} `{BinaryPortCodes} `{!PortPayloads, !CasperJson}.
Context (P : Request -> Prop).

Lemma asks_try_accept (tx : Transaction) :
  P (TryAcceptTransaction tx) -> asks P 1 (try_accept_transaction tx).
Proof. intros HP. eapply (asks_try_left _ 1); [by apply asks_send|intros ?; apply asks_lift|lia]. Qed.

Lemma asks_put_deploy (p : PutDeployParams) :
  P (TryAcceptTransaction (TxDeploy (pdp_deploy p))) -> asks P 1 (put_deploy p).
Proof. intros HP. apply (asks_bind _ 1 0); [by apply asks_try_accept|intros ?; apply asks_Ret]. Qed.

Lemma asks_put_transaction (p : PutTransactionParams) :
  P (TryAcceptTransaction (ptp_transaction p)) -> asks P 1 (put_transaction p).
Proof. intros HP. apply (asks_bind _ 1 0); [by apply asks_try_accept|intros ?; apply asks_Ret]. Qed.

Lemma asks_speculative (tx : Transaction) : P (TrySpeculativeExec tx) -> asks P 1 (handle_request tx).
Proof.
  intros HP. apply asks_map_err, (asks_try_left _ 1); [|intros ?; apply asks_Ret|lia].
  apply asks_map_err, (asks_try_left _ 1); [by apply asks_send|intros ?; apply asks_lift|lia].
Qed.

End AccountAsks.
