(* ===== verification/RpcChain.v ===== *)
(** * Methods on the block chain ([rpc_sidecar/src/rpcs/chain.rs])

    Blocks, transfers, state roots and era summaries. *)

From S2P Require Import Prelude Json JsonRpc NodeErrors NodeClient CachingClient BTreeMap Casper.
From S2P Require Import RpcErrors NodeRequests RpcTraits RpcCommon.

Section Chain.
Context `{CasperOps} `{BinaryPort} `{BinaryPortCodes} `{!PortPayloads, !CasperJson}.

(** *** Blocks *)

(** [rpc_sidecar/src/rpcs/chain.rs:70-76], [GetBlockParams]. *)
Record GetBlockParams := mkGetBlockParams { gbp_block_identifier : BlockIdentifier }.

(** [rpc_sidecar/src/rpcs/chain.rs:84-93], [GetBlockResult]. *)
Record GetBlockResult := mkGetBlockResult {
  gbr_api_version : ApiVersion;
  gbr_block_with_signatures : option JsonBlockWithSignatures;
}.

#[export] Instance Serialize_GetBlockResult : Serialize GetBlockResult := fun r =>
  struct_value [("api_version", to_value (gbr_api_version r));
                ("block_with_signatures", to_value (gbr_block_with_signatures r))].

(** [rpc_sidecar/src/rpcs/chain.rs:110-122], [GetBlock::do_handle_request]. *)
Definition get_block (maybe_params : option GetBlockParams) : node (result RpcError GetBlockResult) :=
  let identifier := gbp_block_identifier <$> maybe_params in
  into_rpc
    (let! b := get_block_with_signatures identifier in
     Ret (Ok (mkGetBlockResult CURRENT_API_VERSION
                (Some (JsonBlockWithSignatures_new (block b) (Some (block_signatures b))))))).

(** *** Transfers *)

(** [rpc_sidecar/src/rpcs/chain.rs:125-131], [GetBlockTransfersParams]. *)
Record GetBlockTransfersParams := mkGetBlockTransfersParams { gtp_block_identifier : BlockIdentifier }.

(** [rpc_sidecar/src/rpcs/chain.rs:139-150], [GetBlockTransfersResult]. *)
Record GetBlockTransfersResult := mkGetBlockTransfersResult {
  gtr_api_version : ApiVersion;
  gtr_block_hash : option BlockHash;
  gtr_transfers : option (list Transfer);
}.

#[export] Instance Serialize_GetBlockTransfersResult : Serialize GetBlockTransfersResult := fun r =>
  struct_value [("api_version", to_value (gtr_api_version r));
                ("block_hash", json_option json_BlockHash (gtr_block_hash r));
                ("transfers", to_value (gtr_transfers r))].

(** [rpc_sidecar/src/rpcs/chain.rs:167-182], [GetBlockTransfers::do_handle_request]. *)
Definition get_block_transfers (maybe_params : option GetBlockTransfersParams)
    : node (result RpcError GetBlockTransfersResult) :=
  let identifier := gtp_block_identifier <$> maybe_params in
  into_rpc
    (let! header := get_block_header identifier in
     let! transfers := requesting "block transfers" (read_block_transfers (header_block_hash header)) in
     Ret (Ok (mkGetBlockTransfersResult CURRENT_API_VERSION (Some (header_block_hash header)) transfers))).

(** *** State roots *)

(** [rpc_sidecar/src/rpcs/chain.rs:185-191], [GetStateRootHashParams]. *)
Record GetStateRootHashParams := mkGetStateRootHashParams { gsp_block_identifier : BlockIdentifier }.

(** [rpc_sidecar/src/rpcs/chain.rs:199-208], [GetStateRootHashResult]. *)
Record GetStateRootHashResult := mkGetStateRootHashResult {
  gsr_api_version : ApiVersion;
  gsr_state_root_hash : option Digest;
}.

#[export] Instance Serialize_GetStateRootHashResult : Serialize GetStateRootHashResult := fun r =>
  struct_value [("api_version", to_value (gsr_api_version r));
                ("state_root_hash", to_value (gsr_state_root_hash r))].

(** [rpc_sidecar/src/rpcs/chain.rs:225-235], [GetStateRootHash::do_handle_request]. *)
Definition get_state_root_hash (maybe_params : option GetStateRootHashParams)
    : node (result RpcError GetStateRootHashResult) :=
  let identifier := gsp_block_identifier <$> maybe_params in
  into_rpc
    (let! block_header := get_block_header identifier in
     Ret (Ok (mkGetStateRootHashResult CURRENT_API_VERSION (Some (header_state_root_hash block_header))))).

(** *** Eras *)

(** [rpc_sidecar/src/rpcs/chain/era_summary.rs:45-59], [EraSummary]. *)
Record EraSummary := mkEraSummary {
  es_block_hash : BlockHash;
  es_era_id : EraId;
  es_stored_value : StoredValue;
  es_state_root_hash : Digest;
  es_merkle_proof : string;
}.

#[export] Instance Serialize_EraSummary : Serialize EraSummary := fun r =>
  struct_value [("block_hash", json_BlockHash (es_block_hash r));
                ("era_id", json_EraId (es_era_id r));
                ("stored_value", to_value (es_stored_value r));
                ("state_root_hash", to_value (es_state_root_hash r));
                ("merkle_proof", to_value (es_merkle_proof r))].

(** [rpc_sidecar/src/rpcs/chain.rs:365-377], [create_era_summary]. *)
Definition create_era_summary (block_header : BlockHeader) (stored_value : StoredValue)
    (merkle_proof : list TrieMerkleProof) : result RpcErr.Error EraSummary :=
  let? merkle_proof := encode_proof merkle_proof in
  Ok (mkEraSummary (header_block_hash block_header) (header_era_id block_header) stored_value
        (header_state_root_hash block_header) merkle_proof).

(** [rpc_sidecar/src/rpcs/chain.rs:361-403], [get_era_summary_by_block]. *)
Definition get_era_summary_by_block (block_header : BlockHeader) : node (result RpcErr.Error EraSummary) :=
  let state_identifier := StateRootHash (header_state_root_hash block_header) in
  let! result := requesting "era summary" (query_global_state (Some state_identifier) Key_EraSummary []) in
  match result with
  | Some result => lift (create_era_summary block_header (query_value result) (query_proof result))
  | None =>
      let! result :=
        requesting "era info"
          (query_global_state (Some state_identifier) (Key_EraInfo (header_era_id block_header)) []) in
      let! result := lift (ok_or result RpcErr.GlobalStateEntryNotFound) in
      lift (create_era_summary block_header (query_value result) (query_proof result))
  end.

(** [rpc_sidecar/src/rpcs/chain.rs:238-244], [GetEraInfoParams]. *)
Record GetEraInfoParams := mkGetEraInfoParams { gep_block_identifier : BlockIdentifier }.

(** [rpc_sidecar/src/rpcs/chain.rs:252-261], [GetEraInfoResult]. *)
Record GetEraInfoResult := mkGetEraInfoResult {
  ger_api_version : ApiVersion;
  ger_era_summary : option EraSummary;
}.

#[export] Instance Serialize_GetEraInfoResult : Serialize GetEraInfoResult := fun r =>
  struct_value [("api_version", to_value (ger_api_version r));
                ("era_summary", to_value (ger_era_summary r))].

(** The header a method on eras works with: the given block, or the latest switch
    block. *)
Definition era_block_header (identifier : option BlockIdentifier) : node (result RpcErr.Error BlockHeader) :=
  match identifier with
  | Some identifier => get_block_header (Some identifier)
  | None => get_latest_switch_block_header
  end.

(** [rpc_sidecar/src/rpcs/chain.rs:278-298], [GetEraInfoBySwitchBlock::do_handle_request]. *)
Definition get_era_info_by_switch_block (maybe_params : option GetEraInfoParams)
    : node (result RpcError GetEraInfoResult) :=
  into_rpc
    (let! block_header := era_block_header (gep_block_identifier <$> maybe_params) in
     let! era_summary :=
       if header_is_switch_block block_header
       then let! summary := get_era_summary_by_block block_header in Ret (Ok (Some summary))
       else Ret (Ok None) in
     Ret (Ok (mkGetEraInfoResult CURRENT_API_VERSION era_summary))).

(** [rpc_sidecar/src/rpcs/chain.rs:301-307], [GetEraSummaryParams]. *)
Record GetEraSummaryParams := mkGetEraSummaryParams { gesp_block_identifier : BlockIdentifier }.

(** [rpc_sidecar/src/rpcs/chain.rs:315-324], [GetEraSummaryResult]. *)
Record GetEraSummaryResult := mkGetEraSummaryResult {
  gesr_api_version : ApiVersion;
  gesr_era_summary : EraSummary;
}.

#[export] Instance Serialize_GetEraSummaryResult : Serialize GetEraSummaryResult := fun r =>
  struct_value [("api_version", to_value (gesr_api_version r));
                ("era_summary", to_value (gesr_era_summary r))].

(** [rpc_sidecar/src/rpcs/chain.rs:341-358], [GetEraSummary::do_handle_request]. *)
Definition get_era_summary (maybe_params : option GetEraSummaryParams)
    : node (result RpcError GetEraSummaryResult) :=
  into_rpc
    (let! block_header := era_block_header (gesp_block_identifier <$> maybe_params) in
     let! era_summary := get_era_summary_by_block block_header in
     Ret (Ok (mkGetEraSummaryResult CURRENT_API_VERSION era_summary))).

(** *** The methods *)

Context `{!Deserialize GetBlockParams, !Deserialize GetBlockTransfersParams,
          !Deserialize GetStateRootHashParams, !Deserialize GetEraInfoParams,
          !Deserialize GetEraSummaryParams}.

(** [rpc_sidecar/src/rpcs/chain.rs:101-123], [RpcWithOptionalParams for GetBlock]. *)
Definition GetBlock : RpcWithOptionalParams :=
  mkWithOptionalParams "chain_get_block" GetBlockParams GetBlockResult _ _ get_block.

(** [rpc_sidecar/src/rpcs/chain.rs:158-183], [RpcWithOptionalParams for GetBlockTransfers]. *)
Definition GetBlockTransfers : RpcWithOptionalParams :=
  mkWithOptionalParams "chain_get_block_transfers" GetBlockTransfersParams GetBlockTransfersResult _ _
    get_block_transfers.

(** [rpc_sidecar/src/rpcs/chain.rs:216-236], [RpcWithOptionalParams for GetStateRootHash]. *)
Definition GetStateRootHash : RpcWithOptionalParams :=
  mkWithOptionalParams "chain_get_state_root_hash" GetStateRootHashParams GetStateRootHashResult _ _
    get_state_root_hash.

(** [rpc_sidecar/src/rpcs/chain.rs:269-299], [RpcWithOptionalParams for GetEraInfoBySwitchBlock]. *)
Definition GetEraInfoBySwitchBlock : RpcWithOptionalParams :=
  mkWithOptionalParams "chain_get_era_info_by_switch_block" GetEraInfoParams GetEraInfoResult _ _
    get_era_info_by_switch_block.

(** [rpc_sidecar/src/rpcs/chain.rs:332-359], [RpcWithOptionalParams for GetEraSummary]. *)
Definition GetEraSummary : RpcWithOptionalParams :=
  mkWithOptionalParams "chain_get_era_summary" GetEraSummaryParams GetEraSummaryResult _ _ get_era_summary.

End Chain.

(** ** What the methods ask *)

Section ChainAsks.
Context `{CasperOps} `{BinaryPort} `{BinaryPortCodes} `{!PortPayloads, !CasperJson}.

Lemma asks_get_era_summary_by_block header : asks reads_only 2 (get_era_summary_by_block header).
Proof. unfold get_era_summary_by_block, into_rpc. solve_asks. Qed.

#[local] Hint Resolve asks_get_era_summary_by_block : asks.

Lemma asks_era_block_header id : asks reads_only 2 (era_block_header id).
Proof. unfold era_block_header. solve_asks. Qed.
#[local] Hint Resolve asks_era_block_header : asks.

Lemma asks_chain_get_block p : asks reads_only 2 (get_block p).
Proof. unfold get_block, into_rpc. solve_asks. Qed.

Lemma asks_chain_get_block_transfers p : asks reads_only 3 (get_block_transfers p).
Proof. unfold get_block_transfers, into_rpc. solve_asks. Qed.

Lemma asks_get_state_root_hash p : asks reads_only 2 (get_state_root_hash p).
Proof. unfold get_state_root_hash, into_rpc. solve_asks. Qed.

Lemma asks_get_era_info p : asks reads_only 4 (get_era_info_by_switch_block p).
Proof. unfold get_era_info_by_switch_block, into_rpc. solve_asks. Qed.

Lemma asks_get_era_summary p : asks reads_only 4 (get_era_summary p).
Proof. unfold get_era_summary, into_rpc. solve_asks. Qed.

End ChainAsks.

#[export] Hint Resolve asks_chain_get_block asks_chain_get_block_transfers asks_get_state_root_hash
  asks_get_era_info asks_get_era_summary : asks.
