(* ===== verification/RpcInfo.v ===== *)
(** * Methods on the node and its transactions ([rpc_sidecar/src/rpcs/info.rs]) *)

From S2P Require Import Prelude Json JsonRpc NodeErrors NodeClient CachingClient BTreeMap Casper.
From S2P Require Import RpcErrors NodeRequests RpcTraits RpcCommon.

Section Info.
Context `{CasperOps} `{BinaryPort} `{BinaryPortCodes} `{!PortPayloads, !CasperJson}.

(** *** Deploys and transactions *)

(** [rpc_sidecar/src/rpcs/info.rs:115-125], [GetDeployParams]. *)
Record GetDeployParams := mkGetDeployParams {
  gdp_deploy_hash : DeployHash;
  gdp_finalized_approvals : bool;
}.

(** [rpc_sidecar/src/rpcs/info.rs:139-150], [GetDeployResult]. *)
Record GetDeployResult := mkGetDeployResult {
  gdr_api_version : ApiVersion;
  gdr_deploy : Deploy;
  gdr_execution_info : option ExecutionInfo;
}.

#[export] Instance Serialize_GetDeployResult : Serialize GetDeployResult := fun r =>
  struct_value [("api_version", to_value (gdr_api_version r)); ("deploy", to_value (gdr_deploy r));
                ("execution_info", to_value (gdr_execution_info r))].

(** [rpc_sidecar/src/rpcs/info.rs:167-189], [GetDeploy::do_handle_request]. *)
Definition get_deploy (params : GetDeployParams) : node (result RpcError GetDeployResult) :=
  let hash := TransactionHash_from (gdp_deploy_hash params) in
  into_rpc
    (let! found :=
       requesting "transaction"
         (read_transaction_with_execution_info hash (gdp_finalized_approvals params)) in
     let! found := lift (ok_or found (RpcErr.NoDeployWithHash (gdp_deploy_hash params))) in
     match info_transaction found with
     | TxDeploy deploy => Ret (Ok (mkGetDeployResult CURRENT_API_VERSION deploy (info_execution found)))
     | TxV1 _ => Ret (Err RpcErr.FoundTransactionInsteadOfDeploy)
     end).

(** [rpc_sidecar/src/rpcs/info.rs:192-203], [GetTransactionParams]. *)
Record GetTransactionParams := mkGetTransactionParams {
  gxp_transaction_hash : TransactionHash;
  gxp_finalized_approvals : bool;
}.

(** [rpc_sidecar/src/rpcs/info.rs:211-222], [GetTransactionResult]. *)
Record GetTransactionResult := mkGetTransactionResult {
  gxr_api_version : ApiVersion;
  gxr_transaction : Transaction;
  gxr_execution_info : option ExecutionInfo;
}.

#[export] Instance Serialize_GetTransactionResult : Serialize GetTransactionResult := fun r =>
  struct_value [("api_version", to_value (gxr_api_version r));
                ("transaction", to_value (gxr_transaction r));
                ("execution_info", to_value (gxr_execution_info r))].

(** [rpc_sidecar/src/rpcs/info.rs:239-258], [GetTransaction::do_handle_request]. *)
Definition get_transaction (params : GetTransactionParams) : node (result RpcError GetTransactionResult) :=
  into_rpc
    (let! found :=
       requesting "transaction"
         (read_transaction_with_execution_info (gxp_transaction_hash params)
            (gxp_finalized_approvals params)) in
     let! found := lift (ok_or found (RpcErr.NoTransactionWithHash (gxp_transaction_hash params))) in
     Ret (Ok (mkGetTransactionResult CURRENT_API_VERSION (info_transaction found) (info_execution found)))).

(** *** Peers *)

(** [rpc_sidecar/src/rpcs/info.rs:261-270], [GetPeersResult]. *)
Record GetPeersResult := mkGetPeersResult {
  gpr_api_version : ApiVersion;
  gpr_peers : Peers;
}.

#[export] Instance Serialize_GetPeersResult : Serialize GetPeersResult := fun r =>
  struct_value [("api_version", to_value (gpr_api_version r)); ("peers", to_value (gpr_peers r))].

(** [rpc_sidecar/src/rpcs/info.rs:286-297], [GetPeers::do_handle_request]. *)
Definition get_peers : node (result RpcError GetPeersResult) :=
  into_rpc
    (let! peers := requesting "peers" read_peers in
     Ret (Ok (mkGetPeersResult CURRENT_API_VERSION peers))).

(** *** Changes of validators *)

(** [rpc_sidecar/src/rpcs/info.rs:300-317], [JsonValidatorStatusChange]. *)
Record JsonValidatorStatusChange := mkStatusChange {
  jsc_era_id : EraId;
  jsc_validator_change : ValidatorChange;
}.

(** [rpc_sidecar/src/rpcs/info.rs:319-339], [JsonValidatorChanges]. *)
Record JsonValidatorChanges := mkValidatorChanges {
  jvc_public_key : PublicKey;
  jvc_status_changes : list JsonValidatorStatusChange;
}.

#[export] Instance Serialize_JsonValidatorStatusChange : Serialize JsonValidatorStatusChange := fun r =>
  struct_value [("era_id", json_EraId (jsc_era_id r));
                ("validator_change", to_value (jsc_validator_change r))].

#[export] Instance Serialize_JsonValidatorChanges : Serialize JsonValidatorChanges := fun r =>
  struct_value [("public_key", to_value (jvc_public_key r));
                ("status_changes", to_value (jvc_status_changes r))].

(** [rpc_sidecar/src/rpcs/info.rs:341-350], [GetValidatorChangesResult]. *)
Record GetValidatorChangesResult := mkGetValidatorChangesResult {
  gvr_api_version : ApiVersion;
  gvr_changes : list JsonValidatorChanges;
}.

#[export] Instance Serialize_GetValidatorChangesResult : Serialize GetValidatorChangesResult := fun r =>
  struct_value [("api_version", to_value (gvr_api_version r)); ("changes", to_value (gvr_changes r))].

(** [rpc_sidecar/src/rpcs/info.rs:352-372], [GetValidatorChangesResult::new]. *)
Definition GetValidatorChangesResult_new
    (changes : BTreeMap PublicKey (list (EraId * ValidatorChange))) : GetValidatorChangesResult :=
  let changes :=
    (fun '(public_key, validator_changes) =>
       let validator_changes := vec_sort (K := Z * ValidatorChange) validator_changes in
       let status_changes :=
         (fun '(era_id, validator_change) => mkStatusChange era_id validator_change)
           <$> validator_changes in
       mkValidatorChanges public_key status_changes) <$> changes in
  mkGetValidatorChangesResult CURRENT_API_VERSION changes.

(** [rpc_sidecar/src/rpcs/info.rs:388-396], [GetValidatorChanges::do_handle_request]. *)
Definition get_validator_changes : node (result RpcError GetValidatorChangesResult) :=
  into_rpc
    (let! changes := requesting "validator changes" read_validator_changes in
     Ret (Ok (GetValidatorChangesResult_new (validator_changes changes)))).

(** *** The chain specification *)

(** [rpc_sidecar/src/rpcs/info.rs:399-407], [GetChainspecResult]. *)
Record GetChainspecResult := mkGetChainspecResult {
  gcr_api_version : ApiVersion;
  gcr_chainspec_bytes : ChainspecRawBytes;
}.

#[export] Instance Serialize_GetChainspecResult : Serialize GetChainspecResult := fun r =>
  struct_value [("api_version", to_value (gcr_api_version r));
                ("chainspec_bytes", to_value (gcr_chainspec_bytes r))].

(** [rpc_sidecar/src/rpcs/info.rs:423-435], [GetChainspec::do_handle_request]. *)
Definition get_chainspec : node (result RpcError GetChainspecResult) :=
  into_rpc
    (let! chainspec_bytes := requesting "chainspec bytes" read_chainspec_bytes in
     Ret (Ok (mkGetChainspecResult CURRENT_API_VERSION chainspec_bytes))).

(** *** The status of the node *)

(** [rpc_sidecar/src/rpcs/info.rs:438-476], [GetStatusResult]. *)
Record GetStatusResult := mkGetStatusResult {
  gst_api_version : ApiVersion;
  gst_protocol_version : ProtocolVersion;
  gst_peers : Peers;
  gst_build_version : string;
  gst_chainspec_name : string;
  gst_starting_state_root_hash : Digest;
  gst_last_added_block_info : option MinimalBlockInfo;
  gst_our_public_signing_key : option PublicKey;
  gst_round_length : option TimeDiff;
  gst_next_upgrade : option NextUpgrade;
  gst_uptime : TimeDiff;
  gst_reactor_state : string;
  gst_last_progress : Timestamp;
  gst_available_block_range : AvailableBlockRange;
  gst_block_sync : BlockSynchronizerStatus;
  gst_latest_switch_block_hash : option BlockHash;
}.

#[export] Instance Serialize_GetStatusResult : Serialize GetStatusResult := fun r =>
  struct_value
    [("api_version", to_value (gst_api_version r));
     ("protocol_version", to_value (gst_protocol_version r));
     ("peers", to_value (gst_peers r));
     ("build_version", to_value (gst_build_version r));
     ("chainspec_name", to_value (gst_chainspec_name r));
     ("starting_state_root_hash", to_value (gst_starting_state_root_hash r));
     ("last_added_block_info", to_value (gst_last_added_block_info r));
     ("our_public_signing_key", to_value (gst_our_public_signing_key r));
     ("round_length", json_option json_TimeDiff (gst_round_length r));
     ("next_upgrade", to_value (gst_next_upgrade r));
     ("uptime", json_TimeDiff (gst_uptime r));
     ("reactor_state", to_value (gst_reactor_state r));
     ("last_progress", json_Timestamp (gst_last_progress r));
     ("available_block_range", to_value (gst_available_block_range r));
     ("block_sync", to_value (gst_block_sync r));
     ("latest_switch_block_hash", json_option json_BlockHash (gst_latest_switch_block_hash r))].

(** [rpc_sidecar/src/rpcs/info.rs:492-518], [GetStatus::do_handle_request]. *)
Definition get_status : node (result RpcError GetStatusResult) :=
  into_rpc
    (let! status := requesting "node status" read_node_status in
     Ret (Ok
       {| gst_api_version := CURRENT_API_VERSION;
          gst_protocol_version := ns_protocol_version status;
          gst_peers := ns_peers status;
          gst_chainspec_name := ns_chainspec_name status;
          gst_starting_state_root_hash := ns_starting_state_root_hash status;
          gst_last_added_block_info := ns_last_added_block_info status;
          gst_our_public_signing_key := ns_our_public_signing_key status;
          gst_round_length := ns_round_length status;
          gst_next_upgrade := ns_next_upgrade status;
          gst_uptime := ns_uptime status;
          gst_reactor_state := ReactorState_into_inner (ns_reactor_state status);
          gst_last_progress := ns_last_progress status;
          gst_available_block_range := ns_available_block_range status;
          gst_block_sync := ns_block_sync status;
          gst_latest_switch_block_hash := ns_latest_switch_block_hash status;
          gst_build_version := ns_build_version status |})).

(** *** Rewards *)

(** [rpc_sidecar/src/rpcs/info.rs:540-545], [EraIdentifier]. *)
Inductive EraIdentifier :=
| EraIdEra (era : EraId)
| EraIdBlock (block : BlockIdentifier).

(** [rpc_sidecar/src/rpcs/info.rs:521-532], [GetRewardParams]. *)
Record GetRewardParams := mkGetRewardParams {
  grp_era_identifier : option EraIdentifier;
  grp_validator : PublicKey;
  grp_delegator : option PublicKey;
}.

(** [rpc_sidecar/src/rpcs/info.rs:547-562], [GetRewardResult]. *)
Record GetRewardResult := mkGetRewardResult {
  grr_api_version : ApiVersion;
  grr_reward_amount : U512;
  grr_era_id : EraId;
  grr_delegation_rate : Z;
  grr_switch_block_hash : BlockHash;
}.

#[export] Instance Serialize_GetRewardResult : Serialize GetRewardResult := fun r =>
  struct_value [("api_version", to_value (grr_api_version r));
                ("reward_amount", json_U512 (grr_reward_amount r));
                ("era_id", json_EraId (grr_era_id r));
                ("delegation_rate", json_u64 (grr_delegation_rate r));
                ("switch_block_hash", json_BlockHash (grr_switch_block_hash r))].

(** [rpc_sidecar/src/rpcs/info.rs:579-602], [GetReward::do_handle_request]. *)
Definition get_reward (params : GetRewardParams) : node (result RpcError GetRewardResult) :=
  let identifier :=
    match grp_era_identifier params with
    | Some (EraIdEra era_id) => Some (PortEra era_id)
    | Some (EraIdBlock block_id) => Some (PortBlock block_id)
    | None => None
    end in
  into_rpc
    (let! reward :=
       requesting "rewards" (read_reward identifier (grp_validator params) (grp_delegator params)) in
     let! reward := lift (ok_or reward RpcErr.RewardNotFound) in
     Ret (Ok (mkGetRewardResult CURRENT_API_VERSION (reward_amount reward) (reward_era_id reward)
                (reward_delegation_rate reward) (reward_switch_block_hash reward)))).

(** *** The methods *)

Context `{!Deserialize GetDeployParams, !Deserialize GetTransactionParams, !Deserialize GetRewardParams}.

(** [rpc_sidecar/src/rpcs/info.rs:158-190], [RpcWithParams for GetDeploy]. *)
Definition GetDeploy : RpcWithParams :=
  mkWithParams "info_get_deploy" GetDeployParams GetDeployResult _ _ get_deploy.

(** [rpc_sidecar/src/rpcs/info.rs:230-259], [RpcWithParams for GetTransaction]. *)
Definition GetTransaction : RpcWithParams :=
  mkWithParams "info_get_transaction" GetTransactionParams GetTransactionResult _ _ get_transaction.

(** [rpc_sidecar/src/rpcs/info.rs:278-298], [RpcWithoutParams for GetPeers]. *)
Definition GetPeers : RpcWithoutParams := mkWithoutParams "info_get_peers" GetPeersResult _ get_peers.

(** [rpc_sidecar/src/rpcs/info.rs:380-397], [RpcWithoutParams for GetValidatorChanges]. *)
Definition GetValidatorChanges : RpcWithoutParams :=
  mkWithoutParams "info_get_validator_changes" GetValidatorChangesResult _ get_validator_changes.

(** [rpc_sidecar/src/rpcs/info.rs:415-436], [RpcWithoutParams for GetChainspec]. *)
Definition GetChainspec : RpcWithoutParams :=
  mkWithoutParams "info_get_chainspec" GetChainspecResult _ get_chainspec.

(** [rpc_sidecar/src/rpcs/info.rs:484-519], [RpcWithoutParams for GetStatus]. *)
Definition GetStatus : RpcWithoutParams := mkWithoutParams "info_get_status" GetStatusResult _ get_status.

(** [rpc_sidecar/src/rpcs/info.rs:570-603], [RpcWithParams for GetReward]. *)
Definition GetReward : RpcWithParams :=
  mkWithParams "info_get_reward" GetRewardParams GetRewardResult _ _ get_reward.

End Info.

(** ** What the methods ask *)

Section InfoAsks.
Context `{CasperOps} `{BinaryPort} `{BinaryPortCodes} `{!PortPayloads, !CasperJson}.

Lemma asks_get_deploy p : asks reads_only 1 (get_deploy p).
Proof. unfold get_deploy, into_rpc. solve_asks. Qed.

Lemma asks_get_transaction p : asks reads_only 1 (get_transaction p).
Proof. unfold get_transaction, into_rpc. solve_asks. Qed.

Lemma asks_get_peers : asks reads_only 1 (get_peers).
Proof. unfold get_peers, into_rpc. solve_asks. Qed.

Lemma asks_get_validator_changes : asks reads_only 1 (get_validator_changes).
Proof. unfold get_validator_changes, into_rpc. solve_asks. Qed.

Lemma asks_get_chainspec : asks reads_only 1 (get_chainspec).
Proof. unfold get_chainspec, into_rpc. solve_asks. Qed.

Lemma asks_get_status : asks reads_only 1 (get_status).
Proof. unfold get_status, into_rpc. solve_asks. Qed.

Lemma asks_get_reward p : asks reads_only 1 (get_reward p).
Proof. unfold get_reward, into_rpc. solve_asks. Qed.

End InfoAsks.

#[export] Hint Resolve asks_get_deploy asks_get_transaction asks_get_peers asks_get_validator_changes asks_get_chainspec asks_get_status asks_get_reward : asks.
