(* ===== verification/RpcState.v ===== *)
(** * Methods on the global state ([rpc_sidecar/src/rpcs/state.rs])

    Items, balances, accounts, entities, packages, dictionaries and tries.  The
    two auction methods are in [RpcAuction.v]. *)

From S2P Require Import Prelude Json JsonRpc NodeErrors NodeClient CachingClient BTreeMap Casper.
From S2P Require Import RpcErrors NodeRequests RpcTraits RpcCommon.

Section State.
Context `{CasperOps} `{BinaryPort} `{BinaryPortCodes} `{!PortPayloads, !CasperJson}.

(** *** Items *)

(** [rpc_sidecar/src/rpcs/state.rs:207-218], [GetItemParams]. *)
Record GetItemParams := mkGetItemParams {
  gip_state_root_hash : Digest;
  gip_key : Key;
  gip_path : list string;
}.

(** [rpc_sidecar/src/rpcs/state.rs:226-237], [GetItemResult]. *)
Record GetItemResult := mkGetItemResult {
  gir_api_version : ApiVersion;
  gir_stored_value : StoredValue;
  gir_merkle_proof : string;
}.

#[export] Instance Serialize_GetItemResult : Serialize GetItemResult := fun r =>
  struct_value [("api_version", to_value (gir_api_version r)); ("stored_value", to_value (gir_stored_value r));
                ("merkle_proof", to_value (gir_merkle_proof r))].

(** [rpc_sidecar/src/rpcs/state.rs:254-271], [GetItem::do_handle_request]. *)
Definition get_item (params : GetItemParams) : node (result RpcError GetItemResult) :=
  let state_identifier := StateRootHash (gip_state_root_hash params) in
  into_rpc
    (let! found :=
       requesting "global state item"
         (query_global_state (Some state_identifier) (gip_key params) (gip_path params)) in
     let! found := lift (ok_or found RpcErr.GlobalStateEntryNotFound) in
     let! merkle_proof := lift (encode_proof (query_proof found)) in
     Ret (Ok (mkGetItemResult CURRENT_API_VERSION (query_value found) merkle_proof))).

(** [rpc_sidecar/src/rpcs/state.rs:1003-1014], [QueryGlobalStateParams]. *)
Record QueryGlobalStateParams := mkQueryGlobalStateParams {
  qgp_state_identifier : option GlobalStateIdentifier;
  qgp_key : Key;
  qgp_path : list string;
}.

(** [rpc_sidecar/src/rpcs/state.rs:1022-1035], [QueryGlobalStateResult]. *)
Record QueryGlobalStateResult := mkQueryGlobalStateResult {
  qgr_api_version : ApiVersion;
  qgr_block_header : option BlockHeader;
  qgr_stored_value : StoredValue;
  qgr_merkle_proof : string;
}.

#[export] Instance Serialize_QueryGlobalStateResult : Serialize QueryGlobalStateResult := fun r =>
  struct_value [("api_version", to_value (qgr_api_version r)); ("block_header", to_value (qgr_block_header r));
                ("stored_value", to_value (qgr_stored_value r));
                ("merkle_proof", to_value (qgr_merkle_proof r))].

(** [rpc_sidecar/src/rpcs/state.rs:1052-1081], [QueryGlobalState::do_handle_request]. *)
Definition query_state (params : QueryGlobalStateParams) : node (result RpcError QueryGlobalStateResult) :=
  into_rpc
    (let! block_header :=
       match qgp_state_identifier params with
       | Some (StateBlockHash hash) =>
           let! header := get_block_header (Some (CachingClient.BlockHash hash)) in Ret (Ok (Some header))
       | Some (StateBlockHeight height) =>
           let! header := get_block_header (Some (BlockHeight height)) in Ret (Ok (Some header))
       | _ => Ret (Ok None)
       end in
     let! found :=
       requesting "global state item"
         (query_global_state (qgp_state_identifier params) (qgp_key params) (qgp_path params)) in
     let! found := lift (ok_or found RpcErr.GlobalStateEntryNotFound) in
     let! merkle_proof := lift (encode_proof (query_proof found)) in
     Ret (Ok (mkQueryGlobalStateResult CURRENT_API_VERSION block_header (query_value found) merkle_proof))).

(** *** Balances *)

(** [rpc_sidecar/src/rpcs/state.rs:274-282], [GetBalanceParams]. *)
Record GetBalanceParams := mkGetBalanceParams {
  gbal_state_root_hash : Digest;
  gbal_purse_uref : string;
}.

(** [rpc_sidecar/src/rpcs/state.rs:290-301], [GetBalanceResult]. *)
Record GetBalanceResult := mkGetBalanceResult {
  gbalr_api_version : ApiVersion;
  gbalr_balance_value : U512;
  gbalr_merkle_proof : string;
}.

#[export] Instance Serialize_GetBalanceResult : Serialize GetBalanceResult := fun r =>
  struct_value [("api_version", to_value (gbalr_api_version r));
                ("balance_value", json_U512 (gbalr_balance_value r));
                ("merkle_proof", to_value (gbalr_merkle_proof r))].

(** [rpc_sidecar/src/rpcs/state.rs:318-337], [GetBalance::do_handle_request]. *)
Definition get_balance (params : GetBalanceParams) : node (result RpcError GetBalanceResult) :=
  into_rpc
    (let! purse_uref :=
       lift (map_err RpcErr.InvalidPurseURef (URef_from_formatted_str (gbal_purse_uref params))) in
     let state_id := StateRootHash (gbal_state_root_hash params) in
     let purse_id := PortPurse purse_uref in
     let! balance := requesting "balance" (read_balance (Some state_id) purse_id) in
     let! merkle_proof := lift (encode_proof [total_balance_proof balance]) in
     Ret (Ok (mkGetBalanceResult CURRENT_API_VERSION (available_balance balance) merkle_proof))).

(** [rpc_sidecar/src/rpcs/state.rs:1084-1096], [PurseIdentifier]. *)
Inductive PurseIdentifier :=
| MainPurseUnderPublicKey (public_key : PublicKey)
| MainPurseUnderAccountHash (account_hash : AccountHash)
| MainPurseUnderEntityAddr (entity_addr : EntityAddr)
| PurseUref (uref : URef).

(** [rpc_sidecar/src/rpcs/state.rs:1098-1109], [into_port_purse_identifier]. *)
Definition into_port_purse_identifier (self : PurseIdentifier) : PortPurseIdentifier :=
  match self with
  | MainPurseUnderPublicKey public_key => PortPursePublicKey public_key
  | MainPurseUnderAccountHash account_hash => PortPurseAccount account_hash
  | MainPurseUnderEntityAddr entity_addr => PortPurseEntity entity_addr
  | PurseUref uref => PortPurse uref
  end.

(** [rpc_sidecar/src/rpcs/state.rs:1111-1119], [QueryBalanceParams]. *)
Record QueryBalanceParams := mkQueryBalanceParams {
  qbp_state_identifier : option GlobalStateIdentifier;
  qbp_purse_identifier : PurseIdentifier;
}.

(** [rpc_sidecar/src/rpcs/state.rs:1127-1135], [QueryBalanceResult]. *)
Record QueryBalanceResult := mkQueryBalanceResult {
  qbr_api_version : ApiVersion;
  qbr_balance : U512;
}.

#[export] Instance Serialize_QueryBalanceResult : Serialize QueryBalanceResult := fun r =>
  struct_value [("api_version", to_value (qbr_api_version r)); ("balance", json_U512 (qbr_balance r))].

(** [rpc_sidecar/src/rpcs/state.rs:1152-1165], [QueryBalance::do_handle_request]. *)
Definition query_balance (params : QueryBalanceParams) : node (result RpcError QueryBalanceResult) :=
  let purse_id := into_port_purse_identifier (qbp_purse_identifier params) in
  into_rpc
    (let! balance := requesting "balance" (read_balance (qbp_state_identifier params) purse_id) in
     Ret (Ok (mkQueryBalanceResult CURRENT_API_VERSION (available_balance balance)))).

(** [rpc_sidecar/src/rpcs/state.rs:1168-1176], [QueryBalanceDetailsParams]. *)
Record QueryBalanceDetailsParams := mkQueryBalanceDetailsParams {
  qdp_state_identifier : option GlobalStateIdentifier;
  qdp_purse_identifier : PurseIdentifier;
}.

(** [rpc_sidecar/src/rpcs/state.rs:1206-1214], [BalanceHoldWithProof]. *)
Record BalanceHoldWithProof := mkHold {
  hold_time : BlockTime;
  hold_amount : U512;
  hold_proof : string;
}.

(** [rpc_sidecar/src/rpcs/state.rs:1184-1198], [QueryBalanceDetailsResult]. *)
Record QueryBalanceDetailsResult := mkQueryBalanceDetailsResult {
  qdr_api_version : ApiVersion;
  qdr_total_balance : U512;
  qdr_available_balance : U512;
  qdr_total_balance_proof : string;
  qdr_holds : list BalanceHoldWithProof;
}.

#[export] Instance Serialize_BalanceHoldWithProof : Serialize BalanceHoldWithProof := fun r =>
  struct_value [("time", json_BlockTime (hold_time r)); ("amount", json_U512 (hold_amount r));
                ("proof", to_value (hold_proof r))].

#[export] Instance Serialize_QueryBalanceDetailsResult : Serialize QueryBalanceDetailsResult := fun r =>
  struct_value [("api_version", to_value (qdr_api_version r));
                ("total_balance", json_U512 (qdr_total_balance r));
                ("available_balance", json_U512 (qdr_available_balance r));
                ("total_balance_proof", to_value (qdr_total_balance_proof r));
                ("holds", to_value (qdr_holds r))].

(** The closure over the holds in [QueryBalanceDetails::do_handle_request]. *)
Definition hold_of (time : BlockTime) (hold : BalanceHoldAddrTag * (U512 * TrieMerkleProof))
    : result RpcErr.Error BalanceHoldWithProof :=
  let '(_, (amount, proof)) := hold in
  let? proof := encode_proof [proof] in
  Ok (mkHold time amount proof).

(** [rpc_sidecar/src/rpcs/state.rs:1225-1256], [QueryBalanceDetails::do_handle_request]. *)
Definition query_balance_details (params : QueryBalanceDetailsParams)
    : node (result RpcError QueryBalanceDetailsResult) :=
  let purse_id := into_port_purse_identifier (qdp_purse_identifier params) in
  into_rpc
    (let! balance := requesting "balance" (read_balance (qdp_state_identifier params) purse_id) in
     let! holds :=
       lift (collect (flat_map (fun '(time, holds) => List.map (hold_of time) holds)
                        (balance_holds balance))) in
     let! total_balance_proof := lift (encode_proof [total_balance_proof balance]) in
     Ret (Ok (mkQueryBalanceDetailsResult CURRENT_API_VERSION (total_balance balance)
                (available_balance balance) total_balance_proof holds))).

(** *** Accounts *)

(** [rpc_sidecar/src/rpcs/state.rs:473-481], [AccountIdentifier]. *)
Inductive AccountIdentifier :=
| AccountPublicKey (public_key : PublicKey)
| AccountAccountHash (account_hash : AccountHash).

(** [rpc_sidecar/src/rpcs/state.rs:494-503], [GetAccountInfoParams]. *)
Record GetAccountInfoParams := mkGetAccountInfoParams {
  gap_account_identifier : AccountIdentifier;
  gap_block_identifier : option BlockIdentifier;
}.

(** [rpc_sidecar/src/rpcs/state.rs:511-522], [GetAccountInfoResult]. *)
Record GetAccountInfoResult := mkGetAccountInfoResult {
  gar_api_version : ApiVersion;
  gar_account : Account;
  gar_merkle_proof : string;
}.

#[export] Instance Serialize_GetAccountInfoResult : Serialize GetAccountInfoResult := fun r =>
  struct_value [("api_version", to_value (gar_api_version r)); ("account", to_value (gar_account r));
                ("merkle_proof", to_value (gar_merkle_proof r))].

(** [rpc_sidecar/src/rpcs/state.rs:539-566], [GetAccountInfo::do_handle_request]. *)
Definition get_account_info (params : GetAccountInfoParams) : node (result RpcError GetAccountInfoResult) :=
  let maybe_state_identifier := GlobalStateIdentifier_from <$> gap_block_identifier params in
  let base_key :=
    let account_hash :=
      match gap_account_identifier params with
      | AccountPublicKey public_key => PublicKey_to_account_hash public_key
      | AccountAccountHash account_hash => account_hash
      end in
    Key_Account account_hash in
  into_rpc
    (let! found := requesting "account info" (query_global_state maybe_state_identifier base_key []) in
     let! found := lift (ok_or found RpcErr.AccountNotFound) in
     let! account :=
       lift (ok_or (StoredValue_into_account (query_value found)) RpcErr.AccountMigratedToEntity) in
     let! merkle_proof := lift (encode_proof (query_proof found)) in
     Ret (Ok (mkGetAccountInfoResult CURRENT_API_VERSION account merkle_proof))).

(** *** Entities *)

(** [rpc_sidecar/src/rpcs/state.rs:569-581], [EntityIdentifier]. *)
Inductive EntityIdentifier :=
| EntityContractHash (hash : ContractHash)
| EntityPublicKey (public_key : PublicKey)
| EntityAccountHash (account_hash : AccountHash)
| EntityEntityAddr (addr : EntityAddr).

(** [rpc_sidecar/src/rpcs/state.rs:594-607], [into_port_entity_identifier]. *)
Definition into_port_entity_identifier (self : EntityIdentifier) : PortEntityIdentifier :=
  match self with
  | EntityContractHash contract_hash => PortContractHash contract_hash
  | EntityPublicKey public_key => PortPublicKey public_key
  | EntityAccountHash account_hash => PortAccountHash account_hash
  | EntityEntityAddr entity_addr => PortEntityAddr entity_addr
  end.

(** [rpc_sidecar/src/rpcs/state.rs:610-620], [GetAddressableEntityParams]. *)
Record GetAddressableEntityParams := mkGetAddressableEntityParams {
  gaep_entity_identifier : EntityIdentifier;
  gaep_block_identifier : option BlockIdentifier;
  gaep_include_bytecode : option bool;
}.

(** [rpc_sidecar/src/rpcs/state.rs:628-639], [GetAddressableEntityResult]. *)
Record GetAddressableEntityResult := mkGetAddressableEntityResult {
  gaer_api_version : ApiVersion;
  gaer_entity : EntityWithBackwardCompat;
  gaer_merkle_proof : string;
}.

#[export] Instance Serialize_ByteCodeWithProof : Serialize ByteCodeWithProof := fun r =>
  struct_value [("code", to_value (bytecode_code r)); ("merkle_proof", to_value (bytecode_merkle_proof r))].

#[export] Instance Serialize_ContractWasmWithProof : Serialize ContractWasmWithProof := fun r =>
  struct_value [("wasm", to_value (wasm_wasm r)); ("merkle_proof", to_value (wasm_merkle_proof r))].

(** The derived encoding of an enum: an object with the name of the variant. *)
#[export] Instance Serialize_EntityWithBackwardCompat : Serialize EntityWithBackwardCompat := fun e =>
  match e with
  | CompatAddressableEntity entity named_keys entry_points bytecode =>
      struct_value
        [("AddressableEntity",
          struct_value [("entity", to_value entity); ("named_keys", json_NamedKeys named_keys);
                        ("entry_points", to_value entry_points); ("bytecode", to_value bytecode)])]
  | CompatAccount account => struct_value [("Account", to_value account)]
  | CompatContract contract wasm =>
      struct_value
        [("Contract", struct_value [("contract", to_value contract); ("wasm", to_value wasm)])]
  end.

#[export] Instance Serialize_GetAddressableEntityResult : Serialize GetAddressableEntityResult := fun r =>
  struct_value [("api_version", to_value (gaer_api_version r)); ("entity", to_value (gaer_entity r));
                ("merkle_proof", to_value (gaer_merkle_proof r))].

(** [.map(..).transpose()]: an optional value converted by a fallible function. *)
Definition transpose {E A B} (f : A -> result E B) (o : option A) : result E (option B) :=
  match o with
  | Some a => Some <$> f a
  | None => Ok None
  end.

(** The code of an entity and the Wasm of a contract, with encoded proofs. *)
Definition bytecode_of (code_with_proof : ValueWithProof ByteCode) : result RpcErr.Error ByteCodeWithProof :=
  let? proof := encode_proof (proof code_with_proof) in
  Ok (mkByteCode (proved code_with_proof) proof).

Definition wasm_of (wasm_with_proof : ValueWithProof ContractWasm) : result RpcErr.Error ContractWasmWithProof :=
  let? proof := encode_proof (proof wasm_with_proof) in
  Ok (mkWasm (proved wasm_with_proof) proof).

(** [rpc_sidecar/src/rpcs/state.rs:664-711], the [match] on the response in
    [GetAddressableEntity::do_handle_request]: the entity and its proof. *)
Definition entity_of (state_identifier : option GlobalStateIdentifier) (response : EntityResponse)
    : node (result RpcErr.Error (EntityWithBackwardCompat * list TrieMerkleProof)) :=
  match response with
  | EntityEntity information =>
      let addr := info_addr information in
      let! named_keys := get_entity_named_keys addr state_identifier in
      let! entry_points := get_entity_entry_points addr state_identifier in
      let! bytecode := lift (transpose bytecode_of (info_bytecode information)) in
      Ret (Ok (CompatAddressableEntity (proved (info_entity information)) named_keys entry_points bytecode,
               proof (info_entity information)))
  | EntityAccount information =>
      Ret (Ok (CompatAccount (info_account information), info_account_proof information))
  | EntityContract information =>
      let! wasm := lift (transpose wasm_of (info_wasm information)) in
      Ret (Ok (CompatContract (proved (info_contract information)) wasm, proof (info_contract information)))
  end.

(** [rpc_sidecar/src/rpcs/state.rs:656-718], [GetAddressableEntity::do_handle_request]. *)
Definition get_addressable_entity (params : GetAddressableEntityParams)
    : node (result RpcError GetAddressableEntityResult) :=
  let state_identifier := GlobalStateIdentifier_from <$> gaep_block_identifier params in
  let identifier := into_port_entity_identifier (gaep_entity_identifier params) in
  let include_bytecode := default false (gaep_include_bytecode params) in
  into_rpc
    (let! found := requesting "entity" (read_entity state_identifier identifier include_bytecode) in
     let! found := lift (ok_or found RpcErr.AddressableEntityNotFound) in
     let! '(entity, merkle_proof) := entity_of state_identifier found in
     let! merkle_proof := lift (encode_proof merkle_proof) in
     Ret (Ok (mkGetAddressableEntityResult CURRENT_API_VERSION entity merkle_proof))).

(** *** Packages *)

(** [rpc_sidecar/src/rpcs/state.rs:721-729], [PackageIdentifier]. *)
Inductive PackageIdentifier :=
| PackagePackageAddr (hash : PackageHash)
| PackageContractPackageHash (hash : ContractPackageHash).

(** [rpc_sidecar/src/rpcs/state.rs:741-750], [into_port_package_identifier]. *)
Definition into_port_package_identifier (self : PackageIdentifier) : PortPackageIdentifier :=
  match self with
  | PackagePackageAddr package_addr => PortPackageAddr (PackageHash_value package_addr)
  | PackageContractPackageHash contract_package_hash => PortContractPackageHash contract_package_hash
  end.

(** [rpc_sidecar/src/rpcs/state.rs:753-761], [GetPackageParams]. *)
Record GetPackageParams := mkGetPackageParams {
  gpp_package_identifier : PackageIdentifier;
  gpp_block_identifier : option BlockIdentifier;
}.

(** [rpc_sidecar/src/rpcs/state.rs:769-780], [GetPackageResult]. *)
Record GetPackageResult := mkGetPackageResult {
  gpkr_api_version : ApiVersion;
  gpkr_package : PackageWithBackwardCompat;
  gpkr_merkle_proof : string;
}.

#[export] Instance Serialize_PackageWithBackwardCompat : Serialize PackageWithBackwardCompat := fun p =>
  match p with
  | CompatPackage package => struct_value [("Package", to_value package)]
  | CompatContractPackage package => struct_value [("ContractPackage", to_value package)]
  end.

#[export] Instance Serialize_GetPackageResult : Serialize GetPackageResult := fun r =>
  struct_value [("api_version", to_value (gpkr_api_version r)); ("package", to_value (gpkr_package r));
                ("merkle_proof", to_value (gpkr_merkle_proof r))].

(** [rpc_sidecar/src/rpcs/state.rs:797-828], [GetPackage::do_handle_request]. *)
Definition get_package (params : GetPackageParams) : node (result RpcError GetPackageResult) :=
  let state_identifier := GlobalStateIdentifier_from <$> gpp_block_identifier params in
  let identifier := into_port_package_identifier (gpp_package_identifier params) in
  into_rpc
    (let! found := requesting "package" (read_package state_identifier identifier) in
     let! found := lift (ok_or found RpcErr.AddressableEntityNotFound) in
     let (package, merkle_proof) :=
       match found with
       | PackagePackage package => (CompatPackage (proved package), proof package)
       | PackageContractPackage package => (CompatContractPackage (proved package), proof package)
       end in
     let! merkle_proof := lift (encode_proof merkle_proof) in
     Ret (Ok (mkGetPackageResult CURRENT_API_VERSION package merkle_proof))).

(** *** Dictionaries *)

(** [rpc_sidecar/src/rpcs/state.rs:831-870], [DictionaryIdentifier]. *)
Inductive DictionaryIdentifier :=
| AccountNamedKey (key dictionary_name dictionary_item_key : string)
| ContractNamedKey (key dictionary_name dictionary_item_key : string)
| EntityNamedKey (key dictionary_name dictionary_item_key : string)
| DictionaryURef (seed_uref dictionary_item_key : string)
| Dictionary (dictionary_item_key : string).

(** [rpc_sidecar/src/rpcs/state.rs:872-880], [GetDictionaryItemParams]. *)
Record GetDictionaryItemParams := mkGetDictionaryItemParams {
  gdip_state_root_hash : Digest;
  gdip_dictionary_identifier : DictionaryIdentifier;
}.

(** [rpc_sidecar/src/rpcs/state.rs:888-901], [GetDictionaryItemResult]. *)
Record GetDictionaryItemResult := mkGetDictionaryItemResult {
  gdir_api_version : ApiVersion;
  gdir_dictionary_key : string;
  gdir_stored_value : StoredValue;
  gdir_merkle_proof : string;
}.

#[export] Instance Serialize_GetDictionaryItemResult : Serialize GetDictionaryItemResult := fun r =>
  struct_value [("api_version", to_value (gdir_api_version r));
                ("dictionary_key", to_value (gdir_dictionary_key r));
                ("stored_value", to_value (gdir_stored_value r));
                ("merkle_proof", to_value (gdir_merkle_proof r))].

(** [rpc_sidecar/src/rpcs/state.rs:924-985], the [match] on the identifier in
    [GetDictionaryItem::do_handle_request]. *)
Definition dictionary_item_of (identifier : DictionaryIdentifier)
    : result RpcErr.Error DictionaryItemIdentifier :=
  match identifier with
  | AccountNamedKey key dictionary_name dictionary_item_key =>
      let? hash := map_err RpcErr.InvalidDictionaryKey (AccountHash_from_formatted_str key) in
      Ok (DictAccountNamedKey hash dictionary_name dictionary_item_key)
  | ContractNamedKey key dictionary_name dictionary_item_key =>
      let? key := map_err RpcErr.InvalidDictionaryKey (Key_from_formatted_str key) in
      let? hash := ok_or (Key_into_hash_addr key) (RpcErr.InvalidDictionaryKey "not a hash address") in
      Ok (DictContractNamedKey hash dictionary_name dictionary_item_key)
  | EntityNamedKey key dictionary_name dictionary_item_key =>
      let? addr := map_err RpcErr.InvalidDictionaryKey (EntityAddr_from_formatted_str key) in
      Ok (DictEntityNamedKey addr dictionary_name dictionary_item_key)
  | DictionaryURef seed_uref dictionary_item_key =>
      let? seed_uref := map_err RpcErr.InvalidDictionaryKey (URef_from_formatted_str seed_uref) in
      Ok (DictURef seed_uref dictionary_item_key)
  | Dictionary dictionary_item_key =>
      let? key := map_err RpcErr.InvalidDictionaryKey (Key_from_formatted_str dictionary_item_key) in
      let? dict_key := ok_or (Key_as_dictionary key) (RpcErr.InvalidDictionaryKey "not a dictionary key") in
      Ok (DictionaryItem dict_key)
  end.

(** [rpc_sidecar/src/rpcs/state.rs:918-1000], [GetDictionaryItem::do_handle_request]. *)
Definition get_dictionary_item (params : GetDictionaryItemParams)
    : node (result RpcError GetDictionaryItemResult) :=
  let state_identifier := StateRootHash (gdip_state_root_hash params) in
  into_rpc
    (let! dictionary_item := lift (dictionary_item_of (gdip_dictionary_identifier params)) in
     let! found :=
       requesting "dictionary item" (query_dictionary_item (Some state_identifier) dictionary_item) in
     let! found := lift (ok_or found RpcErr.GlobalStateEntryNotFound) in
     let! merkle_proof := lift (encode_proof (query_proof (dictionary_result found))) in
     Ret (Ok (mkGetDictionaryItemResult CURRENT_API_VERSION
                (Key_to_formatted_string (dictionary_key found))
                (query_value (dictionary_result found)) merkle_proof))).

(** *** Tries *)

(** [rpc_sidecar/src/rpcs/state.rs:1259-1264], [GetTrieParams]. *)
Record GetTrieParams := mkGetTrieParams { gtrp_trie_key : Digest }.

(** [rpc_sidecar/src/rpcs/state.rs:1272-1285], [GetTrieResult]. *)
Record GetTrieResult := mkGetTrieResult {
  gtrr_api_version : ApiVersion;
  gtrr_maybe_trie_bytes : option (list Z);
}.

#[export] Instance Serialize_GetTrieResult : Serialize GetTrieResult := fun r =>
  struct_value [("api_version", to_value (gtrr_api_version r));
                ("maybe_trie_bytes", json_option json_Bytes (gtrr_maybe_trie_bytes r))].

(** [rpc_sidecar/src/rpcs/state.rs:1302-1315], [GetTrie::do_handle_request]. *)
Definition get_trie (params : GetTrieParams) : node (result RpcError GetTrieResult) :=
  into_rpc
    (let! maybe_trie := requesting "trie" (read_trie_bytes (gtrp_trie_key params)) in
     Ret (Ok (mkGetTrieResult CURRENT_API_VERSION maybe_trie))).

(** *** The methods *)

Context `{!Deserialize GetItemParams, !Deserialize QueryGlobalStateParams, !Deserialize GetBalanceParams,
          !Deserialize QueryBalanceParams, !Deserialize QueryBalanceDetailsParams,
          !Deserialize GetAccountInfoParams, !Deserialize GetAddressableEntityParams,
          !Deserialize GetPackageParams, !Deserialize GetDictionaryItemParams, !Deserialize GetTrieParams}.

(** [rpc_sidecar/src/rpcs/state.rs:245-272], [RpcWithParams for GetItem]. *)
Definition GetItem : RpcWithParams :=
  mkWithParams "state_get_item" GetItemParams GetItemResult _ _ get_item.

(** [rpc_sidecar/src/rpcs/state.rs:1043-1082], [RpcWithParams for QueryGlobalState]. *)
Definition QueryGlobalState : RpcWithParams :=
  mkWithParams "query_global_state" QueryGlobalStateParams QueryGlobalStateResult _ _ query_state.

(** [rpc_sidecar/src/rpcs/state.rs:309-338], [RpcWithParams for GetBalance]. *)
Definition GetBalance : RpcWithParams :=
  mkWithParams "state_get_balance" GetBalanceParams GetBalanceResult _ _ get_balance.

(** [rpc_sidecar/src/rpcs/state.rs:1143-1166], [RpcWithParams for QueryBalance]. *)
Definition QueryBalance : RpcWithParams :=
  mkWithParams "query_balance" QueryBalanceParams QueryBalanceResult _ _ query_balance.

(** [rpc_sidecar/src/rpcs/state.rs:1216-1257], [RpcWithParams for QueryBalanceDetails]. *)
Definition QueryBalanceDetails : RpcWithParams :=
  mkWithParams "query_balance_details" QueryBalanceDetailsParams QueryBalanceDetailsResult _ _
    query_balance_details.

(** [rpc_sidecar/src/rpcs/state.rs:530-567], [RpcWithParams for GetAccountInfo]. *)
Definition GetAccountInfo : RpcWithParams :=
  mkWithParams "state_get_account_info" GetAccountInfoParams GetAccountInfoResult _ _ get_account_info.

(** [rpc_sidecar/src/rpcs/state.rs:647-719], [RpcWithParams for GetAddressableEntity]. *)
Definition GetAddressableEntity : RpcWithParams :=
  mkWithParams "state_get_entity" GetAddressableEntityParams GetAddressableEntityResult _ _
    get_addressable_entity.

(** [rpc_sidecar/src/rpcs/state.rs:788-829], [RpcWithParams for GetPackage]. *)
Definition GetPackage : RpcWithParams :=
  mkWithParams "state_get_package" GetPackageParams GetPackageResult _ _ get_package.

(** [rpc_sidecar/src/rpcs/state.rs:909-1001], [RpcWithParams for GetDictionaryItem]. *)
Definition GetDictionaryItem : RpcWithParams :=
  mkWithParams "state_get_dictionary_item" GetDictionaryItemParams GetDictionaryItemResult _ _
    get_dictionary_item.

(** [rpc_sidecar/src/rpcs/state.rs:1293-1316], [RpcWithParams for GetTrie]. *)
Definition GetTrie : RpcWithParams :=
  mkWithParams "state_get_trie" GetTrieParams GetTrieResult _ _ get_trie.

End State.

(** ** What the methods ask *)

Section StateAsks.
Context `{CasperOps} `{BinaryPort} `{BinaryPortCodes} `{!PortPayloads, !CasperJson}.

Lemma asks_entity_of id r : asks reads_only 3 (entity_of id r).
Proof. unfold entity_of, into_rpc. solve_asks. Qed.
#[local] Hint Resolve asks_entity_of : asks.

Lemma asks_get_item p : asks reads_only 1 (get_item p).
Proof. unfold get_item, into_rpc. solve_asks. Qed.

Lemma asks_query_state p : asks reads_only 3 (query_state p).
Proof. unfold query_state, into_rpc. solve_asks. Qed.

Lemma asks_get_balance p : asks reads_only 1 (get_balance p).
Proof. unfold get_balance, into_rpc. solve_asks. Qed.

Lemma asks_query_balance p : asks reads_only 1 (query_balance p).
Proof. unfold query_balance, into_rpc. solve_asks. Qed.

Lemma asks_query_balance_details p : asks reads_only 1 (query_balance_details p).
Proof. unfold query_balance_details, into_rpc. solve_asks. Qed.

Lemma asks_get_account_info p : asks reads_only 1 (get_account_info p).
Proof. unfold get_account_info, into_rpc. solve_asks. Qed.

Lemma asks_get_addressable_entity p : asks reads_only 4 (get_addressable_entity p).
Proof. unfold get_addressable_entity, into_rpc. solve_asks. Qed.

Lemma asks_get_package p : asks reads_only 1 (get_package p).
Proof. unfold get_package, into_rpc. solve_asks. Qed.

Lemma asks_get_dictionary_item p : asks reads_only 1 (get_dictionary_item p).
Proof. unfold get_dictionary_item, into_rpc. solve_asks. Qed.

Lemma asks_get_trie p : asks reads_only 1 (get_trie p).
Proof. unfold get_trie, into_rpc. solve_asks. Qed.

End StateAsks.

#[export] Hint Resolve asks_entity_of asks_get_item asks_query_state asks_get_balance asks_query_balance asks_query_balance_details asks_get_account_info asks_get_addressable_entity asks_get_package asks_get_dictionary_item asks_get_trie : asks.
