(* ===== verification/RpcAuction.v ===== *)
(** * The auction methods ([rpc_sidecar/src/rpcs/state.rs], [state/auction_state.rs],
    [state_get_auction_info_v2.rs])

    [state_get_auction_info] presents the bids of a block in the form of the 1.x
    protocol, one unified bid for each validator; [state_get_auction_info_v2]
    presents them as they are stored. *)

From S2P Require Import Prelude Json JsonRpc NodeErrors NodeClient CachingClient BTreeMap Casper.
From S2P Require Import RpcErrors NodeRequests RpcTraits RpcCommon.

(** The types and operations of [casper_types::system::auction]. *)
Class AuctionTypes `{CasperTypes} := {
  Bid : Type;
  Delegator : Type;
  ValidatorBid : Type;
  DelegatorBid : Type;
  DelegatorKind : Type;
  (** The other variants of [BidKind]. *)
  OtherBid : Type;
  SeigniorageRecipientV1 : Type;
  SeigniorageRecipientV2 : Type;
  #[global] DelegatorKind_ord :: Ord DelegatorKind;
  AUCTION : string;
  SEIGNIORAGE_RECIPIENTS_SNAPSHOT_KEY : string;
  Bid_validator_public_key : Bid -> PublicKey;
  Bid_bonding_purse : Bid -> URef;
  Bid_staked_amount : Bid -> U512;
  Bid_delegation_rate : Bid -> Z;
  Bid_delegators : Bid -> BTreeMap PublicKey Delegator;
  Bid_from_non_unified : ValidatorBid -> BTreeMap DelegatorKind DelegatorBid -> Bid;
  (** The public key, purse, amount, rate, minimum and maximum delegation and the
      number of reserved slots. *)
  ValidatorBid_unlocked : PublicKey -> URef -> U512 -> Z -> Z -> Z -> Z -> ValidatorBid;
  ValidatorBid_validator_public_key : ValidatorBid -> PublicKey;
  DelegatorKind_PublicKey : PublicKey -> DelegatorKind;
  DelegatorBid_from : Delegator -> DelegatorBid;
  DelegatorBid_validator_public_key : DelegatorBid -> PublicKey;
  DelegatorBid_delegator_kind : DelegatorBid -> DelegatorKind;
  OtherBid_validator_public_key : OtherBid -> PublicKey;
  total_stake_v1 : SeigniorageRecipientV1 -> option U512;
  total_stake_v2 : SeigniorageRecipientV2 -> option U512;
  StoredValue_into_bid : StoredValue -> option Bid;
  (** [CLValue::into_t] at the types the code asks for. *)
  CLValue_into_registry : CLValue -> result string (BTreeMap string AddressableEntityHash);
  CLValue_into_recipients_v1 : CLValue -> result string (BTreeMap EraId (BTreeMap PublicKey SeigniorageRecipientV1));
  CLValue_into_recipients_v2 : CLValue -> result string (BTreeMap EraId (BTreeMap PublicKey SeigniorageRecipientV2));
}.

Section Auction.
Context `{CasperOps} `{BinaryPort} `{BinaryPortCodes} `{!PortPayloads, !CasperJson} `{!AuctionTypes}.

(** [casper_types::BidKind]. *)
Inductive BidKind :=
| Unified (bid : Bid)
| Validator (bid : ValidatorBid)
| DelegatorOf (bid : DelegatorBid)
| OtherKind (bid : OtherBid).

Definition is_unified (b : BidKind) : bool := match b with Unified _ => true | _ => false end.
Definition is_validator (b : BidKind) : bool := match b with Validator _ => true | _ => false end.
Definition is_delegator (b : BidKind) : bool := match b with DelegatorOf _ => true | _ => false end.

(** [BidKind::validator_public_key]. *)
Definition BidKind_validator_public_key (b : BidKind) : PublicKey :=
  match b with
  | Unified bid => Bid_validator_public_key bid
  | Validator bid => ValidatorBid_validator_public_key bid
  | DelegatorOf bid => DelegatorBid_validator_public_key bid
  | OtherKind bid => OtherBid_validator_public_key bid
  end.

(** [StoredValue::into_bid_kind]. *)
Context (StoredValue_into_bid_kind : StoredValue -> option BidKind).

(** ** The state of the auction *)

(** [EraValidators]: the weights of the validators of some eras. *)
Abbreviation EraValidators := (BTreeMap EraId (BTreeMap PublicKey U512)).

(** [rpc_sidecar/src/rpcs/state/auction_state.rs:70-82], [JsonValidatorWeight]. *)
Record JsonValidatorWeight := mkWeight {
  jw_public_key : PublicKey;
  jw_weight : U512;
}.

(** [rpc_sidecar/src/rpcs/state/auction_state.rs:84-99], [JsonEraValidators]. *)
Record JsonEraValidators := mkEraValidators {
  jev_era_id : EraId;
  jev_validator_weights : list JsonValidatorWeight;
}.

(** The loops of [AuctionState::new] over the validators. *)
Definition json_era_validators (era_validators : EraValidators) : list JsonEraValidators :=
  List.map (fun '(era_id, validator_weights) =>
    mkEraValidators era_id
      (List.map (fun '(public_key, weight) => mkWeight public_key weight) validator_weights))
    era_validators.

(** [Staking]: for each validator its bid and those of its delegators. *)
Abbreviation Staking := (BTreeMap PublicKey (ValidatorBid * BTreeMap DelegatorKind DelegatorBid)).

(** The loop over the unified bids. *)
Definition stake_unified (staking : Staking) (bid_kind : BidKind) : Staking :=
  match bid_kind with
  | Unified bid =>
      let public_key := Bid_validator_public_key bid in
      let validator_bid :=
        ValidatorBid_unlocked (Bid_validator_public_key bid) (Bid_bonding_purse bid)
          (Bid_staked_amount bid) (Bid_delegation_rate bid) 0 U64_MAX 0 in
      let delegators :=
        foldl (fun delegators '(delegator_public_key, delegator) =>
                 insert (DelegatorKind_PublicKey delegator_public_key) (DelegatorBid_from delegator) delegators)
          [] (Bid_delegators bid) in
      insert public_key (validator_bid, delegators) staking
  | _ => staking
  end.

(** The loop over the bids of validators. *)
Definition stake_validator (staking : Staking) (bid_kind : BidKind) : Staking :=
  match bid_kind with
  | Validator validator_bid =>
      insert (ValidatorBid_validator_public_key validator_bid) (validator_bid, []) staking
  | _ => staking
  end.

(** The loop over the bids of delegators: one without a validator is dropped. *)
Definition stake_delegator (staking : Staking) (bid_kind : BidKind) : Staking :=
  match bid_kind with
  | DelegatorOf delegator_bid =>
      modify (fun '(validator_bid, delegators) =>
                (validator_bid, insert (DelegatorBid_delegator_kind delegator_bid) delegator_bid delegators))
        (DelegatorBid_validator_public_key delegator_bid) staking
  | _ => staking
  end.

(** [rpc_sidecar/src/rpcs/state/auction_state.rs:140-187], the block [staking] of
    [AuctionState::new]. *)
Definition staking_of (bids : list BidKind) : Staking :=
  let staking := foldl stake_unified [] (List.filter is_unified bids) in
  let staking := foldl stake_validator staking (List.filter is_validator bids) in
  foldl stake_delegator staking (List.filter is_delegator bids).

(** [rpc_sidecar/src/rpcs/state/auction_state.rs:101-115], [AuctionState]. *)
Record AuctionState := mkAuctionState {
  as_state_root_hash : Digest;
  as_block_height : Z;
  as_era_validators : list JsonEraValidators;
  as_bids : BTreeMap PublicKey Bid;
}.

(** The bids of [AuctionState::new]. *)
Definition unified_bids (bids : list BidKind) : BTreeMap PublicKey Bid :=
  foldl (fun bids '(public_key, (validator_bid, delegators)) =>
           insert public_key (Bid_from_non_unified validator_bid delegators) bids)
    [] (staking_of bids).

(** [rpc_sidecar/src/rpcs/state/auction_state.rs:117-201], [AuctionState::new]. *)
Definition AuctionState_new (state_root_hash : Digest) (block_height : Z) (era_validators : EraValidators)
    (bids : list BidKind) : AuctionState :=
  mkAuctionState state_root_hash block_height (json_era_validators era_validators) (unified_bids bids).

(** [rpc_sidecar/src/rpcs/state_get_auction_info_v2.rs:174-186], [BidKindWrapper]. *)
Record BidKindWrapper := mkWrapper {
  bkw_public_key : PublicKey;
  bkw_bid : BidKind;
}.

(** [rpc_sidecar/src/rpcs/state_get_auction_info_v2.rs:188-201], [AuctionState]. *)
Record AuctionStateV2 := mkAuctionStateV2 {
  as2_state_root_hash : Digest;
  as2_block_height : Z;
  as2_era_validators : list JsonEraValidators;
  as2_bids : list BidKindWrapper;
}.

(** [rpc_sidecar/src/rpcs/state_get_auction_info_v2.rs:203-231], [AuctionState::new]. *)
Definition AuctionStateV2_new (state_root_hash : Digest) (block_height : Z) (era_validators : EraValidators)
    (bids : list BidKind) : AuctionStateV2 :=
  mkAuctionStateV2 state_root_hash block_height (json_era_validators era_validators)
    ((fun bid_kind => mkWrapper (BidKind_validator_public_key bid_kind) bid_kind) <$> bids).

(** ** The handlers *)

(** The weights of the validators of one era that have a total stake. *)
Definition validator_weights {R} (total_stake : R -> option U512) (recipients : BTreeMap PublicKey R)
    : BTreeMap PublicKey U512 :=
  from_iter (omap (fun e => (fun stake => (e.1, stake)) <$> total_stake e.2) recipients).

(** [rpc_sidecar/src/rpcs/state.rs:1318-1357], [era_validators_from_snapshot]. *)
Definition era_validators_from_snapshot (snapshot : CLValue) (is_1x : bool)
    : result RpcErr.Error EraValidators :=
  if is_1x then
    let? seigniorage :=
      map_err (fun _ => RpcErr.InvalidAuctionState) (CLValue_into_recipients_v1 snapshot) in
    Ok (from_iter (List.map (fun '(era_id, recipients) =>
                               (era_id, validator_weights total_stake_v1 recipients)) seigniorage))
  else
    let? seigniorage :=
      map_err (fun _ => RpcErr.InvalidAuctionState) (CLValue_into_recipients_v2 snapshot) in
    Ok (from_iter (List.map (fun '(era_id, recipients) =>
                               (era_id, validator_weights total_stake_v2 recipients)) seigniorage)).

(** [rpc_sidecar/src/rpcs/state.rs:449-471], [fetch_bid_kinds]. *)
Definition fetch_bid_kinds (state_identifier : GlobalStateIdentifier) (is_1x : bool)
    : node (result RpcErr.Error (list BidKind)) :=
  let key_tag := if is_1x then KeyTag_Bid else KeyTag_BidAddr in
  let! stored_values :=
    requesting "auction bids" (query_global_state_by_tag (Some state_identifier) key_tag) in
  lift
    (if is_1x
     then mapM (fun v => Unified <$> ok_or (StoredValue_into_bid v) RpcErr.InvalidAuctionState) stored_values
     else mapM (fun v => ok_or (StoredValue_into_bid_kind v) RpcErr.InvalidAuctionState) stored_values).

(** [rpc_sidecar/src/rpcs/state.rs:395-406], the lookup of the auction contract in
    the registry, which the two methods do at different states. *)
Definition auction_contract (registry_at : option GlobalStateIdentifier)
    : node (result RpcErr.Error AddressableEntityHash) :=
  let! found :=
    requesting "system contract registry" (query_global_state registry_at Key_SystemEntityRegistry []) in
  let! found := lift (ok_or found RpcErr.GlobalStateEntryNotFound) in
  lift
    (let? cl_value := ok_or (StoredValue_into_cl_value (query_value found)) RpcErr.InvalidAuctionState in
     let? registry := map_err (fun _ => RpcErr.InvalidAuctionState) (CLValue_into_registry cl_value) in
     ok_or (get AUCTION registry) RpcErr.InvalidAuctionState).

(** [rpc_sidecar/src/rpcs/state.rs:408-432], the snapshot of the seigniorage
    recipients, under the entity of the auction or under its contract. *)
Definition auction_snapshot (state_identifier : GlobalStateIdentifier) (auction_hash : AddressableEntityHash)
    : node (result RpcErr.Error CLValue) :=
  let! found :=
    requesting "auction snapshot"
      (query_global_state (Some state_identifier) (Key_system_entity auction_hash)
         [SEIGNIORAGE_RECIPIENTS_SNAPSHOT_KEY]) in
  let! found :=
    match found with
    | Some found => Ret (Ok found)
    | None =>
        let! found :=
          requesting "auction snapshot"
            (query_global_state (Some state_identifier) (Key_Hash (AddressableEntityHash_value auction_hash))
               [SEIGNIORAGE_RECIPIENTS_SNAPSHOT_KEY]) in
        lift (ok_or found RpcErr.GlobalStateEntryNotFound)
    end in
  lift (ok_or (StoredValue_into_cl_value (query_value found)) RpcErr.InvalidAuctionState).

(** [rpc_sidecar/src/rpcs/state.rs:340-346], [GetAuctionInfoParams]. *)
Record GetAuctionInfoParams := mkGetAuctionInfoParams { gai_block_identifier : BlockIdentifier }.

(** [rpc_sidecar/src/rpcs/state.rs:354-363], [GetAuctionInfoResult]. *)
Record GetAuctionInfoResult := mkGetAuctionInfoResult {
  gair_api_version : ApiVersion;
  gair_auction_state : AuctionState;
}.

(** [rpc_sidecar/src/rpcs/state_get_auction_info_v2.rs:74-83], [GetAuctionInfoResult]. *)
Record GetAuctionInfoV2Result := mkGetAuctionInfoV2Result {
  gai2_api_version : ApiVersion;
  gai2_auction_state : AuctionStateV2;
}.

(** The state the methods read: at the given block, or at the height of the
    latest one. *)
Definition auction_state_identifier (block_identifier : option BlockIdentifier) (block_header : BlockHeader)
    : GlobalStateIdentifier :=
  default (StateBlockHeight (header_height block_header)) (GlobalStateIdentifier_from <$> block_identifier).

(** [rpc_sidecar/src/rpcs/state.rs:380-446], [GetAuctionInfo::do_handle_request]. *)
Definition get_auction_info (maybe_params : option GetAuctionInfoParams)
    : node (result RpcError GetAuctionInfoResult) :=
  let block_identifier := gai_block_identifier <$> maybe_params in
  into_rpc
    (let! block_header := get_block_header block_identifier in
     let state_identifier := auction_state_identifier block_identifier block_header in
     let is_1x := header_protocol_major block_header =? 1 in
     let! bids := fetch_bid_kinds state_identifier is_1x in
     let! auction_hash := auction_contract None in
     let! snapshot := auction_snapshot state_identifier auction_hash in
     let! validators := lift (era_validators_from_snapshot snapshot is_1x) in
     let auction_state :=
       AuctionState_new (header_state_root_hash block_header) (header_height block_header) validators bids in
     Ret (Ok (mkGetAuctionInfoResult CURRENT_API_VERSION auction_state))).

(** [rpc_sidecar/src/rpcs/state_get_auction_info_v2.rs:100-171], [GetAuctionInfo::do_handle_request]. *)
Definition get_auction_info_v2 (maybe_params : option GetAuctionInfoParams)
    : node (result RpcError GetAuctionInfoV2Result) :=
  let block_identifier := gai_block_identifier <$> maybe_params in
  into_rpc
    (let! block_header := get_block_header block_identifier in
     let state_identifier := auction_state_identifier block_identifier block_header in
     let is_1x := header_protocol_major block_header =? 1 in
     let! bids := fetch_bid_kinds state_identifier is_1x in
     let! auction_hash := auction_contract (Some state_identifier) in
     let! snapshot := auction_snapshot state_identifier auction_hash in
     let! validators := lift (era_validators_from_snapshot snapshot is_1x) in
     let auction_state :=
       AuctionStateV2_new (header_state_root_hash block_header) (header_height block_header) validators bids in
     Ret (Ok (mkGetAuctionInfoV2Result CURRENT_API_VERSION auction_state))).

(** ** Encoding and the methods *)

Context `{!Serialize Bid, !Serialize BidKind, !Deserialize GetAuctionInfoParams}.

#[export] Instance Serialize_JsonValidatorWeight : Serialize JsonValidatorWeight := fun r =>
  struct_value [("public_key", to_value (jw_public_key r)); ("weight", json_U512 (jw_weight r))].

#[export] Instance Serialize_JsonEraValidators : Serialize JsonEraValidators := fun r =>
  struct_value [("era_id", json_EraId (jev_era_id r));
                ("validator_weights", to_value (jev_validator_weights r))].

(** [rpc_sidecar/src/rpcs/state/auction_state.rs:216-221], [KeyValueLabels for BidLabels]:
    an entry of the map of bids as an object. *)
#[export] Instance Serialize_bid_entry : Serialize (PublicKey * Bid) := fun e =>
  struct_value [("public_key", to_value e.1); ("bid", to_value e.2)].

#[export] Instance Serialize_AuctionState : Serialize AuctionState := fun r =>
  struct_value [("state_root_hash", to_value (as_state_root_hash r));
                ("block_height", json_u64 (as_block_height r));
                ("era_validators", to_value (as_era_validators r));
                ("bids", to_value (as_bids r : list (PublicKey * Bid)))].

#[export] Instance Serialize_BidKindWrapper : Serialize BidKindWrapper := fun r =>
  struct_value [("public_key", to_value (bkw_public_key r)); ("bid", to_value (bkw_bid r))].

#[export] Instance Serialize_AuctionStateV2 : Serialize AuctionStateV2 := fun r =>
  struct_value [("state_root_hash", to_value (as2_state_root_hash r));
                ("block_height", json_u64 (as2_block_height r));
                ("era_validators", to_value (as2_era_validators r));
                ("bids", to_value (as2_bids r))].

#[export] Instance Serialize_GetAuctionInfoResult : Serialize GetAuctionInfoResult := fun r =>
  struct_value [("api_version", to_value (gair_api_version r));
                ("auction_state", to_value (gair_auction_state r))].

#[export] Instance Serialize_GetAuctionInfoV2Result : Serialize GetAuctionInfoV2Result := fun r =>
  struct_value [("api_version", to_value (gai2_api_version r));
                ("auction_state", to_value (gai2_auction_state r))].

(** [rpc_sidecar/src/rpcs/state.rs:371-447], [RpcWithOptionalParams for GetAuctionInfo]. *)
Definition GetAuctionInfo : RpcWithOptionalParams :=
  mkWithOptionalParams "state_get_auction_info" GetAuctionInfoParams GetAuctionInfoResult _ _ get_auction_info.

(** [rpc_sidecar/src/rpcs/state_get_auction_info_v2.rs:91-172], [RpcWithOptionalParams for GetAuctionInfo]. *)
Definition GetAuctionInfoV2 : RpcWithOptionalParams :=
  mkWithOptionalParams "state_get_auction_info_v2" GetAuctionInfoParams GetAuctionInfoV2Result _ _
    get_auction_info_v2.

End Auction.

(** ** The bids that are presented *)

Section Bids.
Context `{CasperTypes} `{!AuctionTypes}.
#[local] Existing Instance Ord_eq_dec.

(** The stake a unified bid stands for, with its delegators. *)
Definition unified_stake (bid : Bid) : ValidatorBid * BTreeMap DelegatorKind DelegatorBid :=
  (ValidatorBid_unlocked (Bid_validator_public_key bid) (Bid_bonding_purse bid)
     (Bid_staked_amount bid) (Bid_delegation_rate bid) 0 U64_MAX 0,
   from_iter (List.map (fun e => (DelegatorKind_PublicKey e.1, DelegatorBid_from e.2)) (Bid_delegators bid))).

(** The bids of each kind, with the validator they are for. *)
Definition unified_entries (bids : list BidKind) :=
  omap (fun b => match b with
                 | Unified bid => Some (Bid_validator_public_key bid, unified_stake bid)
                 | _ => None end) bids.

Definition validator_entries (bids : list BidKind)
    : list (PublicKey * (ValidatorBid * BTreeMap DelegatorKind DelegatorBid)) :=
  omap (fun b => match b with
                 | Validator bid => Some (ValidatorBid_validator_public_key bid, (bid, []))
                 | _ => None end) bids.

Definition delegators_of (public_key : PublicKey) (bids : list BidKind) : list (DelegatorKind * DelegatorBid) :=
  omap (fun b => match b with
                 | DelegatorOf bid =>
                     if decide (DelegatorBid_validator_public_key bid = public_key)
                     then Some (DelegatorBid_delegator_kind bid, bid) else None
                 | _ => None end) bids.

(** The last bid of the new kind of a validator, or else its last unified bid. *)
Definition chosen_stake (public_key : PublicKey) (bids : list BidKind)
    : option (ValidatorBid * BTreeMap DelegatorKind DelegatorBid) :=
  match last_value public_key (validator_entries bids) with
  | Some stake => Some stake
  | None => last_value public_key (unified_entries bids)
  end.

(** What [AuctionState::new] should present for a validator: the chosen bid with
    the last bid of each delegator. *)
Definition reference_bid (public_key : PublicKey) (bids : list BidKind) : option Bid :=
  '(validator_bid, own) ← chosen_stake public_key bids;
  Some (Bid_from_non_unified validator_bid (from_iter (own ++ delegators_of public_key bids))).

Lemma foldl_inserts {A} (f : BidKind -> option (PublicKey * A)) (step : BTreeMap PublicKey A -> BidKind -> BTreeMap PublicKey A)
    (sel : BidKind -> bool) (bids : list BidKind) (m : BTreeMap PublicKey A) :
  (forall m b, step m b = match f b with Some e => insert e.1 e.2 m | None => m end) ->
  (forall b, sel b = false -> f b = None) ->
  foldl step m (List.filter sel bids) = foldl (fun m e => insert e.1 e.2 m) m (omap f bids).
Proof.
  intros Hstep Hsel. revert m. induction bids as [|b bids IH]; intros m; [done|]. csimpl.
  destruct (sel b) eqn:Hs; simpl.
  - rewrite IH, Hstep. by destruct (f b).
  - rewrite IH, (Hsel b Hs). done.
Qed.

Lemma foldl_pairs {A} (g : PublicKey -> DelegatorKind) (h : A -> DelegatorBid) (l : list (PublicKey * A)) m :
  foldl (fun m '(k, a) => insert (g k) (h a) m) m l =
  foldl (fun m e => insert e.1 e.2 m) m (List.map (fun e => (g e.1, h e.2)) l).
Proof. revert m. induction l as [|[k a] l IH]; intros m; [done|]. simpl. apply IH. Qed.

(** The first two loops build a map of stakes. *)
Lemma staking_base (bids : list BidKind) :
  foldl stake_validator (foldl stake_unified [] (List.filter is_unified bids)) (List.filter is_validator bids) =
  from_iter (unified_entries bids ++ validator_entries bids).
Proof.
  rewrite from_iter_app. unfold from_iter.
  rewrite (foldl_inserts (fun b => match b with
             | Unified bid => Some (Bid_validator_public_key bid, unified_stake bid)
             | _ => None end) stake_unified is_unified).
  - apply foldl_inserts; [by intros ? []|by intros []].
  - intros m [bid| | |]; simpl; [|done..]. by rewrite foldl_pairs.
  - by intros [].
Qed.

Lemma stake_delegators_spec (bids : list BidKind) (m : BTreeMap PublicKey (ValidatorBid * BTreeMap DelegatorKind DelegatorBid)) :
  ordered m ->
  ordered (foldl stake_delegator m (List.filter is_delegator bids)) /\
  forall k, get k (foldl stake_delegator m (List.filter is_delegator bids)) =
    (fun '(v, ds) => (v, foldl (fun m e => insert e.1 e.2 m) ds (delegators_of k bids))) <$> get k m.
Proof.
  revert m. induction bids as [|b bids IH]; intros m Hm.
  { split; [done|]. intros k. simpl. by destruct (get k m) as [[]|]. }
  unfold delegators_of. csimpl. destruct b as [| |d|]; simpl; try by apply IH.
  edestruct IH as [Ho Hg]; [apply ordered_modify, Hm|]. split; [done|]. intros k.
  rewrite Hg, get_modify. destruct (decide (k = _)) as [->|Hk].
  - rewrite decide_True by done. by destruct (get _ m) as [[]|].
  - by rewrite decide_False by congruence.
Qed.

Lemma unified_bids_values (bids : list BidKind) :
  ordered (staking_of bids) ->
  unified_bids bids = map_values (fun '(v, ds) => Bid_from_non_unified v ds) (staking_of bids).
Proof.
  intros Ho. rewrite <- from_iter_map_values by done. unfold unified_bids, from_iter.
  generalize (staking_of bids) as l, (@nil (PublicKey * Bid)) as m. clear Ho.
  induction l as [|[k [v ds]] l IH]; intros m; [done|]. simpl. apply IH.
Qed.

Lemma own_ordered (k : PublicKey) (bids : list BidKind) v own :
  chosen_stake k bids = Some (v, own) -> ordered own.
Proof.
  unfold chosen_stake.
  assert (forall (l : list (PublicKey * (ValidatorBid * BTreeMap DelegatorKind DelegatorBid))),
    (forall e, e ∈ l -> ordered e.2.2) -> forall s, last_value k l = Some s -> ordered s.2) as Hl.
  { induction l as [|[k' s'] l IH]; simpl; [done|]. intros Hall s.
    destruct (last_value k l) eqn:E; [intros [= <-]; apply IH; [|done]; intros; apply Hall; by right|].
    case_decide; [|done]. intros [= <-]. apply (Hall (k', s')). by left. }
  destruct (last_value k (validator_entries bids)) as [s|] eqn:Hv; intros Hs.
  - injection Hs as ->. eapply (Hl (validator_entries bids)) in Hv; [done|].
    intros e ([] & _ & He)%list_elem_of_omap; simplify_eq/=. constructor.
  - eapply (Hl (unified_entries bids)) in Hs; [done|].
    intros e ([] & _ & He)%list_elem_of_omap; simplify_eq/=. apply from_iter_ordered.
Qed.

(** C24. The bids in the answer of [state_get_auction_info]: one for each
    validator in the order of the public keys, namely the validator's last bid of
    the new kind or else its last unified bid, joined with the last bid of each
    of its delegators; bids of delegators without a validator and bids of other
    kinds are left out. *)
Theorem auction_bids_presented (root : Digest) (height : Z)
    (validators : BTreeMap EraId (BTreeMap PublicKey U512)) (bids : list BidKind) :
  ordered (as_bids (AuctionState_new root height validators bids)) /\
  forall k, get k (as_bids (AuctionState_new root height validators bids)) = reference_bid k bids.
Proof.
  unfold AuctionState_new. cbn [as_bids].
  assert (ordered (staking_of bids) /\ forall k, get k (staking_of bids) =
    (fun '(v, ds) => (v, foldl (fun m e => insert e.1 e.2 m) ds (delegators_of k bids))) <$>
      last_value k (unified_entries bids ++ validator_entries bids)) as [Ho Hg].
  { unfold staking_of. rewrite staking_base.
    destruct (stake_delegators_spec bids _ (from_iter_ordered (unified_entries bids ++ validator_entries bids)))
      as [Ho Hg]. split; [done|]. intros k. by rewrite Hg, get_from_iter. }
  rewrite (unified_bids_values _ Ho). split; [by apply ordered_map_values|]. intros k.
  rewrite get_map_values, Hg. unfold reference_bid.
  replace (last_value k _) with (chosen_stake k bids) by (by rewrite last_value_app).
  pose proof (own_ordered k bids) as Hown.
  destruct (chosen_stake k bids) as [[v own]|]; simpl; [|done].
  rewrite from_iter_app, from_iter_id by eauto. done.
Qed.

End Bids.

(** ** The two methods compared *)

Section Versions.
Context `{CasperOps} `{BinaryPort} `{BinaryPortCodes} `{!PortPayloads, !CasperJson} `{!AuctionTypes}.
Context (into_bid_kind : StoredValue -> option BidKind).
Context (answers : Request -> result ClientError BinaryResponseAndRequest).

(** The state of the second method in the form of the first. *)
Definition retrofit (r : GetAuctionInfoV2Result) : GetAuctionInfoResult :=
  let s := gai2_auction_state r in
  mkGetAuctionInfoResult (gai2_api_version r)
    (mkAuctionState (as2_state_root_hash s) (as2_block_height s) (as2_era_validators s)
       (unified_bids (bkw_bid <$> as2_bids s))).

(** What the node answers when asked for the registry of system contracts. *)
Definition registry_answer (at_ : option GlobalStateIdentifier) : result ClientError BinaryResponseAndRequest :=
  answers (Get (GetState at_ (Item Key_SystemEntityRegistry []))).

Lemma eval_auction_contract (a b : option GlobalStateIdentifier) :
  registry_answer a = registry_answer b ->
  eval answers (auction_contract a) = eval answers (auction_contract b).
Proof.
  intros Heq. unfold auction_contract, requesting, query_global_state, registry_answer in *.
  autorewrite with eval. by rewrite Heq.
Qed.

(** The state identifier a method reads at, if it finds the block. *)
Definition auction_reads_at (maybe_params : option GetAuctionInfoParams) : option GlobalStateIdentifier :=
  match eval answers (get_block_header (gai_block_identifier <$> maybe_params)) with
  | Ok header => Some (auction_state_identifier (gai_block_identifier <$> maybe_params) header)
  | Err _ => None
  end.

(** C25. The two auction methods agree: if the node gives the same registry of
    system contracts for the block as for the tip of the chain, the first method
    returns what the second returns, brought into the old form, and fails with
    the same error when it fails.  They are not the same without that condition:
    when the node has the block and its bids but no registry in the state of the
    block, the second method fails with [QueryFailed], whatever the registry at
    the tip. *)
Theorem auction_versions_agree (maybe_params : option GetAuctionInfoParams) :
  (registry_answer (auction_reads_at maybe_params) = registry_answer None ->
   eval answers (get_auction_info into_bid_kind maybe_params) =
     retrofit <$> eval answers (get_auction_info_v2 into_bid_kind maybe_params)) /\
  (forall header bids,
   eval answers (get_block_header (gai_block_identifier <$> maybe_params)) = Ok header ->
   eval answers (fetch_bid_kinds into_bid_kind
     (auction_state_identifier (gai_block_identifier <$> maybe_params) header)
     (header_protocol_major header =? 1)) = Ok bids ->
   eval answers (query_global_state (auction_reads_at maybe_params) Key_SystemEntityRegistry []) = Ok None ->
   exists e, eval answers (get_auction_info_v2 into_bid_kind maybe_params) = Err e /\
     code e = discriminant RpcCode.QueryFailed).
Proof.
  unfold auction_reads_at, get_auction_info, get_auction_info_v2, into_rpc. autorewrite with eval.
  destruct (eval answers (get_block_header _)) as [header|e] eqn:Hh; simpl; [|by split; intros].
  set (id := auction_state_identifier _ header). set (is_1x := header_protocol_major header =? 1).
  autorewrite with eval. split.
  - intros Heq. destruct (eval answers (fetch_bid_kinds _ _ _)) as [bids|e]; simpl; [|done].
    autorewrite with eval. rewrite (eval_auction_contract None (Some id)) by done.
    destruct (eval answers (auction_contract _)) as [hash|e]; simpl; [|done]. autorewrite with eval.
    destruct (eval answers (auction_snapshot _ _)) as [snapshot|e]; simpl; [|done]. autorewrite with eval.
    destruct (era_validators_from_snapshot snapshot is_1x) as [validators|e]; simpl; [|done].
    unfold retrofit. simpl. unfold AuctionState_new. do 4 f_equal.
    rewrite <- list_fmap_compose. by rewrite list_fmap_id.
  - intros ? bids [= <-] Hb Hr. fold id is_1x in Hb. rewrite Hb. simpl. autorewrite with eval.
    unfold auction_contract, requesting. autorewrite with eval. rewrite Hr. simpl. autorewrite with eval. simpl.
    eexists. split; [done|]. by rewrite Error_new_rpc_string.
Qed.

End Versions.

(** ** What the methods ask *)

Section AuctionAsks.
Context `{CasperOps} `{BinaryPort} `{BinaryPortCodes} `{!PortPayloads, !CasperJson} `{!AuctionTypes}.

Lemma asks_fetch_bid_kinds into id b : asks reads_only 1 (fetch_bid_kinds into id b).
Proof. unfold fetch_bid_kinds. solve_asks. Qed.

Lemma asks_auction_contract id : asks reads_only 1 (auction_contract id).
Proof. unfold auction_contract. solve_asks. Qed.

Lemma asks_auction_snapshot id hash : asks reads_only 2 (auction_snapshot id hash).
Proof. unfold auction_snapshot. solve_asks. Qed.
#[local] Hint Resolve asks_fetch_bid_kinds asks_auction_contract asks_auction_snapshot : asks.

Lemma asks_get_auction_info into p : asks reads_only 6 (get_auction_info into p).
Proof. unfold get_auction_info, into_rpc. solve_asks. Qed.

Lemma asks_get_auction_info_v2 into p : asks reads_only 6 (get_auction_info_v2 into p).
Proof. unfold get_auction_info_v2, into_rpc. solve_asks. Qed.

End AuctionAsks.

#[export] Hint Resolve asks_get_auction_info asks_get_auction_info_v2 : asks.
