(* ===== verification/RpcMethods.v ===== *)
(** * What the RPC methods answer

    Properties of the methods of the RPC servers, for a node whose answers are
    given by a function ([eval answers]): what they do with missing blocks and
    with the types of responses, and how methods that overlap agree. *)

From S2P Require Import Prelude Json JsonRpc NodeErrors NodeClient CachingClient BTreeMap Casper.
From S2P Require Import CasperSample RpcErrors NodeRequests RpcTraits NodeSample RpcCommon.
From S2P Require Import RpcAccount RpcChain RpcInfo RpcState RpcAuction.

#[local] Arguments encode_proof : simpl never.
#[local] Arguments create_era_summary : simpl never.

Section Methods.
Context `{CasperOps} `{BinaryPort} `{BinaryPortCodes} `{!PortPayloads, !CasperJson}.
Context (answers : Request -> result ClientError BinaryResponseAndRequest).

Lemma encode_proof_fails (proof : list TrieMerkleProof) e :
  encode_proof proof = Err e -> exists error, e = RpcErr.BytesreprFailure error.
Proof. unfold encode_proof. destruct (proofs_to_bytes proof); simpl; [done|]. intros [= <-]. eauto. Qed.

Lemma collect_Err {E A} (l : list (result E A)) e : collect l = Err e -> Err e ∈ l.
Proof.
  induction l as [|[a|e'] l IH]; [done|..]; cbn.
  - destruct (collect l) as [as_|e'] eqn:Hl; unfold collect in Hl; rewrite Hl; cbn; [done|].
    intros [= ->]. right. by apply IH.
  - intros [= ->]. by left.
Qed.

Lemma collect_holds_fails (holds : BTreeMap BlockTime (BTreeMap BalanceHoldAddrTag (U512 * TrieMerkleProof))) e :
  collect (flat_map (fun '(time, holds) => List.map (hold_of time) holds) holds) = Err e ->
  exists error, e = RpcErr.BytesreprFailure error.
Proof.
  intros He%collect_Err%list_elem_of_In%in_flat_map. destruct He as ([time hs] & _ & Hin%in_map_iff).
  destruct Hin as ([tag [amount proof]] & Hh & _). unfold hold_of in Hh.
  destruct (encode_proof [proof]) eqn:Hp; simpl in Hh; [done|]. injection Hh as ->.
  by eapply encode_proof_fails.
Qed.

(** ** Types of responses *)

(** The response a request for an entity or a package gets. *)
Definition entity_answer id e b := answers (Get (GetInformation (InfoEntity id e b))).
Definition package_answer id p := answers (Get (GetInformation (InfoPackage id p))).

(** The response carries that entity, as a value of its own type. *)
Definition carries_entity (resp : BinaryResponseAndRequest) (r : EntityResponse) : Prop :=
  match r with
  | EntityEntity information => carries resp information
  | EntityAccount information => carries resp information
  | EntityContract information => carries resp information
  end.

Definition carries_package (resp : BinaryResponseAndRequest) (r : PackageResponse) : Prop :=
  match r with
  | PackagePackage package => carries resp package
  | PackageContractPackage package => carries resp package
  end.

(** C11. Typed answers: [read_entity] returns an entity, account or contract
    exactly if the node's response is a success that is tagged with that type
    and whose payload is that value; likewise [read_package] for the two kinds of
    package.  A payload is never read at a type other than its tag's. *)
Theorem responses_typed `{!PortPayloadLaws} :
  (forall id e b r, eval answers (read_entity id e b) = Ok (Some r) <->
     exists resp, entity_answer id e b = Ok resp /\ carries_entity resp r) /\
  (forall id p r, eval answers (read_package id p) = Ok (Some r) <->
     exists resp, package_answer id p = Ok resp /\ carries_package resp r).
Proof.
  pose proof entity_tags_NoDup as Hent. pose proof package_tags_NoDup as Hpkg.
  rewrite !NoDup_cons in Hent, Hpkg.
  repeat setoid_rewrite not_elem_of_cons in Hent. repeat setoid_rewrite not_elem_of_cons in Hpkg.
  split.
  - intros id e b r. unfold read_entity, read_info, entity_answer. autorewrite with eval.
    destruct (answers _) as [resp|err]; simpl; [|by split; [|intros (? & ? & _)]]. autorewrite with eval.
    rewrite <- ContractInformation_tag, <- AccountInformation_tag.
    transitivity (carries_entity resp r);
      [|split; [by exists resp|by intros (? & [= <-] & ?)]].
    destruct (decide _) as [Ht|Hc]; [|destruct (decide _) as [Ht|Ha]]; rewrite map_parse_Some;
      (split; [intros (x & -> & Hx); exact Hx|]); destruct r; simpl; eauto;
      intros Hx; pose proof (parse_Some_tag _ _ Hx); destruct_and?; congruence.
  - intros id p r. unfold read_package, read_info, package_answer. autorewrite with eval.
    destruct (answers _) as [resp|err]; simpl; [|by split; [|intros (? & ? & _)]]. autorewrite with eval.
    rewrite <- ContractPackage_tag.
    transitivity (carries_package resp r);
      [|split; [by exists resp|by intros (? & [= <-] & ?)]].
    destruct (decide _) as [Ht|Hc]; rewrite map_parse_Some;
      (split; [intros (x & -> & Hx); exact Hx|]); destruct r; simpl; eauto;
      intros Hx; pose proof (parse_Some_tag _ _ Hx); destruct_and?; congruence.
Qed.

(** ** Missing blocks *)

Context `{!AuctionTypes} (into_bid_kind : StoredValue -> option BidKind).

(** What a handler that starts from a block makes of the block. *)
Lemma eval_get_block_header id :
  eval answers (read_block_header id) = Ok None ->
  eval answers (get_block_header id) = eval answers (missing_block id).
Proof. intros Hn. unfold get_block_header, requesting. autorewrite with eval. by rewrite Hn. Qed.

Lemma eval_get_block id :
  eval answers (read_block_with_signatures id) = Ok None ->
  eval answers (get_block_with_signatures id) = eval answers (missing_block id).
Proof.
  intros Hn. unfold get_block_with_signatures, requesting. rewrite eval_try, eval_map_err, Hn. done.
Qed.

Lemma eval_missing_block {A} id range :
  eval answers read_available_block_range = Ok range ->
  eval answers (missing_block (A := A) id) = Err (RpcErr.NoBlockFound id range).
Proof. intros Hr. unfold missing_block, requesting. autorewrite with eval. by rewrite Hr. Qed.

(** A handler that fails at its first step. *)
Lemma eval_into_fails {A B} (p : node (result RpcErr.Error A)) (f : A -> node (result RpcErr.Error B)) e :
  eval answers p = Err e -> eval answers (into_rpc (try_bind f p)) = Err (RpcError_from e).
Proof. intros He. unfold into_rpc. autorewrite with eval. by rewrite He. Qed.

(** The error for a block the node does not have. *)
Definition missing_block (id : BlockIdentifier) (range : AvailableBlockRange) : RpcError :=
  RpcError_from (RpcErr.NoBlockFound (Some id) range).

(** C23. A block the node does not have: each of the eight methods that start
    from a given block answers with the error [NoSuchBlock] for the identifier
    that was asked for, whose data holds the range of blocks the node has, as the
    node reports it in the same call. *)
Theorem missing_block_reported (id : BlockIdentifier) (range : AvailableBlockRange) :
  eval answers read_available_block_range = Ok range ->
  let missing := missing_block id range in
  (eval answers (read_block_with_signatures (Some id)) = Ok None ->
     eval answers (get_block (Some (mkGetBlockParams id))) = Err missing) /\
  (eval answers (read_block_header (Some id)) = Ok None ->
     eval answers (get_block_transfers (Some (mkGetBlockTransfersParams id))) = Err missing /\
     eval answers (get_state_root_hash (Some (mkGetStateRootHashParams id))) = Err missing /\
     eval answers (get_era_info_by_switch_block (Some (mkGetEraInfoParams id))) = Err missing /\
     eval answers (get_era_summary (Some (mkGetEraSummaryParams id))) = Err missing /\
     eval answers (get_auction_info into_bid_kind (Some (mkGetAuctionInfoParams id))) = Err missing /\
     eval answers (get_auction_info_v2 into_bid_kind (Some (mkGetAuctionInfoParams id))) = Err missing /\
     forall key path state,
       state = match id with
               | CachingClient.BlockHash hash => StateBlockHash hash
               | BlockHeight height => StateBlockHeight height
               end ->
       eval answers (query_state (mkQueryGlobalStateParams (Some state) key path)) = Err missing) /\
  (forall v, to_value range = Ok v ->
     code missing = -32001 /\
     data missing = Some (VObject [("message", VString "no block found for the provided identifier");
                                   ("available_block_range", v)])).
Proof.
  intros Hr missing. split_and!.
  - intros Hn. apply eval_into_fails. by rewrite eval_get_block, (eval_missing_block _ range).
  - intros Hn.
    assert (eval answers (get_block_header (Some id)) = Err (RpcErr.NoBlockFound (Some id) range)) as Hh
      by (by rewrite eval_get_block_header, (eval_missing_block _ range)).
    split_and!; try by apply eval_into_fails.
    intros key path state ->. apply eval_into_fails.
    destruct id; simpl; rewrite eval_try, Hh; done.
  - intros v Hv. unfold missing, missing_block. simpl.
    by rewrite (Error_new_rpc_code _ _ _ (to_value_missing _ _ _ Hv)).
Qed.

(** ** Methods that overlap *)

(** What the answer of [info_get_transaction] says about a deploy. *)
Definition deploy_view (hash : DeployHash) (r : result RpcErr.Error (Transaction * option ExecutionInfo))
    : result RpcErr.Error (Deploy * option ExecutionInfo) :=
  match r with
  | Ok (TxDeploy deploy, execution_info) => Ok (deploy, execution_info)
  | Ok (TxV1 _, _) => Err RpcErr.FoundTransactionInsteadOfDeploy
  | Err (RpcErr.NoTransactionWithHash _) => Err (RpcErr.NoDeployWithHash hash)
  | Err e => Err e
  end.

(** The deprecated methods for deploys are the methods for transactions, seen
    through deploys.  [info_get_deploy] and [info_get_transaction] for the same
    hash succeed and fail together, except that a transaction that is no deploy
    is an error of its own, and a missing one is reported as a missing deploy.
    [account_put_deploy] accepts and refuses exactly the deploys that
    [account_put_transaction] does, and reports a refusal with the same text as
    an invalid deploy. *)
Theorem deploy_methods_agree (hash : DeployHash) (finalized_approvals : bool) (deploy : Deploy) :
  (exists r,
     eval answers (get_transaction (mkGetTransactionParams (TransactionHash_from hash) finalized_approvals)) =
       map_err RpcError_from
         ((fun x => mkGetTransactionResult CURRENT_API_VERSION x.1 x.2) <$> r) /\
     eval answers (get_deploy (mkGetDeployParams hash finalized_approvals)) =
       map_err RpcError_from
         ((fun x => mkGetDeployResult CURRENT_API_VERSION x.1 x.2) <$> deploy_view hash r)) /\
  (exists r,
     eval answers (put_transaction (mkPutTransactionParams (TxDeploy deploy))) =
       map_err RpcError_from
         ((fun _ : unit => mkPutTransactionResult CURRENT_API_VERSION (Transaction_hash (TxDeploy deploy))) <$>
            map_err (fun e => match e with
                              | ClientError.InvalidTransaction err => RpcErr.InvalidTransaction err
                              | e => RpcErr.NodeRequest "submitting a transaction" e
                              end) r) /\
     eval answers (put_deploy (mkPutDeployParams deploy)) =
       map_err RpcError_from
         ((fun _ : unit => mkPutDeployResult CURRENT_API_VERSION (Deploy_hash deploy)) <$>
            map_err (fun e => match e with
                              | ClientError.InvalidTransaction err => RpcErr.InvalidDeploy err
                              | e => RpcErr.NodeRequest "submitting a deploy" e
                              end) r)).
Proof.
  split.
  - unfold get_transaction, get_deploy, into_rpc, requesting. autorewrite with eval. simpl.
    destruct (eval answers (read_transaction_with_execution_info _ _)) as [[[tx info]|]|e]; simpl.
    + exists (Ok (tx, info)). autorewrite with eval. simpl. split; [done|]. by destruct tx.
    + by exists (Err (RpcErr.NoTransactionWithHash (TransactionHash_from hash))).
    + by exists (Err (RpcErr.NodeRequest "transaction" e)).
  - exists (eval answers (try_accept_transaction (TxDeploy deploy))).
    unfold put_transaction, put_deploy. autorewrite with eval. simpl.
    destruct (eval answers (try_accept_transaction _)) as [[]|[]]; done.
Qed.

(** The two methods on eras agree, and say where their data comes from.
    [chain_get_era_info_by_switch_block] answers as [chain_get_era_summary] does
    if the block is a switch block, and with no summary if it is another block.
    A summary names the hash, era and state root of the block asked for (by
    default the latest switch block) and holds the value that the state under
    that very root has for the era summary, or, if there is none, for the
    information on that era. *)
Theorem era_methods_agree (id : option BlockIdentifier) :
  (forall header, eval answers (era_block_header id) = Ok header ->
     eval answers (get_era_info_by_switch_block (mkGetEraInfoParams <$> id)) =
       if header_is_switch_block header
       then (fun r => mkGetEraInfoResult CURRENT_API_VERSION (Some (gesr_era_summary r))) <$>
              eval answers (get_era_summary (mkGetEraSummaryParams <$> id))
       else Ok (mkGetEraInfoResult CURRENT_API_VERSION None)) /\
  (forall e, eval answers (era_block_header id) = Err e ->
     eval answers (get_era_info_by_switch_block (mkGetEraInfoParams <$> id)) = Err (RpcError_from e) /\
     eval answers (get_era_summary (mkGetEraSummaryParams <$> id)) = Err (RpcError_from e)) /\
  (forall r, eval answers (get_era_summary (mkGetEraSummaryParams <$> id)) = Ok r ->
     exists header found proof,
       eval answers (era_block_header id) = Ok header /\
       gesr_era_summary r =
         mkEraSummary (header_block_hash header) (header_era_id header) (query_value found)
           (header_state_root_hash header) proof /\
       encode_proof (query_proof found) = Ok proof /\
       let at_ := Some (StateRootHash (header_state_root_hash header)) in
       (eval answers (query_global_state at_ Key_EraSummary []) = Ok (Some found) \/
        eval answers (query_global_state at_ Key_EraSummary []) = Ok None /\
        eval answers (query_global_state at_ (Key_EraInfo (header_era_id header)) []) = Ok (Some found))).
Proof.
  assert (gep_block_identifier <$> (mkGetEraInfoParams <$> id) = id) as E1 by by destruct id.
  assert (gesp_block_identifier <$> (mkGetEraSummaryParams <$> id) = id) as E2 by by destruct id.
  unfold get_era_info_by_switch_block, get_era_summary, into_rpc. rewrite E1, E2.
  autorewrite with eval. destruct (eval answers (era_block_header id)) as [header|err]; simpl;
    [|split_and!; [done|by intros ? [= ->]|done]].
  autorewrite with eval. split_and!; [|done|].
  - intros ? [= <-]. destruct (header_is_switch_block header); autorewrite with eval; [|done].
    by destruct (eval answers (get_era_summary_by_block header)).
  - intros r. destruct (eval answers (get_era_summary_by_block header)) as [summary|] eqn:Hs; [|done].
    intros [= <-]. exists header. simpl. revert Hs.
    unfold get_era_summary_by_block, requesting. autorewrite with eval.
    destruct (eval answers (query_global_state _ Key_EraSummary [])) as [[found|]|]; simpl; [| |done].
    + autorewrite with eval. unfold create_era_summary. destruct (encode_proof _) as [proof|] eqn:Hp; simpl; [|done].
      intros [= <-]. exists found, proof. auto.
    + autorewrite with eval.
      destruct (eval answers (query_global_state _ (Key_EraInfo _) [])) as [[found|]|]; simpl; [|done..].
      autorewrite with eval. simpl. autorewrite with eval. unfold create_era_summary.
      destruct (encode_proof _) as [proof|] eqn:Hp; simpl; [|done].
      intros [= <-]. exists found, proof. auto 6.
Qed.

(** The error for a proof that cannot be encoded. *)
Definition proof_not_encoded (e : RpcError) : Prop :=
  exists error, e = RpcError_from (RpcErr.BytesreprFailure error).

(** C21. The methods on the global state agree.  [state_get_item] answers as
    [query_global_state] at that state root, with no block header.  The three
    balance methods report the same available balance and fail together, with two
    exceptions: [state_get_balance] refuses a purse that is no formatted URef
    before it asks the node, and the methods that return proofs also fail where a
    proof cannot be encoded. *)
Theorem state_methods_agree (root : Digest) (key : Key) (path : list string) (purse : string) :
  eval answers (query_state (mkQueryGlobalStateParams (Some (StateRootHash root)) key path)) =
    (fun r => mkQueryGlobalStateResult (gir_api_version r) None (gir_stored_value r) (gir_merkle_proof r)) <$>
      eval answers (get_item (mkGetItemParams root key path)) /\
  (forall error, URef_from_formatted_str purse = Err error ->
     eval answers (get_balance (mkGetBalanceParams root purse)) =
       Err (RpcError_from (RpcErr.InvalidPurseURef error))) /\
  (forall uref, URef_from_formatted_str purse = Ok uref ->
     match eval answers (query_balance (mkQueryBalanceParams (Some (StateRootHash root)) (PurseUref uref))) with
     | Ok b =>
         match eval answers (get_balance (mkGetBalanceParams root purse)) with
         | Ok r => gbalr_balance_value r = qbr_balance b
         | Err e => proof_not_encoded e
         end /\
         match eval answers (query_balance_details
                               (mkQueryBalanceDetailsParams (Some (StateRootHash root)) (PurseUref uref))) with
         | Ok r => qdr_available_balance r = qbr_balance b
         | Err e => proof_not_encoded e
         end
     | Err e =>
         eval answers (get_balance (mkGetBalanceParams root purse)) = Err e /\
         eval answers (query_balance_details
                         (mkQueryBalanceDetailsParams (Some (StateRootHash root)) (PurseUref uref))) = Err e
     end).
Proof.
  unfold proof_not_encoded. split_and!.
  - unfold query_state, get_item, into_rpc, requesting. simp_eval.
    destruct (eval answers (query_global_state _ _ _)) as [[found|]|]; simp_eval; [|done..].
    destruct (encode_proof _); done.
  - intros error He. apply eval_into_fails. rewrite eval_lift. simpl. by rewrite He.
  - intros uref Hu. unfold get_balance, query_balance, query_balance_details, into_rpc, requesting. simpl.
    rewrite Hu. autorewrite with eval. simpl. autorewrite with eval.
    destruct (eval answers (read_balance _ _)) as [balance|e]; simpl; [|done]. autorewrite with eval. split.
    + destruct (encode_proof _) as [proof|e] eqn:Hp; simpl; [done|].
      destruct (encode_proof_fails _ _ Hp) as [error ->]. eauto.
    + destruct (collect _) as [holds|e] eqn:Hc; simpl.
      * autorewrite with eval. destruct (encode_proof _) as [proof|e] eqn:Hp; simpl; [done|].
        destruct (encode_proof_fails _ _ Hp) as [error ->]. eauto.
      * destruct (collect_holds_fails _ _ Hc) as [error ->]. eauto.
Qed.

(** ** Entities *)

Lemma eval_get_entity_named_keys addr at_ named_keys :
  eval answers (get_entity_named_keys addr at_) = Ok named_keys ->
  exists values pairs,
    eval answers (query_global_state_by_prefix at_ (NamedKeysByEntity addr)) = Ok values /\
    mapM named_key_of values = Ok pairs /\ named_keys = from_iter pairs.
Proof.
  unfold get_entity_named_keys, requesting. simp_eval.
  destruct (eval answers (query_global_state_by_prefix _ _)) as [values|]; simpl; [|done]. simp_eval.
  destruct (mapM named_key_of values) as [pairs|] eqn:Hp; simpl; [|done]. intros [= <-]. eauto.
Qed.

Lemma eval_get_entity_entry_points addr at_ entry_points :
  eval answers (get_entity_entry_points addr at_) = Ok entry_points ->
  exists v1 v2,
    eval answers (query_global_state_by_prefix at_ (EntryPointsV1ByEntity addr)) = Ok v1 /\
    eval answers (query_global_state_by_prefix at_ (EntryPointsV2ByEntity addr)) = Ok v2 /\
    Forall2 (fun v e => StoredValue_as_entry_point v = Some e) (v1 ++ v2) entry_points.
Proof.
  unfold get_entity_entry_points, requesting. simp_eval.
  destruct (eval answers (query_global_state_by_prefix _ (EntryPointsV1ByEntity _))) as [v1|]; simpl; [|done].
  simp_eval.
  destruct (eval answers (query_global_state_by_prefix _ (EntryPointsV2ByEntity _))) as [v2|]; simpl; [|done].
  simp_eval. intros Hm. exists v1, v2. split_and!; [done..|]. revert entry_points Hm.
  generalize (v1 ++ v2) as vs. induction vs as [|v vs IH]; intros es; cbn; [by intros [= <-]|].
  destruct (entry_point_of v) as [e|] eqn:He; cbn; [|done].
  destruct (mapM entry_point_of vs) as [es'|]; cbn; [|done]. intros [= <-]. constructor; [|by apply IH].
  unfold entry_point_of in He. destruct (StoredValue_as_entry_point v); by simplify_eq.
Qed.

(** The state of the block that is asked for. *)
Definition entity_state (params : GetAddressableEntityParams) : option GlobalStateIdentifier :=
  GlobalStateIdentifier_from <$> gaep_block_identifier params.

(** C22. The contents of an addressable entity in the answer of
    [state_get_entity]: the named keys are those stored under the entity's
    address at the state of the block asked for, in the order of their names and
    each name once with the key of its last entry; the entry points are those of
    the first version followed by those of the second, none left out; and there
    is byte code exactly if the node returned some. *)
Theorem entity_contents (params : GetAddressableEntityParams) (information : AddressableEntityInformation)
    (r : GetAddressableEntityResult) :
  let at_ := entity_state params in
  eval answers (read_entity at_ (into_port_entity_identifier (gaep_entity_identifier params))
                  (default false (gaep_include_bytecode params))) = Ok (Some (EntityEntity information)) ->
  eval answers (get_addressable_entity params) = Ok r ->
  exists values pairs named_keys v1 v2 entry_points bytecode,
    gaer_entity r =
      CompatAddressableEntity (proved (info_entity information)) named_keys entry_points bytecode /\
    eval answers (query_global_state_by_prefix at_ (NamedKeysByEntity (info_addr information))) = Ok values /\
    mapM named_key_of values = Ok pairs /\
    ordered named_keys /\ (forall name, get name named_keys = last_value name pairs) /\
    eval answers (query_global_state_by_prefix at_ (EntryPointsV1ByEntity (info_addr information))) = Ok v1 /\
    eval answers (query_global_state_by_prefix at_ (EntryPointsV2ByEntity (info_addr information))) = Ok v2 /\
    Forall2 (fun v e => StoredValue_as_entry_point v = Some e) (v1 ++ v2) entry_points /\
    bytecode_code <$> bytecode = proved <$> info_bytecode information.
Proof.
  intros at_ He. unfold get_addressable_entity, into_rpc, requesting. fold (entity_state params). fold at_. simp_eval. rewrite He. simp_eval.
  destruct (eval answers (get_entity_named_keys _ _)) as [named_keys|] eqn:Hn; simpl; [|done]. simp_eval.
  destruct (eval answers (get_entity_entry_points _ _)) as [entry_points|] eqn:Hp; simpl; [|done]. simp_eval.
  destruct (transpose bytecode_of _) as [bytecode|] eqn:Hb; simpl; [|done]. simp_eval.
  destruct (encode_proof _); simpl; [|done]. intros [= <-].
  destruct (eval_get_entity_named_keys _ _ _ Hn) as (values & pairs & Hv & Hpairs & ->).
  destruct (eval_get_entity_entry_points _ _ _ Hp) as (v1 & v2 & H1' & H2' & Hall).
  exists values, pairs, (from_iter pairs), v1, v2, entry_points, bytecode.
  split_and!; try done; [apply from_iter_ordered|intros name; apply get_from_iter|].
  destruct (info_bytecode information) as [c|]; simpl in Hb; [|by injection Hb as <-].
  unfold bytecode_of in Hb. destruct (encode_proof _); simpl in Hb; [|done]. by injection Hb as <-.
Qed.

(** ** Changes of validators *)

Definition change_pair (c : JsonValidatorStatusChange) : EraId * ValidatorChange :=
  (jsc_era_id c, jsc_validator_change c).

(** [info_get_validator_changes] lists the validators the node reports, in
    the same order, each with all its changes, sorted by era and kind of change;
    the answer does not depend on the order in which the node lists the changes
    of a validator. *)
Theorem validator_changes_presented (changes : BTreeMap PublicKey (list (EraId * ValidatorChange))) :
  Forall2 (fun e c =>
      jvc_public_key c = e.1 /\
      change_pair <$> jvc_status_changes c ≡ₚ e.2 /\
      StronglySorted (ole (K := Z * ValidatorChange)) (change_pair <$> jvc_status_changes c))
    changes (gvr_changes (GetValidatorChangesResult_new changes)) /\
  (forall changes',
     Forall2 (fun e e' => e.1 = e'.1 /\ e.2 ≡ₚ e'.2) changes changes' ->
     GetValidatorChangesResult_new changes = GetValidatorChangesResult_new changes').
Proof.
  assert (forall l : list (EraId * ValidatorChange),
    change_pair <$> ((fun '(era_id, change) => mkStatusChange era_id change) <$> l) = l) as Hpair.
  { intros l. rewrite <- list_fmap_compose. induction l as [|[] l IH]; [done|]. by csimpl; rewrite IH. }
  split.
  - unfold GetValidatorChangesResult_new. simpl. induction changes as [|[k l] changes IH]; constructor; [|done].
    simpl. rewrite Hpair. destruct (vec_sort_spec (K := Z * ValidatorChange) l). auto.
  - intros changes' Hall. unfold GetValidatorChangesResult_new. f_equal.
    induction Hall as [|[k l] [k' l'] cs cs' [Hk Hl] _ IH]; [done|]. simpl in Hk, Hl. subst k'.
    csimpl. f_equal; [|exact IH]. by rewrite (vec_sort_unique _ _ Hl).
Qed.

End Methods.

(** ** Parameters *)

Section Parameters.
Context `{CasperTypes} `{BinaryPort} {World : Type} (C : NodeClientT World).

(** Parameters that count as absent. *)
Definition no_params (maybe_params : option Params) : bool :=
  match maybe_params with Some params => Params_is_empty params | None => true end.

(** The parameters of a request, for every method of the three kinds: a
    method with optional parameters treats absent parameters, an empty array and
    an empty object alike; a method without parameters accepts just these; a
    method with parameters needs them.  Parameters that do not fit are answered
    with [InvalidParams], and no request is made to the node; parameters that do
    are what the handler is called with. *)
Theorem params_checked (maybe_params : option Params) (w : World) :
  (forall R : RpcWithOptionalParams,
     if no_params maybe_params
     then run C (op_handler R maybe_params) w = run C (op_do_handle_request R None) w
     else exists params, maybe_params = Some params /\
       match op_deserialize R (Value_from_Params params) with
       | Ok p => run C (op_handler R maybe_params) w = run C (op_do_handle_request R (Some p)) w
       | Err _ => exists e, run C (op_handler R maybe_params) w = (Err e, w) /\ code e = -32602
       end) /\
  (forall R : RpcWithoutParams,
     if no_params maybe_params
     then run C (wo_handler R maybe_params) w = run C (wo_do_handle_request R) w
     else exists e, run C (wo_handler R maybe_params) w = (Err e, w) /\ code e = -32602) /\
  (forall R : RpcWithParams,
     match maybe_params with
     | Some params =>
         match wp_deserialize R (Value_from_Params params) with
         | Ok p => run C (wp_handler R maybe_params) w = run C (wp_do_handle_request R p) w
         | Err _ => exists e, run C (wp_handler R maybe_params) w = (Err e, w) /\ code e = -32602
         end
     | None => exists e, run C (wp_handler R maybe_params) w = (Err e, w) /\ code e = -32602
     end).
Proof.
  split_and!; intros R.
  - unfold op_handler, op_try_parse_params. destruct maybe_params as [params|]; simpl; [|done].
    destruct (Params_is_empty params) eqn:Hp; [done|]. exists params. split; [done|].
    assert (from_value (T := option (op_OptionalRequestParams R)) (Value_from_Params params) =
            Some <$> op_deserialize R (Value_from_Params params)) as -> by by destruct params.
    destruct (op_deserialize R _); simpl; [done|]. eexists. split; [done|].
    unfold invalid_params. by rewrite Error_new_reserved_string.
  - unfold wo_handler, check_no_params. destruct maybe_params as [params|]; simpl; [|done].
    destruct (Params_is_empty params) eqn:Hp; simpl; [done|]. eexists. split; [done|].
    unfold invalid_params. by rewrite Error_new_reserved_string.
  - unfold wp_handler, wp_try_parse_params. destruct maybe_params as [params|]; simpl.
    + unfold from_value. destruct (wp_deserialize R _); simpl; [done|]. eexists. split; [done|].
      unfold invalid_params. by rewrite Error_new_reserved_string.
    + eexists. split; [done|]. unfold invalid_params. by rewrite Error_new_reserved_string.
Qed.

End Parameters.

(** ** The cached client *)

Section Cached.
Context `{CasperOps} `{BinaryPort} `{BinaryPortCodes} `{!PortPayloads}.

(** What is cached is what the node would return. *)
Definition cache_current (answers : Request -> result ClientError BinaryResponseAndRequest) (in_time : bool)
    (c : @CachingNodeClient BlockWithSignatures) : Prop :=
  forall b, get_block_from_cache in_time c = Some b ->
    eval answers (read_block_with_signatures None) = Ok (Some b).

(** C13. The caching client in front of a node: a request for the latest block is
    served from the cache, if it can be read in time, without a request to the
    node; all other requests go to the node.  If the cached block is the one the
    node would return, every handler gives the same answer with the caching
    client as without it. *)
Theorem caching_transparent :
  (forall W (inner : NodeClientT W) in_time b (w : W), in_time w = true ->
     run (caching inner in_time) (read_block_with_signatures None) (mkCaching (Some b), w) =
       (Ok (Some b), (mkCaching (Some b), w))) /\
  (forall W (inner : NodeClientT W) in_time id c (w : W),
     run (caching inner in_time) (read_block_with_signatures (Some id)) (c, w) =
       let (r, w) := run inner (default_read_block (Some id)) w in (r, (c, w))) /\
  (forall answers A (p : node A) in_time c,
     cache_current answers (in_time tt) c ->
     (run (caching (answering answers) in_time) p (c, tt)).1 = eval answers p).
Proof.
  split_and!.
  - intros W inner in_time b w Ht. simpl. unfold CachingClient.read_block_with_signatures. simpl. by rewrite Ht.
  - intros W inner in_time id c w. rewrite run_default_read_block. simpl.
    unfold CachingClient.read_block_with_signatures. by destruct (read_block_by _ _ w).
  - intros answers A p in_time c Hc. by rewrite run_caching_answering.
Qed.

End Cached.

(** ** Instances of the properties *)

Module MethodWitnesses.
Import SampleNode.

Lemma responses_typed_witness :
  eval answers (read_entity None (PortContractHash (5 : Z)) false) =
    Ok (Some (EntityContract (mkContractInfo 5 (mkWithProof 5 [7]) None))).
Proof. apply (proj1 (responses_typed answers)). eexists. split; [reflexivity|]. by split_and!. Defined.

(** The sample node has no auction. *)
Definition auction : AuctionTypes := {|
  Bid := Z; Delegator := Z; ValidatorBid := Z; DelegatorBid := Z; DelegatorKind := Z; OtherBid := Z;
  SeigniorageRecipientV1 := Z; SeigniorageRecipientV2 := Z;
  AUCTION := "auction"; SEIGNIORAGE_RECIPIENTS_SNAPSHOT_KEY := "snapshot";
  Bid_validator_public_key b := b; Bid_bonding_purse b := b; Bid_staked_amount b := b;
  Bid_delegation_rate b := b; Bid_delegators _ := []; Bid_from_non_unified v _ := v;
  ValidatorBid_unlocked k _ _ _ _ _ _ := k; ValidatorBid_validator_public_key b := b;
  DelegatorKind_PublicKey k := k; DelegatorBid_from d := d; DelegatorBid_validator_public_key b := b;
  DelegatorBid_delegator_kind b := b; OtherBid_validator_public_key b := b;
  total_stake_v1 r := Some r; total_stake_v2 r := Some r; StoredValue_into_bid _ := None;
  CLValue_into_registry _ := Err "no registry"; CLValue_into_recipients_v1 _ := Ok [];
  CLValue_into_recipients_v2 _ := Ok [];
|}.

Lemma missing_block_reported_witness :
  eval answers (get_block (Some (mkGetBlockParams (BlockHeight 7)))) =
    Err (RpcError_from (RpcErr.NoBlockFound (Some (BlockHeight 7)) (40, 50))) /\
  eval answers (get_era_summary (Some (mkGetEraSummaryParams (BlockHeight 7)))) =
    Err (RpcError_from (RpcErr.NoBlockFound (Some (BlockHeight 7)) (40, 50))).
Proof.
  assert (eval answers read_available_block_range = Ok ((40, 50) : AvailableBlockRange)) as Hr by reflexivity.
  destruct (missing_block_reported answers (H5 := auction) (fun _ => None) (BlockHeight 7) _ Hr) as (Hb & Hh & _).
  split; [exact (Hb eq_refl)|]. by destruct (Hh eq_refl) as (_ & _ & _ & ? & _).
Defined.

Definition entity_params : GetAddressableEntityParams :=
  mkGetAddressableEntityParams (@EntityEntityAddr types 6) None None.

Definition entity_information : AddressableEntityInformation := @mkEntityInfo types 6 (mkWithProof 6 [7]) None.

Lemma entity_contents_witness :
  exists named_keys entry_points r,
    eval answers (get_addressable_entity entity_params) = Ok r /\
    gaer_entity r = @CompatAddressableEntity types 6 named_keys entry_points None /\
    get "20" named_keys = Some 20 /\ entry_points = [1; 2].
Proof.
  eexists _, _, _. split; [reflexivity|].
  edestruct (entity_contents answers entity_params entity_information)
    as (_ & pairs & nk & _ & _ & ep & code & Hr & _); [reflexivity|reflexivity|]. injection Hr as <- <- <-. by split_and!.
Defined.

End MethodWitnesses.
