(* ===== verification/RpcServer.v ===== *)
(** * The RPC servers ([rpc_sidecar/src/http_server.rs], [speculative_exec_server.rs],
    [rpcs/docs.rs], [config.rs], [lib.rs])

    Which methods each server registers and with what limits, the documentation
    the servers return, the configuration, and the tasks of the RPC component. *)

From S2P Require Import Prelude Json JsonRpc NodeErrors NodeClient CachingClient BTreeMap Casper.
From S2P Require Import CasperSample RpcErrors NodeRequests RpcTraits NodeSample RpcCommon.
From S2P Require Import RpcAccount RpcChain RpcInfo RpcState RpcAuction RpcMethods.

(** ** Methods of any kind *)

Section AnyRpc.
Context `{CasperTypes} `{BinaryPort}.

Inductive Rpc :=
| WithParams (rpc : RpcWithParams)
| WithoutParams (rpc : RpcWithoutParams)
| WithOptionalParams (rpc : RpcWithOptionalParams).

Definition METHOD (rpc : Rpc) : string :=
  match rpc with
  | WithParams rpc => wp_METHOD rpc
  | WithoutParams rpc => wo_METHOD rpc
  | WithOptionalParams rpc => op_METHOD rpc
  end.

Section Register.
Context {World : Type} (C : NodeClientT World) (direct : Quota -> World -> option string * World).
Local Abbreviation Builder :=
  (gmap string ((option Params -> World -> result RpcError Value * World) * (World -> option string * World))).

Definition register_as_handler (rpc : Rpc) (builder : Builder) (limit : ConfigLimit) : Builder :=
  match rpc with
  | WithParams rpc => wp_register_as_handler C direct rpc builder limit
  | WithoutParams rpc => wo_register_as_handler C direct rpc builder limit
  | WithOptionalParams rpc => op_register_as_handler C direct rpc builder limit
  end.

(** [rpc_sidecar/src/http_server.rs:45-50], the macro [register!]. *)
Definition register (default_limit : ConfigLimit) (state : Builder * gmap string ConfigLimit) (rpc : Rpc)
    : Builder * gmap string ConfigLimit :=
  let (handlers, limits) := state in
  let limit := default default_limit (limits !! METHOD rpc) in
  (register_as_handler rpc handlers limit, delete (METHOD rpc) limits).

(** The registrations of a server. *)
Definition register_all (rpcs : list Rpc) (default_limit : ConfigLimit) (limits : gmap string ConfigLimit)
    : RequestHandlers :=
  build (foldl (register default_limit) (builder_new, limits) rpcs).1.

End Register.
End AnyRpc.

(** ** Documentation *)

Section Docs.
Context `{CasperTypes} `{BinaryPort}.
(** A [schemars] schema; of one that describes an object its properties, in the
    order of their names, and the names of those that are required. *)
Context {Schema : Type} (schema_object : Schema -> option (BTreeMap string Schema * gset string)).
(** The metadata that [update_schemas] compares. *)
Context {Metadata : Type} `{!EqDecision Metadata} (metadata : Schema -> Metadata).

(** A type that occurs in the documentation: its schema, the definitions it
    refers to, and the JSON of its example. *)
Record Documented := mkDocumented {
  json_schema : Schema;
  definitions : list (string * Schema);
  doc_example : Value;
}.

(** The types of a method. *)
Context (params_doc result_doc : Rpc -> Documented).

(** [rpc_sidecar/src/rpcs/docs.rs:365-370], [SchemaParam]. *)
Record SchemaParam := mkSchemaParam {
  sp_name : string;
  sp_schema : Schema;
  sp_required : bool;
}.

(** [rpc_sidecar/src/rpcs/docs.rs:372-376], [ResponseResult]. *)
Record ResponseResult := mkResponseResult {
  rr_name : string;
  rr_schema : Schema;
}.

(** [rpc_sidecar/src/rpcs/docs.rs:433-437], [ExampleParam]. *)
Record ExampleParam := mkExampleParam {
  ep_name : string;
  ep_value : Value;
}.

(** [rpc_sidecar/src/rpcs/docs.rs:378-384], [Example], with the two fields of its
    result. *)
Record Example_ := mkExample {
  ex_name : string;
  ex_params : list ExampleParam;
  ex_result_name : string;
  ex_result_value : Value;
}.

(** [rpc_sidecar/src/rpcs/docs.rs:355-363], [Method]. *)
Record Method := mkMethod {
  md_name : string;
  md_summary : string;
  md_params : list SchemaParam;
  md_result : ResponseResult;
  md_examples : list Example_;
}.

(** [rpc_sidecar/src/rpcs/docs.rs:145-165], [OpenRpcSchema]: the texts of its
    fields [openrpc], [info] and [servers] are fixed and left out. *)
Record OpenRpcSchema := mkOpenRpcSchema {
  methods : list Method;
  schemas : gmap string Schema;
}.

(** [rpc_sidecar/src/rpcs/docs.rs:386-410], [Example::new]: [None] is the panic
    of [unwrap] on parameters that are not an object. *)
Definition Example_new (method_name : string) (maybe_params_obj : option Value) (result_value : Value)
    : option Example_ :=
  params ← match maybe_params_obj with
           | Some (VObject o) => Some ((fun '(name, value) => mkExampleParam name value) <$> o)
           | Some _ => None
           | None => Some []
           end;
  Some (mkExample (method_name +:+ "_example") params (method_name +:+ "_example_result") result_value).

(** [rpc_sidecar/src/rpcs/docs.rs:252-280], [OpenRpcSchema::make_params]. *)
Definition make_params (schema : Schema) : option (list SchemaParam) :=
  '(properties, required) ← schema_object schema;
  let required_params :=
    List.map (fun '(name, schema) => mkSchemaParam name schema true)
      (List.filter (fun e => bool_decide (e.1 ∈ required)) properties) in
  let optional_params :=
    List.map (fun '(name, schema) => mkSchemaParam name schema false)
      (List.filter (fun e => negb (bool_decide (e.1 ∈ required))) properties) in
  Some (required_params ++ optional_params).

(** [rpc_sidecar/src/rpcs/docs.rs:282-299], [OpenRpcSchema::make_optional_params]. *)
Definition make_optional_params (schema : Schema) : option (list SchemaParam) :=
  '(properties, required) ← schema_object schema;
  Some (List.map (fun '(name, schema) => mkSchemaParam name schema false)
          (List.filter (fun e => bool_decide (e.1 ∈ required)) properties)).

(** [rpc_sidecar/src/rpcs/docs.rs:301-319], [OpenRpcSchema::update_schemas]:
    [None] is the panic of the assertion. *)
Fixpoint update_schemas (schemas : gmap string Schema) (defs : list (string * Schema))
    : option (gmap string Schema) :=
  match defs with
  | [] => Some schemas
  | (key, value) :: defs =>
      match schemas !! key with
      | Some current_value =>
          if decide (metadata current_value = metadata value) then update_schemas schemas defs else None
      | None => update_schemas (<[key := value]> schemas) defs
      end
  end.

(** The end of the three [push] methods. *)
Definition push_method (self : OpenRpcSchema) (method : Method) (types : list Documented)
    : option OpenRpcSchema :=
  schemas ← update_schemas (schemas self) (types ≫= definitions);
  Some (mkOpenRpcSchema (methods self ++ [method]) schemas).

(** [rpc_sidecar/src/rpcs/docs.rs:174-199], [push_with_params]. *)
Definition push_with_params (self : OpenRpcSchema) (rpc : Rpc) (summary : string) : option OpenRpcSchema :=
  params ← make_params (json_schema (params_doc rpc));
  let result := mkResponseResult (METHOD rpc +:+ "_result") (json_schema (result_doc rpc)) in
  example ← Example_new (METHOD rpc) (Some (doc_example (params_doc rpc))) (doc_example (result_doc rpc));
  push_method self (mkMethod (METHOD rpc) summary params result [example])
    [params_doc rpc; result_doc rpc].

(** [rpc_sidecar/src/rpcs/docs.rs:201-222], [push_without_params]. *)
Definition push_without_params (self : OpenRpcSchema) (rpc : Rpc) (summary : string) : option OpenRpcSchema :=
  let result := mkResponseResult (METHOD rpc +:+ "_result") (json_schema (result_doc rpc)) in
  example ← Example_new (METHOD rpc) None (doc_example (result_doc rpc));
  push_method self (mkMethod (METHOD rpc) summary [] result [example]) [result_doc rpc].

(** [rpc_sidecar/src/rpcs/docs.rs:224-250], [push_with_optional_params]. *)
Definition push_with_optional_params (self : OpenRpcSchema) (rpc : Rpc) (summary : string)
    : option OpenRpcSchema :=
  params ← make_optional_params (json_schema (params_doc rpc));
  let result := mkResponseResult (METHOD rpc +:+ "_result") (json_schema (result_doc rpc)) in
  example ← Example_new (METHOD rpc) (Some (doc_example (params_doc rpc))) (doc_example (result_doc rpc));
  push_method self (mkMethod (METHOD rpc) summary params result [example])
    [params_doc rpc; result_doc rpc].

(** The method that fits the trait a method implements. *)
Definition push (self : OpenRpcSchema) (entry : Rpc * string) : option OpenRpcSchema :=
  let (rpc, summary) := entry in
  match rpc with
  | WithParams _ => push_with_params self rpc summary
  | WithoutParams _ => push_without_params self rpc summary
  | WithOptionalParams _ => push_with_optional_params self rpc summary
  end.

Fixpoint push_all (self : OpenRpcSchema) (entries : list (Rpc * string)) : option OpenRpcSchema :=
  match entries with
  | [] => Some self
  | entry :: entries => self ← push self entry; push_all self entries
  end.

End Docs.

(** ** The servers *)

(** The parsers of the parameters, derived from their declarations. *)
Class ParamsJson `{CasperTypes} := {
  #[global] de_PutDeploy :: Deserialize PutDeployParams;
  #[global] de_PutTransaction :: Deserialize PutTransactionParams;
  #[global] de_SpeculativeExecTxn :: Deserialize SpeculativeExecTxnParams;
  #[global] de_SpeculativeExec :: Deserialize SpeculativeExecParams;
  #[global] de_GetBlock :: Deserialize GetBlockParams;
  #[global] de_GetBlockTransfers :: Deserialize GetBlockTransfersParams;
  #[global] de_GetStateRootHash :: Deserialize GetStateRootHashParams;
  #[global] de_GetEraInfo :: Deserialize GetEraInfoParams;
  #[global] de_GetEraSummary :: Deserialize GetEraSummaryParams;
  #[global] de_GetDeploy :: Deserialize GetDeployParams;
  #[global] de_GetTransaction :: Deserialize GetTransactionParams;
  #[global] de_GetReward :: Deserialize GetRewardParams;
  #[global] de_GetItem :: Deserialize GetItemParams;
  #[global] de_QueryGlobalState :: Deserialize QueryGlobalStateParams;
  #[global] de_GetBalance :: Deserialize GetBalanceParams;
  #[global] de_QueryBalance :: Deserialize QueryBalanceParams;
  #[global] de_QueryBalanceDetails :: Deserialize QueryBalanceDetailsParams;
  #[global] de_GetAccountInfo :: Deserialize GetAccountInfoParams;
  #[global] de_GetAddressableEntity :: Deserialize GetAddressableEntityParams;
  #[global] de_GetPackage :: Deserialize GetPackageParams;
  #[global] de_GetDictionaryItem :: Deserialize GetDictionaryItemParams;
  #[global] de_GetTrie :: Deserialize GetTrieParams;
  #[global] de_GetAuctionInfo :: Deserialize GetAuctionInfoParams;
}.

Section Servers.
Context `{CasperOps} `{BinaryPort} `{BinaryPortCodes} `{!PortPayloads, !CasperJson} `{!AuctionTypes}.
Context `{!ParamsJson, !Serialize Bid, !Serialize BidKind}.
Context (into_bid_kind : StoredValue -> option BidKind).
(** The JSON of the documentation that [rpc.discover] returns. *)
Context (discover_result speculative_discover_result : result string Value).

#[local] Instance Serialize_discover : Serialize unit := fun _ => discover_result.

(** [rpc_sidecar/src/rpcs/docs.rs:471-486], [RpcWithoutParams for RpcDiscover]:
    the result is the static documentation. *)
Definition RpcDiscover : RpcWithoutParams :=
  mkWithoutParams "rpc.discover" unit Serialize_discover (Ret (Ok tt)).

(** [rpc_sidecar/src/rpcs/speculative_exec.rs:155-169], [RpcWithoutParams for SpeculativeRpcDiscover]. *)
Definition SpeculativeRpcDiscover : RpcWithoutParams :=
  mkWithoutParams "rpc.discover" unit (fun _ => speculative_discover_result) (Ret (Ok tt)).

(** [rpc_sidecar/src/http_server.rs:52-78], the methods [run] registers. *)
Definition main_rpcs : list Rpc :=
  [WithParams PutDeploy; WithParams PutTransaction; WithOptionalParams GetBlock;
   WithOptionalParams GetBlockTransfers; WithOptionalParams GetStateRootHash; WithParams GetItem;
   WithParams QueryGlobalState; WithParams GetBalance; WithParams GetAccountInfo;
   WithParams GetAddressableEntity; WithParams GetPackage; WithParams GetDeploy;
   WithParams GetTransaction; WithoutParams GetPeers; WithoutParams GetStatus; WithParams GetReward;
   WithOptionalParams GetEraInfoBySwitchBlock; WithOptionalParams GetEraSummary;
   WithOptionalParams (GetAuctionInfo into_bid_kind); WithOptionalParams (GetAuctionInfoV2 into_bid_kind);
   WithParams GetTrie; WithoutParams GetValidatorChanges; WithoutParams RpcDiscover;
   WithParams GetDictionaryItem; WithoutParams GetChainspec; WithParams QueryBalance;
   WithParams QueryBalanceDetails].

(** [rpc_sidecar/src/speculative_exec_server.rs:39-41], the methods [run] registers. *)
Definition speculative_rpcs : list Rpc :=
  [WithParams SpeculativeExecTxn; WithParams SpeculativeExec; WithoutParams SpeculativeRpcDiscover].

(** [rpc_sidecar/src/rpcs/docs.rs:56-132], [OPEN_RPC_SCHEMA]: the methods it
    documents, with their summaries. *)
Definition documented_rpcs : list (Rpc * string) :=
  [(WithParams PutDeploy, "receives a Deploy to be executed by the network (DEPRECATED: use `account_put_transaction` instead)");
   (WithParams PutTransaction, "receives a Transaction to be executed by the network");
   (WithParams GetDeploy, "returns a Deploy from the network (DEPRECATED: use `info_get_transaction` instead)");
   (WithParams GetTransaction, "returns a Transaction from the network");
   (WithParams GetAccountInfo, "returns an Account from the network");
   (WithParams GetAddressableEntity, "returns an AddressableEntity from the network");
   (WithParams GetPackage, "returns a Package from the network");
   (WithParams GetDictionaryItem, "returns an item from a Dictionary");
   (WithParams QueryGlobalState, "a query to global state using either a Block hash or state root hash");
   (WithParams QueryBalance, "query for a balance using a purse identifier and a state identifier");
   (WithParams QueryBalanceDetails, "query for full balance information using a purse identifier and a state identifier");
   (WithoutParams GetPeers, "returns a list of peers connected to the node");
   (WithoutParams GetStatus, "returns the current status of the node");
   (WithParams GetReward, "returns the reward for a given era and a validator or a delegator");
   (WithoutParams GetValidatorChanges, "returns status changes of active validators");
   (WithoutParams GetChainspec, "returns the raw bytes of the chainspec.toml, genesis accounts.toml, and global_state.toml files");
   (WithOptionalParams GetBlock, "returns a Block from the network");
   (WithOptionalParams GetBlockTransfers, "returns all transfers for a Block from the network");
   (WithOptionalParams GetStateRootHash, "returns a state root hash at a given Block");
   (WithParams GetItem, "returns a stored value from the network. This RPC is deprecated, use `query_global_state` instead.");
   (WithParams GetBalance, "returns a purse's balance from the network");
   (WithOptionalParams GetEraInfoBySwitchBlock, "returns an EraInfo from the network");
   (WithOptionalParams (GetAuctionInfo into_bid_kind), "returns the bids and validators as of either a specific block (by height or hash), or the most recently added block. This is a casper 1.x retro-compatibility endpoint. For blocks created in 1.x protocol it will work exactly the same as it used to.
        For 2.x blocks it will try to retrofit the changed data structure into previous schema - but it is a lossy process. Use `state_get_auction_info_v2` endpoint to get data in new format. *IMPORTANT* This method is deprecated, has been added only for compatibility with retired nodes json-rpc API and will be removed in a future release of sidecar.");
   (WithOptionalParams (GetAuctionInfoV2 into_bid_kind), "returns the bids and validators as of either a specific block (by height or hash), or the most recently added block. It works for blocks created in 1.x and 2.x");
   (WithOptionalParams GetEraSummary, "returns the era summary at either a specific block (by height or hash), or the most recently added block")].

(** [rpc_sidecar/src/rpcs/speculative_open_rpc_schema.rs:18-37], [SPECULATIVE_OPEN_RPC_SCHEMA]. *)
Definition speculative_documented_rpcs : list (Rpc * string) :=
  [(WithParams SpeculativeExec, "receives a Deploy to be executed by the network (DEPRECATED: use `account_put_transaction` instead)");
   (WithParams SpeculativeExecTxn, "receives a Deploy to be executed by the network (DEPRECATED: use `account_put_transaction` instead)")].

(** *** Start-up *)

(** [json_rpc/src/lib.rs:110-116], [CorsOrigin]. *)
Inductive CorsOrigin :=
| Any
| Specified (origin : string).

(** The choice of [run] between [rpcs::run] and [rpcs::run_with_cors]. *)
Definition cors_of (cors_origin : string) : option CorsOrigin :=
  if decide (cors_origin = EmptyString) then None
  else if decide (cors_origin = "*") then Some Any
  else Some (Specified cors_origin).

(** What is served: the handlers, and the settings passed on to the HTTP service. *)
Record Service {World : Type} := mkService {
  srv_handlers : @RequestHandlers World;
  srv_address : string * Z;
  srv_qps_limit : Z;
  srv_max_body_bytes : Z;
  srv_path : string;
  srv_name : string;
  srv_allow_unknown_fields : bool;
  srv_cors : option CorsOrigin;
}.

Section Run.
Context {World : Type} (C : NodeClientT World) (direct : Quota -> World -> option string * World).

(** [rpc_sidecar/src/http_server.rs:31-122], [run]. *)
Definition run_rpc_server (ip_address : string) (port : Z) (default_limit : ConfigLimit)
    (limits : gmap string ConfigLimit) (qps_limit max_body_bytes : Z) (cors_origin : string)
    : Service (World := World) :=
  mkService _ (register_all C direct main_rpcs default_limit limits) (ip_address, port) qps_limit
    max_body_bytes "rpc" "JSON RPC" ALLOW_UNKNOWN_FIELDS_IN_JSON_RPC_REQUEST (cors_of cors_origin).

(** [rpc_sidecar/src/speculative_exec_server.rs:18-85], [run]. *)
Definition run_speculative_exec_server (ip_address : string) (port : Z) (default_limit : ConfigLimit)
    (limits : gmap string ConfigLimit) (qps_limit max_body_bytes : Z) (cors_origin : string)
    : Service (World := World) :=
  mkService _ (register_all C direct speculative_rpcs default_limit limits) (ip_address, port) qps_limit
    max_body_bytes "rpc" "speculative execution" ALLOW_UNKNOWN_FIELDS_IN_JSON_RPC_REQUEST
    (cors_of cors_origin).

End Run.
End Servers.

(** ** Configuration and tasks *)

(** [rpc_sidecar/src/config.rs:64-93], [RpcConfig]. *)
Record RpcConfig := mkRpcConfig {
  rc_enable_server : bool;
  rc_ip_address : string;
  rc_port : Z;
  rc_qps_limit : Z;
  rc_max_body_bytes : Z;
  rc_cors_origin : string;
  rc_default_limit_requests : Z;
  rc_default_limit_period : Z;
  rc_limits : option (gmap string ConfigLimit);
  rc_enable_block_prefetch : bool;
}.

(** [rpc_sidecar/src/config.rs:96-101], [RpcConfig::default_limit]. *)
Definition rc_default_limit (self : RpcConfig) : ConfigLimit :=
  mkLimit (rc_default_limit_requests self) (rc_default_limit_period self).

(** [rpc_sidecar/src/speculative_exec_config.rs:28-53], [Config]. *)
Record SpeculativeExecConfig := mkSpeculativeExecConfig {
  sc_enable_server : bool;
  sc_ip_address : string;
  sc_port : Z;
  sc_qps_limit : Z;
  sc_max_body_bytes : Z;
  sc_cors_origin : string;
  sc_default_limit_requests : Z;
  sc_default_limit_period : Z;
  sc_limits : option (gmap string ConfigLimit);
}.

(** [rpc_sidecar/src/speculative_exec_config.rs:56-61], [Config::default_limit]. *)
Definition sc_default_limit (self : SpeculativeExecConfig) : ConfigLimit :=
  mkLimit (sc_default_limit_requests self) (sc_default_limit_period self).

(** [rpc_sidecar/src/config.rs:151-171], [NodeClientConfig]. *)
Record NodeClientConfig := mkNodeClientConfig {
  nc_ip_address : string;
  nc_port : Z;
  nc_max_message_size_bytes : Z;
  nc_message_timeout_secs : Z;
  nc_client_access_timeout_secs : Z;
  nc_keepalive_timeout_ms : Z;
  nc_exponential_backoff : ExponentialBackoffConfig;
}.

(** [rpc_sidecar/src/config.rs:44-51], [RpcServerConfig]. *)
Record RpcServerConfig := mkRpcServerConfig {
  main_server : RpcConfig;
  speculative_exec_server : option SpeculativeExecConfig;
  node_client : NodeClientConfig;
}.

(** [rpc_sidecar/src/lib.rs:34-34], [CLIENT_SHUTDOWN_EXIT_CODE]. *)
Definition CLIENT_SHUTDOWN_EXIT_CODE : Z := 3.

(** The tasks of the RPC component. *)
Inductive Task :=
| CacheLoop
| MainServer (config : RpcConfig) (prefetch : bool)
| SpeculativeServer (config : SpeculativeExecConfig) (prefetch : bool)
| ReconnectLoop
| KeepaliveLoop.

(** The exit code when a task ends, whether with an error or not. *)
Definition task_exit_code (t : Task) : Z :=
  match t with
  | MainServer _ _ | SpeculativeServer _ _ => 0
  | CacheLoop | ReconnectLoop | KeepaliveLoop => CLIENT_SHUTDOWN_EXIT_CODE
  end.

(** [rpc_sidecar/src/lib.rs:37-106], [build_rpc_server]: [connected] is the
    outcome of [FramedNodeClient::new]; a server works with the caching client
    when blocks are prefetched. *)
Definition build_rpc_server (config : RpcServerConfig) (connected : result string unit)
    : result string (list Task) :=
  let? _ := connected in
  let main_server_config := main_server config in
  let prefetch := rc_enable_block_prefetch main_server_config in
  Ok ((if prefetch then [CacheLoop] else []) ++
      (if rc_enable_server main_server_config then [MainServer main_server_config prefetch] else []) ++
      match speculative_exec_server config with
      | Some config => if sc_enable_server config then [SpeculativeServer config prefetch] else []
      | None => []
      end ++
      [ReconnectLoop; KeepaliveLoop]).

(** [rpc_sidecar/src/lib.rs:108-112], [retype_future_vec]: [select_all] returns
    with the first task that ends, here the one at [first]. *)
Definition retype_future_vec (futures : list Task) (first : nat) : option Z :=
  task_exit_code <$> futures !! first.

(** ** What the servers do *)

Section Programs.
Context `{CasperTypes} `{BinaryPort}.

(** A method from its parameters to the JSON of its result, as the server runs
    it. *)
Definition encoded {T} `{!Serialize T} (p : node (result RpcError T)) : node (result RpcError Value) :=
  let! success := p in
  lift (map_err (fun error => Error_new InternalError
                   ("failed to encode json-rpc response value: " +:+ error)) (to_value success)).

Definition rpc_program (rpc : Rpc) (maybe_params : option Params) : node (result RpcError Value) :=
  match rpc with
  | WithParams rpc => encoded (wp_handler rpc maybe_params)
  | WithoutParams rpc => encoded (wo_handler rpc maybe_params)
  | WithOptionalParams rpc => encoded (op_handler rpc maybe_params)
  end.

Context {World : Type} (C : NodeClientT World) (direct : Quota -> World -> option string * World).

(** The handlers run the method under its name, behind a limiter. *)
Definition serves (hs : @RequestHandlers World) (rpc : Rpc) (limiter : World -> option string * World) : Prop :=
  exists h, handlers hs !! METHOD rpc = Some (h, limiter) /\
    forall params w, h params w = run C (rpc_program rpc params) w.

Lemma run_encoded {T} `{!Serialize T} (p : node (result RpcError T)) (w : World) :
  run C (encoded p) w =
  let (r, w') := run C p w in
  (let? success := r in
   map_err (fun error => Error_new InternalError
              ("failed to encode json-rpc response value: " +:+ error)) (to_value success), w').
Proof. unfold encoded. rewrite run_try. destruct (run C p w) as [[]]; done. Qed.

Lemma register_as_handler_lookup (rpc : Rpc) builder (limit : ConfigLimit) (m : string) :
  exists h, register_as_handler C direct rpc builder limit !! m =
      (if decide (m = METHOD rpc) then Some (h, direct (quota limit)) else builder !! m) /\
    forall params w, h params w = run C (rpc_program rpc params) w.
Proof.
  destruct rpc as [rpc|rpc|rpc]; (eexists; split;
    [cbn [register_as_handler METHOD];
     unfold wp_register_as_handler, wo_register_as_handler, op_register_as_handler, register_handler;
     case_decide as Hm; [subst; apply lookup_insert_eq|by apply lookup_insert_ne]
    |intros params w; cbn [rpc_program]; by rewrite run_encoded]).
Qed.

(** What is registered under a name after a sequence of registrations. *)
Lemma register_lookup (default_limit : ConfigLimit) (rpcs : list Rpc) builder limits :
  NoDup (METHOD <$> rpcs) ->
  (forall rpc, rpc ∈ rpcs ->
     serves (build (foldl (register C direct default_limit) (builder, limits) rpcs).1) rpc
       (direct (quota (default default_limit (limits !! METHOD rpc))))) /\
  (forall m, m ∉ METHOD <$> rpcs ->
     (foldl (register C direct default_limit) (builder, limits) rpcs).1 !! m = builder !! m).
Proof.
  revert builder limits. induction rpcs as [|rpc rpcs IH]; intros builder limits; csimpl.
  { intros _. split; [by intros ? ?%elem_of_nil|done]. }
  intros [Hnin Hnd]%NoDup_cons.
  destruct (IH (register_as_handler C direct rpc builder (default default_limit (limits !! METHOD rpc)))
              (delete (METHOD rpc) limits) Hnd) as [Hin Hout]. split.
  - intros rpc' [->|Hrpc]%elem_of_cons.
    + destruct (register_as_handler_lookup rpc builder (default default_limit (limits !! METHOD rpc)) (METHOD rpc))
        as (h & Hh & Hrun). exists h. split; [|done].
      cbn [build handlers]. rewrite Hout by done. by rewrite Hh, decide_True.
    + assert (METHOD rpc <> METHOD rpc') as Hne by (intros Heq; apply Hnin; rewrite Heq; by apply list_elem_of_fmap_2).
      specialize (Hin rpc' Hrpc). by rewrite lookup_delete_ne in Hin by done.
  - intros m [Hm Hms]%not_elem_of_cons. rewrite Hout by done.
    destruct (register_as_handler_lookup rpc builder (default default_limit (limits !! METHOD rpc)) m)
      as (h & -> & _). by rewrite decide_False.
Qed.

(** The answer to a request for a method that is served. *)
Lemma serves_answer (now : World -> Z) (hs : RequestHandlers) (rpc : Rpc) limiter (r : Req.Request)
    (size : Z) (w w' : World) (response : Response) ms :
  serves hs rpc limiter -> method r = METHOD rpc ->
  JsonRpc.Server.handle_request now hs r size w = (response, w', ms) ->
  match limiter w with
  | (None, w1) =>
      let (res, w2) := run C (rpc_program rpc (params r)) w1 in
      w' = w2 /\ response = match res with
                            | Ok v => new_success (id r) v
                            | Err e => new_failure (id r) e
                            end
  | (Some wait, w1) =>
      w' = w1 /\ response = new_failure (id r) (Error_new RequestThrottled ("retry-after " +:+ wait +:+ "s"))
  end.
Proof.
  intros (h & Hh & Hrun) Hm. unfold JsonRpc.Server.handle_request. rewrite Hm, Hh.
  destruct (limiter w) as [[wait|] w1]; [by intros [= <- <- <-]|]. rewrite <- Hrun.
  destruct (h (params r) w1) as [[v|e] w2]; by intros [= <- <- <-].
Qed.

Lemma unserved_answer (now : World -> Z) (hs : @RequestHandlers World) (r : Req.Request)
    (size : Z) (w w' : World) (response : Response) ms :
  handlers hs !! method r = None ->
  JsonRpc.Server.handle_request now hs r size w = (response, w', ms) ->
  w' = w /\ exists e, response = new_failure (id r) e /\ code e = -32601.
Proof.
  intros Hn. unfold JsonRpc.Server.handle_request. rewrite Hn. intros [= <- <- <-]. split; [done|]. by eexists.
Qed.

End Programs.

Section ServerFacts.
Context `{CasperOps} `{BinaryPort} `{BinaryPortCodes} `{!PortPayloads, !CasperJson} `{!AuctionTypes}.
Context `{!ParamsJson, !Serialize Bid, !Serialize BidKind}.
Context (into_bid_kind : StoredValue -> option BidKind) (discover : result string Value).
Context {World : Type} (C : NodeClientT World) (direct : Quota -> World -> option string * World).
Context (now : World -> Z).

Local Abbreviation rpcs := (main_rpcs into_bid_kind discover).

Lemma main_methods_NoDup : NoDup (METHOD <$> rpcs).
Proof. apply (bool_decide_unpack _). vm_compute. exact I. Qed.

(** C12. The dispatch of the main server, for any configuration: a request for
    one of its 27 methods passes the limiter configured for that method (or the
    default one) and is answered with the result of that method's own handler on
    the parameters of the request, as a success or a failure that carries the
    request's identifier; a request over the limit runs no handler; any other
    name is answered with [MethodNotFound] and changes nothing. *)
Theorem main_server_dispatch (ip : string) (port qps max_body : Z) (cors : string)
    (default_limit : ConfigLimit) (limits : gmap string ConfigLimit) (r : Req.Request) (size : Z) (w : World) :
  let hs := srv_handlers (run_rpc_server into_bid_kind discover C direct ip port default_limit limits
                            qps max_body cors) in
  let '(response, w', _) := JsonRpc.Server.handle_request now hs r size w in
  (forall rpc, rpc ∈ rpcs -> method r = METHOD rpc ->
     let limiter := direct (quota (default default_limit (limits !! METHOD rpc))) in
     match limiter w with
     | (None, w1) =>
         let (res, w2) := run C (rpc_program rpc (params r)) w1 in
         w' = w2 /\ response = match res with
                               | Ok v => new_success (id r) v
                               | Err e => new_failure (id r) e
                               end
     | (Some wait, w1) =>
         w' = w1 /\ response = new_failure (id r) (Error_new RequestThrottled ("retry-after " +:+ wait +:+ "s"))
     end) /\
  (method r ∉ METHOD <$> rpcs ->
     w' = w /\ exists e, response = new_failure (id r) e /\ code e = -32601).
Proof.
  cbn zeta. cbn [run_rpc_server srv_handlers]. unfold register_all.
  destruct (register_lookup C direct default_limit rpcs builder_new limits main_methods_NoDup) as [Hin Hout].
  destruct (JsonRpc.Server.handle_request _ _ _ _ _) as [[response w'] ms] eqn:Hr. split.
  - intros rpc Hrpc Hm. exact (serves_answer C now _ rpc _ r size w w' response ms (Hin rpc Hrpc) Hm Hr).
  - intros Hm. refine (unserved_answer now _ r size w w' response ms _ Hr).
    exact (eq_trans (Hout _ Hm) (lookup_empty _)).
Qed.

(** The methods that submit something to the node. *)
Definition submits (m : string) : bool := bool_decide (m ∈ ["account_put_deploy"; "account_put_transaction"]).

(** The requests a method may make, and how many. *)
Definition may_ask (m : string) (req : Request) : Prop :=
  if submits m then exists tx, req = TryAcceptTransaction tx else reads_only req.

Definition request_budget (m : string) : nat := if submits m then 1 else 6.

Lemma asks_encoded {T} `{!Serialize T} (P : Request -> Prop) (n : nat) (p : node (result RpcError T)) :
  asks P n p -> asks P n (encoded p).
Proof. intros Hp. eapply (asks_try_left _ n); [done|intros ?; apply asks_lift|lia]. Qed.

Lemma asks_wp (P : Request -> Prop) (n : nat) (rpc : RpcWithParams) maybe_params :
  (forall p, asks P n (wp_do_handle_request rpc p)) ->
  asks P n (rpc_program (WithParams rpc) maybe_params).
Proof.
  intros Hp. apply asks_encoded, (asks_try_left _ 0); [apply asks_lift| |lia].
  intros p. rewrite Nat.sub_0_r. apply Hp.
Qed.

Lemma asks_wo (P : Request -> Prop) (n : nat) (rpc : RpcWithoutParams) maybe_params :
  asks P n (wo_do_handle_request rpc) ->
  asks P n (rpc_program (WithoutParams rpc) maybe_params).
Proof.
  intros Hp. apply asks_encoded, (asks_try_left _ 0); [apply asks_lift| |lia].
  intros p. by rewrite Nat.sub_0_r.
Qed.

Lemma asks_op (P : Request -> Prop) (n : nat) (rpc : RpcWithOptionalParams) maybe_params :
  (forall p, asks P n (op_do_handle_request rpc p)) ->
  asks P n (rpc_program (WithOptionalParams rpc) maybe_params).
Proof.
  intros Hp. apply asks_encoded, (asks_try_left _ 0); [apply asks_lift| |lia].
  intros p. rewrite Nat.sub_0_r. apply Hp.
Qed.

(** A method of the main server stays within its budget. *)
Lemma main_rpcs_ask :
  Forall (fun rpc => forall params, asks (may_ask (METHOD rpc)) (request_budget (METHOD rpc))
                       (rpc_program rpc params)) rpcs.
Proof.
  unfold main_rpcs. repeat apply Forall_cons_2; [..|by apply Forall_nil_2];
    intros params; unfold request_budget, may_ask;
    match goal with |- context [submits ?m] => let b := eval vm_compute in (submits m) in change (submits m) with b end;
    cbv iota; first [apply asks_wp; intros p|apply asks_op; intros p|apply asks_wo];
    cbn [wp_do_handle_request wo_do_handle_request op_do_handle_request GetBlock GetBlockTransfers
         GetStateRootHash GetEraInfoBySwitchBlock GetEraSummary GetItem QueryGlobalState GetBalance
         GetAccountInfo GetAddressableEntity GetPackage GetDictionaryItem RpcState.GetTrie QueryBalance
         QueryBalanceDetails GetDeploy GetTransaction GetPeers GetStatus GetReward GetValidatorChanges
         GetChainspec GetAuctionInfo GetAuctionInfoV2 RpcDiscover];
    try solve [apply (asks_weaken reads_only); [done|]; eapply asks_mono; [eauto with asks|lia]].
  - apply asks_put_deploy. by eexists.
  - apply asks_put_transaction. by eexists.
  - apply (asks_weaken reads_only); [done|]. apply asks_get_auction_info.
  - apply (asks_weaken reads_only); [done|]. apply asks_get_auction_info_v2.
  - apply asks_Ret.
Qed.

(** The requests one JSON-RPC request to the main server makes, and the messages its
    client sends for them. *)
Lemma server_requests {M} (log : World -> list M) carries tries `{R : !Recorded C log carries tries}
    (ip : string) (port qps max_body : Z) (cors : string)
    (default_limit : ConfigLimit) (limits : gmap string ConfigLimit) (r : Req.Request) (size : Z) (w : World) :
  (forall q w, log (direct q w).2 = log w) ->
  let hs := srv_handlers (run_rpc_server into_bid_kind discover C direct ip port default_limit limits
                            qps max_body cors) in
  let w' := (JsonRpc.Server.handle_request now hs r size w).1.2 in
  exists reqs messages, log w' = log w ++ concat messages /\ messages_of carries tries reqs messages /\
    (length reqs <= request_budget (method r))%nat /\ Forall (may_ask (method r)) reqs.
Proof.
  intros Hlim. cbn zeta. cbn [run_rpc_server srv_handlers]. unfold register_all.
  destruct (register_lookup C direct default_limit rpcs builder_new limits main_methods_NoDup) as [Hin Hout].
  destruct (JsonRpc.Server.handle_request _ _ _ _ _) as [[response w'] ms] eqn:Hr. cbn [fst snd].
  assert (log w' = log w -> exists reqs messages, log w' = log w ++ concat messages /\
    messages_of carries tries reqs messages /\ (length reqs <= request_budget (method r))%nat /\
    Forall (may_ask (method r)) reqs) as Hnone.
  { intros ->. exists [], []. rewrite app_nil_r. split_and!; [done|constructor|simpl; lia|constructor]. }
  destruct (decide (method r ∈ METHOD <$> rpcs)) as [(rpc & Hm & Hrpc)%list_elem_of_fmap|Hm].
  - pose proof (serves_answer C now _ rpc _ r size w w' response ms (Hin rpc Hrpc) Hm Hr) as Hans.
    clear Hr Hin Hout.
    pose proof main_rpcs_ask as Hask. rewrite Forall_forall in Hask. specialize (Hask rpc Hrpc (params r)).
    specialize (Hlim (quota (default default_limit (limits !! METHOD rpc))) w).
    destruct (direct _ w) as [[wait|] w1]; cbn [snd] in Hlim.
    { destruct Hans as [-> _]. by apply Hnone. }
    destruct (run_asks C log carries tries _ _ _ w1 Hask) as (reqs & messages & Hl & Hall).
    destruct (run C _ w1) as [res w2]. destruct Hans as [-> _]. cbn [snd] in Hl. exists reqs, messages.
    by rewrite Hl, Hlim, Hm.
  - destruct (unserved_answer now (build _) r size w w' response ms (eq_trans (Hout _ Hm) (lookup_empty _)) Hr) as [-> _].
    by apply Hnone.
Qed.

End ServerFacts.

(** ** The documentation *)

Section DocsFacts.
Context `{CasperTypes} `{BinaryPort}.
Context {Schema : Type} (schema_object : Schema -> option (BTreeMap string Schema * gset string)).
Context {Metadata : Type} `{!EqDecision Metadata} (metadata : Schema -> Metadata).
Context (params_doc result_doc : Rpc -> Documented (Schema := Schema)).

(** The types that occur in the documentation of a method. *)
Definition entry_types (entry : Rpc * string) : list Documented :=
  match entry.1 with
  | WithoutParams _ => [result_doc entry.1]
  | _ => [params_doc entry.1; result_doc entry.1]
  end.

(** The parameters listed for a method: none; all the properties of the parameter type, the
    required ones first and marked so; or, of a type of optional parameters, the
    properties that count as required, marked as not required, and no others. *)
Definition params_documented (rpc : Rpc) (ps : list SchemaParam) : Prop :=
  match rpc with
  | WithoutParams _ => ps = []
  | WithParams _ =>
      exists properties required first rest,
        schema_object (json_schema (params_doc rpc)) = Some (properties, required) /\
        ps = first ++ rest /\ ((fun p => (sp_name p, sp_schema p)) <$> ps) ≡ₚ properties /\
        Forall (fun p => sp_required p = true /\ sp_name p ∈ required) first /\
        Forall (fun p => sp_required p = false /\ sp_name p ∉ required) rest
  | WithOptionalParams _ =>
      exists properties required,
        schema_object (json_schema (params_doc rpc)) = Some (properties, required) /\
        ((fun p => (sp_name p, sp_schema p)) <$> ps) =
          filter (fun e : string * Schema => e.1 ∈ required) (properties : list (string * Schema)) /\
        Forall (fun p => sp_required p = false) ps
  end.

(** The fields of the example of the parameters, if there are any. *)
Definition example_documented (rpc : Rpc) (ps : list ExampleParam) : Prop :=
  match rpc with
  | WithoutParams _ => ps = []
  | _ => doc_example (params_doc rpc) = VObject ((fun p => (ep_name p, ep_value p)) <$> ps)
  end.

(** An entry of the schema describes a method. *)
Record documents (entry : Rpc * string) (m : Method) : Prop := {
  dc_name : md_name m = METHOD entry.1;
  dc_summary : md_summary m = entry.2;
  dc_params : params_documented entry.1 (md_params m);
  dc_result : md_result m = mkResponseResult (METHOD entry.1 +:+ "_result") (json_schema (result_doc entry.1));
  dc_example : exists ps, example_documented entry.1 ps /\
    md_examples m = [mkExample (METHOD entry.1 +:+ "_example") ps (METHOD entry.1 +:+ "_example_result")
                       (doc_example (result_doc entry.1))];
}.

Lemma make_params_spec schema ps :
  make_params schema_object schema = Some ps ->
  exists properties required first rest,
    schema_object schema = Some (properties, required) /\
    ps = first ++ rest /\ ((fun p => (sp_name p, sp_schema p)) <$> ps) ≡ₚ properties /\
    Forall (fun p => sp_required p = true /\ sp_name p ∈ required) first /\
    Forall (fun p => sp_required p = false /\ sp_name p ∉ required) rest.
Proof.
  unfold make_params. destruct (schema_object schema) as [[properties required]|] eqn:Hs; [|done].
  intros [= <-]. eexists properties, required, _, _. split; [done|]. split; [reflexivity|].
  unfold BTreeMap in properties. clear Hs. split_and!.
  - rewrite fmap_app. induction properties as [|[name sch] properties IH]; csimpl; [done|].
    destruct (bool_decide (name ∈ required)); simpl; [by f_equiv|].
    rewrite <- Permutation_middle. by f_equiv.
  - induction properties as [|[name sch] properties IH]; csimpl; [constructor|].
    case_bool_decide; simpl; [|done]. by constructor.
  - induction properties as [|[name sch] properties IH]; csimpl; [constructor|].
    case_bool_decide; simpl; [done|]. by constructor.
Qed.

Lemma make_optional_params_spec schema ps :
  make_optional_params schema_object schema = Some ps ->
  exists properties required,
    schema_object schema = Some (properties, required) /\
    ((fun p => (sp_name p, sp_schema p)) <$> ps) =
          filter (fun e : string * Schema => e.1 ∈ required) (properties : list (string * Schema)) /\
    Forall (fun p => sp_required p = false) ps.
Proof.
  unfold make_optional_params. destruct (schema_object schema) as [[properties required]|] eqn:Hs; [|done].
  intros [= <-]. exists properties, required. split; [done|]. unfold BTreeMap in properties. clear Hs.
  induction properties as [|[name sch] properties [IH1 IH2]]; [by split|]. rewrite filter_cons.
  cbn [List.filter fst]. case_bool_decide; [rewrite decide_True by done|by rewrite decide_False by done].
  csimpl. rewrite IH1. by split; [|constructor].
Qed.

Lemma Example_new_params (name : string) (params result : Value) (e : Example_) :
  Example_new name (Some params) result = Some e ->
  exists ps, params = VObject ((fun p => (ep_name p, ep_value p)) <$> ps) /\
    e = mkExample (name +:+ "_example") ps (name +:+ "_example_result") result.
Proof.
  destruct params as [| | | | |o]; try done. intros [= <-]. eexists. split; [|reflexivity].
  f_equal. rewrite <- list_fmap_compose. symmetry. rewrite <- (list_fmap_id o) at 2. apply list_fmap_ext. by intros i [].
Qed.

(** Pushing a method appends its entry, and the definitions of its types. *)
Lemma push_documents self self' entry :
  push schema_object metadata params_doc result_doc self entry = Some self' ->
  exists m, methods self' = methods self ++ [m] /\ documents entry m /\
    update_schemas metadata (schemas self) (entry_types entry ≫= definitions) = Some (schemas self').
Proof.
  destruct entry as [rpc summary]. unfold push, entry_types. cbn [fst].
  destruct rpc as [rpc|rpc|rpc]; unfold push_with_params, push_without_params, push_with_optional_params, push_method.
  - intros (ps & Hps%make_params_spec & Hp)%bind_Some.
    apply bind_Some in Hp as (e & (qs & Hq & ->)%Example_new_params & Hp).
    apply bind_Some in Hp as (schemas' & Hu & [= <-]). eexists. split; [done|]. split; [|done].
    split; try done. by exists qs.
  - intros (e & [= <-] & Hp)%bind_Some. apply bind_Some in Hp as (schemas' & Hu & [= <-]).
    eexists. split; [done|]. split; [|done]. split; try done. by exists [].
  - intros (ps & Hps%make_optional_params_spec & Hp)%bind_Some.
    apply bind_Some in Hp as (e & (qs & Hq & ->)%Example_new_params & Hp).
    apply bind_Some in Hp as (schemas' & Hu & [= <-]). eexists. split; [done|]. split; [|done].
    split; try done. by exists qs.
Qed.

(** The definitions of the types are among the schemas, under their names, up to what
    is not metadata; and nothing else is. *)
Lemma update_schemas_spec (m m' : gmap string Schema) (defs : list (string * Schema)) :
  update_schemas metadata m defs = Some m' ->
  m ⊆ m' /\ (forall key v, m' !! key = Some v -> m !! key = Some v \/ (key, v) ∈ defs) /\
  (forall key v, (key, v) ∈ defs -> exists v', m' !! key = Some v' /\ metadata v' = metadata v).
Proof.
  revert m. induction defs as [|[key v] defs IH]; intros m; simpl.
  { intros [= ->]. split_and!; [done|by left|by intros ? ? ?%elem_of_nil]. }
  destruct (m !! key) as [v0|] eqn:Hm; [case_decide as Hv; [|done]|];
    intros (Hsub & Hin & Hall)%IH; (split_and!; [| |intros key' v' [[= -> ->]|Hd]%elem_of_cons; [|by apply Hall]]).
  - done.
  - intros key' v' [?|?]%Hin; [by left|right; by right].
  - exists v0. split; [by eapply lookup_weaken|done].
  - transitivity (<[key := v]> m); [by apply insert_subseteq|done].
  - intros key' v' [Hi|?]%Hin; [|right; by right].
    apply lookup_insert_Some in Hi as [[<- <-]|[_ ?]]; [right; by left|by left].
  - exists v. split; [|done]. eapply lookup_weaken; [apply lookup_insert_eq|done].
Qed.

(** They can be added when those with the same name have the same metadata. *)
Lemma update_schemas_succeeds (m : gmap string Schema) (defs : list (string * Schema)) :
  (forall key v v', m !! key = Some v \/ (key, v) ∈ defs -> (key, v') ∈ defs -> metadata v = metadata v') ->
  is_Some (update_schemas metadata m defs).
Proof.
  revert m. induction defs as [|[key v] defs IH]; intros m Hm; simpl; [by eexists|].
  destruct (m !! key) as [v0|] eqn:Hk.
  - rewrite decide_True; [|apply (Hm key); [by left|by left]].
    apply IH. intros key' v1 v2 H1 H2. apply (Hm key'); [destruct H1; [by left|right; by right]|by right].
  - apply IH. intros key' v1 v2 H1 H2. apply (Hm key'); [|by right]. destruct H1 as [H1|H1]; [|right; by right].
    apply lookup_insert_Some in H1 as [[<- <-]|[_ ?]]; [right; by left|by left].
Qed.

(** All the definitions of the methods of a list. *)
Definition all_definitions (entries : list (Rpc * string)) : list (string * Schema) :=
  entries ≫= fun entry => entry_types entry ≫= definitions.

Lemma push_all_documents self self' entries :
  push_all schema_object metadata params_doc result_doc self entries = Some self' ->
  exists ms, methods self' = methods self ++ ms /\ Forall2 documents entries ms /\
    update_schemas metadata (schemas self) (all_definitions entries) = Some (schemas self').
Proof.
  assert (forall m defs defs', update_schemas metadata m (defs ++ defs') =
    update_schemas metadata m defs ≫= fun m' => update_schemas metadata m' defs') as Happ.
  { intros m defs. revert m. induction defs as [|[key v] defs IH]; intros m defs'; [done|]. simpl.
    destruct (m !! key); [case_decide|]; by rewrite ?IH. }
  revert self. induction entries as [|entry entries IH]; intros self; simpl.
  - intros [= ->]. exists []. by rewrite app_nil_r.
  - intros (self1 & (m & Hm & Hd & Hu)%push_documents & (ms & Hms & Hds & Hus)%IH)%bind_Some.
    exists (m :: ms). unfold all_definitions. csimpl. rewrite Happ, Hu, Hms, Hm, <- app_assoc.
    split_and!; [done|by constructor|exact Hus].
Qed.

(** What the documentation needs of the types: the schemas and the examples of parameters
    are objects, and definitions with the same name have the same metadata. *)
Record well_documented (entries : list (Rpc * string)) : Prop := {
  wd_params : Forall (fun entry => match entry.1 with
                | WithoutParams _ => True
                | _ => is_Some (schema_object (json_schema (params_doc entry.1))) /\
                       exists o, doc_example (params_doc entry.1) = VObject o
                end) entries;
  wd_definitions : forall key v v', (key, v) ∈ all_definitions entries -> (key, v') ∈ all_definitions entries ->
    metadata v = metadata v';
}.

Lemma push_succeeds self entry :
  match entry.1 with
  | WithoutParams _ => True
  | _ => is_Some (schema_object (json_schema (params_doc entry.1))) /\ exists o, doc_example (params_doc entry.1) = VObject o
  end ->
  is_Some (update_schemas metadata (schemas self) (entry_types entry ≫= definitions)) ->
  is_Some (push schema_object metadata params_doc result_doc self entry).
Proof.
  destruct entry as [rpc summary]. unfold push, entry_types. cbn [fst]. intros Hp [m Hm].
  destruct rpc as [rpc|rpc|rpc]; unfold push_with_params, push_without_params, push_with_optional_params, push_method,
    make_params, make_optional_params, Example_new.
  1, 3: destruct Hp as [[[properties required] ->] [o ->]].
  all: simpl in *; rewrite Hm; by eexists.
Qed.

Lemma push_all_succeeds self entries :
  well_documented entries ->
  (forall key v v', schemas self !! key = Some v -> (key, v') ∈ all_definitions entries -> metadata v = metadata v') ->
  is_Some (push_all schema_object metadata params_doc result_doc self entries).
Proof.
  revert self. induction entries as [|entry entries IH]; intros self [Hp Hd] Hs; simpl; [by eexists|].
  apply Forall_cons in Hp as [Hp Hps]. unfold all_definitions in *. csimpl in *.
  destruct (push_succeeds self entry Hp) as [self1 Hpush].
  { apply update_schemas_succeeds. intros key v v' [Hk|Hk] Hv;
      [apply (Hs key)|apply (Hd key)]; rewrite ?elem_of_app; auto. }
  rewrite Hpush. cbn [mbind option_bind].
  apply push_documents in Hpush as (_ & _ & _ & (_ & Hin & _)%update_schemas_spec). apply IH.
  - split; [done|]. intros key v v' Hv Hv'. apply (Hd key); apply elem_of_app; by right.
  - intros key v v' [Hk|Hk]%Hin Hv'; [apply (Hs key)|apply (Hd key)]; rewrite ?elem_of_app; auto.
Qed.

(** Nothing less is enough. *)
Lemma push_all_well_documented self' entries :
  push_all schema_object metadata params_doc result_doc (mkOpenRpcSchema [] ∅) entries = Some self' ->
  well_documented entries.
Proof.
  intros (ms & _ & Hds & (_ & _ & Hdef)%update_schemas_spec)%push_all_documents. split.
  - clear Hdef. induction Hds as [|[rpc summary] m entries ms Hd _ IH]; constructor; [|done].
    destruct Hd as [_ _ Hp _ (ps & He & _)]. cbn [fst] in *.
    destruct rpc; [|done|]; cbn in Hp, He; (split; [|by eexists]); naive_solver.
  - intros key v v' (v1 & H1 & <-)%Hdef (v2 & H2 & <-)%Hdef. by simplify_eq.
Qed.

End DocsFacts.

Section Discover.
Context `{CasperOps} `{BinaryPort} `{BinaryPortCodes} `{!PortPayloads, !CasperJson} `{!AuctionTypes}.
Context `{!ParamsJson, !Serialize Bid, !Serialize BidKind}.
Context (into_bid_kind : StoredValue -> option BidKind) (discover : result string Value).

(** The methods that are served without being documented. *)
Definition undocumented : list string := ["state_get_trie"; "rpc.discover"].

Lemma documented_methods :
  list_to_set (METHOD <$> main_rpcs into_bid_kind discover) =@{gset string}
  list_to_set (METHOD <$> (documented_rpcs into_bid_kind).*1) ∪ list_to_set undocumented.
Proof. apply (bool_decide_unpack _). vm_compute. exact I. Qed.

Lemma documents_names {Schema} schema_object (params_doc result_doc : Rpc -> Documented (Schema := Schema)) entries ms :
  Forall2 (documents schema_object params_doc result_doc) entries ms -> md_name <$> ms = METHOD <$> entries.*1.
Proof. induction 1 as [|entry m entries ms Hd _ IH]; csimpl; [done|]. by rewrite IH, (dc_name _ _ _ _ _ Hd). Qed.

(** The names under which the main server has a handler. *)
Lemma main_server_methods {World} (C : NodeClientT World) direct ip port default_limit limits qps max_body cors (m : string) :
  is_Some (handlers (srv_handlers (run_rpc_server into_bid_kind discover C direct ip port default_limit limits
                                     qps max_body cors)) !! m) <->
  m ∈ METHOD <$> main_rpcs into_bid_kind discover.
Proof.
  destruct (register_lookup C direct default_limit (main_rpcs into_bid_kind discover) builder_new limits
    (main_methods_NoDup _ _)) as [Hin Hout].
  cbn [run_rpc_server srv_handlers]. unfold register_all. cbn [build handlers]. split.
  - intros Hm. destruct (decide (m ∈ METHOD <$> main_rpcs into_bid_kind discover)) as [|Hn]; [done|].
    rewrite Hout in Hm by done. by destruct Hm.
  - intros (rpc & -> & (h & Hh & _)%Hin)%list_elem_of_fmap. by eexists.
Qed.

(** C36. The documentation that [rpc.discover] returns.  Building it succeeds exactly when
    the schemas and the examples of the parameters are objects and definitions with the
    same name have the same metadata.  It then has one entry for each documented method,
    in their order, with its name, its summary, its parameters, its result and its
    example: of a method with parameters all the properties of the parameter type, the
    required ones first and marked so; of a method without parameters none; of a method
    with optional parameters only the properties that count as required, marked as not
    required.  Its components are the definitions of the types.  No method has two
    entries, and the methods with an entry are, with [state_get_trie] and [rpc.discover]
    itself, exactly those for which the main server has a handler. *)
Theorem documentation_matches_server {Schema Metadata World : Type} `{!EqDecision Metadata}
    (schema_object : Schema -> option (BTreeMap string Schema * gset string))
    (metadata : Schema -> Metadata) (params_doc result_doc : Rpc -> Documented (Schema := Schema))
    (C : NodeClientT World) direct ip port default_limit limits qps max_body cors :
  let entries := documented_rpcs into_bid_kind in
  let built := push_all schema_object metadata params_doc result_doc (mkOpenRpcSchema [] ∅) entries in
  let server := run_rpc_server into_bid_kind discover C direct ip port default_limit limits qps max_body cors in
  (is_Some built <-> well_documented schema_object metadata params_doc result_doc entries) /\
  forall s, built = Some s ->
    Forall2 (documents schema_object params_doc result_doc) entries (methods s) /\
    (forall key v, schemas s !! key = Some v -> (key, v) ∈ all_definitions params_doc result_doc entries) /\
    (forall key v, (key, v) ∈ all_definitions params_doc result_doc entries ->
       exists v', schemas s !! key = Some v' /\ metadata v' = metadata v) /\
    NoDup (md_name <$> methods s) /\
    forall m, is_Some (handlers (srv_handlers server) !! m) <-> m ∈ md_name <$> methods s \/ m ∈ undocumented.
Proof.
  intros entries built server. split; [split|].
  - intros [s Hs]. by eapply push_all_well_documented.
  - intros Hw. apply push_all_succeeds; [done|]. intros key v v'. cbn [schemas]. by rewrite lookup_empty.
  - intros s (ms & Hms & Hds & (_ & Hin & Hall)%update_schemas_spec)%push_all_documents.
    cbn [methods app] in Hms. rewrite Hms.
    split; [done|]. split; [|split; [done|]].
    { intros key v [Hk|?]%Hin; [|done]. cbn [schemas] in Hk. by rewrite lookup_empty in Hk. }
    rewrite (documents_names _ _ _ _ _ Hds). split; [apply (bool_decide_unpack _); vm_compute; exact I|].
    intros m. subst server. rewrite main_server_methods.
    rewrite <- !(elem_of_list_to_set (C := gset string)), documented_methods, elem_of_union. done.
Qed.

End Discover.

(** ** Instances of the properties *)

Module ServerWitnesses.
Import SampleNode.

Definition no_parser {T} : Deserialize T := fun _ => Err "not a parameter of the sample".

#[local] Instance params_json : ParamsJson := {|
  de_PutDeploy v :=
    match v with VArray [VNumber (PosInt d)] => Ok (@mkPutDeployParams types d) | _ => Err "deploy" end;
  de_PutTransaction := no_parser; de_SpeculativeExecTxn := no_parser; de_SpeculativeExec := no_parser;
  de_GetBlock := no_parser; de_GetBlockTransfers := no_parser; de_GetStateRootHash := no_parser;
  de_GetEraInfo := no_parser; de_GetEraSummary := no_parser; de_GetDeploy := no_parser;
  de_GetTransaction := no_parser; de_GetReward := no_parser; de_GetItem := no_parser;
  de_QueryGlobalState := no_parser; de_GetBalance := no_parser; de_QueryBalance := no_parser;
  de_QueryBalanceDetails := no_parser; de_GetAccountInfo := no_parser;
  de_GetAddressableEntity := no_parser; de_GetPackage := no_parser; de_GetDictionaryItem := no_parser;
  de_GetTrie := no_parser; de_GetAuctionInfo := no_parser;
|}.

(** Types that all refer to one definition; their parameters have a required property
    and another one. *)
Definition sample_schema (name : string) : option (BTreeMap string string * gset string) :=
  if decide (name = "object") then Some ([("id", "integer"); ("note", "string")], {["id"]}) else None.

Definition sample_doc (rpc : Rpc) : Documented (Schema := string) :=
  mkDocumented "object" [("Digest", "string")] (VObject [("id", VNumber (PosInt 1))]).

Definition sample_server : Service (World := unit) :=
  run_rpc_server (H4 := json) (H5 := MethodWitnesses.auction) (Serialize0 := json_Z) (Serialize1 := fun _ => Ok VNull)
    (fun _ => None) (Ok VNull) (answering answers) (fun _ w => (None, w)) "0.0.0.0" 7777 (mkLimit 1 1) ∅ 100 2621440
    EmptyString.

(** The documentation is built, has the one definition, and no entry for the methods the
    server does not have. *)
Lemma documentation_matches_server_witness :
  exists s, push_all sample_schema (fun s => s) sample_doc sample_doc (mkOpenRpcSchema [] ∅)
      (documented_rpcs (H4 := json) (H5 := MethodWitnesses.auction) (Serialize0 := json_Z) (Serialize1 := fun _ => Ok VNull)
         (fun _ => None)) = Some s /\
    NoDup (md_name <$> methods s) /\ (exists v, schemas s !! "Digest" = Some v /\ v = "string") /\
    "speculative_exec" ∉ md_name <$> methods s.
Proof.
  destruct (documentation_matches_server (H4 := json) (H5 := MethodWitnesses.auction) (Serialize0 := json_Z)
    (Serialize1 := fun _ => Ok VNull) (fun _ => None) (Ok VNull) sample_schema (fun s => s) sample_doc sample_doc
    (answering answers) (fun _ w => (None, w)) "0.0.0.0" 7777 (mkLimit 1 1) ∅ 100 2621440 EmptyString)
    as [[_ Hbuilt] Hs].
  destruct Hbuilt as [s Hb].
  { split; [repeat constructor; by eexists|]. intros key v v' Hv Hv'.
    assert (forall x, x ∈ [("Digest", "string")] -> x = ("Digest", "string")) as Hone by by intros x ?%list_elem_of_singleton.
    apply list_elem_of_bind in Hv as (e & Hv & _). apply list_elem_of_bind in Hv' as (e' & Hv' & _).
    apply list_elem_of_bind in Hv as (d & Hv & Hd). apply list_elem_of_bind in Hv' as (d' & Hv' & Hd').
    assert (forall e d, d ∈ entry_types sample_doc sample_doc e -> definitions d = [("Digest", "string")]) as Hdef.
    { intros [rpc summary] x. unfold entry_types, sample_doc. destruct rpc; cbn [fst];
        rewrite ?elem_of_cons, ?elem_of_nil; by intros [->|[->|[]]] || intros [->|[]]. }
    rewrite (Hdef e d Hd) in Hv. rewrite (Hdef e' d' Hd') in Hv'. apply Hone in Hv, Hv'. congruence. }
  destruct (Hs s Hb) as (_ & _ & Hall & Hnd & Hm). exists s. split; [exact Hb|]. split; [exact Hnd|]. split.
  - apply Hall. by vm_compute; left.
  - intros Hin. assert (is_Some (handlers (srv_handlers sample_server) !! "speculative_exec")) as Hh by (apply Hm; by left).
    vm_compute in Hh. by destruct Hh.
Defined.

End ServerWitnesses.
