(* ===== verification/RpcOverWire.v ===== *)
(** * RPC calls over the connection to the node

    The methods of the RPC servers ([rpc_sidecar/src/rpcs/]) are programs of typed
    requests ([NodeRequests.v]); the framed client ([NodeClient.v]) sends each
    request as bytes with an identifier and picks the response that echoes it.
    Here the two are put together: the methods read of a response only what the
    node says, never the identifier it echoes, so that over a connection to a
    node that answers they compute what they compute from its answers. *)

From S2P Require Import Prelude Json JsonRpc NodeErrors NodeClient CachingClient BTreeMap Casper.
From S2P Require Import CasperSample RpcErrors NodeRequests RpcTraits NodeSample RpcCommon.
From S2P Require Import RpcAccount RpcChain RpcInfo RpcState RpcAuction RpcMethods RpcServer.

(** ** Programs that do not read the echoed request *)

Section Respects.
Context `{CasperTypes} `{BinaryPort}.

(** The program continues in the same way after two messages that carry the
    same response. *)
Fixpoint respects {A} (p : node A) : Prop :=
  match p with
  | Ret _ => True
  | Send _ k =>
      (forall r r', response r = response r' -> k (Ok r) = k (Ok r')) /\ forall r, respects (k r)
  | ReadBlock _ k => forall r, respects (k r)
  end.

Lemma respects_bind {A B} (f : A -> node B) (p : node A) :
  respects p -> (forall a, respects (f a)) -> respects (p ≫= f).
Proof.
  unfold mbind, node_mbind. intros Hp Hf. induction p as [a|req k IH|id k IH]; simpl; [apply Hf|..].
  - destruct Hp as [Hk Hp]. split; [|intros r; by apply IH]. intros r r' Hr. by rewrite (Hk r r' Hr).
  - intros r. by apply IH.
Qed.

Lemma respects_try {E A B} (f : A -> node (result E B)) (p : node (result E A)) :
  respects p -> (forall a, respects (f a)) -> respects (try_bind f p).
Proof. intros Hp Hf. apply respects_bind; [done|]. intros [a|e]; [apply Hf|done]. Qed.

Lemma respects_map_err {E F A} (f : E -> F) (p : node (result E A)) :
  respects p -> respects (node_map_err f p).
Proof. intros Hp. by apply respects_bind. Qed.

(** A request whose answer is only used for the response it carries. *)
Lemma respects_send {A} (f : BinaryResponseAndRequest -> node (result ClientError A)) (req : Request) :
  (forall r r', response r = response r' -> f r = f r') -> (forall r, respects (f r)) ->
  respects (try_bind f (send req)).
Proof. intros Hf Hk. split; [exact Hf|]. intros [r|e]; [apply Hk|done]. Qed.

End Respects.

Create HintDb respects.

(** Follows the binds of a program; the helpers it calls have their own lemmas
    in the database [respects]. *)
Ltac solve_respects :=
  repeat
    lazymatch goal with
    | |- respects (Ret _) => exact I
    | |- respects (lift _) => exact I
    | |- respects (node_map_err _ _) => apply respects_map_err
    | |- respects (requesting _ _) => apply respects_map_err
    | |- respects (into_rpc _) => apply respects_map_err
    | |- respects (try_bind _ (send _)) =>
        apply respects_send;
          [intros ? ? Hresponse; unfold parse_some, parse; by rewrite Hresponse|intros ?]
    | |- respects (try_bind _ _) => apply respects_try; [|intros ?]
    | |- respects (mbind _ _) => apply respects_bind; [|intros ?]
    | |- respects (match ?x with _ => _ end) => destruct x
    | |- respects (let _ := _ in _) => cbv zeta
    | |- respects _ => solve [eauto with respects]
    end.

Section RequestsRespect.
Context `{CasperOps} `{BinaryPort} `{BinaryPortCodes} `{!PortPayloads}.

Lemma respects_query_global_state id key path : respects (query_global_state id key path).
Proof. unfold query_global_state. solve_respects. Qed.

Lemma respects_query_by_tag id tag : respects (query_global_state_by_tag id tag).
Proof. unfold query_global_state_by_tag. solve_respects. Qed.

Lemma respects_query_by_prefix id prefix : respects (query_global_state_by_prefix id prefix).
Proof. unfold query_global_state_by_prefix. solve_respects. Qed.

Lemma respects_read_balance id purse : respects (read_balance id purse).
Proof. unfold read_balance. solve_respects. Qed.

Lemma respects_read_trie_bytes key : respects (read_trie_bytes key).
Proof. unfold read_trie_bytes. solve_respects. Qed.

Lemma respects_query_dictionary_item id item : respects (query_dictionary_item id item).
Proof. unfold query_dictionary_item. solve_respects. Qed.

Lemma respects_try_accept tx : respects (try_accept_transaction tx).
Proof. unfold try_accept_transaction. solve_respects. Qed.

Lemma respects_exec_speculatively tx : respects (exec_speculatively tx).
Proof. unfold exec_speculatively. solve_respects. Qed.

Lemma respects_read_block_transfers hash : respects (read_block_transfers hash).
Proof. unfold read_block_transfers, read_record. solve_respects. Qed.

Lemma respects_read_block_header id : respects (read_block_header id).
Proof. unfold read_block_header, read_info. solve_respects. Qed.

Lemma respects_read_block id : respects (read_block_with_signatures id).
Proof. by intros r. Qed.

Lemma respects_read_transaction hash b : respects (read_transaction_with_execution_info hash b).
Proof. unfold read_transaction_with_execution_info, read_info. solve_respects. Qed.

Lemma respects_read_peers : respects read_peers.
Proof. unfold read_peers, read_info. solve_respects. Qed.

Lemma respects_read_range : respects read_available_block_range.
Proof. unfold read_available_block_range, read_info. solve_respects. Qed.

Lemma respects_read_chainspec : respects read_chainspec_bytes.
Proof. unfold read_chainspec_bytes, read_info. solve_respects. Qed.

Lemma respects_read_validator_changes : respects read_validator_changes.
Proof. unfold read_validator_changes, read_info. solve_respects. Qed.

Lemma respects_read_switch_header : respects read_latest_switch_block_header.
Proof. unfold read_latest_switch_block_header, read_info. solve_respects. Qed.

Lemma respects_read_node_status : respects read_node_status.
Proof. unfold read_node_status, read_info. solve_respects. Qed.

Lemma respects_read_reward era v d : respects (read_reward era v d).
Proof. unfold read_reward, read_info. solve_respects. Qed.

Lemma respects_read_package id p : respects (read_package id p).
Proof. unfold read_package, read_info. solve_respects. Qed.

Lemma respects_read_entity id e b : respects (read_entity id e b).
Proof. unfold read_entity, read_info. solve_respects. Qed.

End RequestsRespect.

#[export] Hint Resolve respects_query_global_state respects_query_by_tag respects_query_by_prefix
  respects_read_balance respects_read_trie_bytes respects_query_dictionary_item respects_try_accept
  respects_exec_speculatively respects_read_block_transfers respects_read_block_header
  respects_read_block respects_read_transaction respects_read_peers respects_read_range
  respects_read_chainspec respects_read_validator_changes respects_read_switch_header
  respects_read_node_status respects_read_reward respects_read_package respects_read_entity : respects.

(** ** The methods *)

Section MethodsRespect.
Context `{CasperOps} `{BinaryPort} `{BinaryPortCodes} `{!PortPayloads, !CasperJson} `{!AuctionTypes}.
Context `{!ParamsJson, !Serialize Bid, !Serialize BidKind}.
Context (into_bid_kind : StoredValue -> option BidKind) (discover : result string Value).

Lemma respects_missing_block {A} id : respects (RpcCommon.missing_block (A := A) id).
Proof. unfold RpcCommon.missing_block. solve_respects. Qed.
#[local] Hint Resolve respects_missing_block : respects.

Lemma respects_get_block id : respects (get_block_with_signatures id).
Proof. unfold get_block_with_signatures. solve_respects. Qed.

Lemma respects_get_header id : respects (RpcCommon.get_block_header id).
Proof. unfold RpcCommon.get_block_header. solve_respects. Qed.

Lemma respects_get_switch_header : respects get_latest_switch_block_header.
Proof. unfold get_latest_switch_block_header. solve_respects. Qed.

Lemma respects_named_keys addr id : respects (get_entity_named_keys addr id).
Proof. unfold get_entity_named_keys. solve_respects. Qed.

Lemma respects_entry_points addr id : respects (get_entity_entry_points addr id).
Proof. unfold get_entity_entry_points. solve_respects. Qed.
#[local] Hint Resolve respects_get_block respects_get_header respects_get_switch_header
  respects_named_keys respects_entry_points : respects.

Lemma respects_era_summary_by_block header : respects (get_era_summary_by_block header).
Proof. unfold get_era_summary_by_block. solve_respects. Qed.

Lemma respects_era_block_header id : respects (era_block_header id).
Proof. unfold era_block_header. solve_respects. Qed.

Lemma respects_entity_of id r : respects (entity_of id r).
Proof. unfold entity_of. solve_respects. Qed.

Lemma respects_fetch_bid_kinds id b : respects (fetch_bid_kinds into_bid_kind id b).
Proof. unfold fetch_bid_kinds. solve_respects. Qed.

Lemma respects_auction_contract id : respects (auction_contract id).
Proof. unfold auction_contract. solve_respects. Qed.

Lemma respects_auction_snapshot id hash : respects (auction_snapshot id hash).
Proof. unfold auction_snapshot. solve_respects. Qed.
#[local] Hint Resolve respects_era_summary_by_block respects_era_block_header respects_entity_of
  respects_fetch_bid_kinds respects_auction_contract respects_auction_snapshot : respects.

(** Every method of either server. *)
Lemma respects_encoded {T} `{!Serialize T} (p : node (result RpcError T)) :
  respects p -> respects (encoded p).
Proof. intros Hp. by apply respects_try. Qed.

Lemma respects_wp (rpc : RpcWithParams) maybe_params :
  (forall p, respects (wp_do_handle_request rpc p)) -> respects (rpc_program (WithParams rpc) maybe_params).
Proof. intros Hp. apply respects_encoded. by apply respects_try. Qed.

Lemma respects_wo (rpc : RpcWithoutParams) maybe_params :
  respects (wo_do_handle_request rpc) -> respects (rpc_program (WithoutParams rpc) maybe_params).
Proof. intros Hp. apply respects_encoded. by apply respects_try. Qed.

Lemma respects_op (rpc : RpcWithOptionalParams) maybe_params :
  (forall p, respects (op_do_handle_request rpc p)) ->
  respects (rpc_program (WithOptionalParams rpc) maybe_params).
Proof. intros Hp. apply respects_encoded. by apply respects_try. Qed.

Lemma main_rpcs_respect :
  Forall (fun rpc => forall params, respects (rpc_program rpc params)) (main_rpcs into_bid_kind discover).
Proof.
  unfold main_rpcs. repeat apply Forall_cons_2; [..|by apply Forall_nil_2]; intros params;
    first [apply respects_wp; intros p|apply respects_op; intros p|apply respects_wo];
    cbn [wp_do_handle_request wo_do_handle_request op_do_handle_request PutDeploy PutTransaction GetBlock
         GetBlockTransfers GetStateRootHash GetEraInfoBySwitchBlock GetEraSummary GetItem QueryGlobalState
         GetBalance GetAccountInfo GetAddressableEntity GetPackage GetDictionaryItem RpcState.GetTrie
         QueryBalance QueryBalanceDetails GetDeploy GetTransaction GetPeers GetStatus GetReward
         GetValidatorChanges GetChainspec GetAuctionInfo GetAuctionInfoV2 RpcDiscover];
    unfold put_deploy, put_transaction, get_block, get_block_transfers, get_state_root_hash,
      get_era_info_by_switch_block, get_era_summary, get_item, query_state, get_balance, get_account_info,
      get_addressable_entity, get_package, get_dictionary_item, get_trie, query_balance,
      query_balance_details, get_deploy, get_transaction, get_peers, get_status, get_reward,
      get_validator_changes, get_chainspec, get_auction_info, get_auction_info_v2;
    solve_respects.
Qed.

Lemma speculative_rpcs_respect (result : result string Value) :
  Forall (fun rpc => forall params, respects (rpc_program rpc params)) (speculative_rpcs result).
Proof.
  unfold speculative_rpcs. repeat apply Forall_cons_2; [..|by apply Forall_nil_2]; intros params;
    first [apply respects_wp; intros p|apply respects_wo]; [| |exact I];
    cbn [wp_do_handle_request SpeculativeExecTxn SpeculativeExec];
    unfold speculative_exec_txn, speculative_exec, RpcAccount.handle_request; solve_respects.
Qed.

End MethodsRespect.

(** ** Clients that answer *)

Section Serving.
Context `{CasperOps} `{BP : BinaryPort} `{BinaryPortCodes} `{!PortPayloads}.

(** What a client of the node promises to the methods: while it is ready, it answers
    every request with the response [serve] has for it, and stays ready. *)
Class ServesAs {W} (C : NodeClientT W) (serve : Request -> BinaryResponse) (ready : W -> Prop) : Prop := {
  serves_send req w : ready w ->
    exists resp w', client_send_request req w = (Ok resp, w') /\ response resp = serve req /\ ready w';
  serves_read id w : ready w ->
    exists w', client_read_block id w =
      (parse_response (serve (Get (GetInformation (InfoBlockWithSignatures id)))), w') /\ ready w';
}.

(** The answers of such a client, in whatever messages they come. *)
Definition answers_of (serve : Request -> BinaryResponse)
    (answers : Request -> result ClientError BinaryResponseAndRequest) : Prop :=
  forall req, exists resp, answers req = Ok resp /\ response resp = serve req.

Lemma run_serving {W A} (C : NodeClientT W) (serve : Request -> BinaryResponse) (ready : W -> Prop)
    `{!ServesAs C serve ready} (answers : Request -> result ClientError BinaryResponseAndRequest) (p : node A) (w : W) :
  answers_of serve answers -> respects p -> ready w ->
  exists w', run C p w = (eval answers p, w') /\ ready w'.
Proof.
  intros Hans. revert w. induction p as [a|req k IH|id k IH]; intros w Hp Hw; [by exists w|..].
  - destruct Hp as [Hk Hp]. destruct (serves_send req w Hw) as (resp & w' & Hs & Hresp & Hw').
    destruct (Hans req) as (resp0 & Ha & Hresp0). destruct (IH (Ok resp) w' (Hp _) Hw') as (w'' & Hr & Hw'').
    exists w''. split; [|done]. cbn [run]. rewrite Hs, Hr. f_equal.
    unfold eval at 2. simpl. rewrite Ha. fold (eval answers (k (Ok resp0))).
    by rewrite (Hk resp resp0) by congruence.
  - destruct (serves_read id w Hw) as (w' & Hs & Hw').
    destruct (Hans (Get (GetInformation (InfoBlockWithSignatures id)))) as (resp0 & Ha & Hresp0).
    destruct (IH (parse resp0) w' (Hp _) Hw') as (w'' & Hr & Hw''). unfold parse in Hr. rewrite Hresp0 in Hr.
    exists w''. split; [|done]. cbn [run]. rewrite Hs, Hr. f_equal.
    unfold eval at 2. simpl. unfold read_block_by. rewrite Ha. unfold eval, parse. simp_result. by rewrite Hresp0.
Qed.

(** A cached block is what the node would answer. *)
Definition coherent (serve : Request -> BinaryResponse) (c : @CachingNodeClient BlockWithSignatures) : Prop :=
  forall b, block_with_signatures_cache c = Some b ->
    parse_response (serve (Get (GetInformation (InfoBlockWithSignatures None)))) = Ok (Some b).

(** The caching client keeps the promise of the client it is put around. *)
#[export] Instance caching_serves {W} (C : NodeClientT W) (serve : Request -> BinaryResponse) (ready : W -> Prop)
    `{!ServesAs C serve ready} (in_time : W -> bool) :
  ServesAs (caching C in_time) serve (fun w => coherent serve w.1 /\ ready w.2).
Proof.
  split.
  - intros req [c w] [Hc Hw]. destruct (serves_send req w Hw) as (resp & w' & Hs & Hresp & Hw').
    exists resp, (c, w'). simpl. by rewrite Hs.
  - intros id [c w] [Hc Hw]. cbn [fst snd] in *.
    set (req := Get (GetInformation (InfoBlockWithSignatures id))).
    destruct (serves_send req w Hw) as (resp & w' & Hs & Hresp & Hw').
    assert (read_block_by (client_send_request (NodeClientT := C)) id w = (parse_response (serve req), w')) as Hread.
    { unfold read_block_by. fold req. rewrite Hs. simp_result. unfold parse. by rewrite Hresp. }
    cbn [client_read_block caching fst snd]. unfold CachingClient.read_block_with_signatures, get_block_from_cache.
    destruct id as [id|]; [|destruct (in_time w); [destruct (block_with_signatures_cache c) as [b|] eqn:Hb|]];
      rewrite ?Hread; try (by exists (c, w')). exists (c, w). split; [|done]. by rewrite <- (Hc b Hb).
Qed.

End Serving.

(** ** The framed client *)

Section Wire.
Context `{CasperOps} `{BP : BinaryPort} `{BinaryPortCodes} `{!PortPayloads} `{P : Peer} `{L : !BinaryPortLaws}.

(** A node that answers each request at once with one message, which echoes it
    and carries the response [serve] has for it, for as long as it is in [up]. *)
Definition serves_requests (command : Request -> Command) (serve : Request -> BinaryResponse)
    (up : peer -> Prop) : Prop :=
  forall p req id bytes, up p -> is_u16 id -> encode_request (command req) id = Ok bytes ->
  exists p' msg resp,
    peer_receive p bytes = (Sent, p', [Message msg]) /\
    BinaryResponseAndRequest_from_bytes msg = Ok resp /\
    request resp = frame bytes /\ response resp = serve req /\ up p'.

(** A client between two requests to such a node. *)
Definition connected {E} (up : peer -> Prop) (w : E * FramedNodeClient) : Prop :=
  is_u16 (current_request_id w.2) /\ inbox (client w.2) = [] /\ up (remote (client w.2)).

Lemma is_Some_proj_eq {A} (mx : option A) (Hmx : is_Some mx) (x : A) : mx = Some x -> is_Some_proj Hmx = x.
Proof. intros ->. done. Qed.

(** Over a connection to such a node the framed client keeps the promise. *)
Lemma framed_serves {E} (command : Request -> Command) (serve : Request -> BinaryResponse) (up : peer -> Prop)
    (surroundings : E -> Surroundings * E)
    (returns : forall e client req, is_Some (send_request (surroundings e).1 client (command req))) :
  serves_requests command serve up -> (forall req, encodable (command req)) ->
  (forall e, lock_acquired (surroundings e).1 = true) ->
  ServesAs (framed command surroundings returns) serve (connected up).
Proof using L.
  intros Hserves Hcommand Hlock. set (C := framed command surroundings returns).
  assert (forall req w, connected up w -> exists resp w',
    client_send_request (NodeClientT := C) req w = (Ok resp, w') /\ response resp = serve req /\ connected up w') as Hsend.
  { intros req [e self] (Hid & Hin & Hup). cbn [snd] in *.
    destruct (Hcommand req _ Hid) as (bytes & Henc & Hlen).
    destruct (Hserves (remote (client self)) req _ bytes Hup Hid Henc)
      as (p' & msg & resp & Hrecv & Hmsg & Hecho & Hresp & Hup').
    destruct (answered_at_once (surroundings e).1 self (command req) bytes msg resp p')
      as (self' & Hs & Hi & Hr & Hn); try done.
    exists resp, ((surroundings e).2, self'). split_and!; [|done|].
    - simpl. by rewrite (is_Some_proj_eq _ _ _ Hs).
    - unfold connected. cbn [snd]. split_and!; [rewrite Hn; apply wrap_u16_range|done|by rewrite Hr]. }
  split; [exact Hsend|]. intros id w Hw.
  destruct (Hsend (Get (GetInformation (InfoBlockWithSignatures id))) w Hw) as (resp & w' & Hs & Hresp & Hw').
  exists w'. split; [|done]. change (client_read_block (NodeClientT := C) id w) with
    (read_block_by (client_send_request (NodeClientT := C)) id w).
  unfold read_block_by. rewrite Hs. simp_result. unfold parse. by rewrite Hresp.
Qed.

End Wire.

(** ** The servers *)

Section ServersOverClient.
Context `{CasperOps} `{BP : BinaryPort} `{BinaryPortCodes} `{!PortPayloads, !CasperJson} `{!AuctionTypes}.
Context `{!ParamsJson, !Serialize Bid, !Serialize BidKind}.
Context (into_bid_kind : StoredValue -> option BidKind) (discover speculative_discover : result string Value).
Context {W : Type} (C : NodeClientT W) (serve : Request -> BinaryResponse) (ready : W -> Prop).
Context (direct : Quota -> W -> option string * W) (now : W -> Z).
Context (answers : Request -> result ClientError BinaryResponseAndRequest).

(** The verdicts of the limiters, without a client. *)
Definition verdicts (w : W) (q : Quota) (_ : unit) : option string * unit := ((direct q w).1, tt).

(** Two servers, one with the client and one that evaluates with [answers], give a
    request the same answer, after which the client is ready again. *)
Definition same_answer (hs : RequestHandlers (World := W)) (hs' : RequestHandlers (World := unit))
    (r : Req.Request) (size : Z) (w : W) : Prop :=
  let '(response, w', _) := JsonRpc.Server.handle_request now hs r size w in
  let '(response', _, _) := JsonRpc.Server.handle_request (fun _ => 0) hs' r size tt in
  response = response' /\ ready w'.

(** That is so for every request to either server, however they are configured. *)
Definition servers_agree (w : W) : Prop :=
  forall ip port qps max_body cors default_limit limits r size,
  same_answer
    (srv_handlers (run_rpc_server into_bid_kind discover C direct ip port default_limit limits qps max_body cors))
    (srv_handlers (run_rpc_server into_bid_kind discover (answering answers) (verdicts w) ip port default_limit limits
                     qps max_body cors)) r size w /\
  same_answer
    (srv_handlers (run_speculative_exec_server speculative_discover C direct ip port default_limit limits
                     qps max_body cors))
    (srv_handlers (run_speculative_exec_server speculative_discover (answering answers) (verdicts w) ip port
                     default_limit limits qps max_body cors)) r size w.

Context `{S : !ServesAs C serve ready} (Hans : answers_of serve answers).
Context (Hdirect : forall q w, ready w -> ready (direct q w).2).

Lemma handlers_serving (rpcs : list Rpc) (default_limit : ConfigLimit) (limits : gmap string ConfigLimit)
    (r : Req.Request) (size : Z) (w : W) :
  NoDup (METHOD <$> rpcs) -> Forall (fun rpc => forall params, respects (rpc_program rpc params)) rpcs -> ready w ->
  same_answer (register_all C direct rpcs default_limit limits)
    (register_all (answering answers) (verdicts w) rpcs default_limit limits) r size w.
Proof using S Hans Hdirect.
  intros Hnd Hresp Hw. unfold same_answer, register_all.
  destruct (register_lookup C direct default_limit rpcs builder_new limits Hnd) as [Hin Hout].
  destruct (register_lookup (answering answers) (verdicts w) default_limit rpcs builder_new limits Hnd) as [Hin' Hout'].
  destruct (JsonRpc.Server.handle_request _ _ _ _ _) as [[response w'] ms] eqn:Hr.
  destruct (JsonRpc.Server.handle_request _ (build _) r size tt) as [[response' []] ms'] eqn:Hr'.
  destruct (decide (method r ∈ METHOD <$> rpcs)) as [(rpc & Hm & Hrpc)%list_elem_of_fmap|Hm].
  - pose proof (serves_answer C now _ rpc _ r size w w' response ms (Hin rpc Hrpc) Hm Hr) as Ha.
    pose proof (serves_answer _ _ _ rpc _ r size tt tt response' ms' (Hin' rpc Hrpc) Hm Hr') as Ha'.
    rewrite Forall_forall in Hresp. specialize (Hresp rpc Hrpc (params r)). unfold verdicts in Ha'.
    specialize (Hdirect (quota (default default_limit (limits !! METHOD rpc))) w Hw).
    destruct (direct _ w) as [[wait|] w1]; cbn [fst snd] in *.
    { by destruct Ha as [-> ->], Ha' as [_ ->]. }
    rewrite run_answering in Ha'.
    destruct (run_serving C serve ready answers (rpc_program rpc (params r)) w1 Hans Hresp Hdirect) as (w2 & Hrun & Hw2).
    rewrite Hrun in Ha. by destruct Ha as [-> ->], Ha' as [_ ->].
  - destruct (unserved_answer now (build _) r size w w' response ms (eq_trans (Hout _ Hm) (lookup_empty _)) Hr) as [-> _].
    split; [|done]. unfold JsonRpc.Server.handle_request in Hr, Hr'. cbn [build handlers] in Hr, Hr'.
    rewrite Hout in Hr by done. rewrite Hout' in Hr' by done.
    unfold builder_new in Hr, Hr'. rewrite lookup_empty in Hr. rewrite lookup_empty in Hr'. congruence.
Qed.

Lemma servers_serving (w : W) : ready w -> servers_agree w.
Proof using S Hans Hdirect.
  intros Hw ip port qps max_body cors default_limit limits r size.
  cbn [run_rpc_server run_speculative_exec_server srv_handlers]. split.
  - apply handlers_serving; [apply main_methods_NoDup|apply main_rpcs_respect|done].
  - apply handlers_serving; [|apply speculative_rpcs_respect|done].
    apply (bool_decide_unpack _). vm_compute. exact I.
Qed.

End ServersOverClient.

Section ServersOverWire.
Context `{CasperOps} `{BP : BinaryPort} `{BinaryPortCodes} `{!PortPayloads, !CasperJson} `{!AuctionTypes}.
Context `{!ParamsJson, !Serialize Bid, !Serialize BidKind} `{P : Peer} `{L : !BinaryPortLaws}.
Context (into_bid_kind : StoredValue -> option BidKind) (discover speculative_discover : result string Value).

(** An RPC call over the connection to the node, end to end: while the node
    answers, a JSON-RPC request to either server is answered exactly as if its
    method were evaluated with the responses the node has for each of its
    requests - the identifiers, the frames, the choice of the response that
    echoes a request and the wrap-around of the identifiers never show in an
    answer - and the client is again ready for the next request.  The same holds
    with the cache for blocks around the client, while the cached block is the one
    the node would return.  Assumed: requests can be encoded, the node answers each
    of them at once, the client's lock is acquired in time, and a rate limiter
    does not touch the client. *)
Theorem rpc_over_wire {E} (command : Request -> Command) (serve : Request -> BinaryResponse) (up : peer -> Prop)
    (surroundings : E -> Surroundings * E)
    (returns : forall e client req, is_Some (send_request (surroundings e).1 client (command req)))
    (answers : Request -> result ClientError BinaryResponseAndRequest) :
  serves_requests command serve up -> (forall req, encodable (command req)) ->
  (forall e, lock_acquired (surroundings e).1 = true) -> answers_of serve answers ->
  (forall direct now w,
     (forall q w, (direct q w).2.2 = w.2) -> connected up w ->
     servers_agree into_bid_kind discover speculative_discover (framed command surroundings returns)
       (connected up) direct now answers w) /\
  (forall in_time direct now w,
     (forall q w, (direct q w).2.1 = w.1 /\ (direct q w).2.2.2 = w.2.2) -> coherent serve w.1 -> connected up w.2 ->
     servers_agree into_bid_kind discover speculative_discover (caching (framed command surroundings returns) in_time)
       (fun w => coherent serve w.1 /\ connected up w.2) direct now answers w).
Proof using L.
  intros Hserves Hcommand Hlock Hans.
  pose proof (framed_serves command serve up surroundings returns Hserves Hcommand Hlock) as Hframed. split.
  - intros direct now w Hd Hw. eapply (servers_serving _ _ _ _ serve); [apply _|done| |done].
    intros q w' Hw'. unfold connected in *. by rewrite Hd.
  - intros in_time direct now w Hd Hc Hw. eapply (servers_serving _ _ _ _ serve); [apply _|done| |done].
    intros q w' [Hc' Hw']. unfold connected in *. destruct (Hd q w') as [-> Hd2]. by rewrite Hd2.
Qed.

(** The handlers of the main server behind a caching client over a connection to a node. *)
Definition main_server {E} (command : Request -> Command) (surroundings : E -> Surroundings * E)
    (returns : forall e client req, is_Some (send_request (surroundings e).1 client (command req))) in_time direct
    (ip : string) (port qps max_body : Z) (cors : string) (default_limit : ConfigLimit) (limits : gmap string ConfigLimit)
    : RequestHandlers (World := CachingNodeClient * (E * FramedNodeClient)) :=
  srv_handlers (run_rpc_server into_bid_kind discover (caching (framed command surroundings returns) in_time) direct
                  ip port default_limit limits qps max_body cors).

(** C20. What one JSON-RPC request to the main server can do to the node: it makes at most
    six requests, all of which only read, unless its method is one of the two that submit
    a transaction, in which case it makes at most one request, and that is the submission.
    Each request reaches the node as at most two messages, under identifiers of their own:
    the second is sent after reconnecting, when there was no answer to the first.  So the
    messages given to connections are at most twelve that read, or at most two, both
    of which submit the same transaction.  This holds whatever the node, the connection
    and the cache do.  Assumed: every request can be encoded and attempts to reconnect come to
    an end, and a rate limiter sends no message. *)
Theorem main_server_requests {E} (command : Request -> Command) (surroundings : E -> Surroundings * E)
    (returns : forall e client req, is_Some (send_request (surroundings e).1 client (command req)))
    in_time direct now ip port qps max_body cors default_limit limits (r : Req.Request) (size : Z) w :
  (forall q w, messages_sent (direct q w).2.2.2 = messages_sent w.2.2) ->
  let hs := main_server command surroundings returns in_time direct ip port qps max_body cors default_limit limits in
  let w' := (JsonRpc.Server.handle_request now hs r size w).1.2 in
  exists reqs messages,
    messages_sent w'.2.2 = messages_sent w.2.2 ++ concat messages /\
    Forall2 (fun req l => (length l <= 2)%nat /\
      Forall (fun bytes => exists id, encode_request (command req) id = Ok bytes) l) reqs messages /\
    if submits (method r)
    then (length reqs <= 1)%nat /\ Forall (fun req => exists tx, req = TryAcceptTransaction tx) reqs
    else (length reqs <= 6)%nat /\ Forall reads_only reqs.
Proof using Type.
  intros Hd hs w'.
  pose proof (recorded_caching _ in_time _ _ _ (recorded_framed command surroundings returns)) as R.
  destruct (server_requests into_bid_kind discover _ direct now _ _ _ (R := R) ip port qps max_body cors
    default_limit limits r size w Hd) as (reqs & messages & Hl & Hms & Hlen & Hall).
  exists reqs, messages. split; [exact Hl|]. split; [exact Hms|].
  unfold request_budget, may_ask in *. by destruct (submits (method r)).
Qed.

End ServersOverWire.

(** ** A concrete connection *)

Module WireSample.
Import SampleTypes.

(** Commands that are their bytes, a header of five bytes, and messages that
    carry a response (an error code, the tag of its type and the payload behind
    its length) before the request they echo. *)
#[export] Instance port : BinaryPort := {|
  Command := list Z;
  CommandHeader := Z * Z;
  BinaryResponse := SampleNode.Resp;
  BinaryResponseAndRequest := SampleNode.Resp * list Z;
  HEADER_VERSION := 1;
  command_tag _ := 7;
  CommandHeader_new tag id := (tag, id);
  header_id h := h.2;
  CommandHeader_write_bytes h := Ok [1; 0; h.1; h.2 mod 256; h.2 / 256];
  CommandHeader_from_bytes bs :=
    match bs with
    | _ :: _ :: tag :: lo :: hi :: rest => Ok ((tag, lo + 256 * hi), rest)
    | _ => Err "early end of stream"
    end;
  Command_write_bytes c := Ok c;
  request r := r.2;
  response r := r.1;
  BinaryResponseAndRequest_from_bytes bs :=
    match bs with
    | code :: tag :: n :: rest => Ok ((code, Some tag, take (Z.to_nat n) rest), drop (Z.to_nat n) rest)
    | _ => Err "early end of stream"
    end;
  is_not_found r := r.1.1 =? 1;
  is_success r := r.1.1 =? 0;
  error_code r := r.1.1;
  returned_data_type_tag r := r.1.2;
  payload r := r.2;
|}.

#[export] Instance port_laws : BinaryPortLaws.
Proof.
  split; simpl.
  - intros tag id bs [= <-]. by eexists _, _, _.
  - intros tag id bs rest [= <-]. simpl. do 3 f_equal. pose proof (Z.div_mod id 256). lia.
  - done.
Qed.

(** What the node answers to the body of a command: its peers, the acceptance of
    a deploy, or that there is nothing. *)
Definition reply (body : list Z) : Z * Z * list Z :=
  match body with
  | [1] => (0, 11, [5])
  | [2; _] => (0, 0, [])
  | _ => (1, 0, [])
  end.

#[export] Instance node : Peer := {|
  peer := unit;
  peer_receive _ bytes :=
    let '(code, tag, payload) := reply (drop 5 bytes) in
    (Sent, tt, [Message (code :: tag :: Z.of_nat (length payload) :: payload ++ frame bytes)]);
  peer_close p := p;
|}.

Definition command (req : Request) : @Command port :=
  match req with
  | Get (GetInformation InfoPeers) => [1]
  | TryAcceptTransaction (TxDeploy d) => [2; d]
  | _ => [0]
  end.

Definition serve (req : Request) : @BinaryResponse port :=
  let '(code, tag, payload) := reply (command req) in (code, Some tag, payload).

Definition answers (req : Request) : result ClientError (@BinaryResponseAndRequest port) := Ok (serve req, []).

Definition surroundings (e : unit) : Surroundings * unit :=
  (mkSurroundings true (fun _ => Ok (mkFramed _ [] tt)) 1 "127.0.0.1:7779" true, e).

(** A client whose next identifier is the last one before the wrap-around. *)
Definition client : FramedNodeClient := mkClient _ (mkFramed _ [] tt) false (mkBackoff 1000 3000 2 4) 65535 [].

Lemma serves : serves_requests command serve (fun _ => True).
Proof.
  intros [] req id bytes _ _ [= <-]. unfold serve. simpl. rewrite drop_0.
  destruct (reply (command req)) as [[code tag] bs]. eexists tt, _, _. split; [reflexivity|]. simpl.
  rewrite Nat2Z.id, take_app_length, drop_app_length. done.
Qed.

Lemma commands_encodable (req : Request) : encodable (command req).
Proof.
  intros id Hid. eexists. split; [reflexivity|]. unfold is_u32, U32_MAX. rewrite length_app. simpl.
  destruct req as [[|[]| |]|[]|]; simpl; lia.
Qed.

Lemma internal_returns (self : FramedNodeClient) (req : Command) : is_Some (send_request_internal self req).
Proof.
  unfold send_request_internal.
  assert (is_Some (generate_payload self req)) as [[[id bytes] self1] ->] by by eexists.
  cbn [mbind option_bind]. destruct (framed_send _ _) as [[] c]; [|by eexists..].
  destruct (read_responses _ id c). by eexists.
Qed.

Lemma returns e (self : FramedNodeClient) req : is_Some (send_request (surroundings e).1 self (command req)).
Proof.
  unfold send_request. simpl. destruct (internal_returns self (command req)) as [[[] self'] ->]; simpl; [by eexists|].
  apply internal_returns.
Qed.

#[local] Existing Instances SampleNode.codes SampleNode.payloads SampleNode.json MethodWitnesses.auction
  ServerWitnesses.params_json.
#[local] Instance bids : Serialize Bid := SampleNode.json_Z.
#[local] Instance bid_kinds : Serialize BidKind := fun _ => Ok VNull.

Definition no_limit {W} (q : Quota) (w : W) : option string * W := (None, w).

Definition peers_answer : Response :=
  new_success (VNumber (PosInt 1)) (VObject [("api_version", VString "2.0.0"); ("peers", VNumber (PosInt 5))]).

(** The caching client over this connection: its cache is empty. *)
Definition world : CachingNodeClient (Block := BlockWithSignatures) * (unit * FramedNodeClient) :=
  (CachingNodeClient_new, (tt, client)).

(** The same client on a connection that is about to end. *)
Definition broken : CachingNodeClient (Block := BlockWithSignatures) * (unit * FramedNodeClient) :=
  (CachingNodeClient_new, (tt, with_client client (mkFramed _ [EndOfStream] tt))).

Definition put_request : Req.Request :=
  Req.mkRequest VNull "account_put_deploy" (Some (PArray [VNumber (PosInt 4)])).

(** The submission is sent again after reconnecting: the same deploy twice. *)
Lemma main_server_requests_witness :
  exists reqs messages,
    concat messages = [[1; 0; 7; 255; 255; 2; 4]; [1; 0; 7; 0; 0; 2; 4]] /\
    (length reqs <= 1)%nat /\ Forall (fun req => exists tx, req = TryAcceptTransaction tx) reqs.
Proof.
  destruct (main_server_requests (fun _ => None) (Ok VNull) command surroundings returns (fun _ => true) no_limit
    (fun _ => 0) "0.0.0.0" 7777 100 2621440 EmptyString (mkLimit 1 1) ∅ put_request 80 broken (fun _ _ => eq_refl))
    as (reqs & messages & Hl & _ & Hlen & Hall).
  exists reqs, messages. split; [|split; [exact Hlen|exact Hall]].
  cbn [broken snd with_client messages_sent client app] in Hl. rewrite <- Hl. vm_compute. reflexivity.
Defined.

End WireSample.
