(* ===== verification/HttpService.v ===== *)
(** * The HTTP services of the RPC servers ([rpc_sidecar/src/rpcs.rs], [json_rpc/src/lib.rs])

    What a client sees of an RPC server: the limit on all requests, the routes with
    and without cross-origin requests (CORS), compression, and the reply.  The HTTP
    requests and the filters of [warp] are arguments, collected in [Warp].  The server
    with its routes is put over the connection to the node ([RpcOverWire.v]). *)

From S2P Require Import Prelude Json JsonRpc NodeErrors NodeClient CachingClient BTreeMap Casper.
From S2P Require Import CasperSample RpcErrors NodeRequests RpcTraits NodeSample RpcCommon.
From S2P Require Import RpcAccount RpcChain RpcInfo RpcState RpcAuction RpcMethods RpcServer RpcOverWire.

(** ** The JSON of a response *)

(** An [i64] as a JSON number. *)
Definition json_i64 (n : Z) : Value := VNumber (if n <? 0 then NegInt n else PosInt n).

(** [json_rpc/src/error.rs:116-125], the derived [Serialize] of [Error]: absent data is [null]. *)
Definition Error_json (self : ErrorObject.Error) : Value :=
  VObject [("code", json_i64 (ErrorObject.code self)); ("message", VString (ErrorObject.message self));
           ("data", default VNull (ErrorObject.data self))].

(** [json_rpc/src/response.rs:13-36], the derived [Serialize] of [Response], which has no tag. *)
Definition Response_json (self : Response) : Value :=
  match self with
  | Success jsonrpc id result => VObject [("jsonrpc", VString jsonrpc); ("id", id); ("result", result)]
  | Failure jsonrpc id error => VObject [("jsonrpc", VString jsonrpc); ("id", id); ("error", Error_json error)]
  end.

(** ** The routes *)

(** What [warp::cors] is told: the origins, or any of them, the headers and the
    methods that are allowed. *)
Record Cors := mkCors {
  allow_origins : option (list string);
  allow_headers : list string;
  allow_methods : list string;
}.

(** What [warp::cors] decides of a request before the route: to answer a preflight
    request itself, to add headers to the reply of the route, that the request is
    not a cross-origin one, or to reject it. *)
Inductive Validated :=
| Preflight (reply : Reply)
| Simple (add_headers : Reply -> Reply)
| NotCors
| Forbidden (text : string).

(** HTTP requests, the filters of [warp] applied to them and its reply wrappers,
    and the parser and the texts of [serde_json]. *)
Class Warp := {
  HttpRequest : Type;
  body_bytes : HttpRequest -> list Byte.byte;
  path_filter : string -> HttpRequest -> result Rejection unit;
  end_filter : HttpRequest -> result Rejection unit;
  post_filter : HttpRequest -> result Rejection unit;
  exact_ignore_case : string -> string -> HttpRequest -> result Rejection unit;
  content_length_limit : Z -> HttpRequest -> result Rejection unit;
  check_request : Cors -> HttpRequest -> Validated;
  header_exact : string -> string -> HttpRequest -> result Rejection unit;
  gzip : Reply -> Reply;
  debug : Rejection -> string;
  from_slice : list Byte.byte -> result string Object;
  display : Value -> string;
}.

(** A route: the reply or a rejection. *)
Abbreviation Routes World := (HttpRequest -> World -> result Rejection Reply * World).

Section Routes.
Context `{Warp} `{JsonMap} {World : Type} (now : World -> Z).

(** The route of the library over these filters: every rejection is turned into a
    reply; its metrics are left out. *)
Definition plain_route (path : string) (max_body_bytes : Z) (handlers : @RequestHandlers World)
    (allow_unknown_fields : bool) : Routes World := fun r w =>
  let '(reply, w, _) :=
    JsonRpc.Server.route now display from_slice debug Response_json body_bytes path_filter end_filter
      post_filter exact_ignore_case content_length_limit path max_body_bytes handlers allow_unknown_fields r w in
  (Ok reply, w).

(** [json_rpc/src/lib.rs:217-226], the argument of [with] in [route_with_cors]. *)
Definition cors (cors_header : CorsOrigin) : Cors :=
  match cors_header with
  | Any => mkCors None ["content-type"] ["POST"]
  | Specified origin => mkCors (Some [origin]) ["content-type"] ["POST"]
  end.

(** [json_rpc/src/lib.rs:207-228], [route_with_cors]: the layer is around the
    recovery from rejections, so that its own are not recovered from. *)
Definition route_with_cors (path : string) (max_body_bytes : Z) (handlers : @RequestHandlers World)
    (allow_unknown_fields : bool) (cors_header : CorsOrigin) : Routes World := fun r w =>
  let inner := plain_route path max_body_bytes handlers allow_unknown_fields in
  match check_request (cors cors_header) r with
  | Preflight reply => (Ok reply, w)
  | Simple add_headers => let (reply, w) := inner r w in (add_headers <$> reply, w)
  | NotCors => inner r w
  | Forbidden text => (Err [CWarp CorsForbidden text], w)
  end.

End Routes.

(** ** The service *)

(** The rejections the service knows: its own, and those of the routes. *)
Inductive ServiceRejection :=
| TooManyRequests (wait_ns : Z)
| RouteRejection (r : Rejection).

(** A reply with the value of its [Retry-After] header. *)
Record ServiceReply := mkServiceReply {
  service_reply : Reply;
  retry_after : option string;
}.

(** [rpc_sidecar/src/rpcs.rs:304-320], [handle_rejection]: [as_secs] drops the
    fraction of the wait. *)
Definition service_handle_rejection (error : ServiceRejection) : result ServiceRejection ServiceReply :=
  match error with
  | TooManyRequests wait_ns =>
      Ok (mkServiceReply (mkReply 429 (VObject [("message", VString "Too many requests")]))
            (Some (pretty (wait_ns / 1000000000 + 1))))
  | RouteRejection _ => Err error
  end.

Section Service.
Context `{Warp} `{JsonMap} {World : Type} (now : World -> Z).
(** The limiter for a number of requests per second: how long to wait, if the
    request is over the limit. *)
Context (check : Z -> World -> option Z * World).

(** [rpc_sidecar/src/rpcs.rs:322-368], [run_service]: the answer to one request.
    When the routes behind the header reject, those without it are tried. *)
Definition run_service (service_routes : Routes World) (qps_limit : Z) (r : HttpRequest) (w : World)
    : result ServiceRejection ServiceReply * World :=
  let service_routes_gzip : Routes World := fun r w =>
    match header_exact "accept-encoding" "gzip" r with
    | Ok _ => let (reply, w) := service_routes r w in (gzip <$> reply, w)
    | Err rejection => (Err rejection, w)
    end in
  let (negative, w) := check qps_limit w in
  match negative with
  | Some wait_time => (service_handle_rejection (TooManyRequests wait_time), w)
  | None =>
      let (zipped, w) := service_routes_gzip r w in
      match zipped with
      | Ok reply => (Ok (mkServiceReply reply None), w)
      | Err rejection =>
          let (plain, w) := service_routes r w in
          match plain with
          | Ok reply => (Ok (mkServiceReply reply None), w)
          | Err rejection' => (service_handle_rejection (RouteRejection (rejection ++ rejection')), w)
          end
      end
  end.

(** [rpc_sidecar/src/rpcs.rs:372-390], [run_with_cors]. *)
Definition run_with_cors (handlers : @RequestHandlers World) (qps_limit max_body_bytes : Z) (api_path : string)
    (cors_header : CorsOrigin) : HttpRequest -> World -> result ServiceRejection ServiceReply * World :=
  let service_routes :=
    route_with_cors now api_path max_body_bytes handlers ALLOW_UNKNOWN_FIELDS_IN_JSON_RPC_REQUEST cors_header in
  run_service service_routes qps_limit.

(** [rpc_sidecar/src/rpcs.rs:393-408], [run]. *)
Definition run_without_cors (handlers : @RequestHandlers World) (qps_limit max_body_bytes : Z) (api_path : string)
    : HttpRequest -> World -> result ServiceRejection ServiceReply * World :=
  let service_routes :=
    plain_route now api_path max_body_bytes handlers ALLOW_UNKNOWN_FIELDS_IN_JSON_RPC_REQUEST in
  run_service service_routes qps_limit.

(** [rpc_sidecar/src/http_server.rs:82-121], the end of [run]. *)
Definition serve_http (service : Service (World := World))
    : HttpRequest -> World -> result ServiceRejection ServiceReply * World :=
  match srv_cors service with
  | None =>
      run_without_cors (srv_handlers service) (srv_qps_limit service) (srv_max_body_bytes service) (srv_path service)
  | Some cors_header =>
      run_with_cors (srv_handlers service) (srv_qps_limit service) (srv_max_body_bytes service) (srv_path service)
        cors_header
  end.

End Service.

(** ** The servers from their configuration *)

Section Configured.
Context `{CasperOps} `{BP : BinaryPort} `{BinaryPortCodes} `{!PortPayloads, !CasperJson} `{!AuctionTypes}.
Context `{!ParamsJson, !Serialize Bid, !Serialize BidKind}.
Context (into_bid_kind : StoredValue -> option BidKind) (discover speculative_discover : result string Value).
Context {World : Type} (C : NodeClientT World) (direct : Quota -> World -> option string * World).

(** [rpc_sidecar/src/lib.rs:114-127], [run_rpc]. *)
Definition run_rpc (config : RpcConfig) : Service (World := World) :=
  run_rpc_server into_bid_kind discover C direct (rc_ip_address config) (rc_port config) (rc_default_limit config)
    (default ∅ (rc_limits config)) (rc_qps_limit config) (rc_max_body_bytes config) (rc_cors_origin config).

(** [rpc_sidecar/src/lib.rs:129-145], [run_speculative_exec]. *)
Definition run_speculative_exec (config : SpeculativeExecConfig) : Service (World := World) :=
  run_speculative_exec_server speculative_discover C direct (sc_ip_address config) (sc_port config)
    (sc_default_limit config) (default ∅ (sc_limits config)) (sc_qps_limit config) (sc_max_body_bytes config)
    (sc_cors_origin config).

End Configured.

(** ** Rejected cross-origin requests *)

Section Rejected.
Context `{Warp} `{JsonMap} {World : Type} (now : World -> Z) (check : Z -> World -> option Z * World).

(** A cross-origin request that is not allowed, within the limit on requests, is
    neither handled nor recovered from: the rejection is left to [warp]. *)
Lemma forbidden_unrecovered (service : Service (World := World)) (origin : CorsOrigin) (text : string)
    (r : HttpRequest) (w w' : World) :
  srv_cors service = Some origin -> check_request (cors origin) r = Forbidden text ->
  check (srv_qps_limit service) w = (None, w') ->
  exists causes, serve_http now check service r w = (Err (RouteRejection causes), w') /\
    find_warp CorsForbidden causes <> None.
Proof.
  intros Hc Hf Hl. unfold serve_http. rewrite Hc. unfold run_with_cors, run_service, route_with_cors.
  rewrite Hl, Hf. destruct (header_exact _ _ r) as [[]|rejection]; simpl; (eexists; split; [reflexivity|]).
  - done.
  - induction rejection as [|[| |] rejection IH]; simpl; try done. by case_decide.
Qed.

End Rejected.

(** ** The servers over a client *)

Section Agreement.
Context `{Warp} `{JsonMap} {W : Type} (now : W -> Z) (ready : W -> Prop).

(** Two routes, one in a world and one without it, give a request the same
    outcome; after a rejection the world is as before. *)
Definition routes_agree (routes : Routes W) (routes' : Routes unit) (r : HttpRequest) (w : W) : Prop :=
  (routes r w).1 = (routes' r tt).1 /\ ready (routes r w).2 /\
  (is_ok (routes r w).1 = false -> (routes r w).2 = w).

Lemma plain_route_agree (hs : @RequestHandlers W) (hs' : @RequestHandlers unit) path max allow r w :
  ready w -> (forall req size, same_answer ready now hs hs' req size w) ->
  routes_agree (plain_route now path max hs allow) (plain_route (fun _ => 0) path max hs' allow) r w.
Proof.
  intros Hw Hsame. unfold routes_agree, plain_route, JsonRpc.Server.route.
  destruct (base_filter _ _ _ _ _ _ _ _); [|by split_and!].
  unfold main_filter, handle_body. destruct (from_slice (body_bytes r)) as [o|]; [|by split_and!].
  destruct (Request_new _ _ _) as [req|[]]; [|by split_and!..].
  specialize (Hsame req (Z.of_nat (length (body_bytes r)))). unfold same_answer in Hsame.
  destruct (JsonRpc.Server.handle_request now _ _ _ _) as [[response w'] ms],
    (JsonRpc.Server.handle_request _ hs' _ _ _) as [[response' []] ms'].
  destruct Hsame as [-> Hw']. by split_and!.
Qed.

Lemma route_with_cors_agree (hs : @RequestHandlers W) (hs' : @RequestHandlers unit) path max allow origin r w :
  ready w -> (forall req size, same_answer ready now hs hs' req size w) ->
  routes_agree (route_with_cors now path max hs allow origin) (route_with_cors (fun _ => 0) path max hs' allow origin) r w.
Proof.
  intros Hw Hsame. pose proof (plain_route_agree hs hs' path max allow r w Hw Hsame) as Hplain.
  unfold routes_agree, route_with_cors in *.
  destruct (check_request _ r); [by split_and!| |done|by split_and!].
  destruct (plain_route now _ _ _ _ r w) as [reply w'], (plain_route _ _ _ _ _ r tt) as [reply' []].
  cbn [fst snd] in *. destruct Hplain as (-> & Hw' & Hrej). split_and!; [done|done|]. by destruct reply'.
Qed.

Context (check : Z -> W -> option Z * W).

(** The verdict of the limiter, without the world. *)
Definition verdict (w : W) (qps_limit : Z) (_ : unit) : option Z * unit := ((check qps_limit w).1, tt).

(** Two services, one in a world and one without it, give a request the same reply,
    after which the world is ready again. *)
Definition same_reply (service : Service (World := W)) (service' : Service (World := unit)) (r : HttpRequest) (w : W)
    : Prop :=
  (serve_http now check service r w).1 = (serve_http (fun _ => 0) (verdict w) service' r tt).1 /\
  ready (serve_http now check service r w).2.

Lemma run_service_agree (routes : Routes W) (routes' : Routes unit) qps r w :
  ready (check qps w).2 -> routes_agree routes routes' r (check qps w).2 ->
  (run_service check routes qps r w).1 = (run_service (verdict w) routes' qps r tt).1 /\
  ready (run_service check routes qps r w).2.
Proof.
  unfold run_service, verdict. destruct (check qps w) as [[wait|] w1]; cbn [fst snd]; [done|].
  unfold routes_agree. intros Hw1 Hr.
  destruct (routes r w1) as [reply w2] eqn:Hroutes, (routes' r tt) as [reply' []] eqn:Hroutes'.
  cbn [fst snd] in Hr. destruct Hr as (-> & Hw2 & Hrej).
  destruct (header_exact _ _ r); [|rewrite Hroutes, Hroutes'; by destruct reply'].
  destruct reply' as [reply'|rejection]; simpl; [done|].
  rewrite (Hrej eq_refl), Hroutes, Hroutes'. by rewrite (Hrej eq_refl).
Qed.

Lemma serve_http_agree (service : Service (World := W)) (service' : Service (World := unit)) r w :
  srv_cors service = srv_cors service' -> srv_qps_limit service = srv_qps_limit service' ->
  srv_max_body_bytes service = srv_max_body_bytes service' -> srv_path service = srv_path service' ->
  let w1 := (check (srv_qps_limit service) w).2 in ready w1 ->
  (forall req size, same_answer ready now (srv_handlers service) (srv_handlers service') req size w1) ->
  same_reply service service' r w.
Proof.
  intros Hc Hq Hm Hp w1 Hw1 Hsame. unfold same_reply, serve_http. rewrite <- Hc, <- Hq, <- Hm, <- Hp.
  destruct (srv_cors service) as [origin|]; (apply run_service_agree; [done|]);
    [by apply route_with_cors_agree|by apply plain_route_agree].
Qed.

End Agreement.

(** ** The servers over the connection to the node *)

Section HttpOverWire.
Context `{CasperOps} `{BP : BinaryPort} `{BinaryPortCodes} `{!PortPayloads, !CasperJson} `{!AuctionTypes}.
Context `{!ParamsJson, !Serialize Bid, !Serialize BidKind} `{P : Peer} `{L : !BinaryPortLaws}.
Context (into_bid_kind : StoredValue -> option BidKind) (discover speculative_discover : result string Value).
Context `{WarpF : Warp} `{JM : JsonMap}.
Context (answers : Request -> result ClientError BinaryResponseAndRequest).

(** Both servers, however they are configured, reply to every HTTP request as the
    servers do that evaluate with [answers]. *)
Definition replies_agree {W} (C : NodeClientT W) (ready : W -> Prop) (direct : Quota -> W -> option string * W)
    (check : Z -> W -> option Z * W) (now : W -> Z) (w : W) : Prop :=
  forall r : HttpRequest,
  (forall config, same_reply now ready check (run_rpc into_bid_kind discover C direct config)
     (run_rpc into_bid_kind discover (answering answers) (verdicts direct (check (rc_qps_limit config) w).2) config) r w) /\
  (forall config, same_reply now ready check (run_speculative_exec speculative_discover C direct config)
     (run_speculative_exec speculative_discover (answering answers)
        (verdicts direct (check (sc_qps_limit config) w).2) config) r w).

Lemma servers_replies {W} (C : NodeClientT W) (ready : W -> Prop) direct (check : Z -> W -> option Z * W) now (w : W) :
  (forall qps, ready (check qps w).2) ->
  (forall qps, servers_agree into_bid_kind discover speculative_discover C ready direct now answers (check qps w).2) ->
  replies_agree C ready direct check now w.
Proof.
  intros Hw Hs r. split; intros config; (apply serve_http_agree; [reflexivity..|apply Hw|]); intros req size.
  - exact (proj1 (Hs (rc_qps_limit config) (rc_ip_address config) (rc_port config) (rc_qps_limit config)
      (rc_max_body_bytes config) (rc_cors_origin config) (rc_default_limit config) (default ∅ (rc_limits config)) req size)).
  - exact (proj2 (Hs (sc_qps_limit config) (sc_ip_address config) (sc_port config) (sc_qps_limit config)
      (sc_max_body_bytes config) (sc_cors_origin config) (sc_default_limit config) (default ∅ (sc_limits config)) req size)).
Qed.

(** C4. An RPC call from the HTTP request to the node and back: while the node
    answers, either server, started from any configuration, replies to every HTTP
    request - its status, its body and its Retry-After header, or the rejection left
    to the HTTP library - exactly as if the method it names were evaluated with the
    responses the node has for each of its requests: the identifiers, the frames, the
    choice of the response that echoes a request and the wrap-around of the identifiers
    never show in a reply.  After every request, refused, malformed, throttled or
    answered, the client is again ready for the next one.  The same holds with the cache
    for blocks around the client, while the cached block is the one the node would
    return.  Assumed: requests can be encoded, the node answers each of them at once,
    the client's lock is acquired in time, and no rate limiter touches the client. *)
Theorem rpc_over_http {E} (command : Request -> Command) (serve : Request -> BinaryResponse) (up : peer -> Prop)
    (surroundings : E -> Surroundings * E)
    (returns : forall e client req, is_Some (send_request (surroundings e).1 client (command req))) :
  serves_requests command serve up -> (forall req, encodable (command req)) ->
  (forall e, lock_acquired (surroundings e).1 = true) -> answers_of serve answers ->
  (forall direct check now w,
     (forall q w, (direct q w).2.2 = w.2) -> (forall qps w, (check qps w).2.2 = w.2) -> connected up w ->
     replies_agree (framed command surroundings returns) (connected up) direct check now w) /\
  (forall in_time direct check now w,
     (forall q w, (direct q w).2.1 = w.1 /\ (direct q w).2.2.2 = w.2.2) ->
     (forall qps w, (check qps w).2.1 = w.1 /\ (check qps w).2.2.2 = w.2.2) ->
     coherent serve w.1 -> connected up w.2 ->
     replies_agree (caching (framed command surroundings returns) in_time)
       (fun w => coherent serve w.1 /\ connected up w.2) direct check now w).
Proof using L.
  intros Hserves Hcommand Hlock Hans.
  destruct (rpc_over_wire into_bid_kind discover speculative_discover command serve up surroundings returns answers
    Hserves Hcommand Hlock Hans) as [Hframed Hcaching]. split.
  - intros direct check now w Hd Hc Hw.
    assert (forall qps, connected up (check qps w).2) as Hready by (intros qps; unfold connected; by rewrite Hc).
    apply servers_replies; [done|]. intros qps. by apply Hframed.
  - intros in_time direct check now w Hd Hc Hcoh Hw.
    assert (forall qps, coherent serve (check qps w).2.1 /\ connected up (check qps w).2.2) as Hready.
    { intros qps. unfold connected. destruct (Hc qps w) as [-> ->]. done. }
    apply servers_replies; [done|]. intros qps. apply Hcaching; [done|apply Hready..].
Qed.

End HttpOverWire.

(** ** A concrete request *)

Module HttpSample.
Import SampleTypes WireSample.

(** Requests are their bodies, and those of at least one byte ask for the peers. *)
#[export] Instance warp : Warp := {|
  HttpRequest := list Byte.byte;
  body_bytes r := r;
  path_filter _ _ := Ok tt;
  end_filter _ := Ok tt;
  post_filter _ := Ok tt;
  exact_ignore_case _ _ _ := Ok tt;
  content_length_limit max r := demo_limit max r;
  check_request cors _ := if allow_origins cors then NotCors else Simple (fun reply => reply);
  header_exact _ _ _ := Err [CWarp MissingHeader "accept-encoding"];
  gzip reply := reply;
  debug _ := EmptyString;
  from_slice b :=
    match b with
    | [] => Err "EOF while parsing a value"
    | _ => Ok [("jsonrpc", VString "2.0"); ("id", VNumber (PosInt 1)); ("method", VString "info_get_peers")]
    end;
  display _ := EmptyString;
|}.

Definition peers_request : @HttpRequest warp := [Byte.x7b].

#[local] Existing Instances SampleNode.codes SampleNode.payloads SampleNode.json MethodWitnesses.auction
  ServerWitnesses.params_json.
#[local] Instance bids : Serialize Bid := SampleNode.json_Z.
#[local] Instance bid_kinds : Serialize BidKind := fun _ => Ok VNull.

(** A server that allows every origin. *)
Definition config : RpcConfig := mkRpcConfig true "0.0.0.0" 7777 100 2621440 "*" 1 1 None true.

Definition unlimited {W} (qps_limit : Z) (w : W) : option Z * W := (None, w).

(** The server over this connection, and the one that evaluates. *)
Definition wire_server : Service :=
  run_rpc (fun _ => None) (Ok VNull) (caching (framed command surroundings returns) (fun _ => true)) no_limit config.

Definition reference_server : Service :=
  run_rpc (fun _ => None) (Ok VNull) (answering answers) (verdicts no_limit world) config.

Definition peers_reply : ServiceReply := mkServiceReply (mkReply 200 (Response_json peers_answer)) None.

Lemma reference_reply :
  (serve_http (fun _ => 0) (verdict unlimited world) reference_server peers_request tt).1 = Ok peers_reply.
Proof. vm_compute. reflexivity. Qed.

Lemma rpc_over_http_witness :
  exists w', serve_http (fun _ => 0) unlimited wire_server peers_request world = (Ok peers_reply, w') /\
    connected (fun _ => True) w'.2.
Proof.
  destruct (rpc_over_http (WarpF := warp) (JM := swap_remove_map) (fun _ => None) (Ok VNull) (Ok VNull) answers command serve (fun _ => True)
    surroundings returns serves commands_encodable (fun _ => eq_refl)
    (fun req => ex_intro _ _ (conj eq_refl eq_refl))) as [_ Hcaching].
  destruct (Hcaching (fun _ => true) no_limit unlimited (fun _ => 0) world (fun _ _ => conj eq_refl eq_refl)
    (fun _ _ => conj eq_refl eq_refl)) with (r := peers_request) as [Hmain _].
  { intros b Hb. discriminate. }
  { split; [unfold is_u16, U16_MAX; simpl; lia|]. split; [reflexivity|exact I]. }
  destruct (Hmain config) as [Hreply [_ Hw]]. clear Hcaching Hmain. fold wire_server in Hreply, Hw.
  change (verdicts no_limit (unlimited (rc_qps_limit config) world).2) with (verdicts no_limit world) in Hreply.
  fold reference_server in Hreply. rewrite reference_reply in Hreply.
  destruct (serve_http _ _ wire_server _ world) as [reply w']. exists w'. cbn [fst] in Hreply. rewrite Hreply.
  split; [reflexivity|exact Hw].
Defined.

End HttpSample.
