(* ===== verification/ConnectionTasks.v ===== *)
(** * Synchronised connections ([listener/src/connection_tasks.rs])

    [ConnectionTasks] makes the connections of a listener start all or none: each
    task registers the success or failure of its connection and waits for the
    overall result.  The tasks are interleaved at their atomic operations; the
    [Notify] of tokio is modelled with its permit and its queue of waiting tasks. *)

From S2P Require Import Prelude.

(** Where a connection task is: connecting; in [register_success] after the
    counter was incremented to [successes]; in [register_failure] after the flag
    was set; in an iteration of [wait], before the first or the second load, or at
    [notified().await] ([again] tells a later iteration from the first); waiting
    there; woken and about to notify the next one; returned from [wait]; or
    returned after a failure of its own. *)
Inductive Task : Set :=
| Connecting
| Registered (successes : nat)
| Failing
| CheckFailure (again : bool)
| CheckSuccesses (again : bool)
| Awaiting
| Blocked
| Woken
| Finished (connected : bool)
| Failed.

(** [listener/src/connection_tasks.rs:12-22], [ConnectionTasks], with the state
    of the [Notify] and of the tasks that share it. *)
Record ConnectionTasks := mkTasks {
  total : nat;
  successes : nat;
  failure : bool;
  permit : bool;
  waiters : list nat;
  tasks : list Task;
}.

(** [listener/src/connection_tasks.rs:27-34], [ConnectionTasks::new], for as many
    tasks as it expects. *)
Definition ConnectionTasks_new (total : nat) : ConnectionTasks :=
  mkTasks total 0 false false [] (replicate total Connecting).

Definition set_task (i : nat) (t : Task) (st : ConnectionTasks) : ConnectionTasks :=
  mkTasks (total st) (successes st) (failure st) (permit st) (waiters st) (<[i := t]> (tasks st)).

(** [Notify::notify_one]: wakes the task that waits longest, or leaves a permit. *)
Definition notify_one (st : ConnectionTasks) : ConnectionTasks :=
  match waiters st with
  | [] => mkTasks (total st) (successes st) (failure st) true [] (tasks st)
  | w :: ws =>
      mkTasks (total st) (successes st) (failure st) (permit st) ws (<[w := Woken]> (tasks st))
  end.

(** [listener/src/connection_tasks.rs:38-43], [ConnectionTasks::register_success],
    the part after the increment. *)
Definition register_success_notify (incremented : nat) (st : ConnectionTasks) : ConnectionTasks :=
  if (total st <=? incremented)%nat || failure st then notify_one st else st.

(** [listener/src/connection_tasks.rs:36-69], [register_success],
    [register_failure] and [wait]: the next atomic operation of the [i]-th task,
    where [connected] is the end of its attempt to connect. *)
Definition task_step (i : nat) (connected : bool) (st : ConnectionTasks) : option ConnectionTasks :=
  task ← tasks st !! i;
  match task with
  | Connecting =>
      if connected
      then Some (set_task i (Registered (S (successes st)))
                   (mkTasks (total st) (S (successes st)) (failure st) (permit st) (waiters st) (tasks st)))
      else Some (set_task i Failing
                   (mkTasks (total st) (successes st) true (permit st) (waiters st) (tasks st)))
  | Registered incremented =>
      Some (register_success_notify incremented (set_task i (CheckFailure false) st))
  | Failing => Some (notify_one (set_task i Failed st))
  | CheckFailure again =>
      Some (set_task i (if failure st then Finished false else CheckSuccesses again) st)
  | CheckSuccesses again =>
      Some (set_task i (if (total st <=? successes st)%nat then Finished true else Awaiting) st)
  | Awaiting =>
      if permit st
      then Some (set_task i Woken
                   (mkTasks (total st) (successes st) (failure st) false (waiters st) (tasks st)))
      else Some (set_task i Blocked
                   (mkTasks (total st) (successes st) (failure st) false (waiters st ++ [i]) (tasks st)))
  | Woken => Some (notify_one (set_task i (CheckFailure true) st))
  | Blocked | Finished _ | Failed => None
  end.

(** One operation of some task. *)
Definition step (st st' : ConnectionTasks) : Prop :=
  exists i connected, task_step i connected st = Some st'.

(** ** The invariant *)

(** The tasks that have registered a success, and those that have registered a
    failure. *)
Definition succeeded (t : Task) : nat :=
  match t with Connecting | Failing | Failed => 0 | _ => 1 end.

Definition has_failed (t : Task) : bool :=
  match t with Failing | Failed => true | _ => false end.

Definition decided (st : ConnectionTasks) : Prop :=
  failure st = true \/ (total st <= successes st)%nat.

(** A task that is going to notify. *)
Definition will_notify (st : ConnectionTasks) (t : Task) : bool :=
  match t with
  | Failing | Woken => true
  | Registered n => (total st <=? n)%nat || failure st
  | _ => false
  end.

(** What holds of one task. *)
Definition task_ok (st : ConnectionTasks) (t : Task) : Prop :=
  match t with
  | Failing | Failed | Finished false => failure st = true
  | Finished true | CheckSuccesses true => (total st <= successes st)%nat
  | Woken | CheckFailure true => decided st
  | Registered n => (n <= successes st)%nat
  | _ => True
  end.

Record base_inv (st : ConnectionTasks) : Prop := {
  inv_total : length (tasks st) = total st;
  inv_successes : successes st = weight succeeded (tasks st);
  inv_failure : failure st = true <-> exists i t, tasks st !! i = Some t /\ has_failed t = true;
  inv_waiters : forall i, i ∈ waiters st <-> tasks st !! i = Some Blocked;
  inv_nodup : NoDup (waiters st);
  inv_permit : waiters st <> [] -> permit st = false;
  inv_permit_decided : permit st = true -> decided st;
  inv_tasks : forall i t, tasks st !! i = Some t -> task_ok st t;
}.

(** A notification is under way: there is a permit, or a task is going to notify. *)
Definition notifying (st : ConnectionTasks) : Prop :=
  permit st = true \/ exists i t, tasks st !! i = Some t /\ will_notify st t = true.

Definition tasks_inv (st : ConnectionTasks) : Prop := base_inv st /\ (decided st -> notifying st).

(** Decisions are final. *)
Definition extends (st st' : ConnectionTasks) : Prop :=
  total st' = total st /\ (successes st <= successes st')%nat /\ (failure st = true -> failure st' = true).

Lemma decided_extends (st st' : ConnectionTasks) : extends st st' -> decided st -> decided st'.
Proof. unfold extends, decided. intros (-> & Hs & Hf) [H|H]; [auto|right; lia]. Qed.

Lemma task_ok_extends (st st' : ConnectionTasks) (t : Task) :
  extends st st' -> task_ok st t -> task_ok st' t.
Proof.
  intros He. pose proof (decided_extends _ _ He) as Hd. destruct He as (Ht & Hs & Hf).
  destruct t as [| | |[]|[]| | | |[]|]; simpl; auto; rewrite ?Ht; lia.
Qed.

Lemma will_notify_extends (st st' : ConnectionTasks) (t : Task) :
  extends st st' -> will_notify st t = true -> will_notify st' t = true.
Proof.
  intros (Ht & Hs & Hf). destruct t; simpl; try done.
  rewrite Ht, !orb_true_iff. naive_solver.
Qed.

(** A task moves on, neither to nor from the queue. *)
Lemma base_inv_update (st : ConnectionTasks) (i : nat) (t t' : Task) (s' : nat) (f' p' : bool) :
  let st' := mkTasks (total st) s' f' p' (waiters st) (<[i := t']> (tasks st)) in
  base_inv st -> tasks st !! i = Some t -> t <> Blocked -> t' <> Blocked ->
  (s' + succeeded t = successes st + succeeded t')%nat -> (successes st <= s')%nat ->
  f' = failure st || has_failed t' -> (has_failed t = true -> has_failed t' = true) ->
  (p' = true -> permit st = true) -> task_ok st' t' -> base_inv st'.
Proof.
  intros st' Hinv Hi Ht Ht' Hs Hle Hf Hfm Hp Hok.
  assert (extends st st') as He.
  { split; [done|split; [done|]]. simpl. intros Hfail. by rewrite Hf, Hfail. }
  assert (i < length (tasks st))%nat as Hlt by (by eapply lookup_lt_Some).
  split; simpl.
  - rewrite length_insert. apply Hinv.
  - pose proof (weight_insert succeeded _ _ t' _ Hi). rewrite (inv_successes _ Hinv) in Hs. lia.
  - rewrite Hf, orb_true_iff, (inv_failure _ Hinv). split.
    + intros [(j & u & Hj & Hu)|Hu]; [|exists i, t'; by rewrite list_lookup_insert_eq].
      destruct (decide (i = j)) as [->|Hne].
      * exists j, t'. rewrite list_lookup_insert_eq by done. split; [done|]. apply Hfm. naive_solver.
      * exists j, u. by rewrite list_lookup_insert_ne.
    + intros (j & u & Hj & Hu). destruct (decide (i = j)) as [->|Hne].
      * rewrite list_lookup_insert_eq in Hj by done. naive_solver.
      * rewrite list_lookup_insert_ne in Hj by done. eauto.
  - intros j. rewrite (inv_waiters _ Hinv). destruct (decide (i = j)) as [->|Hne].
    + rewrite list_lookup_insert_eq by done. naive_solver.
    + by rewrite list_lookup_insert_ne.
  - apply Hinv.
  - intros Hw%(inv_permit _ Hinv). destruct p'; [|done]. naive_solver.
  - intros Hp'%Hp%(inv_permit_decided _ Hinv). by eapply decided_extends.
  - intros j u Hj. destruct (decide (i = j)) as [->|Hne].
    + rewrite list_lookup_insert_eq in Hj by done. naive_solver.
    + rewrite list_lookup_insert_ne in Hj by done.
      eapply task_ok_extends; [done|]. by eapply inv_tasks.
Qed.

(** A task joins the queue. *)
Lemma base_inv_block (st : ConnectionTasks) (i : nat) :
  base_inv st -> tasks st !! i = Some Awaiting ->
  base_inv (mkTasks (total st) (successes st) (failure st) false (waiters st ++ [i])
              (<[i := Blocked]> (tasks st))).
Proof.
  intros Hinv Hi. assert (i < length (tasks st))%nat as Hlt by (by eapply lookup_lt_Some).
  assert (i ∉ waiters st) as Hni by (rewrite (inv_waiters _ Hinv), Hi; done).
  split; simpl; try done.
  - rewrite length_insert. apply Hinv.
  - pose proof (weight_insert succeeded _ _ Blocked _ Hi) as Hw. simpl in Hw.
    rewrite (inv_successes _ Hinv). lia.
  - rewrite (inv_failure _ Hinv). split; intros (j & u & Hj & Hu); exists j, u; split; try done.
    + rewrite list_lookup_insert_ne; [done|]. intros ->. naive_solver.
    + destruct (decide (i = j)) as [->|Hne];
        [rewrite list_lookup_insert_eq in Hj by done; naive_solver|].
      by rewrite list_lookup_insert_ne in Hj.
  - intros j. rewrite elem_of_app, list_elem_of_singleton, (inv_waiters _ Hinv).
    destruct (decide (i = j)) as [->|Hne]; [rewrite list_lookup_insert_eq by done; naive_solver|].
    rewrite list_lookup_insert_ne by done. naive_solver.
  - apply NoDup_app. split; [apply Hinv|]. split; [|apply NoDup_singleton].
    intros x Hx ->%list_elem_of_singleton. done.
  - intros j u Hj. destruct (decide (i = j)) as [->|Hne];
      [rewrite list_lookup_insert_eq in Hj by done; naive_solver|].
    rewrite list_lookup_insert_ne in Hj by done.
    eapply (task_ok_extends st); [done|]. by eapply inv_tasks.
Qed.

(** A notification reaches a waiting task, which passes it on, or stays. *)
Lemma notify_one_inv (st : ConnectionTasks) : base_inv st -> decided st -> tasks_inv (notify_one st).
Proof.
  intros Hinv Hd. unfold notify_one. destruct (waiters st) as [|w ws] eqn:Hws.
  { split; [|intros _; by left]. destruct Hinv. split; simpl; try done; rewrite <- ?Hws; done. }
  assert (tasks st !! w = Some Blocked) as Hw by (apply (inv_waiters _ Hinv); rewrite Hws; left).
  assert (w < length (tasks st))%nat as Hlt by (by eapply lookup_lt_Some).
  pose proof (inv_nodup _ Hinv) as Hnd. rewrite Hws in Hnd. apply NoDup_cons in Hnd as [Hnw Hnd].
  assert (permit st = false) as Hp by (apply (inv_permit _ Hinv); by rewrite Hws).
  split; [|intros _; right; exists w, Woken; simpl; by rewrite list_lookup_insert_eq].
  split; simpl; try done.
  - rewrite length_insert. apply Hinv.
  - pose proof (weight_insert succeeded _ _ Woken _ Hw) as Hwt. simpl in Hwt.
    rewrite (inv_successes _ Hinv). lia.
  - rewrite (inv_failure _ Hinv). split; intros (j & u & Hj & Hu); exists j, u; split; try done.
    + rewrite list_lookup_insert_ne; [done|]. intros ->. naive_solver.
    + destruct (decide (w = j)) as [->|Hne];
        [rewrite list_lookup_insert_eq in Hj by done; naive_solver|].
      by rewrite list_lookup_insert_ne in Hj.
  - intros j. destruct (decide (w = j)) as [->|Hne]; [rewrite list_lookup_insert_eq by done; naive_solver|].
    rewrite list_lookup_insert_ne, <- (inv_waiters _ Hinv), Hws, elem_of_cons by done. naive_solver.
  - intros j u Hj. destruct (decide (w = j)) as [->|Hne];
      [rewrite list_lookup_insert_eq in Hj by done; by simplify_eq|].
    rewrite list_lookup_insert_ne in Hj by done.
    eapply (task_ok_extends st); [done|]. by eapply inv_tasks.
Qed.

(** A notification under way stays so when a task moves that was not to notify. *)
Lemma notifying_other (st st' : ConnectionTasks) (i : nat) (t t' : Task) :
  extends st st' -> tasks st !! i = Some t -> will_notify st t = false ->
  tasks st' = <[i := t']> (tasks st) -> permit st' = permit st -> notifying st -> notifying st'.
Proof.
  intros He Hi Ht Hts Hp [H|(j & u & Hj & Hu)]; [left; congruence|].
  right. exists j, u. rewrite Hts, list_lookup_insert_ne by (intros ->; simplify_eq; congruence).
  split; [done|]. by eapply will_notify_extends.
Qed.

Lemma notifying_self (st : ConnectionTasks) (i : nat) (t : Task) (s : nat) (f p : bool) :
  let st' := mkTasks (total st) s f p (waiters st) (<[i := t]> (tasks st)) in
  (i < length (tasks st))%nat -> will_notify st' t = true -> notifying st'.
Proof. intros st' Hi Ht. right. exists i, t. simpl. by rewrite list_lookup_insert_eq. Qed.

(** A task that was not to notify moves on without changing the counters. *)
Lemma tasks_inv_move (st : ConnectionTasks) (i : nat) (t t' : Task) :
  tasks_inv st -> tasks st !! i = Some t -> will_notify st t = false ->
  t <> Blocked -> t' <> Blocked -> succeeded t = succeeded t' ->
  has_failed t = false -> has_failed t' = false -> task_ok st t' -> tasks_inv (set_task i t' st).
Proof.
  intros [Hinv Hn] Hi Hw Ht Ht' Hs Hf Hf' Hok. split.
  - eapply base_inv_update; try done; rewrite ?Hs, ?Hf', ?orb_false_r; congruence || done.
  - intros Hd. eapply (notifying_other st); [done|done|done|done|done|by apply Hn].
Qed.

(** A task that was to notify moves on and notifies. *)
Lemma tasks_inv_notify (st : ConnectionTasks) (i : nat) (t t' : Task) :
  base_inv st -> tasks st !! i = Some t -> decided st ->
  t <> Blocked -> t' <> Blocked -> succeeded t = succeeded t' ->
  has_failed t = has_failed t' -> task_ok st t' -> tasks_inv (notify_one (set_task i t' st)).
Proof.
  intros Hinv Hi Hd Ht Ht' Hs Hf Hok. apply notify_one_inv; [|exact Hd].
  eapply base_inv_update; try done; [by rewrite Hs| |congruence].
  destruct (has_failed t') eqn:Hft; [|by rewrite orb_false_r].
  rewrite (proj2 (inv_failure _ Hinv)); [done|]. eauto.
Qed.

Lemma task_step_inv (st st' : ConnectionTasks) : step st st' -> tasks_inv st -> tasks_inv st'.
Proof.
  intros (i & connected & Hstep) [Hinv Hn]. unfold task_step in Hstep.
  destruct (tasks st !! i) as [t|] eqn:Hi; [|done]. simpl in Hstep.
  assert (i < length (tasks st))%nat as Hlt by (by eapply lookup_lt_Some).
  pose proof (inv_tasks _ Hinv _ _ Hi) as Hok.
  destruct t as [|n| |again|again| | | |b|]; simplify_eq.
  - destruct connected; simplify_eq; split.
    + apply (base_inv_update st i Connecting); simpl; rewrite ?orb_false_r; done || lia.
    + intros [Hd|Hd]; simpl in Hd; apply notifying_self; simpl; try done;
        apply orb_true_iff; [by right|left; by apply Nat.leb_le].
    + apply (base_inv_update st i Connecting); simpl; rewrite ?orb_true_r; done || lia.
    + intros _. by apply notifying_self.
  - unfold register_success_notify. simpl.
    destruct ((total st <=? n)%nat || failure st) eqn:Hc.
    + eapply (tasks_inv_notify st i (Registered n)); try done. simpl in Hok.
      apply orb_true_iff in Hc as [Hc|Hc]; [right; apply Nat.leb_le in Hc; lia|by left].
    + by eapply (tasks_inv_move st i (Registered n)).
  - eapply (tasks_inv_notify st i Failing); try done. by left.
  - destruct (failure st) eqn:Hfl; eapply (tasks_inv_move st i (CheckFailure again)); try done.
    destruct again; [|done]. destruct Hok as [Hok|Hok]; [congruence|done].
  - destruct (Nat.leb_spec (total st) (successes st));
      eapply (tasks_inv_move st i (CheckSuccesses again)); done.
  - destruct (permit st) eqn:Hp; simplify_eq; split.
    + apply (base_inv_update st i Awaiting); simpl; rewrite ?orb_false_r; try done.
      by apply (inv_permit_decided _ Hinv).
    + intros _. by apply notifying_self.
    + by apply (base_inv_block st i Hinv).
    + intros Hd. eapply (notifying_other st); [done|done|done|done| |by apply Hn]. done.
  - eapply (tasks_inv_notify st i Woken); done.
Qed.

Lemma new_inv (n : nat) : (0 < n)%nat -> tasks_inv (ConnectionTasks_new n).
Proof.
  intros Hpos.
  assert (weight succeeded (replicate n Connecting) = 0%nat) as Hw.
  { rewrite weight_replicate. simpl. lia. }
  assert (forall i t, replicate n Connecting !! i = Some t -> t = Connecting) as Hall.
  { intros i t Ht%lookup_replicate. naive_solver. }
  split; [|unfold decided; simpl; lia || naive_solver lia]. split; simpl; try done.
  - apply length_replicate.
  - split; [done|]. intros (i & t & Ht%Hall & Hf). by subst.
  - intros i. split; [by intros ?%elem_of_nil|]. intros Ht%Hall. done.
  - apply NoDup_nil_2.
  - intros i t Ht%Hall. by subst.
Qed.

Lemma tasks_reachable_inv (n : nat) (st : ConnectionTasks) :
  (0 < n)%nat -> rtc step (ConnectionTasks_new n) st -> tasks_inv st.
Proof.
  intros Hn Hr. pose proof (new_inv n Hn) as H0. clear Hn.
  induction Hr as [|st1 st2 st3 H12 _ IH]; [done|]. apply IH. by eapply task_step_inv.
Qed.

(** ** All or nothing *)

Lemma succeeded_le (t : Task) : (succeeded t <= 1)%nat.
Proof. destruct t; simpl; lia. Qed.

(** When every task has succeeded there is no failure. *)
Lemma all_succeeded (st : ConnectionTasks) :
  base_inv st -> (total st <= successes st)%nat ->
  Forall (fun t => succeeded t = 1%nat) (tasks st) /\ failure st = false.
Proof.
  intros Hinv Hle. assert (Forall (fun t => succeeded t = 1%nat) (tasks st)) as Hall.
  { apply weight_full; [apply succeeded_le|]. rewrite (inv_total _ Hinv), <- (inv_successes _ Hinv). done. }
  split; [done|]. destruct (failure st) eqn:Hf; [|done].
  apply (inv_failure _ Hinv) in Hf as (i & t & Hi & Ht).
  pose proof (Forall_lookup_1 _ _ _ _ Hall Hi). by destruct t.
Qed.

Lemma notify_one_extends (st : ConnectionTasks) : extends st (notify_one st).
Proof. unfold notify_one. by destruct (waiters st). Qed.

Lemma step_extends (st st' : ConnectionTasks) : step st st' -> extends st st'.
Proof.
  intros (i & connected & Hstep). unfold task_step in Hstep.
  destruct (tasks st !! i) as [t|]; [|done]. simpl in Hstep.
  destruct t as [|m| |again|again| | | |b|]; simplify_eq; try done;
    try apply (notify_one_extends (set_task i _ st)).
  - destruct connected; simplify_eq; split; simpl; auto.
  - unfold register_success_notify. destruct (_ || _); [|done].
    apply (notify_one_extends (set_task i _ st)).
  - destruct (permit st); by simplify_eq.
Qed.

Lemma rtc_extends (st st' : ConnectionTasks) : rtc step st st' -> extends st st'.
Proof.
  induction 1 as [|st1 st2 st3 H12%step_extends _ IH]; [done|].
  destruct H12 as (? & ? & ?), IH as (? & ? & ?). split; [congruence|split; [lia|auto]].
Qed.

(** Connections start all or none: if the wait of one connection task ends
    with [true], then in this state and in all that follow every task has
    registered its success, none has failed or will, and no wait ends with
    [false]. *)
Theorem connections_agree (n i : nat) (st st' : ConnectionTasks) :
  (0 < n)%nat -> rtc step (ConnectionTasks_new n) st -> tasks st !! i = Some (Finished true) ->
  rtc step st st' ->
  Forall (fun t => succeeded t = 1%nat /\ t <> Finished false) (tasks st').
Proof.
  intros Hn Hr Hi Hr'.
  pose proof (tasks_reachable_inv n st Hn Hr) as [Hinv _].
  pose proof (tasks_reachable_inv n st' Hn ltac:(by etrans)) as [Hinv' _].
  pose proof (inv_tasks _ Hinv _ _ Hi) as Hle. simpl in Hle.
  pose proof (rtc_extends _ _ Hr') as (Ht & Hs & _).
  destruct (all_succeeded st' Hinv') as [Hall Hf]; [lia|].
  apply Forall_lookup_2. intros j t Hj. split; [by apply (Forall_lookup_1 _ _ _ _ Hall Hj)|].
  intros ->. pose proof (inv_tasks _ Hinv' _ _ Hj) as Hfl. simpl in Hfl. congruence.
Qed.

(** The operations a task has still to make, at most. *)
Definition rank (t : Task) : nat :=
  match t with
  | Connecting => 9
  | Registered _ => 8
  | Failing => 1
  | CheckFailure false => 7
  | CheckSuccesses false => 6
  | Awaiting => 5
  | Blocked => 4
  | Woken => 3
  | CheckFailure true => 2
  | CheckSuccesses true => 1
  | Finished _ | Failed => 0
  end.

Lemma set_task_rank (st : ConnectionTasks) (i : nat) (t t' : Task) :
  tasks st !! i = Some t -> (rank t' < rank t)%nat ->
  (weight rank (<[i := t']> (tasks st)) < weight rank (tasks st))%nat.
Proof. intros Hi Hlt. pose proof (weight_insert rank _ _ t' _ Hi). lia. Qed.

Lemma move_notify_rank (st : ConnectionTasks) (i : nat) (t t' : Task) :
  base_inv st -> tasks st !! i = Some t -> t <> Blocked -> t' <> Blocked ->
  (weight rank (tasks (notify_one (set_task i t' st))) <= weight rank (<[i := t']> (tasks st)))%nat.
Proof.
  intros Hinv Hi Ht Ht'. unfold notify_one. simpl. destruct (waiters st) as [|w ws] eqn:Hws; [done|]. simpl.
  assert (tasks st !! w = Some Blocked) as Hw by (apply (inv_waiters _ Hinv); rewrite Hws; left).
  assert (<[i := t']> (tasks st) !! w = Some Blocked) as Hw'.
  { rewrite list_lookup_insert_ne; [done|]. intros ->. congruence. }
  pose proof (weight_insert rank _ _ Woken _ Hw') as Hwt. simpl in Hwt. lia.
Qed.

Lemma register_rank (st : ConnectionTasks) (i m : nat) :
  base_inv st -> tasks st !! i = Some (Registered m) ->
  (weight rank (tasks (register_success_notify m (set_task i (CheckFailure false) st))) <=
   weight rank (<[i := CheckFailure false]> (tasks st)))%nat.
Proof.
  intros Hinv Hi. unfold register_success_notify. destruct (_ || _); [|done].
  by apply (move_notify_rank st i (Registered m)).
Qed.

(** Every operation brings a task closer to its end. *)
Lemma step_rank (st st' : ConnectionTasks) :
  tasks_inv st -> step st st' -> (weight rank (tasks st') < weight rank (tasks st))%nat.
Proof.
  intros Hinv Hstep. pose proof (task_step_inv _ _ Hstep Hinv) as Hinv'. destruct Hinv as [Hinv _].
  destruct Hstep as (i & connected & Hstep). unfold task_step in Hstep.
  destruct (tasks st !! i) as [t|] eqn:Hi; [|done]. simpl in Hstep.
  pose proof (inv_tasks _ Hinv _ _ Hi) as Hok. pose proof (set_task_rank st i t) as Hset.
  destruct t as [|m| |again|again| | | |b|]; simplify_eq.
  - destruct connected; simplify_eq; apply Hset; simpl; auto; lia.
  - eapply Nat.le_lt_trans; [apply (register_rank st i m Hinv Hi)|]. apply Hset; simpl; auto; lia.
  - eapply Nat.le_lt_trans; [apply (move_notify_rank st i Failing Failed Hinv Hi); done|].
    apply Hset; simpl; auto; lia.
  - apply Hset; [done|]. destruct (failure st), again; simpl; lia.
  - apply Hset; [done|]. destruct (Nat.leb_spec (total st) (successes st)), again; simpl in *; lia.
  - destruct (permit st); simplify_eq; apply Hset; simpl; auto; lia.
  - eapply Nat.le_lt_trans; [apply (move_notify_rank st i Woken (CheckFailure true) Hinv Hi); done|].
    apply Hset; simpl; auto; lia.
Qed.

Lemma run_bounded (n k : nat) (st : ConnectionTasks) :
  (0 < n)%nat -> nsteps step k (ConnectionTasks_new n) st -> (k <= 9 * n)%nat.
Proof.
  intros Hn Hr. pose proof (new_inv n Hn) as Hinv.
  assert (weight rank (tasks (ConnectionTasks_new n)) = 9 * n)%nat as <-.
  { simpl. rewrite weight_replicate. simpl. lia. }
  clear Hn. induction Hr as [|k st1 st2 st3 H12 _ IH]; [lia|].
  pose proof (step_rank _ _ Hinv H12). specialize (IH (task_step_inv _ _ H12 Hinv)). lia.
Qed.

(** Tasks that have all returned agree. *)
Lemma returned_result (st : ConnectionTasks) :
  base_inv st -> (forall i t, tasks st !! i = Some t -> t = Failed \/ exists b, t = Finished b) ->
  Forall (fun t => t = Finished true) (tasks st) \/
  (Failed ∈ tasks st /\ Forall (fun t => t = Failed \/ t = Finished false) (tasks st)).
Proof.
  intros Hinv Hret. destruct (failure st) eqn:Hf; [right|left].
  - split.
    + apply (inv_failure _ Hinv) in Hf as (i & t & Hi & Ht).
      apply list_elem_of_lookup. exists i. destruct (Hret i t Hi) as [->|[b ->]]; done.
    + apply Forall_lookup_2. intros i t Hi. destruct (Hret i t Hi) as [->|[[] ->]]; auto.
      pose proof (inv_tasks _ Hinv _ _ Hi) as Hle. simpl in Hle.
      apply (all_succeeded _ Hinv) in Hle as [_ Hf']. congruence.
  - apply Forall_lookup_2. intros i t Hi.
    pose proof (inv_tasks _ Hinv _ _ Hi) as Hok.
    destruct (Hret i t Hi) as [->|[[] ->]]; simpl in Hok; congruence || done.
Qed.

(** In a state without a next operation no task is left waiting. *)
Lemma stuck_result (st : ConnectionTasks) :
  tasks_inv st -> (forall st', ~ step st st') ->
  Forall (fun t => t = Finished true) (tasks st) \/
  (Failed ∈ tasks st /\ Forall (fun t => t = Failed \/ t = Finished false) (tasks st)).
Proof.
  intros [Hinv Hn] Hstuck.
  assert (forall i t, tasks st !! i = Some t -> t = Blocked \/ t = Failed \/ exists b, t = Finished b) as Hends.
  { intros i t Hi. destruct (task_step i true st) as [st'|] eqn:Hs; [exfalso; apply (Hstuck st'); by exists i, true|].
    unfold task_step in Hs. rewrite Hi in Hs. simpl in Hs. destruct t; try done; eauto.
    by destruct (permit st). }
  assert (decided st) as Hd.
  { destruct (failure st) eqn:Hf; [by left|]. right. rewrite (inv_successes _ Hinv), <- (inv_total _ Hinv).
    apply weight_all. apply Forall_lookup_2. intros i t Hi.
    destruct (Hends i t Hi) as [->|[->|[b ->]]]; try done.
    pose proof (inv_tasks _ Hinv _ _ Hi) as Hfl. simpl in Hfl. congruence. }
  assert (waiters st = []) as Hw.
  { destruct (waiters st) as [|w ws] eqn:Hws; [done|]. exfalso.
    destruct (Hn Hd) as [Hp|(i & t & Hi & Ht)].
    - rewrite (inv_permit _ Hinv) in Hp; [done|]. by rewrite Hws.
    - by destruct (Hends i t Hi) as [->|[->|[b ->]]]. }
  assert (forall i t, tasks st !! i = Some t -> t = Failed \/ exists b, t = Finished b) as Hret.
  { intros i t Hi. destruct (Hends i t Hi) as [->|?]; [|done].
    apply (inv_waiters _ Hinv) in Hi. rewrite Hw in Hi. by apply elem_of_nil in Hi. }
  by apply returned_result.
Qed.

(** C15. The waits end: however the operations of [n] connection tasks are
    interleaved there are at most [9 n] of them, no wake-up is lost, and when no
    operation is left every task has returned, either all with success, or all
    with a failure of which at least one is its own. *)
Theorem connections_decide (n k : nat) (st : ConnectionTasks) :
  (0 < n)%nat -> nsteps step k (ConnectionTasks_new n) st ->
  (k <= 9 * n)%nat /\
  ((forall st', ~ step st st') ->
   Forall (fun t => t = Finished true) (tasks st) \/
   (Failed ∈ tasks st /\ Forall (fun t => t = Failed \/ t = Finished false) (tasks st))).
Proof.
  intros Hn Hr. split; [by eapply run_bounded|].
  apply rtc_nsteps_2 in Hr. intros Hstuck. by apply (stuck_result st (tasks_reachable_inv n st Hn Hr)).
Qed.

(** ** A run of two connections *)

(** The tasks that move, in order, each with the end of its connection attempt. *)
Fixpoint run (moves : list (nat * bool)) (st : ConnectionTasks) : option ConnectionTasks :=
  match moves with
  | [] => Some st
  | (i, connected) :: moves => task_step i connected st ≫= run moves
  end.

Lemma run_nsteps (moves : list (nat * bool)) (st st' : ConnectionTasks) :
  run moves st = Some st' -> nsteps step (length moves) st st'.
Proof.
  revert st. induction moves as [|[i connected] moves IH]; intros st Hr; simpl in *.
  { simplify_eq. constructor. }
  destruct (task_step i connected st) as [st1|] eqn:Hs; [|done]. simpl in Hr.
  econstructor; [by exists i, connected|]. by apply IH.
Qed.

(** The first connection succeeds and waits; the second succeeds, and wakes it. *)
Definition both_connect : list (nat * bool) :=
  [(0, true); (0, true); (0, true); (0, true); (0, true); (1, true); (1, true);
   (0, true); (0, true); (0, true); (1, true); (1, true)]%nat.

Definition both_connected : ConnectionTasks :=
  mkTasks 2 2 false true [] [Finished true; Finished true].

Lemma both_run : nsteps step 12 (ConnectionTasks_new 2) both_connected.
Proof. apply (run_nsteps both_connect). vm_compute. reflexivity. Qed.

Lemma connections_agree_witness :
  Forall (fun t => succeeded t = 1%nat /\ t <> Finished false) (tasks both_connected).
Proof.
  apply (connections_agree 2 0 both_connected both_connected).
  - lia.
  - eapply rtc_nsteps_2. exact both_run.
  - reflexivity.
  - reflexivity.
Defined.

Lemma connections_decide_witness :
  (12 <= 18)%nat /\
  (Forall (fun t => t = Finished true) (tasks both_connected) \/
   (Failed ∈ tasks both_connected /\
    Forall (fun t => t = Failed \/ t = Finished false) (tasks both_connected))).
Proof.
  destruct (connections_decide 2 12 both_connected ltac:(lia) both_run) as [Hk Hend].
  split; [exact Hk|]. apply Hend. intros st' (i & connected & Hs).
  destruct i as [|[|i]]; discriminate Hs.
Defined.
