(* ===== verification/ConnectionManager.v ===== *)
(** * A connection to a node's event stream

    [listener/src/connection_manager.rs], [listener/src/sse_connector.rs],
    [listener/src/connections_builder.rs] and [listener/src/types.rs].  A
    connection manager connects with retries, insists on the [ApiVersion] event
    first, and then forwards every event, reporting its identifier so that a
    later connection can resume from it.  The channels to the rest of the sidecar
    record what was sent; a channel may stop accepting when its receiver goes. *)

From S2P Require Import Prelude SseData SseServer.

(** ** Channels and errors *)

(** The sending half of a channel: what went through, and how many more messages
    are accepted before the receiver is dropped ([None]: no limit). *)
Record Channel (A : Type) := mkChannel {
  sent : list A;
  accepts : option nat;
}.
Arguments mkChannel {A}.
Arguments sent {A}.
Arguments accepts {A}.

(** [Sender::send]; [None] is the error of a dropped receiver. *)
Definition send {A} (ch : Channel A) (x : A) : option (Channel A) :=
  match accepts ch with
  | Some O => None
  | n => Some (mkChannel (sent ch ++ [x]) (pred <$> n))
  end.

(** [anyhow::Error]: a message, possibly with contexts around it. *)
Inductive AnyError : Set :=
| Msg (message : string)
| Context (message : string) (inner : AnyError).

(** [listener/src/connection_manager.rs:58-62], [ConnectionManagerError]. *)
Inductive ConnectionManagerError : Set :=
| NonRecoverableError (error : AnyError)
| InitialConnectionError (error : AnyError).

(** [listener/src/connection_manager.rs:328-330], [non_recoverable_error]. *)
Definition non_recoverable_error (error : AnyError) : ConnectionManagerError := NonRecoverableError error.

(** [listener/src/connection_manager.rs:332-334], [recoverable_error]. *)
Definition recoverable_error (error : AnyError) : ConnectionManagerError := InitialConnectionError error.

(** ** Events *)

(** [eventsource_stream::Event], of which the identifier and the data are used. *)
Record Event := mkEvent {
  event_id : string;
  event_data : string;
}.

(** An item of the stream: an event or the text of a stream error. *)
Abbreviation EventResult := (result string Event).

(** [listener/src/types.rs:30-43], [SseEvent]. *)
Record SseEvent := mkSseEvent {
  sse_id : Z;
  sse_data : SseData;
  source : string;
  inbound_filter : Filter;
  api_version_text : string;
  sse_network_name : string;
}.

(** [types/src/filter.rs:9-15], [Display for Filter]. *)
Definition Filter_to_string (f : Filter) : string :=
  match f with Filter_Events => "events" end.

(** [str::contains]. *)
Fixpoint str_contains (needle s : string) : bool :=
  String.prefix needle s ||
  match s with
  | EmptyString => false
  | String _ s => str_contains needle s
  end.

(** ** Connecting *)

(** [listener/src/sse_connector.rs:38-45], [SseConnection], of which retrying
    uses the address and the number of attempts. *)
Record SseConnection := mkSseConnection {
  max_attempts : nat;
  bind_url : string;
}.

(** What is used of the [url] crate: a query set on an address, its path removed,
    and its [Debug] text. *)
Class Urls := {
  set_query : string -> string -> string;
  remove_path : string -> string;
  url_debug : string -> string;
}.

Section Connector.
Context `{Urls}.

(** [listener/src/sse_connector.rs:143-162], [couldnt_connect]. *)
Definition couldnt_connect (last_error : option ConnectionManagerError) (url : string) (attempts : nat)
    : ConnectionManagerError :=
  let message :=
    "Couldn't connect to address " +:+ url_debug url +:+ " in " +:+ pretty attempts +:+ " attempts" in
  match last_error with
  | None => non_recoverable_error (Msg message)
  | Some (InitialConnectionError error) => InitialConnectionError (Context message error)
  | Some (NonRecoverableError error) => NonRecoverableError (Context message error)
  end.

(** The loop of [SseConnection::connect] with [turns] turns left. *)
Fixpoint connect_turns {St} (self : SseConnection) (bind_address : string)
    (internal_connect : string -> nat -> result ConnectionManagerError St)
    (turns retry_count : nat) (last_error : option ConnectionManagerError)
    : result ConnectionManagerError St :=
  match turns with
  | O => Err (couldnt_connect last_error bind_address (max_attempts self))
  | S turns =>
      match internal_connect bind_address retry_count with
      | Ok event_stream => Ok event_stream
      | Err (NonRecoverableError error) => Err (NonRecoverableError error)
      | Err err =>
          connect_turns self bind_address internal_connect turns (S retry_count) (Some err)
      end
  end.

(** [listener/src/sse_connector.rs:108-140], [SseConnection::connect]:
    [internal_connect] opens the address it is given, for the given attempt; the
    loop runs while [retry_count <= max_attempts]. *)
Definition SseConnection_connect {St} (self : SseConnection)
    (internal_connect : string -> nat -> result ConnectionManagerError St)
    (current_event_id : option Z) : result ConnectionManagerError St :=
  let bind_address :=
    match current_event_id with
    | Some event_id => set_query (bind_url self) ("start_from=" +:+ pretty event_id)
    | None => bind_url self
    end in
  connect_turns self bind_address internal_connect (S (max_attempts self)) 0 None.

End Connector.

(** What the byte stream of a response yields, and the keep-alive monitor's
    cancellation. *)
Inductive ByteItem : Set :=
| Bytes (bytes : list Z)
| ByteError
| Cancelled.

(** [SseDataStreamingError]. *)
Inductive SseDataStreamingError : Set :=
| ConnectionError
| NoDataTimeout.

(** [listener/src/sse_connector.rs:69-105], [SseConnection::build_byte_stream]:
    the items of the stream it builds, with a tick of the monitor (counted) for
    every chunk of bytes. *)
Fixpoint build_byte_stream (items : list ByteItem) : list (result SseDataStreamingError (list Z)) * nat :=
  match items with
  | [] => ([], O)
  | Bytes bytes :: items =>
      let (out, ticks) := build_byte_stream items in (Ok bytes :: out, S ticks)
  | ByteError :: _ => ([Err ConnectionError], O)
  | Cancelled :: _ => ([Err NoDataTimeout], O)
  end.

(** ** The connection manager *)

(** [listener/src/connection_manager.rs:46-56], [DefaultConnectionManager]; its
    connector and its tasks are arguments of [do_start_handling]. *)
Record DefaultConnectionManager := mkManager {
  bind_address : string;
  current_event_id : option Z;
  sse_event_sender : Channel SseEvent;
  filter : Filter;
  current_event_id_sender : Channel (Filter * Z);
  api_version : option ProtocolVersion;
  network_name : string;
}.

(** [listener/src/connection_manager.rs:26-26], [API_VERSION]. *)
Definition API_VERSION : string := "ApiVersion".

(** [listener/src/connection_manager.rs:28-28], [FIRST_EVENT_EMPTY]. *)
Definition FIRST_EVENT_EMPTY : string := "First event was empty".

(** [listener/src/connection_manager.rs:29-30], [ERROR_WHEN_TRYING_TO_SEND_MESSAGE]. *)
Definition ERROR_WHEN_TRYING_TO_SEND_MESSAGE : string :=
  "Error when trying to send message in ConnectionManager#handle_event".

(** [listener/src/connection_manager.rs:37-38], [OTHER_TYPE_OF_MESSAGE_WHEN_API_VERSION_EXPECTED]. *)
Definition OTHER_TYPE_OF_MESSAGE_WHEN_API_VERSION_EXPECTED : string :=
  "When trying to deserialize ApiVersion got other type of message".

(** What is used of [casper_types] and [serde_json]: the text of a version and the
    deserialiser of [SseData]; [debug] is the [Debug] text of a string. *)
Class EventTexts := {
  version_to_string : ProtocolVersion -> string;
  from_str : string -> result string SseData;
  debug : string -> string;
  dropped_receiver : string;
}.

Section Manager.
Context `{Urls, EventTexts}.

Definition with_event_sender (self : DefaultConnectionManager) (ch : Channel SseEvent)
    : DefaultConnectionManager :=
  mkManager (bind_address self) (current_event_id self) ch (filter self)
    (current_event_id_sender self) (api_version self) (network_name self).

Definition with_api_version (self : DefaultConnectionManager) (v : ProtocolVersion)
    : DefaultConnectionManager :=
  mkManager (bind_address self) (current_event_id self) (sse_event_sender self) (filter self)
    (current_event_id_sender self) (Some v) (network_name self).

Definition with_event_id (self : DefaultConnectionManager) (id : Z) (ch : Channel (Filter * Z))
    : DefaultConnectionManager :=
  mkManager (bind_address self) (Some id) (sse_event_sender self) (filter self)
    ch (api_version self) (network_name self).

(** [listener/src/types.rs:47-66], [SseEvent::new]. *)
Definition SseEvent_new (id : Z) (data : SseData) (source : string) (f : Filter)
    (api_version network_name : string) : SseEvent :=
  mkSseEvent id data (remove_path source) f api_version network_name.

(** [listener/src/connection_manager.rs:228-258], [DefaultConnectionManager::handle_event]. *)
Definition handle_event (self : DefaultConnectionManager) (event : Event)
    : result AnyError unit * DefaultConnectionManager :=
  match deserialize from_str (event_data event) with
  | Err serde_error => (Err (Msg ("Serde Error: " +:+ serde_error)), self)
  | Ok data =>
      match api_version self with
      | None => (Err (Msg "Expected ApiVersion to be present when handling messages."), self)
      | Some version =>
          let sse_event :=
            SseEvent_new (default 0 (parse_u32 (event_id event))) data (bind_address self)
              (filter self) (version_to_string version) (network_name self) in
          match send (sse_event_sender self) sse_event with
          | Some ch => (Ok tt, with_event_sender self ch)
          | None => (Err (Msg ERROR_WHEN_TRYING_TO_SEND_MESSAGE), self)
          end
      end
  end.

(** [listener/src/connection_manager.rs:336-341], [decorate_with_event_stream_closed]. *)
Definition decorate_with_event_stream_closed (address : string) : ConnectionManagerError :=
  NonRecoverableError (Msg ("Event stream closed for filter: " +:+ url_debug address)).

(** The report of an identifier at the head of [handle_stream]'s loop. *)
Definition report_event_id (self : DefaultConnectionManager) (event : Event)
    : result ConnectionManagerError DefaultConnectionManager :=
  match parse_u32 (event_id event) with
  | Some id =>
      match send (current_event_id_sender self) (filter self, id) with
      | Some ch => Ok (with_event_id self id ch)
      | None =>
          Err (non_recoverable_error
                 (Msg ("Error when trying to report observed event id " +:+ dropped_receiver)))
      end
  | None => Ok self
  end.

(** [listener/src/connection_manager.rs:185-226], [DefaultConnectionManager::handle_stream]:
    it returns with an error only. *)
Fixpoint handle_stream (self : DefaultConnectionManager) (receiver : list EventResult)
    : ConnectionManagerError * DefaultConnectionManager :=
  match receiver with
  | [] => (decorate_with_event_stream_closed (bind_address self), self)
  | Err stream_error :: _ =>
      (non_recoverable_error
         (Msg ("EventStream Error (" +:+ Filter_to_string (filter self) +:+ "): " +:+ debug stream_error)),
       self)
  | Ok event :: receiver =>
      match report_event_id self event with
      | Err error => (error, self)
      | Ok self =>
          match handle_event self event with
          | (Err error, self) => (non_recoverable_error error, self)
          | (Ok _, self) => handle_stream self receiver
          end
      end
  end.

(** [listener/src/connection_manager.rs:280-321],
    [DefaultConnectionManager::try_handle_api_version_message]. *)
Definition try_handle_api_version_message (self : DefaultConnectionManager) (event : Event)
    (receiver : list EventResult)
    : result ConnectionManagerError (list EventResult) * DefaultConnectionManager :=
  match deserialize from_str (event_data event) with
  | Ok (ApiVersion semver) =>
      let self := with_api_version self semver in
      let sse_event :=
        SseEvent_new 0 (ApiVersion semver) (bind_address self) (filter self)
          (version_to_string semver) (network_name self) in
      match send (sse_event_sender self) sse_event with
      | Some ch => (Ok receiver, with_event_sender self ch)
      | None => (Err (non_recoverable_error (Msg ERROR_WHEN_TRYING_TO_SEND_MESSAGE)), self)
      end
  | Ok _ => (Err (non_recoverable_error (Msg OTHER_TYPE_OF_MESSAGE_WHEN_API_VERSION_EXPECTED)), self)
  | Err x =>
      (Err (non_recoverable_error
              (Msg ("Error when trying to deserialize ApiVersion " +:+ x +:+
                    ". Raw data of event: " +:+ event_data event))), self)
  end.

(** [listener/src/connection_manager.rs:260-278], [DefaultConnectionManager::consume_api_version]. *)
Definition consume_api_version (self : DefaultConnectionManager) (receiver : list EventResult)
    : result ConnectionManagerError (list EventResult) * DefaultConnectionManager :=
  match receiver with
  | [] => (Err (recoverable_error (Msg FIRST_EVENT_EMPTY)), self)
  | Err error :: _ =>
      (Err (non_recoverable_error (Msg ("failed to get first event: " +:+ debug error))), self)
  | Ok event :: receiver =>
      if str_contains API_VERSION (event_data event)
      then try_handle_api_version_message self event receiver
      else (Err (non_recoverable_error
                   (Msg ("Expected first message to be ApiVersion, got: " +:+ debug (event_data event)))),
            self)
  end.

(** [listener/src/connection_manager.rs:143-153], [DefaultConnectionManager::connect]:
    [connector] is [connector.connect]. *)
Definition manager_connect (self : DefaultConnectionManager)
    (connector : option Z -> result ConnectionManagerError (list EventResult))
    : result ConnectionManagerError (list EventResult) * DefaultConnectionManager :=
  match connector (current_event_id self) with
  | Ok event_tx => consume_api_version self event_tx
  | Err error => (Err error, self)
  end.

(** [listener/src/connection_manager.rs:155-183],
    [DefaultConnectionManager::do_start_handling]: [wait] is the result of
    [tasks.wait] when there are tasks; the last component is what was registered
    with them. *)
Definition do_start_handling (self : DefaultConnectionManager)
    (connector : option Z -> result ConnectionManagerError (list EventResult))
    (maybe_tasks : option bool)
    : ConnectionManagerError * DefaultConnectionManager * option bool :=
  match manager_connect self connector with
  | (Err error, self) => (error, self, (fun _ => false) <$> maybe_tasks)
  | (Ok receiver, self) =>
      match maybe_tasks with
      | Some false =>
          (non_recoverable_error
             (Msg ("Failed to connect to all filters. Disconnecting from " +:+ bind_address self)),
           self, Some true)
      | _ => (handle_stream self receiver, (fun _ => true) <$> maybe_tasks)
      end
  end.

End Manager.

(** ** Resuming *)

#[export] Instance Filter_eq_dec : EqDecision Filter.
Proof. solve_decision. Defined.

#[export] Instance Filter_countable : Countable Filter.
Proof. refine (inj_countable' (fun _ => tt) (fun _ => Filter_Events) _). by intros []. Defined.

(** [listener/src/lib.rs:287-306], [EventListener::start_last_event_id_registry]:
    the registry after the reports it has processed. *)
Definition last_event_id_registry (reports : list (Filter * Z)) : gmap Filter Z :=
  foldl (fun registry '(f, id) => <[f := id]> registry) ∅ reports.

(** [listener/src/connections_builder.rs:99-101], [filters_from_version]. *)
Definition filters_from_version (build_version : ProtocolVersion) : list Filter := [Filter_Events].

(** [listener/src/connections_builder.rs:93-96], [DefaultConnectionsBuilder::filtered_sse_url],
    up to the parsing of the address. *)
Definition filtered_sse_url (ip_address : string) (sse_port : Z) (f : Filter) : string :=
  "http://" +:+ ip_address +:+ ":" +:+ pretty sse_port +:+ "/" +:+ Filter_to_string f.

(** [listener/src/connections_builder.rs:68-90], [DefaultConnectionsBuilder::build_connection]
    and [DefaultConnectionManagerBuilder::build]: the manager, with its channels. *)
Definition build_connection (ip_address : string) (sse_port : Z) (start_from_event_id : option Z) (f : Filter)
    (events : Channel SseEvent) (ids : Channel (Filter * Z)) (network_name : string)
    : DefaultConnectionManager :=
  mkManager (filtered_sse_url ip_address sse_port f) start_from_event_id events f ids None network_name.

(** [listener/src/connections_builder.rs:39-65], [DefaultConnectionsBuilder::build_connections]:
    a manager per filter, each starting from the last identifier in the registry
    or from 0; the flag says whether they share [ConnectionTasks], and the number
    how many they expect. *)
Definition build_connections (ip_address : string) (sse_port : Z) (allow_partial_connection : bool)
    (registry : gmap Filter Z) (events : Channel SseEvent) (ids : Channel (Filter * Z))
    (build_version : ProtocolVersion) (network_name : string)
    : list (Filter * DefaultConnectionManager) * option nat :=
  let filters := filters_from_version build_version in
  ((fun f =>
      let start_from_event_id :=
        match registry !! f with Some id => Some id | None => Some 0 end in
      (f, build_connection ip_address sse_port start_from_event_id f events ids network_name)) <$> filters,
   if allow_partial_connection then None else Some (length filters)).

Section Delivery.
Context `{Urls, EventTexts}.

Lemma send_open {A} (ch : Channel A) (x : A) :
  accepts ch = None -> send ch x = Some (mkChannel (sent ch ++ [x]) None).
Proof. unfold send. by intros ->. Qed.

(** The event a manager makes of an item it forwards. *)
Definition forwarded (self : DefaultConnectionManager) (v : ProtocolVersion) (event : Event) (data : SseData)
    : SseEvent :=
  SseEvent_new (default 0 (parse_u32 (event_id event))) data (bind_address self) (filter self)
    (version_to_string v) (network_name self).

(** The item ends the stream: an error, or an event that is not understood. *)
Definition ends_stream (item : EventResult) : Prop :=
  match item with
  | Err _ => True
  | Ok event => is_err (from_str (event_data event)) = true
  end.

(** Up to the first item that ends it, a stream is forwarded in order, and the
    identifiers are reported. *)
Lemma handle_stream_forwards (self : DefaultConnectionManager) (v : ProtocolVersion)
    (good : list (Event * SseData)) (rest : list EventResult) :
  api_version self = Some v ->
  accepts (sse_event_sender self) = None -> accepts (current_event_id_sender self) = None ->
  Forall (fun p => from_str (event_data p.1) = Ok p.2) good ->
  from_option ends_stream True (head rest) ->
  let '(error, self') := handle_stream self ((Ok <$> good.*1) ++ rest) in
  ((exists e, error = NonRecoverableError e) /\
   accepts (sse_event_sender self') = None /\ accepts (current_event_id_sender self') = None) /\
  sent (sse_event_sender self') =
    sent (sse_event_sender self) ++ ((fun p => forwarded self v p.1 p.2) <$> good) /\
  exists tail, sent (current_event_id_sender self') =
    sent (current_event_id_sender self) ++
      (pair (filter self) <$> omap (fun p => parse_u32 (event_id p.1)) good) ++ tail /\
    (tail = [] \/ exists event i, head rest = Some (Ok event) /\
       parse_u32 (event_id event) = Some i /\ tail = [(filter self, i)]).
Proof.
  intros Hv Hev Hids Hgood Hrest. revert self Hv Hev Hids.
  induction Hgood as [|[event data] good Hd _ IH]; intros self Hv Hev Hids.
  - destruct rest as [|[event|e] rest]; simpl.
    + split; [split; [by eexists|done]|]. split; [by rewrite app_nil_r|]. exists []. rewrite app_nil_r. auto.
    + simpl in Hrest. unfold report_event_id.
      destruct (parse_u32 (event_id event)) as [i|] eqn:Hi;
        [rewrite (send_open _ _ Hids)|]; unfold handle_event, deserialize;
        destruct (from_str (event_data event)); try done; simpl;
        (split; [split; [by eexists|done]|]); (split; [by rewrite app_nil_r|]).
      * exists [(filter self, i)]. split; [done|]. right. by exists event, i.
      * exists []. rewrite app_nil_r. auto.
    + split; [split; [by eexists|done]|]. split; [by rewrite app_nil_r|]. exists []. rewrite app_nil_r. auto.
  - simpl in Hd. cbn [fmap list_fmap fst app handle_stream].
    unfold report_event_id. destruct (parse_u32 (event_id event)) as [i|] eqn:Hi.
    + rewrite (send_open _ _ Hids). unfold handle_event, deserialize. rewrite Hd. cbn -[handle_stream].
      rewrite Hv. cbn -[handle_stream]. rewrite (send_open _ _ Hev).
      match goal with |- context [handle_stream ?s _] => specialize (IH s Hv eq_refl eq_refl) end.
      destruct (handle_stream _ _) as [error self']. destruct IH as (He & Hs & tail & Ht & Htail).
      split; [done|]. split.
      * rewrite Hs. cbn. rewrite <- app_assoc. unfold forwarded. cbn. by rewrite Hi.
      * exists tail. split; [|done]. rewrite Ht. cbn. rewrite Hi. cbn. by rewrite <- app_assoc.
    + unfold handle_event, deserialize. rewrite Hd. cbn -[handle_stream].
      rewrite Hv. cbn -[handle_stream]. rewrite (send_open _ _ Hev).
      match goal with |- context [handle_stream ?s _] => specialize (IH s Hv eq_refl Hids) end.
      destruct (handle_stream _ _) as [error self']. destruct IH as (He & Hs & tail & Ht & Htail).
      split; [done|]. split.
      * rewrite Hs. cbn. rewrite <- app_assoc. unfold forwarded. cbn. by rewrite Hi.
      * exists tail. split; [|done]. rewrite Ht. cbn. by rewrite Hi.
Qed.

End Delivery.

(** ** Delivery across reconnections *)

Section Reconnections.
Context `{Urls, EventTexts}.

Context (ip_address : string) (sse_port : Z) (version : ProtocolVersion) (network : string).

(** All the events a node ever announces and how it writes them.  The deserialiser
    reads the greeting, whose text names the [ApiVersion] (as that of any enumeration
    written by serde does); of the other texts it may not understand some, but it takes
    none for another event. *)
Context (all : list SseData) (encode : SseData -> string).
Context (Hgreeting : from_str (encode (ApiVersion version)) = Ok (ApiVersion version)).
Context (Hnamed : str_contains API_VERSION (encode (ApiVersion version)) = true).
Context (Hencode : forall d d', d ∈ all -> from_str (encode d) = Ok d' -> d' = d).

(** The listener understands the text of an event. *)
Definition understood (d : SseData) : bool := is_ok (from_str (encode d)).

(** One connection to a node that has announced [history], numbered from 0: it is
    lost after [cut] events, with or without an error, at a time when the registry
    has processed [processed] of the reports made before. *)
Record Session := mkSession {
  history : list SseData;
  cut : nat;
  stream_error : option string;
  processed : nat;
}.

Definition numbered (history : list SseData) : list (Event * SseData) :=
  imap (fun i d => (mkEvent (pretty (Z.of_nat i)) (encode d), d)) history.

(** What the node sends to a subscriber that starts from an identifier. *)
Definition node_events (s : Session) (start : nat) : list (Event * SseData) :=
  take (cut s) (drop start (numbered (history s))).

Definition node_stream (s : Session) (start_from : option Z) : result ConnectionManagerError (list EventResult) :=
  Ok (Ok (mkEvent EmptyString (encode (ApiVersion version))) ::
      (Ok <$> (node_events s (Z.to_nat (default 0 start_from))).*1) ++
      from_option (fun e => [Err e]) [] (stream_error s)).

(** The sessions of a listener: every one is built from the registry of the
    reports and handled to its end; the events and the reports go on. *)
Fixpoint sessions (events : Channel SseEvent) (ids : Channel (Filter * Z)) (l : list Session)
    : Channel SseEvent * Channel (Filter * Z) :=
  match l with
  | [] => (events, ids)
  | s :: l =>
      let registry := last_event_id_registry (take (processed s) (sent ids)) in
      match (build_connections ip_address sse_port true registry events ids version network).1 with
      | (_, manager) :: _ =>
          let '(_, manager, _) := do_start_handling manager (node_stream s) None in
          sessions (sse_event_sender manager) (current_event_id_sender manager) l
      | [] => (events, ids)
      end
  end.

(** The event with an identifier, as it is handed on. *)
Definition handed_on (i : nat) (d : SseData) : SseEvent :=
  SseEvent_new (Z.of_nat i) d (filtered_sse_url ip_address sse_port Filter_Events) Filter_Events
    (version_to_string version) network.

Lemma numbered_lookup (h : list SseData) (i : nat) :
  numbered h !! i = (fun d => (mkEvent (pretty (Z.of_nat i)) (encode d), d)) <$> h !! i.
Proof. unfold numbered. by rewrite list_lookup_imap. Qed.

Lemma node_events_lookup (s : Session) (start j : nat) (p : Event * SseData) :
  node_events s start !! j = Some p ->
  (j < cut s)%nat /\ history s !! (start + j)%nat = Some p.2 /\
  p.1 = mkEvent (pretty (Z.of_nat (start + j))) (encode p.2).
Proof.
  unfold node_events. intros Hj. pose proof (lookup_lt_Some _ _ _ Hj) as Hlt. rewrite length_take in Hlt.
  rewrite lookup_take_Some, lookup_drop, numbered_lookup in Hj. destruct Hj as [Hj ?].
  destruct (history s !! (start + j)%nat) as [d|]; simplify_eq/=. auto.
Qed.

(** The events up to the first that is not understood. *)
Fixpoint readable (l : list (Event * SseData)) : list (Event * SseData) :=
  match l with
  | p :: l => if understood p.2 then p :: readable l else []
  | [] => []
  end.

Lemma readable_split (l : list (Event * SseData)) :
  exists rest, l = readable l ++ rest /\ Forall (fun p => understood p.2 = true) (readable l) /\
    from_option (fun p => understood p.2 = false) True (head rest).
Proof.
  induction l as [|p l (rest & Hl & Hok & Hrest)]; [by exists []|]. simpl. destruct (understood p.2) eqn:Hp.
  - exists rest. split_and!; [by rewrite Hl at 1|by constructor|done].
  - by exists (p :: l).
Qed.

Lemma readable_lookup (l : list (Event * SseData)) (j : nat) (p : Event * SseData) :
  readable l !! j = Some p -> l !! j = Some p.
Proof. destruct (readable_split l) as (rest & Hl & _). intros Hj. rewrite Hl. by apply lookup_app_l_Some. Qed.

Lemma readable_next (l rest : list (Event * SseData)) (p : Event * SseData) :
  l = readable l ++ p :: rest -> l !! length (readable l) = Some p.
Proof. intros Hl. transitivity ((readable l ++ p :: rest) !! length (readable l)); [by f_equal|by apply list_lookup_middle]. Qed.

(** What the node sends carries the number and the text of an announced event. *)
Lemma node_event_item (s : Session) (start j : nat) (p : Event * SseData) :
  Z.of_nat (length all) <= U32_MAX -> history s `prefix_of` all -> node_events s start !! j = Some p ->
  parse_u32 (event_id p.1) = Some (Z.of_nat (start + j)) /\ event_data p.1 = encode p.2 /\ p.2 ∈ all.
Proof.
  intros Hlen Hpre Hj. apply node_events_lookup in Hj as (_ & Hh & ->). simpl.
  apply (prefix_lookup_Some _ _ _ _ Hh) in Hpre as Hp. split_and!; [|done|by eapply list_elem_of_lookup_2].
  apply parse_u32_pretty. apply lookup_lt_Some in Hp. unfold is_u32. lia.
Qed.

(** What one session hands on and reports: the events up to the first that is not
    understood, and their identifiers with that of this one. *)
Lemma session_adds (s : Session) (start : nat) (events : Channel SseEvent) (ids : Channel (Filter * Z)) :
  accepts events = None -> accepts ids = None ->
  Z.of_nat (length all) <= U32_MAX -> history s `prefix_of` all ->
  let manager := build_connection ip_address sse_port (Some (Z.of_nat start)) Filter_Events events ids network in
  let '(_, manager', _) := do_start_handling manager (node_stream s) None in
  let good := readable (node_events s start) in
  (accepts (sse_event_sender manager') = None /\ accepts (current_event_id_sender manager') = None) /\
  sent (sse_event_sender manager') =
    sent events ++ handed_on 0 (ApiVersion version) :: imap (fun j p => handed_on (start + j) p.2) good /\
  exists tail, sent (current_event_id_sender manager') =
    sent ids ++ imap (fun j _ => (Filter_Events, Z.of_nat (start + j))) good ++ tail /\
    (tail = [] \/ exists p, node_events s start !! length good = Some p /\ understood p.2 = false /\
       tail = [(Filter_Events, Z.of_nat (start + length good))]).
Proof using Hgreeting Hnamed Hencode.
  intros Hev Hids Hlen Hpre manager.
  pose proof (fun j p => node_event_item s start j p Hlen Hpre) as Hitem.
  destruct (readable_split (node_events s start)) as (bad & Hsplit & Hok & Hbad).
  assert (forall j p, readable (node_events s start) !! j = Some p -> node_events s start !! j = Some p) as Hgood.
  { intros j p. apply readable_lookup. }
  assert (forall p bad', bad = p :: bad' ->
    node_events s start !! length (readable (node_events s start)) = Some p) as Hnext.
  { intros p bad' ->. by eapply readable_next. }
  unfold do_start_handling, manager_connect, node_stream. subst manager. cbn [build_connection current_event_id].
  change (Z.to_nat (default 0 (Some (Z.of_nat start)))) with (Z.to_nat (Z.of_nat start)).
  rewrite Nat2Z.id. unfold consume_api_version. cbn [event_data]. rewrite Hnamed.
  unfold try_handle_api_version_message, deserialize. cbn [event_data]. rewrite Hgreeting. cbn [map_err].
  rewrite send_open by done.
  replace (Ok <$> (node_events s start).*1) with ((Ok <$> (readable (node_events s start)).*1) ++ (Ok <$> bad.*1) : list EventResult)
    by (rewrite <- !fmap_app; by do 2 f_equal).
  rewrite <- app_assoc.
  match goal with |- context [handle_stream ?m (_ ++ ?r)] =>
    pose proof (handle_stream_forwards m version (readable (node_events s start)) r eq_refl eq_refl Hids) as Hfw end.
  destruct (handle_stream _ _) as [error manager'] eqn:Hhs. cbn [from_option].
  destruct Hfw as ((_ & Hopen) & Hs & tail & Ht & Htail).
  { apply Forall_lookup_2. intros j p Hj. destruct (Hitem _ _ (Hgood _ _ Hj)) as (_ & -> & Hin).
    eapply Forall_lookup_1 in Hok; [|exact Hj]. unfold understood in Hok.
    destruct (from_str (encode p.2)) as [d'|] eqn:Hd; [|done]. by rewrite (Hencode _ _ Hin Hd). }
  { destruct bad as [|p bad]; simpl; [by destruct (stream_error s)|]. simpl in Hbad. unfold understood in Hbad.
    destruct (Hitem _ p (Hnext _ _ eq_refl)) as (_ & -> & _). unfold is_err. by rewrite Hbad. }
  split; [done|]. rewrite Hs, Ht. cbn. rewrite <- app_assoc. split.
  - do 2 f_equal. apply list_eq. intros j. rewrite list_lookup_imap, list_lookup_fmap.
    destruct (readable _ !! j) as [p|] eqn:Hj; [|done]. simpl. unfold forwarded, handed_on.
    by rewrite (proj1 (Hitem _ _ (Hgood _ _ Hj))).
  - exists tail. split.
    { rewrite (omap_imap _ (fun j => Z.of_nat (start + j))), fmap_imap; [done|].
      intros j p Hj. apply (Hitem _ _ (Hgood _ _ Hj)). }
    destruct Htail as [->|(event & i & Hhd & Hi & ->)]; [by left|right].
    destruct bad as [|p bad]; simpl in Hhd; [by destruct (stream_error s)|]. injection Hhd as <-.
    exists p. split_and!; [by eapply Hnext|done|]. destruct (Hitem _ _ (Hnext _ _ eq_refl)) as (Hi' & _). simpl. congruence.
Qed.

Lemma registry_lookup (reports : list (Filter * Z)) (f : Filter) (id : Z) :
  last_event_id_registry reports !! f = Some id -> (f, id) ∈ reports.
Proof.
  unfold last_event_id_registry. induction reports as [|[f' id'] reports IH] using rev_ind; [done|].
  rewrite foldl_app. simpl. rewrite lookup_insert, elem_of_app, list_elem_of_singleton.
  case_decide; naive_solver.
Qed.

(** All the events before a number have been handed on, and the one with the number,
    unless it is not understood. *)
Definition handed_on_to (events : Channel SseEvent) (j : nat) : Prop :=
  (forall i, (i < j)%nat -> exists d, all !! i = Some d /\ handed_on i d ∈ sent events) /\
  exists d, all !! j = Some d /\ (handed_on j d ∈ sent events \/ understood d = false).

Definition reports_ok (events : Channel SseEvent) (ids : Channel (Filter * Z)) : Prop :=
  forall f id, (f, id) ∈ sent ids -> exists j, id = Z.of_nat j /\ handed_on_to events j.

(** A session that starts from a reported number keeps the reports right. *)
Lemma session_reports (s : Session) (start : nat)
    (events events' : Channel SseEvent) (ids ids' : Channel (Filter * Z)) tail :
  history s `prefix_of` all -> reports_ok events ids ->
  start = O \/ handed_on_to events start ->
  let good := readable (node_events s start) in
  sent events' = sent events ++ handed_on 0 (ApiVersion version) :: imap (fun j p => handed_on (start + j) p.2) good ->
  sent ids' = sent ids ++ imap (fun j _ => (Filter_Events, Z.of_nat (start + j))) good ++ tail ->
  (tail = [] \/ exists p, node_events s start !! length good = Some p /\ understood p.2 = false /\
     tail = [(Filter_Events, Z.of_nat (start + length good))]) ->
  reports_ok events' ids'.
Proof.
  intros Hpre Hok Hstart good Hev Hids Htail.
  assert (forall e, e ∈ sent events -> e ∈ sent events') as Hold by (intros e He; rewrite Hev; apply elem_of_app; by left).
  assert (forall k p, node_events s start !! k = Some p -> all !! (start + k)%nat = Some p.2) as Hall.
  { intros k p Hk. apply node_events_lookup in Hk as (_ & Hh & _). by eapply prefix_lookup_Some. }
  assert (forall i, (i < start + length good)%nat -> exists d, all !! i = Some d /\ handed_on i d ∈ sent events') as Hbefore.
  { intros i Hi. destruct (decide (start <= i)%nat) as [Hle|Hlt].
    - destruct (lookup_lt_is_Some_2 good (i - start)) as [q Hq]; [lia|]. exists q.2.
      pose proof (Hall _ _ (readable_lookup _ _ _ Hq)) as Hd. replace (start + (i - start))%nat with i in Hd by lia.
      split; [done|]. rewrite Hev. apply elem_of_app. right. right. apply elem_of_lookup_imap.
      exists (i - start)%nat, q. split; [f_equal; lia|done].
    - destruct Hstart as [->|[Hstart _]]; [lia|]. destruct (Hstart i) as (d & Hd & Hi'); [lia|]. eauto. }
  intros f id Hin. rewrite Hids, !elem_of_app in Hin. destruct Hin as [Hin|[Hin|Hin]].
  - destruct (Hok _ _ Hin) as (j & -> & Hlow & d & Hd & Hj). exists j. split; [done|]. split.
    + intros i Hi. destruct (Hlow i Hi) as (d' & ? & ?). eauto.
    + exists d. split; [done|]. destruct Hj; eauto.
  - apply elem_of_lookup_imap in Hin as (k & p & Heq & Hk). simplify_eq. exists (start + k)%nat. split; [done|].
    pose proof (lookup_lt_Some _ _ _ Hk). split; [intros i Hi; apply Hbefore; lia|].
    destruct (Hbefore (start + k)%nat) as (d & ? & ?); [lia|]. eauto.
  - destruct Htail as [->|(p & Hp & Hu & ->)]; [by apply elem_of_nil in Hin|].
    apply list_elem_of_singleton in Hin. simplify_eq. exists (start + length good)%nat. split; [done|]. split; [done|].
    exists p.2. split; [by apply Hall|by right].
Qed.

(** What is handed on was announced by the node. *)
Definition announced_only (events : Channel SseEvent) : Prop :=
  forall e, e ∈ sent events -> sse_data e ∈ ApiVersion version :: all.

Lemma session_announced (s : Session) (start : nat) (events events' : Channel SseEvent) :
  history s `prefix_of` all -> announced_only events ->
  sent events' = sent events ++ handed_on 0 (ApiVersion version) ::
    imap (fun j p => handed_on (start + j) p.2) (readable (node_events s start)) ->
  announced_only events'.
Proof.
  intros Hpre Hok Hev e. rewrite Hev, elem_of_app, elem_of_cons. intros [He|[->|He]]; [by apply Hok|by left|].
  apply elem_of_lookup_imap in He as (k & p & -> & Hk%readable_lookup). right.
  apply node_events_lookup in Hk as (_ & Hh & _). by eapply list_elem_of_lookup_2, prefix_lookup_Some.
Qed.

(** The sessions keep the reports right, and hand on nothing else. *)
Lemma sessions_sound (l : list Session) (events : Channel SseEvent) (ids : Channel (Filter * Z)) :
  Z.of_nat (length all) <= U32_MAX -> accepts events = None -> accepts ids = None ->
  reports_ok events ids -> announced_only events -> Forall (fun s => history s `prefix_of` all) l ->
  let '(events', ids') := sessions events ids l in reports_ok events' ids' /\ announced_only events'.
Proof using Hgreeting Hnamed Hencode.
  intros Hlen. revert events ids. induction l as [|s l IH]; intros events ids Hev Hids Hok Hann Hall; [done|].
  apply Forall_cons in Hall as [Hs Hall]. cbn [sessions build_connections filters_from_version fmap list_fmap fst].
  set (registry := last_event_id_registry _).
  assert (exists start, match registry !! Filter_Events with Some id => Some id | None => Some 0 end =
      Some (Z.of_nat start) /\ (start = O \/ handed_on_to events start)) as (start & -> & Hstart).
  { destruct (registry !! Filter_Events) as [id|] eqn:Hr; [|exists O; auto].
    apply registry_lookup, elem_of_take in Hr as (n & Hn & _).
    destruct (Hok Filter_Events id) as (j & -> & Hj); [by eapply list_elem_of_lookup_2|]. exists j. auto. }
  pose proof (session_adds s start events ids Hev Hids Hlen Hs) as Hadds. cbn zeta in Hadds.
  destruct (do_start_handling _ _ _) as [[error manager] registered].
  destruct Hadds as ((Ha1 & Ha2) & He & tail & Hi & Htail).
  apply IH; [done..|by eapply session_reports|by eapply session_announced|done].
Qed.

(** C8. At-least-once delivery across reconnections: however often and wherever
    the connection to the node is lost, and however late the registry processes
    the reports, a reported identifier means that all the events before the one it names
    have been handed on, each with its identifier and the version and network of the
    node, and so has the event itself, unless the listener cannot read its text: the
    identifier is reported before the event is read.  Nothing else is handed on but
    events of the node and its greeting.  It is assumed that the listener can read the
    greeting and takes no event for another one, that the node still has the events it is
    asked to start from, that identifiers have not wrapped around and that the receiver
    of the events is alive. *)
Theorem delivery_at_least_once (l : list Session) :
  Z.of_nat (length all) <= U32_MAX -> Forall (fun s => history s `prefix_of` all) l ->
  let '(events, ids) := sessions (mkChannel [] None) (mkChannel [] None) l in
  (forall f id, (f, id) ∈ sent ids -> exists j, id = Z.of_nat j /\ handed_on_to events j) /\
  (forall e, e ∈ sent events -> sse_data e ∈ ApiVersion version :: all).
Proof using Hgreeting Hnamed Hencode.
  intros Hlen Hl. pose proof (sessions_sound l (mkChannel [] None) (mkChannel [] None) Hlen eq_refl eq_refl) as Hs.
  destruct (sessions _ _ l) as [events ids].
  apply Hs; [by intros f id ?%elem_of_nil|by intros e ?%elem_of_nil|done].
Qed.

End Reconnections.

(** ** The handshake *)

Section Handshake.
Context `{Urls, EventTexts}.

(** A channel has grown by events of one version. *)
Definition grown_by_version (v : ProtocolVersion) (ch ch' : Channel SseEvent) : Prop :=
  exists new, sent ch' = sent ch ++ new /\ Forall (fun e => api_version_text e = version_to_string v) new.

Lemma grown_refl (v : ProtocolVersion) (ch : Channel SseEvent) : grown_by_version v ch ch.
Proof. exists []. by rewrite app_nil_r. Qed.

Lemma grown_trans (v : ProtocolVersion) (ch1 ch2 ch3 : Channel SseEvent) :
  grown_by_version v ch1 ch2 -> grown_by_version v ch2 ch3 -> grown_by_version v ch1 ch3.
Proof.
  intros (l1 & H1 & F1) (l2 & H2 & F2). exists (l1 ++ l2). rewrite H2, H1, app_assoc.
  split; [done|]. by apply Forall_app_2.
Qed.

Lemma send_sent {A} (ch ch' : Channel A) (x : A) : send ch x = Some ch' -> sent ch' = sent ch ++ [x].
Proof. unfold send. destruct (accepts ch) as [[|n]|]; by intros [= <-]. Qed.

Lemma handle_event_grows (self : DefaultConnectionManager) (event : Event) (v : ProtocolVersion) :
  api_version self = Some v ->
  api_version (handle_event self event).2 = Some v /\
  grown_by_version v (sse_event_sender self) (sse_event_sender (handle_event self event).2).
Proof.
  intros Hv. unfold handle_event. destruct (deserialize _ _) as [data|]; [|split; [done|apply grown_refl]].
  rewrite Hv. destruct (send _ _) as [ch|] eqn:Hs; [|split; [done|apply grown_refl]].
  split; [done|]. apply send_sent in Hs. eexists. split; [exact Hs|]. by repeat constructor.
Qed.

Lemma handle_stream_grows (self : DefaultConnectionManager) (items : list EventResult) (v : ProtocolVersion) :
  api_version self = Some v ->
  grown_by_version v (sse_event_sender self) (sse_event_sender (handle_stream self items).2).
Proof.
  revert self. induction items as [|[event|e] items IH]; intros self Hv; [apply grown_refl| |apply grown_refl].
  cbn [handle_stream]. destruct (report_event_id self event) as [self1|] eqn:Hr; [|apply grown_refl].
  assert (api_version self1 = Some v /\ sse_event_sender self1 = sse_event_sender self) as [Hv1 Hs1].
  { unfold report_event_id in Hr. destruct (parse_u32 _); [|by simplify_eq].
    destruct (send (current_event_id_sender self) _); by simplify_eq. }
  pose proof (handle_event_grows self1 event v Hv1) as [Hv2 Hg]. rewrite Hs1 in Hg.
  destruct (handle_event self1 event) as [[[]|error] self2]; simpl in *; [|done].
  eapply grown_trans; [done|]. by apply IH.
Qed.

(** Nothing is handed on before the handshake: whatever the connection
    yields, the first event a connection hands on is the [ApiVersion] it was
    greeted with, and all that follow carry that version; with any other first
    item nothing is handed on at all. *)
Theorem handshake_first (self : DefaultConnectionManager)
    (connector : option Z -> result ConnectionManagerError (list EventResult)) (maybe_tasks : option bool) :
  let '(_, self', _) := do_start_handling self connector maybe_tasks in
  sse_event_sender self' = sse_event_sender self \/
  exists v text items rest,
    connector (current_event_id self) = Ok (Ok text :: items) /\
    from_str (event_data text) = Ok (ApiVersion v) /\
    sent (sse_event_sender self') =
      sent (sse_event_sender self) ++
        SseEvent_new 0 (ApiVersion v) (bind_address self) (filter self) (version_to_string v)
          (network_name self) :: rest /\
    Forall (fun e => api_version_text e = version_to_string v) rest.
Proof.
  unfold do_start_handling, manager_connect.
  destruct (connector _) as [[|[event|e] items]|e] eqn:Hc; cbn [consume_api_version]; try (by left).
  destruct (str_contains _ _); [|by left].
  unfold try_handle_api_version_message, deserialize.
  destruct (from_str (event_data event)) as [data|] eqn:Hd; cbn [map_err]; [|by left].
  destruct data as [v| | | | | | | |]; try (by left).
  destruct (send _ _) as [ch|] eqn:Hs; [|by left]. apply send_sent in Hs. cbn in Hs.
  set (self1 := with_event_sender _ _).
  assert (grown_by_version v ch (sse_event_sender (handle_stream self1 items).2)) as (new & Hnew & Hall)
    by (by apply (handle_stream_grows self1)).
  destruct maybe_tasks as [[]|]; cbn [fmap option_fmap option_map];
    try (destruct (handle_stream self1 items) as [error self2]; simpl in Hnew);
    right; exists v, event, items.
  - exists new. rewrite Hnew, Hs, <- app_assoc. done.
  - exists []. cbn. by rewrite Hs.
  - exists new. rewrite Hnew, Hs, <- app_assoc. done.
Qed.

Lemma connect_turns_failed {St} (self : SseConnection) (url : string)
    (internal_connect : string -> nat -> result ConnectionManagerError St) (turns i : nat)
    (last : option ConnectionManagerError) (e : AnyError) :
  internal_connect url i = Err (InitialConnectionError e) ->
  connect_turns self url internal_connect (S turns) i last =
  connect_turns self url internal_connect turns (S i) (Some (InitialConnectionError e)).
Proof. simpl. by intros ->. Qed.

(** Connecting to the stream makes one attempt more than [max_attempts]: if
    that many attempts fail with recoverable errors the next one still counts,
    and only if it fails as well does connecting fail, with a text that names
    [max_attempts]. *)
Theorem connect_attempts {St} (self : SseConnection)
    (internal_connect : string -> nat -> result ConnectionManagerError St) (id : Z) :
  let url := set_query (bind_url self) ("start_from=" +:+ pretty id) in
  (forall i, (i < max_attempts self)%nat -> exists e, internal_connect url i = Err (InitialConnectionError e)) ->
  SseConnection_connect self internal_connect (Some id) =
  match internal_connect url (max_attempts self) with
  | Err (InitialConnectionError e) =>
      Err (InitialConnectionError
             (Context ("Couldn't connect to address " +:+ url_debug url +:+ " in " +:+
                       pretty (max_attempts self) +:+ " attempts") e))
  | outcome => outcome
  end.
Proof.
  intros url Hfail. unfold SseConnection_connect. fold url.
  assert (forall d i last, (i + d = max_attempts self)%nat ->
    connect_turns self url internal_connect (S d) i last =
    connect_turns self url internal_connect 1 (max_attempts self)
      (if decide (d = O) then last else
       match internal_connect url (pred (max_attempts self)) with Err e => Some e | _ => None end)) as Hskip.
  { induction d as [|d IH]; intros i last Hi.
    - rewrite decide_True by done. by replace i with (max_attempts self) by lia.
    - destruct (Hfail i) as [e He]; [lia|]. rewrite decide_False by done.
      rewrite (connect_turns_failed self url internal_connect (S d) i last e He), IH by lia.
      destruct (decide (d = O)) as [->|]; [|done]. replace (pred (max_attempts self)) with i by lia.
      by rewrite He. }
  rewrite (Hskip (max_attempts self) O None) by lia. cbn [connect_turns].
  by destruct (internal_connect url (max_attempts self)) as [|[|]].
Qed.

End Handshake.

(** ** A concrete listener *)

Module SampleListener.

#[export] Instance urls : Urls := {|
  set_query url q := url +:+ "?" +:+ q;
  remove_path url := url;
  url_debug url := url;
|}.

Definition version : ProtocolVersion := mkVersion 2 0 0.

(** Two kinds of events are understood. *)
Definition encode (d : SseData) : string :=
  match d with
  | ApiVersion _ => "ApiVersion 2.0.0"
  | Shutdown => "Shutdown"
  | _ => "garbled"
  end.

#[export] Instance texts : EventTexts := {|
  version_to_string _ := "2.0.0";
  from_str s :=
    if decide (s = "ApiVersion 2.0.0") then Ok (ApiVersion version)
    else if decide (s = "Shutdown") then Ok Shutdown else Err "expected value";
  debug s := s;
  dropped_receiver := "channel closed";
|}.

(** Four events, of which the third is not understood; the connection breaks after two
    and is made again. *)
Definition all : list SseData := [Shutdown; Shutdown; Step 3 "effects"; Shutdown].

Definition two_sessions : list Session :=
  [mkSession [Shutdown; Shutdown] 2 (Some "reset") 0; mkSession all 7 None 1].

End SampleListener.

Import SampleListener.

Lemma delivery_at_least_once_witness :
  (fun p : Filter * Z => p.2) <$> sent (sessions "127.0.0.1" 18101 version "net" encode
    (mkChannel [] None) (mkChannel [] None) two_sessions).2 = [0; 1; 0; 1; 2] /\
  let '(events, ids) :=
    sessions "127.0.0.1" 18101 version "net" encode (mkChannel [] None) (mkChannel [] None) two_sessions in
  forall f id, (f, id) ∈ sent ids ->
    exists j, id = Z.of_nat j /\ handed_on_to "127.0.0.1" 18101 version "net" SampleListener.all encode events j.
Proof.
  split; [vm_compute; reflexivity|].
  pose proof (delivery_at_least_once "127.0.0.1" 18101 version "net" SampleListener.all encode) as Hdel.
  specialize (fun Hg Hn He Hl Hs => Hdel Hg Hn He two_sessions Hl Hs).
  revert Hdel. generalize (sessions "127.0.0.1" 18101 version "net" encode (mkChannel [] None) (mkChannel [] None) two_sessions).
  intros [events ids] Hdel. apply Hdel.
  - reflexivity.
  - reflexivity.
  - intros d d' Hd. repeat (apply elem_of_cons in Hd as [->|Hd]; [by intros [= <-]|]). by apply elem_of_nil in Hd.
  - unfold U32_MAX. simpl. lia.
  - apply Forall_forall. intros s Hs. unfold two_sessions in Hs.
    apply elem_of_cons in Hs as [->|Hs%list_elem_of_singleton]; [by exists [Step 3 "effects"; Shutdown]|].
    subst s. by exists [].
Defined.

Lemma connect_attempts_witness :
  SseConnection_connect (mkSseConnection 2 "http://node/events")
    (fun _ i => if decide (i = 2%nat) then Ok tt else Err (InitialConnectionError (Msg "refused"))) (Some 5) =
  Ok tt.
Proof.
  etrans.
  - apply connect_attempts. intros i Hi. simpl in Hi. exists (Msg "refused").
    destruct i as [|[|i]]; [reflexivity|reflexivity|lia].
  - reflexivity.
Defined.
