(* ===== verification/Listener.v ===== *)
(** * The event listener of a node

    [listener/src/lib.rs], [listener/src/version_fetcher.rs],
    [listener/src/event_listener_status.rs] and
    [listener/src/keep_alive_monitor.rs].  A listener fetches the metadata of its
    node, refuses incompatible ones, connects to the event streams and starts over
    when they are lost, up to a number of attempts.  The outcomes of the network
    are the inputs of the definitions; time is in milliseconds. *)

From S2P Require Import Prelude Json SseData ConnectionManager.

(** ** Node metadata *)

(** [listener/src/version_fetcher.rs:17-21], [MetadataFetchError]. *)
Inductive MetadataFetchError : Set :=
| FetchError (error : string)
| VersionNotAcceptable (message : string).

(** [listener/src/version_fetcher.rs:33-37], [NodeMetadata]. *)
Record NodeMetadata := mkMetadata {
  build_version : ProtocolVersion;
  metadata_network_name : string;
}.

#[export] Instance NodeMetadata_eq_dec : EqDecision NodeMetadata.
Proof. solve_decision. Defined.

(** [listener/src/version_fetcher.rs:14-15], [MINIMAL_NODE_VERSION]. *)
Definition MINIMAL_NODE_VERSION : ProtocolVersion := mkVersion 2 0 0.

(** [listener/src/version_fetcher.rs:39-51], [NodeMetadata::validate]. *)
Definition validate (self : NodeMetadata) : result MetadataFetchError unit :=
  if version_ltb (build_version self) MINIMAL_NODE_VERSION
  then Err (VersionNotAcceptable "Node version expected to be >= 2.0.0.")
  else Ok tt.

(** [Value::get] with a string key. *)
Definition value_get (key : string) (v : Value) : option Value :=
  match v with VObject o => map_get key o | _ => None end.

(** The part of a text before the first occurrence of a character
    ([split(c).next()]). *)
Fixpoint before_char (c : Ascii.ascii) (s : string) : string :=
  match s with
  | EmptyString => EmptyString
  | String c' s => if decide (c = c') then EmptyString else String c' (before_char c s)
  end.

Section Status.
(** [ProtocolVersion::from_str] and the text of a JSON value. *)
Context (version_from_str : string -> result string ProtocolVersion) (value_to_string : Value -> string).

(** [listener/src/version_fetcher.rs:103-120], [try_resolve_network_name]. *)
Definition try_resolve_network_name (raw_response : Value) : result string string :=
  match value_get "chainspec_name" raw_response with
  | Some (VString raw) => Ok raw
  | _ => Err ("failed to get chainspec_name from status response " +:+ value_to_string raw_response)
  end.

(** [listener/src/version_fetcher.rs:122-145], [try_resolve_version]. *)
Definition try_resolve_version (raw_response : Value) : result string ProtocolVersion :=
  match value_get "build_version" raw_response with
  | Some (VString text) =>
      let raw := before_char (Ascii.ascii_of_nat 45) text in
      map_err (fun error => "failed parsing build version from '" +:+ raw +:+ "': " +:+ error)
        (version_from_str raw)
  | _ => Err ("failed to get build_version from status response " +:+ value_to_string raw_response)
  end.

(** [listener/src/version_fetcher.rs:83-101], [fetch_metadata_from_status]:
    [response] is the JSON body of the status response, or why there is none. *)
Definition fetch_metadata_from_status (response : result string Value) : result string NodeMetadata :=
  let? response_json := response in
  let? build_version := try_resolve_version response_json in
  let? network_name := try_resolve_network_name response_json in
  Ok (mkMetadata build_version network_name).

(** [listener/src/version_fetcher.rs:67-80], [StatusEndpointVersionFetcher::fetch]. *)
Definition fetch (response : result string Value) : result MetadataFetchError NodeMetadata :=
  match fetch_metadata_from_status response with
  | Ok metadata => let? _ := validate metadata in Ok metadata
  | Err fetch_err => Err (FetchError fetch_err)
  end.

End Status.

(** ** The listener *)

(** [listener/src/event_listener_status.rs:5-22], [EventListenerStatus]. *)
Inductive EventListenerStatus : Set :=
| Preparing
| ConnectingStatus
| Connected
| Reconnecting
| ReconnectionsExhausted
| IncompatibleVersion.

(** [listener/src/event_listener_status.rs:25-36], [EventListenerStatus::log_status]:
    the value that is stored as a metric. *)
Definition status_value (self : EventListenerStatus) : Z :=
  match self with
  | Preparing => 0
  | ConnectingStatus => 1
  | Connected => 2
  | Reconnecting => 3
  | ReconnectionsExhausted => -1
  | IncompatibleVersion => -2
  end.

(** [listener/src/lib.rs:71-89], [EventListener], of which the loop uses the
    metadata, the configured network, the number of attempts and whether partial
    connections are allowed; the statuses it logs are recorded. *)
Record EventListener := mkListener {
  node_metadata : NodeMetadata;
  configured_network : option string;
  max_connection_attempts : nat;
  allow_partial_connection : bool;
  statuses : list EventListenerStatus;
}.

(** [listener/src/lib.rs:91-94], [ConnectOutcome]. *)
Inductive ConnectOutcome : Set :=
| ConnectionLost
| SystemReconnect.

(** [listener/src/lib.rs:96-100], [GetNodeMetadataResult]. *)
Inductive GetNodeMetadataResult : Set :=
| MetadataOk (changed : option NodeMetadata)
| MetadataRetry
| MetadataError (error : string).

Definition log_status (status : EventListenerStatus) (self : EventListener) : EventListener :=
  mkListener (node_metadata self) (configured_network self) (max_connection_attempts self)
    (allow_partial_connection self) (statuses self ++ [status]).

Definition with_metadata (self : EventListener) (m : NodeMetadata) : EventListener :=
  mkListener m (configured_network self) (max_connection_attempts self)
    (allow_partial_connection self) (statuses self).

(** How a connection task ends: it panics or is cancelled, or it returns. *)
Inductive JoinResult : Set :=
| JoinError
| Joined (res : result ConnectionManagerError unit).

(** [listener/src/lib.rs:249-285], [EventListener::get_metadata]. *)
Definition get_metadata (self : EventListener) (fetch_result : result MetadataFetchError NodeMetadata)
    : GetNodeMetadataResult * EventListener :=
  match fetch_result with
  | Ok metadata =>
      let mismatch :=
        match configured_network self with
        | Some network_name => bool_decide (network_name <> metadata_network_name metadata)
        | None => false
        end in
      if mismatch
      then (MetadataError ("Network name " +:+ default EmptyString (configured_network self) +:+
                           " does't match name " +:+ metadata_network_name metadata +:+
                           " configured for node connection"), self)
      else if decide (node_metadata self = metadata) then (MetadataOk None, self)
      else (MetadataOk (Some metadata), self)
  | Err (VersionNotAcceptable msg) => (MetadataError msg, log_status IncompatibleVersion self)
  | Err (FetchError _) => (MetadataRetry, self)
  end.

(** [listener/src/lib.rs:200-247], [EventListener::allow_partial_connection_wait]:
    the tasks end in the order of the list. *)
Fixpoint allow_partial_connection_wait (self : EventListener) (ended : list JoinResult)
    : option ConnectOutcome * EventListener :=
  match ended with
  | [] => (None, self)
  | task_result :: futures_left =>
      match task_result with
      | JoinError => (Some ConnectionLost, self)
      | Joined (Ok _) => (Some SystemReconnect, self)
      | Joined (Err (NonRecoverableError _)) => (Some ConnectionLost, log_status Reconnecting self)
      | Joined (Err (InitialConnectionError _)) =>
          match futures_left with
          | [] => (Some ConnectionLost, log_status Reconnecting self)
          | _ => allow_partial_connection_wait self futures_left
          end
      end
  end.

(** [listener/src/lib.rs:162-199], [EventListener::do_connect]: [built] says whether
    the connections could be built; [ended] how their tasks end, in order.  [None]
    is the panic of [select_all] without tasks. *)
Definition do_connect (self : EventListener) (built : result string unit) (ended : list JoinResult)
    : option (result string ConnectOutcome) * EventListener :=
  match built with
  | Err e => (Some (Err e), self)
  | Ok _ =>
      if allow_partial_connection self
      then let (outcome, self) := allow_partial_connection_wait self ended in (Ok <$> outcome, self)
      else
        match ended with
        | [] => (None, self)
        | Joined (Ok _) :: _ => (Some (Ok SystemReconnect), self)
        | Joined (Err _) :: _ => (Some (Ok ConnectionLost), log_status Reconnecting self)
        | JoinError :: _ => (Some (Ok ConnectionLost), log_status Reconnecting self)
        end
  end.

(** [listener/src/lib.rs:155-160], [EventListener::log_connections_exhausted_if_needed]. *)
Definition log_connections_exhausted_if_needed (self : EventListener) (current_attempt : nat) : EventListener :=
  if (max_connection_attempts self <=? current_attempt)%nat
  then log_status ReconnectionsExhausted self else self.

(** What the network does in one turn of the loop. *)
Record Turn := mkTurn {
  fetched : result MetadataFetchError NodeMetadata;
  built : result string unit;
  ended : list JoinResult;
}.

(** How the loop stands after some turns: it still runs, has returned its error,
    or has panicked. *)
Inductive Progress : Set :=
| Running
| Returned (error : string)
| Panicked.

Definition MAX_CONNECTION_ATTEMPTS_REACHED : string := "Max connection attempts reached".

(** [listener/src/lib.rs:109-146], the loop of [stream_aggregated_events]. *)
Fixpoint stream_loop (self : EventListener) (current_attempt : nat) (turns : list Turn)
    : Progress * EventListener :=
  if (max_connection_attempts self <? current_attempt)%nat
  then (Returned MAX_CONNECTION_ATTEMPTS_REACHED, log_status ReconnectionsExhausted self)
  else
    match turns with
    | [] => (Running, self)
    | turn :: turns =>
        match get_metadata self (fetched turn) with
        | (MetadataError e, self) => (Returned e, self)
        | (MetadataRetry, self) =>
            stream_loop (log_connections_exhausted_if_needed self (S current_attempt)) (S current_attempt) turns
        | (MetadataOk changed, self) =>
            let current_attempt := if changed then 1%nat else current_attempt in
            let self := from_option (with_metadata self) self changed in
            match do_connect self (built turn) (ended turn) with
            | (None, self) => (Panicked, self)
            | (Some _, self) => stream_loop self (S current_attempt) turns
            end
        end
    end.

(** [listener/src/lib.rs:109-146], [EventListener::stream_aggregated_events]. *)
Definition stream_aggregated_events (self : EventListener) (turns : list Turn) : Progress * EventListener :=
  stream_loop (log_status ConnectingStatus (log_status Preparing self)) 1 turns.

(** ** The budget of connections *)

Definition accepts_network (self : EventListener) (m : NodeMetadata) : Prop :=
  forall network, configured_network self = Some network -> network = metadata_network_name m.

Lemma get_metadata_accepted (self : EventListener) (m : NodeMetadata) :
  accepts_network self m ->
  get_metadata self (Ok m) = (MetadataOk (if decide (node_metadata self = m) then None else Some m), self).
Proof.
  intros Hn. unfold get_metadata. destruct (configured_network self) as [network|] eqn:Hc.
  - rewrite bool_decide_false by (intros Hne; by apply Hne, Hn). by case_decide.
  - by case_decide.
Qed.

(** The parts of a listener that a connection does not change. *)
Definition same_settings (self self' : EventListener) : Prop :=
  node_metadata self' = node_metadata self /\ configured_network self' = configured_network self /\
  max_connection_attempts self' = max_connection_attempts self.

Lemma wait_same_settings (self : EventListener) (l : list JoinResult) :
  same_settings self (allow_partial_connection_wait self l).2.
Proof.
  induction l as [|[|[|[]]] l IH]; try done. simpl. by destruct l.
Qed.

Lemma do_connect_settings (self : EventListener) (b : result string unit) (l : list JoinResult) :
  same_settings self (do_connect self b l).2.
Proof.
  unfold do_connect. destruct b; [|done]. destruct (allow_partial_connection self).
  - pose proof (wait_same_settings self l). by destruct (allow_partial_connection_wait self l).
  - by destruct l as [|[|[]] l].
Qed.

(** Waiting for the connections ends when there is one. *)
Lemma wait_ends (self : EventListener) (l : list JoinResult) :
  l <> [] -> is_Some (allow_partial_connection_wait self l).1.
Proof.
  induction l as [|r l IH]; [done|]. intros _. destruct r as [|[|[]]]; simpl; eauto.
  destruct l; [by eexists|]. by apply IH.
Qed.

Lemma do_connect_ends (self : EventListener) (t : Turn) :
  is_err (built t) = true \/ ended t <> [] -> is_Some (do_connect self (built t) (ended t)).1.
Proof.
  unfold do_connect. intros He. destruct (built t) as [u|]; [|by eexists].
  destruct He as [He|He]; [done|]. destruct (allow_partial_connection self).
  - pose proof (wait_ends self (ended t) He) as [o Ho].
    destruct (allow_partial_connection_wait self (ended t)) as [outcome self']. simpl in *. subst.
    by eexists.
  - destruct (ended t) as [|[|[]] l]; [done|by eexists..].
Qed.

Lemma stream_loop_budget (m : NodeMetadata) (turns : list Turn) (self : EventListener) (attempt : nat) :
  accepts_network self m -> node_metadata self = m ->
  Forall (fun t => fetched t = Ok m /\ (is_err (built t) = true \/ ended t <> [])) turns ->
  (stream_loop self attempt turns).1 =
  if (max_connection_attempts self <? attempt + length turns)%nat
  then Returned MAX_CONNECTION_ATTEMPTS_REACHED else Running.
Proof.
  intros Hn Hm Hall. revert self attempt Hn Hm.
  induction Hall as [|t turns [Hf He] _ IH]; intros self attempt Hn Hm.
  { simpl. rewrite Nat.add_0_r. by destruct (_ <? _)%nat. }
  cbn [stream_loop length]. destruct (Nat.ltb_spec (max_connection_attempts self) attempt) as [Hlt|Hle].
  { destruct (Nat.ltb_spec (max_connection_attempts self) (attempt + S (length turns))); [done|lia]. }
  rewrite Hf, (get_metadata_accepted _ _ Hn), decide_True by done. cbn [from_option].
  pose proof (do_connect_ends self t He) as [o Ho].
  pose proof (do_connect_settings self (built t) (ended t)) as (Hm' & Hc' & Hx').
  destruct (do_connect self (built t) (ended t)) as [outcome self']. simpl in *. subst outcome.
  rewrite IH, Hx', Nat.add_succ_r; [done| |congruence].
  unfold accepts_network. by rewrite Hc'.
Qed.

(** C32. The attempts of a listener are a budget for its whole life: towards a node
    that answers with the same metadata it makes exactly [max_connection_attempts]
    rounds of connections, however these end ([SystemReconnect] included) and
    however long they lasted, and then returns the error that the attempts are
    exhausted. *)
Theorem listener_budget (self : EventListener) (m : NodeMetadata) (turns : list Turn) :
  accepts_network self m -> (1 <= max_connection_attempts self)%nat ->
  Forall (fun t => fetched t = Ok m /\ (is_err (built t) = true \/ ended t <> [])) turns ->
  (stream_aggregated_events self turns).1 =
  if (max_connection_attempts self <=? length turns)%nat
  then Returned MAX_CONNECTION_ATTEMPTS_REACHED else Running.
Proof.
  intros Hn Hmax Hall. unfold stream_aggregated_events. set (self0 := log_status _ _).
  destruct (decide (node_metadata self = m)) as [Hm|Hm].
  { rewrite (stream_loop_budget m) by done. done. }
  destruct Hall as [|t turns [Hf He] Hall].
  { simpl. by destruct (max_connection_attempts self) as [|n]; [lia|]. }
  cbn [stream_loop length]. destruct (Nat.ltb_spec (max_connection_attempts self0) 1) as [Hlt|_].
  { simpl in Hlt. lia. }
  rewrite Hf, (get_metadata_accepted self0 m) by done. rewrite decide_False by done. cbn [from_option].
  pose proof (do_connect_ends (with_metadata self0 m) t He) as [o Ho].
  pose proof (do_connect_settings (with_metadata self0 m) (built t) (ended t)) as (Hm' & Hc' & Hx').
  destruct (do_connect _ (built t) (ended t)) as [outcome self']. simpl in *. subst outcome.
  rewrite (stream_loop_budget m), Hx' by (done || unfold accepts_network; by rewrite Hc'). done.
Qed.

Definition sample_listener : EventListener :=
  mkListener (mkMetadata (mkVersion 1 0 0) EmptyString) None 2 true [].

Definition sample_turn : Turn :=
  mkTurn (Ok (mkMetadata (mkVersion 2 0 0) "net")) (Ok tt) [Joined (Ok tt)].

Lemma listener_budget_witness :
  (stream_aggregated_events sample_listener [sample_turn; sample_turn]).1 =
  Returned MAX_CONNECTION_ATTEMPTS_REACHED.
Proof.
  etrans.
  - apply (listener_budget sample_listener (mkMetadata (mkVersion 2 0 0) "net")).
    + intros network. discriminate.
    + simpl. lia.
    + apply Forall_forall. intros t Ht. assert (t = sample_turn) as -> by set_solver.
      split; [reflexivity|right; discriminate].
  - reflexivity.
Defined.

(** ** Refused nodes *)

Lemma stream_loop_refused (self : EventListener) (attempt : nat) (t : Turn) (turns : list Turn) (e : string) :
  (attempt <= max_connection_attempts self)%nat ->
  (get_metadata self (fetched t)).1 = MetadataError e ->
  (stream_loop self attempt (t :: turns)).1 = Returned e.
Proof.
  intros Ha Hg. cbn [stream_loop]. destruct (Nat.ltb_spec (max_connection_attempts self) attempt); [lia|].
  destruct (get_metadata self (fetched t)) as [r self']. simpl in Hg. by subst r.
Qed.

(** A listener gives up on a node it must not connect to: if the status of the node
    names a version below 2.0.0, or a network other than the configured one, the
    listener returns an error at once, whatever would follow; a status without a
    readable version or network costs one attempt and nothing else. *)
Theorem incompatible_node_refused (version_from_str : string -> result string ProtocolVersion)
    (value_to_string : Value -> string) (self : EventListener) (status : Value) (t : Turn) (turns : list Turn)
    (attempt : nat) :
  fetched t = fetch version_from_str value_to_string (Ok status) ->
  (attempt <= max_connection_attempts self)%nat ->
  match try_resolve_version version_from_str value_to_string status,
        try_resolve_network_name value_to_string status with
  | Ok v, Ok network =>
      version_ltb v (mkVersion 2 0 0) = true \/
      (exists configured, configured_network self = Some configured /\ configured <> network) ->
      exists e, (stream_loop self attempt (t :: turns)).1 = Returned e
  | _, _ =>
      stream_loop self attempt (t :: turns) =
      stream_loop (log_connections_exhausted_if_needed self (S attempt)) (S attempt) turns
  end.
Proof.
  intros Hf Ha. unfold fetch, fetch_metadata_from_status in Hf. simp_result.
  destruct (try_resolve_version _ _ status) as [v|e] eqn:Hv;
    [destruct (try_resolve_network_name _ status) as [network|e] eqn:Hn|]; simp_result.
  - unfold validate in Hf. simpl in Hf. change (mkVersion 2 0 0) with MINIMAL_NODE_VERSION.
    destruct (version_ltb v MINIMAL_NODE_VERSION); simp_result.
    { intros _. eexists. apply stream_loop_refused; [done|]. by rewrite Hf. }
    intros [Hlt|(configured & Hc & Hne)]; [done|]. eexists. apply stream_loop_refused; [done|].
    rewrite Hf. unfold get_metadata. rewrite Hc. by rewrite bool_decide_true.
  - destruct (Nat.ltb_spec (max_connection_attempts self) attempt); [lia|]. by rewrite Hf.
  - destruct (Nat.ltb_spec (max_connection_attempts self) attempt); [lia|]. by rewrite Hf.
Qed.

Definition sample_from_str (s : string) : result string ProtocolVersion :=
  if decide (s = "1.5.6") then Ok (mkVersion 1 5 6) else Err "bad version".

Definition sample_status : Value :=
  VObject [("build_version", VString "1.5.6-abc"); ("chainspec_name", VString "net")].

Lemma incompatible_node_refused_witness :
  exists e,
    (stream_loop sample_listener 1
       [mkTurn (fetch sample_from_str (fun _ => "status") (Ok sample_status)) (Ok tt) []]).1 = Returned e.
Proof.
  apply (incompatible_node_refused sample_from_str (fun _ => "status") sample_listener sample_status
    (mkTurn (fetch sample_from_str (fun _ => "status") (Ok sample_status)) (Ok tt) []) [] 1 eq_refl).
  - simpl. lia.
  - left. reflexivity.
Defined.

(** ** The keep-alive monitor *)

(** [listener/src/keep_alive_monitor.rs:17-30], [KeepAliveMonitor]: the time of the
    last message, the timeout, and whether the token is cancelled. *)
Record KeepAliveMonitor := mkMonitor {
  last_message_seen_at : option Z;
  no_message_timeout : Z;
  cancelled : bool;
}.

(** [listener/src/keep_alive_monitor.rs:45-57], [KeepAliveMonitor::new]. *)
Definition KeepAliveMonitor_new (no_message_timeout : Z) : KeepAliveMonitor :=
  mkMonitor None no_message_timeout false.

(** [listener/src/keep_alive_monitor.rs:75-87],
    [KeepAliveMonitor::spawn_data_observing_task]: a tick is taken from the queue
    at a time. *)
Definition observe_tick (self : KeepAliveMonitor) (now : Z) : KeepAliveMonitor :=
  mkMonitor (Some now) (no_message_timeout self) (cancelled self).

(** [listener/src/keep_alive_monitor.rs:89-116],
    [KeepAliveMonitor::spawn_last_seen_checker_task]: one check at a time; after
    cancelling, the task has ended. *)
Definition check_last_seen (self : KeepAliveMonitor) (now : Z) : KeepAliveMonitor :=
  if cancelled self then self
  else
    match last_message_seen_at self with
    | Some last_seen_at =>
        if now - last_seen_at >? no_message_timeout self
        then mkMonitor (Some last_seen_at) (no_message_timeout self) true
        else self
    | None => mkMonitor (Some now) (no_message_timeout self) false
    end.

(** What the two tasks do, and when. *)
Inductive MonitorAction : Set :=
| Tick (at_ : Z)
| CheckLastSeen (at_ : Z).

Definition monitor_act (self : KeepAliveMonitor) (a : MonitorAction) : KeepAliveMonitor :=
  match a with
  | Tick now => observe_tick self now
  | CheckLastSeen now => check_last_seen self now
  end.

Definition monitor_run (self : KeepAliveMonitor) (actions : list MonitorAction) : KeepAliveMonitor :=
  foldl monitor_act self actions.

(** The time of the last sign of life in a run: the last tick, or the first check
    if no tick came before it. *)
Definition sign_of_life (seen : option Z) (a : MonitorAction) : option Z :=
  match a, seen with
  | Tick now, _ => Some now
  | CheckLastSeen now, None => Some now
  | CheckLastSeen _, Some _ => seen
  end.

(** A check that comes more than the timeout after the last sign of life. *)
Fixpoint stale_check (timeout : Z) (seen : option Z) (actions : list MonitorAction) : bool :=
  match actions with
  | [] => false
  | a :: actions =>
      match a, seen with CheckLastSeen now, Some t => timeout <? now - t | _, _ => false end ||
      stale_check timeout (sign_of_life seen a) actions
  end.

(** A connection is cancelled exactly when it is stale: the monitor cancels if
    and only if some check comes more than the timeout after the last sign of life
    before it, in every interleaving of ticks and checks; so a connection whose
    ticks come in time is never cancelled, and a silent one is, by the first check
    after the timeout. *)
Theorem monitor_cancels_stale (timeout : Z) (actions : list MonitorAction) :
  cancelled (monitor_run (KeepAliveMonitor_new timeout) actions) = stale_check timeout None actions.
Proof.
  unfold monitor_run. change None with (last_message_seen_at (KeepAliveMonitor_new timeout)).
  assert (cancelled (KeepAliveMonitor_new timeout) = false) as Hc by done.
  assert (no_message_timeout (KeepAliveMonitor_new timeout) = timeout) as Ht by done.
  revert Hc Ht. generalize (KeepAliveMonitor_new timeout) as self.
  assert (forall l self, cancelled self = true -> cancelled (foldl monitor_act self l) = true) as Hstay.
  { induction l as [|a l IH]; intros self Hc; [done|]. apply IH. destruct a; simpl; [done|].
    unfold check_last_seen. by rewrite Hc. }
  induction actions as [|a actions IH]; intros self Hc Ht; [done|]. simpl.
  destruct a as [now|now]; simpl.
  { rewrite IH by done. done. }
  unfold check_last_seen. rewrite Hc. destruct (last_message_seen_at self) as [t|] eqn:Hl; simpl.
  - rewrite Ht. rewrite Z.gtb_ltb. destruct (timeout <? now - t); [by apply Hstay|].
    rewrite IH by done. by rewrite Hl.
  - rewrite IH by done. done.
Qed.
