(* ===== verification/Sql.v ===== *)
(** * The database schema and its engine

    [event_sidecar/src/sql/tables/*.rs] build the statements, an SQL engine runs
    them.  A table is its definition and its rows; a statement that inserts a row
    is checked against the columns, the unique and primary keys and the foreign
    keys the definition declares, which is what the [CREATE TABLE] statements ask of
    the engine.  Column types and their ranges are in [Columns.v]; timestamps that the
    engine supplies are whole seconds. *)

From S2P Require Import Prelude.

(** ** The engine *)

(** The value of a column. *)
Inductive Col : Set :=
| CInt (z : Z)
| CText (s : string).

#[export] Instance Col_eq_dec : EqDecision Col.
Proof. solve_decision. Defined.

Abbreviation Row := (gmap string Col).

(** A table definition: its columns (none of which may be null), those filled with
    the current time by default, the keys that must be unique ([true] for the
    primary key) and the foreign keys, as column, table and column there. *)
Record TableDef := mkTableDef {
  table_name : string;
  columns : list string;
  defaulted : list string;
  unique_keys : list (bool * list string);
  foreign_keys : list (string * string * string);
}.

Record Table := mkTable {
  def : TableDef;
  rows : list Row;
}.

Abbreviation Database := (gmap string Table).

(** [sqlx::Error] with the database error it carries, if any: the code, the table
    and the message. *)
Record SqlxError := mkSqlxError {
  code : option string;
  error_table : option string;
  message : string;
}.

Inductive Engine : Set :=
| Sqlite
| Postgres.

(** The error of a violated key: SQLite has codes for primary and other keys and
    names the columns, PostgreSQL has one code and names the table. *)
Definition unique_violation (engine : Engine) (table : string) (key : bool * list string) : SqlxError :=
  match engine with
  | Sqlite =>
      mkSqlxError (Some (if key.1 then "1555" else "2067")) None
        ("UNIQUE constraint failed: " +:+ string_join ", " ((fun c => table +:+ "." +:+ c) <$> key.2))
  | Postgres =>
      mkSqlxError (Some "23505") (Some table) "duplicate key value violates unique constraint"
  end.

Definition other_error (message : string) : SqlxError := mkSqlxError None None message.

Definition project (cols : list string) (r : Row) : list (option Col) := (fun c => r !! c) <$> cols.

(** The rows agree on a key. *)
Definition same_key (key : list string) (r r' : Row) : bool := bool_decide (project key r = project key r').

Definition clashes (key : list string) (r : Row) (l : list Row) : bool := existsb (same_key key r) l.

(** The first key on which a row clashes with the rows of a table. *)
Definition violated_key (t : Table) (r : Row) : option (bool * list string) :=
  head (filter (fun key => clashes key.2 r (rows t) = true) (unique_keys (def t))).

Definition references (db : Database) (r : Row) (fk : string * string * string) : bool :=
  let '(col, table, target) := fk in
  match db !! table with
  | Some t => existsb (fun r' => bool_decide (r' !! target = r !! col)) (rows t)
  | None => false
  end.

Definition complete (d : TableDef) (r : Row) : bool :=
  forallb (fun c => bool_decide (is_Some (r !! c))) (columns d).

(** The row with the defaults of its table. *)
Definition with_defaults (d : TableDef) (now : Z) (r : Row) : Row :=
  foldl (fun r c => match r !! c with Some _ => r | None => <[c := CInt now]> r end) r (defaulted d).

Definition add_row (r : Row) (t : Table) : Table := mkTable (def t) (rows t ++ [r]).

(** [INSERT INTO table VALUES row]. *)
Definition insert_row (engine : Engine) (now : Z) (db : Database) (table : string) (r : Row)
    : result SqlxError Database :=
  match db !! table with
  | None => Err (other_error ("no such table: " +:+ table))
  | Some t =>
      let r := with_defaults (def t) now r in
      if negb (complete (def t) r) then Err (other_error "NOT NULL constraint failed")
      else
        match violated_key t r with
        | Some key => Err (unique_violation engine table key)
        | None =>
            if forallb (references db r) (foreign_keys (def t))
            then Ok (<[table := add_row r t]> db)
            else Err (other_error "FOREIGN KEY constraint failed")
        end
  end.

(** [CREATE TABLE IF NOT EXISTS]. *)
Definition create_table (db : Database) (d : TableDef) : Database :=
  match db !! table_name d with
  | Some _ => db
  | None => <[table_name d := mkTable d []]> db
  end.

(** [INSERT ... ON CONFLICT (column) DO NOTHING]: a row that clashes on the column
    is left out. *)
Definition insert_or_ignore (engine : Engine) (now : Z) (column : string) (db : Database) (table : string) (r : Row)
    : result SqlxError Database :=
  match db !! table with
  | Some t => if clashes [column] r (rows t) then Ok db else insert_row engine now db table r
  | None => insert_row engine now db table r
  end.

Definition row (l : list (string * Col)) : Row := list_to_map l.

(** ** The tables *)

(** [event_sidecar/src/sql/tables/migration.rs:15-28], [create_table_stmt]. *)
Definition migration_table : TableDef := {|
  table_name := "Migration";
  columns := ["version"; "is_success"];
  defaulted := [];
  unique_keys := [(true, ["version"])];
  foreign_keys := [];
|}.

(** [event_sidecar/src/sql/tables/event_type.rs:25-42], [create_table_stmt]. *)
Definition event_type_table : TableDef := {|
  table_name := "event_type";
  columns := ["event_type_id"; "event_type_name"];
  defaulted := [];
  unique_keys := [(true, ["event_type_id"]); (false, ["event_type_name"])];
  foreign_keys := [];
|}.

(** [event_sidecar/src/sql/tables/transaction_type.rs:21-38], [create_table_stmt]. *)
Definition transaction_type_table : TableDef := {|
  table_name := "TransactionType";
  columns := ["transaction_type_id"; "transaction_type_name"];
  defaulted := [];
  unique_keys := [(true, ["transaction_type_id"]); (false, ["transaction_type_name"])];
  foreign_keys := [];
|}.

(** [event_sidecar/src/sql/tables/event_log.rs:24-83], [create_table_stmt]. *)
Definition event_log_table : TableDef := {|
  table_name := "event_log";
  columns := ["event_log_id"; "event_type_id"; "event_source_address"; "event_id"; "event_key";
              "inserted_timestamp"; "emitted_timestamp"; "api_version"; "network_name"];
  defaulted := ["inserted_timestamp"; "emitted_timestamp"];
  unique_keys := [(true, ["event_log_id"]);
                  (false, ["event_source_address"; "event_id"; "event_type_id"; "event_key"])];
  foreign_keys := [("event_type_id", "event_type", "event_type_id")];
|}.

(** [event_sidecar/src/sql/tables/transaction_event.rs:16-69], [create_table_stmt]. *)
Definition transaction_event_table : TableDef := {|
  table_name := "transaction_event";
  columns := ["event_log_id"; "transaction_hash"; "transaction_type_id"];
  defaulted := [];
  unique_keys := [(true, ["transaction_hash"; "transaction_type_id"; "event_log_id"])];
  foreign_keys := [("event_log_id", "event_log", "event_log_id");
                   ("transaction_type_id", "TransactionType", "transaction_type_id")];
|}.

(** [event_sidecar/src/sql/tables/block_added.rs:18-51], [create_table_stmt]. *)
Definition block_added_table : TableDef := {|
  table_name := "BlockAdded";
  columns := ["height"; "block_hash"; "raw"; "event_log_id"];
  defaulted := [];
  unique_keys := [(false, ["height"]); (true, ["block_hash"; "height"])];
  foreign_keys := [("event_log_id", "event_log", "event_log_id")];
|}.

(** [event_sidecar/src/sql/tables/transaction_accepted.rs:18-74], [create_table_stmt]. *)
Definition transaction_accepted_table : TableDef := {|
  table_name := "TransactionAccepted";
  columns := ["transaction_hash"; "transaction_type_id"; "raw"; "event_log_id"];
  defaulted := [];
  unique_keys := [(true, ["transaction_type_id"; "transaction_hash"])];
  foreign_keys := [("event_log_id", "event_log", "event_log_id");
                   ("transaction_type_id", "TransactionType", "transaction_type_id")];
|}.

(** [event_sidecar/src/sql/tables/transaction_processed.rs:18-77], [create_table_stmt]. *)
Definition transaction_processed_table : TableDef := {|
  table_name := "TransactionProcessed";
  columns := ["transaction_hash"; "transaction_type_id"; "raw"; "event_log_id"];
  defaulted := [];
  unique_keys := [(true, ["transaction_hash"; "transaction_type_id"])];
  foreign_keys := [("event_log_id", "event_log", "event_log_id");
                   ("transaction_type_id", "TransactionType", "transaction_type_id")];
|}.

(** [event_sidecar/src/sql/tables/transaction_expired.rs:18-73], [create_table_stmt]. *)
Definition transaction_expired_table : TableDef := {|
  table_name := "TransactionExpired";
  columns := ["transaction_hash"; "transaction_type_id"; "raw"; "event_log_id"];
  defaulted := [];
  unique_keys := [(true, ["transaction_hash"])];
  foreign_keys := [("event_log_id", "event_log", "event_log_id");
                   ("transaction_type_id", "TransactionType", "transaction_type_id")];
|}.

(** [event_sidecar/src/sql/tables/fault.rs:18-49], [create_table_stmt]. *)
Definition fault_table : TableDef := {|
  table_name := "Fault";
  columns := ["era"; "public_key"; "raw"; "event_log_id"];
  defaulted := [];
  unique_keys := [(true, ["era"; "public_key"])];
  foreign_keys := [("event_log_id", "event_log", "event_log_id")];
|}.

(** [event_sidecar/src/sql/tables/finality_signature.rs:18-54], [create_table_stmt]. *)
Definition finality_signature_table : TableDef := {|
  table_name := "FinalitySignature";
  columns := ["block_hash"; "public_key"; "raw"; "event_log_id"];
  defaulted := [];
  unique_keys := [(true, ["block_hash"; "public_key"])];
  foreign_keys := [("event_log_id", "event_log", "event_log_id")];
|}.

(** [event_sidecar/src/sql/tables/step.rs:17-41], [create_table_stmt]. *)
Definition step_table : TableDef := {|
  table_name := "Step";
  columns := ["era"; "raw"; "event_log_id"];
  defaulted := [];
  unique_keys := [(true, ["era"])];
  foreign_keys := [("event_log_id", "event_log", "event_log_id")];
|}.

(** [event_sidecar/src/sql/tables/shutdown.rs:18-54], [create_table_stmt]. *)
Definition shutdown_table : TableDef := {|
  table_name := "Shutdown";
  columns := ["event_source_address"; "shutdown_timestamp"; "event_log_id"];
  defaulted := ["shutdown_timestamp"];
  unique_keys := [(true, ["event_source_address"; "shutdown_timestamp"])];
  foreign_keys := [("event_log_id", "event_log", "event_log_id")];
|}.

(** ** The statements that insert *)

(** [event_sidecar/src/sql/tables/migration.rs:40-46], [create_insert_stmt]. *)
Definition insert_migration (version : Z) (is_success : bool) : string * Row :=
  ("Migration", row [("version", CInt version); ("is_success", CInt (Z.b2z is_success))]).

(** [event_sidecar/src/sql/tables/event_type.rs:14-23], [EventTypeId]. *)
Inductive EventTypeId : Set :=
| ET_BlockAdded
| ET_TransactionAccepted
| ET_TransactionExpired
| ET_TransactionProcessed
| ET_Fault
| ET_FinalitySignature
| ET_Step
| ET_Shutdown.

Definition event_type_id (e : EventTypeId) : Z :=
  match e with
  | ET_BlockAdded => 1
  | ET_TransactionAccepted => 2
  | ET_TransactionExpired => 3
  | ET_TransactionProcessed => 4
  | ET_Fault => 5
  | ET_FinalitySignature => 6
  | ET_Step => 7
  | ET_Shutdown => 8
  end.

(** [event_sidecar/src/sql/tables/event_type.rs:44-80], [create_initialise_stmt]. *)
Definition initialise_event_type : list (string * Row) :=
  (fun '(e, name) =>
     ("event_type", row [("event_type_id", CInt (event_type_id e)); ("event_type_name", CText name)])) <$>
  [(ET_BlockAdded, "BlockAdded"); (ET_TransactionAccepted, "TransactionAccepted");
   (ET_TransactionExpired, "TransactionExpired"); (ET_TransactionProcessed, "TransactionProcessed");
   (ET_Fault, "Fault"); (ET_FinalitySignature, "FinalitySignature"); (ET_Step, "Step");
   (ET_Shutdown, "Shutdown")].

(** [event_sidecar/src/sql/tables/transaction_type.rs:6-10], [TransactionTypeId]. *)
Inductive TransactionTypeId : Set :=
| TT_Deploy
| TT_Version1.

#[export] Instance TransactionTypeId_eq_dec : EqDecision TransactionTypeId.
Proof. solve_decision. Defined.

Definition transaction_type_id (t : TransactionTypeId) : Z :=
  match t with TT_Deploy => 0 | TT_Version1 => 1 end.

(** [event_sidecar/src/sql/tables/transaction_type.rs:40-61], [create_initialise_stmt]. *)
Definition initialise_transaction_type : list (string * Row) :=
  (fun '(t, name) =>
     ("TransactionType",
      row [("transaction_type_id", CInt (transaction_type_id t)); ("transaction_type_name", CText name)])) <$>
  [(TT_Deploy, "Deploy"); (TT_Version1, "Version1")].

(** [event_sidecar/src/sql/tables/event_log.rs:85-114], [create_insert_stmt]; the
    identifier [event_log_id] is the one the engine generates and returns. *)
Definition insert_event_log (event_log_id type_id : Z) (event_source_address : string) (event_id : Z)
    (event_key api_version network_name : string) : string * Row :=
  ("event_log",
   row [("event_log_id", CInt event_log_id); ("event_type_id", CInt type_id);
        ("event_source_address", CText event_source_address); ("event_id", CInt event_id);
        ("event_key", CText event_key); ("api_version", CText api_version);
        ("network_name", CText network_name)]).

(** [event_sidecar/src/sql/tables/transaction_event.rs:71-91], [create_insert_stmt]. *)
Definition insert_transaction_event (event_log_id : Z) (transaction_type : Z) (transaction_hash : string)
    : string * Row :=
  ("transaction_event",
   row [("transaction_type_id", CInt transaction_type); ("event_log_id", CInt event_log_id);
        ("transaction_hash", CText transaction_hash)]).

(** [event_sidecar/src/sql/tables/block_added.rs:53-74], [create_insert_stmt]. *)
Definition insert_block_added (height : Z) (block_hash raw : string) (event_log_id : Z) : string * Row :=
  ("BlockAdded",
   row [("height", CInt height); ("block_hash", CText block_hash); ("raw", CText raw);
        ("event_log_id", CInt event_log_id)]).

(** [event_sidecar/src/sql/tables/transaction_accepted.rs:76-97], [create_insert_stmt]. *)
Definition insert_transaction_accepted (transaction_type : Z) (transaction_hash raw : string) (event_log_id : Z)
    : string * Row :=
  ("TransactionAccepted",
   row [("transaction_type_id", CInt transaction_type); ("transaction_hash", CText transaction_hash);
        ("raw", CText raw); ("event_log_id", CInt event_log_id)]).

(** [event_sidecar/src/sql/tables/transaction_processed.rs:79-100], [create_insert_stmt]. *)
Definition insert_transaction_processed (transaction_type : Z) (transaction_hash raw : string) (event_log_id : Z)
    : string * Row :=
  ("TransactionProcessed",
   row [("transaction_type_id", CInt transaction_type); ("transaction_hash", CText transaction_hash);
        ("raw", CText raw); ("event_log_id", CInt event_log_id)]).

(** [event_sidecar/src/sql/tables/transaction_expired.rs:75-96], [create_insert_stmt]. *)
Definition insert_transaction_expired (transaction_type : Z) (transaction_hash raw : string) (event_log_id : Z)
    : string * Row :=
  ("TransactionExpired",
   row [("transaction_type_id", CInt transaction_type); ("transaction_hash", CText transaction_hash);
        ("raw", CText raw); ("event_log_id", CInt event_log_id)]).

(** [event_sidecar/src/sql/tables/fault.rs:51-67], [create_insert_stmt]. *)
Definition insert_fault (era : Z) (public_key raw : string) (event_log_id : Z) : string * Row :=
  ("Fault",
   row [("era", CInt era); ("public_key", CText public_key); ("raw", CText raw);
        ("event_log_id", CInt event_log_id)]).

(** [event_sidecar/src/sql/tables/finality_signature.rs:56-77], [create_insert_stmt]. *)
Definition insert_finality_signature (block_hash public_key raw : string) (event_log_id : Z) : string * Row :=
  ("FinalitySignature",
   row [("block_hash", CText block_hash); ("public_key", CText public_key); ("raw", CText raw);
        ("event_log_id", CInt event_log_id)]).

(** [event_sidecar/src/sql/tables/step.rs:43-49], [create_insert_stmt]. *)
Definition insert_step (era : Z) (raw : string) (event_log_id : Z) : string * Row :=
  ("Step", row [("era", CInt era); ("raw", CText raw); ("event_log_id", CInt event_log_id)]).

(** [event_sidecar/src/sql/tables/shutdown.rs:56-65], [create_insert_stmt]. *)
Definition insert_shutdown (event_source_address : string) (event_log_id : Z) : string * Row :=
  ("Shutdown",
   row [("event_source_address", CText event_source_address); ("event_log_id", CInt event_log_id)]).

(** ** Lemmas *)

(** The tables of the event store. *)
Definition event_tables : list TableDef :=
  [event_type_table; transaction_type_table; event_log_table; transaction_event_table; block_added_table;
   transaction_accepted_table; transaction_processed_table; transaction_expired_table; fault_table;
   finality_signature_table; step_table; shutdown_table].

(** A table has a row with the given values in the columns of a key. *)
Definition present (db : Database) (table : string) (key : list string) (vals : list (option Col)) : bool :=
  match db !! table with
  | Some t => existsb (fun r => bool_decide (vals = project key r)) (rows t)
  | None => false
  end.

Lemma present_true (db : Database) (table : string) (key : list string) (vals : list (option Col)) :
  present db table key vals = true <->
  exists t r, db !! table = Some t /\ r ∈ rows t /\ project key r = vals.
Proof.
  unfold present. split.
  - destruct (db !! table) as [t|]; [|done].
    intros (r & Hr & Hv%bool_decide_eq_true)%existsb_exists.
    exists t, r. by rewrite list_elem_of_In.
  - intros (t & r & -> & Hr & Hv). apply existsb_exists. exists r.
    rewrite <- list_elem_of_In. by rewrite bool_decide_eq_true.
Qed.

Lemma present_clashes (db : Database) (table : string) (t : Table) (key : list string) (r : Row) :
  db !! table = Some t -> clashes key r (rows t) = present db table key (project key r).
Proof. unfold present. by intros ->. Qed.

Lemma present_other (db : Database) (table table' : string) (t : Table) (key : list string) (vals : list (option Col)) :
  table <> table' -> present (<[table := t]> db) table' key vals = present db table' key vals.
Proof. intros. unfold present. by rewrite lookup_insert_ne. Qed.

Lemma present_add (db : Database) (table : string) (t : Table) (r : Row) (key : list string)
    (vals : list (option Col)) :
  db !! table = Some t ->
  present (<[table := add_row r t]> db) table key vals =
  present db table key vals || bool_decide (vals = project key r).
Proof.
  intros Ht. unfold present. rewrite lookup_insert_eq, Ht. simpl.
  by rewrite existsb_app; simpl; rewrite orb_false_r.
Qed.

Lemma present_weaken (db : Database) (table : string) (key key' : list string) (r : Row) :
  key ⊆ key' -> present db table key' (project key' r) = true -> present db table key (project key r) = true.
Proof.
  intros Hsub (t & r' & Ht & Hr & Hv)%present_true. apply present_true. exists t, r'.
  split_and!; [done..|]. apply list_fmap_ext. intros i c Hc.
  apply list_elem_of_lookup_2, Hsub, list_elem_of_lookup in Hc as [j Hj].
  pose proof (f_equal (fun l : list (option Col) => l !! j) Hv) as Hj'.
  unfold project in Hj'. rewrite !list_lookup_fmap, Hj in Hj'. by injection Hj'.
Qed.

(** Inserting into a table whose first key is part of its other keys. *)
Lemma insert_by_first_key (e : Engine) (now : Z) (db : Database) (table : string) (t : Table) (r : Row)
    (key : bool * list string) (keys : list (bool * list string)) :
  db !! table = Some t ->
  unique_keys (def t) = key :: keys ->
  Forall (fun key' => key.2 ⊆ key'.2) keys ->
  let r' := with_defaults (def t) now r in
  complete (def t) r' = true ->
  forallb (references db r') (foreign_keys (def t)) = true ->
  insert_row e now db table r =
  if present db table key.2 (project key.2 r') then Err (unique_violation e table key)
  else Ok (<[table := add_row r' t]> db).
Proof.
  intros Ht Hkeys Hsub r' Hc Hf. unfold insert_row. rewrite Ht. fold r'. rewrite Hc, Hf. simpl.
  unfold violated_key. rewrite Hkeys, filter_cons, (present_clashes _ _ _ _ _ Ht).
  destruct (present db table key.2 (project key.2 r')) eqn:Hp; [by rewrite decide_True|].
  rewrite decide_False by done.
  assert (filter (fun k : bool * list string => clashes k.2 r' (rows t) = true) keys = []) as ->; [|done].
  clear Hkeys. induction Hsub as [|k keys Hk Hsub IH]; [done|].
  rewrite filter_cons_False; [done|]. rewrite (present_clashes _ _ _ _ _ Ht). intros Hcl.
  by rewrite (present_weaken _ _ key.2 k.2 r' Hk Hcl) in Hp.
Qed.

(** Inserting into the event log under an identifier that is not in use. *)
Lemma insert_fresh_key (e : Engine) (now : Z) (db : Database) (table : string) (t : Table) (r : Row)
    (fresh key : bool * list string) :
  db !! table = Some t ->
  unique_keys (def t) = [fresh; key] ->
  let r' := with_defaults (def t) now r in
  present db table fresh.2 (project fresh.2 r') = false ->
  complete (def t) r' = true ->
  forallb (references db r') (foreign_keys (def t)) = true ->
  insert_row e now db table r =
  if present db table key.2 (project key.2 r') then Err (unique_violation e table key)
  else Ok (<[table := add_row r' t]> db).
Proof.
  intros Ht Hkeys r' Hfresh Hc Hf. unfold insert_row. rewrite Ht. fold r'. rewrite Hc, Hf. simpl.
  unfold violated_key. rewrite Hkeys, !filter_cons, filter_nil, !(present_clashes _ _ _ _ _ Ht), Hfresh.
  rewrite decide_False by done.
  destruct (present db table key.2 (project key.2 r')) eqn:Hp; [by rewrite decide_True|by rewrite decide_False].
Qed.

Lemma references_present (db : Database) (r : Row) (col table target : string) (v : option Col) :
  r !! col = v -> present db table [target] [v] = true -> references db r (col, table, target) = true.
Proof.
  intros <- (t & r' & Ht & Hr & [= Hv])%present_true. unfold references. rewrite Ht.
  apply existsb_exists. exists r'. rewrite <- list_elem_of_In. by rewrite bool_decide_eq_true.
Qed.
