(* ===== verification/Storage.v ===== *)
(** * The event store

    [event_sidecar/src/database/writer_generator.rs],
    [event_sidecar/src/database/reader_generator.rs],
    [event_sidecar/src/types/database.rs] and
    [event_sidecar/src/types/sse_events.rs].  Saving an event is a transaction: a
    row of the event log and the rows of the event, or nothing.  Hashes and keys are
    their hexadecimal texts.  Transactions of different tasks are taken to be
    serialised by the engine. *)

From S2P Require Import Prelude SseData Sql.

(** ** Write errors *)

(** [event_sidecar/src/types/database.rs:278-290], [DatabaseWriteError]. *)
Inductive DatabaseWriteError : Set :=
| Serialisation (error : string)
| SqlConstruction (error : string)
| UniqueConstraint (table : string)
| DatabaseError (message : string)
| Unhandled (error : string).

(** [str::split] at a character. *)
Fixpoint split_on (c : Ascii.ascii) (s : string) : list string :=
  match s with
  | EmptyString => [EmptyString]
  | String c' s =>
      if decide (c = c') then EmptyString :: split_on c s
      else match split_on c s with
           | [] => [String c' EmptyString]
           | w :: ws => String c' w :: ws
           end
  end.

(** [str::trim] on spaces, from the left. *)
Fixpoint trim_start (s : string) : string :=
  match s with
  | String c s' => if decide (c = Ascii.ascii_of_nat 32) then trim_start s' else s
  | EmptyString => EmptyString
  end.

Definition trim (s : string) : string :=
  String.rev (trim_start (String.rev (trim_start s))).

Definition colon : Ascii.ascii := Ascii.ascii_of_nat 58.
Definition dot : Ascii.ascii := Ascii.ascii_of_nat 46.

(** [event_sidecar/src/types/database.rs:330-366], [From<sqlx::Error> for DatabaseWriteError]:
    [None] is the panic of indexing the parts of a message without a colon. *)
Definition DatabaseWriteError_from (sqlx_err : SqlxError) : option DatabaseWriteError :=
  match code sqlx_err with
  | Some c =>
      if decide (c = "23505") then
        Some (UniqueConstraint (default (message sqlx_err) (error_table sqlx_err)))
      else if decide (c = "1555" \/ c = "2067") then
        part ← split_on colon (message sqlx_err) !! 1%nat;
        table ← split_on dot part !! 0%nat;
        Some (UniqueConstraint (trim table))
      else Some (DatabaseError (message sqlx_err))
  | None => Some (DatabaseError (message sqlx_err))
  end.

(** ** Identifiers of the events *)

(** [event_sidecar/src/types/sse_events.rs:364-369], [transaction_hash_to_identifier]. *)
Definition transaction_hash_to_identifier (h : TransactionHash) : string :=
  match h with
  | TransactionHash_Deploy h => h
  | TransactionHash_V1 h => h
  end.

(** [event_sidecar/src/types/sse_events.rs:102-107], [transaction_type_id]: the type of a
    transaction is that of its hash. *)
Definition hash_type_id (h : TransactionHash) : TransactionTypeId :=
  match h with
  | TransactionHash_Deploy _ => TT_Deploy
  | TransactionHash_V1 _ => TT_Version1
  end.

Definition fs_value (fs : FinalitySignature) : FinalitySignatureV :=
  match fs with FinalitySignature_V1 fs => fs | FinalitySignature_V2 fs => fs end.

(** ** Saving *)

(** The identifiers an engine generates for the event log are new. *)
Class AutoIncrement := {
  next_event_log_id : Database -> Z;
  next_event_log_id_fresh (db : Database) (t : Table) (r : Row) :
    db !! "event_log" = Some t -> r ∈ rows t ->
    r !! "event_log_id" <> Some (CInt (next_event_log_id db));
}.

(** Where a transaction can fail for a reason of its own. *)
Inductive Stage : Set :=
| Begin
| LogEvent
| InsertEvent
| Commit.

#[export] Instance Stage_eq_dec : EqDecision Stage.
Proof. solve_decision. Defined.

(** The surroundings of a write: the engine, its clock and that of the process, the
    JSON of events, and a failure of the database. *)
Record WriteEnv := mkWriteEnv {
  engine : Engine;
  now : Z;
  unix_timestamp : Z;
  to_json : SseData -> result string string;
  outage : option (Stage * string);
}.

(** Where an event comes from: its number at the node, the node, and the version and
    network it was announced under. *)
Record Origin := mkOrigin {
  event_id : Z;
  event_source_address : string;
  origin_api_version : string;
  origin_network_name : string;
}.

Definition fails_at (env : WriteEnv) (stage : Stage) : option SqlxError :=
  match outage env with
  | Some (s, m) => if decide (s = stage) then Some (other_error m) else None
  | None => None
  end.

Definition guarded {A} (env : WriteEnv) (stage : Stage) (r : result SqlxError A) : result SqlxError A :=
  match fails_at env stage with Some e => Err e | None => r end.

Section Writer.
Context `{AutoIncrement}.

(** [event_sidecar/src/database/writer_generator.rs:442-467], [save_event_log]. *)
Definition save_event_log (env : WriteEnv) (type_id : EventTypeId) (o : Origin) (event_key : string)
    (db : Database) : result SqlxError (Z * Database) :=
  let event_log_id := next_event_log_id db in
  let (table, r) :=
    insert_event_log event_log_id (event_type_id type_id) (event_source_address o) (event_id o) event_key
      (origin_api_version o) (origin_network_name o) in
  let? db := guarded env LogEvent (insert_row (engine env) (now env) db table r) in
  Ok (event_log_id, db).

(** The statements of a batch, one after the other. *)
Fixpoint execute (env : WriteEnv) (stmts : list (string * Row)) (db : Database) : result SqlxError Database :=
  match stmts with
  | [] => Ok db
  | (table, r) :: stmts =>
      let? db := insert_row (engine env) (now env) db table r in execute env stmts db
  end.

(** [event_sidecar/src/database/writer_generator.rs:61-89], the body of
    [save_block_added] that all the [save_*] functions share: the log row, the statements made
    of the JSON text and the identifier of the log row, and the commit.  The
    transaction is dropped, and with it all changes, when any of them fails.  The
    result is [None] when converting an error panics. *)
Definition save_with (env : WriteEnv) (type_id : EventTypeId) (o : Origin) (json : result string string)
    (event_key : string) (stmts : string -> Z -> list (string * Row)) (db : Database)
    : option (result DatabaseWriteError Z) * Database :=
  let failed (e : SqlxError) := (Err <$> DatabaseWriteError_from e, db) in
  match fails_at env Begin with
  | Some e => failed e
  | None =>
      match json with
      | Err e => (Some (Err (Serialisation e)), db)
      | Ok raw =>
          match save_event_log env type_id o event_key db with
          | Err e => failed e
          | Ok (event_log_id, db1) =>
              match guarded env InsertEvent (execute env (stmts raw event_log_id) db1) with
              | Err e => failed e
              | Ok db2 =>
                  match fails_at env Commit with
                  | Some e => failed e
                  | None => (Some (Ok (Z.of_nat (length (stmts raw event_log_id)))), db2)
                  end
              end
          end
      end
  end.

(** [event_sidecar/src/database/writer_generator.rs:50-90], [save_block_added]. *)
Definition save_block_added (env : WriteEnv) (block_hash : BlockHash) (block : Block) (o : Origin) (db : Database) :=
  save_with env ET_BlockAdded o (to_json env (BlockAdded block_hash block)) block_hash
    (fun json event_log_id => [insert_block_added (block_height block) block_hash json event_log_id]) db.

(** [event_sidecar/src/database/writer_generator.rs:92-135], [save_transaction_accepted]. *)
Definition save_transaction_accepted (env : WriteEnv) (t : Transaction) (o : Origin) (db : Database) :=
  let identifier := transaction_hash_to_identifier (transaction_hash t) in
  let type_id := transaction_type_id (hash_type_id (transaction_hash t)) in
  save_with env ET_TransactionAccepted o (to_json env (TransactionAccepted t)) identifier
    (fun json event_log_id =>
       [insert_transaction_accepted type_id identifier json event_log_id;
        insert_transaction_event event_log_id type_id identifier]) db.

(** [event_sidecar/src/database/writer_generator.rs:137-179], [save_transaction_processed]:
    [data] is the event, [h] its transaction hash. *)
Definition save_transaction_processed (env : WriteEnv) (h : TransactionHash) (data : SseData) (o : Origin)
    (db : Database) :=
  let identifier := transaction_hash_to_identifier h in
  let type_id := transaction_type_id (hash_type_id h) in
  save_with env ET_TransactionProcessed o (to_json env data) identifier
    (fun json event_log_id =>
       [insert_transaction_processed type_id identifier json event_log_id;
        insert_transaction_event event_log_id type_id identifier]) db.

(** [event_sidecar/src/database/writer_generator.rs:181-223], [save_transaction_expired]. *)
Definition save_transaction_expired (env : WriteEnv) (h : TransactionHash) (o : Origin) (db : Database) :=
  let identifier := transaction_hash_to_identifier h in
  let type_id := transaction_type_id (hash_type_id h) in
  save_with env ET_TransactionExpired o (to_json env (TransactionExpired h)) identifier
    (fun json event_log_id =>
       [insert_transaction_expired type_id identifier json event_log_id;
        insert_transaction_event event_log_id type_id identifier]) db.

(** [event_sidecar/src/database/writer_generator.rs:225-262], [save_fault]. *)
Definition save_fault (env : WriteEnv) (era_id : Z) (public_key : PublicKey) (timestamp : Z) (o : Origin)
    (db : Database) :=
  save_with env ET_Fault o (to_json env (Fault era_id public_key timestamp))
    (pretty era_id +:+ " " +:+ public_key)
    (fun json event_log_id => [insert_fault era_id public_key json event_log_id]) db.

(** [event_sidecar/src/database/writer_generator.rs:264-307], [save_finality_signature]. *)
Definition save_finality_signature (env : WriteEnv) (fs : FinalitySignature) (o : Origin) (db : Database) :=
  let block_hash := fs_block_hash (fs_value fs) in
  let public_key := fs_public_key (fs_value fs) in
  save_with env ET_FinalitySignature o (to_json env (FinalitySignatureEvent fs))
    (block_hash +:+ " " +:+ public_key)
    (fun json event_log_id => [insert_finality_signature block_hash public_key json event_log_id]) db.

(** [event_sidecar/src/database/writer_generator.rs:309-344], [save_step]. *)
Definition save_step (env : WriteEnv) (era_id : Z) (execution_effects : string) (o : Origin) (db : Database) :=
  save_with env ET_Step o (to_json env (Step era_id execution_effects)) (pretty era_id)
    (fun json event_log_id => [insert_step era_id json event_log_id]) db.

(** [event_sidecar/src/database/writer_generator.rs:346-383], [save_shutdown]. *)
Definition save_shutdown (env : WriteEnv) (o : Origin) (db : Database) :=
  save_with env ET_Shutdown o (Ok EmptyString) (event_source_address o +:+ "-" +:+ pretty (unix_timestamp env))
    (fun _ event_log_id => [insert_shutdown (event_source_address o) event_log_id]) db.

End Writer.

(** ** What an event is about *)

(** The entity an event reports: the sidecar stores and forwards it once, whichever
    nodes report it. *)
Inductive Identity : Set :=
| BlockAt (height : Z)
| Accepted (type : TransactionTypeId) (hash : string)
| Processed (type : TransactionTypeId) (hash : string)
| Expired (hash : string)
| FaultOf (era : Z) (public_key : string)
| SignatureOf (block_hash public_key : string)
| StepOf (era : Z).

#[export] Instance Identity_eq_dec : EqDecision Identity.
Proof. solve_decision. Defined.

Definition identity (d : SseData) : option Identity :=
  match d with
  | ApiVersion _ | Shutdown => None
  | BlockAdded _ block => Some (BlockAt (block_height block))
  | TransactionAccepted t =>
      let h := transaction_hash t in Some (Accepted (hash_type_id h) (transaction_hash_to_identifier h))
  | TransactionProcessed h _ _ _ _ _ _ => Some (Processed (hash_type_id h) (transaction_hash_to_identifier h))
  | TransactionExpired h => Some (Expired (transaction_hash_to_identifier h))
  | Fault era_id public_key _ => Some (FaultOf era_id public_key)
  | FinalitySignatureEvent fs => Some (SignatureOf (fs_block_hash (fs_value fs)) (fs_public_key (fs_value fs)))
  | Step era_id _ => Some (StepOf era_id)
  end.

(** The type and the key an event is logged under. *)
Definition log_key (d : SseData) : option (EventTypeId * string) :=
  match d with
  | ApiVersion _ | Shutdown => None
  | BlockAdded h _ => Some (ET_BlockAdded, h)
  | TransactionAccepted t => Some (ET_TransactionAccepted, transaction_hash_to_identifier (transaction_hash t))
  | TransactionProcessed h _ _ _ _ _ _ => Some (ET_TransactionProcessed, transaction_hash_to_identifier h)
  | TransactionExpired h => Some (ET_TransactionExpired, transaction_hash_to_identifier h)
  | Fault era_id public_key _ => Some (ET_Fault, pretty era_id +:+ " " +:+ public_key)
  | FinalitySignatureEvent fs =>
      Some (ET_FinalitySignature, fs_block_hash (fs_value fs) +:+ " " +:+ fs_public_key (fs_value fs))
  | Step era_id _ => Some (ET_Step, pretty era_id)
  end.

(** Where an entity is stored: the table, its key, and the values there. *)
Definition place (i : Identity) : TableDef * (bool * list string) * list (option Col) :=
  match i with
  | BlockAt h => (block_added_table, (false, ["height"]), [Some (CInt h)])
  | Accepted t h =>
      (transaction_accepted_table, (true, ["transaction_type_id"; "transaction_hash"]),
       [Some (CInt (transaction_type_id t)); Some (CText h)])
  | Processed t h =>
      (transaction_processed_table, (true, ["transaction_hash"; "transaction_type_id"]),
       [Some (CText h); Some (CInt (transaction_type_id t))])
  | Expired h => (transaction_expired_table, (true, ["transaction_hash"]), [Some (CText h)])
  | FaultOf era pk => (fault_table, (true, ["era"; "public_key"]), [Some (CInt era); Some (CText pk)])
  | SignatureOf h pk =>
      (finality_signature_table, (true, ["block_hash"; "public_key"]), [Some (CText h); Some (CText pk)])
  | StepOf era => (step_table, (true, ["era"]), [Some (CInt era)])
  end.

Definition stored (db : Database) (i : Identity) : bool :=
  present db (table_name (place i).1.1) (place i).1.2.2 (place i).2.

Lemma place_inj (i j : Identity) :
  table_name (place i).1.1 = table_name (place j).1.1 -> (place i).2 = (place j).2 -> i = j.
Proof.
  destruct i, j; simpl; intros Ht Hv; try discriminate Ht; simplify_eq; try done;
    repeat match goal with t : TransactionTypeId |- _ => destruct t end; naive_solver.
Qed.

(** Every violation of a key of the store is recognised, and none makes the
    conversion panic. *)
Lemma violation_from (e : Engine) (d : TableDef) (key : bool * list string) :
  d ∈ event_tables -> key ∈ unique_keys d ->
  DatabaseWriteError_from (unique_violation e (table_name d) key) = Some (UniqueConstraint (table_name d)).
Proof.
  intros Hd Hkey.
  assert (Forall (fun d => Forall (fun key => DatabaseWriteError_from (unique_violation e (table_name d) key) =
    Some (UniqueConstraint (table_name d))) (unique_keys d)) event_tables) as Hall
    by (destruct e; repeat constructor).
  rewrite Forall_forall in Hall. specialize (Hall d Hd). rewrite Forall_forall in Hall. by apply Hall.
Qed.

(** ** The invariant of the store *)

(** The tables exist, the types are in them, and no transaction event is of a log
    row to come. *)
Record db_ok (db : Database) : Prop := {
  ok_tables : forall d, d ∈ event_tables -> def <$> db !! table_name d = Some d;
  ok_event_types : forall e, present db "event_type" ["event_type_id"] [Some (CInt (event_type_id e))] = true;
  ok_transaction_types : forall t,
    present db "TransactionType" ["transaction_type_id"] [Some (CInt (transaction_type_id t))] = true;
  ok_transaction_events : forall h t id,
    present db "transaction_event" ["transaction_hash"; "transaction_type_id"; "event_log_id"] [h; t; id] = true ->
    present db "event_log" ["event_log_id"] [id] = true;
}.

Lemma ok_table (db : Database) (d : TableDef) :
  db_ok db -> d ∈ event_tables -> exists t, db !! table_name d = Some t /\ def t = d.
Proof.
  intros Hok Hd. pose proof (ok_tables db Hok d Hd) as Hl.
  destruct (db !! table_name d) as [t|]; [|done]. simpl in Hl. exists t. by simplify_eq.
Qed.

(** Adding a row to one of the tables keeps the invariant, when a row of
    [transaction_event] is one of the log. *)
Lemma db_ok_add (db : Database) (d : TableDef) (t : Table) (r : Row) :
  db_ok db -> d ∈ event_tables -> db !! table_name d = Some t -> def t = d ->
  (table_name d = "transaction_event" -> present db "event_log" ["event_log_id"] [r !! "event_log_id"] = true) ->
  db_ok (<[table_name d := add_row r t]> db).
Proof.
  intros [H1 H2 H3 H4] Hd Ht Hdef Hte.
  assert (forall table key vals, present db table key vals = true ->
    present (<[table_name d := add_row r t]> db) table key vals = true) as Hmono.
  { intros table key vals Hp. destruct (decide (table_name d = table)) as [<-|].
    - by rewrite present_add, Hp by done.
    - by rewrite present_other by done. }
  split; [|by eauto..|].
  - intros d' Hd'. destruct (decide (table_name d = table_name d')) as [Heq|].
    + specialize (H1 d' Hd'). rewrite <- Heq in *. rewrite Ht in H1. by rewrite lookup_insert_eq.
    + rewrite lookup_insert_ne by done. by apply H1.
  - intros h ty id. destruct (decide (table_name d = "transaction_event")) as [Heq|].
    + rewrite Heq in *. rewrite present_add by done. intros [Hp|Hp%bool_decide_eq_true]%orb_true_iff.
      * by eapply Hmono, H4.
      * injection Hp as -> -> ->. by apply Hmono, Hte.
    + rewrite present_other by done. intros Hp. by eapply Hmono, H4.
Qed.

(** ** Saving an event *)

(** The database with an entity added. *)
Record added (i : Identity) (db db' : Database) : Prop := {
  added_ok : db_ok db';
  added_stored : forall j, stored db' j = stored db j || bool_decide (j = i);
  added_log : db' !! "event_log" = db !! "event_log";
}.

Lemma place_table (i j : Identity) :
  table_name (place i).1.1 = table_name (place j).1.1 -> (place i).1 = (place j).1.
Proof. by destruct i, j. Qed.

Lemma place_in (i : Identity) :
  (place i).1.1 ∈ event_tables /\ table_name (place i).1.1 <> "event_log" /\
  table_name (place i).1.1 <> "transaction_event".
Proof. destruct i; (split_and!; [repeat constructor|done..]). Qed.

(** The first key of the table of an entity is part of its other keys. *)
Lemma place_keys (i : Identity) :
  exists keys, unique_keys (place i).1.1 = (place i).1.2 :: keys /\
    Forall (fun key => (place i).1.2.2 ⊆ key.2) keys.
Proof.
  exists (tail (unique_keys (place i).1.1)). split; [by destruct i|].
  destruct i; simpl; [|by constructor..]. apply Forall_singleton. set_solver.
Qed.

Lemma stored_other (db : Database) (table : string) (t : Table) (i : Identity) :
  table <> table_name (place i).1.1 -> stored (<[table := t]> db) i = stored db i.
Proof. apply present_other. Qed.

Lemma stored_add (db : Database) (i j : Identity) (t : Table) (r : Row) :
  db !! table_name (place i).1.1 = Some t ->
  project (place i).1.2.2 r = (place i).2 ->
  stored (<[table_name (place i).1.1 := add_row r t]> db) j = stored db j || bool_decide (j = i).
Proof.
  intros Ht Hr. destruct (decide (table_name (place i).1.1 = table_name (place j).1.1)) as [Heq|Hne].
  - unfold stored. rewrite <- (place_table _ _ Heq), present_add, Hr by done. f_equal.
    apply bool_decide_ext. split; [by apply place_inj|by intros ->].
  - rewrite stored_other by done. rewrite bool_decide_eq_false_2; [by rewrite orb_false_r|].
    by intros ->.
Qed.

(** The row of an entity is inserted unless the entity is stored already. *)
Lemma insert_entity (e : Engine) (now : Z) (db : Database) (i : Identity) (r : Row) :
  db_ok db ->
  let d := (place i).1.1 in
  complete d r = true -> project (place i).1.2.2 r = (place i).2 ->
  forallb (references db r) (foreign_keys d) = true ->
  if stored db i then insert_row e now db (table_name d) r = Err (unique_violation e (table_name d) (place i).1.2)
  else exists t, insert_row e now db (table_name d) r = Ok (<[table_name d := add_row r t]> db) /\
         added i db (<[table_name d := add_row r t]> db).
Proof.
  intros Hok d Hc Hp Hf. destruct (place_in i) as (Hin & Hlog & Hte). fold d in Hin, Hlog, Hte.
  destruct (ok_table db d Hok Hin) as (t & Ht & Hdef).
  destruct (place_keys i) as (keys & Hkeys & Hsub). fold d in Hkeys.
  assert (with_defaults (def t) now r = r) as Hr by (rewrite Hdef; by destruct i).
  pose proof (insert_by_first_key e now db (table_name d) t r (place i).1.2 keys Ht) as Hins.
  cbv zeta in Hins. rewrite Hr, Hdef, Hp in Hins. rewrite Hins by done. unfold stored. fold d.
  destruct (present _ _ _ _); [done|]. exists t. split; [done|]. split.
  - apply db_ok_add; done.
  - intros j. by apply stored_add.
  - by rewrite lookup_insert_ne.
Qed.

(** No row of [transaction_event] is of the log row [id]. *)
Definition unused (db : Database) (id : Z) : Prop :=
  forall h t, present db "transaction_event" ["transaction_hash"; "transaction_type_id"; "event_log_id"]
    [h; t; Some (CInt id)] = false.

Definition in_log (db : Database) (id : Z) : Prop :=
  present db "event_log" ["event_log_id"] [Some (CInt id)] = true.

Lemma insert_transaction_event_ok (e : Engine) (now : Z) (db : Database) (id : Z) (ty : TransactionTypeId)
    (h : string) :
  db_ok db -> in_log db id -> unused db id ->
  let r := (insert_transaction_event id (transaction_type_id ty) h).2 in
  exists t, insert_row e now db "transaction_event" r = Ok (<["transaction_event" := add_row r t]> db) /\
    db_ok (<["transaction_event" := add_row r t]> db).
Proof.
  intros Hok Hlog Hun r.
  destruct (ok_table db transaction_event_table Hok) as (t & Ht & Hdef); [repeat constructor|]. simpl in Ht.
  exists t. assert (with_defaults (def t) now r = r) as Hr by by rewrite Hdef.
  split; [|apply (db_ok_add db transaction_event_table t r); [done|repeat constructor|done..]].
  pose proof (insert_by_first_key e now db "transaction_event" t r
    (true, ["transaction_hash"; "transaction_type_id"; "event_log_id"]) [] Ht) as Hins.
  cbv zeta in Hins. rewrite Hr, Hdef in Hins. rewrite Hins; [|done|constructor|done|].
  - change (project _ r) with [Some (CText h); Some (CInt (transaction_type_id ty)); Some (CInt id)].
    simpl. by rewrite Hun.
  - apply forallb_forall. intros fk Hfk%list_elem_of_In.
    repeat (apply elem_of_cons in Hfk as [->|Hfk]); [| |by apply not_elem_of_nil in Hfk].
    + by eapply references_present.
    + eapply references_present; [done|]. apply (ok_transaction_types db Hok ty).
Qed.

(** The statements of an entity add it to a database that has its log row, unless
    it is there already. *)
Definition statements_add (i : Identity) (stmts : string -> Z -> list (string * Row)) : Prop :=
  forall env raw id db, db_ok db -> in_log db id -> unused db id ->
    if stored db i
    then exists e, execute env (stmts raw id) db = Err e /\ is_Some (DatabaseWriteError_from e)
    else exists db', execute env (stmts raw id) db = Ok db' /\ added i db db'.

Lemma violated_entity (e : Engine) (i : Identity) :
  is_Some (DatabaseWriteError_from (unique_violation e (table_name (place i).1.1) (place i).1.2)).
Proof.
  destruct (place_keys i) as (keys & Hkeys & _).
  rewrite violation_from; [done|apply place_in|rewrite Hkeys; constructor].
Qed.

Lemma statements_one (i : Identity) (r : string -> Z -> Row) :
  (forall raw id, complete (place i).1.1 (r raw id) = true) ->
  (forall raw id, project (place i).1.2.2 (r raw id) = (place i).2) ->
  (forall db raw id, db_ok db -> in_log db id ->
     forallb (references db (r raw id)) (foreign_keys (place i).1.1) = true) ->
  statements_add i (fun raw id => [(table_name (place i).1.1, r raw id)]).
Proof.
  intros Hc Hp Hf env raw id db Hok Hlog Hun. simpl.
  pose proof (insert_entity (engine env) (now env) db i (r raw id) Hok (Hc raw id) (Hp raw id)
    (Hf db raw id Hok Hlog)) as Hins. destruct (stored db i).
  - rewrite Hins. eexists. split; [done|]. apply violated_entity.
  - destruct Hins as (t & -> & Ha). by eexists.
Qed.

Lemma statements_two (i : Identity) (r : string -> Z -> Row) (ty : TransactionTypeId) (h : string) :
  (forall raw id, complete (place i).1.1 (r raw id) = true) ->
  (forall raw id, project (place i).1.2.2 (r raw id) = (place i).2) ->
  (forall db raw id, db_ok db -> in_log db id ->
     forallb (references db (r raw id)) (foreign_keys (place i).1.1) = true) ->
  statements_add i (fun raw id =>
    [(table_name (place i).1.1, r raw id); insert_transaction_event id (transaction_type_id ty) h]).
Proof.
  intros Hc Hp Hf env raw id db Hok Hlog Hun. simpl.
  pose proof (insert_entity (engine env) (now env) db i (r raw id) Hok (Hc raw id) (Hp raw id)
    (Hf db raw id Hok Hlog)) as Hins. destruct (stored db i) eqn:Hs.
  - rewrite Hins. eexists. split; [done|]. apply violated_entity.
  - destruct Hins as (t & -> & [Hok' Hst Hl]). destruct (place_in i) as (Hin & Hne & Hte).
    destruct (insert_transaction_event_ok (engine env) (now env)
      (<[table_name (place i).1.1 := add_row (r raw id) t]> db) id ty h Hok') as (t' & Hins & Hok'').
    + unfold in_log, present. by rewrite Hl.
    + intros h' ty'. rewrite present_other by done. apply Hun.
    + simp_result. rewrite Hins. eexists. split; [done|]. split; [done| |].
      * intros j. rewrite stored_other; [apply Hst|]. apply not_eq_sym, place_in.
      * by rewrite lookup_insert_ne.
Qed.

(** *** The event log *)

Definition log_columns : list string := ["event_source_address"; "event_id"; "event_type_id"; "event_key"].

Lemma log_columns_part : ["event_type_id"; "event_key"] ⊆ log_columns.
Proof. set_solver. Qed.

(** The log has a row of this type and key, of whichever node. *)
Definition logged_as (db : Database) (ty : EventTypeId) (event_key : string) : bool :=
  present db "event_log" ["event_type_id"; "event_key"]
    [Some (CInt (event_type_id ty)); Some (CText event_key)].

Section Log.
Context `{AutoIncrement}.

(** The row [save_event_log] adds. *)
Definition log_row (env : WriteEnv) (ty : EventTypeId) (o : Origin) (event_key : string) (db : Database) : Row :=
  with_defaults event_log_table (now env)
    (insert_event_log (next_event_log_id db) (event_type_id ty) (event_source_address o) (event_id o) event_key
       (origin_api_version o) (origin_network_name o)).2.

Lemma next_id_absent (db : Database) :
  present db "event_log" ["event_log_id"] [Some (CInt (next_event_log_id db))] = false.
Proof.
  apply not_true_is_false. intros (t & r & Ht & Hr & [= Hv])%present_true.
  by eapply next_event_log_id_fresh.
Qed.

Lemma save_event_log_spec (env : WriteEnv) (ty : EventTypeId) (o : Origin) (event_key : string) (db : Database) :
  db_ok db -> fails_at env LogEvent = None ->
  let r := log_row env ty o event_key db in
  save_event_log env ty o event_key db =
    Err (unique_violation (engine env) "event_log" (false, log_columns)) /\ logged_as db ty event_key = true \/
  exists t, db !! "event_log" = Some t /\ def t = event_log_table /\
    save_event_log env ty o event_key db = Ok (next_event_log_id db, <["event_log" := add_row r t]> db).
Proof.
  intros Hok Hf r.
  destruct (ok_table db event_log_table Hok) as (t & Ht & Hdef); [repeat constructor|]. simpl in Ht.
  unfold save_event_log, guarded. rewrite Hf.
  destruct (insert_event_log _ _ _ _ _ _ _) as [table r0] eqn:Hstmt.
  assert (table = "event_log") as -> by by injection Hstmt.
  assert (with_defaults (def t) (now env) r0 = r) as Hr by (rewrite Hdef; by injection Hstmt as <-).
  pose proof (insert_fresh_key (engine env) (now env) db "event_log" t r0 (true, ["event_log_id"])
    (false, log_columns) Ht) as Hins. cbv zeta in Hins. rewrite Hr, Hdef in Hins.
  rewrite Hins; [|done|apply next_id_absent|done|].
  - cbn [snd]. destruct (present db "event_log" log_columns _) eqn:Hp; [left|right; by exists t].
    split; [done|]. unfold logged_as.
    assert (project ["event_type_id"; "event_key"] r = [Some (CInt (event_type_id ty)); Some (CText event_key)])
      as <- by reflexivity.
    exact (present_weaken db "event_log" _ log_columns r log_columns_part Hp).
  - apply forallb_forall. intros fk Hfk%list_elem_of_In. apply list_elem_of_singleton in Hfk as ->.
    eapply references_present; [done|]. apply (ok_event_types db Hok ty).
Qed.

(** The database after the row of the log. *)
Lemma log_row_added (env : WriteEnv) (ty : EventTypeId) (o : Origin) (event_key : string) (db : Database)
    (t : Table) :
  db_ok db -> db !! "event_log" = Some t -> def t = event_log_table ->
  let db1 := <["event_log" := add_row (log_row env ty o event_key db) t]> db in
  db_ok db1 /\ in_log db1 (next_event_log_id db) /\ unused db1 (next_event_log_id db) /\
  (forall i, stored db1 i = stored db i) /\
  (forall ty' k, logged_as db1 ty' k =
     logged_as db ty' k || bool_decide (event_type_id ty' = event_type_id ty /\ k = event_key)).
Proof.
  intros Hok Ht Hdef db1. split_and!.
  - by apply (db_ok_add db event_log_table t); [|repeat constructor|..].
  - unfold in_log, db1. rewrite present_add by done. by apply orb_true_iff; right; apply bool_decide_eq_true.
  - intros h ty'. unfold db1. rewrite present_other by done. apply not_true_is_false. intros Hp.
    apply (ok_transaction_events db Hok) in Hp. by rewrite next_id_absent in Hp.
  - intros i. apply stored_other. apply not_eq_sym, place_in.
  - intros ty' k. unfold logged_as, db1. rewrite present_add by done. f_equal.
    change (project _ (log_row _ _ _ _ _)) with [Some (CInt (event_type_id ty)); Some (CText event_key)].
    apply bool_decide_ext. split; [by intros [= -> ->]|by intros [-> ->]].
Qed.

End Log.

(** *** Entities *)

(** Nothing but a violated key can make the transaction fail. *)
Definition healthy (env : WriteEnv) (json : result string string) : bool :=
  match outage env with Some _ => false | None => is_ok json end.

(** A database with an entity added and logged. *)
Record recorded (i : Identity) (ty : EventTypeId) (event_key : string) (db db' : Database) : Prop := {
  recorded_ok : db_ok db';
  recorded_stored : forall j, stored db' j = stored db j || bool_decide (j = i);
  recorded_log : forall ty' k, logged_as db' ty' k =
    logged_as db ty' k || bool_decide (event_type_id ty' = event_type_id ty /\ k = event_key);
}.

(** What became of saving an entity: it is recorded when it is new and nothing
    fails; otherwise the database is as it was, and there is an error. *)
Definition save_outcome (i : Identity) (ty : EventTypeId) (event_key : string) (ok : bool)
    (db : Database) (out : option (result DatabaseWriteError Z) * Database) : Prop :=
  if negb (stored db i) && ok
  then (exists n, out.1 = Some (Ok n)) /\ recorded i ty event_key db out.2
  else (exists e, out.1 = Some (Err e)) /\ out.2 = db.

Lemma fails_at_stage (env : WriteEnv) (stage : Stage) (e : SqlxError) :
  fails_at env stage = Some e -> exists m, outage env = Some (stage, m) /\ e = other_error m.
Proof.
  unfold fails_at. destruct (outage env) as [[s m]|]; [|done]. case_decide; [|done].
  intros [= <-]. exists m. by subst.
Qed.

Lemma fails_at_none (env : WriteEnv) (stage : Stage) : outage env = None -> fails_at env stage = None.
Proof. unfold fails_at. by intros ->. Qed.

Section SaveEntity.
Context `{AutoIncrement}.

Lemma save_with_outcome (env : WriteEnv) (ty : EventTypeId) (o : Origin) (json : result string string)
    (event_key : string) (stmts : string -> Z -> list (string * Row)) (i : Identity) (db : Database) :
  db_ok db -> (logged_as db ty event_key = true -> stored db i = true) -> statements_add i stmts ->
  save_outcome i ty event_key (healthy env json) db (save_with env ty o json event_key stmts db).
Proof.
  intros Hok Hlogged Hstmts. unfold save_with.
  assert (forall (b : bool) e, b = false \/ stored db i = true -> is_Some (DatabaseWriteError_from e) ->
    save_outcome i ty event_key b db (Err <$> DatabaseWriteError_from e, db)) as Hfail.
  { intros b e Hb [w ->]. unfold save_outcome.
    assert (negb (stored db i) && b = false) as -> by (destruct Hb as [->| ->]; [apply andb_false_r|done]).
    simpl. eauto. }
  assert (forall stage e, fails_at env stage = Some e -> healthy env json = false /\
    is_Some (DatabaseWriteError_from e)) as Hout.
  { intros stage e (m & Hm & ->)%fails_at_stage. unfold healthy. by rewrite Hm. }
  destruct (fails_at env Begin) as [e|] eqn:Hb; [by apply Hfail; edestruct Hout; eauto|].
  destruct json as [raw|e]; [|unfold save_outcome, healthy; destruct (outage env); simpl;
    rewrite andb_false_r; simpl; by eauto].
  destruct (fails_at env LogEvent) as [e|] eqn:Hl.
  { unfold save_event_log, guarded. rewrite Hl.
    destruct (insert_event_log _ _ _ _ _ _ _). simpl. by apply Hfail; edestruct Hout; eauto. }
  destruct (save_event_log_spec env ty o event_key db Hok Hl) as [[-> Hin]|(t & Ht & Hdef & ->)].
  { apply Hfail; [by right; apply Hlogged|].
    rewrite (violation_from _ event_log_table); [done|repeat constructor|repeat constructor]. }
  destruct (log_row_added env ty o event_key db t Hok Ht Hdef) as (Hok1 & Hid & Hun & Hst1 & Hlog1).
  set (db1 := <["event_log" := _]> db) in *.
  specialize (Hstmts env raw (next_event_log_id db) db1 Hok1 Hid Hun). rewrite Hst1 in Hstmts.
  unfold guarded. destruct (fails_at env InsertEvent) as [e|] eqn:Hi; [by apply Hfail; edestruct Hout; eauto|].
  destruct (stored db i) eqn:Hs.
  { destruct Hstmts as (e & -> & He). apply Hfail; eauto. }
  destruct Hstmts as (db2 & -> & [Hok2 Hst2 Hl2]).
  destruct (fails_at env Commit) as [e|] eqn:Hc; [by apply Hfail; edestruct Hout; eauto|].
  assert (outage env = None) as Hnone.
  { unfold fails_at in *. destruct (outage env) as [[[] m]|]; by simpl in *. }
  unfold save_outcome, healthy. rewrite Hnone, Hs. simpl. split; [by eauto|]. split; [done| |].
  - intros j. by rewrite Hst2, Hst1.
  - intros ty' k. rewrite <- Hlog1. unfold logged_as, present. by rewrite Hl2.
Qed.

End SaveEntity.

(** Discharge the foreign keys of a row that names a log row and a type. *)
Ltac solve_references :=
  intros; simpl foreign_keys; unfold forallb;
  repeat (rewrite (references_present _ _ "event_log_id" "event_log" "event_log_id" _ eq_refl) by assumption);
  repeat (erewrite (references_present _ _ "transaction_type_id" "TransactionType" "transaction_type_id" _ eq_refl)
            by (apply ok_transaction_types; assumption));
  reflexivity.

Section SaveEvent.
Context `{AutoIncrement}.

(** The [save_*] function of an event; those that are no entity are not saved here. *)
Definition save (env : WriteEnv) (d : SseData) (o : Origin) (db : Database)
    : option (result DatabaseWriteError Z) * Database :=
  match d with
  | ApiVersion _ | Shutdown => (None, db)
  | BlockAdded h b => save_block_added env h b o db
  | TransactionAccepted t => save_transaction_accepted env t o db
  | TransactionProcessed h _ _ _ _ _ _ => save_transaction_processed env h d o db
  | TransactionExpired h => save_transaction_expired env h o db
  | Fault era_id public_key timestamp => save_fault env era_id public_key timestamp o db
  | FinalitySignatureEvent fs => save_finality_signature env fs o db
  | Step era_id execution_effects => save_step env era_id execution_effects o db
  end.

(** Saving an event records its entity, once. *)
Lemma save_spec (env : WriteEnv) (d : SseData) (o : Origin) (db : Database) (i : Identity) (ty : EventTypeId)
    (event_key : string) :
  db_ok db -> identity d = Some i -> log_key d = Some (ty, event_key) ->
  (logged_as db ty event_key = true -> stored db i = true) ->
  save_outcome i ty event_key (healthy env (to_json env d)) db (save env d o db).
Proof.
  intros Hok Hi Hk Hlogged.
  destruct d as [|h b|t|h ? ? ? ? ? ?|h|era pk ts|fs|era ef|]; try done;
    injection Hi as <-; injection Hk as <- <-; apply save_with_outcome; try done.
  - apply (statements_one (BlockAt (block_height b)) (fun raw id => (insert_block_added (block_height b) h raw id).2));
      [done..|solve_references].
  - destruct (transaction_hash t) as [h|h];
      (apply (statements_two (Accepted _ h) (fun raw id => (insert_transaction_accepted _ h raw id).2));
       [done..|solve_references]).
  - destruct h as [h|h];
      (apply (statements_two (Processed _ h) (fun raw id => (insert_transaction_processed _ h raw id).2));
       [done..|solve_references]).
  - destruct h as [h|h];
      (apply (statements_two (Expired h) (fun raw id => (insert_transaction_expired _ h raw id).2));
       [done..|solve_references]).
  - apply (statements_one (FaultOf era pk) (fun raw id => (insert_fault era pk raw id).2));
      [done..|solve_references].
  - apply (statements_one (SignatureOf _ _) (fun raw id => (insert_finality_signature _ _ raw id).2));
      [done..|solve_references].
  - apply (statements_one (StepOf era) (fun raw id => (insert_step era raw id).2)); [done..|solve_references].
Qed.

End SaveEvent.

(** *** Shutdowns *)

(** Saving a shutdown leaves the entities and their log alone; with a database that
    answers it either succeeds or was saved before. *)
Record shutdown_outcome (env : WriteEnv) (db : Database) (out : option (result DatabaseWriteError Z) * Database)
    : Prop := {
  shutdown_ok : db_ok out.2;
  shutdown_stored : forall j, stored out.2 j = stored db j;
  shutdown_log : forall ty k, ty <> ET_Shutdown -> logged_as out.2 ty k = logged_as db ty k;
  shutdown_result : exists res, out.1 = Some res /\
    (outage env = None -> is_ok res = true \/ exists table, res = Err (UniqueConstraint table));
}.

Section SaveShutdown.
Context `{AutoIncrement}.

Lemma insert_shutdown_cases (e : Engine) (now : Z) (db : Database) (source : string) (id : Z) :
  db_ok db -> in_log db id ->
  let r := (insert_shutdown source id).2 in
  insert_row e now db "Shutdown" r =
    Err (unique_violation e "Shutdown" (true, ["event_source_address"; "shutdown_timestamp"])) \/
  exists t r', db !! "Shutdown" = Some t /\ def t = shutdown_table /\
    insert_row e now db "Shutdown" r = Ok (<["Shutdown" := add_row r' t]> db).
Proof.
  intros Hok Hid r.
  destruct (ok_table db shutdown_table Hok) as (t & Ht & Hdef); [repeat constructor|]. simpl in Ht.
  pose proof (insert_by_first_key e now db "Shutdown" t r
    (true, ["event_source_address"; "shutdown_timestamp"]) [] Ht) as Hins.
  cbv zeta in Hins. rewrite Hdef in Hins. rewrite Hins; [|done|constructor|done|].
  - destruct (present _ _ _ _); [by left|]. right. eexists t, _. done.
  - apply forallb_forall. intros fk Hfk%list_elem_of_In. apply list_elem_of_singleton in Hfk as ->.
    by eapply references_present.
Qed.

Lemma shutdown_unchanged (env : WriteEnv) (db : Database) (e : SqlxError) :
  db_ok db -> is_Some (DatabaseWriteError_from e) ->
  (outage env = None -> exists table, DatabaseWriteError_from e = Some (UniqueConstraint table)) ->
  shutdown_outcome env db (Err <$> DatabaseWriteError_from e, db).
Proof.
  intros Hok [w Hw] Hu. rewrite Hw in *. split; try done. exists (Err w). split; [done|].
  intros Hn. right. destruct (Hu Hn) as [table [= ->]]. by exists table.
Qed.

Lemma save_shutdown_spec (env : WriteEnv) (o : Origin) (db : Database) :
  db_ok db -> shutdown_outcome env db (save_shutdown env o db).
Proof.
  intros Hok. unfold save_shutdown, save_with. set (key := _ +:+ _).
  assert (forall stage e, fails_at env stage = Some e ->
    shutdown_outcome env db (Err <$> DatabaseWriteError_from e, db)) as Hout.
  { intros stage e (m & Hm & ->)%fails_at_stage. apply shutdown_unchanged; [done|done|]. by rewrite Hm. }
  destruct (fails_at env Begin) as [e|] eqn:Hb; [by eapply Hout|].
  destruct (fails_at env LogEvent) as [e|] eqn:Hl.
  { unfold save_event_log, guarded. rewrite Hl. destruct (insert_event_log _ _ _ _ _ _ _). by eapply Hout. }
  destruct (save_event_log_spec env ET_Shutdown o key db Hok Hl) as [[-> Hin]|(t & Ht & Hdef & ->)].
  { apply shutdown_unchanged; [done|..];
      rewrite (violation_from _ event_log_table) by repeat constructor; by eauto. }
  destruct (log_row_added env ET_Shutdown o key db t Hok Ht Hdef) as (Hok1 & Hid & Hun & Hst1 & Hlog1).
  set (db1 := <["event_log" := _]> db) in *.
  unfold guarded. destruct (fails_at env InsertEvent) as [e|] eqn:Hi; [by eapply Hout|].
  destruct (insert_shutdown_cases (engine env) (now env) db1 (event_source_address o) (next_event_log_id db) Hok1 Hid)
    as [Hins|(t' & r' & Ht' & Hdef' & Hins)]; unfold execute, insert_shutdown; cbn [snd insert_shutdown] in Hins;
    rewrite Hins.
  { apply shutdown_unchanged; [done|..];
      rewrite (violation_from _ shutdown_table) by repeat constructor; by eauto. }
  simpl. destruct (fails_at env Commit) as [e|] eqn:Hc; [by eapply Hout|]. split; simpl.
  - by apply (db_ok_add db1 shutdown_table t' r'); [|repeat constructor|..].
  - intros j. rewrite stored_other by (by destruct j). apply Hst1.
  - intros ty k Hty. unfold logged_as. rewrite present_other by done. fold (logged_as db1 ty k).
    rewrite Hlog1, bool_decide_eq_false_2; [apply orb_false_r|]. destruct ty; naive_solver.
  - eexists. split; [done|]. by left.
Qed.

End SaveShutdown.
