(* ===== verification/Reader.v ===== *)
(** * Reading the event store

    [event_sidecar/src/database/reader_generator.rs] with the [SELECT] statements
    of [event_sidecar/src/sql/tables/*.rs], [database/errors.rs] and
    [database/types.rs].  The readers are functions of the database of [Sql.v],
    of the queries that fail for a reason of their own, and of the JSON
    deserialisers.  SQL leaves the order of the rows of a result open; here they
    come in the order in which they were inserted. *)

From S2P Require Import Prelude SseData Sql Storage.

(** ** The engine *)

(** A [SELECT raw, api_version, network_name FROM table LEFT JOIN event_log USING
    (event_log_id) WHERE ...]; the condition may ask for all rows of the table. *)
Record SelectStatement := mkSelect {
  from : string;
  where_ : list Row -> Row -> bool;
}.

(** The versions and networks of the rows of the log with an identifier. *)
Definition log_data (db : Database) (id : option Col) : list (option Col * option Col) :=
  match db !! "event_log" with
  | Some t =>
      (fun l : Row => (l !! "api_version", l !! "network_name")) <$>
        filter (fun l : Row => l !! "event_log_id" = id) (rows t)
  | None => []
  end.

(** A row of a result; a column that is [NULL] is absent. *)
Definition result_row (raw api_version network_name : option Col) : Row :=
  let put (c : string) (v : option Col) (r : Row) := match v with Some v => <[c := v]> r | None => r end in
  put "raw" raw (put "api_version" api_version (put "network_name" network_name ∅)).

(** The left join: a row without partner is kept, with [NULL]s. *)
Definition left_join (r : Row) (logs : list (option Col * option Col)) : list Row :=
  match logs with
  | [] => [result_row (r !! "raw") None None]
  | _ => (fun l => result_row (r !! "raw") l.1 l.2) <$> logs
  end.

Definition select (db : Database) (stmt : SelectStatement) : result string (list Row) :=
  match db !! from stmt with
  | Some t =>
      Ok (List.filter (where_ stmt (rows t)) (rows t) ≫= fun r => left_join r (log_data db (r !! "event_log_id")))
  | None => Err ("no such table: " +:+ from stmt)
  end.

(** ** The statements *)

Definition eq_col (c : string) (v : Col) (r : Row) : bool := bool_decide (r !! c = Some v).

(** [event_sidecar/src/sql/tables/block_added.rs:76-89], [create_get_by_hash_stmt]. *)
Definition block_by_hash_stmt (block_hash : string) : SelectStatement :=
  mkSelect "BlockAdded" (fun _ => eq_col "block_hash" (CText block_hash)).

(** [event_sidecar/src/sql/tables/block_added.rs:91-104], [create_get_by_height_stmt]. *)
Definition block_by_height_stmt (height : Z) : SelectStatement :=
  mkSelect "BlockAdded" (fun _ => eq_col "height" (CInt height)).

Definition heights (l : list Row) : list Z :=
  omap (fun r : Row => match r !! "height" with Some (CInt h) => Some h | _ => None end) l.

(** [MAX], none for no rows. *)
Definition max_of (l : list Z) : option Z :=
  match l with [] => None | h :: l => Some (foldr Z.max h l) end.

(** [event_sidecar/src/sql/tables/block_added.rs:106-123], [create_get_latest_stmt]. *)
Definition latest_block_stmt : SelectStatement :=
  mkSelect "BlockAdded" (fun all r =>
    match max_of (heights all) with Some h => eq_col "height" (CInt h) r | None => false end).

Definition by_type_and_hash (transaction_type : Z) (transaction_hash : string) (_ : list Row) (r : Row) : bool :=
  eq_col "transaction_type_id" (CInt transaction_type) r && eq_col "transaction_hash" (CText transaction_hash) r.

(** [event_sidecar/src/sql/tables/transaction_accepted.rs:99-113], [create_get_by_hash_stmt]. *)
Definition accepted_by_hash_stmt (transaction_type : Z) (transaction_hash : string) : SelectStatement :=
  mkSelect "TransactionAccepted" (by_type_and_hash transaction_type transaction_hash).

(** [event_sidecar/src/sql/tables/transaction_processed.rs:102-118], [create_get_by_hash_stmt]. *)
Definition processed_by_hash_stmt (transaction_type : Z) (transaction_hash : string) : SelectStatement :=
  mkSelect "TransactionProcessed" (by_type_and_hash transaction_type transaction_hash).

(** [event_sidecar/src/sql/tables/transaction_expired.rs:98-112], [create_get_by_hash_stmt]. *)
Definition expired_by_hash_stmt (transaction_type : Z) (transaction_hash : string) : SelectStatement :=
  mkSelect "TransactionExpired" (by_type_and_hash transaction_type transaction_hash).

(** [event_sidecar/src/sql/tables/fault.rs:69-82], [create_get_faults_by_public_key_stmt]. *)
Definition faults_by_public_key_stmt (public_key : string) : SelectStatement :=
  mkSelect "Fault" (fun _ => eq_col "public_key" (CText public_key)).

(** [event_sidecar/src/sql/tables/fault.rs:84-97], [create_get_faults_by_era_stmt]. *)
Definition faults_by_era_stmt (era : Z) : SelectStatement :=
  mkSelect "Fault" (fun _ => eq_col "era" (CInt era)).

(** [event_sidecar/src/sql/tables/finality_signature.rs:79-92], [create_get_finality_signatures_by_block_stmt]. *)
Definition signatures_by_block_stmt (block_hash : string) : SelectStatement :=
  mkSelect "FinalitySignature" (fun _ => eq_col "block_hash" (CText block_hash)).

(** [event_sidecar/src/sql/tables/step.rs:51-64], [create_get_by_era_stmt]. *)
Definition step_by_era_stmt (era : Z) : SelectStatement :=
  mkSelect "Step" (fun _ => eq_col "era" (CInt era)).

(** ** Errors and envelopes *)

(** [event_sidecar/src/types/database.rs:462-470], [DatabaseReadError]. *)
Inductive DatabaseReadError : Set :=
| NotFound
| ReadSerialisation (error : string)
| ReadUnhandled (error : string).

(** [event_sidecar/src/database/errors.rs:4-7], [DbError]. *)
Inductive DbError : Set :=
| DbSqlx (error : string)
| DbSerdeJson (error : string).

(** [event_sidecar/src/database/errors.rs:15-23], [wrap_query_error]. *)
Definition wrap_query_error (error : DbError) : DatabaseReadError :=
  match error with
  | DbSqlx err => if decide (err = "Query returned no rows") then NotFound else ReadUnhandled err
  | DbSerdeJson serde_err => ReadSerialisation serde_err
  end.

(** [event_sidecar/src/database/types.rs:17-22], [SseEnvelope], with the two
    fields of its [EnvelopeHeader]. *)
Record SseEnvelope (T : Type) := mkEnvelope {
  env_payload : T;
  env_api_version : string;
  env_network_name : string;
}.
#[global] Arguments mkEnvelope {_} _ _ _.
#[global] Arguments env_payload {_} _.
#[global] Arguments env_api_version {_} _.
#[global] Arguments env_network_name {_} _.

(** [event_sidecar/src/types/database.rs:472-478], [TransactionAggregate]. *)
Record TransactionAggregate := mkAggregate {
  agg_transaction_hash : string;
  agg_transaction_accepted : option (SseEnvelope SseData);
  agg_transaction_processed : option (SseEnvelope SseData);
  agg_transaction_expired : bool;
}.

(** ** The readers *)

(** [serde_json::from_str] at the type of an event; the finality signature is
    read with its own type. *)
Class EventJson := {
  parse_event : EventTypeId -> string -> result string SseData;
  parse_finality_signature : string -> result string FinalitySignature;
}.

Section Readers.
Context `{EventJson}.
(** The queries, by the table they read, that fail for a reason of their own. *)
Context (fails : string -> option string) (db : Database).

(** [fetch_all], with the error the readers make of a failure. *)
Definition fetch_all (stmt : SelectStatement) : result DatabaseReadError (list Row) :=
  match fails (from stmt) with
  | Some sql_err => Err (ReadUnhandled sql_err)
  | None => map_err ReadUnhandled (select db stmt)
  end.

(** [fetch_optional]. *)
Definition fetch_optional (stmt : SelectStatement) : result DatabaseReadError (option Row) :=
  let? rows := fetch_all stmt in Ok (head rows).

(** [event_sidecar/src/database/sqlite_database/reader.rs:7-19], [fetch_optional_with_error_check]. *)
Definition fetch_optional_with_error_check (stmt : SelectStatement) : result DatabaseReadError Row :=
  let? maybe_row := fetch_optional stmt in ok_or maybe_row NotFound.

(** [row.try_get::<String, &str>]. *)
Definition try_get (column : string) (r : Row) : result DatabaseReadError string :=
  match r !! column with
  | Some (CText s) => Ok s
  | Some (CInt _) => Err (wrap_query_error (DbSqlx ("error occurred while decoding column " +:+ column)))
  | None => Err (wrap_query_error (DbSqlx ("no column found for name: " +:+ column)))
  end.

(** [event_sidecar/src/database/reader_generator.rs:371-386], [fetch_envelope_data_from_row]. *)
Definition fetch_envelope_data_from_row (r : Row) : result DatabaseReadError (string * string * string) :=
  let? raw_data := try_get "raw" r in
  let? api_version := try_get "api_version" r in
  let? network_name := try_get "network_name" r in
  Ok (raw_data, api_version, network_name).

(** [event_sidecar/src/database/reader_generator.rs:320-322], [deserialize_data]. *)
Definition deserialize_data {T} (parse : string -> result string T) (data : string) : result DbError T :=
  map_err DbSerdeJson (parse data).

(** [event_sidecar/src/database/reader_generator.rs:324-331], [parse_block_from_row],
    which the other readers repeat with the types of their events. *)
Definition parse_from_row {T} (parse : string -> result string T) (r : Row)
    : result DatabaseReadError (SseEnvelope T) :=
  let? '(raw_data, api_version, network_name) := fetch_envelope_data_from_row r in
  let? sse_event := map_err wrap_query_error (deserialize_data parse raw_data) in
  Ok (mkEnvelope sse_event api_version network_name).

(** [event_sidecar/src/database/reader_generator.rs:355-369], [parse_faults_from_rows]. *)
Definition parse_from_rows {T} (parse : string -> result string T) (rows : list Row)
    : result DatabaseReadError (list (SseEnvelope T)) :=
  let? items := mapM (M := result DatabaseReadError) (parse_from_row parse) rows in
  if decide (items = []) then Err NotFound else Ok items.

(** [event_sidecar/src/database/reader_generator.rs:28-36], [get_latest_block]. *)
Definition get_latest_block : result DatabaseReadError (SseEnvelope SseData) :=
  let? r := fetch_optional_with_error_check latest_block_stmt in
  parse_from_row (parse_event ET_BlockAdded) r.

(** [event_sidecar/src/database/reader_generator.rs:38-50], [get_block_by_height]. *)
Definition get_block_by_height (height : Z) : result DatabaseReadError (SseEnvelope SseData) :=
  let? r := fetch_optional_with_error_check (block_by_height_stmt height) in
  parse_from_row (parse_event ET_BlockAdded) r.

(** The first row of a statement, read at the type of an event. *)
Definition get_one (ty : EventTypeId) (stmt : SelectStatement)
    : result DatabaseReadError (SseEnvelope SseData) :=
  let? maybe_row := fetch_optional stmt in
  match maybe_row with
  | None => Err NotFound
  | Some r => parse_from_row (parse_event ty) r
  end.

(** [event_sidecar/src/database/reader_generator.rs:52-69], [get_block_by_hash]. *)
Definition get_block_by_hash (hash : string) : result DatabaseReadError (SseEnvelope SseData) :=
  get_one ET_BlockAdded (block_by_hash_stmt hash).

(** [event_sidecar/src/database/reader_generator.rs:124-151], [get_transaction_accepted_by_hash]. *)
Definition get_transaction_accepted_by_hash (transaction_type : TransactionTypeId) (hash : string) :=
  get_one ET_TransactionAccepted (accepted_by_hash_stmt (transaction_type_id transaction_type) hash).

(** [event_sidecar/src/database/reader_generator.rs:153-180], [get_transaction_processed_by_hash]. *)
Definition get_transaction_processed_by_hash (transaction_type : TransactionTypeId) (hash : string) :=
  get_one ET_TransactionProcessed (processed_by_hash_stmt (transaction_type_id transaction_type) hash).

(** [event_sidecar/src/database/reader_generator.rs:182-209], [get_transaction_expired_by_hash]. *)
Definition get_transaction_expired_by_hash (transaction_type : TransactionTypeId) (hash : string) :=
  get_one ET_TransactionExpired (expired_by_hash_stmt (transaction_type_id transaction_type) hash).

(** [event_sidecar/src/database/reader_generator.rs:211-226], [get_faults_by_public_key]. *)
Definition get_faults_by_public_key (public_key : string) : result DatabaseReadError (list (SseEnvelope SseData)) :=
  let? rows := fetch_all (faults_by_public_key_stmt public_key) in
  parse_from_rows (parse_event ET_Fault) rows.

(** [event_sidecar/src/database/reader_generator.rs:228-242], [get_faults_by_era]. *)
Definition get_faults_by_era (era : Z) : result DatabaseReadError (list (SseEnvelope SseData)) :=
  let? rows := fetch_all (faults_by_era_stmt era) in
  parse_from_rows (parse_event ET_Fault) rows.

(** [event_sidecar/src/database/reader_generator.rs:244-261], [get_finality_signatures_by_block],
    with [parse_finality_signatures_from_rows] at its end. *)
Definition get_finality_signatures_by_block (block_hash : string)
    : result DatabaseReadError (list (SseEnvelope FinalitySignature)) :=
  let? rows := fetch_all (signatures_by_block_stmt block_hash) in
  parse_from_rows parse_finality_signature rows.

(** [event_sidecar/src/database/reader_generator.rs:263-286], [get_step_by_era]. *)
Definition get_step_by_era (era : Z) : result DatabaseReadError (SseEnvelope SseData) :=
  get_one ET_Step (step_by_era_stmt era).

(** [event_sidecar/src/database/reader_generator.rs:288-302], [get_number_of_events],
    with the statement [tables::event_log::count]. *)
Definition get_number_of_events : result DatabaseReadError Z :=
  match fails "event_log" with
  | Some sql_err => Err (ReadUnhandled sql_err)
  | None =>
      match db !! "event_log" with
      | Some t => Ok (wrap_u64 (Z.of_nat (length (rows t))))
      | None => Err (ReadUnhandled "no such table: event_log")
      end
  end.

(** [event_sidecar/src/database/reader_generator.rs:71-122],
    [get_transaction_aggregate_by_identifier]: the pattern [_err] of the two
    [matches!] matches every value, so the guards are always [false]. *)
Definition get_transaction_aggregate_by_identifier (transaction_type : TransactionTypeId) (hash : string)
    : result DatabaseReadError TransactionAggregate :=
  let? transaction_accepted := get_transaction_accepted_by_hash transaction_type hash in
  match get_transaction_processed_by_hash transaction_type hash with
  | Ok transaction_processed =>
      Ok (mkAggregate hash (Some transaction_accepted) (Some transaction_processed) false)
  | Err _ =>
      match get_transaction_expired_by_hash transaction_type hash with
      | Ok _ => Ok (mkAggregate hash (Some transaction_accepted) None true)
      | Err _ => Ok (mkAggregate hash (Some transaction_accepted) None false)
      end
  end.

End Readers.

(** ** The store as a list of events

    What the readers return is explained by the events that were saved, in
    order, each with its origin. *)

Abbreviation Saved := (list (SseData * Origin)).

Definition envelope_of (e : SseData * Origin) : SseEnvelope SseData :=
  mkEnvelope e.1 (origin_api_version e.2) (origin_network_name e.2).

(** The tables of the entities. *)
Definition entity_tables : list TableDef :=
  [block_added_table; transaction_accepted_table; transaction_processed_table; transaction_expired_table;
   fault_table; finality_signature_table; step_table].

(** The row of an event in its table. *)
Definition entity_stmt (d : SseData) (raw : string) (id : Z) : option (string * Row) :=
  match d with
  | ApiVersion _ | Shutdown => None
  | BlockAdded h b => Some (insert_block_added (block_height b) h raw id)
  | TransactionAccepted t =>
      let h := transaction_hash t in
      Some (insert_transaction_accepted (transaction_type_id (hash_type_id h)) (transaction_hash_to_identifier h) raw id)
  | TransactionProcessed h _ _ _ _ _ _ =>
      Some (insert_transaction_processed (transaction_type_id (hash_type_id h)) (transaction_hash_to_identifier h) raw id)
  | TransactionExpired h =>
      Some (insert_transaction_expired (transaction_type_id (hash_type_id h)) (transaction_hash_to_identifier h) raw id)
  | Fault era public_key _ => Some (insert_fault era public_key raw id)
  | FinalitySignatureEvent fs =>
      Some (insert_finality_signature (fs_block_hash (fs_value fs)) (fs_public_key (fs_value fs)) raw id)
  | Step era _ => Some (insert_step era raw id)
  end.

(** The table of an event. *)
Definition event_table (d : SseData) : TableDef :=
  match d with
  | ApiVersion _ | Shutdown => shutdown_table
  | BlockAdded _ _ => block_added_table
  | TransactionAccepted _ => transaction_accepted_table
  | TransactionProcessed _ _ _ _ _ _ _ => transaction_processed_table
  | TransactionExpired _ => transaction_expired_table
  | Fault _ _ _ => fault_table
  | FinalitySignatureEvent _ => finality_signature_table
  | Step _ _ => step_table
  end.

Section Refinement.
(** The serialiser of the writers. *)
Context (json : SseData -> result string string).

Definition raw_of (d : SseData) : string := match json d with Ok raw => raw | Err _ => EmptyString end.

(** A row of an entity without the identifier of its log row, with the data that
    the log has for it. *)
Definition Entry : Type := Row * list (option Col * option Col).

Definition view (db : Database) (table : string) : list Entry :=
  match db !! table with
  | Some t => (fun r : Row => (delete "event_log_id" r, log_data db (r !! "event_log_id"))) <$> rows t
  | None => []
  end.

Definition entry_of (table : string) (e : SseData * Origin) : option Entry :=
  '(tb, r) ← entity_stmt e.1 (raw_of e.1) 0;
  if decide (tb = table)
  then Some (delete "event_log_id" r,
             [(Some (CText (origin_api_version e.2)), Some (CText (origin_network_name e.2)))])
  else None.

(** The database represents the list of saved events. *)
Record represents (db : Database) (s : Saved) : Prop := {
  rep_defs : forall d, d ∈ event_tables -> def <$> db !! table_name d = Some d;
  rep_links : forall d t r, d ∈ entity_tables -> db !! table_name d = Some t -> r ∈ rows t ->
    exists id, r !! "event_log_id" = Some (CInt id) /\ in_log db id;
  rep_view : forall d, d ∈ entity_tables -> view db (table_name d) = omap (entry_of (table_name d)) s;
  rep_json : Forall (fun e => json e.1 = Ok (raw_of e.1)) s;
}.

End Refinement.

(** *** Saving adds an entry *)

Lemma entity_table_in (d : TableDef) :
  d ∈ entity_tables -> d ∈ event_tables /\ table_name d <> "event_log" /\ table_name d <> "transaction_event".
Proof.
  intros Hd. repeat (apply elem_of_cons in Hd as [->|Hd]; [split_and!; [repeat constructor|done..]|]).
  by apply not_elem_of_nil in Hd.
Qed.

Lemma insert_row_Ok (e : Engine) (now : Z) (db db' : Database) (table : string) (r : Row) :
  insert_row e now db table r = Ok db' ->
  exists t, db !! table = Some t /\ violated_key t (with_defaults (def t) now r) = None /\
    db' = <[table := add_row (with_defaults (def t) now r) t]> db.
Proof.
  unfold insert_row. destruct (db !! table) as [t|]; [|done].
  destruct (complete _ _); simpl; [|done]. destruct (violated_key _ _) eqn:Hv; [done|].
  destruct (forallb _ _); [|done]. intros [= <-]. eauto.
Qed.

Lemma entity_stmt_spec (d : SseData) (raw : string) (id : Z) (table : string) (r : Row) :
  entity_stmt d raw id = Some (table, r) ->
  table = table_name (event_table d) /\ event_table d ∈ entity_tables /\ defaulted (event_table d) = [] /\
  r !! "event_log_id" = Some (CInt id) /\
  forall id', exists r', entity_stmt d raw id' = Some (table, r') /\
    delete "event_log_id" r' = delete "event_log_id" r.
Proof.
  intros Hs. destruct d; try discriminate Hs; injection Hs as <- <-;
    (split_and!; [reflexivity|repeat constructor|reflexivity|reflexivity|]);
    intros id'; eexists; split; reflexivity.
Qed.

(** The statements of an event are its row, and for a transaction an entry of
    [transaction_event]. *)
Definition event_stmts (d : SseData) (raw : string) (id : Z) : list (string * Row) :=
  match entity_stmt d raw id with
  | Some stmt =>
      stmt :: match d with
              | TransactionAccepted t =>
                  [insert_transaction_event id (transaction_type_id (hash_type_id (transaction_hash t)))
                     (transaction_hash_to_identifier (transaction_hash t))]
              | TransactionProcessed h _ _ _ _ _ _ | TransactionExpired h =>
                  [insert_transaction_event id (transaction_type_id (hash_type_id h)) (transaction_hash_to_identifier h)]
              | _ => []
              end
  | None => []
  end.

Lemma log_data_other (db : Database) (table : string) (t : Table) (id : option Col) :
  table <> "event_log" -> log_data (<[table := t]> db) id = log_data db id.
Proof. intros. unfold log_data. by rewrite lookup_insert_ne. Qed.

Lemma log_data_add (db : Database) (t : Table) (l : Row) (id : option Col) :
  db !! "event_log" = Some t ->
  log_data (<["event_log" := add_row l t]> db) id =
    log_data db id ++ (if decide (l !! "event_log_id" = id) then [(l !! "api_version", l !! "network_name")] else []).
Proof.
  intros Ht. unfold log_data. rewrite lookup_insert_eq, Ht. simpl. rewrite filter_app, fmap_app. f_equal.
  rewrite filter_cons, filter_nil. by case_decide.
Qed.

Section SaveView.
Context `{AutoIncrement}.

(** What a successful transaction did. *)
Lemma save_Ok (env : WriteEnv) (d : SseData) (o : Origin) (db db' : Database) (n : Z) :
  save env d o db = (Some (Ok n), db') ->
  exists ty key raw db1,
    to_json env d = Ok raw /\
    save_event_log env ty o key db = Ok (next_event_log_id db, db1) /\
    execute env (event_stmts d raw (next_event_log_id db)) db1 = Ok db'.
Proof.
  assert (forall ty js key stmts, save_with env ty o js key stmts db = (Some (Ok n), db') ->
    exists raw db1, js = Ok raw /\ save_event_log env ty o key db = Ok (next_event_log_id db, db1) /\
      execute env (stmts raw (next_event_log_id db)) db1 = Ok db') as Hw.
  { intros ty js key stmts. unfold save_with. destruct (fails_at env Begin); [by destruct (DatabaseWriteError_from _)|].
    destruct js as [raw|]; [|done].
    destruct (save_event_log env ty o key db) as [[id db1]|] eqn:Hl; [|by destruct (DatabaseWriteError_from _)].
    assert (id = next_event_log_id db) as ->.
    { unfold save_event_log in Hl. destruct (insert_event_log _ _ _ _ _ _ _), (guarded _ _ _); by simplify_eq/=. }
    unfold guarded. destruct (fails_at env InsertEvent); [by destruct (DatabaseWriteError_from _)|].
    destruct (execute _ _ _) as [db2|] eqn:He; [|by destruct (DatabaseWriteError_from _)].
    destruct (fails_at env Commit); [by destruct (DatabaseWriteError_from _)|]. intros [= <- <-]. eauto. }
  destruct d; simpl; try done; intros (raw & db1 & Hj & Hl & He)%Hw; eexists _, _, raw, db1; done.
Qed.

(** The first step of a transaction leaves the entities as they are. *)
Lemma represents_log (json : SseData -> result string string) (env : WriteEnv) (ty : EventTypeId) (o : Origin)
    (key : string) (db db1 : Database) (s : Saved) :
  represents json db s ->
  save_event_log env ty o key db = Ok (next_event_log_id db, db1) ->
  represents json db1 s /\ in_log db1 (next_event_log_id db) /\
  log_data db1 (Some (CInt (next_event_log_id db))) =
    [(Some (CText (origin_api_version o)), Some (CText (origin_network_name o)))].
Proof.
  intros [Hdefs Hlinks Hview Hjson] Hl. unfold save_event_log, guarded in Hl.
  destruct (insert_event_log _ _ _ _ _ _ _) as [table r] eqn:Hstmt. injection Hstmt as <- <-.
  destruct (fails_at env LogEvent); [done|]. destruct (insert_row _ _ _ _ _) as [db1'|] eqn:Hins; [|done].
  injection Hl as <-. apply insert_row_Ok in Hins as (t & Ht & _ & ->).
  assert (def t = event_log_table) as Hdef.
  { assert (event_log_table ∈ event_tables) as Hin%Hdefs by repeat constructor.
    change (table_name event_log_table) with "event_log" in Hin. rewrite Ht in Hin. by injection Hin. }
  rewrite Hdef. set (l := with_defaults _ _ _).
  assert (forall id, in_log db id -> id <> next_event_log_id db) as Hfresh.
  { intros id Hid ->. unfold in_log in Hid. by rewrite next_id_absent in Hid. }
  assert (l !! "event_log_id" = Some (CInt (next_event_log_id db))) as Hid by reflexivity.
  assert (forall id, in_log db id -> in_log (<["event_log" := add_row l t]> db) id) as Hmono.
  { intros id Hp. unfold in_log in *. by rewrite present_add, Hp by done. }
  split_and!; [split; [..|done]|..].
  - intros d Hd. destruct (decide (table_name d = "event_log")) as [Heq|].
    + specialize (Hdefs d Hd). rewrite Heq in *. rewrite Ht in Hdefs. by rewrite lookup_insert_eq.
    + rewrite lookup_insert_ne by done. by apply Hdefs.
  - intros d t' r Hd. destruct (entity_table_in d Hd) as (_ & Hne & _). rewrite lookup_insert_ne by done.
    intros Ht' Hr. destruct (Hlinks d t' r Hd Ht' Hr) as (id & Hr' & Hp). eauto.
  - intros d Hd. rewrite <- (Hview d Hd). destruct (entity_table_in d Hd) as (_ & Hne & _).
    unfold view. rewrite lookup_insert_ne by done. destruct (db !! table_name d) as [t'|] eqn:Ht'; [|done].
    apply list_fmap_ext. intros i r Hr%list_elem_of_lookup_2. f_equal.
    destruct (Hlinks d t' r Hd Ht' Hr) as (id & Hr' & Hp). rewrite (log_data_add _ _ _ _ Ht), Hid, Hr'.
    rewrite decide_False, app_nil_r; [done|]. intros [= Heq]. by apply (Hfresh id).
  - unfold in_log. rewrite present_add by done. apply orb_true_iff. right. by apply bool_decide_eq_true.
  - rewrite (log_data_add _ _ _ _ Ht), decide_True by done.
    replace (log_data db _) with (@nil (option Col * option Col)); [done|].
    unfold log_data. rewrite Ht. destruct (filter _ _) as [|r rs] eqn:Hf; [done|].
    assert (r ∈ filter (fun l : Row => l !! "event_log_id" = Some (CInt (next_event_log_id db))) (rows t))
      as [Hr Hin]%list_elem_of_filter by (rewrite Hf; by left).
    by destruct (next_event_log_id_fresh db t r).
Qed.

Lemma in_log_other (db : Database) (table : string) (t : Table) (id : Z) :
  table <> "event_log" -> in_log db id -> in_log (<[table := t]> db) id.
Proof. intros Hne. unfold in_log. by rewrite present_other. Qed.

(** A row of a table outside the entities and the log. *)
Lemma represents_other (json : SseData -> result string string) (db : Database) (s : Saved) (table : string)
    (t : Table) (r : Row) :
  represents json db s -> db !! table = Some t -> table <> "event_log" ->
  (forall d, d ∈ entity_tables -> table_name d <> table) ->
  represents json (<[table := add_row r t]> db) s.
Proof.
  intros [Hdefs Hlinks Hview Hjson] Ht Hne Hent. split; [..|done].
  - intros d Hd. destruct (decide (table_name d = table)) as [Heq|].
    + specialize (Hdefs d Hd). rewrite Heq in *. rewrite Ht in Hdefs. by rewrite lookup_insert_eq.
    + rewrite lookup_insert_ne by done. by apply Hdefs.
  - intros d t' r' Hd. rewrite lookup_insert_ne by (by apply not_eq_sym, Hent). intros Ht' Hr.
    destruct (Hlinks d t' r' Hd Ht' Hr) as (id & Hr' & Hp). eauto using in_log_other.
  - intros d Hd. rewrite <- (Hview d Hd). unfold view.
    rewrite lookup_insert_ne by (by apply not_eq_sym, Hent). destruct (db !! table_name d); [|done].
    apply list_fmap_ext. intros i r' _. by rewrite log_data_other.
Qed.

(** The row of an event. *)
Lemma represents_entity (json : SseData -> result string string) (db : Database) (s : Saved) (d : SseData)
    (o : Origin) (table : string) (t : Table) (r : Row) (id : Z) :
  represents json db s -> json d = Ok (raw_of json d) -> in_log db id ->
  log_data db (Some (CInt id)) = [(Some (CText (origin_api_version o)), Some (CText (origin_network_name o)))] ->
  entity_stmt d (raw_of json d) id = Some (table, r) -> db !! table = Some t ->
  represents json (<[table := add_row r t]> db) (s ++ [(d, o)]).
Proof.
  intros [Hdefs Hlinks Hview Hjson] Hok Hid Hlog Hstmt Ht.
  destruct (entity_stmt_spec _ _ _ _ _ Hstmt) as (-> & Htd & _ & Hr & Hdel).
  set (td := event_table d) in *.
  assert (forall tb, entry_of json tb (d, o) = if decide (table_name td = tb)
      then Some (delete "event_log_id" r, log_data db (Some (CInt id))) else None) as Hentry.
  { intros tb. rewrite Hlog. unfold entry_of. simpl. destruct (Hdel 0) as (r' & -> & Hr'). simpl.
    by rewrite Hr'. }
  assert (table_name td <> "event_log") as Hne by by apply entity_table_in.
  split; [..|by apply Forall_app_2; [|apply Forall_singleton]].
  - intros d' Hd. destruct (decide (table_name d' = table_name td)) as [Heq|].
    + specialize (Hdefs d' Hd). rewrite Heq in *. rewrite Ht in Hdefs. by rewrite lookup_insert_eq.
    + rewrite lookup_insert_ne by done. by apply Hdefs.
  - intros d' t' r' Hd. destruct (decide (table_name td = table_name d')) as [Heq|].
    + rewrite Heq, lookup_insert_eq. intros [= <-] [Hr'|Hr'%list_elem_of_singleton]%elem_of_app.
      * rewrite Heq in Ht. destruct (Hlinks d' t r' Hd Ht Hr') as (id' & ? & ?). rewrite <- Heq.
        eauto using in_log_other.
      * subst r'. exists id. rewrite <- Heq. eauto using in_log_other.
    + rewrite lookup_insert_ne by done. intros Ht' Hr'.
      destruct (Hlinks d' t' r' Hd Ht' Hr') as (id' & ? & ?). eauto using in_log_other.
  - intros d' Hd. rewrite omap_app. simpl. rewrite Hentry, <- (Hview d' Hd). unfold view.
    destruct (decide (table_name td = table_name d')) as [Heq|].
    + rewrite <- Heq, lookup_insert_eq, Ht. simpl. rewrite fmap_app. f_equal.
      * apply list_fmap_ext. intros i r' _. by rewrite log_data_other.
      * simpl. by rewrite log_data_other, Hr.
    + rewrite lookup_insert_ne, app_nil_r by done. destruct (db !! table_name d'); [|done].
      apply list_fmap_ext. intros i r' _. by rewrite log_data_other.
Qed.

(** Saving an event appends it to what the database represents. *)
Lemma represents_save (env : WriteEnv) (d : SseData) (o : Origin) (db db' : Database) (s : Saved) (n : Z) :
  represents (to_json env) db s -> save env d o db = (Some (Ok n), db') ->
  represents (to_json env) db' (s ++ [(d, o)]).
Proof.
  intros Hrep Hs. destruct (save_Ok env d o db db' n Hs) as (ty & key & raw & db1 & Hj & Hl & He).
  destruct (represents_log _ _ _ _ _ _ _ _ Hrep Hl) as (Hrep1 & Hid & Hlog).
  assert (raw = raw_of (to_json env) d) as -> by (unfold raw_of; by rewrite Hj).
  revert He. unfold event_stmts. destruct (entity_stmt d _ _) as [[table r]|] eqn:Hstmt; [|by destruct d].
  cbn [execute]. destruct (insert_row _ _ _ _ _) as [db2|] eqn:Hins; [|done]. simp_result.
  apply insert_row_Ok in Hins as (t & Ht & _ & ->).
  assert (with_defaults (def t) (now env) r = r) as Hr.
  { destruct Hrep1 as [Hdefs _ _ _].
    destruct (entity_stmt_spec _ _ _ _ _ Hstmt) as (-> & Htd%entity_table_in & Hd & _).
    specialize (Hdefs _ (proj1 Htd)). rewrite Ht in Hdefs. injection Hdefs as ->.
    unfold with_defaults. by rewrite Hd. }
  rewrite Hr. pose proof (represents_entity _ _ _ d o table t r _ Hrep1 Hj Hid Hlog Hstmt Ht) as Hrep2.
  assert (forall id ty h db2, represents (to_json env) db2 (s ++ [(d, o)]) ->
    execute env [insert_transaction_event id ty h] db2 = Ok db' -> represents (to_json env) db' (s ++ [(d, o)])) as Hte.
  { intros id ty' h db2 Hrep' He. simpl in He. destruct (insert_row _ _ _ _ _) as [db3|] eqn:Hins; [|done].
    injection He as <-. apply insert_row_Ok in Hins as (t' & Ht' & _ & ->).
    apply represents_other; try done. intros d' Hd'. by apply entity_table_in. }
  destruct d; simpl in Hstmt; try done; first [by intros [= <-]|by apply Hte].
Qed.

End SaveView.

(** *** What a statement returns *)

(** The readers can read what the writers wrote. *)
Class EventJsonLaws `{EventJson} (json : SseData -> result string string) : Prop := {
  parse_saved d ty key raw : log_key d = Some (ty, key) -> json d = Ok raw -> parse_event ty raw = Ok d;
  parse_saved_signature fs raw : json (FinalitySignatureEvent fs) = Ok raw -> parse_finality_signature raw = Ok fs;
}.

Definition saved_row (json : SseData -> result string string) (e : SseData * Origin) : Row :=
  result_row (Some (CText (raw_of json e.1))) (Some (CText (origin_api_version e.2)))
    (Some (CText (origin_network_name e.2))).

(** The row of an event satisfies a condition. *)
Definition satisfies (json : SseData -> result string string) (table : string) (p : Row -> bool)
    (e : SseData * Origin) : bool :=
  match entry_of json table e with Some (r, _) => p r | None => false end.

Lemma filter_join (db : Database) (w p : Row -> bool) (l : list Row) :
  (forall r, r ∈ l -> w r = p (delete "event_log_id" r)) ->
  (List.filter w l ≫= fun r => left_join r (log_data db (r !! "event_log_id"))) =
  (((fun r : Row => (delete "event_log_id" r, log_data db (r !! "event_log_id"))) <$> l)
     ≫= fun v => if p v.1 then left_join v.1 v.2 else []).
Proof.
  intros Hw. induction l as [|r l IH]; [done|]. csimpl. rewrite (Hw r) by by left.
  rewrite <- IH by (intros; apply Hw; by right). destruct (p (delete "event_log_id" r)); csimpl; [|done]. f_equal.
  unfold left_join. by rewrite lookup_delete_ne.
Qed.

Lemma select_represents (json : SseData -> result string string) (db : Database) (s : Saved) (td : TableDef)
    (w : list Row -> Row -> bool) (p : Row -> bool) :
  represents json db s -> td ∈ entity_tables ->
  (forall t r, db !! table_name td = Some t -> r ∈ rows t -> w (rows t) r = p (delete "event_log_id" r)) ->
  select db (mkSelect (table_name td) w) =
    Ok (saved_row json <$> List.filter (satisfies json (table_name td) p) s).
Proof.
  intros [Hdefs _ Hview _] Htd Hw. unfold select. simpl.
  destruct (entity_table_in td Htd) as (Hin & _ & _). specialize (Hdefs td Hin). specialize (Hview td Htd).
  unfold view in Hview. destruct (db !! table_name td) as [t|]; [|done]. f_equal.
  rewrite (filter_join db (w (rows t)) p) by (intros; by apply Hw). rewrite Hview. clear.
  induction s as [|e s IH]; [done|]. csimpl. unfold satisfies at 1.
  destruct (entry_of json (table_name td) e) as [[r logs]|] eqn:He; csimpl; [|done]. rewrite IH.
  destruct (p r); [|done]. csimpl. f_equal. unfold entry_of in He.
  destruct (entity_stmt e.1 (raw_of json e.1) 0) as [[tb r0]|] eqn:Hs; [|done]. simpl in He.
  case_decide; [|done]. injection He as <- <-. simpl. unfold saved_row, left_join. simpl.
  assert (r0 !! "raw" = Some (CText (raw_of json e.1))) as Hraw
    by (destruct e as [[] o]; try discriminate Hs; by injection Hs as <- <-).
  by rewrite lookup_delete_ne, Hraw.
Qed.

Lemma mapM_Ok {E A B} (f : A -> result E B) (l : list A) (k : list B) :
  Forall2 (fun a b => f a = Ok b) l k -> mapM (M := result E) f l = Ok k.
Proof.
  induction 1 as [|a b l k Ha _ IH]; [done|].
  change (mapM (M := result E) f (a :: l)) with (b ← f a; k ← mapM (M := result E) f l; mret (b :: k)).
  by rewrite Ha, IH.
Qed.

Section Reading.
Context `{EventJson} (json : SseData -> result string string) `{!EventJsonLaws json}.

(** A row the writers wrote is read as the event it was written for. *)
Lemma parse_saved_row {T} (parse : string -> result string T) (e : SseData * Origin) (payload : T) :
  parse (raw_of json e.1) = Ok payload ->
  parse_from_row parse (saved_row json e) =
    Ok (mkEnvelope payload (origin_api_version e.2) (origin_network_name e.2)).
Proof.
  intros Hp. unfold parse_from_row, deserialize_data.
  assert (fetch_envelope_data_from_row (saved_row json e) =
    Ok (raw_of json e.1, origin_api_version e.2, origin_network_name e.2)) as -> by reflexivity.
  simpl. by rewrite Hp.
Qed.

Lemma parse_saved_rows {T} (parse : string -> result string T) (l : Saved) (k : list (SseEnvelope T)) :
  Forall2 (fun e v => parse (raw_of json e.1) = Ok (env_payload v) /\
             v = mkEnvelope (env_payload v) (origin_api_version e.2) (origin_network_name e.2)) l k ->
  parse_from_rows parse (saved_row json <$> l) = match k with [] => Err NotFound | _ => Ok k end.
Proof.
  intros Hl. unfold parse_from_rows. rewrite (mapM_Ok (parse_from_row parse) (saved_row json <$> l) k).
  - by destruct k.
  - induction Hl as [|e v l k [Hp Hv] Hl IH]; constructor; [|done]. rewrite Hv. by apply parse_saved_row.
Qed.

(** The first event with a property, and all of them. *)
Definition found (p : SseData -> bool) (s : Saved) : result DatabaseReadError (SseEnvelope SseData) :=
  match List.filter (p ∘ fst) s with
  | [] => Err NotFound
  | e :: _ => Ok (envelope_of e)
  end.

Definition found_all (p : SseData -> bool) (s : Saved) : result DatabaseReadError (list (SseEnvelope SseData)) :=
  match List.filter (p ∘ fst) s with
  | [] => Err NotFound
  | l => Ok (envelope_of <$> l)
  end.

Lemma filter_ext_In (p q : SseData * Origin -> bool) (l : Saved) :
  (forall e, e ∈ l -> p e = q e) -> List.filter p l = List.filter q l.
Proof.
  intros Hpq. induction l as [|e l IH]; [done|]. simpl. rewrite (Hpq e) by by left.
  rewrite IH; [done|]. intros; apply Hpq. by right.
Qed.

(** The type of an event that is in a table. *)
Definition of_type (ty : EventTypeId) (p : SseData -> bool) : Prop :=
  forall d, p d = true -> exists key, log_key d = Some (ty, key).

Lemma saved_parses (db : Database) (s : Saved) (ty : EventTypeId) (p : SseData -> bool) :
  represents json db s -> of_type ty p ->
  Forall (fun e => parse_event ty (raw_of json e.1) = Ok e.1) (List.filter (p ∘ fst) s).
Proof using EventJsonLaws0.
  intros [_ _ _ Hjson] Hty. apply Forall_forall. intros e [He Hp]%list_elem_of_In%filter_In.
  rewrite Forall_forall in Hjson. destruct (Hty e.1 Hp) as [key Hk].
  by eapply parse_saved, Hjson, list_elem_of_In.
Qed.

(** A statement asks for the events with a property. *)
Definition asks_for (db : Database) (stmt : SelectStatement) (td : TableDef) (p : SseData -> bool) (s : Saved) : Prop :=
  exists q, stmt = mkSelect (table_name td) (where_ stmt) /\ td ∈ entity_tables /\
    (forall t r, db !! table_name td = Some t -> r ∈ rows t ->
       where_ stmt (rows t) r = q (delete "event_log_id" r)) /\
    (forall e, e ∈ s -> satisfies json (table_name td) q e = p e.1).

Lemma fetch_all_saved (db : Database) (s : Saved) (stmt : SelectStatement) (td : TableDef) (p : SseData -> bool) :
  represents json db s -> asks_for db stmt td p s ->
  fetch_all (fun _ => None) db stmt = Ok (saved_row json <$> List.filter (p ∘ fst) s).
Proof.
  intros Hrep (q & Hstmt & Htd & Hw & Hq). unfold fetch_all. rewrite Hstmt.
  rewrite (select_represents json db s td _ q Hrep Htd Hw). simpl. do 2 f_equal. by apply filter_ext_In.
Qed.

Lemma get_one_saved (db : Database) (s : Saved) (ty : EventTypeId) (stmt : SelectStatement) (td : TableDef)
    (p : SseData -> bool) :
  represents json db s -> asks_for db stmt td p s -> of_type ty p ->
  get_one (fun _ => None) db ty stmt = found p s.
Proof using EventJsonLaws0.
  intros Hrep Hasks Hty. unfold get_one, fetch_optional. rewrite (fetch_all_saved db s stmt td p Hrep Hasks). simpl.
  pose proof (saved_parses db s ty p Hrep Hty) as Hp. unfold found.
  destruct (List.filter (p ∘ fst) s) as [|e l]; [done|]. simpl. apply Forall_cons in Hp as [He _].
  by rewrite (parse_saved_row _ e _ He).
Qed.

Lemma get_checked_saved (db : Database) (s : Saved) (ty : EventTypeId) (stmt : SelectStatement) :
  (let? r := fetch_optional_with_error_check (fun _ => None) db stmt in parse_from_row (parse_event ty) r) =
  get_one (fun _ => None) db ty stmt.
Proof.
  unfold get_one, fetch_optional_with_error_check. destruct (fetch_optional _ db stmt) as [[r|]|]; done.
Qed.

Lemma get_all_saved (db : Database) (s : Saved) (ty : EventTypeId) (stmt : SelectStatement) (td : TableDef)
    (p : SseData -> bool) :
  represents json db s -> asks_for db stmt td p s -> of_type ty p ->
  (let? rows := fetch_all (fun _ => None) db stmt in parse_from_rows (parse_event ty) rows) = found_all p s.
Proof using EventJsonLaws0.
  intros Hrep Hasks Hty. rewrite (fetch_all_saved db s stmt td p Hrep Hasks). simpl.
  pose proof (saved_parses db s ty p Hrep Hty) as Hp. unfold found_all.
  rewrite (parse_saved_rows _ _ (envelope_of <$> List.filter (p ∘ fst) s)); [by destruct (List.filter _ _)|].
  induction Hp as [|e l He Hl IH]; constructor; done.
Qed.

(** What the statements ask for. *)
Definition block_at (height : Z) (d : SseData) : bool :=
  match d with BlockAdded _ b => bool_decide (block_height b = height) | _ => false end.
Definition block_with (hash : string) (d : SseData) : bool :=
  match d with BlockAdded h _ => bool_decide (h = hash) | _ => false end.
Definition same_hash (ty : TransactionTypeId) (hash : string) (h : TransactionHash) : bool :=
  bool_decide (hash_type_id h = ty) && bool_decide (transaction_hash_to_identifier h = hash).
Definition accepted_with (ty : TransactionTypeId) (hash : string) (d : SseData) : bool :=
  match d with TransactionAccepted t => same_hash ty hash (transaction_hash t) | _ => false end.
Definition processed_with (ty : TransactionTypeId) (hash : string) (d : SseData) : bool :=
  match d with TransactionProcessed h _ _ _ _ _ _ => same_hash ty hash h | _ => false end.
Definition expired_with (ty : TransactionTypeId) (hash : string) (d : SseData) : bool :=
  match d with TransactionExpired h => same_hash ty hash h | _ => false end.
Definition fault_by (key : string) (d : SseData) : bool :=
  match d with Fault _ k _ => bool_decide (k = key) | _ => false end.
Definition fault_in (era : Z) (d : SseData) : bool :=
  match d with Fault e _ _ => bool_decide (e = era) | _ => false end.
Definition signature_of (hash : string) (d : SseData) : bool :=
  match d with FinalitySignatureEvent fs => bool_decide (fs_block_hash (fs_value fs) = hash) | _ => false end.
Definition step_of (era : Z) (d : SseData) : bool :=
  match d with Step e _ => bool_decide (e = era) | _ => false end.

Lemma eq_col_delete (c : string) (v : Col) (r : Row) :
  c <> "event_log_id" -> eq_col c v r = eq_col c v (delete "event_log_id" r).
Proof. intros Hc. unfold eq_col. by rewrite lookup_delete_ne. Qed.

(** A statement that compares columns of one table. *)
Lemma asks_columns (db : Database) (stmt : SelectStatement) (td : TableDef) (q : Row -> bool)
    (p : SseData -> bool) (s : Saved) :
  from stmt = table_name td -> where_ stmt = (fun _ => q) ->
  td ∈ entity_tables -> (forall r, q r = q (delete "event_log_id" r)) ->
  (forall e, satisfies json (table_name td) q e = p e.1) ->
  asks_for db stmt td p s.
Proof.
  destruct stmt as [f w]. simpl. intros -> -> Htd Hq Hp. exists q.
  split_and!; [done|done|by intros; simpl; rewrite Hq|by intros].
Qed.

Ltac solve_columns :=
  match goal with |- asks_for _ ?stmt _ _ _ => apply (asks_columns _ stmt _ (where_ stmt [])) end;
    [reflexivity|reflexivity|repeat constructor
    |intros r; simpl; unfold by_type_and_hash; rewrite ?(fun c v => eq_col_delete c v r) by done; reflexivity
    |intros [[] o]; try reflexivity; unfold satisfies, entry_of; simpl].

(** Comparing the value of a column. *)
Lemma eq_col_int (c : string) (v z : Z) (r : Row) :
  r !! c = Some (CInt z) -> eq_col c (CInt v) r = bool_decide (z = v).
Proof. intros Hr. unfold eq_col. rewrite Hr. apply bool_decide_ext. naive_solver. Qed.

Lemma eq_col_text (c : string) (v z : string) (r : Row) :
  r !! c = Some (CText z) -> eq_col c (CText v) r = bool_decide (z = v).
Proof. intros Hr. unfold eq_col. rewrite Hr. apply bool_decide_ext. naive_solver. Qed.

Lemma eq_col_hash (ty : TransactionTypeId) (hash : string) (h : TransactionHash) (r : Row) :
  r !! "transaction_type_id" = Some (CInt (transaction_type_id (hash_type_id h))) ->
  r !! "transaction_hash" = Some (CText (transaction_hash_to_identifier h)) ->
  by_type_and_hash (transaction_type_id ty) hash [] r = same_hash ty hash h.
Proof.
  intros Ht Hh. unfold by_type_and_hash, same_hash.
  rewrite (eq_col_int _ _ _ _ Ht), (eq_col_text _ _ _ _ Hh). f_equal. apply bool_decide_ext.
  by destruct (hash_type_id h), ty.
Qed.

Lemma asks_height (db : Database) (s : Saved) (height : Z) :
  asks_for db (block_by_height_stmt height) block_added_table (block_at height) s.
Proof. solve_columns. by apply eq_col_int. Qed.

Lemma asks_block_hash (db : Database) (s : Saved) (hash : string) :
  asks_for db (block_by_hash_stmt hash) block_added_table (block_with hash) s.
Proof. solve_columns. by apply eq_col_text. Qed.

Lemma asks_accepted (db : Database) (s : Saved) (ty : TransactionTypeId) (hash : string) :
  asks_for db (accepted_by_hash_stmt (transaction_type_id ty) hash) transaction_accepted_table (accepted_with ty hash) s.
Proof. solve_columns. by apply eq_col_hash. Qed.

Lemma asks_processed (db : Database) (s : Saved) (ty : TransactionTypeId) (hash : string) :
  asks_for db (processed_by_hash_stmt (transaction_type_id ty) hash) transaction_processed_table
    (processed_with ty hash) s.
Proof. solve_columns. by apply eq_col_hash. Qed.

Lemma asks_expired (db : Database) (s : Saved) (ty : TransactionTypeId) (hash : string) :
  asks_for db (expired_by_hash_stmt (transaction_type_id ty) hash) transaction_expired_table (expired_with ty hash) s.
Proof. solve_columns. by apply eq_col_hash. Qed.

Lemma asks_fault_key (db : Database) (s : Saved) (key : string) :
  asks_for db (faults_by_public_key_stmt key) fault_table (fault_by key) s.
Proof. solve_columns. by apply eq_col_text. Qed.

Lemma asks_fault_era (db : Database) (s : Saved) (era : Z) :
  asks_for db (faults_by_era_stmt era) fault_table (fault_in era) s.
Proof. solve_columns. by apply eq_col_int. Qed.

Lemma asks_signatures (db : Database) (s : Saved) (hash : string) :
  asks_for db (signatures_by_block_stmt hash) finality_signature_table (signature_of hash) s.
Proof. solve_columns. by apply eq_col_text. Qed.

Lemma asks_step (db : Database) (s : Saved) (era : Z) :
  asks_for db (step_by_era_stmt era) step_table (step_of era) s.
Proof. solve_columns. by apply eq_col_int. Qed.

(** *** The latest block *)

Definition block_heights (s : Saved) : list Z :=
  omap (fun e => match e.1 with BlockAdded _ b => Some (block_height b) | _ => None end) s.

Definition is_latest (s : Saved) (d : SseData) : bool :=
  match max_of (block_heights s) with Some h => block_at h d | None => false end.

Lemma heights_delete (l : list Row) : heights ((fun r : Row => delete "event_log_id" r) <$> l) = heights l.
Proof.
  unfold heights. induction l as [|r l IH]; [done|]. csimpl. rewrite lookup_delete_ne by done.
  destruct (r !! "height") as [[]|]; by rewrite IH.
Qed.

Lemma heights_saved (db : Database) (s : Saved) (t : Table) :
  represents json db s -> db !! "BlockAdded" = Some t -> heights (rows t) = block_heights s.
Proof.
  intros [_ _ Hview _] Ht. rewrite <- heights_delete.
  assert (block_added_table ∈ entity_tables) as Hin%Hview by repeat constructor.
  change (table_name block_added_table) with "BlockAdded" in Hin. unfold view in Hin. rewrite Ht in Hin.
  apply (f_equal (fmap fst)) in Hin. rewrite <- list_fmap_compose in Hin.
  assert (((fun r : Row => delete "event_log_id" r) <$> rows t) = (omap (entry_of json "BlockAdded") s).*1) as ->.
  { rewrite <- Hin. apply list_fmap_ext. done. }
  unfold heights, block_heights. clear. induction s as [|[[] o] s IH]; try done; csimpl; f_equal; exact IH.
Qed.

Lemma asks_latest (db : Database) (s : Saved) :
  represents json db s -> asks_for db latest_block_stmt block_added_table (is_latest s) s.
Proof.
  intros Hrep.
  exists (fun r => match max_of (block_heights s) with Some h => eq_col "height" (CInt h) r | None => false end).
  split_and!; [done|repeat constructor|..].
  - intros t r Ht Hr. cbn. rewrite (heights_saved db s t Hrep Ht).
    destruct (max_of _); [by apply eq_col_delete|done].
  - intros [[] o] _; unfold satisfies, entry_of, is_latest; simpl; try (by destruct (max_of _)).
    destruct (max_of _); [by apply eq_col_int|done].
Qed.

Lemma max_of_spec (l : list Z) : match max_of l with Some m => m ∈ l /\ Forall (fun h => h <= m) l | None => l = [] end.
Proof.
  destruct l as [|h l]; simpl; [done|]. induction l as [|h' l IH]; simpl; [split; [by left|by repeat constructor]|].
  destruct IH as [Hin Hle]. set (m := foldr Z.max h l) in *. apply Forall_cons in Hle as [Hh Hle]. split.
  - destruct (Z.max_spec h' m) as [[_ ->]|[_ ->]]; [|by right; left].
    apply elem_of_cons in Hin as [->|Hin]; [by left|by right; right].
  - repeat constructor; [lia|lia|]. eapply Forall_impl; [exact Hle|]. intros; simpl in *; lia.
Qed.

(** *** The readers *)

(** The signatures of a block, with their origin. *)
Definition signatures (hash : string) (s : Saved) : list (SseEnvelope FinalitySignature) :=
  omap (fun e => match e.1 with
                 | FinalitySignatureEvent fs =>
                     if decide (fs_block_hash (fs_value fs) = hash)
                     then Some (mkEnvelope fs (origin_api_version e.2) (origin_network_name e.2)) else None
                 | _ => None
                 end) s.

(** What became of a transaction. *)
Definition aggregate (ty : TransactionTypeId) (hash : string) (s : Saved)
    : result DatabaseReadError TransactionAggregate :=
  let? accepted := found (accepted_with ty hash) s in
  Ok (match found (processed_with ty hash) s with
      | Ok processed => mkAggregate hash (Some accepted) (Some processed) false
      | Err _ => mkAggregate hash (Some accepted) None (is_ok (found (expired_with ty hash) s))
      end).

Record reads_as (db : Database) (s : Saved) : Prop := {
  reads_height h : get_block_by_height (fun _ => None) db h = found (block_at h) s;
  reads_hash h : get_block_by_hash (fun _ => None) db h = found (block_with h) s;
  reads_latest : get_latest_block (fun _ => None) db = found (is_latest s) s;
  reads_accepted ty h :
    get_transaction_accepted_by_hash (fun _ => None) db ty h = found (accepted_with ty h) s;
  reads_processed ty h :
    get_transaction_processed_by_hash (fun _ => None) db ty h = found (processed_with ty h) s;
  reads_expired ty h :
    get_transaction_expired_by_hash (fun _ => None) db ty h = found (expired_with ty h) s;
  reads_aggregate ty h :
    get_transaction_aggregate_by_identifier (fun _ => None) db ty h = aggregate ty h s;
  reads_faults_key k : get_faults_by_public_key (fun _ => None) db k = found_all (fault_by k) s;
  reads_faults_era era : get_faults_by_era (fun _ => None) db era = found_all (fault_in era) s;
  reads_signatures h : get_finality_signatures_by_block (fun _ => None) db h =
    match signatures h s with [] => Err NotFound | l => Ok l end;
  reads_step era : get_step_by_era (fun _ => None) db era = found (step_of era) s;
}.

Ltac solve_type := intros []; try done; simpl; eauto.

Lemma signatures_saved (db : Database) (s : Saved) (h : string) :
  represents json db s ->
  get_finality_signatures_by_block (fun _ => None) db h = match signatures h s with [] => Err NotFound | l => Ok l end.
Proof using EventJsonLaws0.
  intros Hrep. unfold get_finality_signatures_by_block.
  rewrite (fetch_all_saved db s _ _ _ Hrep (asks_signatures db s h)). simpl.
  rewrite (parse_saved_rows _ _ (signatures h s)); [by destruct (signatures h s)|].
  destruct Hrep as [_ _ _ Hjson]. clear db.
  unfold signatures. induction Hjson as [|[d o] s Hj Hjson IH]; [constructor|]. csimpl.
  destruct d; simpl; try exact IH. case_bool_decide as Hb; [rewrite decide_True by done|by rewrite decide_False].
  constructor; [|exact IH]. simpl. split; [|done]. by apply parse_saved_signature.
Qed.

(** A database that represents a list of events reads as that list. *)
Lemma represents_reads (db : Database) (s : Saved) : represents json db s -> reads_as db s.
Proof using EventJsonLaws0.
  intros Hrep.
  assert (forall ty h, get_transaction_accepted_by_hash (fun _ => None) db ty h = found (accepted_with ty h) s) as Ha
    by (intros; eapply get_one_saved; [exact Hrep|apply asks_accepted|solve_type]).
  assert (forall ty h, get_transaction_processed_by_hash (fun _ => None) db ty h = found (processed_with ty h) s) as Hp
    by (intros; eapply get_one_saved; [exact Hrep|apply asks_processed|solve_type]).
  assert (forall ty h, get_transaction_expired_by_hash (fun _ => None) db ty h = found (expired_with ty h) s) as He
    by (intros; eapply get_one_saved; [exact Hrep|apply asks_expired|solve_type]).
  split; intros; try done.
  - unfold get_block_by_height. rewrite get_checked_saved by done.
    eapply get_one_saved; [exact Hrep|apply asks_height|solve_type].
  - eapply get_one_saved; [exact Hrep|apply asks_block_hash|solve_type].
  - unfold get_latest_block. rewrite get_checked_saved by done.
    eapply get_one_saved; [exact Hrep|by apply asks_latest|].
    intros d. unfold is_latest. destruct (max_of _); [|done]. revert d. solve_type.
  - unfold get_transaction_aggregate_by_identifier, aggregate. rewrite Ha, Hp, He.
    destruct (found (accepted_with ty h) s); simpl; [|done].
    destruct (found (processed_with ty h) s); [done|]. by destruct (found (expired_with ty h) s).
  - eapply get_all_saved; [exact Hrep|apply asks_fault_key|solve_type].
  - eapply get_all_saved; [exact Hrep|apply asks_fault_era|solve_type].
  - by apply signatures_saved.
  - eapply get_one_saved; [exact Hrep|apply asks_step|solve_type].
Qed.

End Reading.
