(* ===== verification/Migrations.v ===== *)
(** * Migrations of the event store

    [event_sidecar/src/database/migration_manager.rs],
    [event_sidecar/src/types/database.rs] (the migrations themselves), and
    [execute_migration] and [store_version_based_on_result] of the two engines.  The
    database is taken to answer: a migration fails because of its statements or its
    script. *)

From stdpp Require Import sorting.
From S2P Require Import Prelude SseData Sql Storage.

(** [event_sidecar/src/types/database.rs:480-485], [StatementWrapper]: an insert is its
    rows and the column whose conflicts it ignores. *)
Inductive StatementWrapper :=
| TableCreateStatement (statement : TableDef)
| InsertStatement (statement : list (string * Row)) (conflict : string)
| Raw (sql : Database -> result SqlxError Database).

(** [event_sidecar/src/types/database.rs:508-519], [Migration].  A script runs on the
    database of the transaction. *)
Record Migration := mkMigration {
  version : option Z;
  statement_producers : Engine -> result string (list StatementWrapper);
  script_executor : option (Database -> result DatabaseWriteError Database);
}.

(** Running a statement that [materialize_statements] prints. *)
Definition run_statement (engine : Engine) (now : Z) (stmt : StatementWrapper) (db : Database)
    : result SqlxError Database :=
  match stmt with
  | TableCreateStatement d => Ok (create_table db d)
  | InsertStatement rows conflict =>
      foldl (fun acc '(table, r) => let? db := acc in insert_or_ignore engine now conflict db table r) (Ok db) rows
  | Raw sql => sql db
  end.

(** [event_sidecar/src/types/database.rs:576-615], [migration_1_ddl_statements]. *)
Definition migration_1_ddl_statements : list StatementWrapper :=
  [TableCreateStatement event_type_table;
   TableCreateStatement transaction_type_table;
   TableCreateStatement event_log_table;
   TableCreateStatement transaction_event_table;
   TableCreateStatement block_added_table;
   TableCreateStatement transaction_accepted_table;
   TableCreateStatement transaction_processed_table;
   TableCreateStatement transaction_expired_table;
   TableCreateStatement fault_table;
   TableCreateStatement finality_signature_table;
   TableCreateStatement step_table;
   TableCreateStatement shutdown_table;
   InsertStatement initialise_event_type "event_type_id";
   InsertStatement initialise_transaction_type "transaction_type_id"].

(** [event_sidecar/src/types/database.rs:526-536], [Migration::initial]. *)
Definition Migration_initial : Migration :=
  mkMigration None (fun _ => Ok [TableCreateStatement migration_table]) None.

(** [event_sidecar/src/types/database.rs:538-562], [Migration::migration_1]. *)
Definition migration_1 : Migration :=
  mkMigration (Some 1) (fun _ => Ok migration_1_ddl_statements) None.

(** [event_sidecar/src/types/database.rs:522-524], [Migration::get_all_migrations]. *)
Definition get_all_migrations : list Migration := [migration_1].

(** [event_sidecar/src/database/sqlite_database.rs:68-92], [store_version_based_on_result];
    PostgreSQL's is the same.  [None] is a panic. *)
Definition store_version_based_on_result (engine : Engine) (now : Z) (maybe_version : option Z)
    (res : result DatabaseWriteError unit) (db : Database) : option (result DatabaseWriteError unit) * Database :=
  match maybe_version with
  | None => (Some res, db)
  | Some version =>
      let (table, r) := insert_migration version (is_ok res) in
      match insert_row engine now db table r with
      | Ok db => (Some res, db)
      | Err e => (Err <$> DatabaseWriteError_from e, db)
      end
  end.

(** [event_sidecar/src/database/writer_generator.rs:385-418], [execute_migration]: when
    the statements cannot be produced no version is stored. *)
Definition execute_migration (engine : Engine) (now : Z) (migration : Migration) (db : Database)
    : option (result DatabaseWriteError unit) * Database :=
  match statement_producers migration engine with
  | Err e => (Some (Err (Unhandled e)), db)
  | Ok stmts =>
      match foldl (fun acc stmt => let? db := acc in run_statement engine now stmt db) (Ok db) stmts with
      | Err e =>
          match DatabaseWriteError_from e with
          | None => (None, db)
          | Some err => store_version_based_on_result engine now (version migration) (Err err) db
          end
      | Ok db' =>
          match script_executor migration with
          | None => store_version_based_on_result engine now (version migration) (Ok tt) db'
          | Some script =>
              match script db' with
              | Ok db'' => store_version_based_on_result engine now (version migration) (Ok tt) db''
              | Err err => store_version_based_on_result engine now (version migration) (Err err) db
              end
          end
      end
  end.

(** ** The newest version *)

Definition version_of (r : Row) : Z := match r !! "version" with Some (CInt v) => v | _ => 0 end.

(** The row with the greatest version. *)
Definition newer (best : option Row) (r : Row) : option Row :=
  match best with
  | Some b => if version_of r <=? version_of b then Some b else Some r
  | None => Some r
  end.

(** [event_sidecar/src/sql/tables/migration.rs:30-38], [create_get_newest_migration_stmt]:
    the first row in descending order of versions. *)
Definition select_newest_migration (db : Database) : result string (option Row) :=
  match db !! "Migration" with
  | Some t => Ok (foldl newer None (rows t))
  | None => Err "no such table: Migration"
  end.

(** [event_sidecar/src/database/sqlite_database/reader.rs:21-36], [parse_migration_row]. *)
Definition parse_migration_row (maybe_row : option Row) : result string (option (Z * bool)) :=
  match maybe_row with
  | None => Ok None
  | Some r =>
      match r !! "version", r !! "is_success" with
      | Some (CInt v), Some (CInt s) => Ok (Some (v, negb (s =? 0)))
      | _, _ => Err "error occurred while decoding"
      end
  end.

(** [event_sidecar/src/database/reader_generator.rs:304-317], [get_newest_migration_version]. *)
Definition get_newest_migration_version (db : Database) : result string (option (Z * bool)) :=
  let? maybe_row := select_newest_migration db in parse_migration_row maybe_row.

(** ** The migration manager *)

(** The error messages of [migrate]; [Panicked] stands for a panic in converting a
    database error. *)
Inductive MigrationError : Set :=
| InitialMigration (err : DatabaseWriteError)
| MigrationWithoutVersion
| LastMigrationFailed (version : Z)
| ExecuteMigrationFailed (version : Z) (err : DatabaseWriteError)
| VersionFetchFailed (err : string)
| DuplicateVersion (version : Z)
| Panicked.

(** [event_sidecar/src/database/migration_manager.rs:126-147],
    [validate_uniqueness_of_migration_versions]: the first version met a second time. *)
Fixpoint first_duplicate_version (versions : list Z) (migrations : list Migration) : option Z :=
  match migrations with
  | [] => None
  | m :: migrations =>
      match version m with
      | Some v =>
          if decide (v ∈ versions) then Some v else first_duplicate_version (v :: versions) migrations
      | None => first_duplicate_version versions migrations
      end
  end.

(** The order of [sorted_by_key(Migration::get_version)]. *)
Definition version_le (m m' : Migration) : Prop := default 0 (version m) <= default 0 (version m').

#[export] Instance version_le_dec : RelDecision version_le.
Proof. intros m m'. unfold version_le. apply _. Defined.

Definition is_newer (v : Z) (m : Migration) : bool :=
  match version m with Some w => v <? w | None => false end.

(** The loop of [do_migrate] over the migrations to execute. *)
Fixpoint execute_migrations (engine : Engine) (now : Z) (migrations : list Migration) (db : Database)
    : result MigrationError unit * Database :=
  match migrations with
  | [] => (Ok tt, db)
  | m :: migrations =>
      match version m with
      | None => (Err Panicked, db)
      | Some v =>
          match execute_migration engine now m db with
          | (Some (Ok _), db) => execute_migrations engine now migrations db
          | (Some (Err err), db) => (Err (ExecuteMigrationFailed v err), db)
          | (None, db) => (Err Panicked, db)
          end
      end
  end.

(** [event_sidecar/src/database/migration_manager.rs:55-89], [do_migrate]. *)
Definition do_migrate (engine : Engine) (now : Z) (migrations : list Migration)
    (maybe_newest_version : option (Z * bool)) (db : Database) : result MigrationError unit * Database :=
  if decide (length migrations = O) then (Ok tt, db)
  else
    match maybe_newest_version with
    | Some (v, success) =>
        if negb success then (Err (LastMigrationFailed v), db)
        else
          let newer_ones := filter (fun m => is_newer v m = true) migrations in
          execute_migrations engine now (merge_sort version_le newer_ones) db
    | None => execute_migrations engine now (merge_sort version_le migrations) db
    end.

(** [event_sidecar/src/database/migration_manager.rs:28-48], [migrate]. *)
Definition migrate (engine : Engine) (now : Z) (migrations : list Migration) (db : Database)
    : result MigrationError unit * Database :=
  match execute_migration engine now Migration_initial db with
  | (None, db) => (Err Panicked, db)
  | (Some (Err err), db) => (Err (InitialMigration err), db)
  | (Some (Ok _), db) =>
      if existsb (fun m => bool_decide (version m = None)) migrations then (Err MigrationWithoutVersion, db)
      else
        match first_duplicate_version [] migrations with
        | Some v => (Err (DuplicateVersion v), db)
        | None =>
            match get_newest_migration_version db with
            | Err err => (Err (VersionFetchFailed err), db)
            | Ok maybe_newest_version => do_migrate engine now migrations maybe_newest_version db
            end
        end
  end.

(** [event_sidecar/src/database/migration_manager.rs:50-53], [apply_all_migrations]. *)
Definition apply_all_migrations (engine : Engine) (now : Z) (db : Database) : result MigrationError unit * Database :=
  migrate engine now get_all_migrations db.

(** ** What is on record *)

Definition migration_row (entry : Z * bool) : Row := (insert_migration entry.1 entry.2).2.

(** The migrations on record, with their success. *)
Definition history (db : Database) (l : list (Z * bool)) : Prop :=
  db !! "Migration" = Some (mkTable migration_table (migration_row <$> l)).

Definition newer_entry (best : option (Z * bool)) (entry : Z * bool) : option (Z * bool) :=
  match best with
  | Some b => if entry.1 <=? b.1 then Some b else Some entry
  | None => Some entry
  end.

Lemma select_newest_history (l : list (Z * bool)) (best : option (Z * bool)) :
  foldl newer (migration_row <$> best) (migration_row <$> l) = migration_row <$> foldl newer_entry best l.
Proof.
  revert best. induction l as [|entry l IH]; intros best; [done|]. csimpl. rewrite <- IH. f_equal.
  destruct best as [b|]; [|done]. simpl.
  change (version_of (migration_row entry)) with entry.1. change (version_of (migration_row b)) with b.1.
  by destruct (_ <=? _).
Qed.

Lemma get_newest_history (db : Database) (l : list (Z * bool)) :
  history db l -> get_newest_migration_version db = Ok (foldl newer_entry None l).
Proof.
  intros Hh. unfold get_newest_migration_version, select_newest_migration. rewrite Hh. cbn [rows].
  rewrite (select_newest_history l None : foldl newer None _ = _).
  destruct (foldl newer_entry None l) as [[v [|]]|]; done.
Qed.

(** The newest entry is on record and no entry is newer. *)
Lemma newest_max (l : list (Z * bool)) (best : option (Z * bool)) :
  match foldl newer_entry best l with
  | Some b => (b ∈ l \/ best = Some b) /\ (forall entry, entry ∈ l \/ best = Some entry -> entry.1 <= b.1)
  | None => l = [] /\ best = None
  end.
Proof.
  revert best. induction l as [|entry l IH]; intros best; simpl.
  - destruct best as [b|]; [|done]. split; [by right|]. intros e [?%not_elem_of_nil|[= ->]]; [done|lia].
  - specialize (IH (newer_entry best entry)).
    destruct (foldl newer_entry (newer_entry best entry) l) as [b|];
      [|destruct IH as [_ Hn]; destruct best as [b0|]; simpl in Hn; [destruct (_ <=? _)|]; done].
    destruct IH as [Hin Hmax]. destruct best as [b0|]; simpl in *; [destruct (Z.leb_spec entry.1 b0.1)|].
    + split; [set_solver|]. intros e [[->|?]%elem_of_cons|[= ->]]; [|by auto..].
      specialize (Hmax b0 (or_intror eq_refl)). lia.
    + split; [naive_solver set_solver|]. intros e [[->|?]%elem_of_cons|[= ->]]; [by auto..|].
      specialize (Hmax entry (or_intror eq_refl)). lia.
    + split; [naive_solver set_solver|]. intros e [[->|?]%elem_of_cons|[=]]; by auto.
Qed.

(** A migration that leaves the record of migrations alone. *)
Record tame (engine : Engine) (m : Migration) : Prop := {
  tame_statements : forall now stmts db db',
    statement_producers m engine = Ok stmts ->
    foldl (fun acc stmt => let? db := acc in run_statement engine now stmt db) (Ok db) stmts = Ok db' ->
    db' !! "Migration" = db !! "Migration";
  tame_script : forall script db db',
    script_executor m = Some script -> script db = Ok db' -> db' !! "Migration" = db !! "Migration";
}.

Lemma store_success (engine : Engine) (now v : Z) (db db' : Database) (l : list (Z * bool)) :
  history db l -> store_version_based_on_result engine now (Some v) (Ok tt) db = (Some (Ok tt), db') ->
  history db' (l ++ [(v, true)]).
Proof.
  intros Hh. unfold store_version_based_on_result. cbn [insert_migration is_ok].
  change (row _) with (migration_row (v, true)). unfold insert_row. rewrite Hh.
  change (with_defaults _ now _) with (migration_row (v, true)).
  change (complete _ (migration_row (v, true))) with true. simpl.
  destruct (violated_key _ _); [by destruct (DatabaseWriteError_from _)|].
  intros [= <-]. unfold history. rewrite lookup_insert_eq. unfold add_row. simpl. by rewrite fmap_app.
Qed.

Lemma execute_success (engine : Engine) (now v : Z) (m : Migration) (db db' : Database) (l : list (Z * bool)) :
  tame engine m -> history db l -> version m = Some v ->
  execute_migration engine now m db = (Some (Ok tt), db') -> history db' (l ++ [(v, true)]).
Proof.
  intros [Hst Hsc] Hh Hv. unfold execute_migration. rewrite Hv.
  destruct (statement_producers m engine) as [stmts|e] eqn:Hp; [|done].
  destruct (foldl _ (Ok db) stmts) as [db1|e] eqn:Hf.
  - assert (history db1 l) as Hh1 by (unfold history; by rewrite (Hst now stmts db db1 eq_refl Hf)).
    destruct (script_executor m) as [script|]; [|by apply store_success].
    destruct (script db1) as [db2|err] eqn:Hs.
    + apply store_success. unfold history. by rewrite (Hsc script db1 db2 eq_refl Hs).
    + unfold store_version_based_on_result. destruct (insert_migration _ _).
      destruct (insert_row _ _ _ _ _) as [|e]; [done|]. by destruct (DatabaseWriteError_from e).
  - destruct (DatabaseWriteError_from e); [|done]. unfold store_version_based_on_result.
    destruct (insert_migration _ _). destruct (insert_row _ _ _ _ _) as [|e']; [done|].
    by destruct (DatabaseWriteError_from e').
Qed.

(** The versions a successful run puts on record. *)
Lemma execute_all_success (engine : Engine) (now : Z) (ms : list Migration) (db db' : Database) (l : list (Z * bool)) :
  Forall (tame engine) ms -> history db l -> execute_migrations engine now ms db = (Ok tt, db') ->
  Forall (fun m => is_Some (version m)) ms /\
  history db' (l ++ omap (fun m => (fun v => (v, true)) <$> version m) ms).
Proof.
  intros Ht. revert db l. induction Ht as [|m ms Hm Ht IH]; intros db l Hh; simpl.
  - intros [= <-]. by rewrite app_nil_r.
  - destruct (version m) as [v|] eqn:Hv; [|done].
    destruct (execute_migration engine now m db) as [[[[]|err]|] db1] eqn:He; [|done..].
    intros Hrest. pose proof (execute_success engine now v m db db1 l Hm Hh Hv He) as Hh1.
    destruct (IH db1 _ Hh1 Hrest) as [Hvs Hh2]. split; [constructor; [by rewrite Hv|done]|].
    simpl. by rewrite <- app_assoc in Hh2.
Qed.

(** Creating the record of migrations. *)
Lemma initial_history (engine : Engine) (now : Z) (db : Database) :
  db !! "Migration" = None \/ (exists l, history db l) ->
  exists db1 l, execute_migration engine now Migration_initial db = (Some (Ok tt), db1) /\ history db1 l /\
    (forall l', history db l' -> db1 = db /\ l = l').
Proof.
  intros [Hn|[l Hl]]; unfold execute_migration, Migration_initial; simpl; unfold create_table; simpl.
  - rewrite Hn. exists (<["Migration" := mkTable migration_table []]> db), []. split_and!; [done| |].
    + by unfold history; rewrite lookup_insert_eq.
    + intros l' Hl'. unfold history in Hl'. by rewrite Hn in Hl'.
  - rewrite Hl. exists db, l. split_and!; [done..|]. intros l' Hl'. split; [done|].
    unfold history in *. rewrite Hl in Hl'. injection Hl' as Hrows. apply list_fmap_eq_inj in Hrows; [done|].
    intros [v s] [v' s'] Heq.
    pose proof (f_equal (fun r : Row => (r !! "version", r !! "is_success")) Heq) as Hvs.
    change ((Some (CInt v), Some (CInt (Z.b2z s))) = (Some (CInt v'), Some (CInt (Z.b2z s')))) in Hvs.
    injection Hvs as -> Hs. destruct s, s'; done.
Qed.

(** No migration is left to run once all of them are on record. *)
Lemma nothing_newer (ms : list Migration) (v : Z) :
  Forall (fun m => exists w, version m = Some w /\ w <= v) ms -> filter (fun m => is_newer v m = true) ms = [].
Proof.
  induction 1 as [|m ms (w & Hw & Hle) _ IH]; [done|]. rewrite filter_cons_False; [done|].
  unfold is_newer. rewrite Hw. destruct (Z.ltb_spec v w); [lia|done].
Qed.

(** The newest version after the migrations of [ms] newer than the newest one. *)
Lemma newest_covers (ms run : list Migration) (l : list (Z * bool)) :
  ms <> [] -> Forall (fun m => is_Some (version m)) ms ->
  (forall v s, foldl newer_entry None l = Some (v, s) -> s = true /\
     run ≡ₚ filter (fun m => is_newer v m = true) ms) ->
  (foldl newer_entry None l = None -> run ≡ₚ ms) ->
  exists v, foldl newer_entry None (l ++ omap (fun m => (fun v => (v, true)) <$> version m) run) = Some (v, true) /\
    Forall (fun m => exists w, version m = Some w /\ w <= v) ms.
Proof.
  intros Hne Hvs Hsome Hnone. set (ran := omap _ run).
  assert (forall m w, m ∈ run -> version m = Some w -> (w, true) ∈ ran) as Hran.
  { intros m w Hm Hw. apply list_elem_of_omap. exists m. by rewrite Hw. }
  assert (forall entry, entry ∈ ran -> entry.2 = true) as Htrue.
  { intros entry (m & _ & Hm)%list_elem_of_omap. destruct (version m); simplify_eq/=. done. }
  rewrite foldl_app. pose proof (newest_max ran (foldl newer_entry None l)) as Hmax.
  destruct (foldl newer_entry (foldl newer_entry None l) ran) as [[v s]|].
  - destruct Hmax as [Hin Hmax]. exists v. split.
    + f_equal. f_equal. destruct Hin as [Hin|Hin]; [by apply (Htrue _ Hin)|by apply (Hsome v s)].
    + apply Forall_forall. intros m Hm. rewrite Forall_forall in Hvs. destruct (Hvs m Hm) as [w Hw].
      exists w. split; [done|]. destruct (foldl newer_entry None l) as [[v0 s0]|].
      * destruct (Hsome v0 s0 eq_refl) as [_ Hrun]. destruct (Z.ltb_spec v0 w) as [Hlt|Hle].
        -- apply (Hmax (w, true)). left. apply (Hran m); [|done]. rewrite Hrun. apply list_elem_of_filter.
           split; [|done]. unfold is_newer. rewrite Hw. by apply Z.ltb_lt.
        -- specialize (Hmax (v0, s0) (or_intror eq_refl)). simpl in Hmax. lia.
      * apply (Hmax (w, true)). left. apply (Hran m); [|done]. by rewrite (Hnone eq_refl).
  - destruct Hmax as [Hnil Hold]. destruct ms as [|m ms]; [done|]. apply Forall_cons in Hvs as [[w Hw] _].
    assert (m ∈ run) as Hm by (rewrite (Hnone Hold); left).
    specialize (Hran m w Hm Hw). rewrite Hnil in Hran. by apply not_elem_of_nil in Hran.
Qed.

(** What a successful run of [do_migrate] leaves on record. *)
Lemma do_migrate_success (engine : Engine) (now : Z) (ms : list Migration) (db db' : Database) (l : list (Z * bool)) :
  ms <> [] -> Forall (fun m => is_Some (version m)) ms -> Forall (tame engine) ms -> history db l ->
  do_migrate engine now ms (foldl newer_entry None l) db = (Ok tt, db') ->
  exists l' v, history db' l' /\ foldl newer_entry None l' = Some (v, true) /\
    Forall (fun m => exists w, version m = Some w /\ w <= v) ms.
Proof.
  intros Hne Hvs Htame Hh. unfold do_migrate. rewrite decide_False by (by destruct ms).
  destruct (foldl newer_entry None l) as [[v [|]]|] eqn:Hnew; simpl; [|done|].
  - set (run := merge_sort _ _). assert (run ≡ₚ filter (fun m => is_newer v m = true) ms) as Hrun
      by apply merge_sort_Permutation.
    assert (Forall (tame engine) run) as Htame'.
    { rewrite Hrun. apply Forall_forall. intros m [_ Hm]%list_elem_of_filter. by eapply Forall_forall in Htame. }
    intros (_ & Hh')%(execute_all_success engine now run db db' l); [|done..].
    destruct (newest_covers ms run l Hne Hvs) as (v' & Hv' & Hall); [|by rewrite Hnew|by eauto].
    intros v' s' Hs'. rewrite Hnew in Hs'. by simplify_eq.
  - set (run := merge_sort _ _). assert (run ≡ₚ ms) as Hrun by apply merge_sort_Permutation.
    intros (_ & Hh')%(execute_all_success engine now run db db' l); [|by rewrite Hrun|done].
    destruct (newest_covers ms run l Hne Hvs) as (v' & Hv' & Hall); [by rewrite Hnew|done|by eauto].
Qed.

(** With all migrations on record there is nothing to do. *)
Lemma nothing_to_migrate (engine : Engine) (now : Z) (ms : list Migration) (db : Database) (l : list (Z * bool)) (v : Z) :
  history db l -> foldl newer_entry None l = Some (v, true) -> first_duplicate_version [] ms = None ->
  Forall (fun m => exists w, version m = Some w /\ w <= v) ms -> migrate engine now ms db = (Ok tt, db).
Proof.
  intros Hh Hnew Hdup Hall. unfold migrate.
  destruct (initial_history engine now db) as (db2 & l2 & -> & Hh2 & Hsame); [by eauto|].
  destruct (Hsame l Hh) as [-> ->]. destruct (existsb _ ms) eqn:Hex.
  { apply existsb_exists in Hex as (m & Hm%list_elem_of_In & Hv%bool_decide_eq_true).
    rewrite Forall_forall in Hall. destruct (Hall m Hm) as (w & Hw & _). congruence. }
  rewrite Hdup, (get_newest_history db l Hh), Hnew. unfold do_migrate. case_decide; [done|]. simpl.
  by rewrite nothing_newer.
Qed.

(** C30. Migrations are applied once: after a successful [migrate], running [migrate]
    again with the same migrations, as every start of the sidecar does, succeeds and
    leaves the database exactly as it is.  The migrations are any that leave the
    record of migrations alone. *)
Theorem migrate_idempotent (engine : Engine) (now now' : Z) (ms : list Migration) (db db' : Database) :
  db !! "Migration" = None \/ (exists l, history db l) ->
  Forall (tame engine) ms ->
  migrate engine now ms db = (Ok tt, db') ->
  migrate engine now' ms db' = (Ok tt, db').
Proof.
  intros Hrec Htame Hmig. pose proof Hmig as Hdo. unfold migrate in Hdo.
  destruct (initial_history engine now db Hrec) as (db1 & l & Hi & Hh & _). rewrite Hi in Hdo.
  destruct (existsb _ ms) eqn:Hex; [done|]. destruct (first_duplicate_version [] ms) eqn:Hdup; [done|].
  rewrite (get_newest_history db1 l Hh) in Hdo.
  assert (Forall (fun m => is_Some (version m)) ms) as Hvs.
  { apply Forall_forall. intros m Hm. destruct (version m) as [v|] eqn:Hv; [done|].
    assert (existsb (fun m => bool_decide (version m = None)) ms = true) as Hyes; [|by rewrite Hyes in Hex].
    apply existsb_exists. exists m. rewrite <- list_elem_of_In. by rewrite bool_decide_eq_true. }
  destruct (decide (ms = [])) as [->|Hne].
  { injection Hdo as <-. unfold migrate.
    destruct (initial_history engine now' db1) as (db2 & l2 & -> & Hh2 & Hsame); [by eauto|].
    destruct (Hsame l Hh) as [-> ->]. by rewrite (get_newest_history db1 l Hh). }
  destruct (do_migrate_success engine now ms db1 db' l Hne Hvs Htame Hh Hdo) as (l' & v & Hh' & Hnew & Hall).
  by apply (nothing_to_migrate engine now' ms db' l' v).
Qed.

(** ** The migrations of the sidecar *)

Definition avoids (table : string) (stmt : StatementWrapper) : Prop :=
  match stmt with
  | TableCreateStatement d => table_name d <> table
  | InsertStatement rows _ => Forall (fun stmt => stmt.1 <> table) rows
  | Raw _ => False
  end.

(** A fold that has failed stays failed. *)
Lemma foldl_err {E A B} (f : A -> B -> result E A) (l : list B) (e : E) :
  foldl (fun acc b => let? a := acc in f a b) (Err e) l = Err e.
Proof. by induction l. Qed.

Lemma insert_or_ignore_other (engine : Engine) (now : Z) (conflict table t : string) (r : Row) (db db' : Database) :
  t <> table -> insert_or_ignore engine now conflict db t r = Ok db' -> db' !! table = db !! table.
Proof.
  intros Hne. unfold insert_or_ignore, insert_row. destruct (db !! t) as [tab|]; [|done].
  destruct (clashes _ _ _); [by intros [= <-]|]. destruct (negb _); [done|].
  destruct (violated_key _ _); [done|]. destruct (forallb _ _); [|done].
  intros [= <-]. by rewrite lookup_insert_ne.
Qed.

Lemma run_statement_other (engine : Engine) (now : Z) (stmt : StatementWrapper) (table : string) (db db' : Database) :
  avoids table stmt -> run_statement engine now stmt db = Ok db' -> db' !! table = db !! table.
Proof.
  destruct stmt as [d|rows conflict|sql]; simpl; [| |done].
  - intros Hne [= <-]. unfold create_table. destruct (db !! table_name d); [done|]. by rewrite lookup_insert_ne.
  - intros Hne. revert db. induction Hne as [|[t r] rows Ht _ IH]; intros db; simpl; [by intros [= <-]|].
    destruct (insert_or_ignore engine now conflict db t r) as [db1|e] eqn:Hins; cbn [mbind result_bind].
    + intros Hrest. rewrite (IH db1 Hrest). by eapply insert_or_ignore_other.
    + intros Hrest. clear - Hrest. exfalso. induction rows as [|[t' r'] rows IH]; [done|by apply IH].
Qed.

Lemma run_statements_other (engine : Engine) (now : Z) (stmts : list StatementWrapper) (table : string)
    (db db' : Database) :
  Forall (avoids table) stmts ->
  foldl (fun acc stmt => let? db := acc in run_statement engine now stmt db) (Ok db) stmts = Ok db' ->
  db' !! table = db !! table.
Proof.
  intros Hall. revert db. induction Hall as [|stmt stmts Hs _ IH]; intros db; simpl; [by intros [= <-]|].
  destruct (run_statement engine now stmt db) as [db1|e] eqn:Hrun; cbn [mbind result_bind].
  - intros Hrest. rewrite (IH db1 Hrest). by eapply run_statement_other.
  - rewrite (foldl_err (fun db stmt => run_statement engine now stmt db)). done.
Qed.

Lemma migration_1_tame (engine : Engine) : tame engine migration_1.
Proof.
  split; [|done]. intros now stmts db db' [= <-]. apply run_statements_other. repeat constructor; done.
Qed.

(** A database the migrations of the sidecar have set up: fit for events, with none
    on record. *)
Lemma fresh_store (engine : Engine) (now : Z) :
  exists db, apply_all_migrations engine now ∅ = (Ok tt, db) /\ db_ok db /\
    (forall i, stored db i = false) /\ (forall ty k, logged_as db ty k = false).
Proof.
  exists (apply_all_migrations engine now ∅).2. split_and!.
  - by destruct engine.
  - split.
    + intros d Hd. assert (Forall (fun d => def <$> (apply_all_migrations engine now ∅).2 !! table_name d = Some d)
        event_tables) as Hall by (destruct engine; repeat constructor).
      by eapply Forall_forall in Hall.
    + by destruct engine; intros [].
    + by destruct engine; intros [].
    + by destruct engine.
  - by destruct engine; intros [].
  - by destruct engine.
Qed.

(** The two engines, and the migrations run twice. *)
Lemma migrate_idempotent_witness :
  exists db, apply_all_migrations Sqlite 7 ∅ = (Ok tt, db) /\ apply_all_migrations Sqlite 8 db = (Ok tt, db).
Proof.
  exists (apply_all_migrations Sqlite 7 ∅).2. split; [reflexivity|].
  apply (migrate_idempotent Sqlite 7 8 get_all_migrations ∅).
  - left. reflexivity.
  - apply Forall_singleton, migration_1_tame.
  - reflexivity.
Defined.
