(* ===== verification/EventHandling.v ===== *)
(** * Handling of the nodes' events

    [event_sidecar/src/event_handling_service.rs] and its two services,
    [event_sidecar/src/api_version_manager.rs], and the event loop of
    [event_sidecar/src/lib.rs].  The events of all nodes meet here: they share the
    database, the newest API version and the outbound channel.  Handling one event is
    one step; the events of several nodes come in any order the tasks give them.
    [Processors.v] shows that nothing is lost by this.  Logs and metrics are left
    out. *)

From S2P Require Import Prelude SseData ConnectionManager Sql Storage Migrations.

(** ** The newest API version *)

(** [event_sidecar/src/api_version_manager.rs:7-9], [ApiVersionManager]. *)
Record ApiVersionManager := mkApiVersionManager { newest_protocol_version : option ProtocolVersion }.

(** [event_sidecar/src/api_version_manager.rs:16-20], [new_inner]. *)
Definition ApiVersionManager_new : ApiVersionManager := mkApiVersionManager None.

(** [event_sidecar/src/api_version_manager.rs:23-34], [store_version]. *)
Definition store_version (self : ApiVersionManager) (protocol_version : ProtocolVersion)
    : bool * ApiVersionManager :=
  match newest_protocol_version self with
  | Some current =>
      if version_ltb current protocol_version
      then (true, mkApiVersionManager (Some protocol_version))
      else (false, self)
  | None => (true, mkApiVersionManager (Some protocol_version))
  end.

(** ** Services *)

(** [types/src/lib.rs:27-29], [SidecarEvent]. *)
Inductive SidecarEvent : Type :=
| SidecarBlockAdded (block_hash : BlockHash) (height : Z).

(** What the services share: the database, the channel to the event stream server,
    and the bus of the process, if there is one. *)
Record World := mkWorld {
  database : Database;
  outbound_sse_data_sender : Channel (SseData * option Filter);
  sidecar_event_sender : option (list SidecarEvent);
}.

(** Sending to the outbound channel; the error of a dropped receiver is only logged. *)
Definition send_outbound (w : World) (d : SseData) (f : option Filter) : World :=
  match send (outbound_sse_data_sender w) (d, f) with
  | Some ch => mkWorld (database w) ch (sidecar_event_sender w)
  | None => w
  end.

Definition send_sidecar (w : World) (e : SidecarEvent) : World :=
  mkWorld (database w) (outbound_sse_data_sender w) ((fun l => l ++ [e]) <$> sidecar_event_sender w).

Definition with_database (w : World) (db : Database) : World :=
  mkWorld db (outbound_sse_data_sender w) (sidecar_event_sender w).

(** [event_sidecar/src/event_handling_service.rs:69-98], [handle_database_save_result]. *)
Definition handle_database_save_result {T} (res : result DatabaseWriteError T) (inbound_filter : Filter)
    (sse_data : SseData) (w : World) : World :=
  match res with
  | Ok _ => send_outbound w sse_data (Some inbound_filter)
  | Err (UniqueConstraint _) => w
  | Err _ => w
  end.

(** [event_sidecar/src/event_handling_service.rs:22-67], [EventHandlingService]: a
    handler per event; [None] is a panic. *)
Record EventHandlingService := {
  handle_api_version : ProtocolVersion -> Filter -> World -> option World;
  handle_block_added : BlockHash -> Block -> SseEvent -> World -> option World;
  handle_transaction_accepted : Transaction -> SseEvent -> World -> option World;
  handle_transaction_expired : TransactionHash -> SseEvent -> World -> option World;
  handle_transaction_processed : TransactionHash -> SseEvent -> World -> option World;
  handle_fault : Z -> Z -> PublicKey -> SseEvent -> World -> option World;
  handle_step : Z -> string -> SseEvent -> World -> option World;
  handle_finality_signature : FinalitySignature -> SseEvent -> World -> option World;
  handle_shutdown : SseEvent -> World -> option World;
}.

Definition origin (e : SseEvent) : Origin :=
  mkOrigin (sse_id e) (source e) (api_version_text e) (sse_network_name e).

(** A save and what it does with its result. *)
Definition saving (save : Database -> option (result DatabaseWriteError Z) * Database)
    (k : result DatabaseWriteError Z -> World -> World) (w : World) : option World :=
  let (res, db) := save (database w) in (fun res => k res (with_database w db)) <$> res.

Section DbSaving.
Context `{AutoIncrement} (env : WriteEnv).

(** [event_sidecar/src/event_handling_service/db_saving_event_handling_service.rs:36-50],
    [handle_api_version]. *)
Definition db_handle_api_version (version : ProtocolVersion) (f : Filter) (w : World) : option World :=
  Some (send_outbound w (ApiVersion version) (Some f)).

(** [event_sidecar/src/event_handling_service/db_saving_event_handling_service.rs:52-96],
    [handle_block_added]. *)
Definition db_handle_block_added (block_hash : BlockHash) (block : Block) (e : SseEvent) : World -> option World :=
  saving (save_block_added env block_hash block (origin e)) (fun res w =>
    let w := if is_ok res then send_sidecar w (SidecarBlockAdded block_hash (block_height block)) else w in
    handle_database_save_result res (inbound_filter e) (sse_data e) w).

(** [event_sidecar/src/event_handling_service/db_saving_event_handling_service.rs:98-126],
    [handle_transaction_accepted]. *)
Definition db_handle_transaction_accepted (t : Transaction) (e : SseEvent) : World -> option World :=
  saving (save_transaction_accepted env t (origin e)) (fun res =>
    handle_database_save_result res (inbound_filter e) (sse_data e)).

(** [event_sidecar/src/event_handling_service/db_saving_event_handling_service.rs:128-162],
    [handle_transaction_expired]. *)
Definition db_handle_transaction_expired (h : TransactionHash) (e : SseEvent) : World -> option World :=
  saving (save_transaction_expired env h (origin e)) (fun res =>
    handle_database_save_result res (inbound_filter e) (sse_data e)).

(** [event_sidecar/src/event_handling_service/db_saving_event_handling_service.rs:164-206],
    [handle_transaction_processed]. *)
Definition db_handle_transaction_processed (h : TransactionHash) (e : SseEvent) : World -> option World :=
  saving (save_transaction_processed env h (sse_data e) (origin e)) (fun res =>
    handle_database_save_result res (inbound_filter e) (sse_data e)).

(** [event_sidecar/src/event_handling_service/db_saving_event_handling_service.rs:208-237],
    [handle_fault]. *)
Definition db_handle_fault (era_id timestamp : Z) (public_key : PublicKey) (e : SseEvent) : World -> option World :=
  saving (save_fault env era_id public_key timestamp (origin e)) (fun res =>
    handle_database_save_result res (inbound_filter e) (sse_data e)).

(** [event_sidecar/src/event_handling_service/db_saving_event_handling_service.rs:239-264],
    [handle_step]. *)
Definition db_handle_step (era_id : Z) (execution_effects : string) (e : SseEvent) : World -> option World :=
  saving (save_step env era_id execution_effects (origin e)) (fun res =>
    handle_database_save_result res (inbound_filter e) (sse_data e)).

(** [event_sidecar/src/event_handling_service/db_saving_event_handling_service.rs:266-302],
    [handle_finality_signature]. *)
Definition db_handle_finality_signature (fs : FinalitySignature) (e : SseEvent) : World -> option World :=
  saving (save_finality_signature env fs (origin e)) (fun res =>
    handle_database_save_result res (inbound_filter e) (sse_data e)).

(** [event_sidecar/src/event_handling_service/db_saving_event_handling_service.rs:304-333],
    [handle_shutdown]: a shutdown that is saved already is forwarded all the same. *)
Definition db_handle_shutdown (e : SseEvent) : World -> option World :=
  saving (save_shutdown env (origin e)) (fun res w =>
    match res with
    | Ok _ | Err (UniqueConstraint _) => send_outbound w Shutdown (Some (inbound_filter e))
    | Err _ => w
    end).

(** [event_sidecar/src/event_handling_service/db_saving_event_handling_service.rs:31-35],
    [DbSavingEventHandlingService] as an [EventHandlingService]. *)
Definition DbSavingEventHandlingService : EventHandlingService := {|
  handle_api_version := db_handle_api_version;
  handle_block_added := db_handle_block_added;
  handle_transaction_accepted := db_handle_transaction_accepted;
  handle_transaction_expired := db_handle_transaction_expired;
  handle_transaction_processed := db_handle_transaction_processed;
  handle_fault := db_handle_fault;
  handle_step := db_handle_step;
  handle_finality_signature := db_handle_finality_signature;
  handle_shutdown := db_handle_shutdown;
|}.

End DbSaving.

(** *** The service without a database *)

(** [event_sidecar/src/event_handling_service/no_db_event_handling_service.rs:29-43],
    [handle_api_version]. *)
Definition no_db_handle_api_version (version : ProtocolVersion) (f : Filter) (w : World) : option World :=
  Some (send_outbound w (ApiVersion version) (Some f)).

(** [event_sidecar/src/event_handling_service/no_db_event_handling_service.rs:45-75],
    [handle_block_added]. *)
Definition no_db_handle_block_added (block_hash : BlockHash) (block : Block) (e : SseEvent) (w : World)
    : option World :=
  let w := send_sidecar w (SidecarBlockAdded block_hash (block_height block)) in
  Some (handle_database_save_result (Ok tt) (inbound_filter e) (sse_data e) w).

(** [event_sidecar/src/event_handling_service/no_db_event_handling_service.rs:77-119],
    [handle_transaction_accepted] and [handle_transaction_expired], and as they do the
    handlers of all other events but shutdowns: the event is passed on. *)
Definition no_db_handle (e : SseEvent) (w : World) : option World :=
  Some (handle_database_save_result (Ok tt) (inbound_filter e) (sse_data e) w).

(** [event_sidecar/src/event_handling_service/no_db_event_handling_service.rs:213-225],
    [handle_shutdown]. *)
Definition no_db_handle_shutdown (e : SseEvent) (w : World) : option World :=
  Some (send_outbound w Shutdown (Some (inbound_filter e))).

(** [event_sidecar/src/event_handling_service/no_db_event_handling_service.rs:121-211],
    [handle_transaction_processed] to [handle_finality_signature], and the whole
    [NoDbEventHandlingService]. *)
Definition NoDbEventHandlingService : EventHandlingService := {|
  handle_api_version := no_db_handle_api_version;
  handle_block_added := no_db_handle_block_added;
  handle_transaction_accepted := fun _ => no_db_handle;
  handle_transaction_expired := fun _ => no_db_handle;
  handle_transaction_processed := fun _ => no_db_handle;
  handle_fault := fun _ _ _ => no_db_handle;
  handle_step := fun _ _ => no_db_handle;
  handle_finality_signature := fun _ => no_db_handle;
  handle_shutdown := no_db_handle_shutdown;
|}.

(** ** The event loop *)

Section Loop.
Context (ehs : EventHandlingService).

(** [event_sidecar/src/lib.rs:404-419], [handle_api_version]; the manager is locked
    until the version is sent. *)
Definition lib_handle_api_version (version : ProtocolVersion) (f : Filter) (st : ApiVersionManager * World)
    : option (ApiVersionManager * World) :=
  let '(manager, w) := st in
  let (changed_newest_version, manager) := store_version manager version in
  if changed_newest_version
  then (fun w => (manager, w)) <$> handle_api_version ehs version f w
  else Some (manager, w).

(** [event_sidecar/src/lib.rs:325-402], [handle_single_event]. *)
Definition handle_single_event (e : SseEvent) (st : ApiVersionManager * World)
    : option (ApiVersionManager * World) :=
  let keep (handler : World -> option World) := (fun w => (st.1, w)) <$> handler st.2 in
  match sse_data e with
  | ApiVersion version => lib_handle_api_version version (inbound_filter e) st
  | BlockAdded block_hash block => keep (handle_block_added ehs block_hash block e)
  | TransactionAccepted t => keep (handle_transaction_accepted ehs t e)
  | TransactionExpired h => keep (handle_transaction_expired ehs h e)
  | TransactionProcessed h _ _ _ _ _ _ => keep (handle_transaction_processed ehs h e)
  | Fault era_id public_key timestamp => keep (handle_fault ehs era_id timestamp public_key e)
  | FinalitySignatureEvent fs => keep (handle_finality_signature ehs fs e)
  | Step era_id execution_effects => keep (handle_step ehs era_id execution_effects e)
  | Shutdown => keep (handle_shutdown ehs e)
  end.

End Loop.

(** [event_sidecar/src/lib.rs:512-530], [start_single_threaded_events_consumer]: the
    events in the order they are received, each with the service as it finds its
    surroundings. *)
Fixpoint consume_events (items : list (EventHandlingService * SseEvent)) (st : ApiVersionManager * World)
    : option (ApiVersionManager * World) :=
  match items with
  | [] => Some st
  | (ehs, e) :: items => st ← handle_single_event ehs e st; consume_events items st
  end.

(** [event_sidecar/src/lib.rs:472-476], [build_queues]: the filters that have a queue. *)
Definition build_queues : list Filter := [Filter_Events].

(** [event_sidecar/src/lib.rs:478-510], [start_multi_threaded_events_consumer]: events
    go through the queue of their filter to the task that handles them, up to the
    first without a queue. *)
Fixpoint dispatched (items : list (EventHandlingService * SseEvent)) : list (EventHandlingService * SseEvent) :=
  match items with
  | [] => []
  | (ehs, e) :: items => if decide (inbound_filter e ∈ build_queues) then (ehs, e) :: dispatched items else []
  end.

(** [event_sidecar/src/lib.rs:421-450], [sse_processor]. *)
Definition sse_processor (items : list (EventHandlingService * SseEvent))
    (database_supports_multithreaded_processing : bool) (st : ApiVersionManager * World)
    : option (ApiVersionManager * World) :=
  if database_supports_multithreaded_processing then consume_events (dispatched items) st
  else consume_events items st.

(** [event_sidecar/src/lib.rs:300-311], [validate_config]; by the [max_attempts] of
    the connections. *)
Definition validate_config (max_attempts : list Z) : result string unit :=
  if existsb (fun n => n <? 1) max_attempts
  then Err "Unable to run: max_attempts setting must be above 0 for the sidecar to attempt connection"
  else Ok tt.

(** Every filter has a queue, so both kinds of processing handle all events in order. *)
Lemma sse_processor_consumes (items : list (EventHandlingService * SseEvent)) (multithreaded : bool)
    (st : ApiVersionManager * World) :
  sse_processor items multithreaded st = consume_events items st.
Proof.
  unfold sse_processor. destruct multithreaded; [|done]. f_equal.
  induction items as [|[ehs e] items IH]; [done|]. simpl. destruct (inbound_filter e). by rewrite IH.
Qed.

(** ** The reference *)

Definition newest_changes (newest : option ProtocolVersion) (v : ProtocolVersion) : bool :=
  match newest with Some current => version_ltb current v | None => true end.

(** An event of a node, and the surroundings it is saved in. *)
Definition Incoming : Type := WriteEnv * SseEvent.

Definition incoming_data (it : Incoming) : SseData := sse_data it.2.

(** The event can be saved. *)
Definition can_save (it : Incoming) : bool := healthy it.1 (to_json it.1 (incoming_data it)).

(** What the sidecar is to pass on, by the newest version and the entities so far: an
    API version when it is newer, an event that can be saved when its entity is new,
    and every shutdown. *)
Definition reference_step (it : Incoming) (st : option ProtocolVersion * list Identity)
    : list (SseData * option Filter) * (option ProtocolVersion * list Identity) :=
  let '(newest, seen) := st in
  let d := incoming_data it in
  let out := [(d, Some (inbound_filter it.2))] in
  match d, identity d with
  | ApiVersion v, _ => if newest_changes newest v then (out, (Some v, seen)) else ([], st)
  | _, Some i => if negb (bool_decide (i ∈ seen)) && can_save it then (out, (newest, i :: seen)) else ([], st)
  | _, None => (out, st)
  end.

#[local] Arguments reference_step : simpl never.

Fixpoint reference (items : list Incoming) (st : option ProtocolVersion * list Identity)
    : list (SseData * option Filter) :=
  match items with
  | [] => []
  | it :: items => let (out, st) := reference_step it st in out ++ reference items st
  end.

(** The newest version and the entities in the end. *)
Definition reference_state (items : list Incoming) (st : option ProtocolVersion * list Identity)
    : option ProtocolVersion * list Identity :=
  foldl (fun st it => (reference_step it st).2) st items.

Definition is_shutdown (d : SseData) : bool := match d with Shutdown => true | _ => false end.

(** What is passed on, but for shutdowns. *)
Definition reports (l : list (SseData * option Filter)) : list SseData :=
  base.filter (fun d => is_shutdown d = false) (fst <$> l).

(** The notification of a block on the bus of the process. *)
Definition block_notification (d : SseData) : option SidecarEvent :=
  match d with BlockAdded h b => Some (SidecarBlockAdded h (block_height b)) | _ => None end.

Definition notify (d : SseData) (w : World) : World :=
  match block_notification d with Some n => send_sidecar w n | None => w end.

(** ** The simulation *)

Section Simulation.
Context `{AutoIncrement} (admissible : SseData -> Prop).
Hypothesis event_keys : forall d d', admissible d -> admissible d' -> is_Some (identity d) ->
  log_key d = log_key d' -> identity d = identity d'.

(** The database holds the entities seen so far. *)
Record holds (seen : list Identity) (db : Database) : Prop := {
  holds_ok : db_ok db;
  holds_stored : forall i, stored db i = bool_decide (i ∈ seen);
  holds_log : forall d i ty k, admissible d -> identity d = Some i -> log_key d = Some (ty, k) ->
    logged_as db ty k = true -> i ∈ seen;
}.

Lemma log_key_some (d : SseData) (i : Identity) : identity d = Some i -> exists ty k, log_key d = Some (ty, k).
Proof. destruct d; simpl; intros [=]; eauto. Qed.

Lemma event_type_id_inj (a b : EventTypeId) : event_type_id a = event_type_id b -> a = b.
Proof. by destruct a, b. Qed.

Lemma holds_save (env : WriteEnv) (d : SseData) (o : Origin) (seen : list Identity) (db : Database) (i : Identity) :
  admissible d -> identity d = Some i -> holds seen db ->
  let out := save env d o db in
  if negb (bool_decide (i ∈ seen)) && healthy env (to_json env d)
  then (exists n, out.1 = Some (Ok n)) /\ holds (i :: seen) out.2
  else (exists e, out.1 = Some (Err e)) /\ out.2 = db.
Proof using event_keys.
  intros Hd Hi [Hok Hst Hlog] out. destruct (log_key_some d i Hi) as (ty & k & Hk).
  pose proof (save_spec env d o db i ty k Hok Hi Hk) as Hs. unfold save_outcome in Hs.
  rewrite Hst in Hs. fold out in Hs.
  destruct (negb _ && _); [|apply Hs; intros Hl; by apply bool_decide_eq_true, (Hlog d i ty k)].
  destruct Hs as [Hres [Hok' Hst' Hlog']]; [intros Hl; by apply bool_decide_eq_true, (Hlog d i ty k)|].
  split; [done|]. split; [done| |].
  - intros j. rewrite Hst', Hst. destruct (decide (j = i)) as [->|Hne].
    + rewrite (bool_decide_eq_true_2 (i = i)) by done. rewrite orb_true_r. by rewrite bool_decide_eq_true_2 by left.
    + rewrite (bool_decide_eq_false_2 (j = i)), orb_false_r by done. apply bool_decide_ext. set_solver.
  - intros d' j ty' k' Hd' Hj Hk' Hl. rewrite Hlog' in Hl.
    apply orb_true_iff in Hl as [Hl|[Hty%event_type_id_inj ->]%bool_decide_eq_true]; [right; by eapply Hlog|].
    rewrite (event_keys d' d Hd' Hd) in Hj; [simplify_eq; left|by rewrite Hj|by rewrite Hk', Hk, Hty].
Qed.

Lemma holds_shutdown (env : WriteEnv) (o : Origin) (seen : list Identity) (db : Database) :
  holds seen db ->
  let out := save_shutdown env o db in
  holds seen out.2 /\ exists res, out.1 = Some res /\
    (outage env = None -> is_ok res = true \/ exists table, res = Err (UniqueConstraint table)).
Proof.
  intros [Hok Hst Hlog] out. destruct (save_shutdown_spec env o db Hok) as [Hok' Hst' Hlog' Hres].
  split; [|done]. split; [done| |].
  - intros i. by rewrite Hst', Hst.
  - intros d i ty k Hd Hi Hk Hl. rewrite Hlog' in Hl; [by eapply Hlog|]. intros ->. by destruct d.
Qed.

(** *** One event *)

(** The world with more events passed on. *)
Record grown (w : World) (out : list (SseData * option Filter)) (w' : World) : Prop := {
  grown_sent : sent (outbound_sse_data_sender w') = sent (outbound_sse_data_sender w) ++ out;
  grown_open : accepts (outbound_sse_data_sender w') = None;
  grown_sidecar : sidecar_event_sender w' =
    (fun l => l ++ omap block_notification (fst <$> out)) <$> sidecar_event_sender w;
}.

Lemma grown_nil (w : World) (db : Database) :
  accepts (outbound_sse_data_sender w) = None -> grown w [] (with_database w db).
Proof.
  intros Ha. split; simpl; [by rewrite app_nil_r|done|].
  destruct (sidecar_event_sender w); simpl; [by rewrite app_nil_r|done].
Qed.

Lemma grown_app (w1 w2 w3 : World) (out1 out2 : list (SseData * option Filter)) :
  grown w1 out1 w2 -> grown w2 out2 w3 -> grown w1 (out1 ++ out2) w3.
Proof.
  intros [Hs1 Ha1 Hn1] [Hs2 Ha2 Hn2]. split; [by rewrite Hs2, Hs1, app_assoc|done|].
  rewrite Hn2, Hn1, fmap_app, omap_app. destruct (sidecar_event_sender w1); simpl; [by rewrite app_assoc|done].
Qed.

Lemma grown_send (w : World) (db : Database) (d : SseData) (f : Filter) :
  accepts (outbound_sse_data_sender w) = None ->
  let w' := send_outbound (notify d (with_database w db)) d (Some f) in
  grown w [(d, Some f)] w' /\ database w' = db.
Proof.
  intros Ha. unfold send_outbound, notify.
  destruct (block_notification d) as [n|] eqn:Hn; simpl; rewrite send_open by done; (split; [split; simpl|done]);
    try done; rewrite Hn; destruct (sidecar_event_sender w); simpl; by rewrite ?app_nil_r.
Qed.

Lemma send_outbound_database (w : World) (d : SseData) (f : option Filter) :
  database (send_outbound w d f) = database w.
Proof. unfold send_outbound. by destruct (send _ _). Qed.

(** Handling an event of an entity is saving it, and passing it on if that succeeds. *)
Lemma handle_entity (env : WriteEnv) (e : SseEvent) (m : ApiVersionManager) (w : World) (i : Identity) :
  identity (sse_data e) = Some i ->
  handle_single_event (DbSavingEventHandlingService env) e (m, w) =
  (let (res, db) := save env (sse_data e) (origin e) (database w) in
   (fun res : result DatabaseWriteError Z =>
      (m, if is_ok res
          then send_outbound (notify (sse_data e) (with_database w db)) (sse_data e) (Some (inbound_filter e))
          else with_database w db)) <$> res).
Proof.
  unfold handle_single_event, notify. destruct (sse_data e) eqn:Hd; intros [=]; simpl;
    unfold db_handle_block_added, db_handle_transaction_accepted, db_handle_transaction_processed,
      db_handle_transaction_expired, db_handle_fault, db_handle_finality_signature, db_handle_step, saving;
    rewrite ?Hd;
    match goal with |- context [let (_, _) := ?s in _] => destruct s as [[[n|[]]|] db] end; done.
Qed.

(** What is passed on is the reference, or lacks a shutdown that could not be saved. *)
Definition follows (it : Incoming) (ref out : list (SseData * option Filter)) : Prop :=
  out = ref \/ is_shutdown (incoming_data it) = true /\ outage it.1 <> None /\ out = [].

Lemma reference_step_entity (it : Incoming) (newest : option ProtocolVersion) (seen : list Identity) (i : Identity) :
  identity (incoming_data it) = Some i ->
  reference_step it (newest, seen) =
  if negb (bool_decide (i ∈ seen)) && can_save it
  then ([(incoming_data it, Some (inbound_filter it.2))], (newest, i :: seen)) else ([], (newest, seen)).
Proof. unfold reference_step. by destruct (incoming_data it); intros [= <-]. Qed.

Lemma handle_step_simulates (it : Incoming) (newest : option ProtocolVersion) (seen : list Identity) (w : World) :
  admissible (incoming_data it) -> holds seen (database w) -> accepts (outbound_sse_data_sender w) = None ->
  let '(ref, (newest', seen')) := reference_step it (newest, seen) in
  exists out w',
    handle_single_event (DbSavingEventHandlingService it.1) it.2 (mkApiVersionManager newest, w) =
      Some (mkApiVersionManager newest', w') /\
    holds seen' (database w') /\ grown w out w' /\ follows it ref out.
Proof using event_keys.
  destruct it as [env e]. intros Hd Hh Ha. destruct (identity (sse_data e)) as [i|] eqn:Hi.
  - rewrite (reference_step_entity (env, e) newest seen i Hi). unfold can_save, incoming_data in *. cbn [fst snd] in *.
    rewrite (handle_entity env e _ w i Hi).
    pose proof (holds_save env (sse_data e) (origin e) seen (database w) i Hd Hi Hh) as Hs.
    destruct (save env (sse_data e) (origin e) (database w)) as [res db]. simpl in Hs.
    destruct (negb _ && _).
    + destruct Hs as [[n ->] Hh']. destruct (grown_send w db (sse_data e) (inbound_filter e) Ha) as [Hg Hdb].
      eexists _, _. split_and!; [done| |exact Hg|by left]. cbn [is_ok]. by rewrite Hdb.
    + destruct Hs as [[err ->] ->]. eexists [], _. split_and!; [done| |by apply grown_nil|by left]. done.
  - unfold reference_step, incoming_data in *. cbn [fst snd] in *.
    destruct (sse_data e) as [v| | | | | | | |] eqn:Hdata; try done; unfold handle_single_event; rewrite Hdata; simpl.
    + unfold store_version, newest_changes. simpl.
      destruct (grown_send w (database w) (ApiVersion v) (inbound_filter e) Ha) as [Hg Hdb].
      destruct newest as [current|]; [destruct (version_ltb current v)|].
      * eexists _, _. split_and!; [done| |destruct w; exact Hg|by left]. by rewrite send_outbound_database.
      * exists [], w. split_and!; [done..| |by left]. by destruct w; apply grown_nil.
      * eexists _, _. split_and!; [done| |destruct w; exact Hg|by left]. by rewrite send_outbound_database.
    + unfold db_handle_shutdown, saving.
      destruct (holds_shutdown env (origin e) seen (database w) Hh) as [Hh' (res & Hres & Hcase)].
      destruct (save_shutdown env (origin e) (database w)) as [? db]. simpl in Hh', Hres. subst. simpl.
      destruct (grown_send w db Shutdown (inbound_filter e) Ha) as [Hg Hdb].
      assert (outage env = None \/ outage env <> None) as [Hn|Hn] by (destruct (outage env); naive_solver).
      * destruct (Hcase Hn) as [Hr|[table ->]]; [destruct res as [n|]; [|done]|];
          (eexists _, _; split_and!; [done|by rewrite send_outbound_database|exact Hg|by left]).
      * destruct res as [n|[]]; first
          [by eexists _, _; split_and!; [done|by rewrite send_outbound_database|exact Hg|by left]
          |exists [], (with_database w db); split_and!; [done..|by apply grown_nil|];
           right; unfold incoming_data; simpl; by rewrite Hdata].
Qed.

(** *** All events *)

Lemma consume_simulates (items : list Incoming) (newest : option ProtocolVersion) (seen : list Identity) (w : World) :
  Forall (fun it => admissible (incoming_data it)) items -> holds seen (database w) ->
  accepts (outbound_sse_data_sender w) = None ->
  exists m' w' out,
    consume_events ((fun it => (DbSavingEventHandlingService it.1, it.2)) <$> items) (mkApiVersionManager newest, w) =
      Some (m', w') /\
    grown w out w' /\ reports out = reports (reference items (newest, seen)) /\
    (Forall (fun it => is_shutdown (incoming_data it) = true -> outage it.1 = None) items ->
     out = reference items (newest, seen)) /\
    holds (reference_state items (newest, seen)).2 (database w').
Proof using event_keys.
  intros Hall. revert newest seen w. induction Hall as [|it items Hit _ IH]; intros newest seen w Hh Ha; csimpl.
  - exists (mkApiVersionManager newest), w, []. split_and!; [done| |done..]. destruct w. by apply grown_nil.
  - pose proof (handle_step_simulates it newest seen w Hit Hh Ha) as Hstep. unfold reference_state. cbn [foldl].
    destruct (reference_step it (newest, seen)) as [ref [newest' seen']] eqn:Href. cbn [snd].
    destruct Hstep as (out & w1 & Hhandle & Hh1 & Hg1 & Hf). rewrite Hhandle. csimpl.
    destruct (IH newest' seen' w1 Hh1 (grown_open _ _ _ Hg1)) as (m' & w' & out' & Hc & Hg' & Hr & Heq & Hfinal).
    exists m', w', (out ++ out'). split_and!; [exact Hc|by eapply grown_app| | |exact Hfinal].
    + assert (reports out = reports ref) as Hout.
      { destruct Hf as [->|(Hs & _ & ->)]; [done|]. unfold reference_step in Href.
        destruct (incoming_data it); try done. by simplify_eq/=. }
      unfold reports in *. by rewrite !fmap_app, !filter_app, Hr, Hout.
    + intros [Hsd Hrest]%Forall_cons. rewrite (Heq Hrest). f_equal.
      destruct Hf as [->|(Hs & Ho & _)]; [done|]. by destruct (Ho (Hsd Hs)).
Qed.

End Simulation.

(** ** What is passed on *)

Definition protocol_version_of (d : SseData) : option ProtocolVersion :=
  match d with ApiVersion v => Some v | _ => None end.

Definition older (a b : ProtocolVersion) : Prop := version_ltb a b = true.

Lemma older_trans (a b c : ProtocolVersion) : older a b -> older b c -> older a c.
Proof. unfold older, version_ltb. rewrite !orb_true_iff, !andb_true_iff, !orb_true_iff, !andb_true_iff. lia. Qed.

(** The three kinds of events, by what the reference does with them. *)
Lemma reference_step_cases (it : Incoming) (newest : option ProtocolVersion) (seen : list Identity) :
  let d := incoming_data it in
  let '(out, (newest', seen')) := reference_step it (newest, seen) in
  (exists v, d = ApiVersion v /\ newest_changes newest v = true /\ reports out = [d] /\ newest' = Some v /\
     seen' = seen) \/
  (exists i, identity d = Some i /\ i ∉ seen /\ can_save it = true /\ reports out = [d] /\ newest' = newest /\
     seen' = i :: seen) \/
  (reports out = [] /\ newest' = newest /\ seen' = seen /\
     forall i, identity d = Some i -> can_save it = true -> i ∈ seen).
Proof.
  intros d. destruct (identity d) as [i|] eqn:Hi.
  - rewrite (reference_step_entity it newest seen i Hi). fold d.
    destruct (bool_decide (i ∈ seen)) eqn:Hin; [apply bool_decide_eq_true in Hin|apply bool_decide_eq_false in Hin];
      destruct (can_save it) eqn:Hc; simpl; right; [right|right|left|right]; try (by split_and!; [done..|naive_solver]).
    exists i. split_and!; try done. unfold reports. simpl. destruct d; done.
  - unfold reference_step. fold d. destruct d as [v| | | | | | | |] eqn:Hd; try done.
    + destruct (newest_changes newest v) eqn:Hn; [left; by exists v|by right; right].
    + by right; right.
Qed.

Lemma reports_app (l1 l2 : list (SseData * option Filter)) : reports (l1 ++ l2) = reports l1 ++ reports l2.
Proof. unfold reports. by rewrite fmap_app, filter_app. Qed.

(** Entities: those that could be saved and were not seen, each once. *)
Lemma reference_entities (items : list Incoming) (newest : option ProtocolVersion) (seen : list Identity) :
  let ids := omap identity (reports (reference items (newest, seen))) in
  NoDup ids /\ forall i, i ∈ ids <-> i ∉ seen /\
    exists it, it ∈ items /\ identity (incoming_data it) = Some i /\ can_save it = true.
Proof.
  revert newest seen. induction items as [|it items IH]; intros newest seen.
  { split; [constructor|]. set_solver. }
  pose proof (reference_step_cases it newest seen) as Hc. simpl.
  destruct (reference_step it (newest, seen)) as [out [newest' seen']].
  destruct (IH newest' seen') as [Hnd Hids]. rewrite reports_app, omap_app. clear IH.
  destruct Hc as [(v & Hd & _ & -> & -> & ->)|[(i & Hi & Hnew & Hcan & -> & -> & ->)|(-> & -> & -> & Hold)]]; csimpl.
  - rewrite Hd. split; [done|]. intros i. rewrite Hids. split; [set_solver|].
    intros (Hi & it' & [->|Hit]%elem_of_cons & Hd' & Hcan); [by rewrite Hd in Hd'|set_solver].
  - rewrite Hi. csimpl. split; [constructor; [rewrite Hids; set_solver|done]|].
    intros j. rewrite elem_of_cons, Hids. split.
    + intros [->|(Hj & it' & Hit & ?)]; [split; [done|]; exists it; set_solver|set_solver].
    + intros (Hj & it' & [->|Hit]%elem_of_cons & Hd' & Hcan'); [left; congruence|].
      destruct (decide (j = i)) as [->|]; [by left|right; set_solver].
  - split; [done|]. intros j. rewrite Hids. split; [set_solver|].
    intros (Hj & it' & [->|Hit]%elem_of_cons & Hd' & Hcan); [by destruct Hj; apply Hold|set_solver].
Qed.

(** The entities in the end are those at the start and those passed on. *)
Lemma reference_seen (items : list Incoming) (newest : option ProtocolVersion) (seen : list Identity) (i : Identity) :
  i ∈ (reference_state items (newest, seen)).2 <->
  i ∈ seen \/ i ∈ omap identity (reports (reference items (newest, seen))).
Proof.
  revert newest seen. induction items as [|it items IH]; intros newest seen; [set_solver|].
  pose proof (reference_step_cases it newest seen) as Hc. unfold reference_state. cbn [foldl reference].
  destruct (reference_step it (newest, seen)) as [out [newest' seen']]. cbn [snd].
  fold (reference_state items (newest', seen')). rewrite IH, reports_app, omap_app.
  destruct Hc as [(v & Hd & _ & -> & -> & ->)|[(j & Hj & _ & _ & -> & -> & ->)|(-> & -> & -> & _)]]; csimpl.
  - rewrite Hd. set_solver.
  - rewrite Hj. set_solver.
  - set_solver.
Qed.

(** Versions: each newer than those before. *)
Lemma reference_versions (items : list Incoming) (newest : option ProtocolVersion) (seen : list Identity) :
  let vs := omap protocol_version_of (reports (reference items (newest, seen))) in
  StronglySorted older vs /\ forall v, v ∈ vs -> newest_changes newest v = true.
Proof.
  revert newest seen. induction items as [|it items IH]; intros newest seen; [split; [constructor|set_solver]|].
  pose proof (reference_step_cases it newest seen) as Hc. simpl.
  destruct (reference_step it (newest, seen)) as [out [newest' seen']].
  destruct (IH newest' seen') as [Hsorted Hnewer]. rewrite reports_app, omap_app. clear IH.
  destruct Hc as [(v & Hd & Hch & -> & -> & ->)|[(i & Hi & _ & _ & -> & -> & ->)|(-> & -> & -> & _)]]; csimpl.
  - rewrite Hd. csimpl. split; [constructor; [done|]; by apply Forall_forall|].
    intros v' [->|Hv']%elem_of_cons; [done|]. specialize (Hnewer v' Hv'). simpl in Hnewer.
    destruct newest as [current|]; [|done]. by eapply older_trans.
  - assert (protocol_version_of (incoming_data it) = None) as -> by by destruct (incoming_data it). done.
  - done.
Qed.

(** What is passed on came in, in that order. *)
Lemma reference_sublist (items : list Incoming) (newest : option ProtocolVersion) (seen : list Identity) :
  reports (reference items (newest, seen)) `sublist_of` (incoming_data <$> items).
Proof.
  revert newest seen. induction items as [|it items IH]; intros newest seen; [constructor|].
  pose proof (reference_step_cases it newest seen) as Hc. csimpl.
  destruct (reference_step it (newest, seen)) as [out [newest' seen']]. rewrite reports_app.
  destruct Hc as [(v & _ & _ & -> & _)|[(i & _ & _ & _ & -> & _)|(-> & _)]]; simpl; by constructor.
Qed.

Lemma notifications_reports (l : list (SseData * option Filter)) :
  omap block_notification (fst <$> l) = omap block_notification (reports l).
Proof.
  unfold reports. induction l as [|[d f] l IH]; [done|]. csimpl. rewrite filter_cons.
  destruct d; simpl; rewrite ?decide_True, ?decide_False by done; csimpl; by rewrite IH.
Qed.

(** ** The theorems *)

(** The sidecar as it starts on a database. *)
Definition started (db : Database) : ApiVersionManager * World :=
  (ApiVersionManager_new, mkWorld db (mkChannel [] None) (Some [])).

(** Events logged under the same key report the same entity: the hash of a block
    determines its height, and that of a transaction its kind. *)
Definition consistent (items : list Incoming) : Prop :=
  forall it it', it ∈ items -> it' ∈ items -> is_Some (identity (incoming_data it)) ->
    log_key (incoming_data it) = log_key (incoming_data it') ->
    identity (incoming_data it) = identity (incoming_data it').

(** The services of the events. *)
Definition with_services `{AutoIncrement} (items : list Incoming) : list (EventHandlingService * SseEvent) :=
  (fun it => (DbSavingEventHandlingService it.1, it.2)) <$> items.

(** What some of the events report. *)
Definition among (items : list Incoming) (d : SseData) : Prop := exists it, it ∈ items /\ incoming_data it = d.

Lemma consistent_keys (items : list Incoming) (d d' : SseData) :
  consistent items -> among items d -> among items d' -> is_Some (identity d) ->
  log_key d = log_key d' -> identity d = identity d'.
Proof. intros Hc (it & Hit & <-) (it' & Hit' & <-). by apply Hc. Qed.

(** A store set up by the migrations holds nothing. *)
Lemma fresh_holds (e : Engine) (at_time : Z) (items : list Incoming) (db : Database) :
  apply_all_migrations e at_time ∅ = (Ok tt, db) -> holds (among items) [] db.
Proof.
  intros Hmig. destruct (fresh_store e at_time) as (db' & Hdb & Hok & Hst & Hlog).
  rewrite Hmig in Hdb. injection Hdb as <-. clear Hmig. split; [done| |].
  - intros i. rewrite Hst. symmetry. apply bool_decide_eq_false_2, not_elem_of_nil.
  - intros d i ty k _ _ _. by rewrite Hlog.
Qed.

(** The sidecar started on a store that holds some entities. *)
Lemma consume_from `{AutoIncrement} (all items : list Incoming) (seen : list Identity) (db : Database) :
  consistent all -> items ⊆ all -> holds (among all) seen db ->
  exists m w, consume_events (with_services items) (started db) = Some (m, w) /\
    reports (sent (outbound_sse_data_sender w)) = reports (reference items (None, seen)) /\
    sidecar_event_sender w = Some (omap block_notification (reports (reference items (None, seen)))) /\
    (Forall (fun it => is_shutdown (incoming_data it) = true -> outage it.1 = None) items ->
     sent (outbound_sse_data_sender w) = reference items (None, seen)) /\
    holds (among all) (reference_state items (None, seen)).2 (database w).
Proof.
  intros Hcons Hsub Hh.
  destruct (consume_simulates (among all)) with
    (items := items) (newest := @None ProtocolVersion) (seen := seen) (w := (started db).2)
    as (m & w & out & Hc & [Hs _ Hn] & Hr & Heq & Hfinal); [| |done..|].
  - intros d d'. by apply consistent_keys.
  - apply Forall_forall. intros it Hit. exists it. auto.
  - exists m, w. simpl in Hs, Hn. rewrite Hs, Hn. split_and!; [exact Hc|done| |done..].
    by rewrite notifications_reports, Hr.
Qed.

Lemma consume_from_start `{AutoIncrement} (e : Engine) (at_time : Z) (items : list Incoming) (db : Database) :
  apply_all_migrations e at_time ∅ = (Ok tt, db) -> consistent items ->
  exists m w, consume_events (with_services items) (started db) = Some (m, w) /\
    reports (sent (outbound_sse_data_sender w)) = reports (reference items (None, [])) /\
    sidecar_event_sender w = Some (omap block_notification (reports (reference items (None, [])))) /\
    (Forall (fun it => is_shutdown (incoming_data it) = true -> outage it.1 = None) items ->
     sent (outbound_sse_data_sender w) = reference items (None, [])).
Proof.
  intros Hmig Hcons. apply (fresh_holds _ _ items) in Hmig.
  destruct (consume_from items items [] db Hcons) as (m & w & Hc & Hr & Hn & Heq & _); [done..|].
  exists m, w. split_and!; assumption.
Qed.

(** Every entity is passed on exactly once.  On a database set up by the
    migrations, take any sequence of events from any number of nodes, each saved in
    surroundings of its own in which the database or the JSON may fail.  No event
    makes the sidecar panic; of each entity (a block by height, an accepted or
    processed transaction by kind and hash, an expired one by hash, a fault, a
    finality signature, a step) exactly one event is passed on to the event stream
    server if some event of it can be saved, and none otherwise; what is passed on
    keeps the order it came in; API versions are passed on in increasing order; and
    the blocks announced inside the process are those passed on.  It is assumed that
    events logged under the same key report the same entity and that the receiver of
    the channel is alive; shutdowns are not counted. *)
Theorem entities_forwarded_once `{AutoIncrement} (e : Engine) (at_time : Z) (items : list Incoming) (db : Database) :
  apply_all_migrations e at_time ∅ = (Ok tt, db) -> consistent items ->
  exists m w, consume_events (with_services items) (started db) = Some (m, w) /\
    let out := reports (sent (outbound_sse_data_sender w)) in
    NoDup (omap identity out) /\
    (forall i, i ∈ omap identity out <->
       exists it, it ∈ items /\ identity (incoming_data it) = Some i /\ can_save it = true) /\
    out `sublist_of` (incoming_data <$> items) /\
    StronglySorted older (omap protocol_version_of out) /\
    sidecar_event_sender w = Some (omap block_notification out).
Proof.
  intros Hmig Hcons. destruct (consume_from_start e at_time items db Hmig Hcons) as (m & w & Hc & Hr & Hn & _).
  clear Hmig. exists m, w. split; [done|]. rewrite Hr. destruct (reference_entities items None []) as [Hnd Hids].
  split_and!; [done| |apply reference_sublist|apply reference_versions|done].
  intros i. rewrite Hids. set_solver.
Qed.

(** C16. The event loop refines its reference.  From the start on a migrated database,
    when shutdowns find a database that answers, what is sent to the event stream
    server is exactly what the reference function gives for the events: each API
    version newer than all before, each event that can be saved and whose entity is
    new, and every shutdown, recorded before or not, with the filters they came by.
    It is assumed that events logged under the same key report the same entity. *)
Theorem event_handling_refines `{AutoIncrement} (e : Engine) (at_time : Z) (items : list Incoming) (db : Database) :
  apply_all_migrations e at_time ∅ = (Ok tt, db) -> consistent items ->
  Forall (fun it => is_shutdown (incoming_data it) = true -> outage it.1 = None) items ->
  exists m w, consume_events (with_services items) (started db) = Some (m, w) /\
    sent (outbound_sse_data_sender w) = reference items (None, []).
Proof.
  intros Hmig Hcons Hsd. destruct (consume_from_start e at_time items db Hmig Hcons) as (m & w & Hc & _ & _ & Heq).
  clear Hmig. exists m, w. split; [done|]. by apply Heq.
Qed.

(** ** An example *)

Module SampleNodes.

Definition log_id (r : Row) : Z := match r !! "event_log_id" with Some (CInt z) => z | _ => 0 end.

Definition greatest (l : list Row) : Z := foldr (fun r acc => Z.max (log_id r) acc) 0 l.

Definition next (db : Database) : Z :=
  match db !! "event_log" with Some t => 1 + greatest (rows t) | None => 1 end.

Lemma greatest_le (l : list Row) (r : Row) : r ∈ l -> log_id r <= greatest l.
Proof.
  induction l as [|r' l IH]; [set_solver|].
  intros [->|Hr]%elem_of_cons; simpl; [lia|]. specialize (IH Hr). lia.
Qed.

Lemma next_fresh (db : Database) (t : Table) (r : Row) :
  db !! "event_log" = Some t -> r ∈ rows t -> r !! "event_log_id" <> Some (CInt (next db)).
Proof.
  intros Ht Hr. unfold next. rewrite Ht. intros Hid. pose proof (greatest_le (rows t) r Hr) as Hle.
  unfold log_id in Hle. rewrite Hid in Hle. lia.
Qed.

(** Identifiers count up. *)
#[export] Instance counting : AutoIncrement :=
  {| next_event_log_id := next; next_event_log_id_fresh := next_fresh |}.

Definition env (failure : option (Stage * string)) : WriteEnv :=
  mkWriteEnv Sqlite 1000 1000 (fun _ => Ok "json") failure.

Definition reported (node : string) (id : Z) (d : SseData) : SseEvent :=
  mkSseEvent id d node Filter_Events "2.0.0" "casper".

(** Two nodes: a step is reported by both, the first save of another one fails, a
    version comes twice, and one node shuts down. *)
Definition items : list Incoming :=
  [(env None, reported "a" 0 (ApiVersion (mkVersion 2 0 0)));
   (env None, reported "b" 0 (ApiVersion (mkVersion 2 0 0)));
   (env None, reported "a" 1 (Step 5 "effects"));
   (env None, reported "b" 7 (Step 5 "effects"));
   (env (Some (Commit, "disk full")), reported "a" 2 (Fault 5 "key" 3));
   (env None, reported "b" 8 (Fault 5 "key" 3));
   (env None, reported "a" 3 Shutdown)].

Definition store : Database := (apply_all_migrations Sqlite 1000 ∅).2.

Lemma items_consistent : consistent items.
Proof.
  intros it it' Hit Hit'. unfold items in *.
  repeat (apply elem_of_cons in Hit as [->|Hit]); [..|by apply not_elem_of_nil in Hit];
    repeat (apply elem_of_cons in Hit' as [->|Hit']); try (by apply not_elem_of_nil in Hit'); by intros [? ?].
Qed.

End SampleNodes.

Import SampleNodes.

(** The events of two nodes, each entity passed on once. *)
Lemma entities_forwarded_once_witness :
  exists m w, consume_events (with_services items) (started store) = Some (m, w) /\
    NoDup (omap identity (reports (sent (outbound_sse_data_sender w)))).
Proof.
  destruct (entities_forwarded_once Sqlite 1000 items store) as (m & w & Hc & Hnd & _).
  - reflexivity.
  - apply items_consistent.
  - exists m, w. by split.
Defined.

(** The same events, and what is sent. *)
Lemma event_handling_refines_witness :
  exists m w, consume_events (with_services items) (started store) = Some (m, w) /\
    (fst <$> sent (outbound_sse_data_sender w)) =
      [ApiVersion (mkVersion 2 0 0); Step 5 "effects"; Fault 5 "key" 3; Shutdown].
Proof.
  destruct (event_handling_refines Sqlite 1000 items store) as (m & w & Hc & Hs).
  - reflexivity.
  - apply items_consistent.
  - by repeat constructor.
  - exists m, w. split; [exact Hc|]. rewrite Hs. reflexivity.
Defined.
