(* ===== verification/Columns.v ===== *)
(** * The types of the columns

    [Sql.v] keeps integers and texts in columns without a type.  Here are the types the
    [CREATE TABLE] statements of [event_sidecar/src/sql/tables/] give the columns, what
    an engine can keep in them, and that what the sidecar writes stays within them. *)

From S2P Require Import Prelude SseData Sql Storage Reader Migrations EventHandling.

(** The types of [sea_query::ColumnDef] the statements use. *)
Inductive ColumnType : Set :=
| Boolean
| TinyUnsigned
| Integer
| BigInteger
| BigUnsigned
| Decimal (precision : Z)
| StringType
| Text
| Timestamp
| DateTime.

(** [event_sidecar/src/database/types.rs:5-8], [DDLConfiguration]. *)
Record DDLConfiguration := mkDDLConfiguration { db_supports_unsigned : bool }.

(** [event_sidecar/src/database/sqlite_database/writer.rs:8-16], [DDLConfiguration] of
    SQLite, and that of PostgreSQL. *)
Definition ddl_configuration (e : Engine) : DDLConfiguration :=
  match e with Sqlite => mkDDLConfiguration true | Postgres => mkDDLConfiguration false end.

(** [event_sidecar/src/sql/tables/fault.rs:18-25], [create_table_stmt], and the same in
    [step.rs]: the type of an era. *)
Definition era_type (config : DDLConfiguration) : ColumnType :=
  if db_supports_unsigned config then BigUnsigned else Decimal 20.

(** [event_sidecar/src/sql/tables/event_log.rs:22-83], [create_table_stmt], and those of
    the other tables: the types of their columns. *)
Definition column_types (config : DDLConfiguration) (table : string) : list (string * ColumnType) :=
  let transaction :=
    [("transaction_hash", StringType); ("transaction_type_id", TinyUnsigned); ("raw", Text);
     ("event_log_id", BigUnsigned)] in
  if decide (table = "Migration") then [("version", Integer); ("is_success", Boolean)]
  else if decide (table = "event_type") then [("event_type_id", Integer); ("event_type_name", StringType)]
  else if decide (table = "TransactionType") then
    [("transaction_type_id", Integer); ("transaction_type_name", StringType)]
  else if decide (table = "event_log") then
    [("event_log_id", BigInteger); ("event_type_id", TinyUnsigned); ("event_source_address", StringType);
     ("event_id", BigInteger); ("event_key", StringType); ("inserted_timestamp", Timestamp);
     ("emitted_timestamp", Timestamp); ("api_version", StringType); ("network_name", StringType)]
  else if decide (table = "transaction_event") then
    [("event_log_id", BigUnsigned); ("transaction_hash", StringType); ("transaction_type_id", TinyUnsigned)]
  else if decide (table = "BlockAdded") then
    [("height", BigUnsigned); ("block_hash", StringType); ("raw", Text); ("event_log_id", BigUnsigned)]
  else if decide (table = "TransactionAccepted") then transaction
  else if decide (table = "TransactionProcessed") then transaction
  else if decide (table = "TransactionExpired") then transaction
  else if decide (table = "Fault") then
    [("era", era_type config); ("public_key", StringType); ("raw", Text); ("event_log_id", BigUnsigned)]
  else if decide (table = "FinalitySignature") then
    [("block_hash", StringType); ("public_key", StringType); ("raw", Text); ("event_log_id", BigUnsigned)]
  else if decide (table = "Step") then [("era", era_type config); ("raw", Text); ("event_log_id", BigUnsigned)]
  else if decide (table = "Shutdown") then
    [("event_source_address", Text); ("shutdown_timestamp", DateTime); ("event_log_id", BigUnsigned)]
  else [].

(** They are the columns of the tables. *)
Lemma column_types_columns (config : DDLConfiguration) (d : TableDef) :
  d ∈ migration_table :: event_tables -> (column_types config (table_name d)).*1 = columns d.
Proof. intros Hd. repeat (apply elem_of_cons in Hd as [->|Hd]; [reflexivity|]). by apply not_elem_of_nil in Hd. Qed.

(** What an engine keeps as it is in a column of a type.  Both engines have signed
    integers of 64 bits at most, also for the unsigned types; PostgreSQL has decimals of
    a given number of digits; texts have no bound, and times are made by the engine. *)
Class ColumnRanges := {
  keeps : Engine -> ColumnType -> Col -> bool;
  keeps_string e s : keeps e StringType (CText s) = true;
  keeps_text e s : keeps e Text (CText s) = true;
  keeps_timestamp e z : keeps e Timestamp (CInt z) = true;
  keeps_date_time e z : keeps e DateTime (CInt z) = true;
  keeps_boolean e b : keeps e Boolean (CInt (Z.b2z b)) = true;
  keeps_tiny e z : 0 <= z < 256 -> keeps e TinyUnsigned (CInt z) = true;
  keeps_integer e z : 0 <= z < 2 ^ 31 -> keeps e Integer (CInt z) = true;
  keeps_big_integer e z : 0 <= z -> keeps e BigInteger (CInt z) = bool_decide (z < 2 ^ 63);
  keeps_big_unsigned e z : 0 <= z -> keeps e BigUnsigned (CInt z) = bool_decide (z < 2 ^ 63);
  keeps_decimal n z : 0 <= z -> 0 <= n -> keeps Postgres (Decimal n) (CInt z) = bool_decide (z < 10 ^ n);
}.

Create HintDb columns.
#[export] Hint Resolve keeps_string keeps_text keeps_timestamp keeps_date_time keeps_boolean keeps_tiny
  keeps_integer : columns.

Section Ranges.
Context `{ColumnRanges}.

(** The values of a row are in the ranges of their columns. *)
Definition fits (e : Engine) (table : string) (r : Row) : Prop :=
  Forall (fun ct => forall v, r !! ct.1 = Some v -> keeps e ct.2 v = true) (column_types (ddl_configuration e) table).

Definition in_columns (e : Engine) (db : Database) : Prop :=
  forall table t r, db !! table = Some t -> r ∈ rows t -> fits e table r.

(** The numbers of an event that are written to columns. *)
Definition numbers_fit (e : Engine) (d : SseData) : Prop :=
  match d with
  | BlockAdded _ b => 0 <= block_height b < 2 ^ 63
  | Fault era _ _ | Step era _ => is_u64 era /\ (e = Sqlite -> era < 2 ^ 63)
  | _ => True
  end.

Lemma keeps_id (e : Engine) (ty : ColumnType) (z : Z) :
  ty = BigUnsigned \/ ty = BigInteger -> 0 <= z < 2 ^ 63 -> keeps e ty (CInt z) = true.
Proof.
  intros [->| ->] Hz; [rewrite keeps_big_unsigned by lia|rewrite keeps_big_integer by lia];
    apply bool_decide_eq_true; lia.
Qed.

Lemma keeps_era (e : Engine) (era : Z) :
  is_u64 era -> (e = Sqlite -> era < 2 ^ 63) -> keeps e (era_type (ddl_configuration e)) (CInt era) = true.
Proof.
  unfold is_u64, U64_MAX. intros He Hs. destruct e.
  - apply keeps_id; [by left|]. specialize (Hs eq_refl). lia.
  - change (era_type _) with (Decimal 20). rewrite keeps_decimal by lia. apply bool_decide_eq_true. lia.
Qed.

(** The columns an engine fills itself are times. *)
Lemma defaults_fit (e : Engine) (d : TableDef) (now : Z) (r : Row) :
  d ∈ migration_table :: event_tables -> fits e (table_name d) r -> fits e (table_name d) (with_defaults d now r).
Proof.
  intros Hd Hr. assert (Forall (fun c => Forall (fun ct : string * ColumnType => ct.1 = c ->
    ct.2 = Timestamp \/ ct.2 = DateTime) (column_types (ddl_configuration e) (table_name d))) (defaulted d)) as Htimes.
  { repeat (apply elem_of_cons in Hd as [->|Hd]; [repeat constructor; simpl; intros; try done; tauto|]).
    by apply not_elem_of_nil in Hd. }
  unfold fits, with_defaults in *. clear Hd. revert r Hr. induction Htimes as [|c cs Hc _ IH]; intros r Hr; [done|]. simpl. apply IH.
  destruct (r !! c) as [v|] eqn:Hv; [done|]. apply Forall_forall. intros [c' ty] Hin v Hlook. simpl in *.
  rewrite Forall_forall in Hc, Hr. specialize (Hc _ Hin). specialize (Hr _ Hin v). simpl in Hc, Hr.
  destruct (decide (c' = c)) as [->|Hne]; [|rewrite lookup_insert_ne in Hlook by done; by apply Hr].
  rewrite lookup_insert_eq in Hlook. injection Hlook as <-. destruct (Hc eq_refl) as [->| ->]; auto with columns.
Qed.

Lemma insert_in_columns (e : Engine) (now : Z) (d : TableDef) (db db' : Database) (r : Row) :
  d ∈ event_tables -> def <$> db !! table_name d = Some d -> in_columns e db -> fits e (table_name d) r ->
  insert_row e now db (table_name d) r = Ok db' -> in_columns e db'.
Proof.
  intros Hd Hdef Hdb Hr Hi. apply insert_row_Ok in Hi as (t & Ht & _ & ->). rewrite Ht in Hdef. injection Hdef as Hdef.
  intros table t' r' Ht' Hr'. destruct (decide (table = table_name d)) as [->|Hne].
  - rewrite lookup_insert_eq in Ht'. injection Ht' as <-. simpl in Hr'.
    apply elem_of_app in Hr' as [Hr'|Hr'%list_elem_of_singleton]; [by eapply Hdb|]. subst r'. rewrite Hdef.
    apply defaults_fit; [by right|done].
  - rewrite lookup_insert_ne in Ht' by done. by eapply Hdb.
Qed.

(** The statements of the writer, for an identifier of the log and numbers in range. *)
Lemma statement_fits (e : Engine) (table : string) (cols : list (string * Col)) :
  Forall (fun ct => Forall (fun cv : string * Col => cv.1 = ct.1 -> keeps e ct.2 cv.2 = true) cols)
    (column_types (ddl_configuration e) table) ->
  fits e table (row cols).
Proof.
  intros Hc. apply (Forall_impl _ _ _ Hc). intros [c ty] Hcs v Hv. simpl in *. unfold row in Hv.
  apply elem_of_list_to_map_2 in Hv. rewrite Forall_forall in Hcs. by apply (Hcs (c, v)).
Qed.

(** All tables are there, with values in range. *)
Definition kept (e : Engine) (db : Database) : Prop :=
  (forall d, d ∈ event_tables -> def <$> db !! table_name d = Some d) /\ in_columns e db.

Definition stmt_fits (e : Engine) (stmt : string * Row) : Prop :=
  exists d, d ∈ event_tables /\ stmt.1 = table_name d /\ fits e stmt.1 stmt.2.

Lemma insert_kept (e : Engine) (now : Z) (stmt : string * Row) (db db' : Database) :
  stmt_fits e stmt -> kept e db -> insert_row e now db stmt.1 stmt.2 = Ok db' -> kept e db'.
Proof.
  intros (d & Hd & Ht & Hf) [Hdefs Hin] Hi. rewrite Ht in Hi, Hf. split; [|by eapply insert_in_columns; eauto].
  apply insert_row_Ok in Hi as (t & Hl & _ & ->). intros d' Hd'. specialize (Hdefs d' Hd').
  destruct (decide (table_name d' = table_name d)) as [Heq|Hne]; [|by rewrite lookup_insert_ne].
  rewrite Heq in *. rewrite lookup_insert_eq. by rewrite Hl in Hdefs.
Qed.

Lemma execute_kept (env : WriteEnv) (stmts : list (string * Row)) (db db' : Database) :
  Forall (stmt_fits (engine env)) stmts -> kept (engine env) db -> execute env stmts db = Ok db' -> kept (engine env) db'.
Proof.
  intros Hs. revert db. induction Hs as [|[t r] stmts Hf _ IH]; intros db Hdb; simpl; [by intros [= <-]|].
  destruct (insert_row _ _ _ _ _) as [db1|] eqn:Hi; [|done]. simpl. apply IH. by eapply (insert_kept _ _ (t, r)).
Qed.

Ltac solve_row := repeat constructor; simpl; intros ?; try discriminate; auto with columns.

(** A statement of a table with all its values. *)
Ltac solve_stmt d :=
  exists d; split_and!; [set_solver|reflexivity|]; apply statement_fits;
  repeat (apply Forall_cons; split; [repeat (apply Forall_cons; split; [simpl; intros ?; try discriminate|]); try done|]);
  try done; first [by auto with columns|by apply keeps_id; auto|by apply keeps_era|idtac].

Lemma event_log_fits (e : Engine) (id : Z) (ty : EventTypeId) (address : string) (event_id : Z)
    (key version network : string) :
  0 <= id < 2 ^ 63 -> is_u32 event_id ->
  stmt_fits e (insert_event_log id (event_type_id ty) address event_id key version network).
Proof.
  intros Hid He. solve_stmt event_log_table.
  - apply keeps_tiny. destruct ty; simpl; lia.
  - apply keeps_id; [by right|]. unfold is_u32, U32_MAX in He. lia.
Qed.

Context `{AutoIncrement}.

Lemma save_with_kept (env : WriteEnv) (ty : EventTypeId) (o : Origin) (js : result string string) (key : string)
    (stmts : string -> Z -> list (string * Row)) (db : Database) :
  is_u32 (event_id o) -> 0 <= next_event_log_id db < 2 ^ 63 ->
  (forall raw, Forall (stmt_fits (engine env)) (stmts raw (next_event_log_id db))) -> kept (engine env) db ->
  kept (engine env) (save_with env ty o js key stmts db).2.
Proof.
  intros Ho Hid Hs Hdb. unfold save_with. destruct (fails_at env Begin); [done|]. destruct js as [raw|]; [|done].
  destruct (save_event_log env ty o key db) as [[id db1]|] eqn:Hl; [|done].
  assert (id = next_event_log_id db /\ kept (engine env) db1) as [-> Hdb1].
  { unfold save_event_log, guarded in Hl. pose proof (event_log_fits (engine env) (next_event_log_id db) ty
      (event_source_address o) (event_id o) key (origin_api_version o) (origin_network_name o) Hid Ho) as Hf.
    destruct (insert_event_log _ _ _ _ _ _ _) as [table r]. destruct (fails_at env LogEvent); [done|].
    destruct (insert_row _ _ _ _ _) as [db2|] eqn:Hi; [|done]. injection Hl as <- <-. split; [done|].
    by eapply (insert_kept _ _ (table, r)). }
  unfold guarded. destruct (fails_at env InsertEvent); [done|].
  destruct (execute env _ db1) as [db2|] eqn:He; [|done]. destruct (fails_at env Commit); [done|].
  by eapply execute_kept.
Qed.

Lemma tiny_type (e : Engine) (h : TransactionHash) :
  keeps e TinyUnsigned (CInt (transaction_type_id (hash_type_id h))) = true.
Proof. apply keeps_tiny. destruct h; simpl; lia. Qed.

(** The rows the migrations write. *)
Definition initial_rows : list (string * Row) :=
  initialise_event_type ++ initialise_transaction_type ++ [insert_migration 1 true].

Lemma initial_rows_fit (e : Engine) (table : string) (r : Row) : (table, r) ∈ initial_rows -> fits e table r.
Proof.
  unfold initial_rows. rewrite !elem_of_app, list_elem_of_singleton.
  intros [([ty name] & [= -> ->] & _)%list_elem_of_fmap|[([ty name] & [= -> ->] & _)%list_elem_of_fmap|[= -> ->]]].
  - apply (statement_fits _ _ [("event_type_id", CInt (event_type_id ty)); ("event_type_name", CText name)]).
    solve_row. apply keeps_integer. destruct ty; simpl; lia.
  - apply (statement_fits _ _
      [("transaction_type_id", CInt (transaction_type_id ty)); ("transaction_type_name", CText name)]).
    solve_row. apply keeps_integer. destruct ty; simpl; lia.
  - apply (statement_fits _ _ [("version", CInt 1); ("is_success", CInt (Z.b2z true))]).
    solve_row; [apply keeps_integer; lia|apply (keeps_boolean e true)].
Qed.

(** The store the migrations set up. *)
Lemma migrated_kept (e : Engine) (at_time : Z) (db : Database) :
  apply_all_migrations e at_time ∅ = (Ok tt, db) -> kept e db.
Proof.
  intros Hm. destruct (fresh_store e at_time) as (db' & Hm' & [Hdefs _ _ _] & _).
  rewrite Hm in Hm'. injection Hm' as <-. split; [done|].
  assert (db = (apply_all_migrations e at_time ∅).2) as Hdb by by rewrite Hm. clear Hm Hdefs.
  assert (map_Forall (fun name t => Forall (fun r => (name, r) ∈ initial_rows) (rows t)) db) as Hrows.
  { rewrite Hdb. destruct e; apply (bool_decide_unpack _); vm_compute; exact I. }
  intros table t r Ht Hr. specialize (Hrows table t Ht). rewrite Forall_forall in Hrows. by apply initial_rows_fit, Hrows.
Qed.

(** C40. What the sidecar writes stays within the types of its columns.  On a store set
    up by the migrations and whatever was saved before, saving an event leaves only
    values that the engine keeps as they are: this holds on SQLite and on PostgreSQL for
    every number of an event, if the height of a block is below 2^63 and, on SQLite, an
    era is below 2^63, as long as the engine has identifiers for the log. *)
Theorem saved_values_fit (env : WriteEnv) (d : SseData) (o : Origin) (db : Database) :
  kept (engine env) db -> numbers_fit (engine env) d -> is_u32 (event_id o) ->
  0 <= next_event_log_id db < 2 ^ 63 ->
  kept (engine env) (save env d o db).2 /\ kept (engine env) (save_shutdown env o db).2.
Proof.
  intros Hdb Hn Ho Hid. split; [destruct d; simpl in Hn; try done|]; apply save_with_kept; try done; intros raw;
    repeat (apply Forall_cons; split); try done.
  - solve_stmt block_added_table.
  - solve_stmt transaction_accepted_table; apply tiny_type.
  - solve_stmt transaction_event_table; apply tiny_type.
  - solve_stmt transaction_processed_table; apply tiny_type.
  - solve_stmt transaction_event_table; apply tiny_type.
  - solve_stmt transaction_expired_table; apply tiny_type.
  - solve_stmt transaction_event_table; apply tiny_type.
  - destruct Hn. solve_stmt fault_table.
  - solve_stmt finality_signature_table.
  - destruct Hn. solve_stmt step_table.
  - solve_stmt shutdown_table.
Qed.

(** PostgreSQL has no column for the heights above: the types of eras are wider there. *)
Lemma tall_block_unfit (height id : Z) (hash raw : string) :
  2 ^ 63 <= height -> ~ fits Postgres "BlockAdded" (insert_block_added height hash raw id).2.
Proof.
  intros Hh Hf. apply Forall_cons in Hf as [Hf _]. specialize (Hf (CInt height) eq_refl). simpl in Hf.
  rewrite keeps_big_unsigned in Hf by lia. apply bool_decide_eq_true in Hf. lia.
Qed.

End Ranges.

(** ** An example *)

Module SampleColumns.

(** The ranges of the two engines. *)
Definition bounded (z bound : Z) : bool := bool_decide (0 <= z < bound).

Definition sample_keeps (e : Engine) (ty : ColumnType) (v : Col) : bool :=
  match ty, v with
  | (StringType | Text), CText _ | (Timestamp | DateTime), CInt _ => true
  | Boolean, CInt z => bounded z 2
  | TinyUnsigned, CInt z => bounded z 32768
  | Integer, CInt z => bounded z (2 ^ 31)
  | (BigInteger | BigUnsigned), CInt z => bounded z (2 ^ 63)
  | Decimal n, CInt z => bounded z (10 ^ n)
  | _, _ => false
  end.

#[export] Instance sample_ranges : ColumnRanges.
Proof.
  refine {| keeps := sample_keeps |}; intros; simpl; unfold bounded; try done;
    try (apply bool_decide_ext; lia); apply bool_decide_eq_true; try lia. by destruct b.
Defined.

End SampleColumns.

Import SampleColumns SampleNodes.

(** A step of an era beyond 2^63 on PostgreSQL. *)
Lemma saved_values_fit_witness :
  exists db, kept Postgres db /\
    kept Postgres (save (mkWriteEnv Postgres 1000 1000 (fun _ => Ok "{}") None) (Step (2 ^ 63 + 5) "effects")
      (mkOrigin 7 "a" "2.0.0" "net") db).2.
Proof.
  assert ((apply_all_migrations Postgres 1000 ∅).1 = Ok tt) as Hres by reflexivity.
  assert (0 <= next_event_log_id (apply_all_migrations Postgres 1000 ∅).2 < 2 ^ 63) as Hid
    by (vm_compute; split; [discriminate|reflexivity]).
  destruct (apply_all_migrations Postgres 1000 ∅) as [res db] eqn:Hm. simpl in Hres, Hid. subst res.
  pose proof (migrated_kept Postgres 1000 db Hm) as Hdb. clear Hm.
  destruct (saved_values_fit (mkWriteEnv Postgres 1000 1000 (fun _ => Ok "{}") None) (Step (2 ^ 63 + 5) "effects")
    (mkOrigin 7 "a" "2.0.0" "net") db Hdb) as [Hsave _].
  - split; [unfold is_u64, U64_MAX; lia|discriminate].
  - simpl. unfold is_u32, U32_MAX. lia.
  - exact Hid.
  - exists db. split; [exact Hdb|exact Hsave].
Defined.
