(* ===== verification/RestServer.v ===== *)
(** * The REST server ([event_sidecar/src/rest_server.rs] and [rest_server/])

    The routes of the server and how their rejections become answers, the checks
    of parameters, and the metrics of a request.  A request is its method and the
    segments of its path, which [warp] matches one after the other; a rejection is
    the list of the errors that the alternatives of [or] were rejected with, where
    the rejection [warp] gives a path that does not match counts for nothing.  The
    database is an interface, which the readers of [Reader.v] implement. *)

From S2P Require Import Prelude SseData Sql Storage Reader.

(** ** The database *)

(** [event_sidecar/src/types/database.rs:374-459], [DatabaseReader]: the queries the
    server makes. *)
Record DatabaseReader := mkReader {
  rd_latest_block : result DatabaseReadError (SseEnvelope SseData);
  rd_block_by_height : Z -> result DatabaseReadError (SseEnvelope SseData);
  rd_block_by_hash : string -> result DatabaseReadError (SseEnvelope SseData);
  rd_transaction_aggregate : TransactionTypeId -> string -> result DatabaseReadError TransactionAggregate;
  rd_transaction_accepted : TransactionTypeId -> string -> result DatabaseReadError (SseEnvelope SseData);
  rd_transaction_processed : TransactionTypeId -> string -> result DatabaseReadError (SseEnvelope SseData);
  rd_transaction_expired : TransactionTypeId -> string -> result DatabaseReadError (SseEnvelope SseData);
  rd_faults_by_public_key : string -> result DatabaseReadError (list (SseEnvelope SseData));
  rd_faults_by_era : Z -> result DatabaseReadError (list (SseEnvelope SseData));
  rd_finality_signatures : string -> result DatabaseReadError (list (SseEnvelope FinalitySignature));
  rd_step : Z -> result DatabaseReadError (SseEnvelope SseData);
}.

(** The readers of the store. *)
Definition store_reader `{EventJson} (fails : string -> option string) (db : Database) : DatabaseReader := {|
  rd_latest_block := get_latest_block fails db;
  rd_block_by_height := get_block_by_height fails db;
  rd_block_by_hash := get_block_by_hash fails db;
  rd_transaction_aggregate := get_transaction_aggregate_by_identifier fails db;
  rd_transaction_accepted := get_transaction_accepted_by_hash fails db;
  rd_transaction_processed := get_transaction_processed_by_hash fails db;
  rd_transaction_expired := get_transaction_expired_by_hash fails db;
  rd_faults_by_public_key := get_faults_by_public_key fails db;
  rd_faults_by_era := get_faults_by_era fails db;
  rd_finality_signatures := get_finality_signatures_by_block fails db;
  rd_step := get_step_by_era fails db;
|}.

(** ** Requests and answers *)

Record RestRequest := mkRestRequest {
  http_method : string;
  segments : list string;
}.

(** What an answer holds, as JSON. *)
Inductive Data :=
| DataEvent (e : SseEnvelope SseData)
| DataEvents (l : list (SseEnvelope SseData))
| DataSignatures (l : list (SseEnvelope FinalitySignature))
| DataAggregate (a : TransactionAggregate)
| DataStatus (version : ProtocolVersion)
| DataApiDoc
| DataText (text : string)
| DataError (code : Z) (message : string).

Record RestResponse := mkRestResponse {
  rest_status : Z;
  rest_data : Data;
}.

(** The errors of a rejection: those of the server, and [MethodNotAllowed]. *)
Inductive Cause :=
| Unexpected (error : string)
| StorageError (error : DatabaseReadError)
| InvalidPath
| InvalidParam (error : string)
| MethodNotAllowed.

Definition Rejection : Type := list Cause.

Definition not_found : Rejection := [].

(** [Rejection::find]: the first error that fits. *)
Fixpoint find_cause {A} (f : Cause -> option A) (r : Rejection) : option A :=
  match r with
  | [] => None
  | c :: r => match f c with Some a => Some a | None => find_cause f r end
  end.

Definition as_unexpected (c : Cause) : option string := match c with Unexpected e => Some e | _ => None end.
Definition as_storage (c : Cause) : option DatabaseReadError := match c with StorageError e => Some e | _ => None end.
Definition as_invalid_path (c : Cause) : option unit := match c with InvalidPath => Some tt | _ => None end.
Definition as_invalid_param (c : Cause) : option string := match c with InvalidParam e => Some e | _ => None end.

(** [event_sidecar/src/rest_server/errors.rs:70-85], [status_code_and_err_message_for_read_error]. *)
Definition status_code_and_err_message_for_read_error (err : DatabaseReadError) : Z * string :=
  match err with
  | NotFound => (404, "Query returned no results")
  | ReadSerialisation err => (500, "Error deserializing returned data: " +:+ err)
  | ReadUnhandled err => (500, "Unhandled error occurred in storage: " +:+ err)
  end.

Definition newline : string := String (Ascii.ascii_of_nat 10) EmptyString.

(** [event_sidecar/src/rest_server/errors.rs:64-68], [fallback_status_code_and_message]:
    [debug] is the text [warp] prints for a rejection. *)
Definition fallback_status_code_and_message (debug : Rejection -> string) (err : Rejection) : Z * string :=
  (500, "Unexpected error in REST server - please file a bug report!" +:+ newline +:+ debug err).

(** [event_sidecar/src/rest_server/errors.rs:28-62], [handle_rejection]. *)
Definition handle_rejection (debug : Rejection -> string) (err : Rejection) : RestResponse :=
  let (code, message) :=
    match find_cause as_unexpected err with
    | Some e => (500, "Unexpected error in REST server - please file a bug report!" +:+ newline +:+ e)
    | None =>
        match find_cause as_storage err with
        | Some e => status_code_and_err_message_for_read_error e
        | None =>
            match find_cause as_invalid_path err with
            | Some _ => (400, "Invalid request path provided")
            | None =>
                match find_cause as_invalid_param err with
                | Some e => (400, "Invalid parameter in query: " +:+ e)
                | None => fallback_status_code_and_message debug err
                end
            end
        end
    end in
  mkRestResponse code (DataError code message).

(** ** Checks of parameters *)

Definition is_hex_digit (c : Ascii.ascii) : bool :=
  let n := Z.of_N (Ascii.N_of_ascii c) in
  ((48 <=? n) && (n <=? 57)) || ((65 <=? n) && (n <=? 70)) || ((97 <=? n) && (n <=? 102)).

Fixpoint all_hex (s : string) : bool :=
  match s with EmptyString => true | String c s => is_hex_digit c && all_hex s end.

(** [event_sidecar/src/rest_server/handlers.rs:134-145], [check_hash_is_correct_format]. *)
Definition check_hash_is_correct_format (hash : string) : result Rejection unit :=
  if all_hex hash && Nat.eqb (String.length hash) 64 then Ok tt
  else Err [InvalidParam ("Expected hex-encoded hash (64 chars), received: " +:+ hash +:+
              " (length: " +:+ pretty (String.length hash) +:+ ")")].

(** [event_sidecar/src/rest_server/handlers.rs:147-158], [check_public_key_is_correct_format]. *)
Definition check_public_key_is_correct_format (public_key_hex : string) : result Rejection unit :=
  if all_hex public_key_hex &&
     (Nat.eqb (String.length public_key_hex) 66 || Nat.eqb (String.length public_key_hex) 68) then Ok tt
  else Err [InvalidParam ("Expected hex-encoded public key (66/68 chars), received: " +:+ public_key_hex +:+
              " (length: " +:+ pretty (String.length public_key_hex) +:+ ")")].

(** [event_sidecar/src/rest_server/handlers.rs:119-132], [format_or_reject_storage_result]. *)
Definition format_or_reject_storage_result {T} (data : T -> Data) (storage_result : result DatabaseReadError T)
    : result Rejection RestResponse :=
  match storage_result with
  | Ok d => Ok (mkRestResponse 200 (data d))
  | Err req_err => Err [StorageError req_err]
  end.

(** [str::to_lowercase] on the ASCII letters. *)
Definition to_lower (c : Ascii.ascii) : Ascii.ascii :=
  let n := Ascii.nat_of_ascii c in
  if decide (65 <= n <= 90)%nat then Ascii.ascii_of_nat (n + 32) else c.

Fixpoint to_lowercase (s : string) : string :=
  match s with EmptyString => EmptyString | String c s => String (to_lower c) (to_lowercase s) end.

(** [event_sidecar/src/rest_server/filters.rs:32-42], [FromStr for TransactionTypeIdFilter]. *)
Definition TransactionTypeIdFilter_from_str (s : string) : result string TransactionTypeId :=
  let l := to_lowercase s in
  if decide (l = "deploy") then Ok TT_Deploy
  else if decide (l = "version1") then Ok TT_Version1
  else Err ("Invalid transaction type id: " +:+ s).

(** ** Paths *)

Abbreviation Route := (RestRequest -> result Rejection RestResponse).

(** What a path selects: [warp::path!] matches a literal segment, or takes a segment
    as a parameter, and wants nothing to be left at the end. *)
Abbreviation Path := (list string -> option (result Rejection RestResponse)).

Definition lit (segment : string) (k : Path) : Path := fun segs =>
  match segs with
  | s :: rest => if decide (s = segment) then k rest else None
  | [] => None
  end.

Definition param {P} (parse : string -> option P) (k : P -> Path) : Path := fun segs =>
  match segs with
  | s :: rest => p ← parse s; k p rest
  | [] => None
  end.

Definition path_end (answer : result Rejection RestResponse) : Path := fun segs =>
  match segs with [] => Some answer | _ => None end.

(** [.and(warp::get()).and_then(handler)] behind a path. *)
Definition path_get (path : Path) : Route := fun r =>
  match path (segments r) with
  | None => Err not_found
  | Some answer => if decide (http_method r = "GET") then answer else Err [MethodNotAllowed]
  end.

(** [Filter::or]. *)
Definition or_else (f g : Route) : Route := fun r =>
  match f r with
  | Ok answer => Ok answer
  | Err e => match g r with Ok answer => Ok answer | Err e' => Err (e ++ e') end
  end.

(** A segment as a parameter: [String] takes any that is not empty, [u64] a number. *)
Definition param_string (segment : string) : option string :=
  if decide (segment = EmptyString) then None else Some segment.
Definition param_u64 : string -> option Z := parse_unsigned U64_MAX.
Definition param_type (segment : string) : option TransactionTypeId :=
  match TransactionTypeIdFilter_from_str segment with Ok ty => Some ty | Err _ => None end.

(** ** The handlers *)

Section Handlers.
Context (db : DatabaseReader).

(** [event_sidecar/src/rest_server/handlers.rs:13-18], [get_latest_block]. *)
Definition rest_latest_block : result Rejection RestResponse :=
  format_or_reject_storage_result DataEvent (rd_latest_block db).

(** [event_sidecar/src/rest_server/handlers.rs:20-27], [get_block_by_hash]. *)
Definition rest_block_by_hash (hash : string) : result Rejection RestResponse :=
  let? _ := check_hash_is_correct_format hash in
  format_or_reject_storage_result DataEvent (rd_block_by_hash db hash).

(** [event_sidecar/src/rest_server/handlers.rs:29-35], [get_block_by_height]. *)
Definition rest_block_by_height (height : Z) : result Rejection RestResponse :=
  format_or_reject_storage_result DataEvent (rd_block_by_height db height).

(** [event_sidecar/src/rest_server/handlers.rs:37-47], [get_transaction_by_identifier]. *)
Definition rest_transaction_by_identifier (ty : TransactionTypeId) (hash : string) : result Rejection RestResponse :=
  let? _ := check_hash_is_correct_format hash in
  format_or_reject_storage_result DataAggregate (rd_transaction_aggregate db ty hash).

(** [event_sidecar/src/rest_server/handlers.rs:49-59], [get_transaction_accepted_by_hash]. *)
Definition rest_transaction_accepted (ty : TransactionTypeId) (hash : string) : result Rejection RestResponse :=
  let? _ := check_hash_is_correct_format hash in
  format_or_reject_storage_result DataEvent (rd_transaction_accepted db ty hash).

(** [event_sidecar/src/rest_server/handlers.rs:61-71], [get_transaction_processed_by_hash]. *)
Definition rest_transaction_processed (ty : TransactionTypeId) (hash : string) : result Rejection RestResponse :=
  let? _ := check_hash_is_correct_format hash in
  format_or_reject_storage_result DataEvent (rd_transaction_processed db ty hash).

(** [event_sidecar/src/rest_server/handlers.rs:73-83], [get_transaction_expired_by_hash]. *)
Definition rest_transaction_expired (ty : TransactionTypeId) (hash : string) : result Rejection RestResponse :=
  let? _ := check_hash_is_correct_format hash in
  format_or_reject_storage_result DataEvent (rd_transaction_expired db ty hash).

(** [event_sidecar/src/rest_server/handlers.rs:85-91], [get_step_by_era]. *)
Definition rest_step_by_era (era_id : Z) : result Rejection RestResponse :=
  format_or_reject_storage_result DataEvent (rd_step db era_id).

(** [event_sidecar/src/rest_server/handlers.rs:93-100], [get_faults_by_public_key]. *)
Definition rest_faults_by_public_key (public_key : string) : result Rejection RestResponse :=
  let? _ := check_public_key_is_correct_format public_key in
  format_or_reject_storage_result DataEvents (rd_faults_by_public_key db public_key).

(** [event_sidecar/src/rest_server/handlers.rs:102-108], [get_faults_by_era]. *)
Definition rest_faults_by_era (era : Z) : result Rejection RestResponse :=
  format_or_reject_storage_result DataEvents (rd_faults_by_era db era).

(** [event_sidecar/src/rest_server/handlers.rs:110-117], [get_finality_signatures_by_block]. *)
Definition rest_finality_signatures (block_hash : string) : result Rejection RestResponse :=
  let? _ := check_hash_is_correct_format block_hash in
  format_or_reject_storage_result DataSignatures (rd_finality_signatures db block_hash).

(** ** The routes *)

(** [event_sidecar/src/utils.rs:102-110], [root_filter]. *)
Definition root_filter : Route := fun r =>
  match segments r with [] => Err [InvalidPath] | _ => Err not_found end.

(** [event_sidecar/src/rest_server/filters.rs:63-71], [root_and_invalid_path]: the
    first segment is taken, whatever follows. *)
Definition root_and_invalid_path : Route := fun r =>
  match segments r with
  | segment :: _ => match param_string segment with Some _ => Err [InvalidPath] | None => Err not_found end
  | [] => Err not_found
  end.

(** [event_sidecar/src/rest_server/filters.rs:108-115], [latest_block]. *)
Definition latest_block : Route :=
  path_get (lit "block" (path_end rest_latest_block)).

(** [event_sidecar/src/rest_server/filters.rs:132-139], [block_by_hash]. *)
Definition block_by_hash : Route :=
  path_get (lit "block" (param param_string (fun hash => path_end (rest_block_by_hash hash)))).

(** [event_sidecar/src/rest_server/filters.rs:156-163], [block_by_height]. *)
Definition block_by_height : Route :=
  path_get (lit "block" (param param_u64 (fun height => path_end (rest_block_by_height height)))).

(** [event_sidecar/src/rest_server/filters.rs:73-82], [block_filters]. *)
Definition block_filters : Route := or_else (or_else latest_block block_by_hash) block_by_height.

(** A transaction type and a hash. *)
Definition type_and_hash (handler : TransactionTypeId -> string -> result Rejection RestResponse) : Path :=
  param param_type (fun ty => param param_string (fun hash => path_end (handler ty hash))).

(** [event_sidecar/src/rest_server/filters.rs:181-188], [transaction_by_hash]. *)
Definition transaction_by_hash : Route :=
  path_get (lit "transaction" (type_and_hash rest_transaction_by_identifier)).

(** [event_sidecar/src/rest_server/filters.rs:205-212], [transaction_accepted_by_hash]. *)
Definition transaction_accepted_by_hash : Route :=
  path_get (lit "transaction" (lit "accepted" (type_and_hash rest_transaction_accepted))).

(** [event_sidecar/src/rest_server/filters.rs:229-236], [transaction_expired_by_hash]. *)
Definition transaction_expired_by_hash : Route :=
  path_get (lit "transaction" (lit "expired" (type_and_hash rest_transaction_expired))).

(** [event_sidecar/src/rest_server/filters.rs:253-260], [transaction_processed_by_hash]. *)
Definition transaction_processed_by_hash : Route :=
  path_get (lit "transaction" (lit "processed" (type_and_hash rest_transaction_processed))).

(** [event_sidecar/src/rest_server/filters.rs:84-94], [transaction_filters]. *)
Definition transaction_filters : Route :=
  or_else (or_else (or_else transaction_by_hash transaction_accepted_by_hash) transaction_processed_by_hash)
    transaction_expired_by_hash.

(** [event_sidecar/src/rest_server/filters.rs:277-284], [faults_by_public_key]. *)
Definition faults_by_public_key : Route :=
  path_get (lit "faults" (param param_string (fun key => path_end (rest_faults_by_public_key key)))).

(** [event_sidecar/src/rest_server/filters.rs:301-308], [faults_by_era]. *)
Definition faults_by_era : Route :=
  path_get (lit "faults" (param param_u64 (fun era => path_end (rest_faults_by_era era)))).

(** [event_sidecar/src/rest_server/filters.rs:325-332], [finality_signatures_by_block]. *)
Definition finality_signatures_by_block : Route :=
  path_get (lit "signatures" (param param_string (fun hash => path_end (rest_finality_signatures hash)))).

(** [event_sidecar/src/rest_server/filters.rs:349-356], [step_by_era]. *)
Definition step_by_era : Route :=
  path_get (lit "step" (param param_u64 (fun era => path_end (rest_step_by_era era)))).

(** The version of the sidecar. *)
Context (SIDECAR_VERSION : ProtocolVersion).

(** [event_sidecar/src/rest_server/status.rs:12-22], [status_filters], with [get_status]. *)
Definition status_filters : Route :=
  path_get (lit "status" (path_end (Ok (mkRestResponse 200 (DataStatus SIDECAR_VERSION))))).

(** [event_sidecar/src/rest_server/openapi.rs:102-104], the filter of [build_open_api_filters];
    the document itself is fixed. *)
Definition build_open_api_filters : Route :=
  path_get (lit "api-doc.json" (fun _ => Some (Ok (mkRestResponse 200 DataApiDoc)))).

(** The text [warp] prints for a rejection. *)
Context (debug : Rejection -> string).

(** The alternatives of [combined_filters]. *)
Definition alternatives : Route :=
  or_else (or_else (or_else (or_else (or_else (or_else (or_else (or_else (or_else
    root_filter root_and_invalid_path) block_filters) transaction_filters) step_by_era) faults_by_public_key)
    faults_by_era) finality_signatures_by_block) build_open_api_filters) status_filters.

(** [event_sidecar/src/rest_server/filters.rs:44-61], [combined_filters]. *)
Definition combined_filters (r : RestRequest) : RestResponse :=
  match alternatives r with
  | Ok answer => answer
  | Err e => handle_rejection debug e
  end.

End Handlers.

(** ** Metrics *)

Definition slash : Ascii.ascii := Ascii.ascii_of_nat 47.

(** [event_sidecar/src/rest_server.rs:51-85], [path_abstraction_for_metrics]. *)
Definition path_abstraction_for_metrics (path : string) : string :=
  match List.filter (fun el => negb (String.eqb el EmptyString)) (split_on slash path) with
  | [] => "unknown"
  | first :: rest =>
      if decide (first = "block") then "/block/(...)"
      else if decide (first = "step") then "/step/(...)"
      else if decide (first = "faults") then "/faults/(...)"
      else if decide (first = "signatures") then "/signatures/(...)"
      else
        match bool_decide (first = "transaction"), rest with
        | true, [_; _] => "/transaction/(...)"
        | true, [kind; _; _] => "/transaction/" +:+ kind +:+ "/(...)"
        | _, _ => if decide (first = "status") then "/status" else "unknown"
        end
  end.

(** The gauge of connected clients and the observed response times, by category
    and status. *)
Record Metrics := mkMetrics {
  connected_clients : Z;
  observed : list (string * string);
}.

(** [event_sidecar/src/rest_server/metrics_layer.rs:66-77], [MetricsFuture]: whether
    the end of the request was observed, and the category. *)
Record MetricsFuture := mkMetricsFuture {
  connection_end_observed : bool;
  metrics_category : string;
}.

(** [event_sidecar/src/rest_server/metrics_layer.rs:93-102], [MetricsFuture::new]. *)
Definition MetricsFuture_new (category : string) (m : Metrics) : MetricsFuture * Metrics :=
  (mkMetricsFuture false category, mkMetrics (connected_clients m + 1) (observed m)).

(** The end of a request, observed under a status the first time. *)
Definition observe (status : string) (f : MetricsFuture) (m : Metrics) : MetricsFuture * Metrics :=
  if connection_end_observed f then (f, m)
  else (mkMetricsFuture true (metrics_category f),
        mkMetrics (connected_clients m - 1) (observed m ++ [(metrics_category f, status)])).

(** [event_sidecar/src/rest_server/metrics_layer.rs:104-115], [MetricsFuture::observe_end],
    which [drop] calls. *)
Definition observe_end (f : MetricsFuture) (m : Metrics) : MetricsFuture * Metrics :=
  observe "disconnected" f m.

(** [event_sidecar/src/rest_server/metrics_layer.rs:124-142], [MetricsFuture::poll]:
    [inner] is the outcome of polling the service, if it is ready. *)
Definition poll (inner : option (result unit Z)) (f : MetricsFuture) (m : Metrics) : MetricsFuture * Metrics :=
  match inner with
  | None => (f, m)
  | Some (Ok status) => observe (pretty status) f m
  | Some (Err _) => observe "error" f m
  end.

(** [event_sidecar/src/rest_server/metrics_layer.rs:59-63], [MetricsService::call]. *)
Definition metrics_call (path : string) (m : Metrics) : MetricsFuture * Metrics :=
  MetricsFuture_new (path_abstraction_for_metrics path) m.

(** What happens to the requests of the server, in any order: one arrives, the
    future of one is polled, or it is dropped, at the end or earlier. *)
Inductive RequestEvent :=
| Arrives (path : string)
| Polled (i : nat) (inner : option (result unit Z))
| Dropped (i : nat).

(** The futures that are alive, by the order of arrival, and the metrics. *)
Definition request_event (e : RequestEvent) (st : list (option MetricsFuture) * Metrics)
    : list (option MetricsFuture) * Metrics :=
  let (futures, m) := st in
  match e with
  | Arrives path => let (f, m) := metrics_call path m in (futures ++ [Some f], m)
  | Polled i inner =>
      match futures !! i with
      | Some (Some f) => let (f, m) := poll inner f m in (<[i := Some f]> futures, m)
      | _ => (futures, m)
      end
  | Dropped i =>
      match futures !! i with
      | Some (Some f) => (<[i := None]> futures, (observe_end f m).2)
      | _ => (futures, m)
      end
  end.

Definition request_events (es : list RequestEvent) (st : list (option MetricsFuture) * Metrics) :=
  foldl (fun st e => request_event e st) st es.

(** ** What is answered *)

Section Answers.
Context (db : DatabaseReader) (version : ProtocolVersion) (debug : Rejection -> string).

(** The answer to a query of the database. *)
Definition storage_answer {T} (data : T -> Data) (res : result DatabaseReadError T) : RestResponse :=
  match res with
  | Ok d => mkRestResponse 200 (data d)
  | Err e =>
      let (code, message) := status_code_and_err_message_for_read_error e in
      mkRestResponse code (DataError code message)
  end.

Definition invalid_path_answer : RestResponse :=
  mkRestResponse 400 (DataError 400 "Invalid request path provided").

(** The rejections of the routes hold no unexpected error. *)
Definition expected (res : result Rejection RestResponse) : Prop :=
  match res with Ok a => rest_status a = 200 | Err e => find_cause as_unexpected e = None end.

Lemma find_cause_app {A} (f : Cause -> option A) (e e' : Rejection) :
  find_cause f (e ++ e') = match find_cause f e with Some a => Some a | None => find_cause f e' end.
Proof. induction e as [|c e IH]; simpl; [done|]. by destruct (f c). Qed.

Lemma expected_or (f g : Route) (r : RestRequest) :
  expected (f r) -> expected (g r) -> expected (or_else f g r).
Proof.
  unfold or_else. destruct (f r) as [a|e]; [done|]. destruct (g r) as [a|e']; [done|]. simpl.
  intros He He'. by rewrite find_cause_app, He.
Qed.

Lemma expected_format {T} (data : T -> Data) (res : result DatabaseReadError T) :
  expected (format_or_reject_storage_result data res).
Proof. by destruct res. Qed.

Lemma expected_hash (hash : string) (k : result Rejection RestResponse) :
  expected k -> expected (let? _ := check_hash_is_correct_format hash in k).
Proof. unfold check_hash_is_correct_format. by destruct (_ && _). Qed.

Lemma expected_key (key : string) (k : result Rejection RestResponse) :
  expected k -> expected (let? _ := check_public_key_is_correct_format key in k).
Proof. unfold check_public_key_is_correct_format. by destruct (_ && _). Qed.

(** A path that selects answers that hold no unexpected error. *)
Definition expected_path (path : Path) : Prop :=
  forall segs answer, path segs = Some answer -> expected answer.

Lemma expected_lit (segment : string) (k : Path) : expected_path k -> expected_path (lit segment k).
Proof. intros Hk [|s segs] answer; simpl; [done|]. case_decide; [apply Hk|done]. Qed.

Lemma expected_param {P} (parse : string -> option P) (k : P -> Path) :
  (forall p, expected_path (k p)) -> expected_path (param parse k).
Proof. intros Hk [|s segs] answer; simpl; [done|]. destruct (parse s); simpl; [apply Hk|done]. Qed.

Lemma expected_end (answer : result Rejection RestResponse) : expected answer -> expected_path (path_end answer).
Proof. intros Ha [|s segs] answer'; simpl; [by intros [= <-]|done]. Qed.

Lemma expected_get (path : Path) (r : RestRequest) : expected_path path -> expected (path_get path r).
Proof.
  intros Hp. unfold path_get. destruct (path (segments r)) as [a|] eqn:Ha; [|done].
  case_decide; [by eapply Hp|done].
Qed.

Lemma expected_alternatives (r : RestRequest) : expected (alternatives db version r).
Proof.
  unfold alternatives, block_filters, transaction_filters.
  repeat apply expected_or;
    try (apply expected_get; repeat first [apply expected_lit|apply expected_param; intros ?|apply expected_end];
         first [done|apply expected_format|apply expected_hash, expected_format|apply expected_key, expected_format]).
  - unfold root_filter. by destruct (segments r).
  - unfold root_and_invalid_path. destruct (segments r); [done|]. by destruct (param_string _).
  - apply expected_get, expected_lit. intros segs answer [= <-]. done.
Qed.

(** A rejection of the first alternative stays. *)
Lemma or_else_invalid_path (f g : Route) (r : RestRequest) :
  (forall e, f r = Err e -> find_cause as_invalid_path e = Some tt) ->
  forall e, or_else f g r = Err e -> find_cause as_invalid_path e = Some tt.
Proof.
  intros Hf e. unfold or_else. destruct (f r) as [|e1]; [done|]. destruct (g r); [done|]. intros [= <-].
  by rewrite find_cause_app, (Hf e1).
Qed.

(** Every rejection of a request has an invalid path, unless its path starts with
    an empty segment. *)
Lemma rejected (r : RestRequest) (e : Rejection) :
  alternatives db version r = Err e ->
  find_cause as_invalid_path e = Some tt \/ e = [] /\ exists rest, segments r = EmptyString :: rest.
Proof.
  intros He. destruct (decide (head (segments r) = Some EmptyString)) as [Hh|Hh].
  - right. destruct (segments r) as [|s rest] eqn:Hs; [done|]. injection Hh as ->. split; [|by eexists].
    unfold alternatives, block_filters, transaction_filters, or_else, root_filter, root_and_invalid_path, latest_block,
      block_by_hash, block_by_height, transaction_by_hash, transaction_accepted_by_hash,
      transaction_processed_by_hash, transaction_expired_by_hash, step_by_era, faults_by_public_key, faults_by_era,
      finality_signatures_by_block, build_open_api_filters, status_filters, path_get in He.
    rewrite Hs in He. cbn in He. by injection He as <-.
  - left. revert e He. do 8 apply or_else_invalid_path.
    intros e. unfold or_else, root_filter, root_and_invalid_path, param_string.
    destruct (segments r) as [|s rest]; [by intros [= <-]|]. simpl in Hh.
    rewrite decide_False by congruence. by intros [= <-].
Qed.

(** C35. The kinds of answers the REST server gives, whatever the request and the
    database: data with status 200; the error of a query; status 400 with the one
    message [Invalid request path provided]; and, for a path that starts with an
    empty segment only, status 500.  In particular a malformed parameter is
    answered like an unknown path: the text that explains it is never sent. *)
Theorem rest_answer_kinds (r : RestRequest) :
  let answer := combined_filters db version debug r in
  rest_status answer = 200 \/
  (exists e, answer = storage_answer DataEvent (Err e)) \/
  answer = invalid_path_answer \/
  (exists rest, segments r = EmptyString :: rest) /\ rest_status answer = 500.
Proof.
  simpl. unfold combined_filters. pose proof (expected_alternatives r) as Hx.
  destruct (alternatives db version r) as [a|e] eqn:Ha; [by left|]. right.
  unfold handle_rejection. simpl in Hx. rewrite Hx.
  destruct (find_cause as_storage e) as [err|].
  - left. exists err. unfold storage_answer. by destruct (status_code_and_err_message_for_read_error err).
  - right. destruct (rejected r e Ha) as [-> | [-> Hr]]; [by left|]. by right.
Qed.

(** An alternative for another path. *)
Lemma or_else_skip (f g : Route) (r : RestRequest) : g r = Err not_found -> or_else f g r = f r.
Proof. unfold or_else. intros ->. destruct (f r); [done|]. by rewrite app_nil_r. Qed.

Lemma or_else_first (f g : Route) (r : RestRequest) : f r = Err not_found -> or_else f g r = g r.
Proof. unfold or_else. intros ->. by destruct (g r). Qed.

(** What is tried for a path is tried after the rejection of [root_and_invalid_path]. *)
Definition behind_root (res : result Rejection RestResponse) : result Rejection RestResponse :=
  match res with Ok a => Ok a | Err e => Err (InvalidPath :: e) end.

Lemma block_alternatives (method : string) (rest : list string) :
  let r := mkRestRequest method ("block" :: rest) in
  alternatives db version r = behind_root (block_filters db r).
Proof. simpl. unfold alternatives. do 7 rewrite or_else_skip by done. done. Qed.

Lemma transaction_alternatives (method : string) (rest : list string) :
  let r := mkRestRequest method ("transaction" :: rest) in
  alternatives db version r = behind_root (transaction_filters db r).
Proof.
  simpl. unfold alternatives. do 6 rewrite or_else_skip by done. unfold or_else at 1.
  by rewrite (or_else_skip _ (block_filters db)).
Qed.

Lemma faults_alternatives (method : string) (rest : list string) :
  let r := mkRestRequest method ("faults" :: rest) in
  alternatives db version r = behind_root (or_else (faults_by_public_key db) (faults_by_era db) r).
Proof.
  simpl. unfold alternatives. do 3 rewrite or_else_skip by done. unfold or_else at 1 2.
  do 3 rewrite or_else_skip by done. unfold behind_root, or_else.
  destruct (faults_by_public_key db _); simpl; [done|]. by destruct (faults_by_era db _).
Qed.

Lemma signatures_alternatives (method : string) (rest : list string) :
  let r := mkRestRequest method ("signatures" :: rest) in
  alternatives db version r = behind_root (finality_signatures_by_block db r).
Proof.
  simpl. unfold alternatives. do 2 rewrite or_else_skip by done. unfold or_else at 1.
  by do 5 rewrite or_else_skip by done.
Qed.

Lemma step_alternatives (method : string) (rest : list string) :
  let r := mkRestRequest method ("step" :: rest) in
  alternatives db version r = behind_root (step_by_era db r).
Proof.
  simpl. unfold alternatives. do 5 rewrite or_else_skip by done. unfold or_else at 1.
  by do 2 rewrite or_else_skip by done.
Qed.

Lemma path_get_GET (path : Path) (segs : list string) :
  path_get path (mkRestRequest "GET" segs) = default (Err not_found) (path segs).
Proof. unfold path_get. simpl. by destruct (path segs). Qed.

Lemma lit_here (s : string) (k : Path) (segs : list string) : lit s k (s :: segs) = k segs.
Proof. unfold lit. by rewrite decide_True. Qed.

Lemma param_string_or (x : string) : param_string x = Some x \/ x = EmptyString /\ param_string x = None.
Proof. unfold param_string. case_decide; [by right|by left]. Qed.

(** A query by hash or key whose digits, with leading zeros, are also a number: the
    number is looked up where the query fails. *)
Definition or_number {T} (data : T -> Data) (res : result DatabaseReadError T)
    (other : option (result DatabaseReadError T)) : RestResponse :=
  match res, other with
  | Err _, Some (Ok d) => storage_answer data (Ok d)
  | _, _ => storage_answer data res
  end.

(** The answer of [combined_filters], from that of the filters of the path. *)
Definition answer_of (res : result Rejection RestResponse) : RestResponse :=
  match behind_root res with Ok answer => answer | Err e => handle_rejection debug e end.

Lemma combined_behind (r : RestRequest) (res : result Rejection RestResponse) :
  alternatives db version r = behind_root res -> combined_filters db version debug r = answer_of res.
Proof. unfold combined_filters, answer_of. by intros ->. Qed.

(** A check of a parameter that fails with a text only, and fails on nothing. *)
Definition checks_param (check : string -> result Rejection unit) : Prop :=
  is_ok (check EmptyString) = false /\
  forall x, is_ok (check x) = false -> exists msg, check x = Err [InvalidParam msg].

Lemma hash_checks_param : checks_param check_hash_is_correct_format.
Proof. split; [done|]. unfold check_hash_is_correct_format. intros x. destruct (_ && _); [done|eauto]. Qed.

Lemma key_checks_param : checks_param check_public_key_is_correct_format.
Proof. split; [done|]. unfold check_public_key_is_correct_format. intros x. destruct (_ && _); [done|eauto]. Qed.

Section Parameters.
Context {T : Type} (data : T -> Data) (check : string -> result Rejection unit) (Hcheck : checks_param check).
Context (query : string -> result DatabaseReadError T) (number : Z -> result DatabaseReadError T).

Definition checked_route (s : string) : Route :=
  path_get (lit s (param param_string (fun x => path_end
    (let? _ := check x in format_or_reject_storage_result data (query x))))).

Definition number_route (s : string) : Route :=
  path_get (lit s (param param_u64 (fun x => path_end (format_or_reject_storage_result data (number x))))).

Lemma checked_route_get (s x : string) :
  checked_route s (mkRestRequest "GET" [s; x]) =
  if is_ok (check x) then format_or_reject_storage_result data (query x)
  else from_option (fun x => let? _ := check x in Err not_found) (Err not_found) (param_string x).
Proof using Hcheck.
  destruct Hcheck as [Hempty Hfails]. unfold checked_route. rewrite path_get_GET, lit_here. unfold param.
  destruct (param_string_or x) as [-> | [-> ->]]; simpl; [|by rewrite Hempty].
  destruct (is_ok (check x)) eqn:Hx; [by destruct (check x) as [[]|]|]. by destruct (Hfails x Hx) as [msg ->].
Qed.

Lemma number_route_get (s x : string) :
  number_route s (mkRestRequest "GET" [s; x]) =
  from_option (fun n => format_or_reject_storage_result data (number n)) (Err not_found) (param_u64 x).
Proof. unfold number_route. rewrite path_get_GET, lit_here. unfold param. by destruct (param_u64 x). Qed.

Lemma answer_checked (s x : string) :
  answer_of (checked_route s (mkRestRequest "GET" [s; x])) =
  if is_ok (check x) then storage_answer data (query x) else invalid_path_answer.
Proof using Hcheck.
  rewrite checked_route_get. destruct (is_ok (check x)) eqn:Hx; [by destruct (query x) as [|[]]|].
  destruct (proj2 Hcheck x Hx) as [msg Hm].
  destruct (param_string_or x) as [-> | [-> ->]]; simpl; [by rewrite Hm|done].
Qed.

Lemma answer_number (s x : string) :
  answer_of (number_route s (mkRestRequest "GET" [s; x])) =
  from_option (fun n => storage_answer data (number n)) invalid_path_answer (param_u64 x).
Proof. rewrite number_route_get. destruct (param_u64 x) as [n|]; [|done]. simpl. by destruct (number n) as [|[]]. Qed.

Lemma answer_checked_or_number (s x : string) :
  answer_of (or_else (checked_route s) (number_route s) (mkRestRequest "GET" [s; x])) =
  if is_ok (check x) then or_number data (query x) (number <$> param_u64 x)
  else from_option (fun n => storage_answer data (number n)) invalid_path_answer (param_u64 x).
Proof using Hcheck.
  unfold or_else. rewrite checked_route_get, number_route_get. destruct (is_ok (check x)) eqn:Hx.
  - destruct (query x) as [|[]]; [done|..]; destruct (param_u64 x) as [n|]; try done; simpl;
      by destruct (number n) as [|[]].
  - destruct (proj2 Hcheck x Hx) as [msg Hm].
    destruct (param_string_or x) as [-> | [-> ->]]; simpl; [rewrite Hm|];
      try done; (destruct (param_u64 x) as [n|]; [|done]); simpl; by destruct (number n) as [|[]].
Qed.

End Parameters.

Lemma block_filters_param (method x : string) :
  let r := mkRestRequest method ["block"; x] in
  block_filters db r = or_else (block_by_hash db) (block_by_height db) r.
Proof. simpl. unfold block_filters, or_else at 1. by rewrite or_else_first. Qed.

(** The answer about a transaction of a type, with a hash. *)
Definition transaction_answer {T} (data : T -> Data) (query : TransactionTypeId -> string -> result DatabaseReadError T)
    (ty x : string) : RestResponse :=
  match param_type ty with
  | Some t => if is_ok (check_hash_is_correct_format x) then storage_answer data (query t x) else invalid_path_answer
  | None => invalid_path_answer
  end.

Definition typed_handler {T} (data : T -> Data) (query : TransactionTypeId -> string -> result DatabaseReadError T)
    (ty : TransactionTypeId) (hash : string) : result Rejection RestResponse :=
  let? _ := check_hash_is_correct_format hash in format_or_reject_storage_result data (query ty hash).

Lemma answer_typed {T} (data : T -> Data) query (ty x : string) :
  answer_of (default (Err not_found) (type_and_hash (typed_handler data query) [ty; x])) =
  transaction_answer data query ty x.
Proof.
  unfold type_and_hash, param, transaction_answer, typed_handler. destruct (param_type ty) as [t|]; [|done]. simpl.
  destruct (param_string_or x) as [-> | [-> ->]]; simpl; [|done].
  destruct (is_ok (check_hash_is_correct_format x)) eqn:Hx; [|by destruct (proj2 hash_checks_param x Hx) as [msg ->]].
  destruct (check_hash_is_correct_format x) as [[]|]; [|done]. simpl. by destruct (query t x) as [|[]].
Qed.

(** A path of a kind of transaction events needs a type and a hash behind the kind. *)
Lemma kind_needs_two (kind ty x : string) (k : TransactionTypeId -> string -> result Rejection RestResponse) :
  lit kind (type_and_hash k) [ty; x] = None.
Proof. unfold lit. case_decide; [|done]. unfold type_and_hash, param. by destruct (param_type x). Qed.

(** The routes of transactions, in full: the aggregate of a transaction, and its
    acceptance, processing and expiry, are looked up by the type of the
    transaction, in letters of any case, and a hash of 64 hexadecimal digits;
    any other type or hash gives 400. *)
Theorem rest_transactions (ty x : string) :
  let get segs := combined_filters db version debug (mkRestRequest "GET" segs) in
  get ["transaction"; ty; x] = transaction_answer DataAggregate (rd_transaction_aggregate db) ty x /\
  get ["transaction"; "accepted"; ty; x] = transaction_answer DataEvent (rd_transaction_accepted db) ty x /\
  get ["transaction"; "processed"; ty; x] = transaction_answer DataEvent (rd_transaction_processed db) ty x /\
  get ["transaction"; "expired"; ty; x] = transaction_answer DataEvent (rd_transaction_expired db) ty x.
Proof.
  simpl. rewrite !(combined_behind _ _ (transaction_alternatives _ _)), <-!answer_typed.
  unfold transaction_filters, or_else, transaction_by_hash, transaction_accepted_by_hash,
    transaction_processed_by_hash, transaction_expired_by_hash.
  rewrite !path_get_GET, !lit_here, !kind_needs_two. split_and!; simpl.
  all: f_equal; unfold rest_transaction_by_identifier, rest_transaction_accepted, rest_transaction_processed,
         rest_transaction_expired, typed_handler;
       match goal with |- _ = ?b => by destruct b as [|e]; simpl; rewrite ?app_nil_r end.
Qed.

Lemma block_param_answer (x : string) :
  combined_filters db version debug (mkRestRequest "GET" ["block"; x]) =
  if is_ok (check_hash_is_correct_format x)
  then or_number DataEvent (rd_block_by_hash db x) (rd_block_by_height db <$> param_u64 x)
  else from_option (fun h => storage_answer DataEvent (rd_block_by_height db h)) invalid_path_answer (param_u64 x).
Proof.
  rewrite (combined_behind _ _ (block_alternatives _ _)), block_filters_param.
  apply (answer_checked_or_number DataEvent _ hash_checks_param (rd_block_by_hash db) (rd_block_by_height db) "block" x).
Qed.

Lemma step_param_answer (x : string) :
  combined_filters db version debug (mkRestRequest "GET" ["step"; x]) =
  from_option (fun era => storage_answer DataEvent (rd_step db era)) invalid_path_answer (param_u64 x).
Proof. rewrite (combined_behind _ _ (step_alternatives _ _)). apply (answer_number DataEvent (rd_step db) "step" x). Qed.

Lemma signatures_param_answer (x : string) :
  combined_filters db version debug (mkRestRequest "GET" ["signatures"; x]) =
  if is_ok (check_hash_is_correct_format x) then storage_answer DataSignatures (rd_finality_signatures db x)
  else invalid_path_answer.
Proof.
  rewrite (combined_behind _ _ (signatures_alternatives _ _)).
  apply (answer_checked DataSignatures _ hash_checks_param (rd_finality_signatures db) "signatures" x).
Qed.

Lemma faults_param_answer (x : string) :
  combined_filters db version debug (mkRestRequest "GET" ["faults"; x]) =
  if is_ok (check_public_key_is_correct_format x)
  then or_number DataEvents (rd_faults_by_public_key db x) (rd_faults_by_era db <$> param_u64 x)
  else from_option (fun era => storage_answer DataEvents (rd_faults_by_era db era)) invalid_path_answer (param_u64 x).
Proof.
  rewrite (combined_behind _ _ (faults_alternatives _ _)).
  apply (answer_checked_or_number DataEvents _ key_checks_param (rd_faults_by_public_key db)
    (rd_faults_by_era db) "faults" x).
Qed.

(** C17. The routes of blocks, signatures, faults and steps, in full: [block/x] is the
    block with hash [x] if [x] is 64 hexadecimal digits, and else the block at
    height [x] if [x] is a number; likewise [faults/x] for a public key of 66 or
    68 digits or an era.  Where a hash or key is not on record the answer is the
    error of its query, unless its digits are also a number of 64 bits, which is
    then looked up; an [x] of neither form gives 400. *)
Theorem rest_lookup (x : string) :
  let get segs := combined_filters db version debug (mkRestRequest "GET" segs) in
  get ["block"] = storage_answer DataEvent (rd_latest_block db) /\
  (if is_ok (check_hash_is_correct_format x) then
     get ["block"; x] = or_number DataEvent (rd_block_by_hash db x) (rd_block_by_height db <$> param_u64 x) /\
     get ["signatures"; x] = storage_answer DataSignatures (rd_finality_signatures db x)
   else
     get ["block"; x] = from_option (fun h => storage_answer DataEvent (rd_block_by_height db h))
                          invalid_path_answer (param_u64 x) /\
     get ["signatures"; x] = invalid_path_answer) /\
  (if is_ok (check_public_key_is_correct_format x) then
     get ["faults"; x] = or_number DataEvents (rd_faults_by_public_key db x) (rd_faults_by_era db <$> param_u64 x)
   else
     get ["faults"; x] = from_option (fun era => storage_answer DataEvents (rd_faults_by_era db era))
                           invalid_path_answer (param_u64 x)) /\
  get ["step"; x] = from_option (fun era => storage_answer DataEvent (rd_step db era))
                      invalid_path_answer (param_u64 x).
Proof.
  simpl. rewrite block_param_answer, step_param_answer, signatures_param_answer, faults_param_answer,
    (combined_behind _ _ (block_alternatives _ _)).
  split_and!; [|by destruct (is_ok _)..|done].
  unfold block_filters, or_else, latest_block. rewrite path_get_GET. unfold rest_latest_block, answer_of. simpl.
  by destruct (rd_latest_block db) as [|[]].
Qed.

End Answers.

(** ** What is measured *)

(** A request that is not answered yet. *)
Definition in_flight (f : option MetricsFuture) : nat :=
  match f with Some f => if connection_end_observed f then 0%nat else 1%nat | None => 0%nat end.

Definition arrivals (es : list RequestEvent) : nat :=
  weight (fun e => match e with Arrives _ => 1 | _ => 0 end)%nat es.

(** The measured state: the gauge counts the requests in flight, and every request
    that arrived is in flight or observed. *)
Definition measured (n : nat) (st : list (option MetricsFuture) * Metrics) : Prop :=
  connected_clients st.2 = Z.of_nat (weight in_flight st.1) /\ (weight in_flight st.1 + length (observed st.2) = n)%nat.

Lemma observed_step (futures : list (option MetricsFuture)) (i : nat) (f : MetricsFuture) (g : option MetricsFuture)
    (status : string) (m : Metrics) (n : nat) :
  futures !! i = Some (Some f) -> in_flight g = 0%nat ->
  measured n (futures, m) -> measured n (<[i := g]> futures, (observe status f m).2).
Proof.
  intros Hi Hg [H1 H2]. pose proof (weight_insert in_flight futures i g (Some f) Hi) as Hw.
  unfold measured, observe in *. simpl in *. rewrite Hg in Hw.
  destruct (connection_end_observed f); simpl; [split; lia|]. rewrite length_app. simpl. split; lia.
Qed.

Lemma measured_event (n : nat) (e : RequestEvent) (st : list (option MetricsFuture) * Metrics) :
  measured n st -> measured (n + arrivals [e]) (request_event e st).
Proof.
  destruct st as [futures m]. intros Hm. destruct e as [path|i inner|i]; unfold arrivals, weight; simpl.
  - destruct Hm as [H1 H2]. unfold measured in *. simpl in *. rewrite weight_app. unfold weight at 2 4. simpl. lia.
  - rewrite Nat.add_0_r. destruct (futures !! i) as [[f|]|] eqn:Hi; try done. unfold poll.
    assert (in_flight (Some (observe EmptyString f m).1) = 0%nat) as Hf.
    { unfold observe. by destruct f as [[] ?]. }
    destruct inner as [[status|]|].
    + rewrite (surjective_pairing (observe _ _ _)). apply (observed_step _ i f); try done.
      unfold observe in *. by destruct (connection_end_observed f).
    + rewrite (surjective_pairing (observe _ _ _)). apply (observed_step _ i f); try done.
      unfold observe in *. by destruct (connection_end_observed f).
    + by rewrite list_insert_id.
  - rewrite Nat.add_0_r. destruct (futures !! i) as [[f|]|] eqn:Hi; try done. by apply (observed_step _ i f).
Qed.

(** The metrics of the REST server balance: however the requests interleave, and
    however early their connections drop, the gauge of connected clients is the
    number of requests in flight, and each request that left was observed exactly
    once. *)
Theorem metrics_balanced (es : list RequestEvent) :
  let (futures, m) := request_events es ([], mkMetrics 0 []) in
  connected_clients m = Z.of_nat (weight in_flight futures) /\
  (weight in_flight futures + length (observed m) = arrivals es)%nat.
Proof.
  assert (measured (arrivals es) (request_events es ([], mkMetrics 0 []))) as Hm.
  { induction es as [|e es IH] using rev_ind; [done|].
    unfold request_events in *. rewrite foldl_app. simpl. unfold arrivals. rewrite weight_app.
    by apply measured_event. }
  by destruct (request_events es _).
Qed.
