(* ===== verification/EndToEnd.v ===== *)
(** * From the nodes' events to the answers of the REST server

    The event loop of [EventHandling.v] writes the store that the readers of
    [Reader.v] read for the REST server of [RestServer.v]: what the server answers
    is determined by the events the loop passed on. *)

From S2P Require Import Prelude SseData ConnectionManager Sql Storage Reader Migrations EventHandling RestServer.

(** ** What the loop leaves in the store *)

(** The events of the nodes, with their origin. *)
Definition with_origins (items : list Incoming) : Saved :=
  (fun it => (incoming_data it, origin it.2)) <$> items.

(** The events of entities. *)
Definition is_entity (d : SseData) : bool := match identity d with Some _ => true | None => false end.

Definition entities (l : list SseData) : list SseData := base.filter (fun d => is_entity d = true) l.

Section Store.
Context `{AutoIncrement} (json : SseData -> result string string).

Lemma save_with_fails (env : WriteEnv) (ty : EventTypeId) (o : Origin) (js : result string string) (key : string)
    (stmts : string -> Z -> list (string * Row)) (db : Database) :
  let out := save_with env ty o js key stmts db in
  (exists n, out.1 = Some (Ok n)) \/ out.2 = db.
Proof.
  simpl. unfold save_with. destruct (fails_at env Begin); [by right|]. destruct js as [raw|]; [|by right].
  destruct (save_event_log env ty o key db) as [[id db1]|]; [|by right].
  destruct (guarded _ _ _) as [db2|]; [|by right]. destruct (fails_at env Commit); [by right|left; by eexists].
Qed.

Lemma save_fails (env : WriteEnv) (d : SseData) (o : Origin) (db : Database) :
  (exists n, (save env d o db).1 = Some (Ok n)) \/ (save env d o db).2 = db.
Proof. destruct d; simpl; try apply save_with_fails; by right. Qed.

(** The row of a shutdown is in a table of its own. *)
Lemma represents_shutdown (env : WriteEnv) (o : Origin) (db : Database) (s : Saved) :
  represents json db s -> represents json (save_shutdown env o db).2 s.
Proof.
  intros Hrep. unfold save_shutdown, save_with. destruct (fails_at env Begin); [done|].
  destruct (save_event_log _ _ _ _ _) as [[id db1]|] eqn:Hl; [|done].
  assert (id = next_event_log_id db) as ->.
  { unfold save_event_log in Hl. destruct (insert_event_log _ _ _ _ _ _ _), (guarded _ _ _); by simplify_eq/=. }
  destruct (represents_log _ _ _ _ _ _ _ _ Hrep Hl) as (Hrep1 & _).
  unfold guarded. destruct (fails_at env InsertEvent); [done|]. cbn [execute].
  destruct (insert_shutdown _ _) as [table r] eqn:Hstmt. injection Hstmt as <- <-.
  destruct (insert_row _ _ _ _ _) as [db2|] eqn:Hins; [|done]. simpl. destruct (fails_at env Commit); [done|].
  apply insert_row_Ok in Hins as (t & Ht & _ & ->). simpl. apply represents_other; try done.
  intros d Hd. unfold entity_tables in Hd. set_unfold in Hd. naive_solver.
Qed.

(** One event: an entity that is passed on is appended. *)
Lemma handle_represents (env : WriteEnv) (e : SseEvent) (m m' : ApiVersionManager) (w w' : World) (s : Saved) :
  to_json env = json -> accepts (outbound_sse_data_sender w) = None -> represents json (database w) s ->
  handle_single_event (DbSavingEventHandlingService env) e (m, w) = Some (m', w') ->
  exists out s', grown w out w' /\ represents json (database w') (s ++ s') /\
    s'.*1 = entities (out.*1) /\ (s' = [] \/ s' = [(sse_data e, origin e)]).
Proof.
  intros Hjson Ha Hrep. destruct (identity (sse_data e)) as [i|] eqn:Hi.
  - rewrite (handle_entity env e m w i Hi).
    pose proof (save_fails env (sse_data e) (origin e) (database w)) as Hf.
    destruct (save env (sse_data e) (origin e) (database w)) as [[[n|err]|] db] eqn:Hs; simpl; intros [= <- <-].
    + destruct (grown_send w db (sse_data e) (inbound_filter e) Ha) as [Hg Hdb].
      exists [(sse_data e, Some (inbound_filter e))], [(sse_data e, origin e)].
      split_and!; [done| | |by right].
      * rewrite Hdb. rewrite <- Hjson in *. by eapply represents_save.
      * unfold entities. csimpl. by rewrite filter_cons_True by (unfold is_entity; by rewrite Hi).
    + simpl in Hf. destruct Hf as [[n ?]| ->]; [done|]. exists [], [].
      split_and!; [by apply grown_nil|by rewrite app_nil_r|done|by left].
  - intros Hh.
    assert (forall out w1, w' = w1 -> grown w out w1 -> represents json (database w1) s ->
      entities (out.*1) = [] -> exists out s', grown w out w' /\
        represents json (database w') (s ++ s') /\
        s'.*1 = entities (out.*1) /\ (s' = [] \/ s' = [(sse_data e, origin e)])) as Hdone.
    { intros out w1 -> Hg Hr Hout. exists out, []. rewrite app_nil_r. split_and!; [done..|by rewrite Hout|by left]. }
    revert Hh. unfold handle_single_event. destruct (sse_data e) as [v| | | | | | | |] eqn:Hd; try done; simpl.
    + unfold store_version. destruct (grown_send w (database w) (ApiVersion v) (inbound_filter e) Ha) as [Hg Hdb].
      destruct m as [[current|]]; simpl; [destruct (version_ltb current v)|]; simpl; intros [= <- <-].
      * eapply Hdone; [done|destruct w; exact Hg|by rewrite send_outbound_database|done].
      * eapply (Hdone []); [done| |done..]. destruct w. by apply grown_nil.
      * eapply Hdone; [done|destruct w; exact Hg|by rewrite send_outbound_database|done].
    + unfold db_handle_shutdown, saving. pose proof (represents_shutdown env (origin e) (database w) s Hrep) as Hr.
      destruct (save_shutdown env (origin e) (database w)) as [[res|] db]; simpl in *; [|done].
      destruct (grown_send w db Shutdown (inbound_filter e) Ha) as [Hg Hdb].
      destruct res as [n|[]]; intros [= <- <-];
        first [by eapply Hdone; [done|exact Hg|by rewrite send_outbound_database|done]
              |by eapply (Hdone []); [done|by apply grown_nil|done..]].
Qed.

Lemma entities_app (l1 l2 : list SseData) : entities (l1 ++ l2) = entities l1 ++ entities l2.
Proof. apply filter_app. Qed.

(** All events: what is passed on of the entities is what the store has, in order. *)
Lemma consume_represents (items : list Incoming) (m m' : ApiVersionManager) (w w' : World) (s : Saved) :
  Forall (fun it => to_json it.1 = json) items -> accepts (outbound_sse_data_sender w) = None ->
  represents json (database w) s -> consume_events (with_services items) (m, w) = Some (m', w') ->
  exists out s', sent (outbound_sse_data_sender w') = sent (outbound_sse_data_sender w) ++ out /\
    represents json (database w') (s ++ s') /\ s'.*1 = entities (out.*1) /\ s' `sublist_of` with_origins items.
Proof.
  intros Hall. revert m w s. induction Hall as [|[env e] items Hit _ IH]; intros m w s Ha Hrep; csimpl.
  - intros [= <- <-]. exists [], []. rewrite !app_nil_r. split_and!; [done..|constructor].
  - destruct (handle_single_event _ _ _) as [[m1 w1]|] eqn:Hh; [|done]. csimpl. intros Hc.
    destruct (handle_represents env e m m1 w w1 s Hit Ha Hrep Hh) as (out & s1 & [Hg Ho _] & Hrep1 & Hs1 & Hone).
    destruct (IH m1 w1 (s ++ s1) Ho Hrep1 Hc) as (out' & s' & Hsent & Hrep' & Hs' & Hsub).
    exists (out ++ out'), (s1 ++ s'). rewrite Hsent, Hg, !fmap_app, entities_app, Hs1, Hs', <- !app_assoc in *.
    split_and!; [done..|]. destruct Hone as [->| ->]; by constructor.
Qed.

(** The store the migrations set up is empty. *)
Lemma fresh_represents (engine : Engine) (at_time : Z) (db : Database) :
  apply_all_migrations engine at_time ∅ = (Ok tt, db) -> represents json db [].
Proof.
  intros Hm. destruct (fresh_store engine at_time) as (db' & Hm' & [Hdefs _ _ _] & _).
  rewrite Hm in Hm'. injection Hm' as <-.
  assert (db = (apply_all_migrations engine at_time ∅).2) as Hdb by by rewrite Hm. clear Hm.
  assert (forall d t, d ∈ entity_tables -> db !! table_name d = Some t -> rows t = []) as Hempty.
  { assert (Forall (fun d => rows <$> (apply_all_migrations engine at_time ∅).2 !! table_name d = Some [])
      entity_tables) as Hall by (destruct engine; repeat constructor).
    intros d t Hd Ht. eapply Forall_forall in Hall; [|exact Hd]. rewrite <- Hdb, Ht in Hall. by injection Hall. }
  clear Hdb.
  split; [done| | |constructor].
  - intros d t r Hd Ht. rewrite (Hempty d t Hd Ht). by intros ?%not_elem_of_nil.
  - intros d Hd. unfold view. destruct (db !! table_name d) as [t|] eqn:Ht; [|done]. by rewrite (Hempty d t Hd Ht).
Qed.

End Store.

(** ** What can be read *)

Lemma entities_reports (l : list (SseData * option Filter)) : entities (reports l) = entities (l.*1).
Proof.
  unfold entities, reports. induction l as [|[d f] l IH]; [done|]. csimpl. rewrite !filter_cons.
  destruct d; simpl; rewrite ?filter_cons; simpl; by rewrite IH.
Qed.

Lemma omap_identity_entities (l : list SseData) : omap identity (entities l) = omap identity l.
Proof.
  unfold entities, is_entity. induction l as [|d l IH]; [done|]. rewrite filter_cons. csimpl.
  destruct (identity d) as [i|] eqn:Hi; csimpl; [|done]. by rewrite Hi, IH.
Qed.

(** Entities that were saved once. *)
Definition distinct (s : Saved) : Prop := NoDup (omap identity (s.*1)).

Lemma distinct_eq (s : Saved) (e e' : SseData * Origin) :
  distinct s -> e ∈ s -> e' ∈ s -> is_Some (identity e.1) -> identity e.1 = identity e'.1 -> e = e'.
Proof.
  unfold distinct. intros Hnd He He' [i Hi] Heq.
  assert (forall (l : Saved) x, x ∈ l -> identity x.1 = Some i -> i ∈ omap identity (l.*1)) as Hin.
  { intros l x Hx Hxi. apply list_elem_of_omap. exists x.1. split; [by apply list_elem_of_fmap_2|done]. }
  induction s as [|x s IH]; [by apply not_elem_of_nil in He|]. csimpl in *.
  apply elem_of_cons in He as [<-|He], He' as [<-|He']; try done.
  - rewrite Hi in Hnd. apply NoDup_cons in Hnd as [Hni _]. destruct Hni. apply (Hin s e'); congruence.
  - rewrite <- Heq, Hi in Hnd. apply NoDup_cons in Hnd as [Hni _]. destruct Hni. by apply (Hin s e).
  - apply IH; try done. destruct (identity x.1); [by apply NoDup_cons in Hnd as [_ ?]|done].
Qed.

Lemma found_only (p : SseData -> bool) (s : Saved) (e : SseData * Origin) :
  e ∈ s -> p e.1 = true -> (forall e', e' ∈ s -> p e'.1 = true -> e' = e) -> found p s = Ok (envelope_of e).
Proof.
  intros He Hp Honly. unfold found. destruct (List.filter (p ∘ fst) s) as [|e' l] eqn:Hf.
  - assert (e ∈ List.filter (p ∘ fst) s) as Hin by (by apply list_elem_of_In, List.filter_In; rewrite <- list_elem_of_In).
    rewrite Hf in Hin. by apply not_elem_of_nil in Hin.
  - assert (List.In e' (List.filter (p ∘ fst) s)) as [Hin Hp']%List.filter_In by (rewrite Hf; by left).
    by rewrite (Honly e') by (by rewrite ?list_elem_of_In).
Qed.

Lemma found_among (p : SseData -> bool) (s : Saved) (e : SseData * Origin) :
  e ∈ s -> p e.1 = true -> exists l, found_all p s = Ok l /\ envelope_of e ∈ l.
Proof.
  intros He Hp. unfold found_all.
  assert (e ∈ List.filter (p ∘ fst) s) as Hin by (by apply list_elem_of_In, List.filter_In; rewrite <- list_elem_of_In).
  destruct (List.filter (p ∘ fst) s) as [|e' l] eqn:Hf; [by apply not_elem_of_nil in Hin|].
  eexists. split; [done|]. by apply list_elem_of_fmap_2.
Qed.

(** An event can be read, by all it can be asked for by. *)
Definition readable (rd : DatabaseReader) (e : SseData * Origin) : Prop :=
  match e.1 with
  | ApiVersion _ | Shutdown => True
  | BlockAdded h b =>
      rd_block_by_height rd (block_height b) = Ok (envelope_of e) /\ rd_block_by_hash rd h = Ok (envelope_of e)
  | TransactionAccepted t =>
      let h := transaction_hash t in
      rd_transaction_accepted rd (hash_type_id h) (transaction_hash_to_identifier h) = Ok (envelope_of e)
  | TransactionProcessed h _ _ _ _ _ _ =>
      rd_transaction_processed rd (hash_type_id h) (transaction_hash_to_identifier h) = Ok (envelope_of e)
  | TransactionExpired h =>
      rd_transaction_expired rd (hash_type_id h) (transaction_hash_to_identifier h) = Ok (envelope_of e)
  | Fault era public_key _ =>
      (exists l, rd_faults_by_public_key rd public_key = Ok l /\ envelope_of e ∈ l) /\
      (exists l, rd_faults_by_era rd era = Ok l /\ envelope_of e ∈ l)
  | FinalitySignatureEvent fs =>
      exists l, rd_finality_signatures rd (fs_block_hash (fs_value fs)) = Ok l /\
        mkEnvelope fs (origin_api_version e.2) (origin_network_name e.2) ∈ l
  | Step era _ => rd_step rd era = Ok (envelope_of e)
  end.

(** Blocks with the same hash are the same entity. *)
Definition hashes_agree (s : Saved) : Prop :=
  forall h b b' o o', (BlockAdded h b, o) ∈ s -> (BlockAdded h b', o') ∈ s -> block_height b = block_height b'.

Lemma same_hash_true (ty : TransactionTypeId) (hash : string) (h : TransactionHash) :
  same_hash ty hash h = true -> hash_type_id h = ty /\ transaction_hash_to_identifier h = hash.
Proof. unfold same_hash. by rewrite andb_true_iff, !bool_decide_eq_true. Qed.

Lemma same_hash_refl (h : TransactionHash) : same_hash (hash_type_id h) (transaction_hash_to_identifier h) h = true.
Proof. unfold same_hash. by rewrite !bool_decide_eq_true_2. Qed.

Lemma signature_among (s : Saved) (fs : FinalitySignature) (o : Origin) :
  (FinalitySignatureEvent fs, o) ∈ s ->
  exists l, match signatures (fs_block_hash (fs_value fs)) s with [] => Err NotFound | l => Ok l end = Ok l /\
    mkEnvelope fs (origin_api_version o) (origin_network_name o) ∈ l.
Proof.
  intros He. assert (mkEnvelope fs (origin_api_version o) (origin_network_name o) ∈
    signatures (fs_block_hash (fs_value fs)) s) as Hin.
  { apply list_elem_of_omap. eexists. split; [exact He|]. simpl. by rewrite decide_True. }
  destruct (signatures _ s); [by apply not_elem_of_nil in Hin|]. eauto.
Qed.

Section Readable.
Context `{EventJson}.

Lemma saved_readable (db : Database) (s : Saved) (e : SseData * Origin) :
  reads_as db s -> distinct s -> hashes_agree s -> e ∈ s -> readable (store_reader (fun _ => None) db) e.
Proof.
  intros Hr Hs Hh He. destruct Hr. unfold readable, store_reader. simpl.
  assert (forall p, p e.1 = true -> (forall e', e' ∈ s -> p e'.1 = true -> identity e.1 = identity e'.1) ->
    is_Some (identity e.1) -> found p s = Ok (envelope_of e)) as Hone.
  { intros p Hp Hid Hi. apply found_only; try done. intros e' He' Hp'. symmetry. by apply (distinct_eq s); auto. }
  destruct e as [d o]. destruct d; simpl in *; try done.
  - rewrite reads_height, reads_hash.
    split; (apply Hone; [by apply bool_decide_eq_true|intros [[] o'] He'; try done; simpl|done]).
    + intros Hb%bool_decide_eq_true. by rewrite Hb.
    + intros ->%bool_decide_eq_true. by rewrite (Hh _ _ _ _ _ He He').
  - rewrite reads_accepted. apply Hone; [by apply same_hash_refl| |done].
    intros [[] o'] _; try done. simpl. by intros [-> ->]%same_hash_true.
  - rewrite reads_processed. apply Hone; [by apply same_hash_refl| |done].
    intros [[] o'] _; try done. simpl. by intros [-> ->]%same_hash_true.
  - rewrite reads_expired. apply Hone; [by apply same_hash_refl| |done].
    intros [[] o'] _; try done. simpl. by intros [_ ->]%same_hash_true.
  - rewrite reads_faults_key, reads_faults_era.
    by split; apply found_among; [|apply bool_decide_eq_true| |apply bool_decide_eq_true].
  - rewrite reads_signatures. apply signature_among. done.
  - rewrite reads_step. apply Hone; [by apply bool_decide_eq_true| |done].
    intros [[] o'] _; try done. simpl. by intros ->%bool_decide_eq_true.
Qed.

End Readable.

(** A number of 64 bits has too few digits for a hash. *)
Lemma number_is_no_hash (n : Z) : is_u64 n -> is_ok (check_hash_is_correct_format (pretty n)) = false.
Proof.
  intros Hn. unfold check_hash_is_correct_format. destruct (Nat.eqb_spec (String.length (pretty n)) 64) as [Hl|];
    [|by rewrite andb_false_r]. pose proof (pretty_length n Hn). lia.
Qed.

Lemma number_is_no_key (n : Z) : is_u64 n -> is_ok (check_public_key_is_correct_format (pretty n)) = false.
Proof.
  intros Hn. pose proof (pretty_length n Hn). unfold check_public_key_is_correct_format.
  destruct (Nat.eqb_spec (String.length (pretty n)) 66); [lia|].
  destruct (Nat.eqb_spec (String.length (pretty n)) 68); [lia|]. by rewrite andb_false_r.
Qed.

(** ** What the REST server answers *)

(** The segment of a path for a type of transactions. *)
Definition type_segment (ty : TransactionTypeId) : string :=
  match ty with TT_Deploy => "deploy" | TT_Version1 => "version1" end.

Lemma param_type_segment (ty : TransactionTypeId) : param_type (type_segment ty) = Some ty.
Proof. by destruct ty. Qed.

(** A list of data is answered that holds an envelope. *)
Definition answered_among {T} (data : list T -> Data) (answer : RestResponse) (x : T) : Prop :=
  exists l, answer = mkRestResponse 200 (data l) /\ x ∈ l.

(** The server answers with an event on every path that names it, if what is in the
    path has the form of a hash, a key or a number. *)
Definition served (get : list string -> RestResponse) (e : SseData * Origin) : Prop :=
  let is_hash h := is_ok (check_hash_is_correct_format h) = true in
  let transaction kind h :=
    is_hash (transaction_hash_to_identifier h) ->
    get ["transaction"; kind; type_segment (hash_type_id h); transaction_hash_to_identifier h] =
      mkRestResponse 200 (DataEvent (envelope_of e)) in
  match e.1 with
  | ApiVersion _ | Shutdown => True
  | BlockAdded h b =>
      (is_u64 (block_height b) ->
       get ["block"; pretty (block_height b)] = mkRestResponse 200 (DataEvent (envelope_of e))) /\
      (is_hash h -> get ["block"; h] = mkRestResponse 200 (DataEvent (envelope_of e)))
  | TransactionAccepted t => transaction "accepted" (transaction_hash t)
  | TransactionProcessed h _ _ _ _ _ _ => transaction "processed" h
  | TransactionExpired h => transaction "expired" h
  | Fault era public_key _ =>
      (is_u64 era -> answered_among DataEvents (get ["faults"; pretty era]) (envelope_of e)) /\
      (is_ok (check_public_key_is_correct_format public_key) = true ->
       answered_among DataEvents (get ["faults"; public_key]) (envelope_of e))
  | FinalitySignatureEvent fs =>
      is_hash (fs_block_hash (fs_value fs)) ->
      answered_among DataSignatures (get ["signatures"; fs_block_hash (fs_value fs)])
        (mkEnvelope fs (origin_api_version e.2) (origin_network_name e.2))
  | Step era _ => is_u64 era -> get ["step"; pretty era] = mkRestResponse 200 (DataEvent (envelope_of e))
  end.

(** What the readers find, the server answers. *)
Lemma readable_served (rd : DatabaseReader) (version : ProtocolVersion) (debug : Rejection -> string)
    (e : SseData * Origin) :
  readable rd e -> served (fun segs => combined_filters rd version debug (mkRestRequest "GET" segs)) e.
Proof.
  assert (forall n : Z, is_u64 n -> param_u64 (pretty n) = Some n) as Hnum
    by (intros n Hn; by apply parse_unsigned_pretty).
  unfold readable, served. destruct e as [d o]; destruct d; cbn [fst snd]; try done.
  - intros [Hheight Hhash]. split.
    + intros Hn. rewrite block_param_answer, (number_is_no_hash _ Hn), (Hnum _ Hn). simpl. by rewrite Hheight.
    + intros Hh. by rewrite block_param_answer, Hh, Hhash.
  - intros Hr Hh. destruct (rest_transactions rd version debug (type_segment (hash_type_id (transaction_hash t)))
      (transaction_hash_to_identifier (transaction_hash t))) as (_ & -> & _).
    unfold transaction_answer. by rewrite param_type_segment, Hh, Hr.
  - intros Hr Hh. destruct (rest_transactions rd version debug (type_segment (hash_type_id transaction_hash))
      (transaction_hash_to_identifier transaction_hash)) as (_ & _ & -> & _).
    unfold transaction_answer. by rewrite param_type_segment, Hh, Hr.
  - intros Hr Hh. destruct (rest_transactions rd version debug (type_segment (hash_type_id transaction_hash))
      (transaction_hash_to_identifier transaction_hash)) as (_ & _ & _ & ->).
    unfold transaction_answer. by rewrite param_type_segment, Hh, Hr.
  - intros [(l & Hkey & Hl) (l' & Hera & Hl')]. split.
    + intros Hn. exists l'. rewrite faults_param_answer, (number_is_no_key _ Hn), (Hnum _ Hn). simpl. by rewrite Hera.
    + intros Hk. exists l. by rewrite faults_param_answer, Hk, Hkey.
  - intros (l & Hs & Hl) Hh. exists l. by rewrite signatures_param_answer, Hh, Hs.
  - intros Hs Hn. rewrite step_param_answer, (Hnum _ Hn). simpl. by rewrite Hs.
Qed.

Section Answers.
Context `{AutoIncrement} `{EventJson} (json : SseData -> result string string) `{!EventJsonLaws json}.
Context (version : ProtocolVersion) (debug : Rejection -> string).

Lemma consistent_hashes (items : list Incoming) (s : Saved) :
  consistent items -> s `sublist_of` with_origins items -> hashes_agree s.
Proof.
  intros Hc Hs h b b' o o' Hb Hb'.
  assert (forall e, e ∈ s -> exists it, it ∈ items /\ e.1 = incoming_data it) as Hin.
  { intros e He. eapply elem_of_sublist in He; [|exact Hs].
    apply list_elem_of_fmap in He as (it & -> & Hit). by exists it. }
  destruct (Hin _ Hb) as (it & Hit & Hd), (Hin _ Hb') as (it' & Hit' & Hd'). simpl in Hd, Hd'.
  specialize (Hc it it' Hit Hit'). rewrite <- Hd, <- Hd' in Hc. simpl in Hc.
  by injection Hc as ->.
Qed.

(** The store after the events were handled one after the other. *)
Lemma consumed_readable (e : Engine) (at_time : Z) (items : list Incoming) (db : Database) (m : ApiVersionManager)
    (w : World) :
  apply_all_migrations e at_time ∅ = (Ok tt, db) -> consistent items -> Forall (fun it => to_json it.1 = json) items ->
  consume_events (with_services items) (started db) = Some (m, w) ->
  reports (sent (outbound_sse_data_sender w)) = reports (reference items (None, [])) ->
  exists s, s.*1 = entities (sent (outbound_sse_data_sender w)).*1 /\ s `sublist_of` with_origins items /\
    distinct s /\ reads_as (database w) s /\ Forall (readable (store_reader (fun _ => None) (database w))) s.
Proof using EventJsonLaws0.
  intros Hmig Hcons Hjson Hc Hr. pose proof (fresh_represents json e at_time db Hmig) as Hrep. clear Hmig.
  destruct (consume_represents json items ApiVersionManager_new m (started db).2 w [] Hjson)
    as (out & s & Hsent & Hrep' & Hs & Hsub); [done|exact Hrep|exact Hc|]. simpl in Hsent, Hrep'.
  apply (represents_reads json) in Hrep' as Hreads.
  assert (distinct s) as Hd.
  { unfold distinct. rewrite Hs, <- Hsent, <- entities_reports, omap_identity_entities, Hr.
    by destruct (reference_entities items None []). }
  exists s. split_and!; [by rewrite Hsent|done..|].
  apply Forall_forall. intros x Hx. by apply (saved_readable (database w) s); [..|eapply consistent_hashes|].
Qed.

(** The REST server on a store that reads as a list of events: a height. *)
Lemma block_height_answer (db : Database) (s : Saved) (height : Z) :
  reads_as db s -> is_u64 height ->
  combined_filters (store_reader (fun _ => None) db) version debug (mkRestRequest "GET" ["block"; pretty height]) =
  storage_answer DataEvent (found (block_at height) s).
Proof.
  intros Hreads Hh. rewrite block_param_answer, (number_is_no_hash height Hh). unfold param_u64.
  rewrite parse_unsigned_pretty by done. simpl. by rewrite (reads_height _ _ Hreads).
Qed.

(** The whole way from the nodes to the REST server.  On a database set up by the
    migrations, take any events of any number of nodes, saved in surroundings in
    which the database or the JSON may fail.  Afterwards the store reads, by every
    query, as the list of the events of entities that were passed on to the event
    stream server, with their origins and in that order: nothing else, and nothing
    is lost.  Each of them is found by all it can be asked for by, the REST server
    answers with it on every path that names it, and answers [block/<height>] with 404
    if no such block was passed on.  It is assumed that events logged under the same key
    report the same entity, that what is written can be read again, and that the queries
    themselves do not fail. *)
Theorem forwarded_events_readable (e : Engine) (at_time : Z) (items : list Incoming) (db : Database) :
  apply_all_migrations e at_time ∅ = (Ok tt, db) -> consistent items ->
  Forall (fun it => to_json it.1 = json) items ->
  exists m w s, consume_events (with_services items) (started db) = Some (m, w) /\
    s.*1 = entities (sent (outbound_sse_data_sender w)).*1 /\
    s `sublist_of` with_origins items /\
    reads_as (database w) s /\
    let rd := store_reader (fun _ => None) (database w) in
    let get segs := combined_filters rd version debug (mkRestRequest "GET" segs) in
    Forall (readable rd) s /\ Forall (served get) s /\
    forall height, is_u64 height -> get ["block"; pretty height] = storage_answer DataEvent (found (block_at height) s).
Proof using EventJsonLaws0.
  intros Hmig Hcons Hjson.
  destruct (consume_from_start e at_time items db Hmig Hcons) as (m & w & Hc & Hr & _).
  destruct (consumed_readable e at_time items db m w Hmig Hcons Hjson Hc Hr) as (s & Hs & Hsub & _ & Hreads & Hread).
  clear Hmig. exists m, w, s. cbv zeta. split_and!; [exact Hc|done..| |].
  - apply (Forall_impl _ _ _ Hread). intros x Hx. by apply readable_served.
  - intros height. by apply block_height_answer.
Qed.

End Answers.

(** ** An example *)

Module SampleBlocks.
Import SampleNodes.

#[export] Instance EraReport_eq_dec : EqDecision EraReport.
Proof. solve_decision. Defined.
#[export] Instance EraEndV1_eq_dec : EqDecision EraEndV1.
Proof. solve_decision. Defined.
#[export] Instance EraEndV2_eq_dec : EqDecision EraEndV2.
Proof. solve_decision. Defined.
#[export] Instance BlockHeaderV1_eq_dec : EqDecision BlockHeaderV1.
Proof. solve_decision. Defined.
#[export] Instance CasperBlockBodyV1_eq_dec : EqDecision CasperBlockBodyV1.
Proof. solve_decision. Defined.
#[export] Instance CasperBlockV1_eq_dec : EqDecision CasperBlockV1.
Proof. solve_decision. Defined.
#[export] Instance BlockHeaderV2_eq_dec : EqDecision BlockHeaderV2.
Proof. solve_decision. Defined.
#[export] Instance BlockBodyV2_eq_dec : EqDecision BlockBodyV2.
Proof. solve_decision. Defined.
#[export] Instance BlockV2_eq_dec : EqDecision BlockV2.
Proof. solve_decision. Defined.
#[export] Instance Block_eq_dec : EqDecision Block.
Proof. solve_decision. Defined.

(** Blocks at height 7, and steps of era 5, with a text for each; other events have
    none. *)
Definition block (hash : string) : Block :=
  Block_V2 (mkBlockV2 hash (mkHeaderV2 "parent" "root" "body" false "seed" None 10 5 7 (mkVersion 2 0 0) "proposer")
    (mkBodyV2 [])).

Definition write (d : SseData) : result string string :=
  match d with
  | BlockAdded hash b => if decide (b = block hash) then Ok hash else Err "another block"
  | Step era effects => if decide (era = 5) then Ok effects else Err "another era"
  | _ => Err "another event"
  end.

#[export] Instance reading : EventJson := {|
  parse_event ty raw :=
    match ty with
    | ET_BlockAdded => Ok (BlockAdded raw (block raw))
    | ET_Step => Ok (Step 5 raw)
    | _ => Err "another event"
    end;
  parse_finality_signature _ := Err "no signature";
|}.

#[export] Instance reading_laws : EventJsonLaws write.
Proof.
  split; [|done]. intros d ty key raw Hk Hw. destruct d; simpl in Hk, Hw; try done;
    injection Hk as <- _; case_decide; simplify_eq; done.
Qed.

Definition surroundings (failure : option (Stage * string)) : WriteEnv := mkWriteEnv Sqlite 1000 1000 write failure.

(** Two nodes report a block and a step, the first save of the block fails, and a
    fault cannot be written. *)
Definition incoming : list Incoming :=
  [(surroundings (Some (Commit, "disk full")), reported "a" 1 (BlockAdded "hash" (block "hash")));
   (surroundings None, reported "b" 4 (BlockAdded "hash" (block "hash")));
   (surroundings None, reported "a" 2 (Step 5 "effects"));
   (surroundings None, reported "b" 5 (Step 5 "effects"));
   (surroundings None, reported "b" 6 (Fault 5 "key" 3));
   (surroundings None, reported "a" 3 Shutdown)].

Lemma incoming_consistent : consistent incoming.
Proof.
  intros it it' Hit Hit'. unfold incoming in *.
  repeat (apply elem_of_cons in Hit as [->|Hit]); [..|by apply not_elem_of_nil in Hit];
    repeat (apply elem_of_cons in Hit' as [->|Hit']); try (by apply not_elem_of_nil in Hit'); by intros [? ?].
Qed.

End SampleBlocks.

Import SampleNodes SampleBlocks.

(** The block and the step are found, and nothing else. *)
Lemma forwarded_events_readable_witness :
  exists m w s, consume_events (with_services incoming) (started store) = Some (m, w) /\
    s.*1 = [BlockAdded "hash" (block "hash"); Step 5 "effects"] /\
    combined_filters (store_reader (fun _ => None) (database w)) (mkVersion 2 0 0) (fun _ => "rejected")
      (mkRestRequest "GET" ["block"; pretty 7]) =
      storage_answer DataEvent (found (block_at 7) s).
Proof.
  destruct (forwarded_events_readable write (mkVersion 2 0 0) (fun _ => "rejected") Sqlite 1000 incoming store)
    as (m & w & s & Hc & Hs & _ & _ & _ & _ & Hrest).
  - reflexivity.
  - apply incoming_consistent.
  - by repeat constructor.
  - assert (is_u64 7) as H7 by (unfold is_u64, U64_MAX; lia). specialize (Hrest 7 H7).
    exists m, w, s. split; [exact Hc|]. split; [|exact Hrest]. rewrite Hs.
    assert ((fun st => entities (sent (outbound_sse_data_sender st.2)).*1) <$>
      consume_events (with_services incoming) (started store) =
      Some [BlockAdded "hash" (block "hash"); Step 5 "effects"]) as Hout by (vm_compute; reflexivity).
    rewrite Hc in Hout. by injection Hout.
Defined.
