(* ===== verification/SidecarConfig.v ===== *)
(** * The configuration of the sidecar

    [event_sidecar/src/types/config.rs], [event_sidecar/src/database/env_vars.rs]
    and [sidecar/src/config.rs]: the sections of the configuration file, how the
    connection to PostgreSQL is completed from the environment, and which
    configurations are accepted.  Reading the file as TOML is left to its parser:
    the development starts from the records it fills. *)

From S2P Require Import Prelude RpcServer.

(** ** The event sidecar's sections *)

(** [event_sidecar/src/types/config.rs:21-25], [LegacySseApiTag]. *)
Inductive LegacySseApiTag : Set := LegacyV1.

(** [event_sidecar/src/types/config.rs:66-78], [Connection]. *)
Record Connection := mkConnection {
  conn_ip_address : string;
  conn_sse_port : Z;
  conn_rest_port : Z;
  conn_max_attempts : Z;
  conn_delay_between_retries_in_seconds : Z;
  conn_allow_partial_connection : bool;
  conn_enable_logging : bool;
  conn_connection_timeout_in_seconds : option Z;
  conn_sleep_between_keep_alive_checks_in_seconds : option Z;
  conn_no_message_timeout_in_seconds : option Z;
}.

(** [event_sidecar/src/types/config.rs:318-323], [EventStreamServerConfig]. *)
Record EventStreamServerConfig := mkEventStreamServerConfig {
  es_port : Z;
  es_max_concurrent_subscribers : Z;
  es_event_stream_buffer_length : Z;
}.

(** [event_sidecar/src/types/config.rs:30-40], [SseEventServerConfig]. *)
Record SseEventServerConfig := mkSseEventServerConfig {
  sse_enable_server : bool;
  emulate_legacy_sse_apis : option (list LegacySseApiTag);
  inbound_channel_size : option Z;
  outbound_channel_size : option Z;
  connections : list Connection;
  event_stream_server : EventStreamServerConfig;
  disable_event_persistence : bool;
}.

(** [event_sidecar/src/types/config.rs:216-222], [SqliteConfig]. *)
Record SqliteConfig := mkSqliteConfig {
  sqlite_enabled : bool;
  file_name : string;
  sqlite_max_connections_in_pool : Z;
  wal_autocheckpointing_interval : Z;
}.

(** [event_sidecar/src/types/config.rs:224-233], [PostgresqlConfig]. *)
Record PostgresqlConfig := mkPostgresqlConfig {
  postgresql_enabled : bool;
  host : string;
  database_name : string;
  database_username : string;
  database_password : string;
  postgresql_max_connections_in_pool : Z;
  postgresql_port : Z;
}.

(** [event_sidecar/src/types/config.rs:249-258], [PostgresqlConfigSerdeTarget]. *)
Record PostgresqlConfigSerdeTarget := mkPostgresqlTarget {
  target_enabled : bool;
  target_host : option string;
  target_database_name : option string;
  target_database_username : option string;
  target_database_password : option string;
  target_max_connections_in_pool : option Z;
  target_port : option Z;
}.

(** [event_sidecar/src/types/config.rs:80-85], [StorageConfig]. *)
Record StorageConfig := mkStorageConfig {
  storage_folder : string;
  sqlite_config : option SqliteConfig;
  postgresql_config : option PostgresqlConfig;
}.

(** [event_sidecar/src/types/config.rs:190-195], [StorageConfigSerdeTarget]. *)
Record StorageConfigSerdeTarget := mkStorageTarget {
  target_storage_folder : string;
  target_sqlite_config : option SqliteConfig;
  target_postgresql_config : option PostgresqlConfigSerdeTarget;
}.

(** [event_sidecar/src/types/config.rs:310-316], [RestApiServerConfig], and
    [AdminApiServerConfig], which has the same fields. *)
Record ApiServerConfig := mkApiServerConfig {
  api_enable_server : bool;
  api_port : Z;
  api_max_concurrent_requests : Z;
  api_max_requests_per_second : Z;
}.

Definition is_some_and {A} (p : A -> bool) (o : option A) : bool :=
  match o with Some a => p a | None => false end.

(** [event_sidecar/src/types/config.rs:88-98], [StorageConfig::is_enabled]: a section
    on SQLite decides, and that on PostgreSQL only without one. *)
Definition is_enabled (self : StorageConfig) : bool :=
  match sqlite_config self with
  | Some config => sqlite_enabled config
  | None => is_some_and postgresql_enabled (postgresql_config self)
  end.

(** [event_sidecar/src/types/config.rs:167-172], [StorageConfig::is_postgres_enabled]. *)
Definition storage_postgres_enabled (self : StorageConfig) : bool :=
  is_some_and postgresql_enabled (postgresql_config self).

(** [event_sidecar/src/types/config.rs:174-179], [StorageConfig::is_sqlite_enabled]. *)
Definition storage_sqlite_enabled (self : StorageConfig) : bool :=
  is_some_and sqlite_enabled (sqlite_config self).

(** ** Completing the connection from the environment *)

(** [event_sidecar/src/database/database_errors.rs:3-15], [DatabaseConfigError]. *)
Inductive DatabaseConfigError : Set :=
| FieldNotFound (field_name error : string)
| ParseError (field_name error : string).

Definition DatabaseConfigError_to_string (e : DatabaseConfigError) : string :=
  match e with
  | FieldNotFound field_name error =>
      "failed to parse the config option behind env_var " +:+ field_name +:+ " with error: " +:+ error
  | ParseError field_name error =>
      "failed to parse the config option for " +:+ field_name +:+ " with error: " +:+ error
  end.

(** [ParseIntError] of an unsigned type, for a text that does not parse. *)
Fixpoint digits_error (max acc : Z) (s : string) : string :=
  match s with
  | EmptyString => "number too large to fit in target type"
  | String c s =>
      match digit_of c with
      | None => "invalid digit found in string"
      | Some d =>
          if decide (max < acc * 10 + d) then "number too large to fit in target type"
          else digits_error max (acc * 10 + d) s
      end
  end.

Definition parse_int_error (max : Z) (s : string) : string :=
  match s with
  | EmptyString => "cannot parse integer from empty string"
  | String c EmptyString => "invalid digit found in string"
  | String c rest => digits_error max 0 (if decide (c = Ascii.ascii_of_nat 43) then rest else s)
  end.

Definition parse_int (max : Z) (s : string) : result string Z :=
  ok_or (parse_unsigned max s) (parse_int_error max s).

(** [event_sidecar/src/types/config.rs:15-19], [DEFAULT_MAX_CONNECTIONS] and
    [DEFAULT_PORT]. *)
Definition DEFAULT_MAX_CONNECTIONS : Z := 10.
Definition DEFAULT_PORT : Z := 5432.

(** [sidecar/src/config.rs:140-160], [ConfigReadError] and its conversions, as a text. *)
Definition ConfigReadError_from (e : DatabaseConfigError) : string :=
  "failed to read sidecar configuration. Underlying reason: " +:+ DatabaseConfigError_to_string e.

Section Environment.
(** [std::env::var]. *)
Context (env_var : string -> option string).

(** [event_sidecar/src/database/env_vars.rs:28-42], [get_connection_information_from_env]. *)
Definition get_connection_information_from_env (key : string) (config_backup : option string)
    : result DatabaseConfigError string :=
  match env_var key with
  | Some value => Ok value
  | None =>
      match config_backup with
      | Some config_value => Ok config_value
      | None => Err (FieldNotFound key "Config value not set in ENV vars or config file")
      end
  end.

(** A number among the fields, with its default. *)
Definition number_from_env (key field_name : string) (max default : Z) (config_backup : option Z)
    : result DatabaseConfigError Z :=
  let text := match get_connection_information_from_env key (pretty <$> config_backup) with
              | Ok text => text
              | Err _ => pretty default
              end in
  map_err (ParseError field_name) (parse_int max text).

(** [event_sidecar/src/types/config.rs:260-308], [TryFrom<PostgresqlConfigSerdeTarget> for
    PostgresqlConfig]. *)
Definition PostgresqlConfig_try_from (value : PostgresqlConfigSerdeTarget) : result DatabaseConfigError PostgresqlConfig :=
  let? host := get_connection_information_from_env "SIDECAR_POSTGRES_HOST" (target_host value) in
  let? database_name := get_connection_information_from_env "SIDECAR_POSTGRES_DATABASE_NAME" (target_database_name value) in
  let? database_username := get_connection_information_from_env "SIDECAR_POSTGRES_USERNAME" (target_database_username value) in
  let? database_password := get_connection_information_from_env "SIDECAR_POSTGRES_PASSWORD" (target_database_password value) in
  let? max_connections := number_from_env "SIDECAR_POSTGRES_MAX_CONNECTIONS" "Max connections" U32_MAX
      DEFAULT_MAX_CONNECTIONS (target_max_connections_in_pool value) in
  let? port := number_from_env "SIDECAR_POSTGRES_PORT" "Port" U16_MAX DEFAULT_PORT (target_port value) in
  Ok (mkPostgresqlConfig (target_enabled value) host database_name database_username database_password
        max_connections port).

(** [event_sidecar/src/types/config.rs:197-214], [TryFrom<StorageConfigSerdeTarget> for
    StorageConfig]. *)
Definition StorageConfig_try_from (value : StorageConfigSerdeTarget) : result DatabaseConfigError StorageConfig :=
  let? postgresql :=
    match target_postgresql_config value with
    | Some config => let? config := PostgresqlConfig_try_from config in Ok (Some config)
    | None => Ok None
    end in
  Ok (mkStorageConfig (target_storage_folder value) (target_sqlite_config value) postgresql).

(** ** The configuration of the process *)

(** [sidecar/src/config.rs:10-20], [SidecarConfigTarget]. *)
Record SidecarConfigTarget := mkSidecarTarget {
  target_max_thread_count : option Z;
  target_max_blocking_thread_count : option Z;
  target_network_name : option string;
  target_storage : option StorageConfigSerdeTarget;
  target_rest_api_server : option ApiServerConfig;
  target_admin_api_server : option ApiServerConfig;
  target_sse_server : option SseEventServerConfig;
  target_rpc_server : option RpcServerConfig;
}.

(** [sidecar/src/config.rs:22-32], [SidecarConfig]. *)
Record SidecarConfig := mkSidecarConfig {
  max_thread_count : option Z;
  max_blocking_thread_count : option Z;
  network_name : option string;
  sse_server : option SseEventServerConfig;
  rpc_server : option RpcServerConfig;
  storage : option StorageConfig;
  rest_api_server : option ApiServerConfig;
  admin_api_server : option ApiServerConfig;
}.

(** [sidecar/src/config.rs:117-138], [TryFrom<SidecarConfigTarget> for SidecarConfig]; the
    error is its text. *)
Definition SidecarConfig_try_from (value : SidecarConfigTarget) : result string SidecarConfig :=
  let? storage_config :=
    match target_storage value with
    | Some target =>
        let? config := map_err (ConfigReadError_from) (StorageConfig_try_from target) in
        Ok (Some config)
    | None => Ok None
    end in
  Ok (mkSidecarConfig (target_max_thread_count value) (target_max_blocking_thread_count value)
        (target_network_name value) (target_sse_server value) (target_rpc_server value) storage_config
        (target_rest_api_server value) (target_admin_api_server value)).

End Environment.

Section Validation.
Context (self : SidecarConfig).

(** [sidecar/src/config.rs:63-65], [is_storage_enabled]. *)
Definition is_storage_enabled : bool := is_some_and is_enabled (storage self).

(** [sidecar/src/config.rs:67-71], [is_rpc_server_enabled]. *)
Definition is_rpc_server_enabled : bool :=
  is_some_and (fun config => rc_enable_server (main_server config)) (rpc_server self).

(** [sidecar/src/config.rs:73-77], [is_sse_server_enabled]. *)
Definition is_sse_server_enabled : bool := is_some_and sse_enable_server (sse_server self).

(** [sidecar/src/config.rs:79-83], [is_sse_storing_events]. *)
Definition is_sse_storing_events : bool :=
  is_some_and (fun config => sse_enable_server config && negb (disable_event_persistence config)) (sse_server self).

(** [sidecar/src/config.rs:85-89], [is_postgres_enabled]. *)
Definition is_postgres_enabled : bool := is_some_and storage_postgres_enabled (storage self).

(** [sidecar/src/config.rs:91-95], [is_sqlite_enabled]. *)
Definition is_sqlite_enabled : bool := is_some_and storage_sqlite_enabled (storage self).

(** [sidecar/src/config.rs:97-101], [is_rest_api_server_enabled]. *)
Definition is_rest_api_server_enabled : bool := is_some_and api_enable_server (rest_api_server self).

(** [sidecar/src/config.rs:35-61], [SidecarConfig::validate]. *)
Definition validate_sidecar : result string unit :=
  if negb is_rpc_server_enabled && negb is_sse_server_enabled
  then Err "At least one of RPC server or SSE server must be configured"
  else if is_sse_server_enabled && bool_decide (storage self = None)
  then Err "Can't run SSE if no `[storage.storage_folder]` is defined"
  else if negb is_storage_enabled && is_sse_storing_events
  then Err "Can't run SSE with events persistence enabled without storage defined"
  else if negb is_storage_enabled && is_rest_api_server_enabled
  then Err "Can't run REST API server without storage defined"
  else if negb is_sse_storing_events && is_rest_api_server_enabled
  then Err "Can't run REST API server with SSE events persistence disabled"
  else if is_storage_enabled && is_postgres_enabled && is_sqlite_enabled
  then Err "Can't run with both postgres and sqlite enabled"
  else Ok tt.

End Validation.

(** [sidecar/src/main.rs:23-23], [MAX_THREAD_COUNT]. *)
Definition MAX_THREAD_COUNT : Z := 512.

(** The threads of the runtime [main] builds; the runtime panics when asked for no
    threads. *)
Inductive Runtime : Set :=
| RuntimeThreads (worker_threads max_blocking_threads : Z)
| RuntimePanics.

(** [sidecar/src/main.rs:50-61], [main]: the sizes of its runtime, by the number of
    cores.  The subtraction of [unwrap_or] is evaluated in any case; on underflow it
    panics in a build that checks for overflows, and else wraps. *)
Definition runtime_threads (overflow_checks : bool) (num_cpus : Z) (config : SidecarConfig) : Runtime :=
  let max_worker_threads := default num_cpus (max_thread_count config) in
  if overflow_checks && (MAX_THREAD_COUNT <? max_worker_threads) then RuntimePanics
  else
    let max_blocking_threads :=
      default ((MAX_THREAD_COUNT - max_worker_threads) `mod` (U64_MAX + 1)) (max_thread_count config) in
    if (max_worker_threads =? 0) || (max_blocking_threads =? 0) then RuntimePanics
    else RuntimeThreads max_worker_threads max_blocking_threads.

(** [sidecar/src/main.rs:45-47], [main]: from the parsed file to an accepted
    configuration. *)
Definition load_config (env_var : string -> option string) (parsed : result string SidecarConfigTarget)
    : result string SidecarConfig :=
  let? config_serde := map_err (fun _ => "Error constructing config") parsed in
  let? config := SidecarConfig_try_from env_var config_serde in
  let? _ := validate_sidecar config in
  Ok config.

(** ** What is accepted *)

Section Accepted.
Context (config : SidecarConfig).

(** The conditions of an accepted configuration, one by one. *)
Lemma validate_sidecar_Ok :
  validate_sidecar config = Ok tt <->
  (is_rpc_server_enabled config = true \/ is_sse_server_enabled config = true) /\
  (is_sse_server_enabled config = true -> is_Some (storage config)) /\
  (is_sse_storing_events config = true -> is_storage_enabled config = true) /\
  (is_rest_api_server_enabled config = true ->
     is_storage_enabled config = true /\ is_sse_storing_events config = true) /\
  ~ (is_storage_enabled config = true /\ is_postgres_enabled config = true /\ is_sqlite_enabled config = true).
Proof.
  unfold validate_sidecar. rewrite <- not_eq_None_Some.
  destruct (is_rpc_server_enabled config), (is_sse_server_enabled config), (is_storage_enabled config),
    (is_sse_storing_events config), (is_rest_api_server_enabled config), (is_postgres_enabled config),
    (is_sqlite_enabled config); simpl; try case_bool_decide; (split; [intros; simplify_eq|]); try done;
    split_and?; naive_solver.
Qed.

End Accepted.

(** ** The connection to PostgreSQL *)

Section Resolution.
Context (env_var : string -> option string).

(** The value of a field: that of the environment, or else that of the file. *)
Definition setting (key : string) (config_backup : option string) : option string :=
  match env_var key with Some value => Some value | None => config_backup end.

Lemma get_connection_information_Ok (key : string) (config_backup : option string) :
  get_connection_information_from_env env_var key config_backup =
  match setting key config_backup with
  | Some text => Ok text
  | None => Err (FieldNotFound key "Config value not set in ENV vars or config file")
  end.
Proof. unfold get_connection_information_from_env, setting. by destruct (env_var key), config_backup. Qed.

(** A number: that of the environment if it is one, or else that of the file, or the
    default. *)
Definition number_setting (key : string) (max dflt : Z) (config_backup : option Z) : option Z :=
  match env_var key with Some text => parse_unsigned max text | None => Some (default dflt config_backup) end.

Lemma number_from_env_Ok (key field_name : string) (max dflt n : Z) (config_backup : option Z) :
  0 <= default dflt config_backup <= max ->
  number_from_env env_var key field_name max dflt config_backup = Ok n <->
  number_setting key max dflt config_backup = Some n.
Proof.
  intros Hr. unfold number_from_env, number_setting, parse_int. rewrite get_connection_information_Ok. unfold setting.
  destruct (env_var key) as [text|]; [destruct (parse_unsigned max text); simpl; naive_solver|].
  destruct config_backup as [b|]; simpl in *; rewrite parse_unsigned_pretty by lia; simpl; naive_solver.
Qed.

(** How the connection to PostgreSQL is put together.  The configuration is
    accepted with given values exactly when they are these: host, database, user and
    password from the environment, or else from the file, with one of them present;
    the number of connections and the port from the environment, where a text that
    is no number of 32 or 16 bits is refused even if the file has one, or else from
    the file, or 10 and 5432. *)
Theorem postgres_config_resolution (value : PostgresqlConfigSerdeTarget) (config : PostgresqlConfig) :
  (forall n, target_max_connections_in_pool value = Some n -> is_u32 n) ->
  (forall n, target_port value = Some n -> is_u16 n) ->
  PostgresqlConfig_try_from env_var value = Ok config <->
  postgresql_enabled config = target_enabled value /\
  setting "SIDECAR_POSTGRES_HOST" (target_host value) = Some (host config) /\
  setting "SIDECAR_POSTGRES_DATABASE_NAME" (target_database_name value) = Some (database_name config) /\
  setting "SIDECAR_POSTGRES_USERNAME" (target_database_username value) = Some (database_username config) /\
  setting "SIDECAR_POSTGRES_PASSWORD" (target_database_password value) = Some (database_password config) /\
  number_setting "SIDECAR_POSTGRES_MAX_CONNECTIONS" U32_MAX 10 (target_max_connections_in_pool value) =
    Some (postgresql_max_connections_in_pool config) /\
  number_setting "SIDECAR_POSTGRES_PORT" U16_MAX 5432 (target_port value) = Some (postgresql_port config).
Proof.
  intros Hmax Hport.
  assert (0 <= default 10 (target_max_connections_in_pool value) <= U32_MAX) as H1.
  { destruct (target_max_connections_in_pool value) as [n|]; simpl; [by apply Hmax|unfold U32_MAX; lia]. }
  assert (0 <= default 5432 (target_port value) <= U16_MAX) as H2.
  { destruct (target_port value) as [n|]; simpl; [by apply Hport|unfold U16_MAX; lia]. }
  rewrite <- (number_from_env_Ok _ "Max connections" _ _ _ _ H1), <- (number_from_env_Ok _ "Port" _ _ _ _ H2).
  unfold PostgresqlConfig_try_from, DEFAULT_MAX_CONNECTIONS, DEFAULT_PORT. rewrite !get_connection_information_Ok.
  destruct (setting _ (target_host value)), (setting _ (target_database_name value)),
    (setting _ (target_database_username value)), (setting _ (target_database_password value));
    try (simpl; split; [done|by intros (? & ? & ? & ? & ? & ?)]).
  destruct (number_from_env env_var _ _ U32_MAX _ _), (number_from_env env_var _ _ U16_MAX _ _); simpl;
    destruct config; split; simpl; naive_solver.
Qed.

End Resolution.

(** The port of the environment wins, and the default number of connections. *)
Lemma postgres_config_resolution_witness :
  PostgresqlConfig_try_from (fun key => if decide (key = "SIDECAR_POSTGRES_PORT") then Some "6000" else None)
    (mkPostgresqlTarget true (Some "localhost") (Some "events") (Some "user") (Some "secret") None (Some 5432)) =
  Ok (mkPostgresqlConfig true "localhost" "events" "user" "secret" 10 6000).
Proof.
  apply postgres_config_resolution.
  - done.
  - intros n [= <-]. unfold is_u16, U16_MAX. lia.
  - split_and!; reflexivity.
Defined.
