(* ===== verification/AdminServer.v ===== *)
(** * The admin server ([event_sidecar/src/admin_server.rs])

    The routes of the server, over the filters of [RestServer.v], and its start.  The
    server recovers no rejection, so [warp] answers those itself. *)

From S2P Require Import Prelude SseData Reader RestServer Metrics SidecarConfig.

(** [event_sidecar/src/admin_server.rs:73-78], [metrics_handler]. *)
Definition metrics_handler (summary : result string string) : result Rejection RestResponse :=
  match summary with
  | Ok res_custom => Ok (mkRestResponse 200 (DataText res_custom))
  | Err err => Err [Unexpected err]
  end.

(** [event_sidecar/src/admin_server.rs:67-71], [metrics_filter]. *)
Definition metrics_filter (summary : result string string) : Route :=
  path_get (lit "metrics" (path_end (metrics_handler summary))).

(** [event_sidecar/src/admin_server.rs:27-27], [AdminServer::start]: the routes. *)
Definition admin_routes (summary : result string string) : Route := or_else root_filter (metrics_filter summary).

(** How [warp] answers a rejection nobody recovers: a method that is not allowed by 405,
    errors of the server by 500, and otherwise 404; of several the gravest. *)
Definition unhandled_status (err : Rejection) : Z :=
  if existsb (fun c => match c with MethodNotAllowed => false | _ => true end) err then 500
  else if existsb (fun c => match c with MethodNotAllowed => true | _ => false end) err then 405
  else 404.

(** [event_sidecar/src/admin_server.rs:31-31], [AdminServer::start]: [warp::service]; [reply] is
    the text of the answer to a rejection. *)
Definition admin_service (reply : Rejection -> string) (summary : result string string) (r : RestRequest)
    : RestResponse :=
  match admin_routes summary r with
  | Ok answer => answer
  | Err err => mkRestResponse (unhandled_status err) (DataText (reply err))
  end.

(** [event_sidecar/src/admin_server.rs:26-45], [AdminServer::start]: [bind] and [serve] are the
    outcomes of binding the port and of serving; it never ends well. *)
Definition admin_start (bind : Z -> result string unit) (serve : result string unit) (port : Z)
    : result string unit :=
  let? _ := bind port in
  let? _ := serve in
  Err "Admin server shutting down".

(** [event_sidecar/src/admin_server.rs:48-62], [run_server]. *)
Definition run_admin_server (bind : Z -> result string unit) (serve : result string unit) (config : ApiServerConfig)
    : result string Z :=
  if api_enable_server config then let? _ := admin_start bind serve (api_port config) in Ok 0 else Ok 0.

(** What the admin server answers, to every request: [GET /metrics] with the summary,
    or 500 if there is none, another method there with 405, any other path with 404, and
    the root with 500, as nobody recovers the rejection that the root filter is
    documented to answer with 400. *)
Theorem admin_answers (reply : Rejection -> string) (describe : list Z -> string)
    (custom default_registry : result string (list Z)) (r : RestRequest) :
  let summary := metrics_summary describe custom default_registry in
  let answer := admin_service reply summary r in
  match segments r with
  | [] => rest_status answer = 500
  | [segment] =>
      if decide (segment = "metrics") then
        if decide (http_method r = "GET") then
          match summary with
          | Ok text => answer = mkRestResponse 200 (DataText text)
          | Err _ => rest_status answer = 500
          end
        else rest_status answer = 405
      else rest_status answer = 404
  | _ => rest_status answer = 404
  end.
Proof.
  cbv zeta. generalize (metrics_summary describe custom default_registry). intros summary.
  unfold admin_service, admin_routes, or_else, root_filter, metrics_filter, path_get, lit, path_end.
  destruct (segments r) as [|segment [|segment' rest]]; [done|..]; case_decide; try done.
  case_decide; [by destruct summary|done].
Qed.

(** A server that is enabled does not end with success. *)
Lemma run_admin_server_ends (bind : Z -> result string unit) (serve : result string unit) (config : ApiServerConfig) :
  is_ok (run_admin_server bind serve config) = negb (api_enable_server config).
Proof.
  unfold run_admin_server, admin_start. destruct (api_enable_server config); [|done].
  destruct (bind _); simpl; [|done]. by destruct serve.
Qed.
