(* ===== verification/Sidecar.v ===== *)
(** * The process: components and their start

    [sidecar/src/component.rs] and [sidecar/src/run.rs], the database they share
    ([event_sidecar/src/types/database.rs]) and the start of the event sidecar
    ([event_sidecar/src/lib.rs]).  What the components find outside is given by
    [Surroundings]; a component that is started is a task with the values it was
    given, and the tasks run until the first of them ends. *)

From S2P Require Import Prelude SseData EventIndexer EventBuffer EventStream ConnectionManager Listener Sql.
From S2P Require Import Storage Migrations EventHandling RpcServer SidecarConfig.

(** ** The database *)

(** What the process finds around it: connecting to a database gives its contents or
    fails, the node may not be reachable for the RPC server, addresses are parsed as
    URLs, starting a component takes its time, and [ProtocolVersion] has a default. *)
Record Surroundings := mkSurroundings {
  connect_sqlite : string -> SqliteConfig -> result string Database;
  connect_postgresql : PostgresqlConfig -> result string Database;
  clock : Z;
  parse_url : string -> result string unit;
  connect_node : NodeClientConfig -> result string unit;
  start_seconds : string -> Z;
  default_version : ProtocolVersion;
}.

(** [event_sidecar/src/types/database.rs:53-57], [Database]. *)
Inductive DatabaseWrapper :=
| SqliteDatabaseWrapper (db : Database)
| PostgreSqlDatabaseWrapper (db : Database).

Section Database.
Context (sur : Surroundings).

(** A pool on contents, brought up to date. *)
Definition migrated (e : Engine) (connected : result string Database) : result string Database :=
  let? db := connected in
  match apply_all_migrations e (clock sur) db with
  | (Ok _, db) => Ok db
  | (Err _, _) => Err "migrations failed"
  end.

(** [event_sidecar/src/database/sqlite_database.rs:38-66], [SqliteDatabase::new]. *)
Definition SqliteDatabase_new (database_dir : string) (config : SqliteConfig) : result string Database :=
  migrated Sqlite (connect_sqlite sur database_dir config).

(** [event_sidecar/src/database/postgresql_database.rs:37-62], [PostgreSqlDatabase::new]. *)
Definition PostgreSqlDatabase_new (config : PostgresqlConfig) : result string Database :=
  migrated Postgres (connect_postgresql sur config).

(** [event_sidecar/src/types/database.rs:98-114], [Database::build].  The error is the text
    of its context: [Error::to_string] leaves out the cause. *)
Definition Database_build (config : StorageConfig) : result string DatabaseWrapper :=
  match sqlite_config config, postgresql_config config with
  | Some sqlite, _ =>
      let? db := map_err (fun _ => "Error instantiating sqlite database")
                   (SqliteDatabase_new (storage_folder config) sqlite) in
      Ok (SqliteDatabaseWrapper db)
  | None, Some postgresql =>
      let? db := map_err (fun _ => "Error instantiating postgres database") (PostgreSqlDatabase_new postgresql) in
      Ok (PostgreSqlDatabaseWrapper db)
  | None, None => Err "Tried to build database without any enabled database configuration"
  end.

(** The cell the components share; [builds] counts how often the database was
    built. *)
Record Cell := mkCell {
  resource : option (result string DatabaseWrapper);
  builds : nat;
}.

(** [event_sidecar/src/types/database.rs:69-76], [LazyDatabaseWrapper::new]. *)
Definition empty_cell : Cell := mkCell None 0.

(** [event_sidecar/src/types/database.rs:78-83], [LazyDatabaseWrapper::acquire]. *)
Definition acquire (config : StorageConfig) (cell : Cell) : result string DatabaseWrapper * Cell :=
  match resource cell with
  | Some res => (res, cell)
  | None => let res := Database_build config in (res, mkCell (Some res) (S (builds cell)))
  end.

(** ** Components *)

(** [sidecar/src/component.rs:19-29], [ComponentError]. *)
Inductive ComponentError : Set :=
| Initialization (component_name internal_error : string)
| RuntimeError (component_name internal_error : string).

(** [sidecar/src/component.rs:49-68], [Display for ComponentError]. *)
Definition ComponentError_to_string (e : ComponentError) : string :=
  match e with
  | Initialization component_name internal_error =>
      "Error initializing component '" +:+ component_name +:+ "': " +:+ internal_error
  | RuntimeError component_name internal_error =>
      "Error running component '" +:+ component_name +:+ "': " +:+ internal_error
  end.

(** What runs for a component. *)
Inductive ComponentTask :=
| AdminServerTask (config : ApiServerConfig)
| RestServerTask (config : ApiServerConfig) (database : DatabaseWrapper)
| SseServerTask (config : SseEventServerConfig) (index_storage_folder : string)
    (maybe_database : option DatabaseWrapper) (maybe_network_name : option string)
| RpcServerTask (tasks : list RpcServer.Task).

(** [sidecar/src/component.rs:70-86], [Component]. *)
Record Component := mkComponent {
  name : string;
  sets_up_long : bool;
  prepare_component_task : SidecarConfig -> Cell -> result ComponentError (option ComponentTask) * Cell;
}.

(** The error of a database, as an error of a component. *)
Definition database_error (component_name reason : string) : ComponentError :=
  RuntimeError component_name ("DatabaseInitializationError: " +:+ reason).

(** [sidecar/src/component.rs:88-141], [SseServerComponent]. *)
Definition SseServerComponent (lazy_database : option StorageConfig) : Component :=
  mkComponent "sse_event_server" false (fun config cell =>
    match sse_server config, storage config with
    | Some sse_server_config, Some storage_config =>
        if sse_enable_server sse_server_config then
          let start maybe_database :=
            Ok (Some (SseServerTask sse_server_config (storage_folder storage_config) maybe_database
                        (network_name config))) in
          match lazy_database with
          | Some db_config =>
              match acquire db_config cell with
              | (Ok database, cell) => (start (Some database), cell)
              | (Err db_err, cell) => (Err (database_error "sse_event_server" db_err), cell)
              end
          | None => (start None, cell)
          end
        else (Ok None, cell)
    | _, _ => (Ok None, cell)
    end).

(** [sidecar/src/component.rs:143-176], [RestApiComponent]. *)
Definition RestApiComponent (lazy_database : option StorageConfig) : Component :=
  mkComponent "rest_api_server" false (fun config cell =>
    match rest_api_server config, lazy_database with
    | Some config, Some db_config =>
        if api_enable_server config then
          match acquire db_config cell with
          | (Ok database, cell) => (Ok (Some (RestServerTask config database)), cell)
          | (Err db_err, cell) => (Err (database_error "rest_api_server" db_err), cell)
          end
        else (Ok None, cell)
    | _, _ => (Ok None, cell)
    end).

(** [sidecar/src/component.rs:178-205], [AdminApiComponent]. *)
Definition AdminApiComponent : Component :=
  mkComponent "admin_api_server" false (fun config cell =>
    match admin_api_server config with
    | Some config => if api_enable_server config then (Ok (Some (AdminServerTask config)), cell) else (Ok None, cell)
    | None => (Ok None, cell)
    end).

(** [sidecar/src/component.rs:207-262], [RpcApiComponent]. *)
Definition RpcApiComponent : Component :=
  mkComponent "rpc_api_server" true (fun config cell =>
    match rpc_server config with
    | Some rpc_server_config =>
        let is_main_exec_defined := rc_enable_server (main_server rpc_server_config) in
        let is_speculative_exec_defined := is_some_and sc_enable_server (speculative_exec_server rpc_server_config) in
        if negb is_main_exec_defined && negb is_speculative_exec_defined then (Ok None, cell)
        else
          match build_rpc_server rpc_server_config (connect_node sur (node_client rpc_server_config)) with
          | Ok tasks => (Ok (Some (RpcServerTask tasks)), cell)
          | Err err => (Err (Initialization "rpc_api_server" err), cell)
          end
    | None => (Ok None, cell)
    end).

(** ** The run *)

(** [sidecar/src/run.rs:13-14], the time a component has to start, in seconds. *)
Definition DEFAULT_COMPONENT_STARTUP_TIMEOUT : Z := 30.
Definition LONG_COMPONENT_STARTUP_TIMEOUT : Z := 24 * 3600.

Definition startup_timeout (c : Component) : Z :=
  if sets_up_long c then LONG_COMPONENT_STARTUP_TIMEOUT else DEFAULT_COMPONENT_STARTUP_TIMEOUT.

(** The loop of [do_run]: the tasks of the components, in order. *)
Fixpoint prepare_all (config : SidecarConfig) (components : list Component) (cell : Cell)
    : result ComponentError (list ComponentTask) * Cell :=
  match components with
  | [] => (Ok [], cell)
  | c :: components =>
      let startup_duration := startup_timeout c in
      if startup_duration <? start_seconds sur (name c) then
        (Err (Initialization (name c)
                ("Failed to start component " +:+ name c +:+ " in " +:+ pretty startup_duration +:+ "s [s]")), cell)
      else
        match prepare_component_task c config cell with
        | (Err e, cell) => (Err e, cell)
        | (Ok maybe_future, cell) =>
            match prepare_all config components cell with
            | (Ok tasks, cell) => (Ok (option_list maybe_future ++ tasks), cell)
            | (Err e, cell) => (Err e, cell)
            end
        end
  end.

(** The component of a task. *)
Definition task_component (t : ComponentTask) : string :=
  match t with
  | AdminServerTask _ => "admin_api_server"
  | RestServerTask _ _ => "rest_api_server"
  | SseServerTask _ _ _ _ => "sse_event_server"
  | RpcServerTask _ => "rpc_api_server"
  end.

(** [sidecar/src/run.rs:56-89], [do_run]: [first] is the task that ends first, with its
    result. *)
Definition do_run (config : SidecarConfig) (components : list Component) (first : ComponentTask * result string Z)
    : result ComponentError Z :=
  match (prepare_all config components empty_cell).1 with
  | Err e => Err e
  | Ok [] => Ok 0
  | Ok (_ :: _) => map_err (RuntimeError (task_component first.1)) first.2
  end.

(** The components of [run], with the database if the storage is enabled. *)
Definition components_of (config : SidecarConfig) : list Component :=
  let maybe_database := storage_config ← storage config; if is_enabled storage_config then Some storage_config else None in
  [AdminApiComponent; RestApiComponent maybe_database; SseServerComponent maybe_database; RpcApiComponent].

(** What ends the process: a signal, or a task. *)
Inductive Ending :=
| SignalReceived
| TaskEnded (first : ComponentTask * result string Z).

(** [sidecar/src/run.rs:16-54], [run]. *)
Definition run_sidecar (config : SidecarConfig) (ending : Ending) : result string Z :=
  match ending with
  | SignalReceived => Ok 0
  | TaskEnded first => map_err ComponentError_to_string (do_run config (components_of config) first)
  end.

End Database.

(** ** The start of the event sidecar *)

(** [event_sidecar/src/lib.rs:58-58], [DEFAULT_CHANNEL_SIZE]. *)
Definition DEFAULT_CHANNEL_SIZE : Z := 1000.

(** [mpsc::channel] panics when asked for no capacity. *)
Definition mpsc_channel (size : option Z) : option Z :=
  let capacity := default DEFAULT_CHANNEL_SIZE size in if 0 <? capacity then Some capacity else None.

(** [listener/src/types.rs:8-15], [NodeConnectionInterface]. *)
Record NodeConnectionInterface := mkNodeInterface {
  node_ip_address : string;
  node_sse_port : Z;
  node_rest_port : Z;
  node_network_name : option string;
}.

(** [listener/src/lib.rs:33-42], [EventListenerBuilder], with the times in seconds and
    the capacity of its channel. *)
Record EventListenerBuilder := mkListenerBuilder {
  lb_node : NodeConnectionInterface;
  lb_max_connection_attempts : Z;
  lb_delay_between_attempts : Z;
  lb_allow_partial_connection : bool;
  lb_sse_event_sender : Z;
  lb_connection_timeout : Z;
  lb_sleep_between_keep_alive_checks : Z;
  lb_no_message_timeout : Z;
}.

(** [event_sidecar/src/lib.rs:266-298], [builder]. *)
Definition builder (connection : Connection) (inbound_sse_data_sender : Z) (maybe_network_name : option string)
    : EventListenerBuilder :=
  mkListenerBuilder
    (mkNodeInterface (conn_ip_address connection) (conn_sse_port connection) (conn_rest_port connection)
       maybe_network_name)
    (conn_max_attempts connection) (conn_delay_between_retries_in_seconds connection)
    (conn_allow_partial_connection connection) inbound_sse_data_sender
    (default 5 (conn_connection_timeout_in_seconds connection))
    (default 60 (conn_sleep_between_keep_alive_checks_in_seconds connection))
    (default 120 (conn_no_message_timeout_in_seconds connection)).

(** [listener/src/lib.rs:335-338], [status_endpoint]. *)
Definition status_endpoint (ip_address : string) (rest_port : Z) : string :=
  "http://" +:+ ip_address +:+ ":" +:+ pretty rest_port +:+ "/status".

(** [listener/src/lib.rs:47-69], [EventListenerBuilder::build]: the listener's part of it
    that its loop uses. *)
Definition EventListenerBuilder_build (sur : Surroundings) (self : EventListenerBuilder) : result string EventListener :=
  let? _ := parse_url sur (status_endpoint (node_ip_address (lb_node self)) (node_rest_port (lb_node self))) in
  Ok (mkListener (mkMetadata (default_version sur) EmptyString) (node_network_name (lb_node self))
        (Z.to_nat (lb_max_connection_attempts self)) (lb_allow_partial_connection self) []).

(** [event_sidecar/src/lib.rs:245-264], [build_event_listeners]; [None] is a panic. *)
Fixpoint build_event_listeners (sur : Surroundings) (channel_size : option Z) (maybe_network_name : option string)
    (conns : list Connection) : option (result string (list EventListener)) :=
  match conns with
  | [] => Some (Ok [])
  | connection :: conns =>
      sender ← mpsc_channel channel_size;
      match EventListenerBuilder_build sur (builder connection sender maybe_network_name) with
      | Err e => Some (Err e)
      | Ok listener =>
          rest ← build_event_listeners sur channel_size maybe_network_name conns;
          Some (let? listeners := rest in Ok (listener :: listeners))
      end
  end.

(** What the event sidecar starts: the listeners of the nodes, the configuration of
    the event stream server, whether it also serves the legacy streams, and where its
    index is stored. *)
Record Started := mkStarted {
  event_listeners : list EventListener;
  stream_config : Config;
  enable_legacy_filters : bool;
  index_folder : string;
}.

(** [event_sidecar/src/lib.rs:60-92], [run], up to the tasks it starts, with the part of
    [start_event_broadcasting] that makes its configuration. *)
Definition run_sse_sidecar (sur : Surroundings) (config : SseEventServerConfig) (index_storage_folder : string)
    (maybe_network_name : option string) : option (result string Started) :=
  match validate_config (conn_max_attempts <$> connections config) with
  | Err e => Some (Err e)
  | Ok _ =>
      built ← build_event_listeners sur (inbound_channel_size config) maybe_network_name (connections config);
      match built with
      | Err e => Some (Err e)
      | Ok listeners =>
          _ ← mpsc_channel (outbound_channel_size config);
          let server := event_stream_server config in
          Some (Ok (mkStarted listeners
            (Config_new (es_port server) (Some (es_event_stream_buffer_length server))
               (Some (es_max_concurrent_subscribers server)))
            (is_some_and (existsb (fun tag => match tag with LegacyV1 => true end)) (emulate_legacy_sse_apis config))
            index_storage_folder))
      end
  end.

(** [event_sidecar/src/lib.rs:180-232], [spawn_sse_processor]: events are saved if there is
    a database, in a single task if it is SQLite. *)
Definition spawn_sse_processor `{AutoIncrement} (maybe_database : option DatabaseWrapper) (items : list Incoming)
    (st : ApiVersionManager * World) : option (ApiVersionManager * World) :=
  match maybe_database with
  | Some (SqliteDatabaseWrapper _) =>
      sse_processor ((fun it => (DbSavingEventHandlingService it.1, it.2)) <$> items) false st
  | Some (PostgreSqlDatabaseWrapper _) =>
      sse_processor ((fun it => (DbSavingEventHandlingService it.1, it.2)) <$> items) true st
  | None => sse_processor ((fun it => (NoDbEventHandlingService, it.2)) <$> items) true st
  end.

(** [event_sidecar/src/lib.rs:164-177], [start_sse_processors], when the processors of all
    nodes have ended. *)
Definition processors_ended (w : World) : result string unit * World :=
  (Err "Connected node(s) are unavailable", send_outbound w Shutdown None).

(** [event_sidecar/src/lib.rs:122-126], [start_event_broadcasting]: what it received, until
    all senders are gone. *)
Definition start_event_broadcasting (server : EventStreamServer) (received : list (SseData * option Filter))
    : result string unit * EventStreamServer :=
  (Err "Event broadcasting finished", foldl (fun server '(d, f) => broadcast server d f) server received).

(** [event_sidecar/src/lib.rs:101-128], [start_event_broadcasting]: the whole task, from the
    start of the server ([None] is a panic) to the end of its channel, with the
    server that was started. *)
Definition event_broadcasting (host : Host) (port buffer_length max_concurrent_subscribers : Z)
    (index_storage_folder : string) (received : list (SseData * option Filter))
    : option (result string unit * option EventStreamServer) :=
  started ← EventStreamServer_new host
              (Config_new port (Some buffer_length) (Some max_concurrent_subscribers)) index_storage_folder;
  match started with
  | Err e => Some (Err ("Error starting EventStreamServer: " +:+ ListeningError_display e), None)
  | Ok server => let (res, server) := start_event_broadcasting server received in Some (res, Some server)
  end.

(** ** What starts *)

Section Start.
Context (sur : Surroundings).

(** The storage the components share. *)
Definition shared_storage (config : SidecarConfig) : option StorageConfig :=
  storage_config ← storage config; if is_enabled storage_config then Some storage_config else None.

Lemma shared_storage_enabled (config : SidecarConfig) :
  is_storage_enabled config = true <-> is_Some (shared_storage config).
Proof.
  unfold is_storage_enabled, shared_storage. destruct (storage config) as [s|]; simpl; [|split; [done|by intros []]].
  destruct (is_enabled s); split; try done; by intros [].
Qed.

(** Everything outside works: the database can be built, the node is reachable, and
    no component takes too long to start. *)
Record healthy_start (config : SidecarConfig) (db : DatabaseWrapper) : Prop := {
  builds_database : forall s, shared_storage config = Some s -> Database_build sur s = Ok db;
  reaches_node : forall c, rpc_server config = Some c -> connect_node sur (node_client c) = Ok tt;
  in_time : forall name, start_seconds sur name <= DEFAULT_COMPONENT_STARTUP_TIMEOUT;
}.

(** The cell before and after the database was built. *)
Definition cell_of (db : DatabaseWrapper) (built : bool) : Cell :=
  if built then mkCell (Some (Ok db)) 1 else empty_cell.

Lemma acquire_cell (s : StorageConfig) (db : DatabaseWrapper) (built : bool) :
  Database_build sur s = Ok db -> acquire sur s (cell_of db built) = (Ok db, cell_of db true).
Proof. intros Hb. destruct built; [done|]. unfold acquire. simpl. by rewrite Hb. Qed.

Definition admin_tasks (config : SidecarConfig) : list ComponentTask :=
  match admin_api_server config with Some c => if api_enable_server c then [AdminServerTask c] else [] | None => [] end.

Definition rest_tasks (config : SidecarConfig) (db : DatabaseWrapper) : list ComponentTask :=
  match rest_api_server config, shared_storage config with
  | Some c, Some _ => if api_enable_server c then [RestServerTask c db] else []
  | _, _ => []
  end.

Definition sse_tasks (config : SidecarConfig) (db : DatabaseWrapper) : list ComponentTask :=
  match sse_server config, storage config with
  | Some c, Some s =>
      if sse_enable_server c
      then [SseServerTask c (storage_folder s) ((fun _ => db) <$> shared_storage config) (network_name config)] else []
  | _, _ => []
  end.

Definition speculative_enabled (c : RpcServerConfig) : bool :=
  is_some_and sc_enable_server (speculative_exec_server c).

Definition rpc_tasks (config : SidecarConfig) : list ComponentTask :=
  match rpc_server config with
  | Some c =>
      if rc_enable_server (main_server c) || speculative_enabled c
      then match build_rpc_server c (Ok tt) with Ok tasks => [RpcServerTask tasks] | Err _ => [] end else []
  | None => []
  end.

(** Whether a component asks for the database. *)
Definition database_needed (config : SidecarConfig) : bool :=
  is_storage_enabled config && (is_rest_api_server_enabled config || is_sse_server_enabled config).

Section Healthy.
Context (config : SidecarConfig) (db : DatabaseWrapper) (Hh : healthy_start config db).

Lemma prepare_cons (c : Component) (components : list Component) (cell cell' : Cell) (tasks : list ComponentTask) :
  prepare_component_task c config cell = (Ok (head tasks), cell') -> (length tasks <= 1)%nat ->
  prepare_all sur config (c :: components) cell =
  (let (res, cell) := prepare_all sur config components cell' in
   (match res with Ok l => Ok (tasks ++ l) | Err e => Err e end, cell)).
Proof using Hh.
  intros Hp Hl. cbn [prepare_all]. pose proof (in_time _ _ Hh (name c)) as Ht.
  assert ((startup_timeout c <? start_seconds sur (name c)) = false) as ->.
  { apply Z.ltb_ge. unfold startup_timeout, LONG_COMPONENT_STARTUP_TIMEOUT, DEFAULT_COMPONENT_STARTUP_TIMEOUT in *.
    destruct (sets_up_long c); lia. }
  rewrite Hp. destruct (prepare_all sur config components cell') as [[l|e] cell2]; [|done].
  by destruct tasks as [|t [|]]; simpl in *; [..|lia].
Qed.

Lemma prepare_admin (cell : Cell) :
  prepare_component_task AdminApiComponent config cell = (Ok (head (admin_tasks config)), cell).
Proof. unfold admin_tasks. simpl. destruct (admin_api_server config) as [c|]; [|done]. by destruct (api_enable_server c). Qed.

Lemma prepare_rest :
  prepare_component_task (RestApiComponent sur (shared_storage config)) config empty_cell =
  (Ok (head (rest_tasks config db)), cell_of db (is_storage_enabled config && is_rest_api_server_enabled config)).
Proof using Hh.
  destruct Hh as [Hb _ _]. unfold rest_tasks, is_rest_api_server_enabled. simpl.
  destruct (rest_api_server config) as [c|]; simpl; [|by rewrite andb_false_r].
  destruct (shared_storage config) as [s|] eqn:Hs.
  - assert (is_storage_enabled config = true) as -> by (apply shared_storage_enabled; by rewrite Hs).
    destruct (api_enable_server c); [|done]. by rewrite (Hb s eq_refl).
  - destruct (is_storage_enabled config) eqn:He; [|done].
    apply shared_storage_enabled in He as [? ?]. congruence.
Qed.

Lemma prepare_sse (built : bool) :
  prepare_component_task (SseServerComponent sur (shared_storage config)) config (cell_of db built) =
  (Ok (head (sse_tasks config db)), cell_of db (built || is_storage_enabled config && is_sse_server_enabled config)).
Proof using Hh.
  destruct Hh as [Hb _ _]. unfold sse_tasks, is_sse_server_enabled. simpl.
  destruct (sse_server config) as [c|]; simpl; [|by rewrite andb_false_r, orb_false_r].
  destruct (shared_storage config) as [s|] eqn:Hs.
  - assert (is_storage_enabled config = true) as -> by (apply shared_storage_enabled; by rewrite Hs).
    assert (exists s', storage config = Some s') as [s' ->].
    { unfold shared_storage in Hs. destruct (storage config); [eauto|done]. }
    destruct (sse_enable_server c); simpl; [|by rewrite orb_false_r].
    rewrite (acquire_cell s db built (Hb s eq_refl)). by rewrite orb_true_r.
  - assert (is_storage_enabled config = false) as ->.
    { destruct (is_storage_enabled config) eqn:He; [|done]. apply shared_storage_enabled in He as [? ?]. congruence. }
    simpl. rewrite orb_false_r. destruct (storage config); [|done]. by destruct (sse_enable_server c).
Qed.

Lemma prepare_rpc (cell : Cell) :
  prepare_component_task (RpcApiComponent sur) config cell = (Ok (head (rpc_tasks config)), cell).
Proof using Hh.
  destruct Hh as [_ Hr _]. unfold rpc_tasks, speculative_enabled, RpcApiComponent, prepare_component_task.
  destruct (rpc_server config) as [c|]; [|done]. rewrite (Hr c eq_refl).
  assert (exists tasks, build_rpc_server c (Ok tt) = Ok tasks) as [tasks ->] by (by eexists).
  by destruct (rc_enable_server (main_server c)), (is_some_and sc_enable_server _).
Qed.

Lemma prepare_components :
  prepare_all sur config (components_of sur config) empty_cell =
  (Ok (admin_tasks config ++ rest_tasks config db ++ sse_tasks config db ++ rpc_tasks config),
   cell_of db (database_needed config)).
Proof using Hh.
  unfold components_of. fold (shared_storage config).
  rewrite (prepare_cons _ _ _ _ _ (prepare_admin _)), (prepare_cons _ _ _ _ _ prepare_rest),
    (prepare_cons _ _ _ _ _ (prepare_sse _)), (prepare_cons _ _ _ _ _ (prepare_rpc _)).
  - cbn [prepare_all]. rewrite app_nil_r. unfold database_needed. by rewrite <- andb_orb_distrib_r.
  - unfold rpc_tasks. destruct (rpc_server config); [|simpl; lia]. destruct (_ || _); simpl; lia.
  - unfold sse_tasks. destruct (sse_server config), (storage config); try (simpl; lia). destruct (sse_enable_server _); simpl; lia.
  - unfold rest_tasks. destruct (rest_api_server config), (shared_storage config); try (simpl; lia).
    destruct (api_enable_server _); simpl; lia.
  - unfold admin_tasks. destruct (admin_api_server config); [|simpl; lia]. destruct (api_enable_server _); simpl; lia.
Qed.

End Healthy.

(** The names of the components that are to run. *)
Definition enabled_components (config : SidecarConfig) : list string :=
  (if is_some_and api_enable_server (admin_api_server config) then ["admin_api_server"] else []) ++
  (if is_rest_api_server_enabled config then ["rest_api_server"] else []) ++
  (if is_sse_server_enabled config then ["sse_event_server"] else []) ++
  (if is_some_and (fun c => rc_enable_server (main_server c) || speculative_enabled c) (rpc_server config)
   then ["rpc_api_server"] else []).

Lemma task_names (config : SidecarConfig) (db : DatabaseWrapper) :
  validate_sidecar config = Ok tt ->
  task_component <$> (admin_tasks config ++ rest_tasks config db ++ sse_tasks config db ++ rpc_tasks config) =
  enabled_components config.
Proof.
  intros (_ & Hsse & _ & Hrest & _)%validate_sidecar_Ok. rewrite !fmap_app. unfold enabled_components. f_equal; [|f_equal; [|f_equal]].
  - unfold admin_tasks. destruct (admin_api_server config) as [c|]; [|done]. simpl. by destruct (api_enable_server c).
  - unfold rest_tasks, is_rest_api_server_enabled in *. destruct (rest_api_server config) as [c|]; [|done]. simpl in *.
    destruct (api_enable_server c); [|by destruct (shared_storage config)].
    destruct Hrest as [[s Hs]%shared_storage_enabled _]; [done|]. by rewrite Hs.
  - unfold sse_tasks, is_sse_server_enabled in *. destruct (sse_server config) as [c|]; [|done]. simpl in *.
    destruct (sse_enable_server c); [|by destruct (storage config)]. by destruct Hsse as [s ->].
  - unfold rpc_tasks. destruct (rpc_server config) as [c|]; [|done]. simpl. by destruct (_ || _).
Qed.

Lemma in_tasks (config : SidecarConfig) (db : DatabaseWrapper) (t : ComponentTask) :
  t ∈ admin_tasks config ++ rest_tasks config db ++ sse_tasks config db ++ rpc_tasks config ->
  (exists c, t = AdminServerTask c) \/ (exists c, t = RestServerTask c db) \/
  (exists c folder net, t = SseServerTask c folder ((fun _ => db) <$> shared_storage config) net) \/
  (exists l, t = RpcServerTask l).
Proof.
  assert (forall (b : bool) (t' : ComponentTask), t ∈ (if b then [t'] else []) -> t = t') as Hif.
  { intros [] t'; [by intros ?%list_elem_of_singleton|by intros ?%not_elem_of_nil]. }
  rewrite !elem_of_app. intros [Ht|[Ht|[Ht|Ht]]].
  - left. unfold admin_tasks in Ht. destruct (admin_api_server config); [eauto|by apply not_elem_of_nil in Ht].
  - right. left. unfold rest_tasks in Ht.
    destruct (rest_api_server config), (shared_storage config); try (by apply not_elem_of_nil in Ht). eauto.
  - right. right. left. unfold sse_tasks in Ht.
    destruct (sse_server config), (storage config); try (by apply not_elem_of_nil in Ht). eauto.
  - right. right. right. unfold rpc_tasks in Ht. destruct (rpc_server config) as [c|]; [|by apply not_elem_of_nil in Ht].
    simpl in Ht. eauto.
Qed.

(** C26. An accepted configuration starts what it enables.  When the outside works, the
    components of an accepted configuration are prepared in order without an error:
    each of the four servers runs exactly if it is enabled, and at least one does; the
    REST server works on the one database that the event server saves to, which is
    opened once, and not at all if neither of them needs it. *)
Theorem sidecar_starts (config : SidecarConfig) (db : DatabaseWrapper) :
  validate_sidecar config = Ok tt -> healthy_start config db ->
  exists tasks cell, prepare_all sur config (components_of sur config) empty_cell = (Ok tasks, cell) /\
    task_component <$> tasks = enabled_components config /\ tasks <> [] /\
    builds cell = (if is_storage_enabled config && (is_rest_api_server_enabled config || is_sse_server_enabled config)
                   then 1 else 0)%nat /\
    (forall c d, RestServerTask c d ∈ tasks -> d = db) /\
    (forall c folder d net, SseServerTask c folder d net ∈ tasks ->
       d = if is_storage_enabled config then Some db else None).
Proof.
  intros Hv Hh. eexists _, _. split; [by apply prepare_components|].
  rewrite (task_names config db Hv). split; [done|]. split_and!.
  - intros Hnil. pose proof (task_names config db Hv) as Hempty. rewrite Hnil in Hempty. symmetry in Hempty.
    apply validate_sidecar_Ok in Hv as (Hone & _).
    unfold enabled_components in Hempty. apply app_nil in Hempty as [_ Hempty].
    apply app_nil in Hempty as [_ [Hs Hr]%app_nil]. destruct Hone as [H1|H1]; [|by rewrite H1 in Hs].
    unfold is_rpc_server_enabled in H1. destruct (rpc_server config) as [c|]; [|done]. simpl in *. by rewrite H1 in Hr.
  - unfold database_needed. by destruct (_ && _).
  - intros c d [[??]|[(? & [=])|[(? & ? & ? & [=])|[??]]]]%in_tasks; done.
  - intros c folder d net [[??]|[[??]|[(? & ? & ? & [=])|[??]]]]%in_tasks; try done. subst.
    pose proof (shared_storage_enabled config) as He.
    destruct (shared_storage config), (is_storage_enabled config); try done; simpl;
      [by assert (false = true) by by apply He|by destruct (proj1 He eq_refl)].
Qed.

(** The setting [disable_event_persistence] does not keep events from the database.
    With an enabled storage the event server is given the database, whatever the
    setting, and processes the events of the nodes with the service that saves
    them. *)
Theorem persistence_not_disabled `{AutoIncrement} (config : SidecarConfig) (db : DatabaseWrapper)
    (c : SseEventServerConfig) :
  sse_server config = Some c -> sse_enable_server c = true -> disable_event_persistence c = true ->
  is_storage_enabled config = true -> healthy_start config db ->
  exists tasks cell folder, prepare_all sur config (components_of sur config) empty_cell = (Ok tasks, cell) /\
    SseServerTask c folder (Some db) (network_name config) ∈ tasks /\
    forall items st, spawn_sse_processor (Some db) items st = consume_events (with_services items) st.
Proof.
  intros Hc He _ Hs Hh. pose proof (proj1 (shared_storage_enabled config) Hs) as [s Hsh].
  assert (exists s', storage config = Some s') as [s' Hs'].
  { unfold shared_storage in Hsh. destruct (storage config); [eauto|done]. }
  eexists _, _, (storage_folder s'). split; [by apply (prepare_components _ db)|]. split.
  - rewrite !elem_of_app. right. right. left. unfold sse_tasks. rewrite Hc, Hs', He, Hsh. by left.
  - intros items st. unfold spawn_sse_processor. destruct db; apply sse_processor_consumes.
Qed.

End Start.

(** ** From the nodes to the event stream *)

(** The number of events among [l] that get an identifier. *)
Definition numbered (l : list SseData) : nat := length (base.filter (fun d => is_api_version d = false) l).

(** What the queue of the event stream server holds, without identifiers. *)
Definition queued (q : list InboundData) : list (SseData * option Filter) := (fun x => (x.1.2, x.2)) <$> q.

Lemma broadcast_one (server : EventStreamServer) (d : SseData) (f : option Filter) :
  broadcast server d f =
  if is_api_version d then mkServer (sse_data_queue server ++ [(None, d, f)]) (event_indexer server)
  else mkServer (sse_data_queue server ++ [(Some (index (event_indexer server)), d, f)])
         (next_index (event_indexer server)).2.
Proof. by destruct d. Qed.

Lemma broadcast_all (received : list (SseData * option Filter)) (server : EventStreamServer) :
  is_u32 (index (event_indexer server)) ->
  let server' := (start_event_broadcasting server received).2 in
  exists q, sse_data_queue server' = sse_data_queue server ++ q /\ queued q = received /\
    Forall (fun x : InboundData => is_api_version x.1.2 = false -> is_Some x.1.1) q /\
    omap (fun x : InboundData => x.1.1) q = ids_from (index (event_indexer server)) (numbered received.*1) /\
    index (event_indexer server') = wrap_u32 (index (event_indexer server) + Z.of_nat (numbered received.*1)).
Proof.
  simpl. revert server. induction received as [|[d f] received IH]; intros server Hs.
  { exists []. rewrite app_nil_r, Z.add_0_r, wrap_u32_small by done. done. }
  cbn [foldl]. rewrite broadcast_one. unfold numbered. rewrite fmap_cons, filter_cons. cbn [fst].
  destruct (is_api_version d) eqn:Hd.
  - destruct (IH (mkServer (sse_data_queue server ++ [(None, d, f)]) (event_indexer server)) Hs)
      as (q & Hq & Hr & Hsome & Hids & Hi).
    exists ((None, d, f) :: q). rewrite Hq, decide_False by done. simpl. rewrite <- app_assoc.
    split_and!; [done|by rewrite Hr| |done..]. constructor; [|done]. simpl. congruence.
  - destruct (IH (mkServer (sse_data_queue server ++ [(Some (index (event_indexer server)), d, f)])
      (next_index (event_indexer server)).2) (wrap_u32_range _)) as (q & Hq & Hr & Hsome & Hids & Hi).
    exists ((Some (index (event_indexer server)), d, f) :: q). rewrite Hq, decide_True by done.
    cbn [length]. rewrite ids_from_S, Hi. simpl in Hids |- *. unfold u32_wrapping_add in *.
    rewrite ids_from_wrap in Hids. rewrite wrap_u32_idemp, (wrap_u32_small (index _)) by done. simpl.
    split_and!; [by rewrite <- app_assoc|by rewrite Hr|by constructor|by f_equal|f_equal; unfold numbered; lia].
Qed.

Lemma identities_queued (q : list InboundData) :
  omap (fun x : InboundData => identity x.1.2) q = omap identity (reports (queued q)).
Proof.
  induction q as [|[[o d] f] q IH]; [done|]. unfold reports, queued in *. csimpl. rewrite filter_cons.
  destruct d; simpl; rewrite ?decide_True, ?decide_False by done; csimpl; by rewrite IH.
Qed.

(** Every entity is published under one identifier.  The sidecar starts on a
    database set up by the migrations, with the next identifier [start] from the cache
    file, and handles events of any number of nodes, whose saves may fail.  What the
    event loop sends is queued for the subscribers in the order it was sent, with its
    filters; the identifiers in the queue are the consecutive ones from [start] on,
    modulo 2^32, and the indexer is left at the one after them; an entity is in the
    queue with an identifier exactly when some event of it could be saved, and no
    entity is there twice; up to 2^32 events share no identifier.  It is assumed that
    events logged under the same key report the same entity. *)
Theorem entities_numbered `{AutoIncrement} (e : Engine) (at_time : Z) (items : list Incoming) (db : Database)
    (start : Z) (cache : string) :
  apply_all_migrations e at_time ∅ = (Ok tt, db) -> consistent items -> is_u32 start ->
  exists m w, consume_events (with_services items) (started db) = Some (m, w) /\
    let out := sent (outbound_sse_data_sender w) in
    let server := (start_event_broadcasting (mkServer [] (mkIndexer start cache)) out).2 in
    let ids := omap (fun x : InboundData => x.1.1) (sse_data_queue server) in
    queued (sse_data_queue server) = out /\
    ids = ids_from start (numbered out.*1) /\
    index (event_indexer server) = wrap_u32 (start + Z.of_nat (numbered out.*1)) /\
    (forall i, (exists n d f, (Some n, d, f) ∈ sse_data_queue server /\ identity d = Some i) <->
       exists it, it ∈ items /\ identity (incoming_data it) = Some i /\ can_save it = true) /\
    NoDup (omap (fun x : InboundData => identity x.1.2) (sse_data_queue server)) /\
    (Z.of_nat (numbered out.*1) <= 4294967296 -> NoDup ids).
Proof.
  intros Hmig Hcons Hs. destruct (consume_from_start e at_time items db Hmig Hcons) as (m & w & Hc & Hr & _).
  clear Hmig. exists m, w. split; [exact Hc|]. clear Hc. cbv zeta.
  destruct (reference_entities items None []) as [Hnd Hin]. rewrite <- Hr in Hnd, Hin.
  destruct (broadcast_all (sent (outbound_sse_data_sender w)) (mkServer [] (mkIndexer start cache)) Hs)
    as (q & Hq & Hd & Hsome & Hids & Hi).
  cbn [sse_data_queue event_indexer index app] in Hq, Hids, Hi. rewrite Hq, Hids, Hi.
  rewrite <- Hd, <- identities_queued in Hnd, Hin. rewrite Hd.
  split_and!; [done..| |done|apply NoDup_ids_from].
  intros i. transitivity (i ∈ omap (fun x : InboundData => identity x.1.2) q); [|rewrite Hin; set_solver].
  rewrite list_elem_of_omap. split; [intros (n & d & f & Hx & ?); by eexists|].
  intros ([[o d] f] & Hx & Hid). rewrite Forall_forall in Hsome.
  destruct (Hsome _ Hx) as [n Hn]; [by destruct d|]. simpl in Hn, Hid. subst o. by exists n, d, f.
Qed.

(** A section on SQLite that is switched off hides one on PostgreSQL that is switched
    on: the storage counts as disabled. *)
Lemma disabled_sqlite_hides_postgresql (s : StorageConfig) (c : SqliteConfig) :
  sqlite_config s = Some c -> sqlite_enabled c = false -> is_enabled s = false.
Proof. unfold is_enabled. by intros ->. Qed.

(** The setting [max_blocking_thread_count] has no effect: the other setting is used in
    its place. *)
Lemma max_blocking_thread_count_unused (checks : bool) (num_cpus n : Z) (config : SidecarConfig) :
  runtime_threads checks num_cpus config =
  runtime_threads checks num_cpus
    (mkSidecarConfig (max_thread_count config) (Some n) (network_name config) (sse_server config) (rpc_server config)
       (storage config) (rest_api_server config) (admin_api_server config)).
Proof. done. Qed.

(** ** An example *)

Module SampleSidecar.

Definition sur : Surroundings :=
  mkSurroundings (fun _ _ => Ok ∅) (fun _ => Err "no server") 1000 (fun _ => Ok tt) (fun _ => Err "no node")
    (fun _ => 1) (mkVersion 0 0 0).

Definition sqlite : SqliteConfig := mkSqliteConfig true "sqlite_database.db3" 100 1000.

Definition sse (disable : bool) : SseEventServerConfig :=
  mkSseEventServerConfig true (Some [LegacyV1]) None None [] (mkEventStreamServerConfig 19999 100 5000) disable.

Definition config (disable rest : bool) : SidecarConfig :=
  mkSidecarConfig None None (Some "casper") (Some (sse disable)) None
    (Some (mkStorageConfig "/var/lib" (Some sqlite) None)) (Some (mkApiServerConfig rest 18888 50 50)) None.

Definition db : DatabaseWrapper := SqliteDatabaseWrapper (apply_all_migrations Sqlite 1000 ∅).2.

Lemma healthy (disable rest : bool) : healthy_start sur (config disable rest) db.
Proof. split; [intros s [= <-]; reflexivity|done|]. intros. simpl. unfold DEFAULT_COMPONENT_STARTUP_TIMEOUT. lia. Qed.

End SampleSidecar.

(** The event and REST servers, on one database. *)
Lemma sidecar_starts_witness :
  exists tasks cell,
    prepare_all SampleSidecar.sur (SampleSidecar.config false true)
      (components_of SampleSidecar.sur (SampleSidecar.config false true)) empty_cell = (Ok tasks, cell) /\
    task_component <$> tasks = ["rest_api_server"; "sse_event_server"] /\ builds cell = 1%nat.
Proof.
  destruct (sidecar_starts SampleSidecar.sur (SampleSidecar.config false true) SampleSidecar.db)
    as (tasks & cell & Hp & Hn & _ & Hb & _).
  - reflexivity.
  - apply SampleSidecar.healthy.
  - exists tasks, cell. split; [exact Hp|]. split; [exact Hn|exact Hb].
Defined.

(** An accepted configuration with the setting on. *)
Lemma persistence_not_disabled_witness :
  validate_sidecar (SampleSidecar.config true false) = Ok tt /\
  exists tasks cell folder,
    prepare_all SampleSidecar.sur (SampleSidecar.config true false)
      (components_of SampleSidecar.sur (SampleSidecar.config true false)) empty_cell = (Ok tasks, cell) /\
    SseServerTask (SampleSidecar.sse true) folder (Some SampleSidecar.db) (Some "casper") ∈ tasks.
Proof.
  split; [reflexivity|].
  destruct (persistence_not_disabled (H := SampleNodes.counting) SampleSidecar.sur (SampleSidecar.config true false)
    SampleSidecar.db (SampleSidecar.sse true)) as (tasks & cell & folder & Hp & Ht & _); try reflexivity.
  - apply SampleSidecar.healthy.
  - exists tasks, cell, folder. split; [exact Hp|exact Ht].
Defined.

#[local] Existing Instance SampleNodes.counting.

(** Two nodes report a step and a fault, then one shuts down; the indexer stands at the
    last identifier and wraps around. *)
Lemma entities_numbered_witness :
  exists m w, consume_events (with_services SampleNodes.items) (started SampleNodes.store) = Some (m, w) /\
    let out := sent (outbound_sse_data_sender w) in
    let server := (start_event_broadcasting (mkServer [] (mkIndexer 4294967295 "sse_index")) out).2 in
    queued (sse_data_queue server) = out /\
    omap (fun x : InboundData => x.1.1) (sse_data_queue server) = [4294967295; 0; 1].
Proof.
  destruct (entities_numbered Sqlite 1000 SampleNodes.items SampleNodes.store 4294967295 "sse_index")
    as (m & w & Hc & Hq & Hids & _).
  - reflexivity.
  - apply SampleNodes.items_consistent.
  - unfold is_u32, U32_MAX. lia.
  - exists m, w. split; [exact Hc|]. split; [exact Hq|]. rewrite Hids.
    assert ((fun st => numbered (sent (outbound_sse_data_sender st.2)).*1) <$>
      consume_events (with_services SampleNodes.items) (started SampleNodes.store) = Some 3%nat) as Hn
      by (vm_compute; reflexivity).
    rewrite Hc in Hn. injection Hn as ->. reflexivity.
Defined.
