(* ===== verification/Processors.v ===== *)
(** * The event processors as concurrent tasks

    [event_sidecar/src/lib.rs] starts one processor per node.  The processors share the
    database, the newest API version behind a mutex, the bounded channel to the event
    stream server and the bus of the process; a processor on SQLite handles its events
    itself, one on PostgreSQL or without a database passes them through a queue to a
    task of its own.  [EventHandling.v] handles one event in one step; here the steps
    are those between the [await]s: taking an event and saving it, announcing a block,
    sending, and locking for an API version.  The theorems relate every interleaving
    of these steps to the atomic handling of the same events in the order of their
    saves. *)

From S2P Require Import Prelude SseData EventIndexer EventBuffer EventStream ConnectionManager Sql.
From S2P Require Import Storage Migrations EventHandling Sidecar.

(** What goes through the outbound channel. *)
Definition Message : Type := SseData * option Filter.

(** ** One event in its steps *)

(** The processors by their database, as [spawn_sse_processor] tells them apart. *)
Inductive Mode : Set :=
| OnSqlite
| OnPostgreSql
| NoDatabase.

(** [event_sidecar/src/lib.rs:181-232], [spawn_sse_processor]: the service of a
    processor, ... *)
Definition service `{AutoIncrement} (mode : Mode) (env : WriteEnv) : EventHandlingService :=
  match mode with
  | OnSqlite | OnPostgreSql => DbSavingEventHandlingService env
  | NoDatabase => NoDbEventHandlingService
  end.

(** ... and whether its events go through a queue to another task. *)
Definition multi_threaded (mode : Mode) : bool := match mode with OnSqlite => false | _ => true end.

Section Phases.
Context `{AutoIncrement} (mode : Mode).

(** [event_sidecar/src/event_handling_service/db_saving_event_handling_service.rs:63-78],
    [handle_block_added], and the other handlers of a service likewise, up to the [await]
    on the database. *)
Definition save_phase (it : Incoming) (db : Database) : option (result DatabaseWriteError Z) * Database :=
  match mode with
  | NoDatabase => (Some (Ok 0), db)
  | _ =>
      if is_shutdown (incoming_data it) then save_shutdown it.1 (origin it.2) db
      else save it.1 (incoming_data it) (origin it.2) db
  end.

(** [event_sidecar/src/event_handling_service/db_saving_event_handling_service.rs:79-86],
    [handle_block_added]: a block that was saved is announced on the bus. *)
Definition announcement (it : Incoming) (res : result DatabaseWriteError Z) : list SidecarEvent :=
  if is_ok res then option_list (block_notification (incoming_data it)) else [].

(** [event_sidecar/src/event_handling_service.rs:69-98], [handle_database_save_result]: what
    is sent in the end is an event that was saved; a shutdown also when it was saved
    before. *)
Definition outgoing (it : Incoming) (res : result DatabaseWriteError Z) : list Message :=
  let message := (incoming_data it, Some (inbound_filter it.2)) in
  match res with
  | Ok _ => [message]
  | Err (UniqueConstraint _) => if is_shutdown (incoming_data it) then [message] else []
  | Err _ => []
  end.

Definition announce (l : list SidecarEvent) (w : World) : World := foldl send_sidecar w l.

Definition send_all (l : list Message) (w : World) : World := foldl (fun w m => send_outbound w m.1 m.2) w l.

Lemma saving_phases (env : WriteEnv) (e : SseEvent) (m : ApiVersionManager) (w : World) :
  is_api_version (sse_data e) = false ->
  handle_single_event (DbSavingEventHandlingService env) e (m, w) =
  (let (res, db) := if is_shutdown (sse_data e) then save_shutdown env (origin e) (database w)
                    else save env (sse_data e) (origin e) (database w) in
   (fun res => (m, send_all (outgoing (env, e) res)
                     (announce (announcement (env, e) res) (with_database w db)))) <$> res).
Proof.
  intros Hv. unfold outgoing, announcement, incoming_data. cbn [fst snd].
  destruct (is_shutdown (sse_data e)) eqn:Hs.
  - unfold handle_single_event. destruct (sse_data e) eqn:Hd; try done. simpl.
    unfold db_handle_shutdown, saving. by destruct (save_shutdown _ _ _) as [[[n|[]]|] db].
  - destruct (identity (sse_data e)) as [i|] eqn:Hi; [|by destruct (sse_data e)].
    rewrite (handle_entity env e m w i Hi). unfold notify. destruct (save _ _ _ _) as [[[n|[]]|] db]; try done.
    simpl. by destruct (block_notification (sse_data e)).
Qed.

(** The handlers are these three phases. *)
Lemma handle_phases (it : Incoming) (m : ApiVersionManager) (w : World) :
  is_api_version (incoming_data it) = false ->
  handle_single_event (service mode it.1) it.2 (m, w) =
  (let (res, db) := save_phase it (database w) in
   (fun res => (m, send_all (outgoing it res) (announce (announcement it res) (with_database w db)))) <$> res).
Proof.
  unfold save_phase, incoming_data. destruct it as [env e]. cbn [fst snd]. intros Hv.
  destruct w as [db ch bus]. destruct mode; simpl; [apply saving_phases..|]; try done.
  unfold handle_single_event, outgoing, announcement, incoming_data. simpl. by destruct (sse_data e).
Qed.

(** Both services send a version as it is. *)
Lemma service_version (env : WriteEnv) (v : ProtocolVersion) (f : Filter) (w : World) :
  handle_api_version (service mode env) v f w = Some (send_outbound w (ApiVersion v) (Some f)).
Proof. by destruct mode. Qed.

End Phases.

(** ** The tasks *)

(** Where a task is in the handling of an event: it waits for one, it holds the mutex
    and sends a version, the event is saved, a block is announced, or it panicked. *)
Inductive Phase : Type :=
| Waiting
| Locked (version : ProtocolVersion) (filter : Filter)
| AfterSave (it : Incoming) (res : result DatabaseWriteError Z)
| AfterAnnouncement (it : Incoming) (res : result DatabaseWriteError Z)
| Panicked.

(** A processor: the events its node will still deliver, the queue to the second task
    (empty on SQLite), and what the task that handles events is doing. *)
Record Processor := mkProcessor {
  inbound : list Incoming;
  queue : list Incoming;
  phase : Phase;
}.

(** All tasks with what they share.  The last two fields are history: the events in
    the order they were saved, and the messages in the order they were sent, both with
    the processor ([None]: the task that waits for all of them). *)
Record Tasks := mkTasks {
  shared_database : Database;
  shared_manager : ApiVersionManager;
  mutex_held : bool;
  channel : list Message;
  bus : list SidecarEvent;
  stream_server : EventStreamServer;
  processors : list Processor;
  ended : bool;
  saves : list (nat * Incoming);
  sends : list (option nat * Message);
}.

Definition set_processor (s : Tasks) (n : nat) (p : Processor) : Tasks :=
  mkTasks (shared_database s) (shared_manager s) (mutex_held s) (channel s) (bus s) (stream_server s)
    (<[n := p]> (processors s)) (ended s) (saves s) (sends s).

(** The mutex with the manager behind it. *)
Definition set_manager (s : Tasks) (m : ApiVersionManager) (held : bool) : Tasks :=
  mkTasks (shared_database s) m held (channel s) (bus s) (stream_server s) (processors s) (ended s)
    (saves s) (sends s).

Definition set_database (s : Tasks) (db : Database) : Tasks :=
  mkTasks db (shared_manager s) (mutex_held s) (channel s) (bus s) (stream_server s) (processors s) (ended s)
    (saves s) (sends s).

Definition set_bus (s : Tasks) (b : list SidecarEvent) : Tasks :=
  mkTasks (shared_database s) (shared_manager s) (mutex_held s) (channel s) b (stream_server s) (processors s)
    (ended s) (saves s) (sends s).

Definition record_save (s : Tasks) (n : nat) (it : Incoming) : Tasks :=
  mkTasks (shared_database s) (shared_manager s) (mutex_held s) (channel s) (bus s) (stream_server s)
    (processors s) (ended s) (saves s ++ [(n, it)]) (sends s).

Section System.
Context `{AutoIncrement} (mode : Mode) (capacity : nat).

(** [Sender::send] on the bounded channel: it waits while the channel is full. *)
Definition send_message (s : Tasks) (sender : option nat) (m : Message) : option Tasks :=
  if decide (length (channel s) < capacity)%nat
  then Some (mkTasks (shared_database s) (shared_manager s) (mutex_held s) (channel s ++ [m]) (bus s)
    (stream_server s) (processors s) (ended s) (saves s) (sends s ++ [(sender, m)]))
  else None.

(** [event_sidecar/src/lib.rs:497-509], [start_multi_threaded_events_consumer]: the next
    event goes to the queue of its filter; without such a queue the processor ends, and
    with the other task gone [unwrap] panics. *)
Definition forward (s : Tasks) (n : nat) : option Tasks :=
  p ← processors s !! n;
  match inbound p with
  | [] => None
  | it :: rest =>
      if negb (multi_threaded mode) then None
      else if decide (inbound_filter it.2 ∈ build_queues) then
        match phase p with
        | Panicked => Some (set_processor s n (mkProcessor [] (queue p) Panicked))
        | _ =>
            if Z.of_nat (length (queue p)) <? DEFAULT_CHANNEL_SIZE
            then Some (set_processor s n (mkProcessor rest (queue p ++ [it]) (phase p)))
            else None
        end
      else Some (set_processor s n (mkProcessor [] (queue p) (phase p)))
  end.

(** The events the task of a processor receives, and the processor without the first. *)
Definition receiver (p : Processor) : list Incoming := if multi_threaded mode then queue p else inbound p.

Definition received (p : Processor) (ph : Phase) : Processor :=
  if multi_threaded mode then mkProcessor (inbound p) (tail (queue p)) ph
  else mkProcessor (tail (inbound p)) (queue p) ph.

(** [event_sidecar/src/lib.rs:404-413], [handle_api_version], up to the sending: it waits
    for the mutex, and keeps it if the version is newer. *)
Definition lock_version (s : Tasks) (n : nat) (p : Processor) (it : Incoming) (v : ProtocolVersion) : option Tasks :=
  if mutex_held s then None
  else
    let (changed_newest_version, m) := store_version (shared_manager s) v in
    let ph := if changed_newest_version then Locked v (inbound_filter it.2) else Waiting in
    Some (record_save (set_manager (set_processor s n (received p ph)) m changed_newest_version) n it).

(** [event_sidecar/src/lib.rs:452-470], [handle_events_in_thread], and the loop of
    [start_single_threaded_events_consumer]: the next event, up to the end of its save. *)
Definition take_event (s : Tasks) (n : nat) : option Tasks :=
  p ← processors s !! n;
  match phase p, receiver p with
  | Waiting, it :: _ =>
      match incoming_data it with
      | ApiVersion v => lock_version s n p it v
      | _ =>
          let (res, db) := save_phase mode it (shared_database s) in
          match res with
          | None => Some (set_database (set_processor s n (received p Panicked)) db)
          | Some res => Some (record_save (set_database (set_processor s n (received p (AfterSave it res))) db) n it)
          end
      end
  | _, _ => None
  end.

(** [event_sidecar/src/event_handling_service/db_saving_event_handling_service.rs:79-86],
    [handle_block_added]: the announcement; other events have none. *)
Definition announce_event (s : Tasks) (n : nat) : option Tasks :=
  p ← processors s !! n;
  match phase p with
  | AfterSave it res =>
      Some (set_bus (set_processor s n (mkProcessor (inbound p) (queue p) (AfterAnnouncement it res)))
              (bus s ++ announcement it res))
  | _ => None
  end.

(** [event_sidecar/src/event_handling_service/db_saving_event_handling_service.rs:87-95],
    [handle_block_added], and the other handlers likewise, in their end: the event is sent
    if it is to be, or the version is sent and the mutex released. *)
Definition send_event (s : Tasks) (n : nat) : option Tasks :=
  p ← processors s !! n;
  let s' := set_processor s n (mkProcessor (inbound p) (queue p) Waiting) in
  match phase p with
  | AfterAnnouncement it res =>
      match outgoing it res with
      | m :: _ => send_message s' (Some n) m
      | [] => Some s'
      end
  | Locked v f => send_message (set_manager s' (shared_manager s') false) (Some n) (ApiVersion v, Some f)
  | _ => None
  end.

(** [event_sidecar/src/lib.rs:122-124], [start_event_broadcasting]: one message goes to the
    event stream server. *)
Definition broadcast_message (s : Tasks) : option Tasks :=
  match channel s with
  | [] => None
  | m :: rest =>
      Some (mkTasks (shared_database s) (shared_manager s) (mutex_held s) rest (bus s)
        (broadcast (stream_server s) m.1 m.2) (processors s) (ended s) (saves s) (sends s))
  end.

(** [event_sidecar/src/lib.rs:421-450], [sse_processor]: the task is over when its node
    delivers no more events and, if it handles them itself, it handled all. *)
Definition processor_done (p : Processor) : bool :=
  match inbound p, phase p with
  | [], Waiting | [], Panicked => true
  | [], _ => multi_threaded mode
  | _, Panicked => negb (multi_threaded mode)
  | _, _ => false
  end.

(** [event_sidecar/src/lib.rs:164-168], [start_sse_processors]: when all are over, a last
    shutdown is sent. *)
Definition end_processors (s : Tasks) : option Tasks :=
  if negb (ended s) && forallb processor_done (processors s)
  then send_message (mkTasks (shared_database s) (shared_manager s) (mutex_held s) (channel s) (bus s)
    (stream_server s) (processors s) true (saves s) (sends s)) None (Shutdown, None)
  else None.

(** One step of one task. *)
Inductive Action : Set :=
| Forward (n : nat)
| TakeEvent (n : nat)
| Announce (n : nat)
| SendEvent (n : nat)
| Broadcast
| EndProcessors.

#[export] Instance Action_eq_dec : EqDecision Action.
Proof. solve_decision. Defined.

Definition act (s : Tasks) (a : Action) : option Tasks :=
  match a with
  | Forward n => forward s n
  | TakeEvent n => take_event s n
  | Announce n => announce_event s n
  | SendEvent n => send_event s n
  | Broadcast => broadcast_message s
  | EndProcessors => end_processors s
  end.

(** A run of the tasks, in the order the scheduler gives. *)
Fixpoint run (s : Tasks) (actions : list Action) : option Tasks :=
  match actions with
  | [] => Some s
  | a :: actions => s' ← act s a; run s' actions
  end.

End System.

(** [event_sidecar/src/lib.rs:129-162], [start_sse_processors]: the start, by the events the
    nodes will deliver. *)
Definition start_tasks (db : Database) (server : EventStreamServer) (nodes : list (list Incoming)) : Tasks :=
  mkTasks db ApiVersionManager_new false [] [] server ((fun events => mkProcessor events [] Waiting) <$> nodes)
    false [] [].

(** ** What is under way *)

(** What a task still has to send, and to announce. *)
Definition owed_by (p : Processor) : list Message :=
  match phase p with
  | Locked v f => [(ApiVersion v, Some f)]
  | AfterSave it res | AfterAnnouncement it res => outgoing it res
  | Waiting | Panicked => []
  end.

Definition due_by (p : Processor) : list SidecarEvent :=
  match phase p with AfterSave it res => announcement it res | _ => [] end.

Definition owed (s : Tasks) : list Message := processors s ≫= owed_by.

Definition due (s : Tasks) : list SidecarEvent := processors s ≫= due_by.

(** The messages that processors sent, those of one of them, and its saves. *)
Definition event_sends (s : Tasks) : list Message :=
  omap (fun x : option nat * Message => (fun _ => x.2) <$> x.1) (sends s).

Definition sends_of (n : nat) (s : Tasks) : list Message :=
  omap (fun x : option nat * Message => if decide (x.1 = Some n) then Some x.2 else None) (sends s).

Definition saves_of (n : nat) (s : Tasks) : list Incoming :=
  omap (fun x : nat * Incoming => if decide (x.1 = n) then Some x.2 else None) (saves s).

Definition versions (l : list Message) : list ProtocolVersion := omap protocol_version_of l.*1.

Lemma versions_app (l1 l2 : list Message) : versions (l1 ++ l2) = versions l1 ++ versions l2.
Proof. unfold versions. by rewrite fmap_app, omap_app. Qed.

#[export] Instance versions_perm : Proper ((≡ₚ) ==> (≡ₚ)) versions.
Proof. intros l1 l2 Hl. unfold versions. by rewrite Hl. Qed.

Lemma versions_outgoing (it : Incoming) (res : result DatabaseWriteError Z) :
  is_api_version (incoming_data it) = false -> versions (outgoing it res) = [].
Proof.
  unfold outgoing, versions. intros Hv.
  destruct res as [|[]]; try done; [|destruct (is_shutdown _)]; try done; simpl; by destruct (incoming_data it).
Qed.

(** At most one message is owed for an event. *)
Lemma outgoing_cases (it : Incoming) (res : result DatabaseWriteError Z) :
  outgoing it res = [] \/ outgoing it res = [(incoming_data it, Some (inbound_filter it.2))].
Proof. unfold outgoing. destruct res as [|[]]; auto. destruct (is_shutdown _); auto. Qed.

(** Replacing one element replaces its part. *)
Lemma bind_insert {A B} (f : A -> list B) (l : list A) (n : nat) (x y : A) :
  l !! n = Some x -> exists rest, l ≫= f ≡ₚ f x ++ rest /\ <[n := y]> l ≫= f ≡ₚ f y ++ rest.
Proof.
  intros Hx. exists ((take n l ≫= f) ++ (drop (S n) l ≫= f)).
  rewrite <- (take_drop_middle l n x Hx) at 1. rewrite (insert_take_drop l n y) by by eapply lookup_lt_Some.
  rewrite !bind_app, !bind_cons. split; rewrite !(Permutation_app_swap_app (take n l ≫= f)); done.
Qed.

(** *** Sending in the atomic world *)

Lemma send_all_open (l : list Message) (w : World) :
  accepts (outbound_sse_data_sender w) = None ->
  send_all l w = mkWorld (database w) (mkChannel (sent (outbound_sse_data_sender w) ++ l) None)
    (sidecar_event_sender w).
Proof.
  unfold send_all. revert w. induction l as [|[d f] l IH]; intros [db [snt acc] b] Ha; simpl in *; subst.
  - by rewrite app_nil_r.
  - rewrite IH by done. simpl. by rewrite <- app_assoc.
Qed.

Lemma announce_bus (l : list SidecarEvent) (w : World) :
  announce l w = mkWorld (database w) (outbound_sse_data_sender w) ((fun b => b ++ l) <$> sidecar_event_sender w).
Proof.
  unfold announce. revert w. induction l as [|n l IH]; intros [db ch b]; simpl.
  - by destruct b; simpl; rewrite ?app_nil_r.
  - rewrite IH. simpl. by destruct b; simpl; rewrite <- ?app_assoc.
Qed.

Lemma consume_events_app (l1 l2 : list (EventHandlingService * SseEvent)) (st : ApiVersionManager * World) :
  consume_events (l1 ++ l2) st = (st' ← consume_events l1 st; consume_events l2 st').
Proof.
  revert st. induction l1 as [|[ehs e] l1 IH]; intros st; [done|]. simpl.
  destruct (handle_single_event ehs e st) as [st'|]; simpl; [apply IH|done].
Qed.

(** ** The invariant of the tasks *)

Section Interleavings.
Context `{AutoIncrement} (mode : Mode) (capacity : nat) (db : Database) (server : EventStreamServer)
  (nodes : list (list Incoming)) (sound : Database -> Prop).
Hypothesis sound_start : sound db.
Hypothesis save_total : forall it db, it ∈ concat nodes -> is_api_version (incoming_data it) = false -> sound db ->
  exists res db', save_phase mode it db = (Some res, db') /\ sound db'.

(** The events handled one after the other. *)
Definition atomic (items : list Incoming) : option (ApiVersionManager * World) :=
  consume_events ((fun it => (service mode it.1, it.2)) <$> items) (started db).

(** A task did not panic, and a version is not saved. *)
Definition phase_ok (ph : Phase) : Prop :=
  match ph with
  | Waiting | Locked _ _ => True
  | AfterSave it _ | AfterAnnouncement it _ => is_api_version (incoming_data it) = false
  | Panicked => False
  end.

(** The steps of tasks that did not panic. *)
Inductive step (s : Tasks) : Tasks -> Prop :=
| step_forward n p it rest :
    processors s !! n = Some p -> multi_threaded mode = true -> inbound p = it :: rest ->
    step s (set_processor s n (mkProcessor rest (queue p ++ [it]) (phase p)))
| step_version n p it v m changed :
    processors s !! n = Some p -> phase p = Waiting -> head (receiver mode p) = Some it ->
    incoming_data it = ApiVersion v -> mutex_held s = false -> store_version (shared_manager s) v = (changed, m) ->
    step s (record_save (set_manager (set_processor s n
      (received mode p (if changed then Locked v (inbound_filter it.2) else Waiting))) m changed) n it)
| step_save n p it res db' :
    processors s !! n = Some p -> phase p = Waiting -> head (receiver mode p) = Some it ->
    is_api_version (incoming_data it) = false -> save_phase mode it (shared_database s) = (Some res, db') ->
    step s (record_save (set_database (set_processor s n (received mode p (AfterSave it res))) db') n it)
| step_announce n p it res :
    processors s !! n = Some p -> phase p = AfterSave it res ->
    step s (set_bus (set_processor s n (mkProcessor (inbound p) (queue p) (AfterAnnouncement it res)))
      (bus s ++ announcement it res))
| step_nothing n p it res :
    processors s !! n = Some p -> phase p = AfterAnnouncement it res -> outgoing it res = [] ->
    step s (set_processor s n (mkProcessor (inbound p) (queue p) Waiting))
| step_send n p m s' :
    processors s !! n = Some p -> owed_by p = [m] -> due_by p = [] ->
    send_message capacity
      (set_manager (set_processor s n (mkProcessor (inbound p) (queue p) Waiting)) (shared_manager s)
         (match phase p with Locked _ _ => false | _ => mutex_held s end)) (Some n) m = Some s' ->
    step s s'
| step_broadcast s' : broadcast_message s = Some s' -> step s s'
| step_end s' : end_processors mode capacity s = Some s' -> step s s'.

(** The events of a node are where they were, or saved in order; what was sent of them
    and what is owed keeps that order; and the event stream server got what was sent. *)
Record tracked (s : Tasks) : Prop := {
  tr_alive : Forall (fun p => phase_ok (phase p)) (processors s);
  tr_queue : multi_threaded mode = false -> Forall (fun p => queue p = []) (processors s);
  tr_nodes : forall n, nodes !! n = (fun p => saves_of n s ++ queue p ++ inbound p) <$> processors s !! n;
  tr_order : forall n p, processors s !! n = Some p ->
    (sends_of n s ++ owed_by p).*1 `sublist_of` (incoming_data <$> saves_of n s);
  tr_saves : Forall (fun x => x.1 < length nodes)%nat (saves s);
  tr_last : Forall (fun x => x.1 = None -> x.2 = (Shutdown, None)) (sends s);
  tr_server : exists got, stream_server s = (start_event_broadcasting server got).2 /\ got ++ channel s = (sends s).*2;
}.

(** The atomic handling of the events in the order of their saves leads to the same
    database and manager, and sends the same but for what is under way. *)
Record linear (s : Tasks) (w : World) : Prop := {
  lin_run : atomic (saves s).*2 = Some (shared_manager s, w);
  lin_open : accepts (outbound_sse_data_sender w) = None;
  lin_database : database w = shared_database s;
  lin_sound : sound (shared_database s);
  lin_sent : sent (outbound_sse_data_sender w) ≡ₚ event_sends s ++ owed s;
  lin_bus : exists b, sidecar_event_sender w = Some b /\ b ≡ₚ bus s ++ due s;
  lin_versions : versions (sent (outbound_sse_data_sender w)) = versions (event_sends s) ++ versions (owed s);
  lin_mutex : length (versions (owed s)) = (if mutex_held s then 1 else 0)%nat;
}.

Lemma tracked_member (s : Tasks) (n : nat) (p : Processor) (it : Incoming) :
  tracked s -> processors s !! n = Some p -> it ∈ queue p ++ inbound p -> it ∈ concat nodes.
Proof.
  intros Ht Hp Hit. pose proof (tr_nodes s Ht n) as Hn. rewrite Hp in Hn. simpl in Hn.
  apply list_elem_of_In, in_concat. eexists. split; [apply list_elem_of_In, (list_elem_of_lookup_2 _ _ _ Hn)|].
  apply list_elem_of_In, elem_of_app. by right.
Qed.

Lemma receiver_member (p : Processor) (it : Incoming) :
  head (receiver mode p) = Some it -> it ∈ queue p ++ inbound p.
Proof.
  unfold receiver. intros Hh%head_Some_elem_of. apply elem_of_app. destruct (multi_threaded mode); [by left|by right].
Qed.

Lemma tracked_phase (s : Tasks) (n : nat) (p : Processor) :
  tracked s -> processors s !! n = Some p -> phase_ok (phase p).
Proof. intros Ht Hp. by apply (Forall_lookup_1 _ _ _ _ (tr_alive s Ht) Hp). Qed.

(** A task that did not panic takes these steps. *)
Lemma act_step (s s' : Tasks) (a : Action) :
  tracked s -> sound (shared_database s) -> act mode capacity s a = Some s' -> step s s'.
Proof using save_total.
  intros Ht Hs. destruct a as [n|n|n|n| |]; simpl; [..|by constructor|by constructor].
  - unfold forward. destruct (processors s !! n) as [p|] eqn:Hp; [|done]. simpl.
    destruct (inbound p) as [|it rest] eqn:Hin; [done|].
    destruct (multi_threaded mode) eqn:Hm; [|done]. simpl.
    rewrite decide_True by (destruct (inbound_filter it.2); by left).
    pose proof (tracked_phase s n p Ht Hp) as Ha.
    destruct (phase p) eqn:Hph; try done; (case_match; [|done]); intros [= <-];
      rewrite <- Hph; by econstructor.
  - unfold take_event. destruct (processors s !! n) as [p|] eqn:Hp; [|done]. simpl.
    destruct (phase p) eqn:Hph; try done. destruct (receiver mode p) as [|it rest] eqn:Hr; [done|].
    assert (head (receiver mode p) = Some it) as Hh by by rewrite Hr.
    destruct (is_api_version (incoming_data it)) eqn:Hv.
    + destruct (incoming_data it) as [v| | | | | | | |] eqn:Hd; try done. unfold lock_version.
      destruct (mutex_held s) eqn:Hm; [done|]. destruct (store_version (shared_manager s) v) as [changed m] eqn:Hst.
      intros [= <-]. by eapply step_version.
    + destruct (save_total it (shared_database s)) as (res & db' & Hsave & _);
        [by eapply tracked_member, receiver_member|done..|].
      intros Hact. assert (s' = record_save (set_database (set_processor s n (received mode p (AfterSave it res))) db')
        n it) as -> by (destruct (incoming_data it); try done; rewrite Hsave in Hact; by injection Hact).
      by eapply step_save.
  - unfold announce_event. destruct (processors s !! n) as [p|] eqn:Hp; [|done]. simpl.
    destruct (phase p) eqn:Hph; try done. intros [= <-]. by eapply step_announce.
  - unfold send_event. destruct (processors s !! n) as [p|] eqn:Hp; [|done]. simpl.
    destruct (phase p) as [|v f| |it res|] eqn:Hph; try done.
    + intros Hsend. eapply (step_send s n p); [done|by unfold owed_by; rewrite Hph|by unfold due_by; rewrite Hph|].
      by rewrite Hph.
    + destruct (outgoing it res) as [|m l] eqn:Ho; [intros [= <-]; by eapply step_nothing|].
      intros Hsend. eapply (step_send s n p); [done|unfold owed_by; rewrite Hph|by unfold due_by; rewrite Hph|].
      * destruct (outgoing_cases it res) as [Ho'|Ho']; rewrite Ho' in Ho |- *; by simplify_eq.
      * rewrite Hph. by destruct s.
Qed.

(** *** The steps keep the events in order *)

Lemma saves_of_app (s s' : Tasks) (n m : nat) (its : list Incoming) :
  saves s' = saves s ++ (pair n <$> its) -> saves_of m s' = saves_of m s ++ (if decide (n = m) then its else []).
Proof.
  unfold saves_of. intros ->. rewrite omap_app. f_equal.
  induction its as [|it its IH]; csimpl; [by case_decide|]. rewrite IH. by case_decide.
Qed.

Lemma sends_of_app (s s' : Tasks) (n m : nat) (ms : list Message) :
  sends s' = sends s ++ (pair (Some n) <$> ms) ->
  sends_of m s' = sends_of m s ++ (if decide (n = m) then ms else []).
Proof.
  unfold sends_of. intros ->. rewrite omap_app. f_equal.
  induction ms as [|x ms IH]; csimpl; [by case_decide|]. rewrite IH. repeat case_decide; naive_solver.
Qed.

Lemma event_sends_app (s s' : Tasks) (n : nat) (ms : list Message) :
  sends s' = sends s ++ (pair (Some n) <$> ms) -> event_sends s' = event_sends s ++ ms.
Proof.
  unfold event_sends. intros ->. rewrite omap_app. f_equal. induction ms as [|x ms IH]; csimpl; by rewrite ?IH.
Qed.

(** A step of processor [n], from [p] to [p'], that saves [its] and sends [ms]. *)
Record moves (s s' : Tasks) (n : nat) (p p' : Processor) (its : list Incoming) (ms : list Message) : Prop := {
  mv_from : processors s !! n = Some p;
  mv_to : processors s' = <[n := p']> (processors s);
  mv_saves : saves s' = saves s ++ (pair n <$> its);
  mv_sends : sends s' = sends s ++ (pair (Some n) <$> ms);
  mv_channel : channel s' = channel s ++ ms;
  mv_server : stream_server s' = stream_server s;
}.

Lemma tracked_moves (s s' : Tasks) (n : nat) (p p' : Processor) (its : list Incoming) (ms : list Message) :
  moves s s' n p p' its ms -> phase_ok (phase p') ->
  (multi_threaded mode = false -> queue p = [] -> queue p' = []) ->
  ((multi_threaded mode = false -> queue p = []) -> queue p ++ inbound p = its ++ queue p' ++ inbound p') ->
  (ms ++ owed_by p').*1 `sublist_of` (owed_by p).*1 ++ (incoming_data <$> its) ->
  tracked s -> tracked s'.
Proof.
  intros [Hp Hp' Hsv Hsd Hch Hsr] Hph Hq Hqueue Hord [Ha Hs Hn Ho Hlt Hlast (got & Hg & Hgot)].
  assert (multi_threaded mode = false -> queue p = []) as Hs' by (intros Hm; by apply (Forall_lookup_1 _ _ _ _ (Hs Hm) Hp)).
  assert (n < length (processors s))%nat as Hlen by by eapply lookup_lt_Some.
  split.
  - rewrite Hp'. by apply Forall_insert.
  - intros Hm. rewrite Hp'. apply Forall_insert; auto.
  - intros m. rewrite Hn, Hp', (saves_of_app s s' n m its Hsv). destruct (decide (n = m)) as [<-|Hne].
    + rewrite list_lookup_insert_eq, Hp by done. simpl. by rewrite (Hqueue Hs'), <- app_assoc.
    + rewrite list_lookup_insert_ne by done. by rewrite app_nil_r.
  - intros m q Hq'. rewrite Hp' in Hq'. rewrite (saves_of_app s s' n m its Hsv), (sends_of_app s s' n m ms Hsd).
    destruct (decide (n = m)) as [<-|Hne].
    + rewrite list_lookup_insert_eq in Hq' by done. injection Hq' as <-.
      rewrite <- app_assoc, fmap_app. etrans; [by apply sublist_app|].
      rewrite app_assoc, <- fmap_app, (fmap_app incoming_data). apply sublist_app; [by apply Ho|done].
    + rewrite list_lookup_insert_ne in Hq' by done. rewrite !app_nil_r. by apply Ho.
  - rewrite Hsv. apply Forall_app. split; [done|]. apply Forall_fmap, Forall_true. intros it. simpl.
    pose proof (Hn n) as Hnn. rewrite Hp in Hnn. by eapply lookup_lt_Some.
  - rewrite Hsd. apply Forall_app. split; [done|]. by apply Forall_fmap, Forall_true.
  - exists got. rewrite Hsr, Hch, Hsd, fmap_app, <- Hgot, <- app_assoc. split; [done|]. do 2 f_equal.
    rewrite <- list_fmap_compose. by rewrite list_fmap_id.
Qed.

(** *** The steps follow the atomic handling *)

Lemma short_perm {A} (l1 l2 : list A) : l1 ≡ₚ l2 -> (length l1 <= 1)%nat -> l1 = l2.
Proof.
  destruct l1 as [|x [|]]; simpl; [..|lia].
  - by intros ->%Permutation_nil_l.
  - by intros ->%Permutation_singleton_l.
Qed.

Definition held (b : bool) : nat := if b then 1%nat else 0%nat.

(** [w'] is the atomic world after the saved events, in which [out] was sent and [ann]
    announced: then or now, or owed and due. *)
Lemma linear_moves (s s' : Tasks) (w w' : World) (n : nat) (p p' : Processor) (its : list Incoming)
    (ms out : list Message) (now ann : list SidecarEvent) :
  moves s s' n p p' its ms ->
  consume_events ((fun it => (service mode it.1, it.2)) <$> its) (shared_manager s, w) = Some (shared_manager s', w') ->
  w' = mkWorld (shared_database s') (mkChannel (sent (outbound_sse_data_sender w) ++ out) None)
    ((fun b => b ++ ann) <$> sidecar_event_sender w) ->
  sound (shared_database s') -> bus s' = bus s ++ now ->
  out ++ owed_by p ≡ₚ ms ++ owed_by p' -> ann ++ due_by p ≡ₚ now ++ due_by p' ->
  (held (mutex_held s) + length (versions out) <= 1)%nat ->
  (held (mutex_held s) + length (versions out) = held (mutex_held s') + length (versions ms))%nat ->
  linear s w -> linear s' w'.
Proof.
  intros [Hp Hp' Hsv Hsd _ _] Hc -> Hsnd Hbus Hout Hann Hone Heq [Hrun Hop Hdb _ Hsent (b & Hb & Hbp) Hver Hmut].
  destruct (bind_insert owed_by (processors s) n p p' Hp) as (ro & Ho & Ho').
  destruct (bind_insert due_by (processors s) n p p' Hp) as (rd & Hd & Hd').
  assert (owed s ++ out ≡ₚ ms ++ owed s') as Howed.
  { unfold owed. rewrite Hp', Ho, Ho', (Permutation_app_comm _ out), !app_assoc. by rewrite Hout. }
  assert (due s ++ ann ≡ₚ now ++ due s') as Hdue.
  { unfold due. rewrite Hp', Hd, Hd', (Permutation_app_comm _ ann), !app_assoc. by rewrite Hann. }
  assert (versions (owed s) ++ versions out = versions ms ++ versions (owed s')) as Hvs.
  { apply short_perm; [by rewrite <- !versions_app, Howed|]. rewrite length_app, Hmut.
    unfold held in Hone. destruct (mutex_held s); lia. }
  split; simpl; [..|].
  - unfold atomic in *. rewrite Hsv, fmap_app, <- list_fmap_compose, fmap_app, consume_events_app, Hrun. simpl.
    by rewrite list_fmap_id.
  - done.
  - done.
  - done.
  - rewrite Hsent, (event_sends_app s s' n ms Hsd), <- !app_assoc. by rewrite Howed.
  - rewrite Hb. exists (b ++ ann). split; [done|]. rewrite Hbus, Hbp, <- !app_assoc. by rewrite Hdue.
  - rewrite versions_app, Hver, (event_sends_app s s' n ms Hsd), versions_app, <- !app_assoc. by rewrite Hvs.
  - apply (f_equal length) in Hvs. rewrite !length_app, Hmut in Hvs. unfold held in *.
    destruct (mutex_held s), (mutex_held s'); lia.
Qed.

(** What the atomic handling of one event does. *)
Lemma atomic_version (it : Incoming) (v : ProtocolVersion) (m m' : ApiVersionManager) (w : World) (changed : bool) :
  incoming_data it = ApiVersion v -> store_version m v = (changed, m') -> accepts (outbound_sse_data_sender w) = None ->
  consume_events [(service mode it.1, it.2)] (m, w) =
  Some (m', mkWorld (database w)
    (mkChannel (sent (outbound_sse_data_sender w) ++
       if changed then [(ApiVersion v, Some (inbound_filter it.2))] else []) None)
    ((fun b => b ++ []) <$> sidecar_event_sender w)).
Proof.
  unfold incoming_data. intros Hd Hst Ha. destruct w as [db' [snt acc] bs]. simpl in Ha. subst acc.
  cbn [consume_events]. unfold handle_single_event. rewrite Hd. unfold lib_handle_api_version. rewrite Hst.
  replace ((fun b => b ++ []) <$> bs) with bs by (destruct bs; simpl; by rewrite ?app_nil_r).
  destruct changed; [by rewrite service_version|]. simpl. by rewrite app_nil_r.
Qed.

Lemma atomic_save (it : Incoming) (m : ApiVersionManager) (w : World) (res : result DatabaseWriteError Z)
    (db' : Database) :
  is_api_version (incoming_data it) = false -> save_phase mode it (database w) = (Some res, db') ->
  accepts (outbound_sse_data_sender w) = None ->
  consume_events [(service mode it.1, it.2)] (m, w) =
  Some (m, mkWorld db' (mkChannel (sent (outbound_sse_data_sender w) ++ outgoing it res) None)
    ((fun b => b ++ announcement it res) <$> sidecar_event_sender w)).
Proof.
  intros Hv Hs Ha. cbn [consume_events]. rewrite (handle_phases mode it m w Hv), Hs. simpl.
  by rewrite send_all_open, announce_bus by by rewrite announce_bus.
Qed.

Lemma received_queue (p : Processor) (it : Incoming) (ph : Phase) :
  head (receiver mode p) = Some it -> (multi_threaded mode = false -> queue p = []) ->
  queue p ++ inbound p = it :: queue (received mode p ph) ++ inbound (received mode p ph).
Proof.
  unfold receiver, received. destruct (multi_threaded mode); simpl.
  - destruct (queue p); intros [= ->]; done.
  - destruct (inbound p); intros [= ->] ->; done.
Qed.

Lemma received_phase (p : Processor) (ph : Phase) : phase (received mode p ph) = ph.
Proof. unfold received. by destruct (multi_threaded mode). Qed.

Lemma received_single (p : Processor) (ph : Phase) :
  multi_threaded mode = false -> queue p = [] -> queue (received mode p ph) = [].
Proof. unfold received. by intros ->. Qed.

(** A step that saves nothing leaves the atomic world as it is. *)
Lemma linear_quiet (s s' : Tasks) (w : World) (n : nat) (p p' : Processor) (ms : list Message)
    (now : list SidecarEvent) :
  moves s s' n p p' [] ms -> shared_manager s' = shared_manager s -> shared_database s' = shared_database s ->
  bus s' = bus s ++ now -> owed_by p = ms ++ owed_by p' -> due_by p = now ++ due_by p' ->
  (held (mutex_held s) = held (mutex_held s') + length (versions ms))%nat ->
  linear s w -> linear s' w.
Proof.
  intros Hmv Hm Hdb Hb Ho Hd Hh Hl. pose proof Hl as [_ Hop Hdw Hs _ _ _ _].
  eapply (linear_moves s s' w w n p p' [] ms [] now []); try done.
  - by rewrite Hm.
  - destruct w as [db' [snt acc] bs]. simpl in *. subst. rewrite Hdb, app_nil_r.
    destruct bs; simpl; by rewrite ?app_nil_r.
  - by rewrite Hdb.
  - by rewrite Ho.
  - by rewrite Hd.
  - unfold held. simpl. destruct (mutex_held s); lia.
  - simpl. lia.
Qed.

Ltac solve_moves := split; simpl; rewrite ?app_nil_r; done.

Lemma send_message_moves (s s' : Tasks) (n : nat) (p p' : Processor) (m : Message) (b : bool) :
  processors s !! n = Some p ->
  send_message capacity (set_manager (set_processor s n p') (shared_manager s) b) (Some n) m = Some s' ->
  moves s s' n p p' [] [m] /\ shared_manager s' = shared_manager s /\ shared_database s' = shared_database s /\
  bus s' = bus s /\ mutex_held s' = b.
Proof.
  unfold send_message. intros Hp. case_decide; [|done]. intros [= <-]. split_and!; [|done..]. solve_moves.
Qed.

Lemma owed_version (s : Tasks) (w : World) (n : nat) (p : Processor) (v : ProtocolVersion) (f : Filter) :
  linear s w -> processors s !! n = Some p -> phase p = Locked v f -> mutex_held s = true.
Proof.
  intros Hl Hp Hph. destruct (bind_insert owed_by (processors s) n p p Hp) as (ro & Ho & _).
  pose proof (lin_mutex s w Hl) as Hm. unfold owed in Hm. rewrite Ho, versions_app in Hm.
  unfold owed_by in Hm. rewrite Hph in Hm. simpl in Hm. by destruct (mutex_held s).
Qed.

(** An event that is saved. *)
Lemma save_step_invariant (s s' : Tasks) (w : World) (n : nat) (p : Processor) (it : Incoming) (ph : Phase) :
  moves s s' n p (received mode p ph) [it] [] -> phase p = Waiting -> head (receiver mode p) = Some it ->
  phase_ok ph -> bus s' = bus s -> sound (shared_database s') ->
  (owed_by (received mode p ph)).*1 `sublist_of` [incoming_data it] ->
  consume_events [(service mode it.1, it.2)] (shared_manager s, w) =
    Some (shared_manager s', mkWorld (shared_database s')
      (mkChannel (sent (outbound_sse_data_sender w) ++ owed_by (received mode p ph)) None)
      ((fun b => b ++ due_by (received mode p ph)) <$> sidecar_event_sender w)) ->
  (held (mutex_held s) + length (versions (owed_by (received mode p ph))) = held (mutex_held s'))%nat ->
  tracked s -> linear s w -> tracked s' /\ exists w', linear s' w'.
Proof.
  intros Hmv Hph Hh Hnp Hb Hs Hsub Hc Hm Ht Hl. assert (owed_by p = []) as Ho by by unfold owed_by; rewrite Hph.
  assert (due_by p = []) as Hd by by unfold due_by; rewrite Hph. split.
  - eapply (tracked_moves s s' n p _ [it] []); try done.
    + by rewrite received_phase.
    + apply received_single.
    + intros Hq. by apply received_queue.
    + by rewrite Ho.
  - eexists. eapply (linear_moves s s' w _ n p _ [it] [] _ []); try done.
    + by rewrite app_nil_r.
    + by rewrite Ho, app_nil_r.
    + by rewrite Hd, app_nil_r.
    + unfold held in *. simpl. destruct (mutex_held s'); lia.
    + simpl. lia.
Qed.

(** Steps of the other tasks. *)
Lemma broadcast_invariant (s s' : Tasks) (w : World) :
  broadcast_message s = Some s' -> tracked s -> linear s w -> tracked s' /\ linear s' w.
Proof.
  unfold broadcast_message. destruct (channel s) as [|m rest] eqn:Hch; [done|]. intros [= <-] Ht [].
  split; [|by split]. destruct Ht as [? ? ? ? ? ? (got & Hg & Hgot)]. split; try done.
  exists (got ++ [m]). simpl in *. rewrite Hg, <- Hgot, Hch, <- app_assoc. split; [|done].
  rewrite foldl_app. by destruct m.
Qed.

Lemma end_invariant (s s' : Tasks) (w : World) :
  end_processors mode capacity s = Some s' -> tracked s -> linear s w -> tracked s' /\ linear s' w.
Proof.
  unfold end_processors, send_message. case_match; [|done]. case_decide; [|done]. intros [= <-] [] [].
  match goal with |- tracked ?t /\ _ => set (s' := t) end.
  assert (event_sends s' = event_sends s) as He
    by (unfold event_sends; subst s'; cbn [sends]; by rewrite omap_app, app_nil_r).
  split; [split; try done|split; rewrite ?He; done].
  - intros n p Hp. unfold sends_of. subst s'. cbn [sends]. rewrite omap_app, app_nil_r. by apply tr_order0.
  - apply Forall_app. split; [done|]. by repeat constructor.
  - destruct tr_server0 as (got & Hg & Hgot). exists got. split; [done|]. simpl.
    by rewrite fmap_app, <- Hgot, <- app_assoc.
Qed.

(** A step that saves nothing. *)
Lemma quiet_step_invariant (s s' : Tasks) (w : World) (n : nat) (p p' : Processor) (ms : list Message)
    (now : list SidecarEvent) :
  moves s s' n p p' [] ms -> shared_manager s' = shared_manager s -> shared_database s' = shared_database s ->
  bus s' = bus s ++ now -> owed_by p = ms ++ owed_by p' -> due_by p = now ++ due_by p' ->
  (held (mutex_held s) = held (mutex_held s') + length (versions ms))%nat ->
  phase_ok (phase p') -> (multi_threaded mode = false -> queue p = [] -> queue p' = []) ->
  queue p ++ inbound p = queue p' ++ inbound p' ->
  tracked s -> linear s w -> tracked s' /\ exists w', linear s' w'.
Proof.
  intros Hmv Hm Hdb Hb Ho Hd Hh Hph Hq Hqi Ht Hl. split.
  - eapply (tracked_moves s s' n p p' [] ms); try done. simpl. by rewrite Ho, app_nil_r.
  - exists w. by eapply (linear_quiet s s' w n p p' ms now).
Qed.

Lemma step_invariant (s s' : Tasks) (w : World) :
  step s s' -> tracked s -> linear s w -> tracked s' /\ exists w', linear s' w'.
Proof using save_total.
  intros Hstep Ht Hl.
  destruct Hstep as [n p it rest Hp Hm Hin|n p it v m changed Hp Hph Hh Hd Hmx Hst|n p it res db' Hp Hph Hh Hv Hs
    |n p it res Hp Hph|n p it res Hp Hph Ho|n p m s' Hp Ho Hd Hs|s' Hs|s' Hs].
  - eapply (quiet_step_invariant s _ w n p _ [] []); [solve_moves|..]; try done; simpl; try (by rewrite ?app_nil_r, ?Nat.add_0_r).
    + by apply (tracked_phase s n p).
    + by rewrite Hm.
    + simpl. by rewrite Hin, <- app_assoc.
  - eapply (save_step_invariant s _ w n p it); [solve_moves|..]; try done; try (by destruct changed).
    + apply (lin_sound s w Hl).
    + unfold owed_by. rewrite received_phase. destruct changed; [|apply sublist_nil_l]. simpl. by rewrite Hd.
    + rewrite (atomic_version it v _ _ w changed Hd Hst (lin_open s w Hl)).
      unfold owed_by, due_by. rewrite received_phase, (lin_database s w Hl). by destruct changed.
    + unfold owed_by. rewrite received_phase, Hmx. by destruct changed.
  - destruct (save_total it (shared_database s)) as (res' & db'' & Hs' & Hsnd);
      [by eapply tracked_member, receiver_member|done|apply (lin_sound s w Hl)|].
    rewrite Hs in Hs'. injection Hs' as <- <-.
    eapply (save_step_invariant s _ w n p it); [solve_moves|..]; try done; unfold owed_by, due_by; rewrite received_phase.
    + destruct (outgoing_cases it res) as [->| ->]; [apply sublist_nil_l|done].
    + eapply (atomic_save it); [done|by rewrite (lin_database s w Hl)|apply (lin_open s w Hl)].
    + rewrite versions_outgoing by done. simpl. lia.
  - eapply (quiet_step_invariant s _ w n p _ [] (announcement it res)); [solve_moves|..]; try done;
      unfold owed_by, due_by; rewrite ?Hph; try done; simpl; try (by rewrite ?app_nil_r, ?Nat.add_0_r).
    pose proof (tracked_phase s n p Ht Hp) as Hok. by rewrite Hph in Hok.
  - eapply (quiet_step_invariant s _ w n p _ [] []); [solve_moves|..]; try done;
      unfold owed_by, due_by; rewrite ?Hph; try done; simpl; by rewrite ?Ho, ?app_nil_r, ?Nat.add_0_r.
  - destruct (send_message_moves s s' n p _ m _ Hp Hs) as (Hmv & Hm & Hdb & Hb & Hmx).
    eapply (quiet_step_invariant s s' w n p _ [m] []); try done.
    + by rewrite app_nil_r.
    + rewrite Hmx. pose proof (tracked_phase s n p Ht Hp) as Hok.
      unfold owed_by in Ho. destruct (phase p) eqn:Hph; try done.
      * rewrite (owed_version s w n p _ _ Hl Hp Hph). by injection Ho as <-.
      * rewrite <- Ho, versions_outgoing, Nat.add_0_r by done. done.
      * rewrite <- Ho, versions_outgoing, Nat.add_0_r by done. done.
  - destruct (broadcast_invariant s s' w Hs Ht Hl) as [? ?]. eauto.
  - destruct (end_invariant s s' w Hs Ht Hl) as [? ?]. eauto.
Qed.

(** *** Runs *)

Lemma start_invariant :
  tracked (start_tasks db server nodes) /\ linear (start_tasks db server nodes) (started db).2.
Proof using sound_start.
  assert (forall {B} (f : Processor -> list B), (forall l, f (mkProcessor l [] Waiting) = []) ->
    processors (start_tasks db server nodes) ≫= f = []) as Hnil.
  { intros B f Hf. simpl. clear sound_start save_total. induction nodes as [|l rest IH]; [done|]. csimpl. by rewrite Hf. }
  split; split; simpl; try done.
  - by apply Forall_fmap, Forall_true.
  - intros _. by apply Forall_fmap, Forall_true.
  - intros n. rewrite list_lookup_fmap. by destruct (nodes !! n).
  - intros n p Hp%list_lookup_fmap_Some. destruct Hp as (l & -> & _). apply sublist_nil_l.
  - by exists [].
  - unfold owed. by rewrite Hnil.
  - exists []. unfold due. by rewrite Hnil.
  - unfold owed. by rewrite Hnil.
  - unfold owed. by rewrite Hnil.
Qed.

Lemma run_invariant (actions : list Action) (s s' : Tasks) (w : World) :
  tracked s -> linear s w -> run mode capacity s actions = Some s' -> tracked s' /\ exists w', linear s' w'.
Proof using save_total.
  revert s w. induction actions as [|a actions IH]; intros s w Ht Hl; simpl.
  - intros [= <-]. eauto.
  - destruct (act mode capacity s a) as [s1|] eqn:Ha; [|done]. simpl.
    destruct (step_invariant s s1 w) as (Ht1 & w1 & Hl1); [|done..|by eapply IH].
    by eapply act_step; [|apply (lin_sound s w Hl)|].
Qed.

Lemma reachable_invariant (actions : list Action) (s : Tasks) :
  run mode capacity (start_tasks db server nodes) actions = Some s -> tracked s /\ exists w, linear s w.
Proof using sound_start save_total. destruct start_invariant. by eapply run_invariant. Qed.

(** What was saved of a node is the beginning of its events. *)
Lemma saves_prefix (s : Tasks) (n : nat) (events : list Incoming) :
  tracked s -> nodes !! n = Some events -> saves_of n s `prefix_of` events.
Proof.
  intros Ht Hn. pose proof (tr_nodes s Ht n) as Hp. rewrite Hn in Hp.
  destruct (processors s !! n) as [p|]; simplify_eq/=. by exists (queue p ++ inbound p).
Qed.

Lemma saves_member (s : Tasks) (it : Incoming) : tracked s -> it ∈ (saves s).*2 -> it ∈ concat nodes.
Proof.
  intros Ht ([n it'] & -> & Hin)%list_elem_of_fmap. simpl.
  pose proof (proj1 (Forall_forall _ _) (tr_saves s Ht) _ Hin) as Hlt. simpl in Hlt.
  destruct (lookup_lt_is_Some_2 nodes n Hlt) as [events Hev]. destruct (saves_prefix s n events Ht Hev) as [l ->].
  apply list_elem_of_In, in_concat. eexists. split; [apply list_elem_of_In, (list_elem_of_lookup_2 _ _ _ Hev)|].
  apply list_elem_of_In, elem_of_app. left. apply list_elem_of_omap. exists (n, it'). by rewrite decide_True.
Qed.

(** All events are handled. *)
Definition drained (s : Tasks) : Prop :=
  Forall (fun p => inbound p = [] /\ queue p = [] /\ phase p = Waiting) (processors s).

Lemma drained_owed (s : Tasks) : drained s -> owed s = [] /\ due s = [].
Proof.
  unfold drained, owed, due. induction 1 as [|p l (_ & _ & Hph) _ [IHo IHd]]; [done|]. csimpl.
  unfold owed_by at 1, due_by at 1. by rewrite Hph, IHo, IHd.
Qed.

Lemma drained_saves (s : Tasks) (it : Incoming) :
  tracked s -> drained s -> it ∈ concat nodes -> it ∈ (saves s).*2.
Proof.
  intros Ht Hd Hit. apply list_elem_of_In, in_concat in Hit as (events & Hev & Hit).
  apply list_elem_of_In, list_elem_of_lookup in Hev as [n Hn]. apply list_elem_of_In in Hit.
  pose proof (tr_nodes s Ht n) as Hp. rewrite Hn in Hp. destruct (processors s !! n) as [p|] eqn:Hpn; [|done].
  destruct (Forall_lookup_1 _ _ _ _ Hd Hpn) as (Hin & Hq & _). simpl in Hp. rewrite Hin, Hq, !app_nil_r in Hp.
  injection Hp as ->. apply list_elem_of_omap in Hit as ([m it'] & Hx & Hc). simpl in Hc. case_decide; [|done].
  injection Hc as ->. apply list_elem_of_fmap. by exists (m, it).
Qed.

(** *** The tasks get to the end *)

Lemma waiting_owed (s : Tasks) : Forall (fun p => phase p = Waiting) (processors s) -> owed s = [].
Proof.
  unfold owed. induction 1 as [|p l Hph _ IH]; [done|]. csimpl. unfold owed_by at 1. by rewrite Hph, IH.
Qed.

(** When the channel is empty, a task in the middle of an event can go on. *)
Lemma busy_acts (s : Tasks) (n : nat) (p : Processor) :
  (0 < capacity)%nat -> channel s = [] -> processors s !! n = Some p -> phase_ok (phase p) -> phase p <> Waiting ->
  exists a, is_Some (act mode capacity s a).
Proof.
  intros Hcap Hch Hp Hok Hw. destruct (phase p) as [|v f|it res|it res|] eqn:Hph; try done.
  - exists (SendEvent n). simpl. unfold send_event. rewrite Hp. simpl. rewrite Hph. unfold send_message. simpl.
    by rewrite Hch, decide_True.
  - exists (Announce n). simpl. unfold announce_event. rewrite Hp. simpl. by rewrite Hph.
  - exists (SendEvent n). simpl. unfold send_event. rewrite Hp. simpl. rewrite Hph.
    destruct (outgoing it res) as [|m l]; [done|]. unfold send_message. simpl. by rewrite Hch, decide_True.
Qed.

(** A task that waits takes its next event when the mutex is free. *)
Lemma waiting_acts (s : Tasks) (n : nat) (p : Processor) :
  mutex_held s = false -> processors s !! n = Some p -> phase p = Waiting ->
  (multi_threaded mode = false -> queue p = []) -> queue p ++ inbound p <> [] ->
  exists a, is_Some (act mode capacity s a).
Proof.
  intros Hm Hp Hph Hq Hne. destruct (receiver mode p) as [|it rest] eqn:Hr.
  - unfold receiver in Hr. destruct (multi_threaded mode) eqn:Hmt.
    + exists (Forward n). simpl. unfold forward. rewrite Hp. simpl. rewrite Hr in Hne |- *. simpl in Hne.
      destruct (inbound p) as [|it rest]; [done|]. rewrite Hmt, Hph. simpl. by case_decide.
    + by rewrite Hr, Hq in Hne.
  - exists (TakeEvent n). simpl. unfold take_event. rewrite Hp. simpl. rewrite Hph, Hr.
    unfold lock_version. rewrite Hm. destruct (incoming_data it) as [v| | | | | | | |];
      [by destruct (store_version _ _)|by destruct (save_phase mode it _) as [[|] ?]..].
Qed.

(** Tasks that cannot take any step are at the end. *)
Lemma stuck_end (s : Tasks) (w : World) :
  (0 < capacity)%nat -> tracked s -> linear s w -> (forall a, act mode capacity s a = None) ->
  drained s /\ channel s = [] /\ ended s = true.
Proof.
  intros Hcap Ht Hl Hstuck. assert (~ exists a, is_Some (act mode capacity s a)) as Hno.
  { intros (a & s' & Ha). by rewrite Hstuck in Ha. }
  assert (channel s = []) as Hch.
  { specialize (Hstuck Broadcast). simpl in Hstuck. unfold broadcast_message in Hstuck. by destruct (channel s). }
  assert (Forall (fun p => phase p = Waiting) (processors s)) as Hwait.
  { apply Forall_lookup. intros n p Hp. pose proof (tracked_phase s n p Ht Hp) as Hok.
    destruct (phase p) as [|v f|it res|it res|] eqn:Hph; [done|..]; destruct Hno;
      eapply (busy_acts s n p); rewrite ?Hph; done. }
  assert (mutex_held s = false) as Hm.
  { pose proof (lin_mutex s w Hl) as Hm. rewrite (waiting_owed s Hwait) in Hm. by destruct (mutex_held s). }
  assert (drained s) as Hd.
  { apply Forall_lookup. intros n p Hp. pose proof (Forall_lookup_1 _ _ _ _ Hwait Hp) as Hph. simpl in Hph.
    destruct (decide (queue p ++ inbound p = [])) as [[Hq Hin]%app_eq_nil|Hne]; [done|]. destruct Hno.
    eapply (waiting_acts s n p); try done. intros Hs. by apply (Forall_lookup_1 _ _ _ _ (tr_queue s Ht Hs) Hp). }
  split_and!; [done..|]. destruct (ended s) eqn:He; [done|]. destruct Hno. exists EndProcessors. simpl.
  unfold end_processors. rewrite He. replace (forallb _ _) with true; [unfold send_message; simpl; by rewrite Hch, decide_True|].
  symmetry. apply Is_true_true, forallb_True, (Forall_impl _ _ _ Hd). intros p (Hin & _ & Hph). unfold processor_done. by rewrite Hin, Hph.
Qed.

End Interleavings.

(** *** Runs are finite *)

Definition phase_weight (ph : Phase) : nat :=
  match ph with AfterSave _ _ => 3 | Locked _ _ | AfterAnnouncement _ _ => 2 | Waiting | Panicked => 0 end.

Definition processor_weight (p : Processor) : nat :=
  5 * length (inbound p) + 4 * length (queue p) + phase_weight (phase p).

(** The steps that are left at most. *)
Definition weight (s : Tasks) : nat :=
  sum_list_with processor_weight (processors s) + length (channel s) + if ended s then 0 else 2.

Lemma sum_insert (l : list Processor) (n : nat) (p p' : Processor) :
  l !! n = Some p ->
  (sum_list_with processor_weight (<[n := p']> l) + processor_weight p =
   sum_list_with processor_weight l + processor_weight p')%nat.
Proof.
  revert n. induction l as [|q l IH]; intros [|n] Hp; simplify_eq/=; [lia|]. specialize (IH n Hp). lia.
Qed.

Lemma receiver_weight (mode : Mode) (p : Processor) (it : Incoming) (rest : list Incoming) (ph : Phase) :
  receiver mode p = it :: rest ->
  (processor_weight (received mode p ph) + phase_weight (phase p) + 4 <= processor_weight p + phase_weight ph)%nat.
Proof.
  unfold receiver, received, processor_weight. destruct (multi_threaded mode); intros Hr; rewrite Hr; simpl; lia.
Qed.

(** Every step takes from what is left. *)
Lemma act_weight `{AutoIncrement} (mode : Mode) (capacity : nat) (s s' : Tasks) (a : Action) :
  act mode capacity s a = Some s' -> (weight s' < weight s)%nat.
Proof.
  unfold weight. destruct a as [n|n|n|n| |]; simpl.
  - unfold forward. destruct (processors s !! n) as [p|] eqn:Hp; [|done]. simpl.
    destruct (inbound p) as [|it rest] eqn:Hin; [done|]. destruct (multi_threaded mode); [|done]. simpl.
    assert (forall p', (processor_weight p' < processor_weight p)%nat ->
      Some (set_processor s n p') = Some s' -> (weight s' < weight s)%nat) as Hset.
    { intros p' Hlt [= <-]. unfold weight. simpl. pose proof (sum_insert _ n p p' Hp). lia. }
    case_decide; [|apply Hset; unfold processor_weight; rewrite Hin; simpl; lia].
    destruct (phase p) eqn:Hph; try (case_match; [|done]); apply Hset; unfold processor_weight;
      rewrite Hin, Hph; simpl; rewrite ?length_app; simpl; lia.
  - unfold take_event. destruct (processors s !! n) as [p|] eqn:Hp; [|done]. simpl.
    destruct (phase p) eqn:Hph; try done. destruct (receiver mode p) as [|it rest] eqn:Hr; [done|].
    assert (forall ph t, (phase_weight ph < 4)%nat -> processors t = <[n := received mode p ph]> (processors s) ->
      channel t = channel s -> ended t = ended s -> Some t = Some s' -> (weight s' < weight s)%nat) as Hset.
    { intros ph t Hlt Ht Hc He [= <-]. unfold weight. rewrite Ht, Hc, He.
      pose proof (sum_insert _ n p (received mode p ph) Hp). pose proof (receiver_weight mode p it rest ph Hr) as Hw.
      rewrite Hph in Hw. simpl in Hw. lia. }
    unfold lock_version. destruct (incoming_data it) as [v| | | | | | | |];
      [destruct (mutex_held s); [done|]; destruct (store_version _ v) as [[] m]
      |destruct (save_phase mode it _) as [[|] db']..]; eapply Hset; try done; simpl; lia.
  - unfold announce_event. destruct (processors s !! n) as [p|] eqn:Hp; [|done]. simpl.
    destruct (phase p) eqn:Hph; try done. intros [= <-]. simpl.
    pose proof (sum_insert _ n p (mkProcessor (inbound p) (queue p) (AfterAnnouncement it res)) Hp) as Hs.
    unfold processor_weight in *. rewrite Hph in Hs. simpl in *. lia.
  - unfold send_event, send_message. destruct (processors s !! n) as [p|] eqn:Hp; [|done]. simpl.
    pose proof (sum_insert _ n p (mkProcessor (inbound p) (queue p) Waiting) Hp) as Hs.
    unfold processor_weight in *. destruct (phase p) eqn:Hph; try done; simpl in *;
      [|destruct (outgoing _ _)]; try (case_decide; [|done]); intros [= <-]; simpl; rewrite ?length_app; simpl; lia.
  - unfold broadcast_message. destruct (channel s); [done|]. intros [= <-]. simpl. lia.
  - unfold end_processors, send_message. destruct (ended s); [done|]. simpl. case_match; [|done].
    case_decide; [|done]. intros [= <-]. simpl. rewrite length_app. simpl. lia.
Qed.

(** ** On a database set up by the migrations *)

Section Prepared.
Context `{AutoIncrement} (mode : Mode) (capacity : nat) (all : list Incoming) (seen : list Identity) (db : Database)
  (server : EventStreamServer) (nodes : list (list Incoming)).
Hypothesis keys : consistent all.
Hypothesis known : concat nodes ⊆ all.
Hypothesis prepared : holds (among all) seen db.

(** The database holds the entities of some of the events. *)
Definition holds_some (items : list Incoming) (db : Database) : Prop := exists seen, holds (among items) seen db.

Lemma holds_some_save (it : Incoming) (db' : Database) :
  it ∈ concat nodes -> is_api_version (incoming_data it) = false -> holds_some all db' ->
  exists res db'', save_phase mode it db' = (Some res, db'') /\ holds_some all db''.
Proof using keys known.
  intros Hit Hv [seen' Hh]. unfold save_phase.
  assert (exists res db'', (if is_shutdown (incoming_data it) then save_shutdown it.1 (origin it.2) db'
    else save it.1 (incoming_data it) (origin it.2) db') = (Some res, db'') /\ holds_some all db'') as Hsave;
    [|destruct mode; [done..|by eexists _, _; split; [|exists seen']]].
  destruct (is_shutdown (incoming_data it)) eqn:Hs.
  - destruct (holds_shutdown _ it.1 (origin it.2) seen' db' Hh) as [Hh' (res & Hres & _)].
    destruct (save_shutdown _ _ _) as [r db'']. simpl in *. subst. eexists _, _. split; [done|]. by exists seen'.
  - destruct (identity (incoming_data it)) as [i|] eqn:Hi; [|by destruct (incoming_data it)].
    pose proof (holds_save _ (fun d d' => consistent_keys _ d d' keys) it.1 (incoming_data it) (origin it.2) seen' db' i
      (ex_intro _ it (conj (known it Hit) eq_refl)) Hi Hh) as Hout.
    destruct (save _ _ _ _) as [r db'']. simpl in Hout. destruct (negb _ && _).
    + destruct Hout as [[n ->] Hh']. eexists _, _. split; [done|]. by eexists.
    + destruct Hout as [[err ->] ->]. eexists _, _. split; [done|]. by eexists.
Qed.

Lemma reached_from (actions : list Action) (s : Tasks) :
  run mode capacity (start_tasks db server nodes) actions = Some s ->
  tracked mode server nodes s /\ exists w, linear mode db (holds_some all) s w.
Proof using keys known prepared.
  apply (reachable_invariant mode capacity db server nodes (holds_some all));
    [by exists seen|apply holds_some_save].
Qed.

(** The events that were saved, handled one after the other, and by the reference. *)
Lemma reference_from (actions : list Action) (s : Tasks) :
  mode <> NoDatabase -> run mode capacity (start_tasks db server nodes) actions = Some s ->
  exists w, tracked mode server nodes s /\ linear mode db (holds_some all) s w /\ (saves s).*2 ⊆ all /\
    consume_events (with_services (saves s).*2) (started db) = Some (shared_manager s, w) /\
    reports (sent (outbound_sse_data_sender w)) = reports (reference (saves s).*2 (None, seen)) /\
    sidecar_event_sender w = Some (omap block_notification (reports (reference (saves s).*2 (None, seen)))) /\
    holds (among all) (reference_state (saves s).*2 (None, seen)).2 (shared_database s).
Proof using keys known prepared.
  intros Hmode Hrun. destruct (reached_from actions s Hrun) as (Ht & w & Hl). clear Hrun.
  assert ((saves s).*2 ⊆ all) as Hsub by (intros it Hit; by eapply known, saves_member).
  destruct (consume_from all (saves s).*2 seen db keys Hsub prepared) as (m & w' & Hc & Hr & Hn & _ & Hh).
  assert (m = shared_manager s /\ w' = w) as [-> ->].
  { pose proof (lin_run _ _ _ s w Hl) as Hrun'. unfold atomic, service, with_services in *.
    destruct mode; [..|done]; rewrite Hc in Hrun'; by injection Hrun'. }
  rewrite (lin_database _ _ _ s w Hl) in Hh. by exists w.
Qed.

End Prepared.

Lemma identities_reports (l : list Message) : omap identity l.*1 = omap identity (reports l).
Proof.
  unfold reports. induction l as [|[d f] l IH]; [done|]. csimpl. rewrite filter_cons.
  destruct d; simpl; rewrite ?decide_True, ?decide_False by done; csimpl; by rewrite IH.
Qed.

Lemma versions_reports (l : list Message) : versions l = omap protocol_version_of (reports l).
Proof.
  unfold versions, reports. induction l as [|[d f] l IH]; [done|]. csimpl. rewrite filter_cons.
  destruct d; simpl; rewrite ?decide_True, ?decide_False by done; csimpl; by rewrite IH.
Qed.

Lemma reached `{AutoIncrement} (e : Engine) (at_time : Z) (db : Database) (mode : Mode) (capacity : nat)
    (server : EventStreamServer) (nodes : list (list Incoming)) (actions : list Action) (s : Tasks) :
  apply_all_migrations e at_time ∅ = (Ok tt, db) -> consistent (concat nodes) ->
  run mode capacity (start_tasks db server nodes) actions = Some s ->
  tracked mode server nodes s /\ exists w, linear mode db (holds_some (concat nodes)) s w.
Proof.
  intros Hmig Hk. apply (fresh_holds _ _ (concat nodes)) in Hmig. by apply (reached_from _ _ _ []).
Qed.

(** ** The theorems *)

(** C2. Every interleaving of the processors is the atomic handling of the same events.
    On a database set up by the migrations, however the tasks of the nodes, on SQLite,
    PostgreSQL or without a database, take turns between saving, announcing, locking
    and sending, and whatever fails: no task panics, and handling the events one after
    the other in the order they were saved gives the same database and newest version;
    it sends and announces the same messages, but for those of the events under way
    and for their order; of each node's events a beginning was saved, in order.  It is
    assumed that events logged under the same key report the same entity. *)
Theorem interleavings_linearise `{AutoIncrement} (e : Engine) (at_time : Z) (db : Database) (mode : Mode)
    (capacity : nat) (server : EventStreamServer) (nodes : list (list Incoming)) (actions : list Action) (s : Tasks) :
  apply_all_migrations e at_time ∅ = (Ok tt, db) -> consistent (concat nodes) ->
  run mode capacity (start_tasks db server nodes) actions = Some s ->
  exists w b,
    consume_events ((fun it => (service mode it.1, it.2)) <$> (saves s).*2) (started db) =
      Some (shared_manager s, w) /\
    database w = shared_database s /\
    sent (outbound_sse_data_sender w) ≡ₚ event_sends s ++ owed s /\
    sidecar_event_sender w = Some b /\ b ≡ₚ bus s ++ due s /\
    Forall (fun p => phase p <> Panicked) (processors s) /\
    forall n events, nodes !! n = Some events -> saves_of n s `prefix_of` events.
Proof.
  intros Hmig Hk Hrun. destruct (reached e at_time db mode capacity server nodes actions s Hmig Hk Hrun) as (Ht & w & Hl).
  clear Hmig. destruct (lin_bus _ _ _ s w Hl) as (b & Hb & Hbp). exists w, b.
  split_and!; [apply (lin_run _ _ _ s w Hl)|apply (lin_database _ _ _ s w Hl)|apply (lin_sent _ _ _ s w Hl)|done..| |].
  - apply (Forall_impl _ _ _ (tr_alive _ _ _ s Ht)). intros p Hok Hp. by rewrite Hp in Hok.
  - intros n events. by apply (saves_prefix mode server nodes).
Qed.

Lemma linear_reference `{AutoIncrement} (e : Engine) (at_time : Z) (db : Database) (mode : Mode) (capacity : nat)
    (server : EventStreamServer) (nodes : list (list Incoming)) (actions : list Action) (s : Tasks) :
  apply_all_migrations e at_time ∅ = (Ok tt, db) -> consistent (concat nodes) -> mode <> NoDatabase ->
  run mode capacity (start_tasks db server nodes) actions = Some s ->
  exists w, tracked mode server nodes s /\ linear mode db (holds_some (concat nodes)) s w /\
    consistent (saves s).*2 /\
    consume_events (with_services (saves s).*2) (started db) = Some (shared_manager s, w) /\
    reports (sent (outbound_sse_data_sender w)) = reports (reference (saves s).*2 (None, [])) /\
    sidecar_event_sender w = Some (omap block_notification (reports (reference (saves s).*2 (None, [])))).
Proof.
  intros Hmig Hk Hmode Hrun. apply (fresh_holds _ _ (concat nodes)) in Hmig.
  destruct (reference_from mode capacity (concat nodes) [] db server nodes Hk (fun _ Hit => Hit) Hmig actions s Hmode Hrun)
    as (w & Ht & Hl & Hsub & Hc & Hr & Hn & _). clear Hrun. exists w. split_and!; try done.
  intros it it' Hit Hit'. by apply Hk; apply Hsub.
Qed.

(** What the processors sent, by the reference for the saved events. *)
Lemma sent_reference `{AutoIncrement} (e : Engine) (at_time : Z) (db : Database) (mode : Mode) (capacity : nat)
    (server : EventStreamServer) (nodes : list (list Incoming)) (actions : list Action) (s : Tasks) :
  apply_all_migrations e at_time ∅ = (Ok tt, db) -> consistent (concat nodes) -> mode <> NoDatabase ->
  run mode capacity (start_tasks db server nodes) actions = Some s ->
  tracked mode server nodes s /\
  NoDup (omap identity (event_sends s).*1) /\
  StronglySorted older (versions (event_sends s)) /\
  (drained s -> forall i, i ∈ omap identity (event_sends s).*1 <->
     exists it, it ∈ concat nodes /\ identity (incoming_data it) = Some i /\ can_save it = true) /\
  (forall d, d ∈ (event_sends s).*1 -> is_Some (identity d) ->
     exists it, it ∈ concat nodes /\ incoming_data it = d).
Proof.
  intros Hmig Hk Hmode Hrun.
  destruct (linear_reference e at_time db mode capacity server nodes actions s Hmig Hk Hmode Hrun)
    as (w & Ht & Hl & _ & Hc & Hr & _). clear Hmig Hrun.
  clear Hc. destruct (reference_entities (saves s).*2 None []) as [Hnd Hin].
  destruct (reference_versions (saves s).*2 None []) as [Hsort _]. rewrite <- Hr in Hnd, Hin, Hsort.
  rewrite <- identities_reports in Hnd, Hin. rewrite <- versions_reports, (lin_versions _ _ _ s w Hl) in Hsort.
  pose proof (lin_sent _ _ _ s w Hl) as Hsent. split_and!; [done|..].
  - rewrite Hsent, fmap_app, omap_app in Hnd. by apply NoDup_app in Hnd as [? _].
  - by apply StronglySorted_app_1_l in Hsort.
  - intros Hd i. destruct (drained_owed s Hd) as [Ho _]. rewrite Ho, app_nil_r in Hsent.
    rewrite <- Hsent, Hin. split; [|intros (it & Hit & Hrest); split; [apply not_elem_of_nil|]].
    + intros (_ & it & Hit & Hrest). exists it. split; [by eapply saves_member|done].
    + exists it. split; [by eapply drained_saves|done].
  - intros d Hd Hi. assert (d ∈ reports (sent (outbound_sse_data_sender w))) as Hrep.
    { unfold reports. apply list_elem_of_filter. split; [by destruct d, Hi|]. change (fst <$> ?l) with l.*1.
      rewrite Hsent, fmap_app, elem_of_app. by left. }
    rewrite Hr in Hrep. pose proof (elem_of_sublist _ _ _ Hrep (reference_sublist _ _ _)) as Hin'.
    apply list_elem_of_fmap in Hin' as (it & -> & Hit). exists it. split; [by eapply saves_member|done].
Qed.

(** Concurrent processors publish every entity once.  On a database set up by the
    migrations, at every moment of every interleaving: no entity was sent twice, the
    API versions were sent in increasing order, and what a node's processor sent keeps
    the order of its events; and once all events are handled, an entity was sent
    exactly if some event of it could be saved.  It is assumed that the processors
    have a database and that events logged under the same key report the same
    entity. *)
Theorem interleavings_forward_once `{AutoIncrement} (e : Engine) (at_time : Z) (db : Database) (mode : Mode)
    (capacity : nat) (server : EventStreamServer) (nodes : list (list Incoming)) (actions : list Action) (s : Tasks) :
  apply_all_migrations e at_time ∅ = (Ok tt, db) -> consistent (concat nodes) -> mode <> NoDatabase ->
  run mode capacity (start_tasks db server nodes) actions = Some s ->
  let out := (event_sends s).*1 in
  NoDup (omap identity out) /\
  StronglySorted older (omap protocol_version_of out) /\
  (forall n events, nodes !! n = Some events -> (sends_of n s).*1 `sublist_of` (incoming_data <$> events)) /\
  (drained s -> forall i, i ∈ omap identity out <->
     exists it, it ∈ concat nodes /\ identity (incoming_data it) = Some i /\ can_save it = true).
Proof.
  intros Hmig Hk Hmode Hrun.
  destruct (sent_reference e at_time db mode capacity server nodes actions s Hmig Hk Hmode Hrun)
    as (Ht & Hnd & Hsort & Hin & _). clear Hmig. cbv zeta. split_and!; [done..| |done].
  intros n events Hn. pose proof (tr_nodes _ _ _ s Ht n) as Hp. rewrite Hn in Hp.
  destruct (processors s !! n) as [p|] eqn:Hpn; simplify_eq/=. rewrite fmap_app.
  etrans; [|apply sublist_inserts_r, (tr_order _ _ _ s Ht n p Hpn)]. rewrite fmap_app. by apply sublist_inserts_r.
Qed.

(** C9. The processors come to an end.  On a database set up by the migrations and with
    room for a message in the channel, at most five steps per event, and two for the
    last shutdown, can be taken in any order; and when no task can take a step, every
    event of every node is handled, the last shutdown was sent, and the event stream
    server got everything that was sent, in that order: there is no deadlock on the
    mutex, the queues or the channel.  It is assumed that events logged under the same
    key report the same entity. *)
Theorem processors_finish `{AutoIncrement} (e : Engine) (at_time : Z) (db : Database) (mode : Mode)
    (capacity : nat) (server : EventStreamServer) (nodes : list (list Incoming)) (actions : list Action) (s : Tasks) :
  apply_all_migrations e at_time ∅ = (Ok tt, db) -> consistent (concat nodes) -> (0 < capacity)%nat ->
  run mode capacity (start_tasks db server nodes) actions = Some s ->
  (length actions <= 5 * length (concat nodes) + 2)%nat /\
  ((forall a, act mode capacity s a = None) ->
   drained s /\ ended s = true /\ stream_server s = (start_event_broadcasting server (sends s).*2).2).
Proof.
  intros Hmig Hk Hcap Hrun. split.
  - clear Hmig. enough (length actions + weight s <= weight (start_tasks db server nodes))%nat as Hw.
    { etrans; [apply (Nat.le_add_r _ (weight s))|]. rewrite Hw. unfold weight. simpl. clear.
      induction nodes as [|l rest IH]; [done|]. csimpl. rewrite length_app. unfold processor_weight at 1. simpl. lia. }
    revert Hrun. generalize (start_tasks db server nodes). induction actions as [|a actions IH]; intros t; simpl.
    + by intros [= ->].
    + destruct (act mode capacity t a) as [t'|] eqn:Ha; [|done]. simpl. intros Hrun. apply act_weight in Ha.
      specialize (IH t' Hrun). lia.
  - destruct (reached e at_time db mode capacity server nodes actions s Hmig Hk Hrun) as (Ht & w & Hl). clear Hmig.
    intros Hstuck. destruct (stuck_end mode capacity db server nodes _ s w Hcap Ht Hl Hstuck) as (Hd & Hch & He).
    split_and!; [done..|]. destruct (tr_server _ _ _ s Ht) as (got & -> & Hgot). by rewrite <- Hgot, Hch, app_nil_r.
Qed.

(** *** The last shutdown *)

(** On SQLite nothing follows the last shutdown. *)
Definition closed (s : Tasks) : Prop :=
  if ended s
  then forallb (processor_done OnSqlite) (processors s) = true /\
    exists l, sends s = l ++ [(None, (Shutdown, None))] /\ Forall (fun x => is_Some x.1) l
  else Forall (fun x => is_Some x.1) (sends s).

(** A processor that is done does nothing. *)
Lemma done_acts (p : Processor) :
  processor_done OnSqlite p = true ->
  match phase p, receiver OnSqlite p with
  | Waiting, [] | Panicked, _ => True
  | _, _ => False
  end.
Proof. unfold processor_done, receiver. simpl. by destruct (inbound p), (phase p). Qed.

(** After the end only the event stream server goes on. *)
Lemma done_quiet `{AutoIncrement} (capacity : nat) (s s' : Tasks) (a : Action) :
  act OnSqlite capacity s a = Some s' -> ended s = true ->
  forallb (processor_done OnSqlite) (processors s) = true -> a = Broadcast.
Proof.
  intros Ha He Hd%Is_true_true%forallb_True.
  assert (forall n p, processors s !! n = Some p ->
    match phase p, receiver OnSqlite p with Waiting, [] | Panicked, _ => True | _, _ => False end) as Hdone.
  { intros n p Hp. apply done_acts, Is_true_true, (Forall_lookup_1 _ _ _ _ Hd Hp). }
  destruct a as [n|n|n|n| |]; simpl in Ha; [..|done|unfold end_processors in Ha; by rewrite He in Ha];
    unfold forward, take_event, announce_event, send_event in Ha;
    (destruct (processors s !! n) as [p|] eqn:Hp; [|done]); specialize (Hdone n p Hp); simpl in Ha.
  - by destruct (inbound p).
  - by destruct (phase p), (receiver OnSqlite p).
  - by destruct (phase p).
  - by destruct (phase p).
Qed.

(** Before the end only processors send. *)
Lemma act_sends `{AutoIncrement} (mode : Mode) (capacity : nat) (s s' : Tasks) (a : Action) :
  act mode capacity s a = Some s' -> a <> EndProcessors ->
  ended s' = ended s /\ exists l, sends s' = sends s ++ l /\ Forall (fun x => is_Some x.1) l.
Proof.
  assert (forall t, ended t = ended s -> sends t = sends s -> Some t = Some s' ->
    ended s' = ended s /\ exists l, sends s' = sends s ++ l /\ Forall (fun x => is_Some x.1) l) as Hsame.
  { intros t He Hs [= <-]. split; [done|]. exists []. by rewrite app_nil_r. }
  intros Ha Hne. destruct a as [n|n|n|n| |]; simpl in Ha; [..|done].
  - unfold forward in Ha. destruct (processors s !! n) as [p|]; [|done]. simpl in Ha.
    destruct (inbound p); [done|]. destruct (multi_threaded mode); [|done]. simpl in Ha.
    case_decide; [destruct (phase p); try (case_match; [|done])|]; solve [eapply Hsame; [| |exact Ha]; done].
  - unfold take_event, lock_version in Ha. destruct (processors s !! n) as [p|]; [|done]. simpl in Ha.
    destruct (phase p); try done. destruct (receiver mode p) as [|it rest]; [done|].
    destruct (incoming_data it); [destruct (mutex_held s); [done|]; destruct (store_version _ _) as [[] ?]
      |destruct (save_phase _ _ _) as [[|] ?]..]; solve [eapply Hsame; [| |exact Ha]; done].
  - unfold announce_event in Ha. destruct (processors s !! n) as [p|]; [|done]. simpl in Ha.
    destruct (phase p); try done. solve [eapply Hsame; [| |exact Ha]; done].
  - unfold send_event, send_message in Ha. destruct (processors s !! n) as [p|]; [|done]. simpl in Ha.
    destruct (phase p); try done; [|destruct (outgoing _ _); [solve [eapply Hsame; [| |exact Ha]; done]|]]; (case_decide; [|done]);
      injection Ha as <-; (split; [done|]); eexists; (split; [done|]); by repeat constructor.
  - unfold broadcast_message in Ha. destruct (channel s); [done|]. solve [eapply Hsame; [| |exact Ha]; done].
Qed.

Lemma act_closed `{AutoIncrement} (capacity : nat) (s s' : Tasks) (a : Action) :
  act OnSqlite capacity s a = Some s' -> closed s -> closed s'.
Proof.
  unfold closed. intros Ha. destruct (ended s) eqn:He.
  - intros [Hd Hl]. pose proof (done_quiet capacity s s' a Ha He Hd) as ->. simpl in Ha.
    unfold broadcast_message in Ha. destruct (channel s); [done|]. injection Ha as <-. simpl. by rewrite He.
  - intros Hs. destruct (decide (a = EndProcessors)) as [->|Hne].
    + simpl in Ha. unfold end_processors, send_message in Ha. rewrite He in Ha. simpl in Ha.
      destruct (forallb _ _) eqn:Hd; [|done]. case_decide; [|done]. injection Ha as <-. simpl. split; [done|]. by eexists.
    + destruct (act_sends _ _ s s' a Ha Hne) as (-> & l & -> & Hl). rewrite He. by apply Forall_app.
Qed.

(** On SQLite the last shutdown is the last message.  On a database set up by the
    migrations, when the task that waits for the processors has sent its shutdown,
    every event of every node is handled, and nothing is sent after it, whatever the
    tasks do before and after.  It is assumed that events logged under the same key
    report the same entity. *)
Theorem shutdown_sent_last `{AutoIncrement} (e : Engine) (at_time : Z) (db : Database) (capacity : nat)
    (server : EventStreamServer) (nodes : list (list Incoming)) (actions : list Action) (s : Tasks) :
  apply_all_migrations e at_time ∅ = (Ok tt, db) -> consistent (concat nodes) ->
  run OnSqlite capacity (start_tasks db server nodes) actions = Some s -> ended s = true ->
  drained s /\ exists l, sends s = l ++ [(None, (Shutdown, None))] /\ Forall (fun x => is_Some x.1) l.
Proof.
  intros Hmig Hk Hrun He.
  destruct (reached e at_time db OnSqlite capacity server nodes actions s Hmig Hk Hrun) as (Ht & _). clear Hmig.
  assert (closed s) as Hc.
  { assert (closed (start_tasks db server nodes)) as Hstart by constructor. revert Hrun Hstart.
    generalize (start_tasks db server nodes). clear -actions. induction actions as [|a actions IH]; intros t; simpl.
    - by intros [= ->].
    - destruct (act OnSqlite capacity t a) as [t'|] eqn:Ha; [|done]. simpl. intros Hrun Ht. eapply IH; [done|].
      by eapply act_closed. }
  unfold closed in Hc. rewrite He in Hc. destruct Hc as [Hd Hl]. split; [|done].
  apply Is_true_true, forallb_True in Hd. apply Forall_lookup. intros n p Hp.
  pose proof (Forall_lookup_1 _ _ _ _ Hd Hp) as Hdone%Is_true_true%done_acts.
  pose proof (Forall_lookup_1 _ _ _ _ (tr_queue _ _ _ s Ht eq_refl) Hp) as Hq.
  pose proof (tracked_phase _ _ _ s n p Ht Hp) as Hok. unfold receiver in Hdone. simpl in *.
  by destruct (phase p), (inbound p).
Qed.

(** All events of a node go to its queue. *)
Lemma forward_all `{AutoIncrement} (mode : Mode) (capacity : nat) (db : Database) (server : EventStreamServer)
    (done events : list Incoming) :
  multi_threaded mode = true -> Z.of_nat (length (done ++ events)) <= DEFAULT_CHANNEL_SIZE ->
  run mode capacity (mkTasks db ApiVersionManager_new false [] [] server [mkProcessor events done Waiting] false [] [])
    (replicate (length events) (Forward 0)) =
  Some (mkTasks db ApiVersionManager_new false [] [] server [mkProcessor [] (done ++ events) Waiting] false [] []).
Proof.
  intros Hm. revert done. induction events as [|it events IH]; intros done Hlen; simpl.
  - by rewrite app_nil_r.
  - unfold forward. simpl. rewrite Hm. simpl. rewrite decide_True by (destruct (inbound_filter it.2); by left).
    rewrite length_app in Hlen. simpl in Hlen. rewrite (proj2 (Z.ltb_lt _ _)) by lia. simpl.
    specialize (IH (done ++ [it])). rewrite <- app_assoc in IH. apply IH. rewrite length_app. simpl. lia.
Qed.

(** C33. With PostgreSQL, or without a database, the last shutdown can overtake events.
    The task of a processor is over when its events are in the queue; so up to a
    thousand events of a node can be waiting there, none of them saved or passed on,
    when the shutdown is sent, after which the sidecar ends within 200 milliseconds;
    an event that is handled after all is sent after the shutdown. *)
Theorem shutdown_overtakes_queue `{AutoIncrement} (mode : Mode) (capacity : nat) (db : Database)
    (server : EventStreamServer) (events : list Incoming) :
  multi_threaded mode = true -> Z.of_nat (length events) <= DEFAULT_CHANNEL_SIZE -> (0 < capacity)%nat ->
  exists s, run mode capacity (start_tasks db server [events]) (replicate (length events) (Forward 0) ++ [EndProcessors]) =
      Some s /\
    ended s = true /\ sends s = [(None, (Shutdown, None))] /\ saves s = [] /\ queue <$> processors s = [events].
Proof.
  intros Hm Hlen Hcap.
  assert (forall a1 a2 s, run mode capacity s (a1 ++ a2) = (s' ← run mode capacity s a1; run mode capacity s' a2)) as Happ.
  { intros a1 a2. induction a1 as [|a a1 IH]; intros s; [done|]. simpl.
    destruct (act mode capacity s a) as [s1|]; simpl; [apply IH|done]. }
  rewrite Happ. unfold start_tasks. cbn [fmap list_fmap]. rewrite forward_all by done. simpl.
  unfold end_processors, send_message. simpl. rewrite decide_True by done. by eexists.
Qed.

(** ** An example *)

Module SampleTasks.
Import SampleNodes.

(** Two nodes: both report a version and a step; the fault of the first cannot be
    saved, that of the second can. *)
Definition nodes : list (list Incoming) :=
  [[(env None, reported "a" 0 (ApiVersion (mkVersion 2 0 0)));
    (env None, reported "a" 1 (Step 5 "effects"));
    (env (Some (Commit, "disk full")), reported "a" 2 (Fault 5 "key" 3));
    (env None, reported "a" 3 Shutdown)];
   [(env None, reported "b" 0 (ApiVersion (mkVersion 2 0 0)));
    (env None, reported "b" 7 (Step 5 "effects"));
    (env None, reported "b" 8 (Fault 5 "key" 3))]].

Definition server : EventStreamServer := mkServer [] (mkIndexer 0 "sse_index").

(** The first node saves the step first, but the second sends its fault before that. *)
Definition actions : list Action :=
  [TakeEvent 0; SendEvent 0; TakeEvent 1; TakeEvent 0; TakeEvent 1; Announce 1; SendEvent 1; TakeEvent 1; Announce 1;
   Broadcast; SendEvent 1; Announce 0; SendEvent 0; Broadcast; Broadcast; TakeEvent 0; Announce 0; SendEvent 0;
   TakeEvent 0; Announce 0; SendEvent 0; EndProcessors; Broadcast; Broadcast].

Lemma nodes_consistent : consistent (concat nodes).
Proof.
  intros it it' Hit Hit'. unfold nodes in *. simpl in *.
  repeat (apply elem_of_cons in Hit as [->|Hit]); [..|by apply not_elem_of_nil in Hit];
    repeat (apply elem_of_cons in Hit' as [->|Hit']); try (by apply not_elem_of_nil in Hit'); by intros [? ?].
Qed.

(** What is seen of a state: what was sent, the end, and how many events are left. *)
Definition observed (s : Tasks) : list SseData * bool * list (nat * nat) :=
  (fst <$> (sends s).*2, ended s, (fun p => (length (inbound p), length (queue p))) <$> processors s).

(** All events are handled, and this is what was sent. *)
Lemma final_observed :
  observed <$> run OnSqlite 2 (start_tasks store server nodes) actions =
  Some ([ApiVersion (mkVersion 2 0 0); Fault 5 "key" 3; Step 5 "effects"; Shutdown; Shutdown], true, [(0, 0); (0, 0)]%nat).
Proof. vm_compute. reflexivity. Qed.

Lemma final_runs :
  exists s, run OnSqlite 2 (start_tasks store server nodes) actions = Some s /\ ended s = true.
Proof.
  pose proof final_observed as (s & Hrun & Hs)%fmap_Some. exists s. split; [exact Hrun|].
  unfold observed in Hs. injection Hs as _ He _. exact (eq_sym He).
Qed.

End SampleTasks.

Import SampleNodes SampleTasks.

(** The run above, and its atomic counterpart. *)
Lemma interleavings_linearise_witness :
  exists s w b, run OnSqlite 2 (start_tasks store server nodes) actions = Some s /\
    consume_events ((fun it => (service OnSqlite it.1, it.2)) <$> (saves s).*2) (started store) =
      Some (shared_manager s, w) /\
    sidecar_event_sender w = Some b.
Proof.
  destruct final_runs as (s & Hrun & He).
  destruct (interleavings_linearise Sqlite 1000 store OnSqlite 2 server nodes actions s) as (w & b & Hc & _ & _ & Hb & _).
  - reflexivity.
  - apply nodes_consistent.
  - exact Hrun.
  - exists s, w, b. split; [exact Hrun|]. split; [exact Hc|exact Hb].
Defined.

(** The step and the fault were sent once. *)
Lemma interleavings_forward_once_witness :
  exists s, run OnSqlite 2 (start_tasks store server nodes) actions = Some s /\ NoDup (omap identity (event_sends s).*1).
Proof.
  destruct final_runs as (s & Hrun & He).
  destruct (interleavings_forward_once Sqlite 1000 store OnSqlite 2 server nodes actions s) as (Hnd & _).
  - reflexivity.
  - apply nodes_consistent.
  - discriminate.
  - exact Hrun.
  - exists s. split; [exact Hrun|exact Hnd].
Defined.

(** Twenty-four steps, of thirty-seven that were possible at most. *)
Lemma processors_finish_witness : (length actions <= 5 * length (concat nodes) + 2)%nat.
Proof.
  destruct final_runs as (s & Hrun & He).
  destruct (processors_finish Sqlite 1000 store OnSqlite 2 server nodes actions s) as [Hlen _].
  - reflexivity.
  - apply nodes_consistent.
  - lia.
  - exact Hrun.
  - exact Hlen.
Defined.

(** The shutdown of the run is its last message. *)
Lemma shutdown_sent_last_witness : exists s l, run OnSqlite 2 (start_tasks store server nodes) actions = Some s /\ sends s = l ++ [(None, (Shutdown, None))].
Proof.
  destruct final_runs as (s & Hrun & He).
  destruct (shutdown_sent_last Sqlite 1000 store 2 server nodes actions s) as (_ & l & Hl & _).
  - reflexivity.
  - apply nodes_consistent.
  - exact Hrun.
  - exact He.
  - exists s, l. split; [exact Hrun|exact Hl].
Defined.

(** The three events of the second node, on PostgreSQL. *)
Lemma shutdown_overtakes_queue_witness :
  exists s, run OnPostgreSql 1 (start_tasks store server [nodes !!! 1%nat])
      (replicate 3 (Forward 0) ++ [EndProcessors]) = Some s /\ saves s = [].
Proof.
  destruct (shutdown_overtakes_queue OnPostgreSql 1 store server (nodes !!! 1%nat)) as (s & Hr & _ & _ & Hs & _).
  - reflexivity.
  - vm_compute. discriminate.
  - lia.
  - exists s. split; [exact Hr|exact Hs].
Defined.
