(* ===== verification/Pipeline.v ===== *)
(** * From the nodes to the subscribers

    The whole way of an event: a node announces it, the listener of
    [ConnectionManager.v] hands it on across lost connections, the concurrent
    processors of [Processors.v] save it and send it once, and the event stream server
    of [EventStream.v] queues it under its identifier. *)

From S2P Require Import Prelude SseData EventIndexer EventBuffer EventStream ConnectionManager Sql.
From S2P Require Import Storage Migrations EventHandling Sidecar Processors.

Section Pipeline.
Context `{Urls, EventTexts, AutoIncrement} (encode : SseData -> string).

(** A node: where it is, what it is, all it ever announces, and the connections its
    listener makes. *)
Record Node := mkNode {
  node_ip : string;
  node_port : Z;
  node_version : ProtocolVersion;
  node_network : string;
  announced : list SseData;
  node_sessions : list Session;
}.

(** The greeting of the node is understood, none of its events is taken for another
    one, it announces fewer than 2^32 events, and at each connection it has the events so
    far. *)
Record node_ok (n : Node) : Prop := {
  ok_greeting : from_str (encode (ApiVersion (node_version n))) = Ok (ApiVersion (node_version n));
  ok_named : str_contains API_VERSION (encode (ApiVersion (node_version n))) = true;
  ok_encode : forall d d', d ∈ announced n -> from_str (encode d) = Ok d' -> d' = d;
  ok_length : Z.of_nat (length (announced n)) <= U32_MAX;
  ok_sessions : Forall (fun s => ConnectionManager.history s `prefix_of` announced n) (node_sessions n);
}.

(** The channels of its listener: the events handed on, and the identifiers that were
    reported. *)
Definition listened (n : Node) : Channel SseEvent * Channel (Filter * Z) :=
  sessions (node_ip n) (node_port n) (node_version n) (node_network n) encode (mkChannel [] None) (mkChannel [] None)
    (node_sessions n).

Definition delivered (n : Node) : list SseEvent := sent (listened n).1.

(** The identifier of an event was reported, and the event was understood. *)
Definition reported (n : Node) (j : nat) : Prop :=
  (Filter_Events, Z.of_nat j) ∈ sent (listened n).2 /\ from_option (understood encode) false (announced n !! j) = true.

Lemma listened_sound (n : Node) :
  node_ok n ->
  (forall j j' d, reported n j' -> (j <= j')%nat -> announced n !! j = Some d ->
     exists e, e ∈ delivered n /\ sse_data e = d) /\
  (forall e, e ∈ delivered n -> sse_data e ∈ ApiVersion (node_version n) :: announced n).
Proof.
  intros [Hg Hn He Hl Hs]. unfold reported, delivered, listened.
  pose proof (sessions_sound (node_ip n) (node_port n) (node_version n) (node_network n) (announced n) encode Hg Hn He
    (node_sessions n) (mkChannel [] None) (mkChannel [] None) Hl eq_refl eq_refl) as Hsound.
  destruct (sessions _ _ _ _ _ _ _ _) as [events ids].
  destruct Hsound as [Hok Hann]; [by intros f id ?%elem_of_nil|by intros e ?%elem_of_nil|done|].
  split; [|exact Hann]. intros j j' d [Hr Hu] Hj Hd. destruct (Hok _ _ Hr) as (k & ->%Nat2Z.inj & Hlow & d' & Hd' & Hto).
  destruct (decide (j = k)) as [->|Hne].
  - rewrite Hd' in Hu. simpl in Hu. destruct Hto as [Hin|Hto]; [|congruence]. simplify_eq. by eexists.
  - destruct (Hlow j) as (d'' & Hd'' & Hin); [lia|]. simplify_eq. by eexists.
Qed.

(** The events of the nodes as the processors get them. *)
Lemma delivered_items (nodes : list Node) (items : list (list Incoming)) (n : Node) (e : SseEvent) :
  (fun l : list Incoming => l.*2) <$> items = delivered <$> nodes -> n ∈ nodes -> e ∈ delivered n ->
  exists it, it ∈ concat items /\ incoming_data it = sse_data e.
Proof.
  intros Hi [k Hk]%list_elem_of_lookup He. apply (f_equal (.!! k)) in Hi. rewrite !list_lookup_fmap, Hk in Hi.
  apply fmap_Some_1 in Hi as (l & Hl & Hi). rewrite Hi in He.
  apply list_elem_of_fmap in He as (it & -> & Hit). exists it. split; [|done].
  apply list_elem_of_In, in_concat. exists l. split; apply list_elem_of_In; [by eapply list_elem_of_lookup_2|done].
Qed.

Lemma items_delivered (nodes : list Node) (items : list (list Incoming)) (it : Incoming) :
  (fun l : list Incoming => l.*2) <$> items = delivered <$> nodes -> it ∈ concat items ->
  exists n, n ∈ nodes /\ it.2 ∈ delivered n.
Proof.
  intros Hi (l & Hl & Hit)%list_elem_of_In%in_concat. apply list_elem_of_In, list_elem_of_lookup in Hl as [k Hk].
  apply (f_equal (.!! k)) in Hi. rewrite !list_lookup_fmap in Hi.
  destruct (nodes !! k) as [n|] eqn:Hn; simpl in Hi;
    rewrite Hk in Hi; simplify_eq/=. exists n. split; [by eapply list_elem_of_lookup_2|].
  rewrite <- Hi. apply list_elem_of_fmap. exists it. split; [done|]. by apply list_elem_of_In.
Qed.

(** What a processor of a node was given, the node announced. *)
Lemma item_announced (nodes : list Node) (items : list (list Incoming)) (it : Incoming) :
  Forall (node_ok) nodes -> (fun l : list Incoming => l.*2) <$> items = delivered <$> nodes ->
  it ∈ concat items -> is_Some (identity (incoming_data it)) ->
  exists n, n ∈ nodes /\ it.2 ∈ delivered n /\ incoming_data it ∈ announced n.
Proof.
  intros Hok Hitems Hit Hi. destruct (items_delivered nodes items it Hitems Hit) as (n & Hn & Hdel).
  exists n. split_and!; [done..|]. destruct (listened_sound n) as [_ Hann]; [by eapply Forall_forall|].
  specialize (Hann _ Hdel). apply elem_of_cons in Hann as [Hv|Hann]; [|done].
  unfold incoming_data in Hi. rewrite Hv in Hi. by destruct Hi.
Qed.

(** What a node announced is sent, up to the last identifier that was reported and whose
    event was understood. *)
Lemma reported_sent (e : Engine) (at_time : Z) (db : Database) (mode : Mode) (capacity : nat)
    (server : EventStreamServer) (nodes : list Node) (items : list (list Incoming)) (actions : list Action) (s : Tasks) :
  apply_all_migrations e at_time ∅ = (Ok tt, db) -> Forall node_ok nodes ->
  (fun l : list Incoming => l.*2) <$> items = delivered <$> nodes -> consistent (concat items) -> mode <> NoDatabase ->
  run mode capacity (start_tasks db server items) actions = Some s -> drained s ->
  forall n j j' d i, n ∈ nodes -> reported n j' -> (j <= j')%nat -> announced n !! j = Some d -> identity d = Some i ->
    (forall it, it ∈ concat items -> identity (incoming_data it) = Some i -> can_save it = true) ->
    i ∈ omap identity (event_sends s).*1.
Proof.
  intros Hmig Hok Hitems Hk Hmode Hrun Hd n j j' d i Hn Hr Hj Ha Hi Hsave.
  destruct (sent_reference e at_time db mode capacity _ items actions s Hmig Hk Hmode Hrun) as (_ & _ & _ & Hin & _).
  clear Hmig Hrun. destruct (listened_sound n) as [Hdel _]; [by eapply Forall_forall|].
  destruct (Hdel j j' d Hr Hj Ha) as (ev & Hev & <-).
  destruct (delivered_items nodes items n ev Hitems Hn Hev) as (it & Hit & Hdata). rewrite <- Hdata in Hi.
  apply (Hin Hd). exists it. auto.
Qed.

(** The last shutdown is no entity. *)
Lemma identities_sends (mode : Mode) (server : EventStreamServer) (items : list (list Incoming)) (s : Tasks) :
  tracked mode server items s -> omap identity (sends s).*2.*1 = omap identity (event_sends s).*1.
Proof.
  intros Ht. unfold event_sends. induction (tr_last _ _ _ s Ht) as [|[[n|] m] l Hm _ IH]; [done|..]; csimpl.
  - by rewrite IH.
  - specialize (Hm eq_refl). simpl in Hm. by subst m.
Qed.

Lemma sends_elem (mode : Mode) (server : EventStreamServer) (items : list (list Incoming)) (s : Tasks) (d : SseData) :
  tracked mode server items s -> d ∈ (sends s).*2.*1 -> is_Some (identity d) -> d ∈ (event_sends s).*1.
Proof.
  intros Ht (m & -> & ([o m'] & -> & Hx)%list_elem_of_fmap)%list_elem_of_fmap Hi. simpl in *.
  apply list_elem_of_fmap. exists m'. split; [done|]. unfold event_sends. apply list_elem_of_omap.
  exists (o, m'). split; [done|]. destruct o as [n|]; [done|].
  pose proof (proj1 (Forall_forall _ _) (tr_last _ _ _ s Ht) _ Hx eq_refl) as Hm. simpl in Hm. subst m'. by destruct Hi.
Qed.

(** All that was broadcast, when everything is handled and at most the last shutdown
    is still in the channel. *)
Lemma published (e : Engine) (at_time : Z) (db : Database) (mode : Mode) (capacity : nat)
    (start : Z) (cache : string) (nodes : list Node) (items : list (list Incoming)) (actions : list Action) (s : Tasks) :
  apply_all_migrations e at_time ∅ = (Ok tt, db) -> Forall node_ok nodes ->
  (fun l : list Incoming => l.*2) <$> items = delivered <$> nodes -> consistent (concat items) -> mode <> NoDatabase -> is_u32 start ->
  run mode capacity (start_tasks db (mkServer [] (mkIndexer start cache)) items) actions = Some s ->
  drained s -> channel s = [] \/ channel s = [(Shutdown, None)] ->
  let q := sse_data_queue (stream_server s) in
  (forall n j j' d i, n ∈ nodes -> reported n j' -> (j <= j')%nat -> announced n !! j = Some d -> identity d = Some i ->
     (forall it, it ∈ concat items -> identity (incoming_data it) = Some i -> can_save it = true) ->
     exists k d' f, (Some k, d', f) ∈ q /\ identity d' = Some i) /\
  (forall o d f, (o, d, f) ∈ q -> is_Some (identity d) -> exists n, n ∈ nodes /\ d ∈ announced n) /\
  NoDup (omap (fun x : InboundData => identity x.1.2) q) /\
  omap (fun x : InboundData => x.1.1) q = ids_from start (Sidecar.numbered (queued q).*1) /\
  queued q ++ channel s = (sends s).*2.
Proof.
  intros Hmig Hok Hitems Hk Hmode Hu Hrun Hd Hch.
  destruct (sent_reference e at_time db mode capacity _ items actions s Hmig Hk Hmode Hrun)
    as (Ht & Hnd & _ & _ & Hfrom).
  pose proof (reported_sent e at_time db mode capacity _ nodes items actions s Hmig Hok Hitems Hk Hmode Hrun Hd) as Hin.
  clear Hmig Hrun.
  destruct (tr_server _ _ _ s Ht) as (got & Hserver & Hgot).
  destruct (broadcast_all got (mkServer [] (mkIndexer start cache)) Hu) as (q & Hq & Hqd & Hsome & Hids & _).
  cbn [sse_data_queue event_indexer index app] in Hq, Hids. rewrite Hserver, Hq. cbv zeta.
  assert (omap identity got.*1 = omap identity (event_sends s).*1) as Hident.
  { rewrite <- (identities_sends _ _ _ s Ht), <- Hgot, fmap_app, omap_app.
    destruct Hch as [-> | ->]; simpl; by rewrite app_nil_r. }
  assert (forall o d f, (o, d, f) ∈ q -> (d, f) ∈ (sends s).*2) as Hqs.
  { intros o d f Hx. rewrite <- Hgot, <- Hqd. apply elem_of_app. left. apply list_elem_of_fmap. by exists (o, d, f). }
  split_and!; [| | |by rewrite Hqd|by rewrite Hqd].
  - intros n j j' d i Hn Hr Hj Ha Hi Hsave. pose proof (Hin n j j' d i Hn Hr Hj Ha Hi Hsave) as His.
    rewrite <- Hident, <- Hqd in His. apply list_elem_of_omap in His as (d' & Hd' & Hi').
    apply list_elem_of_fmap in Hd' as ([d'' f] & -> & Hd'). apply list_elem_of_fmap in Hd' as ([[o d3] f'] & [= -> ->] & Hx).
    rewrite Forall_forall in Hsome. destruct (Hsome _ Hx) as [k Hk']; [by destruct d3|]. simpl in *. subst o. eauto.
  - intros o d f Hx Hi. destruct (Hfrom d) as (it & Hit & <-); [|done|].
    { eapply sends_elem; [done| |done]. apply list_elem_of_fmap. exists (d, f). split; [done|]. by eapply Hqs. }
    destruct (item_announced nodes items it Hok Hitems Hit Hi) as (n & Hn & _ & Ha). by exists n.
  - rewrite identities_queued, Hqd, <- identities_reports, Hident. done.
Qed.

(** Every announced entity is published once.  Take any number of nodes whose
    connections are lost and made again in any way, processors that interleave in any
    way on a database set up by the migrations, and the moment when all events that
    were handed on are handled and broadcast.  Then each entity a node announced, up to
    the last identifier that was reported and whose event was understood, is in the
    queue of the event stream server under an identifier, if it could be saved; everything there was announced by a
    node; no entity is there twice; and the identifiers are consecutive from [start] on
    modulo 2^32.  It is assumed that a node still has the events it is asked to start
    from and announces fewer than 2^32, that events logged under the same key report
    the same entity, and that the processors have a database. *)
Theorem announced_entities_published (e : Engine) (at_time : Z) (db : Database) (mode : Mode) (capacity : nat)
    (start : Z) (cache : string) (nodes : list Node) (items : list (list Incoming)) (actions : list Action) (s : Tasks) :
  apply_all_migrations e at_time ∅ = (Ok tt, db) -> Forall node_ok nodes ->
  (fun l : list Incoming => l.*2) <$> items = delivered <$> nodes -> consistent (concat items) -> mode <> NoDatabase -> is_u32 start ->
  run mode capacity (start_tasks db (mkServer [] (mkIndexer start cache)) items) actions = Some s ->
  drained s -> channel s = [] ->
  let q := sse_data_queue (stream_server s) in
  (forall n j j' d i, n ∈ nodes -> reported n j' -> (j <= j')%nat -> announced n !! j = Some d -> identity d = Some i ->
     (forall it, it ∈ concat items -> identity (incoming_data it) = Some i -> can_save it = true) ->
     exists k d' f, (Some k, d', f) ∈ q /\ identity d' = Some i) /\
  (forall o d f, (o, d, f) ∈ q -> is_Some (identity d) -> exists n, n ∈ nodes /\ d ∈ announced n) /\
  NoDup (omap (fun x : InboundData => identity x.1.2) q) /\
  omap (fun x : InboundData => x.1.1) q = ids_from start (Sidecar.numbered (sends s).*2.*1).
Proof.
  intros Hmig Hok Hitems Hk Hmode Hu Hrun Hd Hch.
  destruct (published e at_time db mode capacity start cache nodes items actions s Hmig Hok Hitems Hk Hmode Hu Hrun Hd
    (or_introl Hch)) as (Hpub & Hfrom & Hnd & Hids & Hq). clear Hmig Hrun.
  rewrite Hch, app_nil_r in Hq. rewrite <- Hq. auto.
Qed.

End Pipeline.

(** ** An example *)

Module SamplePipeline.
#[local] Existing Instance SampleNodes.counting.

Definition version : ProtocolVersion := mkVersion 2 0 0.

Definition a_step : SseData := Step 5 "effects".

Definition a_fault : SseData := Fault 5 "key" 3.

Definition encode (d : SseData) : string :=
  match d with
  | ApiVersion _ => "ApiVersion 2.0.0"
  | Step _ _ => "Step"
  | _ => "Fault"
  end.

#[export] Instance urls : Urls := {| set_query url q := url +:+ "?" +:+ q; remove_path url := url; url_debug url := url |}.

#[export] Instance texts : EventTexts := {|
  version_to_string _ := "2.0.0";
  from_str s :=
    if decide (s = "ApiVersion 2.0.0") then Ok (ApiVersion version)
    else if decide (s = "Step") then Ok a_step else Ok a_fault;
  debug s := s;
  dropped_receiver := "channel closed";
|}.

(** The connection to the first node is lost after its first event and made again;
    the second node announces one of the events of the first. *)
Definition node_a : Node :=
  mkNode "a" 9999 version "net" [a_step; a_fault]
    [mkSession [a_step] 1 (Some "reset") 0; mkSession [a_step; a_fault] 7 None 1].

Definition nodes : list Node :=
  [node_a; mkNode "b" 9999 version "net" [a_fault] [mkSession [a_fault] 1 None 0]].

Definition event (host : string) (id : Z) (d : SseData) : Incoming :=
  (SampleNodes.env None, mkSseEvent id d ("http://" +:+ host +:+ ":9999/events") Filter_Events "2.0.0" "net").

Definition items : list (list Incoming) :=
  [[event "a" 0 (ApiVersion version); event "a" 0 a_step; event "a" 0 (ApiVersion version); event "a" 0 a_step;
    event "a" 1 a_fault];
   [event "b" 0 (ApiVersion version); event "b" 0 a_fault]].

Definition actions : list Action :=
  [TakeEvent 0; SendEvent 0; TakeEvent 1; TakeEvent 1; TakeEvent 0; Announce 0; SendEvent 0; TakeEvent 0; TakeEvent 0;
   Announce 1; Announce 0; SendEvent 0; SendEvent 1; TakeEvent 0; Announce 0; SendEvent 0; EndProcessors;
   Broadcast; Broadcast; Broadcast; Broadcast].

Definition idle (p : Processor) : bool :=
  match inbound p, queue p, phase p with [], [], Waiting => true | _, _, _ => false end.

Definition start : Tasks := start_tasks SampleNodes.store (mkServer [] (mkIndexer 7 "sse_index")) items.

Lemma observed :
  (fun s => (forallb idle (processors s), length (channel s),
     (fun x : InboundData => (x.1.1, x.1.2)) <$> sse_data_queue (stream_server s))) <$> run OnSqlite 10 start actions =
  Some (true, 0%nat, [(None, ApiVersion version); (Some 7, a_step); (Some 8, a_fault); (Some 9, Shutdown)]).
Proof. vm_compute. reflexivity. Qed.

Lemma idle_drained (s : Tasks) : forallb idle (processors s) = true -> drained s.
Proof.
  intros Hi%Is_true_true%forallb_True. apply (Forall_impl _ _ _ Hi). intros p. unfold idle.
  by destruct (inbound p), (queue p), (phase p).
Qed.

Lemma pipeline_runs :
  exists s, run OnSqlite 10 start actions = Some s /\ drained s /\ channel s = [].
Proof.
  pose proof observed as (s & Hrun & Hs)%fmap_Some. exists s. split; [exact Hrun|]. clear Hrun.
  injection Hs as Hi Hc _. split; [by apply idle_drained|by apply nil_length_inv].
Qed.

Lemma nodes_ok : Forall (node_ok encode) nodes.
Proof.
  repeat constructor; try done; try (by intros [= ]).
  - intros d d' Hd. repeat (apply elem_of_cons in Hd as [->|Hd]; [by intros [= <-]|]). by apply elem_of_nil in Hd.
  - by exists [a_fault].
  - intros d d' Hd. repeat (apply elem_of_cons in Hd as [->|Hd]; [by intros [= <-]|]). by apply elem_of_nil in Hd.
Qed.

Lemma pipeline_consistent : consistent (concat items).
Proof.
  intros it it' Hit Hit'. unfold items in *. simpl in *.
  repeat (apply elem_of_cons in Hit as [->|Hit]); [..|by apply not_elem_of_nil in Hit];
    repeat (apply elem_of_cons in Hit' as [->|Hit']); try (by apply not_elem_of_nil in Hit'); by intros [? ?].
Qed.

Lemma fault_reported : reported encode node_a 1.
Proof. unfold reported. split; [apply (bool_decide_unpack _); vm_compute; exact I|reflexivity]. Qed.

Lemma all_saved (it : Incoming) : it ∈ concat items -> can_save it = true.
Proof.
  intros Hit. unfold items in Hit. simpl in Hit.
  repeat (apply elem_of_cons in Hit as [->|Hit]; [reflexivity|]). by apply not_elem_of_nil in Hit.
Qed.

End SamplePipeline.

Import SampleNodes SamplePipeline.

(** The fault of both nodes is published, under one identifier. *)
Lemma announced_entities_published_witness :
  exists s k d f, run OnSqlite 10 start actions = Some s /\
    (Some k, d, f) ∈ sse_data_queue (stream_server s) /\ identity d = identity a_fault.
Proof.
  destruct pipeline_runs as (s & Hrun & Hd & Hc).
  destruct (announced_entities_published encode Sqlite 1000 store OnSqlite 10 7 "sse_index" nodes items actions s)
    as (Hpub & _).
  - reflexivity.
  - apply nodes_ok.
  - vm_compute. reflexivity.
  - apply pipeline_consistent.
  - discriminate.
  - unfold is_u32, U32_MAX. lia.
  - exact Hrun.
  - exact Hd.
  - exact Hc.
  - destruct (Hpub node_a 1%nat 1%nat a_fault (FaultOf 5 "key")) as (k & d & f & Hin & Hi).
    + left.
    + apply fault_reported.
    + lia.
    + reflexivity.
    + reflexivity.
    + intros it Hit _. by apply all_saved.
    + exists s, k, d, f. split; [exact Hrun|]. split; [exact Hin|exact Hi].
Defined.
