(* ===== verification/Readback.v ===== *)
(** * From the nodes to the answers of the REST server, with everything concurrent

    [EndToEnd.v] reads the store after events that were handled one after the other.
    Here the listeners of [ConnectionManager.v] lose their connections and the
    processors of [Processors.v] interleave, and the REST server is asked at any moment
    of the run, between any two of their steps. *)

From S2P Require Import Prelude SseData EventIndexer EventBuffer EventStream ConnectionManager Sql.
From S2P Require Import Storage Reader Migrations EventHandling RestServer EndToEnd Sidecar Processors Pipeline.

Section Readback.
Context `{Urls, EventTexts, AutoIncrement} (encode : SseData -> string).
Context `{EventJson} (json : SseData -> result string string) `{!EventJsonLaws json}.
Context (version : ProtocolVersion) (debug : Rejection -> string).

(** What the REST server answers to a GET request between two steps of the processors,
    from the database they share. *)
Definition rest_get (s : Tasks) (segs : list string) : RestResponse :=
  combined_filters (store_reader (fun _ => None) (shared_database s)) version debug (mkRestRequest "GET" segs).

(** An entity is in the store exactly if it was sent or is about to be. *)
Lemma entities_linear (s : Tasks) (l : list Message) (saved : list SseData) :
  saved = entities l.*1 -> l ≡ₚ event_sends s ++ owed s -> saved ≡ₚ entities ((event_sends s).*1 ++ (owed s).*1).
Proof. intros -> Hl. unfold entities. by rewrite Hl, fmap_app. Qed.

Lemma saved_entity (saved : list SseData) (d : SseData) (l : list SseData) :
  saved = entities l -> d ∈ saved -> is_Some (identity d).
Proof. intros -> [Hd _]%list_elem_of_filter. unfold is_entity in Hd. by destruct (identity d). Qed.

Lemma entity_elem (i : Identity) (l : list SseData) :
  i ∈ omap identity l -> exists d, d ∈ entities l /\ identity d = Some i.
Proof. rewrite <- omap_identity_entities. by intros (d' & Hd & Hi)%list_elem_of_omap; exists d'. Qed.

(** C3. What the nodes announced can be read, at any moment.  Take any number of nodes
    whose connections are lost and made again in any way, and processors that interleave
    in any way on a database set up by the migrations, where saving may fail.  At every
    moment the store reads, by every query, as a list of events with their origins that
    holds what was sent to the event stream server so far and what a processor is about
    to send: no entity twice, and only what a node announced.  The REST server answers
    with each of them on every path that names it, and [block/<height>] with 404 for a
    block that is not among them.  When all events are handled, an entity that a node
    announced, up to the last identifier that was reported and whose event was understood,
    is in the list if it could be saved.  It is assumed that a node still has the events it
    is asked to start from and announces fewer than 2^32, that its greeting can be read and
    none of its events is taken for another one, that events logged under the same key report the same
    entity, that what is written can be read again, and that queries do not fail. *)
Theorem announced_entities_readable (e : Engine) (at_time : Z) (db : Database) (mode : Mode) (capacity : nat)
    (server : EventStreamServer) (nodes : list Node) (items : list (list Incoming)) (actions : list Action) (s : Tasks) :
  apply_all_migrations e at_time ∅ = (Ok tt, db) -> Forall (node_ok encode) nodes ->
  (fun l : list Incoming => l.*2) <$> items = delivered encode <$> nodes -> consistent (concat items) ->
  Forall (fun it => to_json it.1 = json) (concat items) -> mode <> NoDatabase ->
  run mode capacity (start_tasks db server items) actions = Some s ->
  exists saved,
    reads_as (shared_database s) saved /\
    saved.*1 ≡ₚ entities ((event_sends s).*1 ++ (owed s).*1) /\
    NoDup (omap identity saved.*1) /\
    (forall x, x ∈ saved -> exists n ev, n ∈ nodes /\ ev ∈ delivered encode n /\ x = (sse_data ev, origin ev) /\
       x.1 ∈ announced n) /\
    Forall (served (rest_get s)) saved /\
    (forall height, is_u64 height ->
       rest_get s ["block"; pretty height] = storage_answer DataEvent (found (block_at height) saved)) /\
    (drained s -> forall n j j' d i, n ∈ nodes -> reported encode n j' -> (j <= j')%nat -> announced n !! j = Some d ->
       identity d = Some i ->
       (forall it, it ∈ concat items -> identity (incoming_data it) = Some i -> can_save it = true) ->
       exists x, x ∈ saved /\ identity x.1 = Some i).
Proof using EventJsonLaws0.
  intros Hmig Hok Hitems Hk Hjson Hmode Hrun.
  destruct (linear_reference e at_time db mode capacity server items actions s Hmig Hk Hmode Hrun)
    as (w & Ht & Hl & Hk' & Hc & Hr & _).
  pose proof (reported_sent encode e at_time db mode capacity server nodes items actions s Hmig Hok Hitems Hk Hmode Hrun)
    as Hsent. clear Hrun.
  destruct (consumed_readable json e at_time (saves s).*2 db (shared_manager s) w Hmig Hk') as
    (saved & Hs & Hsub & Hd & Hreads & Hread); [|exact Hc|exact Hr|].
  { clear Hmig. apply Forall_forall. intros it Hit. eapply Forall_forall in Hjson; [exact Hjson|]. by eapply saves_member. }
  clear Hmig Hc. rewrite (lin_database _ _ _ s w Hl) in Hreads, Hread.
  pose proof (entities_linear s _ _ Hs (lin_sent _ _ _ s w Hl)) as Hp.
  exists saved. split_and!; [done..| | | |].
  - intros x Hx. assert (is_Some (identity x.1)) as Hi.
    { apply (saved_entity saved.*1 x.1 _ Hs). by apply list_elem_of_fmap_2. }
    eapply elem_of_sublist in Hx; [|exact Hsub]. apply list_elem_of_fmap in Hx as (it & -> & Hit).
    destruct (item_announced encode nodes items it Hok Hitems) as (n & Hn & Hdel & Ha); [by eapply saves_member|done|].
    by exists n, it.2.
  - apply (Forall_impl _ _ _ Hread). intros x Hx. by apply readable_served.
  - intros height. by apply block_height_answer.
  - intros Hdr n j j' d i Hn Hrep Hj Ha Hi Hsave. specialize (Hsent Hdr n j j' d i Hn Hrep Hj Ha Hi Hsave).
    apply entity_elem in Hsent as (d' & Hd' & Hi'). assert (d' ∈ saved.*1) as Hin.
    { rewrite Hp, entities_app. apply elem_of_app. by left. }
    apply list_elem_of_fmap in Hin as (x & -> & Hx). by exists x.
Qed.

End Readback.

(** ** An example *)

Module SampleReadback.
Import SampleBlocks SamplePipeline.
#[local] Existing Instance SampleNodes.counting.

(** Two nodes announce a step; the connection to the first is lost and made again. *)
Definition first : Node :=
  mkNode "a" 9999 SamplePipeline.version "net" [a_step]
    [mkSession [a_step] 1 (Some "reset") 0; mkSession [a_step] 7 None 1].

Definition announcing : list Node :=
  [first; mkNode "b" 9999 SamplePipeline.version "net" [a_step] [mkSession [a_step] 1 None 0]].

Definition received (host : string) (id : Z) (d : SseData) : Incoming := (surroundings None, (event host id d).2).

Definition incoming_of : list (list Incoming) :=
  [[received "a" 0 (ApiVersion SamplePipeline.version); received "a" 0 a_step;
    received "a" 0 (ApiVersion SamplePipeline.version); received "a" 0 a_step];
   [received "b" 0 (ApiVersion SamplePipeline.version); received "b" 0 a_step]].

Definition schedule : list Action :=
  [TakeEvent 0; SendEvent 0; TakeEvent 1; TakeEvent 1; TakeEvent 0; Announce 0; Announce 1; SendEvent 1; SendEvent 0;
   TakeEvent 0; TakeEvent 0; Announce 0; SendEvent 0].

Definition begin : Tasks := start_tasks SampleNodes.store (mkServer [] (mkIndexer 7 "sse_index")) incoming_of.

Lemma read_runs : exists s, run OnSqlite 10 begin schedule = Some s /\ drained s.
Proof.
  assert ((fun s => forallb idle (processors s)) <$> run OnSqlite 10 begin schedule = Some true)
    as (s & Hrun & Hs)%fmap_Some by (vm_compute; reflexivity).
  exists s. split; [exact Hrun|]. clear Hrun. by apply idle_drained.
Qed.

Lemma announcing_ok : Forall (node_ok encode) announcing.
Proof.
  repeat constructor; try done; try (by intros [= ]);
    intros d d' Hd; repeat (apply elem_of_cons in Hd as [->|Hd]; [by intros [= <-]|]); by apply elem_of_nil in Hd.
Qed.

Lemma read_consistent : consistent (concat incoming_of).
Proof.
  intros it it' Hit Hit'. unfold incoming_of in *. simpl in *.
  repeat (apply elem_of_cons in Hit as [->|Hit]); [..|by apply not_elem_of_nil in Hit];
    repeat (apply elem_of_cons in Hit' as [->|Hit']); try (by apply not_elem_of_nil in Hit'); by intros [? ?].
Qed.

Lemma step_reported : Pipeline.reported encode first 0.
Proof. unfold reported. split; [apply (bool_decide_unpack _); vm_compute; exact I|reflexivity]. Qed.

Lemma steps_saved (it : Incoming) :
  it ∈ concat incoming_of -> identity (incoming_data it) = Some (StepOf 5) -> can_save it = true.
Proof.
  intros Hit. unfold incoming_of in Hit. simpl in Hit.
  repeat (apply elem_of_cons in Hit as [->|Hit]; [done|]). by apply not_elem_of_nil in Hit.
Qed.

End SampleReadback.

Import SampleNodes SampleBlocks SamplePipeline SampleReadback.

(** The step of both nodes is answered for its era. *)
Lemma announced_entities_readable_witness :
  exists s x, run OnSqlite 10 begin schedule = Some s /\ identity x.1 = Some (StepOf 5) /\
    rest_get (mkVersion 2 0 0) (fun _ => "rejected") s ["step"; pretty 5] = mkRestResponse 200 (DataEvent (envelope_of x)).
Proof.
  destruct read_runs as (s & Hrun & Hd).
  destruct (announced_entities_readable encode write (mkVersion 2 0 0) (fun _ => "rejected") Sqlite 1000 store OnSqlite 10
    (mkServer [] (mkIndexer 7 "sse_index")) announcing incoming_of schedule s)
    as (saved & _ & _ & _ & _ & Hserved & _ & Hall).
  - reflexivity.
  - apply announcing_ok.
  - vm_compute. reflexivity.
  - apply read_consistent.
  - by repeat constructor.
  - discriminate.
  - exact Hrun.
  - destruct (Hall Hd first 0%nat 0%nat a_step (StepOf 5)) as (x & Hx & Hi).
    + left.
    + apply step_reported.
    + lia.
    + reflexivity.
    + reflexivity.
    + apply steps_saved.
    + exists s, x. split; [exact Hrun|]. clear Hrun Hall Hd. split; [exact Hi|].
      rewrite Forall_forall in Hserved. specialize (Hserved x Hx). destruct x as [d o]. unfold served in Hserved.
      destruct d; try discriminate Hi. injection Hi as ->. apply Hserved. unfold is_u64, U64_MAX. simpl. lia.
Defined.
