(* ===== verification/Restart.v ===== *)
(** * The sidecar stopped and started again

    The process may end between any two steps of its processors; the database stays, the
    queues, the channel to the event stream server and what was about to be sent are
    lost.  The next start runs the migrations on the database it finds
    ([Migrations.v]) and the processors ([Processors.v]) on the events the nodes deliver
    then. *)

From S2P Require Import Prelude SseData EventIndexer EventBuffer EventStream ConnectionManager Sql.
From S2P Require Import Storage Reader Migrations EventHandling RestServer EndToEnd Sidecar Processors.

(** ** The record of the migrations *)

Section Record.
Context `{AutoIncrement}.

Lemma execute_other (env : WriteEnv) (stmts : list (string * Row)) (db db' : Database) (table : string) :
  execute env stmts db = Ok db' -> Forall (fun stmt => stmt.1 <> table) stmts -> db' !! table = db !! table.
Proof.
  intros He Hs. revert db He. induction Hs as [|[t r] stmts Ht _ IH]; intros db; simpl; [by intros [= <-]|].
  destruct (insert_row _ _ _ _ _) as [db1|] eqn:Hi; [|done]. simpl. intros He. rewrite (IH db1 He).
  apply insert_row_Ok in Hi as (tab & _ & _ & ->). by rewrite lookup_insert_ne.
Qed.

Lemma save_with_other (env : WriteEnv) (ty : EventTypeId) (o : Origin) (js : result string string) (key : string)
    (stmts : string -> Z -> list (string * Row)) (db : Database) (table : string) :
  table <> "event_log" -> (forall raw id, Forall (fun stmt => stmt.1 <> table) (stmts raw id)) ->
  (save_with env ty o js key stmts db).2 !! table = db !! table.
Proof.
  intros Ht Hs. unfold save_with. destruct (fails_at env Begin); [done|]. destruct js as [raw|]; [|done].
  destruct (save_event_log env ty o key db) as [[id db1]|] eqn:Hl; [|done].
  assert (db1 !! table = db !! table) as Hdb1.
  { unfold save_event_log, guarded in Hl. simpl in Hl. destruct (fails_at env LogEvent); [done|].
    destruct (insert_row _ _ _ _ _) as [db2|] eqn:Hi; [|done]. injection Hl as _ <-.
    apply insert_row_Ok in Hi as (tab & _ & _ & ->). by rewrite lookup_insert_ne. }
  unfold guarded. destruct (fails_at env InsertEvent); [done|].
  destruct (execute env (stmts raw id) db1) as [db2|] eqn:He; [|done].
  destruct (fails_at env Commit); [done|]. simpl. rewrite <- Hdb1. by eapply execute_other.
Qed.

Lemma save_phase_record (mode : Mode) (it : Incoming) (db : Database) :
  (save_phase mode it db).2 !! "Migration" = db !! "Migration".
Proof.
  unfold save_phase. destruct mode; [..|done]; destruct (is_shutdown _) eqn:Hs;
    first [by apply save_with_other; [done|intros; repeat constructor]
          |destruct (incoming_data it); try done; by apply save_with_other; [done|intros; repeat constructor]].
Qed.

Lemma send_message_database (capacity : nat) (s s' : Tasks) (sender : option nat) (m : Message) :
  send_message capacity s sender m = Some s' -> shared_database s' = shared_database s.
Proof. unfold send_message. case_decide; [|done]. by intros [= <-]. Qed.

Lemma act_record (mode : Mode) (capacity : nat) (s s' : Tasks) (a : Action) :
  act mode capacity s a = Some s' -> shared_database s' !! "Migration" = shared_database s !! "Migration".
Proof.
  destruct a as [n|n|n|n| |]; simpl.
  - unfold forward. destruct (processors s !! n) as [p|]; [|done]. simpl. destruct (inbound p) as [|it rest]; [done|].
    destruct (negb _); [done|]. case_decide; [|by intros [= <-]].
    destruct (phase p); try destruct (_ <? _); intros [=]; by subst.
  - unfold take_event. destruct (processors s !! n) as [p|]; [|done]. simpl.
    destruct (phase p); try done. destruct (receiver mode p) as [|it l]; [done|].
    pose proof (save_phase_record mode it (shared_database s)) as Hs.
    destruct (save_phase mode it (shared_database s)) as [res db]. simpl in Hs.
    assert (forall v, lock_version mode s n p it v = Some s' -> shared_database s' = shared_database s) as Hv.
    { intros v. unfold lock_version. destruct (mutex_held s); [done|]. destruct (store_version _ _). by intros [= <-]. }
    destruct (incoming_data it); [by intros ->%Hv|..]; destruct res; intros [= <-]; exact Hs.
  - unfold announce_event. destruct (processors s !! n) as [p|]; [|done]. simpl.
    destruct (phase p); try done. by intros [= <-].
  - unfold send_event. destruct (processors s !! n) as [p|]; [|done]. simpl.
    destruct (phase p); try done; [by intros ->%send_message_database|].
    destruct (outgoing _ _); [by intros [= <-]|by intros ->%send_message_database].
  - unfold broadcast_message. destruct (channel s); [done|]. by intros [= <-].
  - unfold end_processors. destruct (_ && _); [|done]. by intros ->%send_message_database.
Qed.

Lemma run_record (mode : Mode) (capacity : nat) (actions : list Action) (s s' : Tasks) :
  run mode capacity s actions = Some s' -> shared_database s' !! "Migration" = shared_database s !! "Migration".
Proof.
  revert s. induction actions as [|a actions IH]; intros s; simpl; [by intros [= <-]|].
  destruct (act mode capacity s a) as [s1|] eqn:Ha; [|done]. simpl. intros Hr.
  by rewrite (IH s1 Hr), (act_record mode capacity s s1 a Ha).
Qed.

(** A store on which the migrations ran, and they need not run again. *)
Definition migrated (db : Database) : Prop := history db [(1, true)].

Lemma migrated_again (e : Engine) (at_time : Z) (db : Database) :
  migrated db -> apply_all_migrations e at_time db = (Ok tt, db).
Proof.
  intros Hh. apply (nothing_to_migrate e at_time get_all_migrations db [(1, true)] 1); [done..|].
  apply Forall_singleton. by exists 1.
Qed.

Lemma migrated_first (e : Engine) (at_time : Z) (db : Database) :
  apply_all_migrations e at_time ∅ = (Ok tt, db) -> migrated db.
Proof.
  intros Hm. assert (db = (apply_all_migrations e at_time ∅).2) as -> by by rewrite Hm. clear Hm.
  unfold migrated, history. by destruct e; vm_compute.
Qed.

End Record.

(** ** One life of the process *)

(** What was sent, and what was about to be: all that went into the store. *)
Definition handled (s : Tasks) : list SseData := (event_sends s).*1 ++ (owed s).*1.

(** What the processors of one life are given, and how they are scheduled. *)
Record Life := mkLife {
  started_at : Z;
  life_server : EventStreamServer;
  life_nodes : list (list Incoming);
  life_actions : list Action;
}.

Section Lives.
Context `{AutoIncrement} (json : SseData -> result string string) (e : Engine) (mode : Mode) (capacity : nat).

(** The store between two lives: the entities it holds, the events it reads as, and the
    migrations on record. *)
Record settled (all : list Incoming) (seen : list Identity) (saved : Saved) (db : Database) : Prop := {
  settled_holds : holds (among all) seen db;
  settled_represents : represents json db saved;
  settled_migrated : migrated db;
}.

Lemma life_step (all : list Incoming) (seen : list Identity) (saved : Saved) (db : Database) (server : EventStreamServer)
    (nodes : list (list Incoming)) (actions : list Action) (s : Tasks) :
  consistent all -> concat nodes ⊆ all -> Forall (fun it => to_json it.1 = json) all -> mode <> NoDatabase ->
  settled all seen saved db -> run mode capacity (start_tasks db server nodes) actions = Some s ->
  exists seen' saved', settled all seen' (saved ++ saved') (shared_database s) /\
    saved'.*1 ≡ₚ entities (handled s) /\ NoDup (omap identity (handled s)) /\
    (forall i, i ∈ omap identity (handled s) -> i ∉ seen) /\
    (forall i, i ∈ seen' <-> i ∈ seen \/ i ∈ omap identity (handled s)) /\
    (drained s -> forall it i, it ∈ concat nodes -> identity (incoming_data it) = Some i -> can_save it = true -> i ∈ seen').
Proof.
  intros Hk Hsub Hjson Hmode [Hh Hrep Hm] Hrun.
  destruct (reference_from mode capacity all seen db server nodes Hk Hsub Hh actions s Hmode Hrun)
    as (w & Ht & Hl & Hsaves & Hc & Hr & _ & Hh').
  apply run_record in Hrun. cbn [start_tasks shared_database] in Hrun.
  destruct (consume_represents json (saves s).*2 ApiVersionManager_new (shared_manager s) (started db).2 w saved)
    as (out & saved' & Hsent & Hrep' & Hs & _); [|done|exact Hrep|exact Hc|].
  { apply Forall_forall. intros it Hit. eapply Forall_forall in Hjson; [exact Hjson|]. by apply Hsaves. }
  simpl in Hsent. rewrite (lin_database _ _ _ s w Hl) in Hrep'. subst out.
  pose proof (lin_sent _ _ _ s w Hl) as Hp. clear Hc.
  assert ((sent (outbound_sse_data_sender w)).*1 ≡ₚ handled s) as Hhandled by (unfold handled; by rewrite Hp, fmap_app).
  assert (omap identity (reports (reference (saves s).*2 (None, seen))) ≡ₚ omap identity (handled s)) as Hids.
  { by rewrite <- Hr, <- identities_reports, Hhandled. }
  destruct (reference_entities (saves s).*2 None seen) as [Hnd Hin].
  exists (reference_state (saves s).*2 (None, seen)).2, saved'. split_and!.
  - split; [done..|]. unfold migrated, history in *. by rewrite Hrun.
  - rewrite Hs. unfold entities. by rewrite Hhandled.
  - by rewrite <- Hids.
  - intros i Hi. rewrite <- Hids in Hi. by apply Hin in Hi as [? _].
  - intros i. by rewrite reference_seen, Hids.
  - intros Hd it i Hit Hi Hcan. rewrite reference_seen. destruct (decide (i ∈ seen)) as [?|Hns]; [by left|right].
    apply Hin. split; [done|]. exists it. split; [|done]. by eapply drained_saves.
Qed.

(** The lives one after the other, each ended after the last of its actions; the moments
    at which they ended. *)
Fixpoint lives (db : Database) (ls : list Life) : option (list Tasks) :=
  match ls with
  | [] => Some []
  | l :: ls =>
      match apply_all_migrations e (started_at l) db with
      | (Ok _, db) =>
          s ← run mode capacity (start_tasks db (life_server l) (life_nodes l)) (life_actions l);
          ss ← lives (shared_database s) ls;
          Some (s :: ss)
      | (Err _, _) => None
      end
  end.

Definition events_of (ls : list Life) : list Incoming := ls ≫= fun l => concat (life_nodes l).

Lemma settled_ext (all : list Incoming) (seen seen' : list Identity) (saved : Saved) (db : Database) :
  (forall i, i ∈ seen <-> i ∈ seen') -> settled all seen saved db -> settled all seen' saved db.
Proof.
  intros Hs [[Hok Hst Hlog] ? ?]. split; [|done..]. split; [done| |].
  - intros i. rewrite Hst. by apply bool_decide_ext.
  - intros d i ty k Hd Hi Hk Hl. apply Hs. by eapply Hlog.
Qed.

Lemma lives_last (db : Database) (ls : list Life) (ss : list Tasks) : lives db ls = Some ss -> length ss = length ls.
Proof.
  revert db ss. induction ls as [|l ls IH]; intros db ss; simpl; [by intros [= <-]|].
  destruct (apply_all_migrations _ _ _) as [[?|] db1]; [|done]. destruct (run _ _ _ _) as [s|]; [|done]. simpl.
  destruct (lives _ ls) as [ss'|] eqn:Hl; [|done]. intros [= <-]. simpl. by rewrite (IH _ _ Hl).
Qed.

(** Lives from a settled store on. *)
Lemma settled_lives (all : list Incoming) (ls : list Life) (ss : list Tasks) (seen : list Identity) (saved : Saved)
    (db : Database) :
  consistent all -> events_of ls ⊆ all -> Forall (fun it => to_json it.1 = json) all -> mode <> NoDatabase ->
  settled all seen saved db -> lives db ls = Some ss ->
  exists saved', settled all (omap identity (ss ≫= handled) ++ seen) (saved ++ saved')
      (default db (shared_database <$> last ss)) /\
    saved'.*1 ≡ₚ entities (ss ≫= handled) /\ NoDup (omap identity (ss ≫= handled)) /\
    (forall i, i ∈ omap identity (ss ≫= handled) -> i ∉ seen) /\
    (forall s l, last ss = Some s -> last ls = Some l -> drained s -> forall it i, it ∈ concat (life_nodes l) ->
       identity (incoming_data it) = Some i -> can_save it = true -> i ∈ omap identity (ss ≫= handled) ++ seen).
Proof.
  intros Hk Hall Hjson Hmode. revert ss seen saved db. induction ls as [|l ls IH]; intros ss seen saved db Hset.
  { intros [= <-]. exists []. rewrite app_nil_r. split_and!; try done; [constructor|set_solver]. }
  simpl. rewrite migrated_again by apply Hset. destruct (run _ _ _ _) as [s|] eqn:Hrun; [|done]. simpl.
  destruct (lives (shared_database s) ls) as [ss'|] eqn:Hl; [|done]. intros [= <-].
  unfold events_of in Hall. simpl in Hall.
  destruct (life_step all seen saved db (life_server l) (life_nodes l) (life_actions l) s)
    as (seen1 & saved1 & Hset1 & Hs1 & Hnd1 & Hnew1 & Hseen1 & Hdr1); [done|set_solver|done..|]. clear Hrun.
  destruct (IH ltac:(set_solver) ss' seen1 (saved ++ saved1) _ Hset1 Hl) as (saved2 & Hset2 & Hs2 & Hnd2 & Hnew2 & Hdr2).
  clear IH. apply lives_last in Hl. exists (saved1 ++ saved2). csimpl. rewrite omap_app. split_and!.
  - rewrite app_assoc. apply (settled_ext _ (omap identity (ss' ≫= handled) ++ seen1)).
    { intros i. rewrite !elem_of_app, Hseen1. naive_solver. }
    by destruct ss' as [|s' ss' _] using rev_ind; [|rewrite app_comm_cons, !last_snoc in *].
  - by rewrite fmap_app, entities_app, Hs1, Hs2.
  - apply NoDup_app. split_and!; [done| |done]. intros i Hi Hi'. apply (Hnew2 i Hi'), Hseen1. by right.
  - intros i [Hi|Hi]%elem_of_app; [by apply Hnew1|]. intros Hsn. apply (Hnew2 i Hi), Hseen1. by left.
  - intros s' l' Hs' Hl' Hd it i Hit Hi Hcan. rewrite !elem_of_app. destruct ss' as [|s1 ss'], ls as [|l1 ls]; try done.
    + injection Hs' as <-. injection Hl' as <-. apply (Hdr1 Hd it i Hit Hi), Hseen1 in Hcan. naive_solver.
    + apply (Hdr2 s' l' Hs' Hl' Hd it i Hit Hi) in Hcan. rewrite elem_of_app, Hseen1 in Hcan. naive_solver.
Qed.

(** The first lives among more. *)
Lemma lives_take (db : Database) (ls : list Life) (ss : list Tasks) (n : nat) :
  lives db ls = Some ss -> lives db (take n ls) = Some (take n ss).
Proof.
  revert db ls ss. induction n as [|n IH]; intros db ls ss; [done|]. destruct ls as [|l ls]; simpl; [by intros [= <-]|].
  destruct (apply_all_migrations _ _ _) as [[?|] db1]; [|done]. destruct (run _ _ _ _) as [s|]; [|done]. simpl.
  destruct (lives _ ls) as [ss'|] eqn:Hl; [|done]. intros [= <-]. simpl. by rewrite (IH _ _ _ Hl).
Qed.

(** The first start sets up the store. *)
Lemma first_settled (all : list Incoming) (at_time : Z) (db : Database) :
  apply_all_migrations e at_time ∅ = (Ok tt, db) -> settled all [] [] db.
Proof. intros Hm. split; [by eapply fresh_holds|by eapply fresh_represents|by eapply migrated_first]. Qed.

Lemma lives_start (all : list Incoming) (ls : list Life) :
  exists db, settled all [] [] db /\ lives ∅ ls = lives db ls.
Proof.
  destruct (fresh_store e (from_option started_at 0 (head ls))) as (db & Hm & _).
  pose proof (first_settled all _ db Hm) as Hset. exists db. split; [done|]. destruct ls as [|l ls]; [done|]. simpl in *.
  by rewrite Hm, migrated_again by apply Hset.
Qed.

End Lives.

(** ** The theorem *)

Section Restarts.
Context `{AutoIncrement} `{EventJson} (json : SseData -> result string string) `{!EventJsonLaws json}.
Context (e : Engine) (mode : Mode) (capacity : nat).

Lemma sends_handled (ss : list Tasks) :
  omap identity (ss ≫= fun s => (event_sends s).*1) `sublist_of` omap identity (ss ≫= handled).
Proof.
  induction ss as [|s ss IH]; [constructor|]. csimpl. rewrite !omap_app. unfold handled at 1. rewrite omap_app.
  apply sublist_app; [by apply sublist_inserts_r|done].
Qed.

Lemma events_of_take (ls : list Life) (n : nat) : events_of (take n ls) ⊆ events_of ls.
Proof.
  intros it. rewrite <- (take_drop n ls) at 2. unfold events_of. rewrite bind_app, elem_of_app. by left.
Qed.

(** C5. The sidecar may be stopped at any moment and started again, any number of times,
    on the same database.  It always starts: the migrations find nothing to do.  Over
    all its lives no entity is sent to the event stream server twice.  After each of
    them the store reads, by every query, as the entities that were sent, or were about
    to be sent when the process ended, in this or an earlier life.  When the last life
    handled all its events, each entity that could be saved in it was handled in some
    life.  An entity that was saved but not yet sent when the process ended is never
    sent: it can be read, but no subscriber hears of it.  It is assumed that events
    logged under the same key report the same entity, and that what is written can be
    read again. *)
Theorem restarts_publish_once (ls : list Life) (ss : list Tasks) :
  consistent (events_of ls) -> Forall (fun it => to_json it.1 = json) (events_of ls) -> mode <> NoDatabase ->
  lives e mode capacity ∅ ls = Some ss ->
  NoDup (omap identity (ss ≫= fun s => (event_sends s).*1)) /\
  (forall ss1 s ss2, ss = ss1 ++ s :: ss2 ->
     (forall at_time, apply_all_migrations e at_time (shared_database s) = (Ok tt, shared_database s)) /\
     (exists saved, reads_as (shared_database s) saved /\ saved.*1 ≡ₚ entities (ss1 ≫= handled) ++ entities (handled s)) /\
     (forall i, i ∈ omap identity (owed s).*1 -> i ∉ omap identity (ss2 ≫= fun s => (event_sends s).*1))) /\
  (forall s l, last ss = Some s -> last ls = Some l -> drained s ->
     forall it i, it ∈ concat (life_nodes l) -> identity (incoming_data it) = Some i -> can_save it = true ->
     i ∈ omap identity (ss ≫= handled)).
Proof using EventJsonLaws0.
  intros Hk Hjson Hmode Hl.
  destruct (lives_start json e mode capacity (events_of ls) ls) as (db & Hset & Hdb). rewrite Hdb in Hl. clear Hdb.
  destruct (settled_lives json e mode capacity (events_of ls) ls ss [] [] db) as (_ & _ & _ & Hnd & _ & Hdr); try done.
  split_and!.
  - by eapply sublist_NoDup, sends_handled.
  - intros ss1 s ss2 ->. apply (lives_take _ _ _ _ _ _ (S (length ss1))) in Hl.
    replace (take (S (length ss1)) (ss1 ++ s :: ss2)) with (ss1 ++ [s]) in Hl
      by (rewrite take_app_ge, Nat.sub_succ_l, Nat.sub_diag by lia; done).
    destruct (settled_lives json e mode capacity (events_of ls) (take (S (length ss1)) ls) (ss1 ++ [s]) [] [] db)
      as (saved & [_ Hrep Hm] & Hs & _); try done; [by apply events_of_take|]. rewrite last_snoc in Hrep, Hm. simpl in Hrep, Hm.
    split_and!.
    + intros at_time. by apply migrated_again.
    + exists saved. split; [by apply (represents_reads json)|]. by rewrite Hs, bind_app, entities_app; csimpl; rewrite app_nil_r.
    + intros i Hi Hi'. rewrite bind_app, bind_cons, !omap_app in Hnd.
      apply NoDup_app in Hnd as (_ & _ & (_ & Hdisj & _)%NoDup_app). apply (Hdisj i).
      * unfold handled. rewrite omap_app. apply elem_of_app. by right.
      * by eapply elem_of_sublist, sends_handled.
  - intros s l Hs Hls Hd it i Hit Hi Hcan. specialize (Hdr s l Hs Hls Hd it i Hit Hi Hcan). by rewrite app_nil_r in Hdr.
Qed.

End Restarts.

(** ** An example *)

Module SampleRestart.
Import SampleBlocks.
#[local] Existing Instance SampleNodes.counting.

Definition delivered_step : Incoming := (surroundings None, SampleNodes.reported "a" 1 (Step 5 "effects")).

Definition stream_server_at (start : Z) : EventStreamServer := mkServer [] (mkIndexer start "sse_index").

(** The process ends after the step is saved; in its second life the node delivers the
    step again. *)
Definition two_lives : list Life :=
  [mkLife 1000 (stream_server_at 0) [[delivered_step]] [TakeEvent 0];
   mkLife 2000 (stream_server_at 1) [[delivered_step]] [TakeEvent 0; Announce 0; SendEvent 0]].

Lemma two_lives_run :
  exists s1 s2, lives Sqlite OnSqlite 10 ∅ two_lives = Some [s1; s2] /\ omap identity (owed s1).*1 = [StepOf 5] /\
    (event_sends s2).*1 = [].
Proof.
  assert ((fun ss => (fun s => (omap identity (owed s).*1, (event_sends s).*1)) <$> ss) <$>
    lives Sqlite OnSqlite 10 ∅ two_lives = Some [([StepOf 5], []); ([], [])]) as (ss & Hl & Hss)%fmap_Some
    by (vm_compute; reflexivity).
  destruct ss as [|s1 [|s2 [|]]]; try discriminate Hss. injection Hss as Ho _ _ Hs.
  exists s1, s2. split; [exact Hl|]. clear Hl. by rewrite <- Ho, <- Hs.
Qed.

Lemma lives_consistent : consistent (events_of two_lives).
Proof.
  intros it it' Hit Hit'. unfold events_of, two_lives in *. simpl in *.
  repeat (apply elem_of_cons in Hit as [->|Hit]); [..|by apply not_elem_of_nil in Hit];
    repeat (apply elem_of_cons in Hit' as [->|Hit']); try (by apply not_elem_of_nil in Hit'); done.
Qed.

End SampleRestart.

Import SampleBlocks SampleRestart.
#[local] Existing Instance SampleNodes.counting.

(** The step is never sent, but it is in the store. *)
Lemma restarts_publish_once_witness :
  exists s1 s2 saved, lives Sqlite OnSqlite 10 ∅ two_lives = Some [s1; s2] /\
    StepOf 5 ∉ omap identity ([s2] ≫= fun s => (event_sends s).*1) /\
    reads_as (shared_database s1) saved /\ saved.*1 ≡ₚ entities (handled s1).
Proof.
  destruct two_lives_run as (s1 & s2 & Hl & Ho & _).
  destruct (restarts_publish_once write Sqlite OnSqlite 10 two_lives [s1; s2]) as (_ & Hmid & _).
  - apply lives_consistent.
  - by repeat constructor.
  - discriminate.
  - exact Hl.
  - destruct (Hmid [] s1 [s2] eq_refl) as (_ & (saved & Hreads & Hs) & Hlost). exists s1, s2, saved.
    split; [exact Hl|]. clear Hl. split; [|by split]. apply Hlost. rewrite Ho. left.
Defined.
