(* ===== verification/Publication.v ===== *)
(** * From the nodes to a client

    The concurrent processors ([Processors.v]) and the event stream server with a
    client ([EventStream.v]) run together: the task that takes messages off the channel
    announces them to the server.  What the nodes announce reaches the client. *)

From S2P Require Import Prelude Json SseData LegacySse EventIndexer EventBuffer SseServer EventStream.
From S2P Require Import ConnectionManager Sql Storage Migrations EventHandling Sidecar Processors Pipeline.

(** ** All tasks together *)

Section Joint.
Context {B : Type} `{WB : WheelBuf B Buffered} `{AutoIncrement} (mode : Mode) (capacity slots : nat).

Inductive JointAction : Type :=
| OfTasks (a : Processors.Action)
| OfServer (a : EventStream.Action).

(** The queue of the server gets what is taken off the channel. *)
Definition announce_to (y : System B) (d : SseData) (f : option Filter) : System B :=
  mkSystem (broadcast (sys_server y) d f) (sys_latest y) (sys_buffer y) (sys_handled y) (sys_client y).

(** [event_sidecar/src/lib.rs:122-124], [start_event_broadcasting], links the two sides. *)
Definition joint_act (a : JointAction) (st : Tasks * System B) : option (Tasks * System B) :=
  match a with
  | OfTasks Broadcast =>
      match channel st.1 with
      | (d, f) :: _ => s ← broadcast_message st.1; Some (s, announce_to st.2 d f)
      | [] => None
      end
  | OfTasks a => s ← act mode capacity st.1 a; Some (s, st.2)
  | OfServer (EventStream.Announce _ _) => None
  | OfServer a => y ← do_action slots a st.2; Some (st.1, y)
  end.

Fixpoint joint_run (actions : list JointAction) (st : Tasks * System B) : option (Tasks * System B) :=
  match actions with
  | [] => Some st
  | a :: actions => st' ← joint_act a st; joint_run actions st'
  end.

(** An item of the queue as the server handles it. *)
Definition queue_event (x : InboundData) : ServerSentEvent := EventBuffer.mkEvent x.1.1 (Some x.1.2) None x.2.

(** What was announced was handled, or waits in the queue. *)
Record in_step (s : Tasks) (y : System B) : Prop := {
  st_events : sys_handled y ++ (queue_event <$> sse_data_queue (sys_server y)) =
    queue_event <$> sse_data_queue (stream_server s);
  st_indexer : event_indexer (sys_server y) = event_indexer (stream_server s);
}.

(** The two sides of a step. *)
Lemma joint_act_sides (a : JointAction) (s s' : Tasks) (y y' : System B) :
  joint_act a (s, y) = Some (s', y') ->
  (s' = s \/ exists a', act mode capacity s a' = Some s') /\ (y' = y \/ EventStream.step slots y y').
Proof.
  unfold joint_act. cbn [fst snd]. destruct a as [a|a].
  - destruct a; try (intros (s1 & Ha & [= <- <-])%bind_Some; split; [right; by eexists|by left]).
    destruct (channel s) as [|[d f] rest]; try done. intros (s1 & Ha & [= <- <-])%bind_Some.
    split; right; [by exists Broadcast|]. apply EventStream.step_announce.
  - intros Ha. assert (exists y1, do_action slots a y = Some y1 /\ s' = s /\ y' = y1) as (y1 & Hd%do_action_step & -> & ->).
    { destruct a; try done; by apply bind_Some in Ha as (y1 & Hy & [= <- <-]); eexists. }
    split; [by left|by right].
Qed.

Lemma joint_run_sides (actions : list JointAction) (s s' : Tasks) (y y' : System B) :
  joint_run actions (s, y) = Some (s', y') ->
  (exists acts, Processors.run mode capacity s acts = Some s') /\ rtc (EventStream.step slots) y y'.
Proof.
  revert s y. induction actions as [|a actions IH]; intros s y; cbn [joint_run].
  { intros [= <- <-]. split; [by exists []|done]. }
  intros ([s1 y1] & Ha & Hr)%bind_Some. destruct (IH s1 y1 Hr) as [(acts & Hacts) Hy].
  destruct (joint_act_sides a s s1 y y1 Ha) as [Hs Hy1]. split.
  - destruct Hs as [->|[a' Ha']]; [by eexists|]. exists (a' :: acts). simpl. by rewrite Ha'.
  - destruct Hy1 as [->|Hy1]; [done|]. by eapply rtc_l.
Qed.

(** Only the broadcasting task touches the server. *)
Lemma send_message_server (s s' : Tasks) (n : option nat) (m : Message) :
  send_message capacity s n m = Some s' -> stream_server s' = stream_server s.
Proof. unfold send_message. case_decide; [|done]. by intros [= <-]. Qed.

Lemma act_server (a : Processors.Action) (s s' : Tasks) :
  act mode capacity s a = Some s' -> a <> Broadcast -> stream_server s' = stream_server s.
Proof.
  destruct a as [n|n|n|n| |]; cbn [act]; try done; intros Ha _.
  - unfold forward in Ha. repeat (case_match || simplify_option_eq); done.
  - unfold take_event, lock_version in Ha. repeat (case_match || simplify_option_eq); done.
  - unfold announce_event in Ha. repeat (case_match || simplify_option_eq); done.
  - unfold send_event in Ha. apply bind_Some in Ha as (p & _ & Ha). destruct (phase p); try done.
    + by apply send_message_server in Ha.
    + destruct (outgoing _ _); [by simplify_eq|]. by apply send_message_server in Ha.
  - unfold end_processors in Ha. destruct (negb _ && _); [|done]. by apply send_message_server in Ha.
Qed.

Lemma handle_incoming_event (x : InboundData) latest (buffer : B) latest' buffer' e :
  handle_incoming_data (Some x) latest buffer = Ok (latest', buffer', SseMessage e) -> e = queue_event x.
Proof. destruct x as [[o d] f]. simpl. destruct d, latest; by intros [= _ _ <-]. Qed.

(** A step of the server or of its client hands on the head of the queue, or
    leaves the queue. *)
Lemma do_action_queue (a : EventStream.Action) (y y' : System B) :
  do_action slots a y = Some y' -> (forall d f, a <> EventStream.Announce d f) ->
  event_indexer (sys_server y') = event_indexer (sys_server y) /\
  sys_handled y' ++ (queue_event <$> sse_data_queue (sys_server y')) =
    sys_handled y ++ (queue_event <$> sse_data_queue (sys_server y)).
Proof.
  intros Ha Hne. destruct a as [d f| | | | |]; [by destruct (Hne d f)|..]; unfold do_action in Ha.
  - destruct (sse_data_queue (sys_server y)) as [|x q] eqn:Hq; [done|].
    destruct (handle_incoming_data _ _ _) as [[[l b] [e|]]|] eqn:Hh; [|done..]. injection Ha as <-.
    apply handle_incoming_event in Hh as ->. simpl. by rewrite <- app_assoc.
  - by repeat case_match; simplify_eq.
  - by repeat case_match; simplify_eq.
  - by repeat case_match; simplify_eq.
  - repeat case_match; try done. by apply bind_Some in Ha as ([item next] & _ & [= <-]).
Qed.

Lemma broadcast_queue (s1 s2 : EventStreamServer) (d : SseData) (f : option Filter) :
  event_indexer s1 = event_indexer s2 ->
  exists o, sse_data_queue (broadcast s1 d f) = sse_data_queue s1 ++ [(o, d, f)] /\
    sse_data_queue (broadcast s2 d f) = sse_data_queue s2 ++ [(o, d, f)] /\
    event_indexer (broadcast s1 d f) = event_indexer (broadcast s2 d f).
Proof. intros Hi. unfold broadcast. rewrite Hi. destruct d; simpl; eauto. Qed.

Lemma joint_act_in_step (a : JointAction) (s s' : Tasks) (y y' : System B) :
  joint_act a (s, y) = Some (s', y') -> in_step s y -> in_step s' y'.
Proof.
  unfold joint_act. cbn [fst snd]. intros Ha [He Hi]. destruct a as [a|a].
  - destruct (decide (a = Broadcast)) as [->|Hne].
    + destruct (channel s) as [|[d f] rest] eqn:Hc; try done. apply bind_Some in Ha as (s1 & Ha & [= <- <-]).
      unfold broadcast_message in Ha. rewrite Hc in Ha. injection Ha as <-.
      destruct (broadcast_queue (sys_server y) (stream_server s) d f Hi) as (o & Hq1 & Hq2 & Hi').
      split; simpl; [|done]. rewrite Hq1, Hq2, !fmap_app, app_assoc, He. done.
    + assert (act mode capacity s a = Some s' /\ y' = y) as [Hs ->].
      { destruct a; try done; by apply bind_Some in Ha as (s1 & Hs & [= <- <-]). }
      apply act_server in Hs; [|done]. by split; rewrite Hs.
  - assert (exists y1, do_action slots a y = Some y1 /\ s' = s /\ y' = y1 /\ forall d f, a <> EventStream.Announce d f)
      as (y1 & Hd & -> & -> & Hne).
    { destruct a; try done; by apply bind_Some in Ha as (y1 & Hy & [= <- <-]); eexists. }
    destruct (do_action_queue a y y1 Hd Hne) as [Hi1 He1]. split; [by rewrite He1|by rewrite Hi1].
Qed.

Lemma joint_run_in_step (actions : list JointAction) (s s' : Tasks) (y y' : System B) :
  joint_run actions (s, y) = Some (s', y') -> in_step s y -> in_step s' y'.
Proof.
  revert s y. induction actions as [|a actions IH]; intros s y; cbn [joint_run]; [by intros [= <- <-]|].
  intros ([s1 y1] & Ha & Hr)%bind_Some Hin. eapply IH; [done|]. by eapply joint_act_in_step.
Qed.

End Joint.

(** ** The first message *)

Section FirstMessage.
Context `{AutoIncrement} (mode : Mode) (capacity : nat).

(** A list of events starts with a version, as those of a connection do. *)
Definition opening (l : list Incoming) : Prop :=
  match l with [] => True | it :: _ => is_api_version (incoming_data it) = true end.

(** The events a processor has not taken yet, in their order. *)
Definition pending (p : Processor) : list Incoming :=
  if multi_threaded mode then queue p ++ inbound p else inbound p.

(** Before the first message: nobody has taken an event, but for one processor that
    holds the mutex with a version to send. *)
Definition silent_processor (held : bool) (p : Processor) : Prop :=
  match phase p with
  | Waiting => opening (pending p)
  | Locked _ _ => held = true
  | _ => False
  end.

Definition opened (s : Tasks) : Prop :=
  match sends s with
  | [] => Forall (silent_processor (mutex_held s)) (processors s) /\
          (mutex_held s = false -> shared_manager s = ApiVersionManager_new)
  | x :: _ => is_api_version x.2.1 = true \/ x.2 = (Shutdown, None)
  end.

Lemma send_message_sends (s s' : Tasks) (n : option nat) (m : Message) :
  send_message capacity s n m = Some s' -> sends s' = sends s ++ [(n, m)].
Proof. unfold send_message. case_decide; [|done]. by intros [= <-]. Qed.

Lemma act_sends_prefix (a : Processors.Action) (s s' : Tasks) :
  act mode capacity s a = Some s' -> sends s `prefix_of` sends s'.
Proof.
  intros Ha. destruct (decide (a = EndProcessors)) as [->|Hne].
  - cbn [act] in Ha. unfold end_processors in Ha. destruct (negb _ && _); [|done].
    apply send_message_sends in Ha as ->. by eexists.
  - destruct (act_sends mode capacity s s' a Ha Hne) as (_ & l & -> & _). by eexists.
Qed.

(** Before the first message. *)
Lemma silent_insert (s : Tasks) (n : nat) (p : Processor) (held : bool) :
  Forall (silent_processor (mutex_held s)) (processors s) -> (mutex_held s = true -> held = true) ->
  silent_processor held p -> Forall (silent_processor held) (<[n := p]> (processors s)).
Proof.
  intros Hs Hheld Hp. apply Forall_insert; [|done]. apply (Forall_impl _ _ _ Hs).
  intros p'. unfold silent_processor. by destruct (phase p').
Qed.

Lemma forward_silent (s s' : Tasks) (n : nat) :
  forward mode s n = Some s' -> Forall (silent_processor (mutex_held s)) (processors s) ->
  exists p, s' = set_processor s n p /\ silent_processor (mutex_held s) p.
Proof.
  intros (p & Hp & Ha)%bind_Some Hs. pose proof (Forall_lookup_1 _ _ _ _ Hs Hp) as Hsp.
  unfold silent_processor, pending in *. destruct (inbound p) as [|it rest] eqn:Hi; [done|].
  destruct (multi_threaded mode) eqn:Hm; [|done]. cbn [negb] in Ha. case_decide.
  - destruct (phase p) eqn:Hph; try done; destruct (_ <? _); try done; injection Ha as <-; eexists; (split; [reflexivity|]);
      cbn [phase queue inbound]; by rewrite <- ?app_assoc.
  - injection Ha as <-. eexists. split; [reflexivity|]. cbn [phase queue inbound]. destruct (phase p); try done.
    rewrite app_nil_r. by destruct (queue p).
Qed.

Lemma take_silent (s s' : Tasks) (n : nat) :
  take_event mode s n = Some s' -> Forall (silent_processor (mutex_held s)) (processors s) ->
  (mutex_held s = false -> shared_manager s = ApiVersionManager_new) ->
  mutex_held s' = true /\ sends s' = sends s /\ Forall (silent_processor true) (processors s').
Proof.
  intros (p & Hp & Ha)%bind_Some Hs Hm. pose proof (Forall_lookup_1 _ _ _ _ Hs Hp) as Hsp.
  unfold silent_processor in Hsp. destruct (phase p); try done. destruct (receiver mode p) as [|it l] eqn:Hr; [done|].
  assert (is_api_version (incoming_data it) = true) as Hv.
  { unfold receiver in Hr. unfold pending in Hsp. destruct (multi_threaded mode); rewrite Hr in Hsp; exact Hsp. }
  destruct (incoming_data it) as [v| | | | | | | |]; try done. unfold lock_version in Ha.
  destruct (mutex_held s) eqn:Hheld; [done|]. rewrite Hm in Ha by done. cbn [store_version ApiVersionManager_new newest_protocol_version] in Ha.
  injection Ha as <-. split_and!; [done..|]. apply (silent_insert s); [by rewrite Hheld|done|].
  unfold silent_processor, received. by destruct (multi_threaded mode).
Qed.

Lemma act_opened (a : Processors.Action) (s s' : Tasks) :
  act mode capacity s a = Some s' -> opened s -> opened s'.
Proof.
  intros Ha Ho. pose proof (act_sends_prefix a s s' Ha) as [l Hl]. unfold opened in *.
  destruct (sends s) as [|x xs] eqn:Hs; [|by rewrite Hl]. destruct Ho as [Hp Hm].
  destruct a as [n|n|n|n| |]; cbn [act] in Ha.
  - destruct (forward_silent s s' n Ha Hp) as (p & -> & Hsp). simpl. rewrite Hs.
    split; [by apply silent_insert|done].
  - destruct (take_silent s s' n Ha Hp Hm) as (Hh & -> & Hp'). rewrite Hs, Hh. done.
  - apply bind_Some in Ha as (p & Hl' & Ha). pose proof (Forall_lookup_1 _ _ _ _ Hp Hl') as Hsp.
    unfold silent_processor in Hsp. by destruct (phase p).
  - apply bind_Some in Ha as (p & Hl' & Ha). pose proof (Forall_lookup_1 _ _ _ _ Hp Hl') as Hsp.
    unfold silent_processor in Hsp. destruct (phase p); try done. apply send_message_sends in Ha as ->. simpl.
    rewrite Hs. by left.
  - unfold broadcast_message in Ha. destruct (channel s); [done|]. injection Ha as <-. simpl. by rewrite Hs.
  - unfold end_processors in Ha. destruct (negb _ && _); [|done]. apply send_message_sends in Ha as ->. simpl.
    rewrite Hs. by right.
Qed.

Lemma run_opened (actions : list Processors.Action) (s s' : Tasks) :
  Processors.run mode capacity s actions = Some s' -> opened s -> opened s'.
Proof.
  revert s. induction actions as [|a actions IH]; intros s; simpl; [by intros [= <-]|].
  intros (s1 & Ha & Hr)%bind_Some Ho. eapply IH; [done|]. by eapply act_opened.
Qed.

End FirstMessage.

(** ** What a client reads *)

Section Content.
Context (json_data : SseData -> result string Value) (legacy_json : LegacySseData -> result string Value).
Context (to_value_unwrap : SseData -> Value) (fmt disp : Key -> string).
Context (MINT_LANE_ID : Z) (mint : BlockBodyV2 -> list TransactionHash).

Local Abbreviation stream := (stream_to_client json_data legacy_json to_value_unwrap fmt disp MINT_LANE_ID mint).
Local Abbreviation form := (written json_data legacy_json to_value_unwrap fmt disp MINT_LANE_ID mint).

(** The JSON of an event on the stream. *)
Definition wire_value (d : SseData) : option Value :=
  match d with
  | Shutdown => Some (to_value_unwrap d)
  | _ => w_data (warp_json (json_data d))
  end.

(** The identifier and the JSON of an event, unless it is not shown. *)
Definition content_of (ev : ServerSentEvent) : option (string * option Value) :=
  i ← shown ev; d ← data ev; Some (pretty i, wire_value d).

(** The events with an identifier a client reads off its stream. *)
Definition item_content (w : WarpEvent) : option (string * option Value) := i ← w_id w; Some (i, w_data w).
Definition stream_content (l : list (result RecvError WarpEvent)) : list (string * option Value) :=
  omap item_content (response_body l).

Lemma written_content (ev : ServerSentEvent) :
  served_event ev -> form Endpoint_Events EVENTS_FILTER false ev ≫= item_content = content_of ev.
Proof.
  unfold served_event, written, filter_map_server_sent_event, should_skip_event, determine_id, should_send_shutdown,
    content_of, shown, own_shutdown, item_content.
  destruct ev as [[i|] d c f]; simpl.
  - intros [Hc (d' & Hd & Hv)]. simpl in *. subst. destruct d'; try done; simpl; by destruct f.
  - intros [[Hc (v & Hd)]|[Hd Hc]]; simpl in *; subst.
    + set (w := warp_json (json_data (ApiVersion v))). change ((i ← w_id w; Some (i, w_data w)) = None).
      subst w. by destruct (json_data _).
    + by destruct c.
Qed.

Lemma written_contents (l : list ServerSentEvent) :
  Forall served_event l ->
  omap item_content (omap (form Endpoint_Events EVENTS_FILTER false) l) = omap content_of (events l).
Proof.
  induction 1 as [|e l He _ IH]; [done|]. apply written_content in He. rewrite events_cons.
  assert (id e = None -> content_of e = None) as Hnone.
  { unfold content_of, shown. intros ->. by destruct (own_shutdown e). }
  unfold omap in *. cbn [list_omap]. destruct (id e) as [i|]; cbn [list_omap].
  - rewrite <- He. destruct (form _ _ _ e) as [w|]; simpl; [|exact IH]. destruct (item_content w); simpl; by rewrite IH.
  - rewrite Hnone in He by done. destruct (form _ _ _ e) as [w|]; simpl in *; [|exact IH].
    destruct (item_content w); [done|exact IH].
Qed.

(** The shutdown of the sidecar itself, which has no filter, is written to no stream. *)
Lemma own_shutdown_unwritten (ev : ServerSentEvent) ep filt legacy :
  own_shutdown ev = true -> form ep filt legacy ev = None.
Proof.
  unfold own_shutdown, written, filter_map_server_sent_event, should_send_shutdown.
  destruct (data ev) as [[]|] eqn:Hd, (EventBuffer.inbound_filter ev); try done. intros _.
  destruct (should_skip_event _ _ _); [done|]. by destruct (determine_id _ _).
Qed.

(** Only events with an identifier are written with one, which is theirs. *)
Lemma written_own_id (ev : ServerSentEvent) ep filt legacy w t :
  form ep filt legacy ev = Some w -> w_id w = Some t -> exists i, id ev = Some i /\ t = pretty i.
Proof.
  unfold written, filter_map_server_sent_event, event_to_warp_event, build_event_for_outbound, build_comment_event, determine_id.
  destruct (should_skip_event _ _ _); [done|]. destruct (data ev) as [d|]; [|by destruct (comment ev); intros [= <-]].
  intros Hw Ht. assert (forall j, w_id (warp_json j) = None) as Hj by by intros []. destruct (id ev) as [i|].
  - exists i. split; [done|]. destruct d; simpl in Hw; try done;
      repeat (case_match || simplify_option_eq); by simplify_eq/=.
  - exfalso. destruct d; simpl in Hw; try done. destruct legacy; simpl in Hw; injection Hw as <-; by rewrite Hj in Ht.
Qed.

End Content.

(** ** From the nodes to a client *)

Section Streamed.
Context {B : Type} `{WB : WheelBuf B Buffered} `{Urls, EventTexts, AutoIncrement} (encode : SseData -> string).
Context (json_data : SseData -> result string Value) (legacy_json : LegacySseData -> result string Value).
Context (to_value_unwrap : SseData -> Value) (fmt disp : Key -> string).
Context (MINT_LANE_ID : Z) (mint : BlockBodyV2 -> list TransactionHash).

Local Abbreviation stream := (stream_to_client json_data legacy_json to_value_unwrap fmt disp MINT_LANE_ID mint).

(** The entity an event is about. *)
Definition event_identity (ev : ServerSentEvent) : option Identity := data ev ≫= identity.

Lemma identities_events (q : list InboundData) :
  Forall (fun x : InboundData => is_Some (identity x.1.2) -> is_Some x.1.1) q ->
  omap event_identity (events (queue_event <$> q)) = omap (fun x : InboundData => identity x.1.2) q.
Proof.
  induction 1 as [|[[o d] f] q Hx _ IH]; [done|]. rewrite fmap_cons, events_cons. csimpl. simpl in Hx.
  unfold omap in *. destruct o as [i|]; cbn [list_omap].
  - unfold event_identity at 1. simpl. by rewrite IH.
  - destruct (identity d) eqn:Hd; [|exact IH]. by destruct Hx.
Qed.

(** What a listener hands on starts with a version. *)
Definition greeted (l : list SseEvent) : Prop :=
  match l with [] => True | e :: _ => is_api_version (sse_data e) = true end.

Lemma sessions_greeted ip port v network (l : list Session) events ids :
  greeted (sent events) -> greeted (sent (sessions ip port v network encode events ids l).1).
Proof.
  revert events ids. induction l as [|x l IH]; intros events ids Hg; [done|].
  cbn [sessions build_connections filters_from_version fmap list_fmap fst].
  match goal with |- context [do_start_handling ?m ?c None] => pose proof (handshake_first m c None) as Hh end.
  destruct (do_start_handling _ _ _) as [[error manager] registered]. apply IH.
  destruct Hh as [->|(v' & text & items & rest & _ & _ & -> & _)]; [done|].
  match goal with |- greeted (?l ++ _) => change l with (sent events) end. by destruct (sent events).
Qed.

Lemma items_opening (nodes : list Node) (items : list (list Incoming)) :
  (fun l : list Incoming => l.*2) <$> items = delivered encode <$> nodes -> Forall opening items.
Proof.
  intros Hi. apply Forall_lookup. intros k l Hl. apply (f_equal (.!! k)) in Hi. rewrite !list_lookup_fmap, Hl in Hi.
  destruct (nodes !! k) as [n|]; [|done]. injection Hi as Hi.
  pose proof (sessions_greeted (node_ip n) (node_port n) (node_version n) (node_network n) (node_sessions n)
    (mkChannel [] None) (mkChannel [] None) I) as Hg.
  fold (listened encode n) in Hg. fold (delivered encode n) in Hg. rewrite <- Hi in Hg. by destruct l.
Qed.

Lemma start_opened (mode : Mode) (db : Database) (server : EventStreamServer) (items : list (list Incoming)) :
  Forall opening items -> opened mode (start_tasks db server items).
Proof.
  intros Ho. split; [|done]. apply Forall_fmap. apply (Forall_impl _ _ _ Ho). intros l Hl.
  unfold compose, silent_processor, pending. simpl. by destruct (multi_threaded mode).
Qed.

(** So does the history of the event stream server, unless the sidecar shut down before
    any event. *)
Lemma first_versioned (mode : Mode) (s : Tasks) (hist : list ServerSentEvent) (q : list InboundData) (ev : ServerSentEvent) :
  opened mode s -> queued q ++ channel s = (sends s).*2 -> hist = queue_event <$> q ->
  Forall plain_event (events hist) -> head hist = Some ev -> own_shutdown ev = false -> versioned hist.
Proof.
  intros Ho Hq -> Hp Hhead Hown. destruct q as [|[[[i|] d] f] q]; [done| |done]. exfalso. injection Hhead as <-.
  rewrite fmap_cons, events_cons in Hp. apply Forall_cons in Hp as [[_ (d' & [= <-] & Hv)] _].
  unfold opened in Ho. destruct (sends s) as [|[o m] l]; [done|]. injection Hq as <- _. simpl in Ho, Hown.
  destruct Ho as [Ho|[= -> ->]]; [congruence|done].
Qed.

(** The whole system at its start, with a client that asks for the events from the
    [k]-th identifier on. *)
Definition joint_start (db : Database) (start buffer_length : Z) (legacy : bool) (k : nat)
    (items : list (list Incoming)) : Tasks * System B :=
  (start_tasks db (mkServer [] (mkIndexer start "sse_index")) items,
   initial_system start buffer_length (mkSubscriber (Some (wrap_u32 (start + Z.of_nat k))) legacy)).

(** All is handled: the events of the nodes, the channel but for the shutdown of the
    sidecar itself, and the queue of the event stream server. *)
Record quiescent (s : Tasks) (y : System B) : Prop := {
  qs_drained : drained s;
  qs_channel : channel s = [] \/ channel s = [(Shutdown, None)];
  qs_queue : sse_data_queue (sys_server y) = [];
}.

(** The client subscribed to the broadcast before it was registered, after something
    was handled, and when the events from the [k]-th on were still buffered. *)
Record subscribed_in_time (k : nat) (buffer_length : Z) (y : System B) (out : list ServerSentEvent) (rc : Receiver)
    : Prop := {
  in_initial : cl_initial (sys_client y) = Some out;
  in_receiver : cl_receiver (sys_client y) = Some rc;
  in_history : exists ev, head (take (cl_registered_at (sys_client y)) (sys_handled y)) = Some ev /\ own_shutdown ev = false;
  in_order : (k <= subscribed_events y <= registered_events y)%nat /\ (registered_events y <= k + Z.to_nat buffer_length)%nat;
}.

(** The content such a client reads. *)
Lemma client_content (slots : nat) (first buffer_length : Z) (legacy : bool) (k : nat) (y : System B)
    (out : list ServerSentEvent) (rc : Receiver) :
  in_buffer slots first buffer_length legacy k y out rc -> (subscribed_events y <= registered_events y)%nat ->
  stream_content (stream out (messages (rc_seen rc)) Endpoint_Events EVENTS_FILTER false) =
    omap (content_of json_data to_value_unwrap)
      (drop k (take (registered_events y `max` received_events y rc) (events (sys_handled y)))).
Proof.
  intros Hin Hmn. destruct (client_events_spec _ _ _ _ _ _ _ _ Hin) as (_ & Hev & Hserved).
  unfold stream_content. rewrite response_events, written_contents, Hev by done. f_equal. apply unbroken_part.
  - apply (ib_buffered _ _ _ _ _ _ _ _ Hin).
  - done.
  - apply (events_take (cl_registered_at (sys_client y))).
Qed.

(** C1. From the nodes to a client.  Take any number of nodes whose connections are lost
    and made again in any way, processors that interleave in any way on a database set
    up by the migrations, and the event stream server with a client among them, that
    subscribes in time; and the moment when everything is handled.  Then the history of
    the server holds every entity a node announced, up to the last identifier that was
    reported and understood, if it could be saved; it holds no entity twice and only
    entities that a node announced; its identifiers are consecutive modulo 2^32; and what
    the client of the full endpoint reads is an unbroken part of this history from the
    [k]-th event on, each event once, in order, with its identifier and its JSON, without
    the shutdown of the sidecar itself.  The part is the whole rest of the history if the
    client never lagged behind the bounded broadcast channel and has caught up; a client
    that lags is dropped, which happens only when more events than the channel has slots
    were handled after the last one it received.  It is assumed that a node still has the
    events it is asked to start from and announces fewer than 2^32, that its greeting can
    be read and no event is taken for another one when it is read, that events logged under the same key report the
    same entity, and that at most 2^32 are published. *)
Theorem announced_entities_streamed (e : Engine) (at_time : Z) (db : Database) (mode : Mode) (capacity slots : nat)
    (start buffer_length : Z) (legacy : bool) (k : nat) (nodes : list Node) (items : list (list Incoming))
    (actions : list JointAction) (s : Tasks) (y : System B) (out : list ServerSentEvent) (rc : Receiver) :
  apply_all_migrations e at_time ∅ = (Ok tt, db) -> Forall (node_ok encode) nodes ->
  (fun l : list Incoming => l.*2) <$> items = delivered encode <$> nodes -> consistent (concat items) ->
  mode <> NoDatabase -> is_u32 start -> 0 < buffer_length -> 3 * buffer_length <= 4294967296 ->
  joint_run mode capacity slots actions (joint_start db start buffer_length legacy k items) = Some (s, y) ->
  quiescent s y -> subscribed_in_time k buffer_length y out rc ->
  let E := events (sys_handled y) in
  let content := stream_content (stream out (messages (rc_seen rc)) Endpoint_Events EVENTS_FILTER false) in
  Z.of_nat (length E) <= 4294967296 ->
  (forall n j j' d i, n ∈ nodes -> reported encode n j' -> (j <= j')%nat -> announced n !! j = Some d -> identity d = Some i ->
     (forall it, it ∈ concat items -> identity (incoming_data it) = Some i -> can_save it = true) ->
     i ∈ omap event_identity E) /\
  NoDup (omap event_identity E) /\
  (forall ev d, ev ∈ E -> data ev = Some d -> is_Some (identity d) -> exists n, n ∈ nodes /\ d ∈ announced n) /\
  id <$> E = Some <$> ids_from start (length E) /\
  content = omap (content_of json_data to_value_unwrap) (drop k (take (registered_events y `max` received_events y rc) E)) /\
  (lagged (rc_seen rc) = true ->
   (cl_subscribed_at (sys_client y) + length (before_lag (rc_seen rc)) + slots < length (sys_handled y))%nat) /\
  (lagged (rc_seen rc) = false -> rc_next rc = length (sys_handled y) ->
   content = omap (content_of json_data to_value_unwrap) (drop k E)).
Proof.
  intros Hmig Hok Hitems Hk Hmode Hu Hb H3 Hrun [Hd Hch Hq] [Hout Hr (ev0 & Hhead & Hown) [Hkm Hkn]] E content Hlen.
  destruct (joint_run_sides mode capacity slots actions _ s _ y Hrun) as [[acts Hacts] Hreach].
  destruct (joint_run_in_step mode capacity slots actions _ s _ y Hrun) as [Hev _]; [constructor; reflexivity|]. clear Hrun.
  destruct (published encode e at_time db mode capacity start "sse_index" nodes items acts s Hmig Hok Hitems Hk Hmode Hu
    Hacts Hd Hch) as (Hpub & Hfrom & Hnd & _ & Hsends). clear Hmig.
  apply run_opened in Hacts; [|by apply start_opened, (items_opening nodes)].
  rewrite Hq, app_nil_r in Hev. set (q := sse_data_queue (stream_server s)) in *.
  pose proof (reachable_inv _ _ _ _ _ Hu Hb Hreach) as [_ _ _ _ _ _ _ Hplain Hversions _ _ _].
  assert (versioned (take (cl_registered_at (sys_client y)) (sys_handled y))) as Hver.
  { pose proof (first_versioned mode s (sys_handled y) q ev0 Hacts Hsends Hev Hplain) as Hv.
    destruct (sys_handled y), (cl_registered_at (sys_client y)); try done. by apply Hv. }
  assert (in_buffer slots start buffer_length legacy k y out rc) as Hin by (split; done || lia).
  destruct (client_events_spec _ _ _ _ _ _ _ _ Hin) as (Hids & _ & _).
  destruct (received_position slots start buffer_length _ y rc Hu Hb Hreach Hr) as (_ & Hlag & Hall).
  pose proof (client_content _ _ _ _ _ _ _ _ Hin (proj2 Hkm)) as Hcontent. fold content E in Hcontent.
  assert (omap event_identity E = omap (fun x : InboundData => identity x.1.2) q) as HE.
  { unfold E. rewrite Hev in Hversions |- *. apply identities_events. apply Forall_fmap in Hversions.
    apply (Forall_impl _ _ _ Hversions). intros [[[i|] d] f]; simpl; [by eexists|]. intros Hv [i Hi].
    destruct (Hv eq_refl) as (_ & v & [= ->]). done. }
  split_and!; [| | |done|done|done|].
  - intros n j j' d i Hn Hrep Hj Ha Hi Hsave. destruct (Hpub n j j' d i Hn Hrep Hj Ha Hi Hsave) as (o & d' & f & Hx & Hi').
    rewrite HE. apply list_elem_of_omap. by exists (Some o, d', f).
  - by rewrite HE.
  - intros ev d [_ Hin']%list_elem_of_filter Hdata Hi. rewrite Hev in Hin'.
    apply list_elem_of_fmap in Hin' as ([[o d'] f] & -> & Hx). injection Hdata as ->. by eapply Hfrom.
  - intros Hl Hn. rewrite Hcontent, Hall by done. fold E. do 2 f_equal. apply take_ge. lia.
Qed.

End Streamed.

(** ** The shutdown of the sidecar *)

Section Unseen.
Context {B : Type} `{WB : WheelBuf B Buffered} `{AutoIncrement} (mode : Mode) (capacity slots : nat).

(** Events under consecutive identifiers, fewer than 2^32, are told apart by them. *)
Lemma distinct_ids (first : Z) (E : list ServerSentEvent) (e e' : ServerSentEvent) (i : Z) :
  map id E = Some <$> ids_from first (length E) -> Z.of_nat (length E) <= 4294967296 ->
  e ∈ E -> e' ∈ E -> id e = Some i -> id e' = Some i -> e = e'.
Proof.
  intros Hids Hlen He He' Hi Hi'. apply list_elem_of_lookup in He as [j Hj], He' as [j' Hj'].
  pose proof (NoDup_ids_from first (length E) Hlen) as Hnd.
  assert (forall k x, E !! k = Some x -> id x = Some i -> ids_from first (length E) !! k = Some i) as Hat.
  { intros k x Hk Hx. apply (f_equal (.!! k)) in Hids. change (map id E) with (id <$> E) in Hids.
    rewrite !list_lookup_fmap, Hk in Hids. simpl in Hids. rewrite Hx in Hids.
    by destruct (ids_from first (length E) !! k) as [z|]; simplify_eq/=. }
  assert (j = j') as -> by (eapply NoDup_lookup; [exact Hnd|by eapply Hat|by eapply Hat]). congruence.
Qed.

(** Only the end of all processors sends a message that is of no node. *)
Lemma run_own_sends (actions : list Processors.Action) (s s' : Tasks) :
  Processors.run mode capacity s actions = Some s' ->
  Forall (fun x => x.1 = None -> x.2 = (Shutdown, None)) (sends s) ->
  Forall (fun x => x.1 = None -> x.2 = (Shutdown, None)) (sends s').
Proof.
  revert s. induction actions as [|a actions IH]; intros s; simpl; [by intros [= <-]|].
  intros (s1 & Ha & Hr)%bind_Some Hs. eapply IH; [done|]. destruct (decide (a = EndProcessors)) as [->|Hne].
  - cbn [act] in Ha. unfold end_processors in Ha. destruct (negb _ && _); [|done].
    apply send_message_sends in Ha as ->. apply Forall_app. by split; [|repeat constructor].
  - destruct (act_sends mode capacity s s1 a Ha Hne) as (_ & l & -> & Hl). apply Forall_app. split; [done|].
    apply (Forall_impl _ _ _ Hl). intros [o msg] [n Hn] Ho. simpl in *. congruence.
Qed.

Context (json_data : SseData -> result string Value) (legacy_json : LegacySseData -> result string Value).
Context (to_value_unwrap : SseData -> Value) (fmt disp : Key -> string).
Context (MINT_LANE_ID : Z) (mint : BlockBodyV2 -> list TransactionHash).

Local Abbreviation stream := (stream_to_client json_data legacy_json to_value_unwrap fmt disp MINT_LANE_ID mint).

(** C34. The shutdown of the sidecar itself reaches no client.  In every interleaving of
    the processors, the event stream server and a client that asks for anything, the
    message that is sent when the processors of all nodes have ended gets an identifier of
    its own when the server handles it; but on no endpoint does the client ever read an
    item under this identifier, whether the event is replayed to it from the buffer or
    received from the broadcast, and whatever is handled before or after it.  It is
    assumed that at most 2^32 events are published. *)
Theorem sidecar_shutdown_unseen (db : Database) (start buffer_length : Z) (info : NewSubscriberInfo)
    (items : list (list Incoming)) (actions : list JointAction) (s : Tasks) (y : System B)
    (out : list ServerSentEvent) (rc : Receiver) (m : Message) :
  is_u32 start -> 0 < buffer_length ->
  joint_run mode capacity slots actions
    (start_tasks db (mkServer [] (mkIndexer start "sse_index")) items, initial_system start buffer_length info) = Some (s, y) ->
  cl_initial (sys_client y) = Some out -> cl_receiver (sys_client y) = Some rc ->
  Z.of_nat (length (events (sys_handled y))) <= 4294967296 ->
  (None, m) ∈ sends s ->
  m.1 = Shutdown /\
  forall ev, ev ∈ sys_handled y -> data ev = Some m.1 -> EventBuffer.inbound_filter ev = m.2 ->
    exists i, id ev = Some i /\
    forall ep filt legacy w, w ∈ response_body (stream out (messages (rc_seen rc)) ep filt legacy) -> w_id w <> Some (pretty i).
Proof.
  intros Hu Hb Hrun Hout Hrc Hlen Hm. destruct (joint_run_sides mode capacity slots actions _ s _ y Hrun) as [[acts Hacts] Hreach].
  apply run_own_sends in Hacts; [|constructor]. rewrite Forall_forall in Hacts. specialize (Hacts _ Hm eq_refl).
  simpl in Hacts. subst m. split; [done|]. cbn [fst snd]. clear Hrun. intros ev Hev Hdata Hfilter.
  pose proof (reachable_inv _ _ _ _ _ Hu Hb Hreach) as [_ _ _ _ _ _ Hids _ Hv _ _ _].
  destruct (id ev) as [i|] eqn:Hi.
  2: { rewrite Forall_forall in Hv. destruct (Hv ev Hev Hi) as (_ & v & Hd). congruence. }
  exists i. split; [done|]. intros ep filt legacy w Hw Hid. rewrite response_events in Hw.
  apply list_elem_of_omap in Hw as (e & He & Hwe).
  destruct (written_own_id _ _ _ _ _ _ _ _ _ _ _ _ _ Hwe Hid) as (i' & Hi' & <-%(inj pretty)).
  pose proof (client_event_handled slots start buffer_length info y out rc e Hu Hb Hreach Hout Hrc He (mk_is_Some _ _ Hi')) as Hin.
  assert (e = ev) as ->.
  { eapply (distinct_ids start); [done|done|exact Hin| |by rewrite Hi'|done].
    apply list_elem_of_filter. split; [by exists i|done]. }
  rewrite own_shutdown_unwritten in Hwe; [done|]. unfold own_shutdown. by rewrite Hdata, Hfilter.
Qed.

End Unseen.

(** ** An example *)

Module SamplePublication.
Import SampleNodes SamplePipeline.
#[local] Existing Instance SampleNodes.counting.

(** The two nodes of [SamplePipeline]; the client subscribes after the version was
    handled and is registered after the first event.  When the nodes are gone the sidecar
    announces its shutdown. *)
Definition joint_actions : list JointAction :=
  (OfTasks <$> [TakeEvent 0; SendEvent 0; Broadcast]) ++ (OfServer <$> [HandleData; SendInfo; Subscribe]) ++
  (OfTasks <$> [TakeEvent 1; TakeEvent 1; TakeEvent 0; Announce 0; SendEvent 0; Broadcast]) ++
  (OfServer <$> [HandleData; Register]) ++
  (OfTasks <$> [TakeEvent 0; TakeEvent 0; Announce 1; Announce 0; SendEvent 0; SendEvent 1; TakeEvent 0; Announce 0;
                SendEvent 0; EndProcessors; Broadcast; Broadcast]) ++
  (OfServer <$> [HandleData; Receive; Receive; HandleData; Receive]).

Definition joint_sample : Tasks * System (nat * list Buffered) := joint_start store 7 10 false 0 items.

Definition version_event : ServerSentEvent := EventBuffer.mkEvent None (Some (ApiVersion version)) None (Some Filter_Events).
Definition step_event : ServerSentEvent := EventBuffer.mkEvent (Some 7) (Some a_step) None (Some Filter_Events).
Definition fault_event : ServerSentEvent := EventBuffer.mkEvent (Some 8) (Some a_fault) None (Some Filter_Events).
Definition shutdown_event : ServerSentEvent := EventBuffer.mkEvent (Some 9) (Some Shutdown) None None.

Definition joint_initial : list ServerSentEvent := [initial_event version; step_event].
Definition joint_receiver : Receiver := mkReceiver 4 (Ok <$> [step_event; fault_event; shutdown_event]).

Lemma joint_observed :
  (fun st => (forallb idle (processors st.1), channel st.1, sse_data_queue (sys_server st.2), sys_handled st.2,
              (cl_initial (sys_client st.2), cl_receiver (sys_client st.2)),
              (cl_subscribed_at (sys_client st.2), cl_registered_at (sys_client st.2)), last (sends st.1)))
    <$> joint_run OnSqlite 10 12 joint_actions joint_sample =
  Some (true, [], [], [version_event; step_event; fault_event; shutdown_event],
        (Some joint_initial, Some joint_receiver), (1, 2)%nat, Some (None, (Shutdown, None))).
Proof. vm_compute. reflexivity. Qed.

Lemma joint_final :
  exists s y, joint_run OnSqlite 10 12 joint_actions joint_sample = Some (s, y) /\ quiescent s y /\
    subscribed_in_time 0 10 y joint_initial joint_receiver /\
    sys_handled y = [version_event; step_event; fault_event; shutdown_event] /\ (None, (Shutdown, None)) ∈ sends s.
Proof.
  pose proof joint_observed as ([s y] & Hrun & Hs)%fmap_Some. exists s, y. split; [exact Hrun|]. clear Hrun.
  cbn [fst snd] in Hs. injection Hs as Hi Hc Hq Hh Hini Hrec Hsub Hreg Hlast. split_and!.
  - split; [by apply idle_drained|by left|done].
  - split; [done..| |]; unfold subscribed_events, registered_events; rewrite <- Hreg, <- ?Hsub, <- Hh;
      [by eexists|vm_compute; lia].
  - done.
  - by apply last_Some_elem_of.
Qed.

(** The client reads the step and the fault, once each. *)
Lemma announced_entities_streamed_witness :
  exists s y, joint_run OnSqlite 10 12 joint_actions joint_sample = Some (s, y) /\
    FaultOf 5 "key" ∈ omap event_identity (events (sys_handled y)) /\
    stream_content (stream_to_client (fun d => Ok (VString (encode d))) (fun _ => Ok VNull) (fun _ => VNull)
      (fun k => k) (fun k => k) 0 (fun _ => []) joint_initial (messages (rc_seen joint_receiver))
      Endpoint_Events EVENTS_FILTER false) =
    [("7", Some (VString "Step")); ("8", Some (VString "Fault"))].
Proof.
  destruct joint_final as (s & y & Hrun & Hqs & Hsub & Hh & _). exists s, y. split; [exact Hrun|].
  destruct (announced_entities_streamed encode (fun d => Ok (VString (encode d))) (fun _ => Ok VNull) (fun _ => VNull)
    (fun k => k) (fun k => k) 0 (fun _ => []) Sqlite 1000 store OnSqlite 10 12 7 10 false 0 nodes items joint_actions s y
    joint_initial joint_receiver) as (Hpub & _ & _ & _ & _ & _ & Hstream).
  - reflexivity.
  - apply nodes_ok.
  - vm_compute. reflexivity.
  - apply pipeline_consistent.
  - discriminate.
  - unfold is_u32, U32_MAX. lia.
  - lia.
  - lia.
  - exact Hrun.
  - exact Hqs.
  - exact Hsub.
  - rewrite Hh. vm_compute. discriminate.
  - split.
    + refine (Hpub node_a 1%nat 1%nat a_fault (FaultOf 5 "key") _ fault_reported _ _ _ _).
      * left.
      * lia.
      * reflexivity.
      * reflexivity.
      * intros it Hit _. by apply all_saved.
    + rewrite Hh in Hstream. refine (eq_trans (Hstream _ _) _); vm_compute; reflexivity.
Defined.

(** The client received the shutdown, but reads nothing under its identifier. *)
Lemma sidecar_shutdown_unseen_witness :
  exists s y, joint_run OnSqlite 10 12 joint_actions joint_sample = Some (s, y) /\ shutdown_event ∈ sys_handled y /\
    forall w, w ∈ response_body (stream_to_client (fun d => Ok (VString (encode d))) (fun _ => Ok VNull) (fun _ => VNull)
      (fun k => k) (fun k => k) 0 (fun _ => []) joint_initial (messages (rc_seen joint_receiver))
      Endpoint_Events EVENTS_FILTER false) -> w_id w <> Some "9".
Proof.
  destruct joint_final as (s & y & Hrun & _ & [Hout Hrc _ _] & Hh & Hsent). exists s, y. split; [exact Hrun|].
  assert (shutdown_event ∈ sys_handled y) as Hin by (rewrite Hh; do 3 right; left). split; [exact Hin|].
  destruct (sidecar_shutdown_unseen OnSqlite 10 12 (fun d => Ok (VString (encode d))) (fun _ => Ok VNull) (fun _ => VNull)
    (fun k => k) (fun k => k) 0 (fun _ => []) store 7 10 (mkSubscriber (Some 7) false) items joint_actions s y
    joint_initial joint_receiver (Shutdown, None)) as (_ & Hunseen).
  - unfold is_u32, U32_MAX. lia.
  - lia.
  - exact Hrun.
  - exact Hout.
  - exact Hrc.
  - rewrite Hh. vm_compute. discriminate.
  - exact Hsent.
  - destruct (Hunseen shutdown_event Hin eq_refl eq_refl) as (i & [= <-] & Hno).
    exact (Hno Endpoint_Events EVENTS_FILTER false).
Defined.

End SamplePublication.
