(* ===== verification/Freshness.v ===== *)
(** * From the events to the block cache

    The block cache of the RPC servers ([CachingClient.v]) is fed by the bus on which
    the event processors ([Processors.v]) announce the blocks they saved.  A reader of
    the cache is not behind the events that were handled. *)

From S2P Require Import Prelude SseData EventStream NodeErrors CachingClient Sql Storage Migrations.
From S2P Require Import EventHandling Sidecar Processors.

(** [rpc_sidecar/src/caching_node_client.rs:71-73], [cache_update_loop]: what the
    loop takes from an event of the bus. *)
Definition received_as (ev : SidecarEvent) : Received :=
  match ev with SidecarBlockAdded _ height => CachingClient.BlockAdded height end.

Section Announced.
Context `{AutoIncrement}.

(** When all events are handled, the bus has the blocks that were passed on. *)
Lemma bus_reference (e : Engine) (at_time : Z) (db : Database) (mode : Mode) (capacity : nat)
    (server : EventStreamServer) (nodes : list (list Incoming)) (actions : list Action) (s : Tasks) :
  apply_all_migrations e at_time ∅ = (Ok tt, db) -> consistent (concat nodes) -> mode <> NoDatabase ->
  run mode capacity (start_tasks db server nodes) actions = Some s -> drained s ->
  bus s ≡ₚ omap block_notification (event_sends s).*1.
Proof.
  intros Hmig Hk Hmode Hrun Hd.
  destruct (linear_reference e at_time db mode capacity server nodes actions s Hmig Hk Hmode Hrun)
    as (w & Ht & Hl & _ & _ & Hr & Hn). clear Hmig Hrun.
  destruct (drained_owed s Hd) as [Ho Hdue]. destruct (lin_bus _ _ _ s w Hl) as (b & Hb & Hbp).
  rewrite Hdue, app_nil_r in Hbp. rewrite <- Hbp. rewrite Hb in Hn. injection Hn as ->.
  rewrite <- Hr, <- notifications_reports. pose proof (lin_sent _ _ _ s w Hl) as Hsent.
  rewrite Ho, app_nil_r in Hsent. change (fst <$> ?l) with l.*1. by rewrite Hsent.
Qed.

(** C29. The block cache keeps up with the events.  On a database set up by the
    migrations, however the processors interleave, once all events are handled and the
    loop of the cache has received what is on the bus, in any order, late or repeated,
    and with other announcements: for every block some event of which could be saved
    there is a message from which on, as long as the cache is not emptied (by a lag, or
    a failed or an empty answer of the node), the latest block is served from the cache
    without a request and is at least that high.  It is assumed that events logged under
    the same key report the same entity, and that the node answers a request for a
    height, if with a block, with the block of that height. *)
Theorem cached_block_fresh {B} `{HasHeight B} (e : Engine) (at_time : Z) (db : Database) (mode : Mode) (capacity : nat)
    (server : EventStreamServer) (nodes : list (list Incoming)) (actions : list Action) (s : Tasks)
    (msgs : list (Received * (option BlockIdentifier -> result ClientError (option B)))) :
  apply_all_migrations e at_time ∅ = (Ok tt, db) -> consistent (concat nodes) -> mode <> NoDatabase ->
  run mode capacity (start_tasks db server nodes) actions = Some s -> drained s ->
  (forall ev, ev ∈ bus s -> received_as ev ∈ msgs.*1) -> Forall (fun m => answers_by_height m.2) msgs ->
  forall it hash block, it ∈ concat nodes -> incoming_data it = SseData.BlockAdded hash block -> can_save it = true ->
  exists i, is_Some (msgs !! i) /\ forall j c read,
    (i <= j)%nat -> cache_update_loop CachingNodeClient_new msgs !! j = Some c ->
    (forall k c', (i <= k <= j)%nat -> cache_update_loop CachingNodeClient_new msgs !! k = Some c' -> CachingClient.holds c') ->
    exists b, read_block_with_signatures true c read None = (Ok (Some b), false) /\
      SseData.block_height block <= CachingClient.block_height b.
Proof.
  intros Hmig Hk Hmode Hrun Hd Hbus Hread it hash block Hit Hdata Hsave.
  pose proof (bus_reference e at_time db mode capacity server nodes actions s Hmig Hk Hmode Hrun Hd) as Hb.
  destruct (sent_reference e at_time db mode capacity server nodes actions s Hmig Hk Hmode Hrun) as (_ & _ & _ & Hin & _).
  clear Hmig Hrun.
  assert (BlockAt (SseData.block_height block) ∈ omap identity (event_sends s).*1) as Hi.
  { apply (Hin Hd). exists it. by rewrite Hdata. }
  apply list_elem_of_omap in Hi as (d & Hd' & Hid). destruct d as [|hash' block'| | | | | | |]; try done. injection Hid as Hh.
  assert (SidecarBlockAdded hash' (SseData.block_height block') ∈ bus s) as Hev.
  { rewrite Hb. apply list_elem_of_omap. by exists (SseData.BlockAdded hash' block'). }
  apply Hbus, list_elem_of_fmap in Hev as ([msg read0] & Hmsg & [i Hi]%list_elem_of_lookup). simpl in Hmsg. subst msg.
  exists i. split; [by eexists|]. intros j c read Hij Hj Hholds.
  pose proof (cache_update_loop_reaches _ _ _ _ _ _ _ Hread Hi Hij Hj Hholds) as Hknown.
  unfold known_at in Hknown. unfold read_block_with_signatures, get_block_from_cache.
  destruct (block_with_signatures_cache c) as [b|]; [|done]. exists b. split; [done|].
  rewrite <- Hh. by apply Z.leb_le.
Qed.

End Announced.

(** ** An example *)

Module SampleFreshness.
Import SampleNodes.

Definition block : Block :=
  Block_V2 (mkBlockV2 "hash" (mkHeaderV2 "parent" "root" "body" false "seed" None 10 5 7 (mkVersion 2 0 0) "proposer")
    (mkBodyV2 [])).

(** A node reports a version and a block of height 7. *)
Definition nodes : list (list Incoming) :=
  [[(env None, reported "a" 0 (ApiVersion (mkVersion 2 0 0))); (env None, reported "a" 1 (SseData.BlockAdded "hash" block))]].

Definition server : EventStreamServer := mkServer [] (EventIndexer.mkIndexer 0 "sse_index").

Definition actions : list Action := [TakeEvent 0; SendEvent 0; TakeEvent 0; Announce 0; SendEvent 0].

Lemma block_announced :
  exists s, run OnPostgreSql 10 (start_tasks store server nodes) (Forward 0 :: Forward 0 :: actions) = Some s /\
    drained s /\ bus s = [SidecarBlockAdded "hash" 7].
Proof.
  assert ((fun s => (bus s, processors s)) <$>
    run OnPostgreSql 10 (start_tasks store server nodes) (Forward 0 :: Forward 0 :: actions) =
    Some ([SidecarBlockAdded "hash" 7], [mkProcessor [] [] Waiting])) as (s & Hrun & Hs)%fmap_Some
    by (vm_compute; reflexivity).
  injection Hs as Hb Hp. exists s. split; [exact Hrun|]. clear Hrun. split; [|exact (eq_sym Hb)].
  unfold drained. rewrite <- Hp. by repeat constructor.
Qed.

Lemma nodes_agree : consistent (concat nodes).
Proof.
  intros it it' Hit Hit'. unfold nodes in *. simpl in *.
  repeat (apply elem_of_cons in Hit as [->|Hit]); [..|by apply not_elem_of_nil in Hit];
    repeat (apply elem_of_cons in Hit' as [->|Hit']); try (by apply not_elem_of_nil in Hit'); by intros [? ?].
Qed.

Lemma cached_block_fresh_witness :
  exists b, read_block_with_signatures true (mkCaching (Some 7)) sample_read None = (Ok (Some b), false) /\ 7 <= b.
Proof.
  destruct block_announced as (s & Hrun & Hd & Hb).
  destruct (cached_block_fresh (H0 := sample_height) Sqlite 1000 store OnPostgreSql 10 server nodes
    (Forward 0 :: Forward 0 :: actions) s [(CachingClient.BlockAdded 7, sample_read)]) with
    (it := (env None, reported "a" 1 (SseData.BlockAdded "hash" block))) (hash := "hash") (block := block)
    as (i & [m Hm] & Hfresh).
  - reflexivity.
  - apply nodes_agree.
  - discriminate.
  - exact Hrun.
  - exact Hd.
  - intros ev Hev. rewrite Hb in Hev. apply list_elem_of_singleton in Hev as ->. left.
  - apply Forall_singleton. intros h b [= <-]. reflexivity.
  - right. left.
  - reflexivity.
  - reflexivity.
  - clear Hrun. assert (i = 0%nat) as -> by (apply lookup_lt_Some in Hm; simpl in Hm; lia).
    apply (Hfresh 0%nat (mkCaching (Some 7)) sample_read).
    + lia.
    + reflexivity.
    + intros k c' Hk Hc'. replace k with 0%nat in Hc' by lia. injection Hc' as <-. by eexists.
Defined.

End SampleFreshness.
